(* ===== verification/_CoqProject ===== *)
-Q . S2P
Prelude.v
Pic.v
Idt.v
Timer.v
Keyboard.v
Console.v
Screen.v
Login.v
Ata.v
Vfs.v
Fat32.v
Gdt.v
Syscalls.v
Stubs.v
Shell.v
Pmm.v
Paging.v
Elf.v
Heap.v
Storage.v
Userland.v
Boot.v
Process.v
Kernel.v
Startup.v
Kmain.v
Interrupts.v
Entry.v
