(* ===== verification/Prelude.v ===== *)
(** * FlowOS: a verification development of the kernel sources

    FlowOS is a small 32-bit x86 kernel.  [kmain] (src/src/kernel.c) brings up the segments,
    the interrupt table, the page-frame allocator, paging, the kernel heap, the disk, the
    FAT32 volume, the timer, the keyboard, the scheduler and the system calls, asks for a
    login and starts the shell from the disk.  This library models its C functions one by one
    as computations of the monad [M] below and proves what makes them correct.

    ** Files, components and sources

    - Prelude.v: machine integers, the monad [M] with its total-correctness predicate [wp],
      loops, C arrays, tactics and hint databases; shared by everything else.
    - Pic.v (pic.c, pic.h, types.h): port accesses and the two interrupt controllers.  The
      hardware is the class [Device]; [PicDevice] states what an 8259A does.
    - Idt.v (idt.c): gates, the handler table, exception and interrupt dispatch.
    - Timer.v (timer.c), Keyboard.v (keyboard.c): the tick counter and the time slice
      ([timer_tick] is the interrupt up to its decision to yield), and the ring buffer, whose
      reader and interrupt Keyboard.v runs statement by statement.
    - Console.v, Login.v (kernel.c): screen, serial line ([UartDevice] is the UART), log,
      loading bar; the line editor and the login dialogue.  Login.v reaches the keyboard and
      the timer through the class [Input], whose laws [InputOk] keyboard.c and timer.c
      discharge ([inputs_ok]).
    - Screen.v: the operations of Console.v in any sequence.
    - Ata.v (ata.c): the PIO disk driver against [AtaDevice], an automaton of an ATA disk.
    - Vfs.v (vfs.c), Fat32.v (fat32.c): the file-system switch, cluster chains, directories and
      mounting; heap, disk and log are the class [FatEnv] with its laws [FatEnvOk].
    - Gdt.v (gdt.c): descriptors and the task state, as the processor decodes them.
    - Syscalls.v (syscalls.c): interrupt 0x80.
    - Stubs.v (isr.asm): the interrupt stubs as lists of instructions over the registers and
      the stack, with what the processor does at delivery and at [iret].
    - Shell.v (userspace/shell.c, test.c): the shell over the bytes of its address space, on
      the system calls of Syscalls.v; [Terminal] states that the serial port and the keyboard
      of one machine do not disturb each other.  The loader behind the exec call is any
      function that refuses, returns from, or enters a program; Elf.v has the theorems of the
      one in the kernel, which returns -1 or enters.
    - Pmm.v (pmm.c): the bitmap of page frames.
    - Paging.v (paging.c): page tables, translation cache, page faults, on top of Pmm.v.
    - Elf.v (elf.c, [enter_usermode] of switch.asm): the program loader, on the file system of
      Fat32.v; the memory operations are [MemEnv], their laws [LoaderOk].
    - Heap.v (heap.c): the block list; its pages come from the class [PageProvider], which
      Pmm.v and Paging.v implement ([vm_page_provider_ok]).
    - Storage.v: the laws [FatEnvOk] of Fat32.v implemented by heap, disk driver and console on
      one machine; [Board] states that its serial port and its disk do not disturb each other.
    - Userland.v: the laws [LoaderOk] of Elf.v implemented by the allocator and the page tables
      of the same machine ([machine_loader]); [peek] is what the processor reads at a virtual
      address.
    - Boot.v (kernel.c, [kmain] up to the heap): the phases of the start on one state.
    - Process.v (process.c): processes and the ready queue, against [KernelServices], and
      [context_switch] of switch.asm one statement per instruction.
    - Kernel.v: the services of Process.v implemented by heap, paging and timer, and the timer
      interrupt that preempts ([timer_callback]).
    - Startup.v (kernel.c, [kmain] from the disk to the shell): the other phases of the start
      on the machine of Userland.v with the tables of Idt.v, the timer and the processes;
      [Pc] states that the devices of a PC do not disturb each other.
    - Kmain.v (kernel.c, [kmain]): both halves on the variables of the whole kernel.
    - Interrupts.v: vectors through the gates of Idt.v and the stubs of Stubs.v to the handlers
      which the running kernel has registered ([raise]), and ticks and key presses from outside
      ([arrivals]); [Keyed] states what a keyboard and the controllers do for one.
    - Entry.v (boot.asm, switch.asm): [_start], [enter_usermode] and [switch_to_user_mode] one
      statement per instruction, on the processor of Stubs.v.

    A static variable of a C file is a field of that file's record, an operation is a
    definition with the name of the C function, and a loop that is not a [for_] is a
    [Fixpoint] named in the manifest with the lines it translates.  Undefined behaviour
    (a null pointer, an index outside an array, an uninitialised field) is the result [Undef],
    a machine that stops is [Halt].

    ** What the theorems show

    - Memory: first-fit allocation of frames and its accounting, initialisation from the boot
      loader's map; page tables that agree with the translation cache after every sequence of
      operations, one page changed per mapping, demand paging; the heap as a refinement of
      first fit with splitting and coalescing over a tiling of the heap.
    - Processes: the queue invariant in every reachable state, round robin, every ready
      process runs after the processes before it, two switches in a row that give a process
      its registers back, a sleeper that becomes ready at the first pass over the table from
      its deadline on, waiting for ticks, and preemption by the timer.
    - Interrupts and devices: the gates and handlers after initialisation; any sequence of ticks
      and key presses leaves the interrupted program undisturbed and is counted and buffered in
      order; a page fault is repaired and its instruction retried; any other exception, the two
      with the wrong stub included, ends in the crash screen; the keyboard under every interleaving with its interrupts; the segments
      as decoded.
    - Storage: what is written to the disk is read back, failures are reported; reading a
      file gives the bytes of its clusters; names are looked up and listed; mounting, lookup
      and reading run on the heap, the disk and the console together.
    - Start: what [kmain] has established when memory, paging and the heap are in place; for the
      whole of it ([start_boots]), that from the jump of the boot loader it ends in the first
      instruction of the shell in user mode; what happens without a shell on the disk, and
      without a volume.
    - Assembly: a system call through its stub gives its result in [eax] and changes no other
      register; [enter_usermode] leaves the processor as the loader says.
    - Programs: a program file is read from the disk through the ports into the pages of the
      address space in use, byte by byte, with its permissions, and entered in user mode; what
      is not a program is refused without effect; system calls; a session of
      the shell answers what is typed as its abstract dialogue says.
    - User interface: the screen, which every sequence of operations leaves well typed, the
      log, the line editor and the login dialogue.

    ** Bounds and fuel

    Loops that wait for a device take a number of polls, and the theorems ask for more polls
    than the device's documented delay ([uart_delay], [disk_delay]).  Loops along a cluster
    chain take as fuel a number of clusters, and the theorems ask for at least the length of
    the chain, which is finite by definition of [chain].  Reading lines takes as fuel a bound
    on the keys typed.  The loops of the heap take as fuel the number of blocks.  With that
    fuel every theorem states that the code returns: [wp] is total correctness.

    ** Not modelled

    - The build files; the addresses where the linker puts code and data are parameters.
    - In the C code interrupts arrive where it waits for them ([hlt]), not between any two
      statements; Keyboard.v interleaves its reader with interrupts at every step, and
      Interrupts.v interrupts a program at any instruction, while preemption is off (nothing in
      the sources turns it on; Kernel.v has the timer interrupt with it on).  The clock and the
      keyboard behind the waits of the boot screen are those of the class [Input], apart from
      the timer variables that the scheduler reads.
      The [sti] in [syscall_handler] has no effect in the model: no interrupt arrives during a
      system call except where the line editor waits for a key.
    - The stacks of the stubs are words apart from the memory of the page tables, and an
      interrupt that has to wait for its line or for the interrupt flag is left out.
    - Paging.v reads and writes page tables at their physical addresses, whatever the tables
      map there (the code relies on the identity map of the first gigabyte), and Heap.v stores
      into its blocks whatever is mapped: a [paging_map_page] that finds no frame for a table
      says nothing, and the store of [expand_heap] after it, a page fault on the machine, goes
      on in the model.
    - The crash screen of Idt.v writes to video memory as characters and attributes by address;
      the console of Console.v keeps the same memory as an array of its own.  Nothing is drawn
      after the crash screen, which stops the machine.
    - The loop of [hlt] at the end of [kmain] is the end of the run. *)

From Stdlib Require Export ZArith Lia.
From stdpp Require Export base tactics option list gmap numbers strings.
Open Scope Z_scope.

(** ** Machine integers

    A C [uint8_t]/[uint16_t]/[uint32_t]/[uint64_t] is a [Z] in range; every
    operation that can leave the range is followed by the wrap-around of
    its width. *)

Definition w8 (x : Z) : Z := x mod 256.

Definition w16 (x : Z) : Z := x mod 65536.

Definition w32 (x : Z) : Z := x mod 4294967296.

Definition w64 (x : Z) : Z := x mod 18446744073709551616.

(** [~x] at type [uint32_t]. *)
Definition not32 (x : Z) : Z := w32 (Z.lnot x).

(** Conversion of a [uint32_t] to [int32_t] (two's complement). *)
Definition s32 (x : Z) : Z :=
  if w32 x <? 2147483648 then w32 x else w32 x - 4294967296.

Definition is_u32 (x : Z) : Prop := 0 ≤ x < 4294967296.

(** C truth of an integer expression. *)
Definition truth (x : Z) : bool := negb (x =? 0).

Declare Scope word_scope.
Delimit Scope word_scope with word.
Notation "x +w y" := (w32 (x + y)) (at level 50, left associativity) : word_scope.
Notation "x -w y" := (w32 (x - y)) (at level 50, left associativity) : word_scope.
Notation "x *w y" := (w32 (x * y)) (at level 40, left associativity) : word_scope.
Open Scope word_scope.

(** ** Computations

    [M S A] is a C function over the store [S]: it returns a value and a new
    store, stops the machine ([cli; hlt] or an endless loop), has a behaviour
    C leaves undefined (array index or pointer out of range), or runs out of
    the fuel given to an unbounded loop. *)

Inductive res (S A : Type) : Type :=
| Ret (a : A) (s : S)
| Halt (s : S)
| Undef
| NoFuel.

Arguments Ret {S A} a s.
Arguments Halt {S A} s.
Arguments Undef {S A}.
Arguments NoFuel {S A}.

Definition M (S A : Type) : Type := S → res S A.

Definition ret {S A} (a : A) : M S A := λ s, Ret a s.

Definition bind {S A B} (m : M S A) (k : A → M S B) : M S B := λ s,
  match m s with
  | Ret a s' => k a s'
  | Halt s' => Halt s'
  | Undef => Undef
  | NoFuel => NoFuel
  end.

Declare Scope flowos_scope.
Delimit Scope flowos_scope with flowos.
Notation "x ← m ; k" := (bind m (λ x, k)) : flowos_scope.
Notation "' x ← m ; k" := (bind m (λ x, k)) : flowos_scope.
Notation "m ;; k" := (bind m (λ _, k)) : flowos_scope.
Open Scope flowos_scope.

Definition gets {S A} (f : S → A) : M S A := λ s, Ret (f s) s.

Definition modify {S} (f : S → S) : M S unit := λ s, Ret tt (f s).

Definition halt {S A} : M S A := λ s, Halt s.

Definition undef {S A} : M S A := λ _, Undef.

Definition no_fuel {S A} : M S A := λ _, NoFuel.

Definition skip {S} : M S unit := ret tt.

Definition when {S} (b : bool) (m : M S unit) : M S unit :=
  if b then m else skip.

(** A pointer or index that must be valid. *)
Definition expect {S A} (o : option A) : M S A :=
  match o with Some a => ret a | None => undef end.

(** Running a component's function inside a bigger store. *)
Definition zoom {S T A} (get : T → S) (put : S → T → T) (m : M S A) : M T A := λ t,
  match m (get t) with
  | Ret a s => Ret a (put s t)
  | Halt s => Halt (put s t)
  | Undef => Undef
  | NoFuel => NoFuel
  end.

(** [for (i = lo; n more times; i++) body(i)]. *)
Fixpoint for_ {S} (lo : Z) (n : nat) (body : Z → M S unit) : M S unit :=
  match n with
  | O => skip
  | S n => body lo;; for_ (lo + 1) n body
  end.

(** The same loop when the body may leave the function (or the loop) with a
    value: [Some r] stops, [None] goes on. *)
Fixpoint for_ret {S R} (lo : Z) (n : nat) (body : Z → M S (option R)) : M S (option R) :=
  match n with
  | O => ret None
  | S n =>
      o ← body lo;
      match o with
      | Some r => ret (Some r)
      | None => for_ret (lo + 1) n body
      end
  end.

(** Number of iterations of [for (i = lo; i < hi; i++)]. *)
Definition trips (lo hi : Z) : nat := Z.to_nat (hi - lo).

(** ** C arrays as lists, indexed by integers *)

Definition arr_get {A} (l : list A) (i : Z) : option A :=
  if 0 <=? i then l !! Z.to_nat i else None.

Definition arr_set {A} (l : list A) (i : Z) (x : A) : list A :=
  if 0 <=? i then <[Z.to_nat i := x]> l else l.

(** In range, for both reading and writing. *)
Definition in_range {A} (l : list A) (i : Z) : bool :=
  (0 <=? i) && (i <? Z.of_nat (length l)).

(** ** C strings: lists of character codes, without the final NUL *)

Definition str (s : string) : list Z :=
  map (λ c, Z.of_N (Ascii.N_of_ascii c)) (String.list_ascii_of_string s).

(** The string a buffer holds: its bytes up to the first NUL. *)
Fixpoint cstring (buf : list Z) : list Z :=
  match buf with
  | [] => []
  | c :: buf => if c =? 0 then [] else c :: cstring buf
  end.

(** ** Word memory: the 32-bit word at a byte address, 0 where nothing was written *)

Definition ldw (m : gmap Z Z) (a : Z) : Z := default 0 (m !! a).

(** ** Total correctness

    [wp m s Q]: from [s] the computation returns normally, with a result and
    a store that satisfy [Q]. *)

Definition wp {S A} (m : M S A) (s : S) (Q : A → S → Prop) : Prop :=
  match m s with Ret a s' => Q a s' | _ => False end.

(** [wlp m s Q]: if the computation returns from [s], then with [Q]. *)
Definition wlp {S A} (m : M S A) (s : S) (Q : A → S → Prop) : Prop :=
  match m s with Ret a s' => Q a s' | _ => True end.

(** [whalt m s Q]: from [s] the computation stops the machine, in a store that satisfies [Q]. *)
Definition whalt {S A} (m : M S A) (s : S) (Q : S → Prop) : Prop :=
  match m s with Halt s' => Q s' | _ => False end.

(** ** Facts about machine integers *)

(** Linear arithmetic with division and modulus by constants. *)
Ltac mlia := unfold is_u32 in *; Z.to_euclidean_division_equations; lia.

Lemma w32_small x : is_u32 x → w32 x = x.
Proof. intros. unfold w32. apply Z.mod_small. assumption. Qed.

Lemma w32_range x : is_u32 (w32 x).
Proof. unfold w32, is_u32. apply Z.mod_pos_bound. lia. Qed.

Lemma w32_idem x : w32 (w32 x) = w32 x.
Proof. apply w32_small, w32_range. Qed.

Lemma w32_add_l x y : w32 (w32 x + y) = w32 (x + y).
Proof. apply Zplus_mod_idemp_l. Qed.

Lemma w32_add_r x y : w32 (x + w32 y) = w32 (x + y).
Proof. apply Zplus_mod_idemp_r. Qed.

Lemma w32_sub_l x y : w32 (w32 x - y) = w32 (x - y).
Proof. apply Zminus_mod_idemp_l. Qed.

Lemma w32_sub_r x y : w32 (x - w32 y) = w32 (x - y).
Proof. apply Zminus_mod_idemp_r. Qed.

Lemma truth_true x : truth x = true ↔ x ≠ 0.
Proof. unfold truth. destruct (Z.eqb_spec x 0); naive_solver. Qed.

Lemma truth_false x : truth x = false ↔ x = 0.
Proof. unfold truth. destruct (Z.eqb_spec x 0); naive_solver. Qed.

(** A nonnegative number below [2^n] has no bit at or above [n]. *)
Lemma testbit_high x n k : 0 ≤ x < 2 ^ n → 0 ≤ n ≤ k → Z.testbit x k = false.
Proof.
  intros Hx Hk. destruct (Z.eq_dec x 0) as [->|]; [apply Z.bits_0|].
  apply Z.bits_above_log2; [lia|].
  apply Z.log2_lt_pow2; [lia|].
  enough (2 ^ n ≤ 2 ^ k) by lia. apply Z.pow_le_mono_r; lia.
Qed.

(** The converse: no bit at or above [n] means below [2^n]. *)
Lemma range_of_bits x n :
  0 ≤ n → 0 ≤ x → (∀ k, n ≤ k → Z.testbit x k = false) → x < 2 ^ n.
Proof.
  intros Hn Hx Hb. destruct (Z.eq_dec x 0) as [->|]; [lia|].
  apply Z.log2_lt_pow2; [lia|].
  destruct (Z.lt_ge_cases (Z.log2 x) n) as [|Hge]; [done|].
  specialize (Hb _ Hge). rewrite Z.bit_log2 in Hb by lia. done.
Qed.

Lemma pow32 : 2 ^ 32 = 4294967296.
Proof. reflexivity. Qed.

Lemma u32_testbit_high x k : is_u32 x → 32 ≤ k → Z.testbit x k = false.
Proof. intros. apply (testbit_high x 32); rewrite ?pow32; unfold is_u32 in *; lia. Qed.

Lemma w32_land_ones x : w32 x = Z.land x (Z.ones 32).
Proof. rewrite Z.land_ones by lia. reflexivity. Qed.

Lemma w32_testbit x k : 0 ≤ k → Z.testbit (w32 x) k = (k <? 32) && Z.testbit x k.
Proof.
  intros. rewrite w32_land_ones, Z.land_spec.
  destruct (Z.ltb_spec k 32).
  - rewrite Z.ones_spec_low by lia. by rewrite andb_true_r.
  - rewrite Z.ones_spec_high by lia. by rewrite andb_false_r.
Qed.

Lemma land_u32 x y : is_u32 x → is_u32 (Z.land x y).
Proof.
  intros Hx. assert (0 ≤ Z.land x y) by (apply Z.land_nonneg; left; apply Hx).
  split; [done|]. rewrite <- pow32. apply range_of_bits; [lia|done|].
  intros k Hk. by rewrite Z.land_spec, (u32_testbit_high x k).
Qed.

Lemma lor_u32 x y : is_u32 x → is_u32 y → is_u32 (Z.lor x y).
Proof.
  intros Hx Hy.
  assert (0 ≤ Z.lor x y) by (apply Z.lor_nonneg; split; [apply Hx|apply Hy]).
  split; [done|]. rewrite <- pow32. apply range_of_bits; [lia|done|].
  intros k Hk. by rewrite Z.lor_spec, !u32_testbit_high.
Qed.

(** Masking with a 32-bit complement is masking with the complement. *)
Lemma land_not32 x y : is_u32 x → Z.land x (not32 y) = Z.land x (Z.lnot y).
Proof.
  intros Hx. apply Z.bits_inj'. intros k Hk. unfold not32.
  rewrite !Z.land_spec, w32_testbit by done.
  destruct (Z.ltb_spec k 32); [done|]. by rewrite (u32_testbit_high x k).
Qed.

(** Testing, setting and clearing one bit the way C code writes it. *)
Lemma truth_bit x k : 0 ≤ k → truth (Z.land x (Z.shiftl 1 k)) = Z.testbit x k.
Proof.
  intros Hk. unfold truth. destruct (Z.testbit x k) eqn:E.
  - destruct (Z.eqb_spec (Z.land x (Z.shiftl 1 k)) 0) as [H0|]; [|done].
    exfalso. apply (f_equal (λ z, Z.testbit z k)) in H0.
    rewrite Z.land_spec, E, Z.shiftl_spec, Z.sub_diag, Z.bits_0 in H0 by lia. done.
  - replace (Z.land x (Z.shiftl 1 k)) with 0; [done|].
    symmetry. apply Z.bits_inj'. intros j Hj.
    rewrite Z.land_spec, Z.bits_0.
    replace (Z.shiftl 1 k) with (2 ^ k) by (by rewrite Z.shiftl_1_l).
    rewrite Z.pow2_bits_eqb by done.
    destruct (Z.eqb_spec k j) as [->|]; [by rewrite E|by rewrite andb_false_r].
Qed.

Lemma shiftl1_u32 k : 0 ≤ k < 32 → is_u32 (Z.shiftl 1 k).
Proof.
  intros. rewrite Z.shiftl_1_l. unfold is_u32. rewrite <- pow32. split.
  - apply Z.pow_nonneg. lia.
  - apply Z.pow_lt_mono_r; lia.
Qed.

Lemma set_bit_spec x k j :
  0 ≤ k → Z.testbit (Z.lor x (Z.shiftl 1 k)) j = (k =? j) || Z.testbit x j.
Proof. intros. change (Z.lor x (Z.shiftl 1 k)) with (Z.setbit x k). by apply Z.setbit_eqb. Qed.

Lemma clear_bit_spec x k j :
  0 ≤ k → is_u32 x →
  Z.testbit (Z.land x (not32 (Z.shiftl 1 k))) j = negb (k =? j) && Z.testbit x j.
Proof.
  intros. rewrite land_not32, <- Z.ldiff_land by done.
  change (Z.ldiff x (Z.shiftl 1 k)) with (Z.clearbit x k).
  rewrite Z.clearbit_eqb by done. apply andb_comm.
Qed.

(** Two words with the same 32 bits are equal. *)
Lemma u32_bits_eq x y :
  is_u32 x → is_u32 y → (∀ k, 0 ≤ k < 32 → Z.testbit x k = Z.testbit y k) → x = y.
Proof.
  intros Hx Hy H. apply Z.bits_inj'. intros k Hk.
  destruct (Z.lt_ge_cases k 32); [apply H; lia|]. by rewrite !u32_testbit_high.
Qed.

Lemma all_ones_testbit k : 0 ≤ k < 32 → Z.testbit 4294967295 k = true.
Proof. intros. change 4294967295 with (Z.ones 32). apply Z.ones_spec_low. lia. Qed.

(** A word that is not all ones has a zero bit. *)
Lemma not_all_ones x :
  is_u32 x → x ≠ 4294967295 → ∃ k, 0 ≤ k < 32 ∧ Z.testbit x k = false.
Proof.
  intros Hx Hne.
  destruct (decide (Forall (λ k, Z.testbit x k = true) (seqZ 0 32))) as [Hall|Hn].
  - exfalso. apply Hne, u32_bits_eq; [done|done|]. intros k Hk.
    rewrite all_ones_testbit by done.
    rewrite Forall_forall in Hall. apply Hall, elem_of_seqZ. lia.
  - apply not_Forall_Exists in Hn; [|apply _]. apply Exists_exists in Hn as (k & Hk & Hb).
    apply elem_of_seqZ in Hk. exists k. split; [lia|]. simpl in Hb.
    by destruct (Z.testbit x k).
Qed.

(** ** Facts about arrays *)

Lemma arr_get_Some_range {A} (l : list A) i x :
  arr_get l i = Some x → 0 ≤ i < Z.of_nat (length l).
Proof.
  unfold arr_get. destruct (Z.leb_spec 0 i); [|done].
  intros Hl%lookup_lt_Some. lia.
Qed.

Lemma arr_get_lt {A} (l : list A) i :
  0 ≤ i < Z.of_nat (length l) → ∃ x, arr_get l i = Some x.
Proof.
  intros. unfold arr_get. destruct (Z.leb_spec 0 i); [|lia].
  apply lookup_lt_is_Some. lia.
Qed.

Lemma length_arr_set {A} (l : list A) i x : length (arr_set l i x) = length l.
Proof. unfold arr_set. destruct (0 <=? i); [apply length_insert|done]. Qed.

Lemma arr_get_set_eq {A} (l : list A) i x :
  0 ≤ i < Z.of_nat (length l) → arr_get (arr_set l i x) i = Some x.
Proof.
  intros. unfold arr_get, arr_set. destruct (Z.leb_spec 0 i); [|lia].
  apply list_lookup_insert_eq. lia.
Qed.

Lemma arr_get_set_ne {A} (l : list A) i j x :
  i ≠ j → arr_get (arr_set l i x) j = arr_get l j.
Proof.
  intros. unfold arr_get, arr_set.
  destruct (Z.leb_spec 0 i), (Z.leb_spec 0 j); [|done..].
  apply list_lookup_insert_ne. lia.
Qed.

Lemma arr_set_id {A} (l : list A) i x : arr_get l i = Some x → arr_set l i x = l.
Proof.
  unfold arr_get, arr_set. destruct (0 <=? i); [|done]. apply list_insert_id.
Qed.

Lemma arr_set_set {A} (l : list A) i x y :
  arr_set (arr_set l i x) i y = arr_set l i y.
Proof. unfold arr_set. destruct (0 <=? i); [|done]. apply list_insert_insert_eq. Qed.

Lemma arr_ext {A} (l k : list A) :
  length l = length k →
  (∀ i, 0 ≤ i < Z.of_nat (length l) → arr_get l i = arr_get k i) → l = k.
Proof.
  intros Hlen H. apply list_eq_same_length with (length k); [done|done|].
  intros i x y Hi Hx Hy. specialize (H (Z.of_nat i) ltac:(lia)).
  unfold arr_get in H. destruct (Z.leb_spec 0 (Z.of_nat i)); [|lia].
  rewrite Nat2Z.id, Hx, Hy in H. by injection H.
Qed.

Lemma Forall_arr_get {A} (P : A → Prop) l i x :
  Forall P l → arr_get l i = Some x → P x.
Proof.
  unfold arr_get. destruct (0 <=? i); [|done]. intros HF Hl. by eapply Forall_lookup_1.
Qed.

Lemma Forall_arr_set {A} (P : A → Prop) l i x :
  Forall P l → P x → Forall P (arr_set l i x).
Proof. intros. unfold arr_set. destruct (0 <=? i); [by apply Forall_insert|done]. Qed.

Lemma in_range_true {A} (l : list A) i :
  in_range l i = true ↔ 0 ≤ i < Z.of_nat (length l).
Proof. unfold in_range. lia. Qed.

(** Checking a list of bytes by evaluation. *)
Lemma bytes_checked l : forallb (λ c, (0 <=? c) && (c <? 256)) l = true → Forall (λ c, 0 ≤ c < 256) l.
Proof.
  intros Hl. apply Forall_forall. intros x Hx. apply list_elem_of_In in Hx.
  rewrite forallb_forall in Hl. specialize (Hl x Hx). lia.
Qed.

(** Filters that agree on the elements of the list. *)
Lemma filter_agree {A} (P Q : A → Prop) `{!∀ x, Decision (P x), !∀ x, Decision (Q x)} (l : list A) :
  (∀ x, x ∈ l → P x ↔ Q x) → filter P l = filter Q l.
Proof.
  induction l as [|x l IH]; intros Heq; [done|]. rewrite !filter_cons.
  rewrite IH by (intros y Hy; apply Heq; by right).
  specialize (Heq x (list_elem_of_here _ _)).
  destruct (decide (P x)), (decide (Q x)); tauto.
Qed.

(** Flipping one element of a duplicate-free list into a filter. *)
Lemma length_filter_flip (f g : Z → bool) (l : list Z) p :
  NoDup l → p ∈ l → f p = false → g p = true → (∀ q, q ≠ p → f q = g q) →
  length (filter (λ q, f q = false) l) = S (length (filter (λ q, g q = false) l)).
Proof.
  intros Hnd Hin Hf Hg Hq. induction l as [|x l IH]; [by apply elem_of_nil in Hin|].
  apply NoDup_cons in Hnd as [Hx Hnd]. rewrite !filter_cons.
  apply elem_of_cons in Hin as [->|Hin].
  - rewrite Hf, Hg, decide_True, decide_False by done. cbn [length]. do 2 f_equal.
    apply filter_agree. intros y Hy. rewrite Hq by set_solver. done.
  - assert (x ≠ p) by set_solver. rewrite (Hq x) by done.
    destruct (decide (g x = false)); cbn [length]; rewrite IH; done.
Qed.

(** A filter that rejects everything, and the first element it accepts. *)
Lemma filter_none {A} (P : A → Prop) `{!∀ x, Decision (P x)} (l : list A) :
  (∀ x, x ∈ l → ¬ P x) → filter P l = [].
Proof.
  induction l as [|x l IH]; intros Hn; [done|].
  rewrite filter_cons, decide_False by (apply Hn; by left).
  apply IH. intros y Hy. apply Hn. by right.
Qed.

Lemma head_filter_seqZ (P : Z → Prop) `{!∀ x, Decision (P x)} lo n p :
  lo ≤ p < lo + n → P p → (∀ q, lo ≤ q < p → ¬ P q) →
  head (filter P (seqZ lo n)) = Some p.
Proof.
  intros Hp HP Hn. replace n with ((p - lo) + (n - (p - lo))) by lia.
  rewrite seqZ_app, filter_app by lia.
  rewrite (filter_none P (seqZ lo (p - lo)))
    by (intros q Hq%elem_of_seqZ; apply Hn; lia).
  rewrite seqZ_cons by lia. replace (lo + (p - lo)) with p by lia.
  cbn [app]. rewrite filter_cons, decide_True by done. done.
Qed.

Lemma seqZ_snoc lo n : 0 ≤ n → seqZ lo (n + 1) = seqZ lo n ++ [lo + n].
Proof.
  intros. rewrite seqZ_app by lia. f_equal.
Qed.

(** ** Rules of the total-correctness predicate *)

Section wp_rules.
Context {S : Type}.
Implicit Types s : S.

Lemma wp_run {A} (m : M S A) s Q :
  wp m s Q ↔ ∃ a s', m s = Ret a s' ∧ Q a s'.
Proof.
  unfold wp. split.
  - destruct (m s) as [a s'| | |]; [eauto|done..].
  - by intros (a & s' & -> & HQ).
Qed.

Lemma wp_ex {A} (m : M S A) s Q : wp m s Q → ∃ a s', m s = Ret a s' ∧ Q a s'.
Proof. apply wp_run. Qed.

Lemma wp_mono {A} (m : M S A) s (P Q : A → S → Prop) :
  wp m s P → (∀ a s', P a s' → Q a s') → wp m s Q.
Proof. unfold wp. destruct (m s); auto. Qed.

Lemma wp_and {A} (m : M S A) s (P Q : A → S → Prop) :
  wp m s P → wp m s Q → wp m s (λ a s', P a s' ∧ Q a s').
Proof. unfold wp. destruct (m s); tauto. Qed.

Lemma wp_ret {A} (a : A) s (Q : A → S → Prop) : Q a s → wp (ret a) s Q.
Proof. done. Qed.

Lemma wp_bind {A B} (m : M S A) (k : A → M S B) s Q :
  wp m s (λ a s', wp (k a) s' Q) → wp (bind m k) s Q.
Proof. unfold wp, bind. by destruct (m s). Qed.

Lemma wp_bind_inv {A B} (m : M S A) (k : A → M S B) s Q :
  wp (bind m k) s Q → wp m s (λ a s', wp (k a) s' Q).
Proof. unfold wp, bind. by destruct (m s). Qed.

Lemma wp_gets {A} (f : S → A) s (Q : A → S → Prop) : Q (f s) s → wp (gets f) s Q.
Proof. done. Qed.

Lemma wp_modify (f : S → S) s (Q : unit → S → Prop) : Q tt (f s) → wp (modify f) s Q.
Proof. done. Qed.

Lemma wp_skip s (Q : unit → S → Prop) : Q tt s → wp skip s Q.
Proof. done. Qed.

Lemma wp_when (b : bool) (m : M S unit) s Q :
  (b = true → wp m s Q) → (b = false → Q tt s) → wp (when b m) s Q.
Proof. unfold when. destruct b; intros H1 H2; [by apply H1|by apply wp_skip, H2]. Qed.

Lemma wp_expect {A} (o : option A) (a : A) s (Q : A → S → Prop) :
  o = Some a → Q a s → wp (expect o) s Q.
Proof. by intros ->. Qed.

Lemma wp_if {A} (b : bool) (m1 m2 : M S A) s Q :
  (b = true → wp m1 s Q) → (b = false → wp m2 s Q) → wp (if b then m1 else m2) s Q.
Proof. destruct b; auto. Qed.

Lemma wp_wlp {A} (m : M S A) s Q : wp m s Q → wlp m s Q.
Proof. unfold wp, wlp. by destruct (m s). Qed.

Lemma wp_wlp_and {A} (m : M S A) s (P Q : A → S → Prop) :
  wp m s P → wlp m s Q → wp m s (λ a s', P a s' ∧ Q a s').
Proof. unfold wp, wlp. by destruct (m s). Qed.

Lemma wlp_run {A} (m : M S A) s a s' (Q : A → S → Prop) :
  m s = Ret a s' → wlp m s Q → Q a s'.
Proof. unfold wlp. by intros ->. Qed.

Lemma wlp_bind {A B} (m : M S A) (k : A → M S B) s Q :
  wlp m s (λ a s', wlp (k a) s' Q) → wlp (bind m k) s Q.
Proof. unfold wlp, bind. by destruct (m s). Qed.

Lemma wlp_mono {A} (m : M S A) s (P Q : A → S → Prop) :
  wlp m s P → (∀ a s', P a s' → Q a s') → wlp m s Q.
Proof. unfold wlp. destruct (m s); auto. Qed.

Lemma wlp_halt {A} s (Q : A → S → Prop) : wlp halt s Q.
Proof. done. Qed.

Lemma wlp_undef {A} s (Q : A → S → Prop) : wlp undef s Q.
Proof. done. Qed.

Lemma wlp_if {A} (b : bool) (m1 m2 : M S A) s Q :
  (b = true → wlp m1 s Q) → (b = false → wlp m2 s Q) → wlp (if b then m1 else m2) s Q.
Proof. destruct b; auto. Qed.

(** Loop rules: an invariant indexed by the loop counter. *)
Lemma wp_for (I : Z → S → Prop) lo n body s (Q : unit → S → Prop) :
  I lo s →
  (∀ i s, lo ≤ i < lo + Z.of_nat n → I i s → wp (body i) s (λ _ s', I (i + 1) s')) →
  (∀ s, I (lo + Z.of_nat n) s → Q tt s) →
  wp (for_ lo n body) s Q.
Proof.
  revert lo s. induction n as [|n IH]; intros lo s H0 Hstep Hend; cbn [for_].
  - apply wp_skip, Hend. by rewrite Z.add_0_r.
  - apply wp_bind. eapply wp_mono; [apply Hstep; [lia|done]|].
    intros [] s' H1. apply IH; [done| |].
    + intros i s'' Hi. apply Hstep. lia.
    + intros s'' H2. apply Hend. by replace (lo + Z.of_nat (Datatypes.S n))
        with (lo + 1 + Z.of_nat n) by lia.
Qed.

Lemma wp_for_ret {R} (I : Z → S → Prop) lo n (body : Z → M S (option R)) s Q :
  I lo s →
  (∀ i s, lo ≤ i < lo + Z.of_nat n → I i s →
     wp (body i) s (λ o s', match o with Some r => Q (Some r) s' | None => I (i + 1) s' end)) →
  (∀ s, I (lo + Z.of_nat n) s → Q None s) →
  wp (for_ret lo n body) s Q.
Proof.
  revert lo s. induction n as [|n IH]; intros lo s H0 Hstep Hend; cbn [for_ret].
  - apply wp_ret, Hend. by rewrite Z.add_0_r.
  - apply wp_bind. eapply wp_mono; [apply Hstep; [lia|done]|].
    intros [r|] s' H1; [by apply wp_ret|]. apply IH; [done| |].
    + intros i s'' Hi. apply Hstep. lia.
    + intros s'' H2. apply Hend. by replace (lo + Z.of_nat (Datatypes.S n))
        with (lo + 1 + Z.of_nat n) by lia.
Qed.

End wp_rules.

Lemma whalt_bind {S A B} (m : M S A) (k : A → M S B) s Q :
  wp m s (λ a s', whalt (k a) s' Q) → whalt (bind m k) s Q.
Proof. unfold wp, whalt, bind. by destruct (m s). Qed.

Lemma whalt_mono {S A} (m : M S A) s (P Q : S → Prop) : whalt m s P → (∀ s', P s' → Q s') → whalt m s Q.
Proof. unfold whalt. destruct (m s); auto. Qed.

Lemma whalt_zoom {S T A} (get : T → S) (put : S → T → T) (m : M S A) t Q :
  whalt m (get t) (λ s, Q (put s t)) → whalt (zoom get put m) t Q.
Proof. unfold whalt, zoom. by destruct (m (get t)). Qed.

Lemma whalt_halted {S A B} (m : M S A) (k : A → M S B) s Q : whalt m s Q → whalt (bind m k) s Q.
Proof. unfold whalt, bind. by destruct (m s). Qed.

(** [ends m s Q R]: from [s] the computation returns with [Q], or stops the machine with [R]. *)
Definition ends {S A} (m : M S A) (s : S) (Q : A → S → Prop) (R : S → Prop) : Prop :=
  match m s with Ret a s' => Q a s' | Halt s' => R s' | _ => False end.

Lemma ends_wp {S A} (m : M S A) s (Q : A → S → Prop) (R : S → Prop) : wp m s Q → ends m s Q R.
Proof. unfold wp, ends. by destruct (m s). Qed.

Lemma ends_mono {S A} (m : M S A) s (P Q : A → S → Prop) (R T : S → Prop) :
  ends m s P R → (∀ a s', P a s' → Q a s') → (∀ s', R s' → T s') → ends m s Q T.
Proof. unfold ends. destruct (m s); auto. Qed.

Lemma ends_bind {S A B} (m : M S A) (k : A → M S B) s (Q : B → S → Prop) (R : S → Prop) :
  ends m s (λ a s', ends (k a) s' Q R) R → ends (bind m k) s Q R.
Proof. unfold ends, bind. by destruct (m s). Qed.

Lemma ends_seq {S A B} (m : M S A) (k : A → M S B) s (Q : B → S → Prop) (R : S → Prop) :
  wp m s (λ a s', ends (k a) s' Q R) → ends (bind m k) s Q R.
Proof. intros Hw. by apply ends_bind, ends_wp. Qed.

Lemma whalt_ends {S A B} (m : M S A) (k : A → M S B) s (R : S → Prop) :
  ends m s (λ a s', whalt (k a) s' R) R → whalt (bind m k) s R.
Proof. unfold ends, whalt, bind. by destruct (m s). Qed.

(** A run into undefined behaviour. *)
Lemma undef_after {S A B} (m : M S A) (k : A → M S B) s : wp m s (λ a s', k a s' = Undef) → bind m k s = Undef.
Proof. unfold wp, bind. by destruct (m s). Qed.

Lemma undef_bind {S A B} (m : M S A) (k : A → M S B) s : m s = Undef → bind m k s = Undef.
Proof. unfold bind. by intros ->. Qed.

Lemma undef_zoom {S T A} (get : T → S) (put : S → T → T) (m : M S A) t : m (get t) = Undef → zoom get put m t = Undef.
Proof. unfold zoom. by intros ->. Qed.

Section wlp_rules.
Context {S : Type}.

Lemma wlp_for (I : S → Prop) lo n (body : Z → M S unit) s :
  (∀ i s, I s → wlp (body i) s (λ _ s', I s')) → I s → wlp (for_ lo n body) s (λ _ s', I s').
Proof.
  intros Hb. revert lo s. induction n as [|n IH]; intros lo s Hs; cbn [for_]; [done|].
  apply wlp_bind. eapply wlp_mono; [by apply Hb|]. intros ? s' Hs'. by apply IH.
Qed.

Lemma wlp_for_ret {R} (I : S → Prop) lo n (body : Z → M S (option R)) s :
  (∀ i s, I s → wlp (body i) s (λ _ s', I s')) → I s → wlp (for_ret lo n body) s (λ _ s', I s').
Proof.
  intros Hb. revert lo s. induction n as [|n IH]; intros lo s Hs; cbn [for_ret]; [done|].
  apply wlp_bind. eapply wlp_mono; [by apply Hb|]. intros [r|] s' Hs'; [done|by apply IH].
Qed.

Lemma wlp_zoom {T A} (get : T → S) (put : S → T → T) (m : M S A) t (Q : A → T → Prop) :
  wlp m (get t) (λ a s, Q a (put s t)) → wlp (zoom get put m) t Q.
Proof. unfold wlp, zoom. by destruct (m (get t)). Qed.

End wlp_rules.

Lemma wp_zoom {S T A} (get : T → S) (put : S → T → T) (m : M S A) t Q :
  wp m (get t) (λ a s, Q a (put s t)) → wp (zoom get put m) t Q.
Proof. unfold wp, zoom. by destruct (m (get t)). Qed.

(** A search loop whose body leaves the store alone and is undefined at [j]:
    it is undefined, unless the search succeeds before [j]. *)
Lemma for_ret_stuck {S R} lo n j (body : Z → M S (option R)) s :
  lo ≤ j < lo + Z.of_nat n → body j s = Undef →
  (∀ i, lo ≤ i < j → body i s = Undef ∨ ∃ o, body i s = Ret o s) →
  for_ret lo n body s = Undef ∨
  ∃ i r, lo ≤ i < j ∧ body i s = Ret (Some r) s ∧ for_ret lo n body s = Ret (Some r) s.
Proof.
  revert lo. induction n as [|n IH]; intros lo Hj Hu Hb; [lia|].
  cbn [for_ret]. unfold bind. destruct (Z.eq_dec lo j) as [->|Hne]; [rewrite Hu; by left|].
  destruct (Hb lo) as [->|[[r|] E]]; [lia|by left| |].
  - right. exists lo, r. rewrite E. split_and!; [lia|lia|done|done].
  - rewrite E. destruct (IH (lo + 1)) as [|(i & r & Hi & Hr & ->)]; [lia|done| |by left|].
    + intros i Hi. apply Hb. lia.
    + right. exists i, r. split_and!; [lia|lia|done|done].
Qed.

(** One step of symbolic execution. *)
Ltac wp_step :=
  lazymatch goal with
  | |- wp (bind _ _) _ _ => apply wp_bind
  | |- wp (ret _) _ _ => apply wp_ret
  | |- wp (gets _) _ _ => apply wp_gets
  | |- wp (modify _) _ _ => apply wp_modify
  | |- wp skip _ _ => apply wp_skip
  | |- wp (when _ _) _ _ => apply wp_when; intros
  | |- wp (zoom _ _ _) _ _ => apply wp_zoom
  | |- wp (if _ then _ else _) _ _ => apply wp_if; intros
  | |- wp (let _ := _ in _) _ _ => cbv zeta
  end.

Ltac wp_steps := repeat (wp_step; cbv beta).

(** A literal has no zero byte. *)
Ltac no_nul := refine (bool_decide_unpack _ _); vm_compute; exact I.

(** The generic facts that close side conditions of the components. *)
Create HintDb flowos.
Create Rewrite HintDb flowos_rw.
#[export] Hint Resolve w32_range land_u32 lor_u32 shiftl1_u32 : flowos.
#[export] Hint Extern 5 (is_u32 _) => (unfold is_u32 in *; lia) : flowos.
#[export] Hint Rewrite @length_arr_set : flowos_rw.
#[export] Hint Rewrite w32_idem w32_add_l w32_add_r w32_sub_l w32_sub_r : flowos_rw.
