(* ===== verification/Pic.v ===== *)
(** * Port input and output, and the interrupt controllers (src/src/types.h,
    src/src/pic.c, src/src/pic.h)

    The devices behind the ports are not part of the program: they are the
    parameter [Device].  What pic.c relies on is the documented behaviour of
    the two 8259A controllers, stated as the automaton [chip] that a device must
    refine. *)

From S2P Require Import Prelude.

(** ** Ports *)

Class Device (D : Type) := {
  dev_in : Z → D → Z * D;
  dev_out : Z → Z → D → D
}.

Definition outb {D} `{Device D} (port val : Z) : M D unit :=
  modify (dev_out (w16 port) (w8 val)).

Definition inb {D} `{Device D} (port : Z) : M D Z := λ d,
  let '(v, d') := dev_in (w16 port) d in Ret (w8 v) d'.

Definition io_wait {D} `{Device D} : M D unit := outb 0x80 0.

(** ** Constants *)

Definition PIC1_COMMAND : Z := 0x20.

Definition PIC1_DATA : Z := 0x21.

Definition PIC2_COMMAND : Z := 0xA0.

Definition PIC2_DATA : Z := 0xA1.

Definition PIC_EOI : Z := 0x20.

Definition ICW1_ICW4 : Z := 0x01.

Definition ICW1_INIT : Z := 0x10.

Definition ICW4_8086 : Z := 0x01.

(** ** Operations *)

Section pic.
Context {D : Type} `{Device D}.

Definition pic_remap (offset1 offset2 : Z) : M D unit :=
  a1 ← inb PIC1_DATA;
  a2 ← inb PIC2_DATA;
  outb PIC1_COMMAND (Z.lor ICW1_INIT ICW1_ICW4);;
  io_wait;;
  outb PIC2_COMMAND (Z.lor ICW1_INIT ICW1_ICW4);;
  io_wait;;
  outb PIC1_DATA offset1;;
  io_wait;;
  outb PIC2_DATA offset2;;
  io_wait;;
  outb PIC1_DATA 4;;
  io_wait;;
  outb PIC2_DATA 2;;
  io_wait;;
  outb PIC1_DATA ICW4_8086;;
  io_wait;;
  outb PIC2_DATA ICW4_8086;;
  io_wait;;
  outb PIC1_DATA a1;;
  outb PIC2_DATA a2.

(** [irq] is a [uint8_t]. *)
Definition pic_send_eoi (irq : Z) : M D unit :=
  when (8 <=? irq) (outb PIC2_COMMAND PIC_EOI);;
  outb PIC1_COMMAND PIC_EOI.

Definition mask_port (irq : Z) : Z * Z :=
  if irq <? 8 then (PIC1_DATA, irq) else (PIC2_DATA, w8 (irq - 8)).

Definition pic_set_mask (irq : Z) : M D unit :=
  let '(port, irq) := mask_port irq in
  v ← inb port;
  outb port (w8 (Z.lor v (Z.shiftl 1 irq))).

Definition pic_clear_mask (irq : Z) : M D unit :=
  let '(port, irq) := mask_port irq in
  v ← inb port;
  outb port (w8 (Z.land v (Z.lnot (Z.shiftl 1 irq)))).

End pic.

(** ** The 8259A controller

    [c_expect] is the number of the initialisation word the chip waits for on its
    data port, 0 when it is in operation. *)

Record chip := mkChip {
  c_imr : Z;
  c_isr : Z;
  c_offset : Z;
  c_cascade : Z;
  c_mode : Z;
  c_expect : Z
}.

(** The highest-priority interrupt in service ends: its bit is the lowest one set. *)
Definition end_of_interrupt (isr : Z) : Z :=
  match filter (λ k, Z.testbit isr k = true) (seqZ 0 8) with
  | k :: _ => Z.land isr (Z.lnot (Z.shiftl 1 k))
  | [] => isr
  end.

(** A byte written to the command port: the first initialisation word, or the
    non-specific end of interrupt; other commands are not used. *)
Definition chip_command (v : Z) (c : chip) : chip :=
  if Z.testbit v 4 then mkChip 0 (c_isr c) (c_offset c) (c_cascade c) 0 2
  else if v =? 0x20 then
    mkChip (c_imr c) (end_of_interrupt (c_isr c)) (c_offset c) (c_cascade c) (c_mode c) (c_expect c)
  else c.

(** A byte written to the data port. *)
Definition chip_data (v : Z) (c : chip) : chip :=
  if c_expect c =? 2 then mkChip (c_imr c) (c_isr c) (Z.land v 0xF8) (c_cascade c) (c_mode c) 3
  else if c_expect c =? 3 then mkChip (c_imr c) (c_isr c) (c_offset c) v (c_mode c) 4
  else if c_expect c =? 4 then mkChip (c_imr c) (c_isr c) (c_offset c) (c_cascade c) v 0
  else mkChip v (c_isr c) (c_offset c) (c_cascade c) (c_mode c) 0.

Definition chips_out (port v : Z) (m s : chip) : chip * chip :=
  if port =? PIC1_COMMAND then (chip_command v m, s)
  else if port =? PIC1_DATA then (chip_data v m, s)
  else if port =? PIC2_COMMAND then (m, chip_command v s)
  else if port =? PIC2_DATA then (m, chip_data v s)
  else (m, s).

(** A device with the two controllers: [chips] gives their state. *)
Class PicDevice (D : Type) `{Device D} := {
  chips : D → chip * chip;
  chips_dev_out port v d :
    chips (dev_out port v d) = chips_out port v (chips d).1 (chips d).2;
  chips_dev_in port d : chips (dev_in port d).2 = chips d;
  chips_read1 d : (dev_in PIC1_DATA d).1 = c_imr (chips d).1;
  chips_read2 d : (dev_in PIC2_DATA d).1 = c_imr (chips d).2
}.

(** A chip in operation, with a byte as its mask. *)
Definition operational (c : chip) : Prop := c_expect c = 0 ∧ 0 ≤ c_imr c < 256.

(** The two controllers and nothing else. *)
#[global] Instance bare_device : Device (chip * chip) := {|
  dev_in port d :=
    (if port =? PIC1_DATA then c_imr d.1 else if port =? PIC2_DATA then c_imr d.2 else 0, d);
  dev_out port v d := chips_out port v d.1 d.2
|}.

#[global] Program Instance bare_pic : PicDevice (chip * chip) := {| chips d := d |}.
Solve Obligations with done.

Definition chip_demo : chip := mkChip 0xFB 0 0 0 0 0.

(** The mask bit of a line. *)
Definition line_masked (d : chip * chip) (irq : Z) : bool :=
  if irq <? 8 then Z.testbit (c_imr d.1) irq else Z.testbit (c_imr d.2) (irq - 8).

(** ** Lemmas *)

Section lemmas.
Context {D : Type} `{PicDevice D}.

(** Port programs seen through the state of the controllers. *)
Lemma wp_outb port v d (Q : unit → D → Prop) :
  (∀ d', chips d' = chips_out (w16 port) (w8 v) (chips d).1 (chips d).2 → Q tt d') →
  wp (outb port v) d Q.
Proof. intros HQ. apply wp_modify, HQ. apply chips_dev_out. Qed.

Lemma wp_inb port d (Q : Z → D → Prop) :
  (∀ d', chips d' = chips d → Q (w8 (dev_in (w16 port) d).1) d') → wp (inb port) d Q.
Proof.
  intros HQ. unfold wp, inb. pose proof (chips_dev_in (w16 port) d) as Hc.
  destruct (dev_in (w16 port) d) as [v d']. by apply HQ.
Qed.

Lemma wp_io_wait d (Q : unit → D → Prop) :
  (∀ d', chips d' = chips d → Q tt d') → wp io_wait d Q.
Proof.
  intros HQ. apply wp_outb. intros d' Hd'. apply HQ. rewrite Hd'.
  change (w16 0x80) with 0x80. unfold chips_out. cbn. by destruct (chips d).
Qed.

End lemmas.

Lemma w8_small x : 0 ≤ x < 256 → w8 x = x.
Proof. intros. by apply Z.mod_small. Qed.

Lemma w8_testbit x k : 0 ≤ k < 8 → Z.testbit (w8 x) k = Z.testbit x k.
Proof.
  intros. change (w8 x) with (x mod 2 ^ 8). rewrite Z.mod_pow2_bits_low by lia. done.
Qed.

Lemma land_F8 x : 0 ≤ x < 256 → x mod 8 = 0 → Z.land x 0xF8 = x.
Proof.
  intros Hx Hm. apply Z.bits_inj'. intros k Hk. rewrite Z.land_spec.
  destruct (Z.lt_ge_cases k 8) as [Hlt|]; [|rewrite (testbit_high x 8 k) by (cbn; lia); done].
  destruct (Z.lt_ge_cases k 3).
  - replace (Z.testbit x k) with false; [done|]. symmetry.
    apply Z.div_exact in Hm; [|lia]. rewrite Hm, Z.mul_comm. change 8 with (2 ^ 3).
    by apply Z.mul_pow2_bits_low.
  - replace (Z.testbit 0xF8 k) with true; [apply andb_true_r|].
    assert (k = 3 ∨ k = 4 ∨ k = 5 ∨ k = 6 ∨ k = 7) as [-> | [-> | [-> | [-> | ->]]]] by lia; done.
Qed.

(** Where a write goes. *)
Lemma out_command1 v m s : chips_out (w16 PIC1_COMMAND) v m s = (chip_command v m, s).
Proof. done. Qed.

Lemma out_data1 v m s : chips_out (w16 PIC1_DATA) v m s = (chip_data v m, s).
Proof. done. Qed.

Lemma out_command2 v m s : chips_out (w16 PIC2_COMMAND) v m s = (m, chip_command v s).
Proof. done. Qed.

Lemma out_data2 v m s : chips_out (w16 PIC2_DATA) v m s = (m, chip_data v s).
Proof. done. Qed.

Create Rewrite HintDb pic.
#[export] Hint Rewrite out_command1 out_data1 out_command2 out_data2 : pic.

(** One write or one pause of a port program, with the new state of the controllers. *)
Ltac out_step E :=
  try wp_step; apply wp_outb; let d := fresh "d" in let Hd := fresh "Hd" in
  intros d Hd; rewrite E in Hd; clear E; rename Hd into E; autorewrite with pic in E;
  cbn [fst snd] in E.

Ltac wait_step E :=
  wp_step; apply wp_io_wait; let d := fresh "d" in let Hd := fresh "Hd" in
  intros d Hd; rewrite E in Hd; clear E; rename Hd into E.

(** Setting and clearing a bit of a mask byte. *)
Lemma mask_byte v k j (b : bool) :
  0 ≤ k < 8 → 0 ≤ j < 8 →
  Z.testbit (w8 (if b then Z.lor v (Z.shiftl 1 k) else Z.land v (Z.lnot (Z.shiftl 1 k)))) j =
    if k =? j then b else Z.testbit v j.
Proof.
  intros Hk Hj. rewrite w8_testbit by done.
  assert (Hb : Z.testbit (Z.shiftl 1 k) j = (k =? j)).
  { rewrite Z.shiftl_1_l. apply Z.pow2_bits_eqb. lia. }
  destruct b.
  - rewrite Z.lor_spec, Hb. destruct (k =? j); [apply orb_true_r|apply orb_false_r].
  - rewrite Z.land_spec, Z.lnot_spec, Hb by lia.
    destruct (k =? j); [apply andb_false_r|apply andb_true_r].
Qed.

Lemma w8_range x : 0 ≤ w8 x < 256.
Proof. apply Z.mod_pos_bound. lia. Qed.

Lemma w8_idem x : w8 (w8 x) = w8 x.
Proof. apply w8_small, w8_range. Qed.

(** ** Properties *)

(** [pic_remap] leaves both controllers in operation in 8086 mode, cascaded at line 2,
    with the given vector offsets, and with the masks they had before. *)
Theorem pic_remap_spec {D} `{PicDevice D} (d : D) o1 o2 :
  operational (chips d).1 → operational (chips d).2 →
  0 ≤ o1 < 256 → o1 mod 8 = 0 → 0 ≤ o2 < 256 → o2 mod 8 = 0 →
  wp (pic_remap o1 o2) d (λ _ d',
    chips d' = (mkChip (c_imr (chips d).1) (c_isr (chips d).1) o1 4 1 0,
                mkChip (c_imr (chips d).2) (c_isr (chips d).2) o2 2 1 0)).
Proof.
  intros [_ Hm] [_ Hs] Ho1 Hz1 Ho2 Hz2. unfold pic_remap.
  wp_step. apply wp_inb. intros d1 Hd1. wp_step. apply wp_inb. intros d2 Hd2.
  change (w16 PIC1_DATA) with PIC1_DATA. change (w16 PIC2_DATA) with PIC2_DATA.
  rewrite chips_read1, chips_read2, Hd1. rewrite Hd1 in Hd2. clear Hd1.
  destruct (chips d) as [m s]. cbn [fst snd] in *.
  rewrite (w8_small (c_imr m)), (w8_small (c_imr s)) by done.
  do 8 (out_step Hd2; wait_step Hd2). do 2 out_step Hd2. rewrite Hd2.
  rewrite (w8_small o1), (w8_small o2), (w8_small (c_imr m)), (w8_small (c_imr s)) by done.
  rewrite <- (land_F8 o1) at 2 by done. rewrite <- (land_F8 o2) at 2 by done. reflexivity.
Qed.


(** [pic_set_mask] and [pic_clear_mask] change the mask of the given line, on the
    controller the line belongs to, and nothing else of the two controllers. *)
Theorem pic_mask_line {D} `{PicDevice D} (d : D) (b : bool) irq :
  operational (chips d).1 → operational (chips d).2 → 0 ≤ irq < 16 →
  wp (if b then pic_set_mask irq else pic_clear_mask irq) d (λ _ d',
    (∀ k, 0 ≤ k < 16 → line_masked (chips d') k = if irq =? k then b else line_masked (chips d) k) ∧
    operational (chips d').1 ∧ operational (chips d').2 ∧
    c_isr (chips d').1 = c_isr (chips d).1 ∧ c_isr (chips d').2 = c_isr (chips d).2 ∧
    c_offset (chips d').1 = c_offset (chips d).1 ∧ c_offset (chips d').2 = c_offset (chips d).2).
Proof.
  intros [Em Hm] [Es Hs] Hirq.
  assert (Hgen : wp (v ← inb (mask_port irq).1;
      outb (mask_port irq).1 (w8 (if b then Z.lor v (Z.shiftl 1 (mask_port irq).2)
        else Z.land v (Z.lnot (Z.shiftl 1 (mask_port irq).2))))) d (λ _ d',
    (∀ k, 0 ≤ k < 16 → line_masked (chips d') k = if irq =? k then b else line_masked (chips d) k) ∧
    operational (chips d').1 ∧ operational (chips d').2 ∧
    c_isr (chips d').1 = c_isr (chips d).1 ∧ c_isr (chips d').2 = c_isr (chips d).2 ∧
    c_offset (chips d').1 = c_offset (chips d).1 ∧ c_offset (chips d').2 = c_offset (chips d).2)).
  { wp_step. apply wp_inb. intros d1 Hd1. apply wp_outb. intros d2 Hd2. rewrite Hd1 in Hd2.
    unfold mask_port in *. destruct (Z.ltb_spec irq 8); cbn [fst snd] in *;
      autorewrite with pic in Hd2; rewrite Hd2; cbn [fst snd];
      unfold chip_data; rewrite ?Em, ?Es; cbn [fst snd c_imr c_isr c_offset c_expect Z.eqb];
      (split_and!; try done; try (unfold operational; cbn; split; [done|apply w8_range]));
      intros k Hk; unfold line_masked; cbn [fst snd c_imr]; rewrite w8_idem.
    - change (w16 PIC1_DATA) with PIC1_DATA. rewrite chips_read1.
      rewrite (w8_small (c_imr (chips d).1)) by done.
      destruct (Z.ltb_spec k 8); [by rewrite mask_byte by lia|]. by destruct (Z.eqb_spec irq k); [lia|].
    - change (w16 PIC2_DATA) with PIC2_DATA. rewrite chips_read2.
      rewrite (w8_small (c_imr (chips d).2)), (w8_small (irq - 8)) by lia.
      destruct (Z.ltb_spec k 8); [by destruct (Z.eqb_spec irq k); [lia|]|].
      rewrite mask_byte by lia. by destruct (Z.eqb_spec (irq - 8) (k - 8)), (Z.eqb_spec irq k); try lia. }
  unfold pic_set_mask, pic_clear_mask. destruct (mask_port irq). by destruct b.
Qed.

(** ** The properties at concrete inputs *)

Lemma pic_remap_spec_witness :
  pic_remap 0x20 0x28 (chip_demo, chip_demo) =
    Ret tt (mkChip 0xFB 0 0x20 4 1 0, mkChip 0xFB 0 0x28 2 1 0).
Proof.
  destruct (wp_ex _ _ _ (pic_remap_spec (chip_demo, chip_demo) 0x20 0x28
    ltac:(done) ltac:(done) ltac:(lia) eq_refl ltac:(lia) eq_refl)) as ([] & d' & E0 & Hd').
  cbn in Hd'. rewrite E0. by rewrite <- Hd'.
Defined.

Lemma pic_mask_line_witness :
  wp (pic_clear_mask 1) (chip_demo, chip_demo) (λ _ d', line_masked (chips d') 1 = false).
Proof.
  eapply wp_mono; [exact (pic_mask_line (chip_demo, chip_demo) false 1 ltac:(done) ltac:(done) ltac:(lia))|].
  intros [] d' [Hk _]. exact (Hk 1 ltac:(lia)).
Defined.
