(* ===== verification/Idt.v ===== *)
(** * Interrupts (src/src/idt.c, src/src/idt.h)

    The interrupt descriptor table, the table of handlers, and the dispatch of
    exceptions and of the lines of the interrupt controllers. *)

From stdpp Require Import pretty.
From S2P Require Import Prelude Pic.

(** ** Data *)

Definition IDT_ENTRIES : Z := 256.

Record idt_entry := mkGate {
  base_low : Z;
  sel : Z;
  always0 : Z;
  gate_flags : Z;
  base_high : Z
}.

Record idt_ptr := mkIdtPtr { limit : Z; base : Z }.

(** The frame the assembly stubs push. *)
Record registers := mkRegs {
  rg_ds : Z;
  rg_edi : Z; rg_esi : Z; rg_ebp : Z; rg_esp : Z;
  rg_ebx : Z; rg_edx : Z; rg_ecx : Z; rg_eax : Z;
  int_no : Z; err_code : Z;
  rg_eip : Z; rg_cs : Z; rg_eflags : Z; rg_useresp : Z; rg_ss : Z
}.

(** The functions the kernel installs in [interrupt_handlers]. *)
Inductive handler :=
| page_fault_handler_fn
| timer_callback_fn
| keyboard_callback_fn
| syscall_handler_fn.

#[global] Instance handler_eq_dec : EqDecision handler.
Proof. solve_decision. Defined.

(** Addresses of the assembly stubs and of the table, fixed by the linker. *)
Class IsrAddresses := {
  isr_stub : Z → Z;
  irq_stub : Z → Z;
  idt_address : Z
}.

(** Static variables of idt.c, the table register of the processor, the screen
    memory, and the devices. *)
Record intr (D : Type) := mkIntr {
  idt : list idt_entry;
  idtp : idt_ptr;
  interrupt_handlers : list (option handler);
  idtr : option idt_ptr;
  vga : gmap Z Z;
  dev : D
}.

Arguments mkIntr {D}.
Arguments idt {D}.
Arguments idtp {D}.
Arguments interrupt_handlers {D}.
Arguments idtr {D}.
Arguments vga {D}.
Arguments dev {D}.

(** ** Operations *)

(** [register_interrupt_handler] on the handler table; [None] is a null entry. *)
Definition register_interrupt_handler (n : Z) (h : handler) : M (list (option handler)) unit :=
  t ← gets id;
  if in_range t n then modify (λ _, arr_set t n (Some h)) else undef.

Section idt.
Context {D : Type} `{Device D} `{IsrAddresses}.

Definition set_idt (t : list idt_entry) (s : intr D) : intr D :=
  mkIntr t (idtp s) (interrupt_handlers s) (idtr s) (vga s) (dev s).

Definition set_idtp (p : idt_ptr) (s : intr D) : intr D :=
  mkIntr (idt s) p (interrupt_handlers s) (idtr s) (vga s) (dev s).

Definition set_interrupt_handlers (t : list (option handler)) (s : intr D) : intr D :=
  mkIntr (idt s) (idtp s) t (idtr s) (vga s) (dev s).

Definition set_idtr (p : option idt_ptr) (s : intr D) : intr D :=
  mkIntr (idt s) (idtp s) (interrupt_handlers s) p (vga s) (dev s).

Definition set_vga (m : gmap Z Z) (s : intr D) : intr D :=
  mkIntr (idt s) (idtp s) (interrupt_handlers s) (idtr s) m (dev s).

Definition set_dev (d : D) (s : intr D) : intr D :=
  mkIntr (idt s) (idtp s) (interrupt_handlers s) (idtr s) (vga s) d.

Definition on_dev {A} (m : M D A) : M (intr D) A := zoom dev set_dev m.

Definition gate (bs sl fl : Z) : idt_entry :=
  mkGate (Z.land bs 0xFFFF) sl 0 fl (Z.land (Z.shiftr bs 16) 0xFFFF).

Definition idt_set_gate (num bs sl fl : Z) : M (intr D) unit :=
  t ← gets idt;
  if in_range t num then modify (set_idt (arr_set t num (gate bs sl fl))) else undef.

(** [interrupt_handlers[i] = 0]. *)
Definition clear_handler (i : Z) : M (intr D) unit :=
  t ← gets interrupt_handlers;
  if in_range t i then modify (set_interrupt_handlers (arr_set t i None)) else undef.

(** [idt_flush]: load the table register. *)
Definition idt_flush : M (intr D) unit := modify (λ s, set_idtr (Some (idtp s)) s).

Definition idt_init : M (intr D) unit :=
  modify (set_idtp (mkIdtPtr (8 * IDT_ENTRIES - 1) idt_address));;
  for_ 0 (trips 0 IDT_ENTRIES) (λ i, idt_set_gate i 0 0 0;; clear_handler i);;
  on_dev (pic_remap 0x20 0x28);;
  for_ 0 (trips 0 32) (λ i, idt_set_gate i (isr_stub i) 0x08 0x8E);;
  for_ 0 (trips 0 16) (λ i, idt_set_gate (32 + i) (irq_stub i) 0x08 0x8E);;
  idt_flush.

(** [vga[i] = x] for a byte of the screen at 0xB8000. *)
Definition poke (i x : Z) : M (intr D) unit :=
  modify (λ s, set_vga (<[0xB8000 + i := x]> (vga s)) s).

(** [vga[(i+j)*2] = s[j]; vga[(i+j)*2+1] = 0x4F] for each character of [s]. *)
Fixpoint poke_string (i : Z) (s : list Z) : M (intr D) unit :=
  match s with
  | [] => skip
  | c :: s => poke (i * 2) c;; poke (i * 2 + 1) 0x4F;; poke_string (i + 1) s
  end.

(** The decimal digits the crash screen prints for a number below 100. *)
Definition small_decimal (n : Z) : list Z :=
  if 10 <=? n then [48 + n / 10; 48 + n mod 10] else [48 + n].

Definition crash_screen (n : Z) : M (intr D) unit :=
  for_ 0 (trips 0 2000) (λ i, poke (2 * i) 32;; poke (2 * i + 1) 0x4F);;
  let msg := str "CRITICAL EXCEPTION: " in
  poke_string 0 msg;;
  poke_string (Z.of_nat (length msg)) (small_decimal n);;
  halt.

(** The handlers themselves belong to other components. *)
Context (run_handler : handler → registers → M (intr D) unit).

Definition isr_handler (regs : registers) : M (intr D) unit :=
  t ← gets interrupt_handlers;
  h ← expect (arr_get t (int_no regs));
  match h with
  | Some f => run_handler f regs
  | None => when (int_no regs <? 32) (crash_screen (int_no regs))
  end.

Definition irq_handler (regs : registers) : M (intr D) unit :=
  on_dev (pic_send_eoi (w8 (int_no regs - 32)));;
  t ← gets interrupt_handlers;
  h ← expect (arr_get t (int_no regs));
  match h with
  | Some f => run_handler f regs
  | None => skip
  end.

End idt.

(** The address a gate holds, as the processor puts it together. *)
Definition gate_base (g : idt_entry) : Z := base_low g + 65536 * base_high g.

(** A gate through which the processor enters [a] with interrupts off: present, a 32-bit
    interrupt gate which programs cannot call, for the code segment of the kernel, and each
    field within its width. *)
Definition is_interrupt_gate (a : Z) (g : idt_entry) : Prop :=
  gate_base g = a ∧ 0 ≤ base_low g < 65536 ∧ 0 ≤ base_high g < 65536 ∧ sel g = 0x08 ∧ always0 g = 0 ∧
  0 ≤ gate_flags g < 256 ∧ Z.testbit (gate_flags g) 7 = true ∧ (gate_flags g / 32) mod 4 = 0 ∧ gate_flags g mod 32 = 14.

(** A gate that is not present, with nothing in it. *)
Definition empty_gate : idt_entry := mkGate 0 0 0 0 0.

(** The gate of a vector after [idt_init]. *)
Definition gate_of `{IsrAddresses} (i : Z) : idt_entry :=
  if i <? 32 then gate (isr_stub i) 0x08 0x8E
  else if i <? 48 then gate (irq_stub (i - 32)) 0x08 0x8E else gate 0 0 0.

(** A number in decimal, by the printer of the library. *)
Definition decimal (n : Z) : list Z := str (pretty n).

(** The characters of the screen from cell [i] on. *)
Definition screen_text (m : gmap Z Z) (i n : Z) : list Z :=
  (λ k, default 0 (m !! (0xB8000 + 2 * k))) <$> seqZ i n.

(** A frame with a vector number and nothing else. *)
Definition regs_demo (n : Z) : registers := mkRegs 0 0 0 0 0 0 0 0 0 n 0 0 0 0 0 0.

Definition stubs_demo : IsrAddresses :=
  {| isr_stub i := 0x100000 + 16 * i; irq_stub i := 0x101000 + 16 * i; idt_address := 0x102000 |}.

Definition intr_demo : intr (chip * chip) :=
  mkIntr (replicate 256 (gate 0 0 0)) (mkIdtPtr 0 0) (replicate 256 None) None ∅
    (chip_demo, chip_demo).

(** ** Lemmas *)

Lemma land_FFFF x : Z.land x 0xFFFF = x mod 65536.
Proof. change 0xFFFF with (Z.ones 16). by rewrite Z.land_ones by lia. Qed.

Lemma gate_base_id b sl fl : is_u32 b → gate_base (gate b sl fl) = b.
Proof.
  intros Hb. unfold gate_base. cbn [base_low base_high gate].
  rewrite !land_FFFF, Z.shiftr_div_pow2 by lia. change (2 ^ 16) with 65536. mlia.
Qed.

Section lemmas.
Context {D : Type} `{PicDevice D} `{IsrAddresses}.
Implicit Types s : intr D.

Lemma wp_idt_set_gate num b sl fl s (Q : unit → intr D → Prop) :
  0 ≤ num < Z.of_nat (length (idt s)) →
  Q tt (set_idt (arr_set (idt s) num (gate b sl fl)) s) → wp (idt_set_gate num b sl fl) s Q.
Proof.
  intros Hn HQ. unfold idt_set_gate. wp_step. wp_step.
  rewrite (proj2 (in_range_true _ _) Hn). exact HQ.
Qed.

(** A loop that fills gates [f 0], [f 1], ... from vector [lo] on. *)
Lemma wp_fill_gates lo n (f : Z → Z) sl fl s (Q : unit → intr D → Prop) :
  0 ≤ lo → lo + Z.of_nat n ≤ Z.of_nat (length (idt s)) →
  (∀ t, length t = length (idt s) →
     (∀ i, arr_get t i = if (lo <=? i) && (i <? lo + Z.of_nat n) then Some (gate (f (i - lo)) sl fl)
                         else arr_get (idt s) i) →
     Q tt (set_idt t s)) →
  wp (for_ 0 n (λ i, idt_set_gate (lo + i) (f i) sl fl)) s Q.
Proof.
  intros Hlo Hn HQ.
  apply wp_for with (λ k s', ∃ t, s' = set_idt t s ∧ length t = length (idt s) ∧
    ∀ i, arr_get t i = if (lo <=? i) && (i <? lo + k) then Some (gate (f (i - lo)) sl fl)
                       else arr_get (idt s) i).
  - exists (idt s). split_and!; [by destruct s|done|]. intros i.
    destruct (Z.leb_spec lo i), (Z.ltb_spec i (lo + 0)); (lia || done).
  - intros k s' Hk (t & -> & Hlen & Ht). apply wp_idt_set_gate; [cbn; lia|].
    eexists. split; [done|]. cbn [idt set_idt]. split; [by rewrite length_arr_set|]. intros i.
    destruct (Z.eq_dec (lo + k) i) as [<-|Hne].
    + rewrite arr_get_set_eq by lia. replace (lo + k - lo) with k by lia.
      destruct (Z.leb_spec lo (lo + k)), (Z.ltb_spec (lo + k) (lo + (k + 1))); (lia || done).
    + rewrite arr_get_set_ne, Ht by done.
      destruct (Z.leb_spec lo i), (Z.ltb_spec i (lo + k)), (Z.ltb_spec i (lo + (k + 1))); (lia || done).
  - intros s' (t & -> & Hlen & Ht). by apply HQ.
Qed.

Lemma wp_clear_idt s (Q : unit → intr D → Prop) :
  length (idt s) = 256%nat → length (interrupt_handlers s) = 256%nat →
  (∀ t h, length t = 256%nat → length h = 256%nat →
     (∀ i, 0 ≤ i < 256 → arr_get t i = Some (gate 0 0 0) ∧ arr_get h i = Some None) →
     Q tt (set_interrupt_handlers h (set_idt t s))) →
  wp (for_ 0 (trips 0 IDT_ENTRIES) (λ i, idt_set_gate i 0 0 0;; clear_handler i)) s Q.
Proof.
  intros Hl1 Hl2 HQ. change (trips 0 IDT_ENTRIES) with 256%nat.
  apply wp_for with (λ k s', ∃ t h, s' = set_interrupt_handlers h (set_idt t s) ∧
    length t = 256%nat ∧ length h = 256%nat ∧
    ∀ i, 0 ≤ i < k → arr_get t i = Some (gate 0 0 0) ∧ arr_get h i = Some None).
  - exists (idt s), (interrupt_handlers s). split_and!; [by destruct s|done|done|]. intros i Hi. lia.
  - intros k s' Hk (t & h & -> & Ht & Hh & Hi). wp_step. apply wp_idt_set_gate; [cbn; lia|].
    unfold clear_handler. wp_step. wp_step. cbn [interrupt_handlers set_idt set_interrupt_handlers idt].
    rewrite (proj2 (in_range_true h k) ltac:(lia)). wp_step. exists (arr_set t k (gate 0 0 0)), (arr_set h k None).
    split; [done|]. rewrite !length_arr_set. split_and!; [done|done|]. intros i Hik.
    destruct (Z.eq_dec k i) as [<-|Hne]; [by rewrite !arr_get_set_eq by lia|].
    rewrite !arr_get_set_ne by done. apply Hi. lia.
  - intros s' (t & h & -> & Ht & Hh & Hi). by apply HQ.
Qed.

Lemma wp_on_dev {A} (m : M D A) s (Q : A → intr D → Prop) :
  wp m (dev s) (λ a d, Q a (set_dev d s)) → wp (on_dev m) s Q.
Proof. apply wp_zoom. Qed.

(** What the port program of [pic_remap] does to the devices, for [idt_init]. *)
Lemma pic_remap_runs (d : D) o1 o2 : ∃ d', pic_remap o1 o2 d = Ret tt d'.
Proof.
  assert (wp (pic_remap o1 o2) d (λ _ _, True)) as Hw.
  { unfold pic_remap. wp_step. apply wp_inb. intros d1 _. wp_step. apply wp_inb. intros d2 _.
    do 8 (wp_step; apply wp_outb; intros ? _; wp_step; apply wp_io_wait; intros ? _).
    wp_step. apply wp_outb. intros ? _. by apply wp_outb. }
  destruct (wp_ex _ _ _ Hw) as ([] & d' & E0 & _). by exists d'.
Qed.

End lemmas.

(** What [idt_init] leaves. *)
Lemma idt_init_run {D} `{PicDevice D} `{IsrAddresses} (s : intr D) :
  length (idt s) = 256%nat → length (interrupt_handlers s) = 256%nat →
  (∀ i, 0 ≤ i < 32 → is_u32 (isr_stub i)) → (∀ i, 0 ≤ i < 16 → is_u32 (irq_stub i)) →
  wp idt_init s (λ _ s',
    (∀ i, 0 ≤ i < 256 → arr_get (idt s') i = Some (gate_of i) ∧
                        arr_get (interrupt_handlers s') i = Some None) ∧
    (∀ i, 0 ≤ i < 32 → gate_base (gate_of i) = isr_stub i) ∧
    (∀ i, 0 ≤ i < 16 → gate_base (gate_of (32 + i)) = irq_stub i) ∧
    idtr s' = Some (mkIdtPtr 2047 idt_address) ∧
    pic_remap 0x20 0x28 (dev s) = Ret tt (dev s') ∧ length (interrupt_handlers s') = 256%nat).
Proof.
  intros Hl1 Hl2 Hisr Hirq. unfold idt_init. wp_step. wp_step. wp_step. apply wp_clear_idt; [done|done|].
  intros t h Ht Hh Hi. wp_step. apply wp_on_dev.
  destruct (pic_remap_runs (dev s) 0x20 0x28) as [d' Ed].
  unfold wp at 1. change (dev _) with (dev s) at 1. rewrite Ed. wp_step.
  apply (wp_fill_gates 0 32 isr_stub); [lia|cbn; lia|]. intros t1 Hlen1 Ht1. cbn in Hlen1. wp_step.
  apply (wp_fill_gates 32 16 irq_stub); [lia|cbn; lia|]. intros t2 Hlen2 Ht2.
  unfold idt_flush. wp_step. cbn [idt set_idt set_idtr interrupt_handlers idtr dev set_dev].
  split_and!; [| | |done|done|done].
  - intros i Hir. destruct (Hi i Hir) as [Hg Hn]. split; [|exact Hn].
    rewrite Ht2. cbn [idt set_idt]. rewrite Ht1. cbn [idt set_idt set_dev set_interrupt_handlers].
    rewrite Hg. unfold gate_of. rewrite Z.sub_0_r.
    change (Z.of_nat 32) with 32. change (Z.of_nat 16) with 16.
    destruct (Z.ltb_spec i 32), (Z.leb_spec 32 i), (Z.ltb_spec i (32 + 16)), (Z.leb_spec 0 i),
      (Z.ltb_spec i 48), (Z.ltb_spec i (0 + 32)); (lia || done).
  - intros i Hir. unfold gate_of. destruct (Z.ltb_spec i 32); [|lia]. by apply gate_base_id, Hisr.
  - intros i Hir. unfold gate_of. destruct (Z.ltb_spec (32 + i) 32); [lia|].
    destruct (Z.ltb_spec (32 + i) 48); [|lia]. replace (32 + i - 32) with i by lia.
    by apply gate_base_id, Hirq.
Qed.

Lemma gate_is_interrupt_gate a : is_u32 a → is_interrupt_gate a (gate a 0x08 0x8E).
Proof.
  intros Ha. split; [by apply gate_base_id|]. cbn [base_low base_high sel always0 gate_flags gate].
  rewrite !land_FFFF. split_and!; (done || mlia).
Qed.

(** ** Properties *)

(** C24. After [idt_init] the vectors 0 to 31 lead to the exception stubs and the vectors 32 to
    47 to the stubs of the interrupt lines, each through a present 32-bit interrupt gate of
    privilege 0 with the selector of the kernel's code and the address split so that the
    processor reads it back; the gates of the other vectors are empty, no handler is
    registered, and the processor uses the table. *)
Theorem idt_init_gates {D} `{PicDevice D} `{IsrAddresses} (s : intr D) :
  length (idt s) = 256%nat → length (interrupt_handlers s) = 256%nat →
  (∀ i, 0 ≤ i < 32 → is_u32 (isr_stub i)) → (∀ i, 0 ≤ i < 16 → is_u32 (irq_stub i)) →
  wp idt_init s (λ _ s',
    (∀ i, 0 ≤ i < 32 → ∃ g, arr_get (idt s') i = Some g ∧ is_interrupt_gate (isr_stub i) g) ∧
    (∀ i, 0 ≤ i < 16 → ∃ g, arr_get (idt s') (32 + i) = Some g ∧ is_interrupt_gate (irq_stub i) g) ∧
    (∀ i, 48 ≤ i < 256 → arr_get (idt s') i = Some empty_gate) ∧
    (∀ i, 0 ≤ i < 256 → arr_get (interrupt_handlers s') i = Some None) ∧
    idtr s' = Some (mkIdtPtr 2047 idt_address) ∧
    pic_remap 0x20 0x28 (dev s) = Ret tt (dev s')).
Proof.
  intros Hl1 Hl2 Hisr Hirq. eapply wp_mono; [by apply idt_init_run|].
  intros [] s' (Hg & _ & _ & Hr & Hd & _). split_and!; [| | | |done|done].
  - intros i Hi. eexists. split; [apply Hg; lia|]. unfold gate_of.
    destruct (Z.ltb_spec i 32); [|lia]. by apply gate_is_interrupt_gate, Hisr.
  - intros i Hi. eexists. split; [apply Hg; lia|]. unfold gate_of. destruct (Z.ltb_spec (32 + i) 32); [lia|].
    destruct (Z.ltb_spec (32 + i) 48); [|lia]. replace (32 + i - 32) with i by lia. by apply gate_is_interrupt_gate, Hirq.
  - intros i Hi. destruct (Hg i ltac:(lia)) as [-> _]. unfold gate_of.
    by destruct (Z.ltb_spec i 32), (Z.ltb_spec i 48); try lia.
  - intros i Hi. by apply Hg.
Qed.

(** ** Dispatch *)

Section dispatch.
Context {D : Type} `{PicDevice D}.
Implicit Types s : intr D.

(** Text written to cells [i], [i+1], ...: those cells hold it, the others are kept. *)
Lemma wp_poke_string i txt s (Q : unit → intr D → Prop) :
  (∀ m, (∀ k, i ≤ k < i + Z.of_nat (length txt) →
           m !! (0xB8000 + 2 * k) = txt !! Z.to_nat (k - i)) →
        (∀ k, ~ i ≤ k < i + Z.of_nat (length txt) →
           m !! (0xB8000 + 2 * k) = vga s !! (0xB8000 + 2 * k)) →
        Q tt (set_vga m s)) →
  wp (poke_string i txt) s Q.
Proof.
  revert i s. induction txt as [|c txt IH]; intros i s HQ; cbn [poke_string].
  - wp_step. replace s with (set_vga (vga s) s) by by destruct s. apply HQ; [|done].
    intros k Hk. cbn in Hk. lia.
  - unfold poke. wp_steps. apply IH. intros m Hin Hout.
    change (set_vga m _) with (set_vga m s). cbn [vga set_vga] in Hout. apply HQ.
    + intros k Hk. cbn [length] in Hk. destruct (Z.eq_dec k i) as [->|].
      * rewrite Hout by lia. rewrite lookup_insert_ne by lia.
        rewrite Z.sub_diag.
        replace (0xB8000 + i * 2) with (0xB8000 + 2 * i) by lia. by rewrite lookup_insert_eq.
      * rewrite Hin by lia. replace (Z.to_nat (k - i)) with (S (Z.to_nat (k - (i + 1)))) by lia. done.
    + intros k Hk. cbn [length] in Hk. rewrite Hout by lia.
      by rewrite !lookup_insert_ne by lia.
Qed.

Lemma wp_blank_screen s (Q : unit → intr D → Prop) :
  (∀ m, (∀ k, 0 ≤ k < 2000 → m !! (0xB8000 + 2 * k) = Some 32) → Q tt (set_vga m s)) →
  wp (for_ 0 (trips 0 2000) (λ i, poke (2 * i) 32;; poke (2 * i + 1) 0x4F)) s Q.
Proof.
  intros HQ. apply wp_for with (λ i s', ∃ m, s' = set_vga m s ∧
    ∀ k, 0 ≤ k < i → m !! (0xB8000 + 2 * k) = Some 32).
  - exists (vga s). split; [by destruct s|]. intros k Hk. lia.
  - intros i s' Hi (m & -> & Hm). unfold poke. wp_steps. eexists. split; [done|]. cbn [vga set_vga].
    intros k Hk. rewrite lookup_insert_ne by lia. destruct (Z.eq_dec k i) as [->|].
    + by rewrite lookup_insert_eq.
    + rewrite lookup_insert_ne by lia. apply Hm. lia.
  - intros s' (m & -> & Hm). apply HQ. intros k Hk. apply Hm.
    unfold trips. rewrite Z2Nat.id by lia. lia.
Qed.

Lemma screen_text_spec m i txt :
  (∀ k, i ≤ k < i + Z.of_nat (length txt) → m !! (0xB8000 + 2 * k) = txt !! Z.to_nat (k - i)) →
  screen_text m i (Z.of_nat (length txt)) = txt.
Proof.
  intros Hm. apply list_eq. intros j. unfold screen_text. rewrite list_lookup_fmap.
  destruct (decide (j < length txt)%nat) as [Hj|Hj].
  - rewrite lookup_seqZ_lt by lia. cbn [fmap option_fmap option_map]. rewrite Hm by lia.
    replace (Z.to_nat (i + Z.of_nat j - i)) with j by lia.
    destruct (lookup_lt_is_Some_2 txt j Hj) as [x Hx]. by rewrite Hx.
  - rewrite lookup_seqZ_ge by lia. symmetry. apply lookup_ge_None. lia.
Qed.

(** The crash screen ends the machine with the message on the screen. *)
Lemma small_decimal_spec n : 0 ≤ n < 32 → small_decimal n = decimal n.
Proof.
  assert (Hall : Forall (λ n, small_decimal n = decimal n) (seqZ 0 32)) by (vm_compute; repeat constructor).
  rewrite Forall_forall in Hall. intros Hn. apply Hall, elem_of_seqZ. lia.
Qed.

Lemma crash_screen_run n s :
  0 ≤ n < 32 →
  ∃ m, crash_screen n s = Halt (set_vga m s) ∧
    screen_text m 0 (20 + Z.of_nat (length (decimal n))) =
      str "CRITICAL EXCEPTION: " ++ decimal n ∧
    ∀ k, 20 + Z.of_nat (length (decimal n)) ≤ k < 2000 → m !! (0xB8000 + 2 * k) = Some 32.
Proof.
  intros Hn. rewrite <- small_decimal_spec by done. set (num := small_decimal n). set (msg := str "CRITICAL EXCEPTION: ").
  assert (Hlen : length msg = 20%nat) by done.
  assert (wp (for_ 0 (trips 0 2000) (λ i, poke (2 * i) 32;; poke (2 * i + 1) 0x4F);;
    poke_string 0 msg;; poke_string (Z.of_nat (length msg)) num) s (λ _ s', ∃ m, s' = set_vga m s ∧
      screen_text m 0 (20 + Z.of_nat (length num)) = msg ++ num ∧
      ∀ k, 20 + Z.of_nat (length num) ≤ k < 2000 → m !! (0xB8000 + 2 * k) = Some 32)) as Hw.
  { wp_step. apply wp_blank_screen. intros m0 Hm0. wp_step. apply wp_poke_string. intros m1 Hin1 Hout1.
    apply wp_poke_string. intros m2 Hin2 Hout2. exists m2. split; [done|].
    cbn [vga set_vga] in Hout1, Hout2. rewrite Hlen in *. split.
    - replace (20 + Z.of_nat (length num)) with (Z.of_nat (length (msg ++ num))) by (rewrite length_app; lia).
      apply screen_text_spec. intros k Hk. rewrite length_app in Hk.
      destruct (Z.lt_ge_cases k 20).
      + rewrite Hout2, Hin1 by lia. rewrite lookup_app_l by lia. done.
      + rewrite Hin2 by lia. rewrite lookup_app_r by lia. f_equal. lia.
    - intros k Hk. rewrite Hout2, Hout1 by lia. apply Hm0. lia. }
  destruct (wp_ex _ _ _ Hw) as ([] & s' & Erun & m & -> & Htxt & Hrest). exists m.
  split_and!; [|done|done]. unfold crash_screen. fold msg num. clear Hw. revert Erun. unfold bind.
  destruct (for_ _ _ _ s) as [[] s1| | |]; [|done..].
  destruct (poke_string 0 msg s1) as [[] s2| | |]; [|done..]. by intros ->.
Qed.

End dispatch.

(** An exception without a registered handler stops the machine with its number on the
    screen and the rest of the screen blank; a vector with a handler runs that handler and
    nothing else; any other vector is ignored. *)
Theorem isr_handler_dispatch {D} `{PicDevice D} (run : handler → registers → M (intr D) unit) regs
    (s : intr D) h :
  arr_get (interrupt_handlers s) (int_no regs) = Some h →
  match h with
  | Some f => isr_handler run regs s = run f regs s
  | None =>
      if int_no regs <? 32 then
        ∃ m, isr_handler run regs s = Halt (set_vga m s) ∧
          screen_text m 0 (20 + Z.of_nat (length (decimal (int_no regs)))) =
            str "CRITICAL EXCEPTION: " ++ decimal (int_no regs) ∧
          ∀ k, 20 + Z.of_nat (length (decimal (int_no regs))) ≤ k < 2000 →
            m !! (0xB8000 + 2 * k) = Some 32
      else isr_handler run regs s = Ret tt s
  end.
Proof.
  intros Hh. pose proof (arr_get_Some_range _ _ _ Hh) as Hr.
  unfold isr_handler, bind, gets. rewrite Hh. cbn [expect ret].
  destruct h as [f|]; [done|]. destruct (Z.ltb_spec (int_no regs) 32); [|done].
  cbn [when]. apply crash_screen_run. lia.
Qed.

Lemma end_of_only k : 0 ≤ k < 8 → end_of_interrupt (Z.shiftl 1 k) = 0.
Proof.
  intros Hk. assert (k = 0 ∨ k = 1 ∨ k = 2 ∨ k = 3 ∨ k = 4 ∨ k = 5 ∨ k = 6 ∨ k = 7) as Hc by lia.
  repeat destruct Hc as [->|Hc]; try subst; done.
Qed.

(** [irq_handler] acknowledges the interrupt before it runs the handler: the master
    controller gets an end of interrupt, and the slave too for the lines 8 to 15, so that a
    line that was the only one in service is no longer in service; then the registered
    handler runs, if there is one. *)
Theorem irq_handler_eoi {D} `{PicDevice D} (run : handler → registers → M (intr D) unit) regs
    (s : intr D) h :
  32 ≤ int_no regs < 48 → arr_get (interrupt_handlers s) (int_no regs) = Some h →
  let line := int_no regs - 32 in
  ∃ d', irq_handler run regs s = (match h with Some f => run f regs | None => skip end) (set_dev d' s) ∧
    c_isr (chips d').1 = end_of_interrupt (c_isr (chips (dev s)).1) ∧
    c_isr (chips d').2 = (if line <? 8 then c_isr (chips (dev s)).2
                          else end_of_interrupt (c_isr (chips (dev s)).2)) ∧
    c_imr (chips d').1 = c_imr (chips (dev s)).1 ∧ c_imr (chips d').2 = c_imr (chips (dev s)).2 ∧
    (line < 8 → c_isr (chips (dev s)).1 = Z.shiftl 1 line → c_isr (chips d').1 = 0) ∧
    (8 ≤ line → c_isr (chips (dev s)).2 = Z.shiftl 1 (line - 8) → c_isr (chips d').2 = 0).
Proof.
  intros Hn Hh line.
  assert (wp (pic_send_eoi (w8 line)) (dev s) (λ _ d',
    chips d' = (chip_command 0x20 (chips (dev s)).1,
                if line <? 8 then (chips (dev s)).2 else chip_command 0x20 (chips (dev s)).2))) as Hw.
  { rewrite w8_small by lia. unfold pic_send_eoi. wp_step. apply wp_when; intros Hl.
    - apply wp_outb. intros d1 Hd1. apply wp_outb. intros d2 Hd2. rewrite Hd2, Hd1.
      change (w8 PIC_EOI) with 0x20. autorewrite with pic. cbn [fst snd].
      destruct (Z.ltb_spec line 8); [lia|]. done.
    - apply wp_outb. intros d2 Hd2. rewrite Hd2.
      change (w8 PIC_EOI) with 0x20. autorewrite with pic. destruct (Z.ltb_spec line 8); [done|lia]. }
  destruct (wp_ex _ _ _ Hw) as ([] & d' & Erun & Hd'). exists d'. split.
  { unfold irq_handler, on_dev, zoom, bind, gets. fold line. rewrite Erun. cbn [interrupt_handlers set_dev].
    rewrite Hh. done. }
  rewrite Hd'. split_and!; cbn [fst snd]; [done|by destruct (line <? 8)|done|by destruct (line <? 8)|..].
  - intros Hl Eisr. cbn. rewrite Eisr. apply end_of_only. lia.
  - intros Hl Eisr. destruct (Z.ltb_spec line 8); [lia|]. cbn. rewrite Eisr. apply end_of_only. lia.
Qed.

(** ** The properties at concrete inputs *)

Lemma idt_init_gates_witness :
  wp (@idt_init _ _ stubs_demo) intr_demo (λ _ s',
    arr_get (idt s') 33 = Some (mkGate 0x1010 0x08 0 0x8E 0x10) ∧ arr_get (idt s') 128 = Some (mkGate 0 0 0 0 0)).
Proof.
  eapply wp_mono; [refine (@idt_init_gates _ _ _ stubs_demo intr_demo eq_refl eq_refl _ _);
    intros i Hi; unfold is_u32; cbn; lia|].
  intros [] s' (_ & Hg & He & _). split; [|exact (He 128 ltac:(lia))].
  destruct (Hg 1 ltac:(lia)) as ([lo sl z fl hi] & E & Hb & Hlo & Hhi & Hsel & Hz & Hfl & Hp & Hdpl & Hty).
  change (32 + 1) with 33 in E. rewrite E. unfold gate_base in Hb.
  cbn in Hb, Hlo, Hhi, Hsel, Hz. cbn [gate_flags] in Hfl, Hp, Hdpl, Hty. subst sl z.
  rewrite Z.testbit_eqb in Hp by lia. change (2 ^ 7) with 128 in Hp.
  replace lo with 0x1010 by lia. replace hi with 0x10 by lia. by replace fl with 0x8E by mlia.
Defined.

Lemma isr_handler_dispatch_witness :
  ∃ m, isr_handler (λ _ _, skip) (regs_demo 13) intr_demo = Halt (set_vga m intr_demo) ∧
    screen_text m 0 22 = str "CRITICAL EXCEPTION: 13".
Proof.
  destruct (isr_handler_dispatch (λ _ _, skip) (regs_demo 13) intr_demo None eq_refl)
    as (m & Hrun & Htxt & _).
  exists m. split; [exact Hrun|exact Htxt].
Defined.

Lemma irq_handler_eoi_witness :
  ∃ d', irq_handler (λ _ _, skip) (regs_demo 33) intr_demo = Ret tt (set_dev d' intr_demo) ∧
    c_imr d'.1 = 0xFB.
Proof.
  destruct (irq_handler_eoi (λ _ _, skip) (regs_demo 33) intr_demo None ltac:(cbn; lia) eq_refl)
    as (d' & Hrun & _ & _ & Himr & _).
  exists d'. split; [exact Hrun|exact Himr].
Defined.
