(* ===== verification/Timer.v ===== *)
(** * The timer (src/src/timer.c, src/src/timer.h)

    The tick counter, the time slice, the programming of the interval timer, and the
    waiting loop.  The interrupt routine [timer_callback] is here up to its call of the
    scheduler ([timer_tick]), and with that call in Kernel.v. *)

From S2P Require Import Prelude Pic Idt.

(** ** Data *)

Definition PIT_CHANNEL0 : Z := 0x40.

Definition PIT_COMMAND : Z := 0x43.

Record timer := mkTimer {
  ticks : Z;
  preemption_enabled : bool;
  time_slice : Z;
  slice_remaining : Z
}.

(** The initial values of the static variables. *)
Definition timer_start : timer := mkTimer 0 false 10 0.

Definition set_ticks (n : Z) (t : timer) : timer :=
  mkTimer n (preemption_enabled t) (time_slice t) (slice_remaining t).

Definition set_slice (n : Z) (t : timer) : timer :=
  mkTimer (ticks t) (preemption_enabled t) (time_slice t) n.

(** ** Operations *)

Definition timer_get_ticks : M timer Z := gets ticks.

Definition timer_enable_preemption : M timer unit :=
  modify (λ t, set_slice (time_slice t) t);;
  modify (λ t, mkTimer (ticks t) true (time_slice t) (slice_remaining t)).

Definition timer_disable_preemption : M timer unit :=
  modify (λ t, mkTimer (ticks t) false (time_slice t) (slice_remaining t)).

(** [timer_callback] on the variables of timer.c, and whether it goes on to yield. *)
Definition timer_tick : M timer bool :=
  modify (λ t, set_ticks (ticks t +w 1) t);;
  t ← gets id;
  if preemption_enabled t then
    when (0 <? slice_remaining t) (modify (λ t, set_slice (slice_remaining t -w 1) t));;
    t ← gets id;
    if slice_remaining t =? 0 then modify (λ t, set_slice (time_slice t) t);; ret true else ret false
  else ret false.

(** What ends a [hlt]: the interrupt of the timer, or another one.  With preemption the first may
    take the processor away, and then other processes take the interrupts until the scheduler
    comes back. *)
Inductive irq :=
| TimerIrq
| OtherIrq
| Resumed.

(** [timer_wait] with these events as input; [running] is false while other processes run.
    Without a further event the processor stays halted. *)
Fixpoint wait_loop (running : bool) (fin : Z) (irqs : list irq) : M timer (list irq) :=
  t ← timer_get_ticks;
  if running && negb (t <? fin) then ret irqs else
  match irqs with
  | [] => halt
  | TimerIrq :: irqs => yield ← timer_tick; wait_loop (running && negb yield) fin irqs
  | OtherIrq :: irqs => wait_loop running fin irqs
  | Resumed :: irqs => wait_loop true fin irqs
  end.

Definition timer_wait (wait_ticks : Z) (irqs : list irq) : M timer (list irq) :=
  t ← timer_get_ticks;
  wait_loop true (t +w wait_ticks) irqs.

Section init.
Context {D : Type} `{Device D}.

Definition in_handlers {A} (m : M (list (option handler)) A) : M (intr D) A :=
  zoom interrupt_handlers set_interrupt_handlers m.

Definition timer_init (frequency : Z) : M (intr D) unit :=
  in_handlers (register_interrupt_handler 32 timer_callback_fn);;
  if frequency =? 0 then undef else
  let divisor := 1193180 / frequency in
  let low := w8 (Z.land divisor 0xFF) in
  let high := w8 (Z.land (Z.shiftr divisor 8) 0xFF) in
  on_dev (
    outb PIT_COMMAND 0x36;;
    outb PIT_CHANNEL0 low;;
    outb PIT_CHANNEL0 high;;
    pic_clear_mask 0).

End init.

(** Number of timer interrupts in a sequence. *)
Definition one_tick (i : irq) : Z := match i with TimerIrq => 1 | _ => 0 end.

Definition count_ticks (irqs : list irq) : Z := foldr (λ i n, one_tick i + n) 0 irqs.

(** ** Lemmas *)

Lemma count_ticks_nonneg irqs : 0 ≤ count_ticks irqs.
Proof. induction irqs as [|i irqs IH]; [done|]. cbn. fold (count_ticks irqs). destruct i; cbn; lia. Qed.

(** A tick with preemption off. *)
Lemma timer_tick_off t : preemption_enabled t = false → timer_tick t = Ret false (set_ticks (ticks t +w 1) t).
Proof. intros Hp. unfold timer_tick, bind, modify, gets, id. cbn. by rewrite Hp. Qed.

Lemma timer_tick_counts t : ∃ b t', timer_tick t = Ret b t' ∧ ticks t' = ticks t +w 1.
Proof.
  unfold timer_tick, bind, modify, gets, id, when, ret, skip, set_ticks, set_slice. cbn.
  destruct (preemption_enabled t), (0 <? slice_remaining t), t as [n e ts r]; cbn; [destruct (r -w 1 =? 0)|destruct (r =? 0)|..]; eauto.
Qed.

Lemma wp_wait_loop fin irqs t (Q : list irq → timer → Prop) :
  preemption_enabled t = false → is_u32 fin → is_u32 (ticks t) → fin ≤ ticks t + count_ticks irqs →
  (∀ used rest, irqs = used ++ rest → count_ticks used = Z.max 0 (fin - ticks t) →
     Q rest (set_ticks (Z.max (ticks t) fin) t)) →
  wp (wait_loop true fin irqs) t Q.
Proof.
  intros Hp Hf. revert t Hp. induction irqs as [|i irqs IH]; intros t Hp Ht Hen HQ; cbn [wait_loop];
    wp_step; apply wp_gets; cbn [andb].
  - cbn [count_ticks foldr] in Hen. destruct (Z.ltb_spec (ticks t) fin); [lia|]. cbn [negb]. wp_step.
    replace t with (set_ticks (Z.max (ticks t) fin) t) at 1 by (destruct t; unfold set_ticks; cbn in *; f_equal; lia).
    apply (HQ [] []); [done|]. cbn. lia.
  - destruct (Z.ltb_spec (ticks t) fin); cbn [negb].
    + cbn [count_ticks foldr] in Hen. fold (count_ticks irqs) in Hen.
      assert (Hnext : ∀ t', t' = set_ticks (ticks t + one_tick i) t → wp (wait_loop true fin irqs) t' Q).
      { intros t' ->. apply IH; [done|cbn; unfold is_u32 in *; destruct i; cbn; lia|cbn; lia|].
        intros used rest -> Hc. cbn in Hc.
        replace (set_ticks _ (set_ticks _ t)) with (set_ticks (Z.max (ticks t) fin) t) by (unfold set_ticks; cbn; f_equal; destruct i; cbn; lia).
        apply (HQ (i :: used) rest); [done|]. cbn. fold (count_ticks used). rewrite Hc. destruct i; cbn; lia. }
      assert (Hid : t = set_ticks (ticks t + 0) t) by (destruct t; unfold set_ticks; cbn; f_equal; lia).
      destruct i; [|by apply Hnext..].
      wp_step. unfold wp. rewrite timer_tick_off by done. cbn [andb negb]. apply Hnext.
      rewrite w32_small; [done|]. unfold is_u32 in *. lia.
    + wp_step. replace t with (set_ticks (Z.max (ticks t) fin) t) at 1 by (destruct t; unfold set_ticks; cbn in *; f_equal; lia).
      apply (HQ [] (i :: irqs)); [done|]. cbn. lia.
Qed.

(** With preemption or without, the loop does not end before its time. *)
Lemma wlp_wait_loop running fin irqs t :
  is_u32 (ticks t) → ticks t + count_ticks irqs < 4294967296 →
  wlp (wait_loop running fin irqs) t (λ rest t',
    ∃ used, irqs = used ++ rest ∧ ticks t' = ticks t + count_ticks used ∧ fin ≤ ticks t').
Proof.
  revert running t. induction irqs as [|i irqs IH]; intros running t Ht Hw; cbn [wait_loop];
    apply wlp_bind, wp_wlp, wp_gets; (destruct (running && negb (ticks t <? fin)) eqn:E;
      [apply andb_prop in E as [_ E]; apply wp_wlp; wp_step; exists []; cbn; split_and!; [done|lia|lia]|]); [done|].
  cbn [count_ticks foldr] in Hw. fold (count_ticks irqs) in Hw. pose proof (count_ticks_nonneg irqs) as Hn.
  assert (Hnext : ∀ r t', ticks t' = ticks t + one_tick i → wlp (wait_loop r fin irqs) t' (λ rest t',
    ∃ used, i :: irqs = used ++ rest ∧ ticks t' = ticks t + count_ticks used ∧ fin ≤ ticks t')).
  { intros r t' Et. eapply wlp_mono; [apply IH; [unfold is_u32 in *; destruct i; cbn in *; lia|lia]|].
    intros rest t2 (used & -> & E2 & E3). exists (i :: used). cbn. fold (count_ticks used). split_and!; [done|lia|done]. }
  destruct i; [|apply Hnext; cbn; lia..].
  destruct (timer_tick_counts t) as (b & t' & Et & Ec). apply wlp_bind, wp_wlp. unfold wp. rewrite Et.
  enough (Hx : wlp (wait_loop (running && negb b) fin irqs) t' (λ rest t',
    ∃ used, TimerIrq :: irqs = used ++ rest ∧ ticks t' = ticks t + count_ticks used ∧ fin ≤ ticks t')) by exact Hx.
  apply Hnext. rewrite Ec, w32_small; [done|]. unfold is_u32 in *. cbn in Hw. lia.
Qed.

(** It ends when the scheduler comes back after that time. *)
Lemma wp_wait_done fin irqs t : fin ≤ ticks t → wp (wait_loop true fin irqs) t (λ _ _, True).
Proof.
  intros Hf. destruct irqs; cbn [wait_loop]; wp_step; apply wp_gets; (destruct (Z.ltb_spec (ticks t) fin); [lia|]); by wp_step.
Qed.

Lemma wp_wait_resumed running fin before after t :
  is_u32 (ticks t) → ticks t + count_ticks (before ++ Resumed :: after) < 4294967296 → fin ≤ ticks t + count_ticks before →
  wp (wait_loop running fin (before ++ Resumed :: after)) t (λ _ _, True).
Proof.
  revert running t. induction before as [|i before IH]; intros running t Ht Hw Hf; cbn [app wait_loop]; wp_step; apply wp_gets;
    (destruct (running && negb (ticks t <? fin)); [by wp_step|]).
  - apply wp_wait_done. cbn in Hf. lia.
  - cbn [app count_ticks foldr] in Hw, Hf. fold (count_ticks (before ++ Resumed :: after)) in Hw. fold (count_ticks before) in Hf.
    pose proof (count_ticks_nonneg (before ++ Resumed :: after)).
    destruct i; [|apply IH; cbn in *; (done || lia)..]. destruct (timer_tick_counts t) as (b & t' & Et & Ec).
    rewrite w32_small in Ec by (unfold is_u32 in *; cbn in *; lia).
    wp_step. unfold wp at 1. rewrite Et. apply IH; unfold is_u32 in *; cbn in *; lia.
Qed.

(** ** Properties *)

(** C26. [timer_wait n], while the counter does not wrap: with preemption off it returns when
    enough interrupts come, at the [n]th one of the timer and not before, with nothing changed
    but the counter; with preemption on, when other processes run in between, it does not
    return before [n] of them either, and it does return when the scheduler comes back to it
    after the [n]th.  When the sum wraps it returns at once, whatever [n] is. *)
Theorem timer_wait_spec n t irqs :
  is_u32 n → is_u32 (ticks t) →
  (ticks t + n < 4294967296 → preemption_enabled t = false → n ≤ count_ticks irqs →
   wp (timer_wait n irqs) t (λ rest t',
     ∃ used, irqs = used ++ rest ∧ count_ticks used = n ∧ t' = set_ticks (ticks t + n) t)) ∧
  (ticks t + n < 4294967296 → ticks t + count_ticks irqs < 4294967296 →
   wlp (timer_wait n irqs) t (λ rest t',
     ∃ used, irqs = used ++ rest ∧ n ≤ count_ticks used ∧ ticks t' = ticks t + count_ticks used) ∧
   ∀ before after, irqs = before ++ Resumed :: after → n ≤ count_ticks before → wp (timer_wait n irqs) t (λ _ _, True)) ∧
  (4294967296 ≤ ticks t + n → timer_wait n irqs t = Ret irqs t).
Proof.
  intros Hn Ht. split_and!.
  - intros Hnw Hp Hen. unfold timer_wait. wp_step. apply wp_gets. rewrite w32_small by (unfold is_u32 in *; lia).
    apply wp_wait_loop; [done|unfold is_u32 in *; lia|done|lia|]. intros used rest -> Hc. exists used.
    unfold is_u32 in *. split_and!; [done|lia|]. f_equal. lia.
  - intros Hnw Hc. split.
    + unfold timer_wait. apply wlp_bind, wp_wlp, wp_gets. rewrite w32_small by (unfold is_u32 in *; lia).
      eapply wlp_mono; [by apply wlp_wait_loop|]. intros rest t' (used & -> & E1 & E2). exists used. split_and!; [done|lia|done].
    + intros before after -> Hb. unfold timer_wait. wp_step. apply wp_gets. rewrite w32_small by (unfold is_u32 in *; lia).
      apply wp_wait_resumed; [done|done|lia].
  - intros Hw. unfold timer_wait, timer_get_ticks, bind, gets.
    assert (E : ticks t +w n = ticks t + n - 4294967296).
    { unfold w32, is_u32 in *. symmetry. apply (Z.mod_unique _ _ 1); lia. }
    rewrite E. destruct irqs; cbn [wait_loop andb]; unfold timer_get_ticks, bind, gets;
      (destruct (Z.ltb_spec (ticks t) (ticks t + n - 4294967296)); [unfold is_u32 in *; lia|done]).
Qed.

Lemma timer_wait_spec_witness :
  wp (timer_wait 2 [TimerIrq; OtherIrq; TimerIrq; TimerIrq]) timer_start (λ rest t', rest = [TimerIrq] ∧ ticks t' = 2) ∧
  wp (timer_wait 2 [TimerIrq; OtherIrq; TimerIrq; TimerIrq; Resumed]) (mkTimer 0 true 10 1) (λ _ t', 2 ≤ ticks t').
Proof.
  split.
  - eapply wp_mono; [exact (proj1 (timer_wait_spec 2 timer_start [TimerIrq; OtherIrq; TimerIrq; TimerIrq]
      ltac:(unfold is_u32; lia) ltac:(unfold is_u32; cbn; lia)) ltac:(cbn; lia) eq_refl ltac:(vm_compute; discriminate))|].
    intros rest t' (used & Hu & Hc & ->). split; [|done].
    destruct used as [|a [|b [|d [|e used]]]]; cbn in Hu; simplify_eq; try discriminate Hc; [done|].
    match goal with H0 : [] = _ |- _ => symmetry in H0; apply app_eq_nil in H0 as [-> ->] end. discriminate Hc.
  - destruct (proj1 (proj2 (timer_wait_spec 2 (mkTimer 0 true 10 1) [TimerIrq; OtherIrq; TimerIrq; TimerIrq; Resumed]
      ltac:(unfold is_u32; lia) ltac:(unfold is_u32; cbn; lia))) ltac:(cbn; lia) ltac:(vm_compute; reflexivity)) as [Hearly Hlate].
    specialize (Hlate [TimerIrq; OtherIrq; TimerIrq; TimerIrq] [] eq_refl ltac:(vm_compute; discriminate)).
    eapply wp_mono; [exact (wp_wlp_and _ _ _ _ Hlate Hearly)|]. intros rest t' [_ (used & _ & Hc & ->)]. cbn. lia.
Defined.
