(* ===== verification/Keyboard.v ===== *)
(** * The keyboard (src/src/keyboard.c, src/src/keyboard.h)

    The ring buffer between the keyboard interrupt and its readers.  Interrupts may
    arrive between any two statements of a reader. *)

From S2P Require Import Prelude Pic Idt Timer.

(** ** Data *)

Definition KEYBOARD_DATA_PORT : Z := 0x60.

Definition KEYBOARD_BUFFER_SIZE : Z := 256.

Record kbd := mkKbd {
  keyboard_buffer : list Z;
  buffer_start : Z;
  buffer_end : Z
}.

(** The rows of the table as the source writes them, and the six elements it leaves to
    zero initialisation; 0 for keys without a character. *)
Definition scancode_to_ascii : list Z :=
  [0; 27; 49; 50; 51; 52; 53; 54; 55; 56; 57; 48; 45; 61; 8] ++
  [9] ++ str "qwertyuiop[]" ++ [10] ++
  [0] ++ str "asdfghjkl;'`" ++
  [0; 92] ++ str "zxcvbnm,./" ++ [0] ++
  [42; 0; 32; 0; 0; 0; 0; 0; 0; 0; 0; 0; 0; 0; 0; 0; 0; 0; 0] ++
  [45; 0; 0; 0; 43; 0; 0; 0; 0; 0; 0; 0; 0; 0; 0; 0] ++
  replicate 16 0 ++
  replicate 16 0 ++
  replicate 6 0.

(** ** Operations *)

(** The body of [keyboard_callback] once the scan code is read. *)
Definition keyboard_input (scancode : Z) : M kbd unit :=
  if truth (Z.land scancode 0x80) then skip else
  c ← expect (arr_get scancode_to_ascii scancode);
  when (truth c)
    (k ← gets id;
     let nxt := (buffer_end k +w 1) mod KEYBOARD_BUFFER_SIZE in
     when (negb (nxt =? buffer_start k))
       (if in_range (keyboard_buffer k) (buffer_end k)
        then modify (λ k, mkKbd (arr_set (keyboard_buffer k) (buffer_end k) c)
                            (buffer_start k) nxt)
        else undef)).

Definition keyboard_callback {D} `{Device D} : M (kbd * D) unit :=
  sc ← zoom snd (λ d s, (s.1, d)) (inb KEYBOARD_DATA_PORT);
  zoom fst (λ k s, (k, s.2)) (keyboard_input sc).

Definition keyboard_init {D} `{Device D} : M (intr D) unit :=
  in_handlers (register_interrupt_handler 33 keyboard_callback_fn);;
  on_dev (pic_clear_mask 1).

Definition keyboard_has_input : M kbd bool :=
  gets (λ k, negb (buffer_start k =? buffer_end k)).

(** The statements of [keyboard_get_char]: the test of its loop, the read of the first
    character, and the step to the next one. *)
Definition no_input : M kbd bool := gets (λ k, buffer_start k =? buffer_end k).

Definition first_char : M kbd Z := k ← gets id; expect (arr_get (keyboard_buffer k) (buffer_start k)).

Definition advance : M kbd unit :=
  modify (λ k, mkKbd (keyboard_buffer k) ((buffer_start k +w 1) mod KEYBOARD_BUFFER_SIZE) (buffer_end k)).

(** [keyboard_get_char] with the scan codes of the interrupts that end its [hlt]s as
    input. *)
Fixpoint keyboard_get_char (irqs : list Z) : M kbd (Z * list Z) :=
  empty ← no_input;
  if empty then
    match irqs with
    | [] => halt
    | sc :: irqs => keyboard_input sc;; keyboard_get_char irqs
    end
  else
    c ← first_char;
    advance;;
    ret (c, irqs).

(** ** Abstract view: a queue of at most 255 characters *)

Definition pending (k : kbd) : list Z :=
  (λ i, default 0 (arr_get (keyboard_buffer k) ((buffer_start k + i) mod 256))) <$>
    seqZ 0 ((buffer_end k - buffer_start k) mod 256).

Definition kbd_wf (k : kbd) : Prop :=
  length (keyboard_buffer k) = 256%nat ∧ 0 ≤ buffer_start k < 256 ∧ 0 ≤ buffer_end k < 256.

(** The character a scan code stands for: none for releases and for keys without one. *)
Definition typed (scancode : Z) : option Z :=
  if truth (Z.land scancode 0x80) then None else
  match arr_get scancode_to_ascii scancode with
  | Some c => if c =? 0 then None else Some c
  | None => None
  end.

(** What an interrupt adds to a queue. *)
Definition accept (q : list Z) (scancode : Z) : list Z :=
  match typed scancode with
  | Some c => if Z.of_nat (length q) <? 255 then [c] else []
  | None => []
  end.

(** A reader between its statements: at the test of the loop, past it, and with the character
    it has read. *)
Inductive reader :=
| Waiting
| Reading
| Holding (c : Z).

(** Interleavings of interrupts with the statements of a reader that calls
    [keyboard_get_char] again and again; [ins] are the characters accepted into the buffer,
    [outs] the characters returned. *)
Inductive kbd_step : kbd * reader * list Z * list Z → kbd * reader * list Z * list Z → Prop :=
| ks_irq k r ins outs sc k' :
    0 ≤ sc < 256 → keyboard_input sc k = Ret tt k' →
    kbd_step (k, r, ins, outs) (k', r, ins ++ accept (pending k) sc, outs)
| ks_test k ins outs empty k' :
    no_input k = Ret empty k' →
    kbd_step (k, Waiting, ins, outs) (k', if empty then Waiting else Reading, ins, outs)
| ks_read k ins outs c k' :
    first_char k = Ret c k' → kbd_step (k, Reading, ins, outs) (k', Holding c, ins, outs)
| ks_advance k ins outs c k' :
    advance k = Ret tt k' → kbd_step (k, Holding c, ins, outs) (k', Waiting, ins, outs ++ [c]).

Definition kbd_empty : kbd := mkKbd (replicate 256 0) 0 0.

(** ** Lemmas *)

Lemma length_pending k : Z.of_nat (length (pending k)) = (buffer_end k - buffer_start k) mod 256.
Proof. unfold pending. rewrite length_fmap, length_seqZ. mlia. Qed.

(** Putting a character at the end. *)
Lemma pending_push k c :
  kbd_wf k → (buffer_end k + 1) mod 256 ≠ buffer_start k →
  pending (mkKbd (arr_set (keyboard_buffer k) (buffer_end k) c) (buffer_start k)
    ((buffer_end k + 1) mod 256)) = pending k ++ [c].
Proof.
  intros (Hl & Hs & He) Hfull. unfold pending. cbn [keyboard_buffer buffer_start buffer_end].
  replace (((buffer_end k + 1) mod 256 - buffer_start k) mod 256)
    with ((buffer_end k - buffer_start k) mod 256 + 1) by mlia.
  rewrite seqZ_snoc by mlia. rewrite fmap_app. f_equal.
  - apply list_fmap_ext. intros j i Hi%list_elem_of_lookup_2%elem_of_seqZ. f_equal.
    apply arr_get_set_ne. mlia.
  - cbn -[arr_set arr_get Z.modulo].
    replace ((buffer_start k + (0 + (buffer_end k - buffer_start k) mod 256)) mod 256)
      with (buffer_end k) by mlia.
    by rewrite arr_get_set_eq by lia.
Qed.

(** Taking the first character. *)
Lemma pending_pop k :
  kbd_wf k → buffer_start k ≠ buffer_end k →
  ∃ c, arr_get (keyboard_buffer k) (buffer_start k) = Some c ∧
    pending k = c :: pending (mkKbd (keyboard_buffer k) ((buffer_start k + 1) mod 256) (buffer_end k)).
Proof.
  intros (Hl & Hs & He) Hne. destruct (arr_get_lt (keyboard_buffer k) (buffer_start k)) as [c Hc]; [lia|].
  exists c. split; [done|]. unfold pending. cbn [keyboard_buffer buffer_start buffer_end].
  rewrite seqZ_cons by mlia. rewrite fmap_cons. f_equal.
  - rewrite Z.add_0_r, Z.mod_small by lia. by rewrite Hc.
  - replace (Z.pred ((buffer_end k - buffer_start k) mod 256))
      with ((buffer_end k - (buffer_start k + 1) mod 256) mod 256) by mlia.
    change (Z.succ 0) with (1 + 0). rewrite <- fmap_add_seqZ, <- list_fmap_compose.
    apply list_fmap_ext. intros j i _. cbn. do 2 f_equal. mlia.
Qed.

Lemma typed_spec sc :
  0 ≤ sc < 256 →
  match typed sc with
  | Some c => truth (Z.land sc 0x80) = false ∧ arr_get scancode_to_ascii sc = Some c ∧ c ≠ 0
  | None => truth (Z.land sc 0x80) = true ∨
            truth (Z.land sc 0x80) = false ∧ arr_get scancode_to_ascii sc = Some 0
  end.
Proof.
  intros Hsc. unfold typed. destruct (truth (Z.land sc 0x80)) eqn:Hrel; [by left|].
  assert (sc < 128) as Hlt.
  { change 0x80 with (Z.shiftl 1 7) in Hrel. rewrite truth_bit in Hrel by lia.
    apply Z.nle_gt. intros Hge. enough (Z.testbit sc 7 = true) by congruence.
    apply Z.testbit_true; [lia|]. change (2 ^ 7) with 128. mlia. }
  destruct (arr_get_lt scancode_to_ascii sc) as [c Hc]; [change (length scancode_to_ascii) with 128%nat; lia|].
  rewrite Hc. destruct (Z.eqb_spec c 0) as [->|]; [by right|done].
Qed.

(** One interrupt. *)
Lemma wp_keyboard_input sc k (Q : unit → kbd → Prop) :
  kbd_wf k → 0 ≤ sc < 256 →
  (∀ k', kbd_wf k' → buffer_start k' = buffer_start k →
     (∀ i, pending k !! 0%nat = Some i →
        arr_get (keyboard_buffer k') (buffer_start k) = arr_get (keyboard_buffer k) (buffer_start k)) →
     pending k' = pending k ++ accept (pending k) sc → Q tt k') →
  wp (keyboard_input sc) k Q.
Proof.
  intros Hwf Hsc HQ. pose proof Hwf as (Hl & Hs & He).
  assert (Hsame : accept (pending k) sc = [] → Q tt k).
  { intros E0. apply HQ; [done|done|done|]. by rewrite E0, app_nil_r. }
  pose proof (typed_spec sc Hsc) as Ht. unfold keyboard_input, accept in *.
  destruct (typed sc) as [c|]; [|destruct Ht as [-> |[-> Ht]]].
  - destruct Ht as (-> & Hc & Hc0). wp_step. eapply wp_expect; [exact Hc|].
    rewrite (proj2 (truth_true c) Hc0). cbn [when]. wp_step. wp_step. cbn [id].
    rewrite length_pending in *. rewrite w32_small by (unfold is_u32; lia). change KEYBOARD_BUFFER_SIZE with 256.
    destruct (Z.eqb_spec ((buffer_end k + 1) mod 256) (buffer_start k)) as [Efull|Hfull]; cbn [negb when].
    + wp_step. apply Hsame. destruct (Z.ltb_spec ((buffer_end k - buffer_start k) mod 256) 255); [mlia|done].
    + rewrite (proj2 (in_range_true (keyboard_buffer k) (buffer_end k)) ltac:(lia)). wp_step.
      destruct (Z.ltb_spec ((buffer_end k - buffer_start k) mod 256) 255); [|mlia].
      apply HQ; [|done| |by apply pending_push].
      * split_and!; cbn; rewrite ?length_arr_set; try done; mlia.
      * intros i Hi. cbn [keyboard_buffer]. apply arr_get_set_ne. intros E0.
        apply lookup_lt_Some in Hi. pose proof (length_pending k). rewrite E0 in *.
        rewrite Z.sub_diag, Z.mod_0_l in * by lia. lia.
  - wp_step. by apply Hsame.
  - wp_step. eapply wp_expect; [exact Ht|]. cbn [truth Z.eqb negb when]. wp_step. by apply Hsame.
Qed.

(** A call that finds a character. *)
Lemma advance_run k : kbd_wf k → advance k = Ret tt (mkKbd (keyboard_buffer k) ((buffer_start k + 1) mod 256) (buffer_end k)).
Proof. intros (Hl & Hs & He). unfold advance, modify. by rewrite w32_small by (unfold is_u32; lia). Qed.

Lemma wp_take_char irqs k c (Q : Z * list Z → kbd → Prop) :
  kbd_wf k → buffer_start k ≠ buffer_end k → arr_get (keyboard_buffer k) (buffer_start k) = Some c →
  Q (c, irqs) (mkKbd (keyboard_buffer k) ((buffer_start k + 1) mod 256) (buffer_end k)) → wp (keyboard_get_char irqs) k Q.
Proof.
  intros Hwf Hne Hc HQ. destruct irqs; cbn [keyboard_get_char]; unfold wp, bind, no_input, first_char, gets, id, ret;
    (destruct (Z.eqb_spec (buffer_start k) (buffer_end k)) as [|_]; [done|]); unfold bind; rewrite Hc; cbn [expect ret];
    rewrite advance_run by done; exact HQ.
Qed.

(** A call of [keyboard_get_char] is one way to interleave. *)
Lemma get_char_interleaved irqs k c rest k' ins outs :
  Forall (λ sc, 0 ≤ sc < 256) irqs → keyboard_get_char irqs k = Ret (c, rest) k' →
  ∃ ins', rtc kbd_step (k, Waiting, ins, outs) (k', Waiting, ins', outs ++ [c]).
Proof.
  intros Hb. revert k ins. induction Hb as [|sc irqs Hsc _ IH]; intros k ins; cbn [keyboard_get_char]; unfold bind, no_input, gets;
    destruct (buffer_start k =? buffer_end k) eqn:E; [done| | |].
  2: { destruct (keyboard_input sc k) as [[] k1| | |] eqn:Ei; [|done..]. intros Hrun.
       destruct (IH k1 (ins ++ accept (pending k) sc) Hrun) as (ins' & Hr). exists ins'.
       eapply rtc_l; [by eapply ks_irq|exact Hr]. }
  all: destruct (first_char k) as [x k1| | |] eqn:Er; [|done..]; destruct (advance k1) as [[] k2| | |] eqn:Ea; [|done..];
    intros [= <- _ <-]; exists ins; eapply rtc_l; [apply (ks_test k ins outs false k); unfold no_input, gets; by rewrite E|];
    eapply rtc_l; [by apply ks_read|]; eapply rtc_l; [by apply ks_advance|]; apply rtc_refl.
Qed.

(** ** Properties *)

(** The keyboard buffer is a queue of at most 255 characters: an interrupt with the scan
    code of a pressed key appends its character unless the queue is full, any other scan
    code changes nothing; [keyboard_has_input] tells whether it is empty; and
    [keyboard_get_char] delivers its first character, waiting for interrupts only while it
    is empty. *)
Theorem keyboard_queue k sc irqs :
  kbd_wf k → 0 ≤ sc < 256 →
  wp (keyboard_input sc) k (λ _ k', kbd_wf k' ∧ pending k' = pending k ++ accept (pending k) sc ∧
    Z.of_nat (length (pending k')) ≤ 255) ∧
  keyboard_has_input k = Ret (negb (bool_decide (pending k = []))) k ∧
  match pending k with
  | c :: rest => wp (keyboard_get_char irqs) k (λ r k', r = (c, irqs) ∧ kbd_wf k' ∧ pending k' = rest)
  | [] => match irqs with
          | [] => keyboard_get_char irqs k = Halt k
          | sc :: irqs => keyboard_get_char (sc :: irqs) k = (keyboard_input sc;; keyboard_get_char irqs) k
          end
  end.
Proof.
  intros Hwf Hsc. pose proof Hwf as (Hl & Hs & He). pose proof (length_pending k) as Hlen. split_and!.
  - apply wp_keyboard_input; [done|done|]. intros k' Hwf' _ _ Hp. split_and!; [done|done|].
    rewrite length_pending. mlia.
  - unfold keyboard_has_input, gets. do 2 f_equal.
    destruct (Z.eqb_spec (buffer_start k) (buffer_end k)) as [E0|Hne].
    + rewrite bool_decide_true; [done|]. apply length_zero_iff_nil. rewrite E0, Z.sub_diag, Z.mod_0_l in Hlen by lia. cbn [length] in Hlen. lia.
    + rewrite bool_decide_false; [done|]. intros E0. rewrite E0 in Hlen. cbn [length] in Hlen. mlia.
  - destruct (pending k) as [|c rest] eqn:Ep.
    + assert (buffer_start k = buffer_end k) as E0 by (cbn [length] in Hlen; mlia).
      destruct irqs; cbn [keyboard_get_char]; unfold bind at 1, no_input, gets; rewrite E0, Z.eqb_refl; done.
    + assert (Hne : buffer_start k ≠ buffer_end k).
      { intros E0. rewrite E0, Z.sub_diag, Z.mod_0_l in Hlen by lia. cbn [length] in Hlen. lia. }
      destruct (pending_pop k Hwf Hne) as (c' & Hc & Epop). rewrite Ep in Epop. injection Epop as <- Epop.
      apply wp_take_char with c; [done|done|done|]. split_and!; [done| |done].
      split_and!; cbn; try done; unfold KEYBOARD_BUFFER_SIZE; mlia.
Qed.

(** What holds between any two steps. *)
Definition kbd_ok (s : kbd * reader * list Z * list Z) : Prop :=
  let '(k, r, ins, outs) := s in
  ins = outs ++ pending k ∧ kbd_wf k ∧
  match r with Waiting => True | Reading => pending k ≠ [] | Holding c => head (pending k) = Some c end.

Lemma pending_nonempty k : pending k ≠ [] → buffer_start k ≠ buffer_end k.
Proof.
  intros Hp E0. pose proof (length_pending k) as Hlen. rewrite E0, Z.sub_diag, Z.mod_0_l in Hlen by lia.
  destruct (pending k); [done|cbn [length] in Hlen; lia].
Qed.

Lemma kbd_step_ok s s' : kbd_ok s → kbd_step s s' → kbd_ok s'.
Proof.
  intros Hi Hst. destruct Hst as [k r ins outs sc k' Hsc Hin|k ins outs e k' He|k ins outs c k' Hc|k ins outs c k' Ha];
    destruct Hi as (-> & Hwf & Hr).
  - assert (wp (keyboard_input sc) k (λ _ k', pending k' = pending k ++ accept (pending k) sc ∧ kbd_wf k')) as Hw
      by (apply wp_keyboard_input; auto).
    unfold wp in Hw. rewrite Hin in Hw. destruct Hw as [Hp Hwf']. split_and!; [|done|].
    + by rewrite Hp, app_assoc.
    + destruct r as [| |c]; [done|..]; rewrite Hp; by destruct (pending k).
  - injection He as <- <-. split_and!; [done|done|]. destruct (Z.eqb_spec (buffer_start k) (buffer_end k)) as [|Hne]; [done|].
    destruct (pending_pop k Hwf Hne) as (c & _ & ->). done.
  - apply pending_nonempty in Hr. destruct (pending_pop k Hwf Hr) as (c' & Hc' & Ep).
    unfold first_char, bind, gets, id in Hc. rewrite Hc' in Hc. injection Hc as <- <-. split_and!; [done|done|by rewrite Ep].
  - assert (Hne : buffer_start k ≠ buffer_end k) by (apply pending_nonempty; by destruct (pending k)).
    destruct (pending_pop k Hwf Hne) as (c' & Hc' & Ep). rewrite advance_run in Ha by done. injection Ha as <-.
    rewrite Ep in Hr |- *. injection Hr as ->. pose proof Hwf as (Hl & Hs & He).
    split_and!; [by rewrite <- app_assoc| |done]. split_and!; cbn; [done|mlia..].
Qed.

(** A call returns when there is a character, or some interrupt during its waits brings one. *)
Lemma wp_get_char_ends irqs k :
  kbd_wf k → Forall (λ sc, 0 ≤ sc < 256) irqs → pending k ≠ [] ∨ Exists (λ sc, typed sc ≠ None) irqs →
  wp (keyboard_get_char irqs) k (λ _ _, True).
Proof.
  intros Hwf Hb. revert k Hwf. induction Hb as [|sc irqs Hsc _ IH]; intros k Hwf Hc;
    (destruct (Z.eq_dec (buffer_start k) (buffer_end k)) as [E0|Hne];
      [|destruct (pending_pop k Hwf Hne) as (c & Hg & _); by apply wp_take_char with c]).
  - destruct Hc as [Hc|Hc]; [by apply pending_nonempty in Hc|by inversion Hc].
  - cbn [keyboard_get_char]. unfold no_input. wp_step. apply wp_gets. rewrite E0, Z.eqb_refl. wp_step.
    apply wp_keyboard_input; [done|done|]. intros k' Hwf' _ _ Hp. apply IH; [done|].
    assert (Hnil : pending k = []).
    { apply length_zero_iff_nil. pose proof (length_pending k) as Hl. rewrite E0, Z.sub_diag, Z.mod_0_l in Hl by lia. lia. }
    rewrite Hp, Hnil. destruct Hc as [Hc|[Hc|Hc]%Exists_cons]; [done| |by right]. left. unfold accept. by destruct (typed sc).
Qed.

(** C21. However interrupts interleave with the statements of a reader that calls
    [keyboard_get_char] again and again, characters are returned in the order in which they
    were accepted, none twice and none invented: what was accepted is what was returned
    followed by what is in the buffer (of which the first may already be in the reader's
    hands).  A call of [keyboard_get_char] from any point of such a run, with any interrupts
    during its waits, is a continuation of the run: it returns the character that is next; and
    it does return when a character is there or one of the interrupts is that of a key with a
    character. *)
Theorem keyboard_interleaving k r ins outs :
  rtc kbd_step (kbd_empty, Waiting, [], []) (k, r, ins, outs) →
  (ins = outs ++ pending k ∧ kbd_wf k ∧
   match r with Waiting => True | Reading => pending k ≠ [] | Holding c => head (pending k) = Some c end) ∧
  ∀ irqs, Forall (λ sc, 0 ≤ sc < 256) irqs →
    wlp (keyboard_get_char irqs) k (λ x k', ∃ ins',
      rtc kbd_step (k, Waiting, ins, outs) (k', Waiting, ins', outs ++ [x.1]) ∧ ins' = (outs ++ [x.1]) ++ pending k') ∧
    (pending k ≠ [] ∨ Exists (λ sc, typed sc ≠ None) irqs → wp (keyboard_get_char irqs) k (λ _ _, True)).
Proof.
  intros Hrun.
  assert (Hgen : ∀ s s', rtc kbd_step s s' → kbd_ok s → kbd_ok s').
  { intros s s' Hs. induction Hs as [|s s1 s2 Hst _ IH]; [done|]. intros Hi. by eapply IH, kbd_step_ok. }
  pose proof (Hgen _ _ Hrun ltac:(done)) as Hok. split; [exact Hok|]. intros irqs Hb.
  split; [|intros Hc; apply wp_get_char_ends; [apply Hok|done|done]].
  unfold wlp. destruct (keyboard_get_char irqs k) as [[c rest] k'| | |] eqn:E; [|done..].
  destruct (get_char_interleaved irqs k c rest k' ins outs Hb E) as (ins' & Hr). exists ins'. split; [exact Hr|].
  apply (Hgen _ _ Hr). destruct Hok as (H1 & H2 & _). by split_and!.
Qed.

Lemma keyboard_queue_witness :
  wp (keyboard_input 30) kbd_empty (λ _ k', pending k' = [97]).
Proof.
  eapply wp_mono; [exact (proj1 (keyboard_queue kbd_empty 30 [] ltac:(done) ltac:(lia)))|].
  intros [] k' (_ & Hp & _). exact Hp.
Defined.

(** A is pressed; the reader is past its test when B is pressed, and takes the A; it calls again. *)
Lemma keyboard_interleaving_witness :
  let k := mkKbd (<[1%nat := 98]> (<[0%nat := 97]> (replicate 256 0))) 1 2 in
  [97; 98] = [97] ++ pending k ∧
  ∃ ins' k', rtc kbd_step (k, Waiting, [97; 98], [97]) (k', Waiting, ins', [97; 98]) ∧ pending k' = [].
Proof.
  set (k1 := mkKbd (<[0%nat := 97]> (replicate 256 0)) 0 1).
  set (k2 := mkKbd (<[1%nat := 98]> (<[0%nat := 97]> (replicate 256 0))) 0 2). intros k.
  assert (Hrun : rtc kbd_step (kbd_empty, Waiting, [], []) (k, Waiting, [97; 98], [97])).
  { eapply rtc_l; [exact (ks_irq kbd_empty Waiting [] [] 30 k1 ltac:(lia) eq_refl)|].
    eapply rtc_l; [exact (ks_test k1 _ [] false k1 eq_refl)|].
    eapply rtc_l; [exact (ks_irq k1 Reading _ [] 48 k2 ltac:(lia) eq_refl)|].
    eapply rtc_l; [exact (ks_read k2 _ [] 97 k2 eq_refl)|].
    eapply rtc_l; [exact (ks_advance k2 _ [] 97 k eq_refl)|]. apply rtc_refl. }
  destruct (keyboard_interleaving k Waiting _ [97] Hrun) as [[E _] Hcall]. split; [exact E|].
  destruct (Hcall [] (Forall_nil_2 _)) as [(ins' & Hr & _) _]. eexists ins', _. split; [exact Hr|]. vm_compute. reflexivity.
Defined.
