(* ===== verification/Console.v ===== *)
(** * The console (src/src/kernel.c)

    The text screen, the serial line, the log and the loading bar of kernel.c.  The serial
    port is a device behind the ports, whose documented behaviour is the automaton [uart].
    The dialogue with the user is in Login.v. *)

From S2P Require Import Prelude Pic.

(** ** Data *)

Definition VGA_COLS : Z := 80.

Definition VGA_ROWS : Z := 25.

(** Static variables of kernel.c, the screen memory at 0xB8000, and the machine. *)
Record console (K : Type) := mkCon {
  VGA_MEMORY : list Z;
  vga_row : Z;
  vga_col : Z;
  vga_color : Z;
  login_username : list Z;
  login_password : list Z;
  machine : K
}.

Arguments mkCon {K}.
Arguments VGA_MEMORY {K}.
Arguments vga_row {K}.
Arguments vga_col {K}.
Arguments vga_color {K}.
Arguments login_username {K}.
Arguments login_password {K}.
Arguments machine {K}.

Definition set_screen {K} (m : list Z) (c : console K) : console K :=
  mkCon m (vga_row c) (vga_col c) (vga_color c) (login_username c) (login_password c) (machine c).

Definition set_cursor {K} (row col : Z) (c : console K) : console K :=
  mkCon (VGA_MEMORY c) row col (vga_color c) (login_username c) (login_password c) (machine c).

Definition set_color {K} (x : Z) (c : console K) : console K :=
  mkCon (VGA_MEMORY c) (vga_row c) (vga_col c) x (login_username c) (login_password c) (machine c).

Definition set_username {K} (b : list Z) (c : console K) : console K :=
  mkCon (VGA_MEMORY c) (vga_row c) (vga_col c) (vga_color c) b (login_password c) (machine c).

Definition set_password {K} (b : list Z) (c : console K) : console K :=
  mkCon (VGA_MEMORY c) (vga_row c) (vga_col c) (vga_color c) (login_username c) b (machine c).

Definition set_machine {K} (k : K) (c : console K) : console K :=
  mkCon (VGA_MEMORY c) (vga_row c) (vga_col c) (vga_color c) (login_username c) (login_password c) k.

(** A string literal: its characters and the final NUL. *)
Definition lit (s : string) : list Z := str s ++ [0].

(** [buf[i] = x] on an array. *)
Definition arr_put (i x : Z) : M (list Z) unit :=
  b ← gets id;
  if in_range b i then modify (λ b, arr_set b i x) else undef.

(** A computation on a local array, with the array it leaves. *)
Definition on_local {S A} (buf : list Z) (m : M (list Z) A) : M S (A * list Z) := λ s,
  match m buf with
  | Ret a b => Ret (a, b) s
  | Halt _ => Halt s
  | Undef => Undef
  | NoFuel => NoFuel
  end.

(** [while (value > 0) { tmp[idx++] = '0' + value % 10; value /= 10; }] on the array
    [tmp]; the result is [idx]. *)
Fixpoint digits_loop (fuel : nat) (value idx : Z) : M (list Z) Z :=
  match fuel with
  | O => no_fuel
  | S fuel =>
      if 0 <? value then
        arr_put idx (48 + value mod 10);;
        digits_loop fuel (value / 10) (idx + 1)
      else ret idx
  end.

(** [for (i = 0; i < idx; ++i) buffer[i] = tmp[idx - i - 1];] *)
Definition reverse_copy (tmp : list Z) (idx : Z) : M (list Z) unit :=
  for_ 0 (trips 0 idx) (λ i,
    c ← expect (arr_get tmp (idx - i - 1));
    arr_put i c).

(** A [uint32_t] has at most ten digits: eleven rounds are enough for the loop. *)
Definition uitoa (value : Z) : M (list Z) unit :=
  if value =? 0 then arr_put 0 48;; arr_put 1 0
  else
    '(idx, tmp) ← on_local (replicate 10 0) (digits_loop 11 value 0);
    reverse_copy tmp idx;;
    arr_put idx 0.

(** [for (; percent_text[l] != 0; ++l) label[l] = percent_text[l];] *)
Fixpoint copy_text (src : list Z) (l : Z) : M (list Z) Z :=
  match src with
  | [] => undef
  | c :: src => if c =? 0 then ret l else arr_put l c;; copy_text src (l + 1)
  end.

(** The loop of [kstrlen] from [str[len]] on. *)
Fixpoint kstrlen_from {S} (s : list Z) (len : Z) : M S Z :=
  match s with
  | [] => undef
  | c :: s => if c =? 0 then ret len else kstrlen_from s (len + 1)
  end.

Definition kstrlen {S} (s : list Z) : M S Z := kstrlen_from s 0.

(** ** The screen *)

Section screen.
Context {K : Type}.

(** [VGA_MEMORY[idx] = x]; only the 4000 bytes of the text screen are meant to be written. *)
Definition vput (idx x : Z) : M (console K) unit :=
  m ← gets VGA_MEMORY;
  if in_range m idx then modify (set_screen (arr_set m idx x)) else undef.

(** The two bytes of a cell, in the current colour. *)
Definition put_cell (cell c : Z) : M (console K) unit :=
  col ← gets vga_color;
  vput (cell * 2) c;;
  vput (cell * 2 + 1) col.

Definition vga_clear : M (console K) unit :=
  for_ 0 (trips 0 VGA_ROWS) (λ row,
    for_ 0 (trips 0 VGA_COLS) (λ col, put_cell (row * VGA_COLS + col) 32));;
  modify (set_cursor 0 0).

Definition vga_set_cursor (row col : Z) : M (console K) unit :=
  let row := if row <? 0 then 0 else row in
  let row := if VGA_ROWS <=? row then VGA_ROWS - 1 else row in
  let col := if col <? 0 then 0 else col in
  let col := if VGA_COLS <=? col then VGA_COLS - 1 else col in
  modify (set_cursor row col).

(** [if (++vga_row >= VGA_ROWS) vga_row = 0;] with the column given. *)
Definition next_row (col : Z) : M (console K) unit :=
  row ← gets vga_row;
  modify (set_cursor (if VGA_ROWS <=? row + 1 then 0 else row + 1) col).

Definition vga_put_char (c : Z) : M (console K) unit :=
  if c =? 10 then next_row 0
  else if c =? 8 then
    row ← gets vga_row;
    col ← gets vga_col;
    when (0 <? col)
      (modify (set_cursor row (col - 1));;
       put_cell (row * VGA_COLS + (col - 1)) 32)
  else
    row ← gets vga_row;
    col ← gets vga_col;
    put_cell (row * VGA_COLS + col) c;;
    if VGA_COLS <=? col + 1 then next_row 0 else modify (set_cursor row (col + 1)).

Fixpoint print_vga (s : list Z) : M (console K) unit :=
  match s with
  | [] => undef
  | c :: s => if c =? 0 then skip else vga_put_char c;; print_vga s
  end.

Definition vga_write_at (row col : Z) (s : list Z) : M (console K) unit :=
  vga_set_cursor row col;;
  print_vga s.

Definition vga_write_centered (row : Z) (s : list Z) : M (console K) unit :=
  len ← kstrlen s;
  let col := Z.quot (VGA_COLS - len) 2 in
  let col := if col <? 0 then 0 else col in
  vga_write_at row col s.

Definition draw_loading_bar (percent : Z) : M (console K) unit :=
  let row := 13 in
  let width := 40 in
  let col := (VGA_COLS - width) / 2 in
  let inner_width := width - 2 in
  let filled := Z.quot (percent * inner_width) 100 in
  vga_write_at row col (lit "[");;
  vga_write_at row (col + width - 1) (lit "]");;
  for_ 0 (trips 0 inner_width) (λ i,
    put_cell (row * VGA_COLS + col + 1 + i) (if i <? filled then 35 else 32));;
  '(_, percent_text) ← on_local (replicate 8 0) (uitoa percent);
  '(_, label) ← on_local (replicate 16 0) (
    arr_put 0 0;;
    l ← copy_text percent_text 0;
    arr_put l 37;;
    arr_put (l + 1) 0);
  vga_write_centered (row + 1) label.

(** The corners are written without their colour, which the edges have set. *)
Definition draw_box (top left height width : Z) : M (console K) unit :=
  for_ left (Z.to_nat width) (λ col,
    put_cell (top * VGA_COLS + col) 45;;
    put_cell ((top + height - 1) * VGA_COLS + col) 45);;
  for_ top (Z.to_nat height) (λ row,
    put_cell (row * VGA_COLS + left) 124;;
    put_cell (row * VGA_COLS + left + width - 1) 124);;
  vput ((top * VGA_COLS + left) * 2) 43;;
  vput ((top * VGA_COLS + left + width - 1) * 2) 43;;
  vput (((top + height - 1) * VGA_COLS + left) * 2) 43;;
  vput (((top + height - 1) * VGA_COLS + left + width - 1) * 2) 43.

Definition draw_input_field (row col width : Z) : M (console K) unit :=
  for_ 0 (Z.to_nat width) (λ i, put_cell (row * VGA_COLS + col + i) 95).

End screen.

(** ** The serial line and the log *)

Section serial.
Context {K : Type} `{Device K}.

Definition on_machine {A} (m : M K A) : M (console K) A := zoom machine set_machine m.

Definition serial_init : M K unit :=
  outb (0x3F8 + 1) 0x00;;
  outb (0x3F8 + 3) 0x80;;
  outb (0x3F8 + 0) 0x01;;
  outb (0x3F8 + 1) 0x00;;
  outb (0x3F8 + 3) 0x03;;
  outb (0x3F8 + 2) 0xC7;;
  outb (0x3F8 + 4) 0x0B.

(** [while (!(inb(0x3FD) & 0x20));] with a bound on the number of polls. *)
Fixpoint serial_wait (polls : nat) : M K unit :=
  match polls with
  | O => no_fuel
  | S polls =>
      v ← inb 0x3FD;
      if negb (truth (Z.land v 0x20)) then serial_wait polls else skip
  end.

(** The bound on the polls of every waiting loop. *)
Context (polls : nat).

Definition serial_write (c : Z) : M K unit :=
  serial_wait polls;;
  outb 0x3F8 c.

Fixpoint print_serial (s : list Z) : M K unit :=
  match s with
  | [] => undef
  | c :: s => if c =? 0 then skip else serial_write c;; print_serial s
  end.

Definition log_info (msg : list Z) : M (console K) unit :=
  on_machine (
    print_serial (lit "[INFO] ");;
    print_serial msg;;
    print_serial [10; 0]);;
  let row := VGA_ROWS - 1 in
  for_ 0 (trips 0 VGA_COLS) (λ col,
    vput ((row * VGA_COLS + col) * 2) 32;;
    vput ((row * VGA_COLS + col) * 2 + 1) 0x07);;
  vga_write_at row 0 (lit "[INFO] ");;
  vga_write_at row 7 msg.

End serial.

(** ** The serial port, as its documentation describes it

    Bit 7 of the line control register switches the first two registers to the divisor;
    a byte written to the data register is sent when the transmitter is empty, which bit 5
    of the line status register tells; [u_busy] is the number of polls until then. *)

Record uart := mkUart {
  u_ier : Z;
  u_fcr : Z;
  u_lcr : Z;
  u_mcr : Z;
  u_divisor_low : Z;
  u_divisor_high : Z;
  u_busy : nat;
  u_sent : list Z
}.

Definition uart_out (busy : nat) (port v : Z) (u : uart) : uart :=
  if port =? 0x3F8 then
    if Z.testbit (u_lcr u) 7
    then mkUart (u_ier u) (u_fcr u) (u_lcr u) (u_mcr u) v (u_divisor_high u) (u_busy u) (u_sent u)
    else match u_busy u with
         | O => mkUart (u_ier u) (u_fcr u) (u_lcr u) (u_mcr u) (u_divisor_low u) (u_divisor_high u)
                  busy (u_sent u ++ [v])
         | S _ => u
         end
  else if port =? 0x3F9 then
    if Z.testbit (u_lcr u) 7
    then mkUart (u_ier u) (u_fcr u) (u_lcr u) (u_mcr u) (u_divisor_low u) v (u_busy u) (u_sent u)
    else mkUart v (u_fcr u) (u_lcr u) (u_mcr u) (u_divisor_low u) (u_divisor_high u) (u_busy u) (u_sent u)
  else if port =? 0x3FA then
    mkUart (u_ier u) v (u_lcr u) (u_mcr u) (u_divisor_low u) (u_divisor_high u) (u_busy u) (u_sent u)
  else if port =? 0x3FB then
    mkUart (u_ier u) (u_fcr u) v (u_mcr u) (u_divisor_low u) (u_divisor_high u) (u_busy u) (u_sent u)
  else if port =? 0x3FC then
    mkUart (u_ier u) (u_fcr u) (u_lcr u) v (u_divisor_low u) (u_divisor_high u) (u_busy u) (u_sent u)
  else u.

Definition uart_poll (u : uart) : uart :=
  mkUart (u_ier u) (u_fcr u) (u_lcr u) (u_mcr u) (u_divisor_low u) (u_divisor_high u)
    (pred (u_busy u)) (u_sent u).

(** A device with a serial port: at most [uart_delay] polls after a byte it is ready again. *)
Class UartDevice (K : Type) `{Device K} := {
  uart_of : K → uart;
  uart_delay : nat;
  uart_dev_out port v k :
    ∃ busy, (busy ≤ uart_delay)%nat ∧ uart_of (dev_out port v k) = uart_out busy port v (uart_of k);
  uart_dev_in k :
    (Z.testbit (dev_in 0x3FD k).1 5 = match u_busy (uart_of k) with O => true | S _ => false end) ∧
    uart_of (dev_in 0x3FD k).2 = uart_poll (uart_of k)
}.

(** ** Abstract view: a screen of 2000 cells and a cursor that runs through them *)

Definition con_wf {K} (c : console K) : Prop :=
  length (VGA_MEMORY c) = 4000%nat ∧ 0 ≤ vga_row c < 25 ∧ 0 ≤ vga_col c < 80.

Definition cursor {K} (c : console K) : Z := vga_row c * 80 + vga_col c.

(** Character and colour of a cell. *)
Definition cell (m : list Z) (p : Z) : option Z * option Z := (arr_get m (p * 2), arr_get m (p * 2 + 1)).

Definition set_cell (m : list Z) (p c col : Z) : list Z := arr_set (arr_set m (p * 2) c) (p * 2 + 1) col.

(** Text written from cell [p] on; after the last cell of the screen comes the first. *)
Fixpoint write_text (m : list Z) (p col : Z) (txt : list Z) : list Z :=
  match txt with
  | [] => m
  | c :: txt => write_text (set_cell m p c col) ((p + 1) mod 2000) col txt
  end.

Definition move {K} (p : Z) (c : console K) : console K := set_cursor (p / 80) (p mod 80) c.

(** A buffer that holds a string, and text without characters that move the cursor. *)
Definition holds (buf txt : list Z) : Prop := (0 ∉ txt) ∧ (∃ junk, buf = txt ++ 0 :: junk).

Definition plain (txt : list Z) : Prop := Forall (λ c, c ≠ 10 ∧ c ≠ 8) txt.

(** The column or row a coordinate is clamped to. *)
Definition clamp (n x : Z) : Z := Z.max 0 (Z.min x (n - 1)).

(** The number a list of decimal digits stands for. *)
Definition decimal_value (ds : list Z) : Z := foldl (λ n d, (10 * n + (d - 48))%Z) 0 ds.

(** ** Cells *)

Lemma cell_set_eq m p c col :
  length m = 4000%nat → 0 ≤ p < 2000 → cell (set_cell m p c col) p = (Some c, Some col).
Proof.
  intros Hm Hp. unfold cell, set_cell. f_equal.
  - rewrite arr_get_set_ne by lia. apply arr_get_set_eq. lia.
  - apply arr_get_set_eq. rewrite length_arr_set. lia.
Qed.

Lemma cell_set_ne m p q c col : p ≠ q → cell (set_cell m p c col) q = cell m q.
Proof. intros. unfold cell, set_cell. by rewrite !arr_get_set_ne by lia. Qed.

Lemma length_set_cell m p c col : length (set_cell m p c col) = length m.
Proof. unfold set_cell. by rewrite !length_arr_set. Qed.

Lemma length_write_text m p col txt : length (write_text m p col txt) = length m.
Proof.
  revert m p. induction txt as [|c txt IH]; intros m p; cbn [write_text]; [done|].
  by rewrite IH, length_set_cell.
Qed.

(** Cells outside a written text are kept; [q] is [i] cells after the start. *)
Lemma cell_write_out m p col txt q :
  0 ≤ p < 2000 → 0 ≤ q < 2000 → Z.of_nat (length txt) ≤ (q - p) mod 2000 →
  cell (write_text m p col txt) q = cell m q.
Proof.
  revert m p. induction txt as [|c txt IH]; intros m p Hp Hq Hlen; cbn [write_text]; [done|].
  cbn [length] in Hlen. rewrite IH; [|mlia|done|].
  - apply cell_set_ne. intros ->. rewrite Z.sub_diag, Z.mod_0_l in Hlen by lia. lia.
  - mlia.
Qed.

Lemma cell_write_in m p col txt i c :
  length m = 4000%nat → 0 ≤ p < 2000 → Z.of_nat (length txt) ≤ 2000 → txt !! i = Some c →
  cell (write_text m p col txt) ((p + Z.of_nat i) mod 2000) = (Some c, Some col).
Proof.
  revert m p i. induction txt as [|c' txt IH]; intros m p i Hm Hp Hlen Hi; [done|].
  cbn [write_text]. cbn [length] in Hlen. destruct i as [|i].
  - injection Hi as ->. change (Z.of_nat 0) with 0. rewrite Z.add_0_r, (Z.mod_small p) by lia.
    rewrite cell_write_out; [by apply cell_set_eq|mlia|done|mlia].
  - replace ((p + Z.of_nat (S i)) mod 2000) with (((p + 1) mod 2000 + Z.of_nat i) mod 2000) by mlia.
    apply IH; [by rewrite length_set_cell|mlia|lia|done].
Qed.

Lemma wp_kstrlen {S} buf txt (s : S) (Q : Z → S → Prop) :
  holds buf txt → Q (Z.of_nat (length txt)) s → wp (kstrlen buf) s Q.
Proof.
  intros [Hz [junk ->]] HQ. unfold kstrlen.
  enough (∀ n, wp (kstrlen_from (txt ++ 0 :: junk) n) s (λ r s', r = n + Z.of_nat (length txt) ∧ s' = s)) as Hg.
  { eapply wp_mono; [apply Hg|]. by intros r s' [-> ->]. }
  clear HQ. induction txt as [|c txt IH]; intros n; cbn [app kstrlen_from].
  - split; [cbn; lia|done].
  - apply not_elem_of_cons in Hz as [H0 Hz]. destruct (Z.eqb_spec c 0); [done|].
    eapply wp_mono; [by apply IH|]. intros r s' [-> ->]. split; [cbn [length]; lia|done].
Qed.

(** ** The drawing operations *)

Section screen_lemmas.
Context {K : Type}.
Implicit Types s : console K.

Lemma wp_put_cell p ch s (Q : unit → console K → Prop) :
  length (VGA_MEMORY s) = 4000%nat → 0 ≤ p < 2000 →
  Q tt (set_screen (set_cell (VGA_MEMORY s) p ch (vga_color s)) s) →
  wp (put_cell p ch) s Q.
Proof.
  intros Hl Hp HQ. unfold put_cell, vput. wp_step. wp_step. wp_step. wp_step. wp_step.
  rewrite (proj2 (in_range_true _ _)) by lia. wp_step. wp_step. wp_step. cbn [VGA_MEMORY set_screen].
  rewrite (proj2 (in_range_true _ _)) by (rewrite length_arr_set; lia). wp_step. exact HQ.
Qed.

(** A character that does not move the cursor by itself. *)
Lemma wp_put_plain ch s (Q : unit → console K → Prop) :
  con_wf s → ch ≠ 10 → ch ≠ 8 →
  Q tt (move ((cursor s + 1) mod 2000)
         (set_screen (set_cell (VGA_MEMORY s) (cursor s) ch (vga_color s)) s)) →
  wp (vga_put_char ch) s Q.
Proof.
  intros (Hl & Hr & Hc) H1 H2 HQ. unfold vga_put_char.
  destruct (Z.eqb_spec ch 10); [done|]. destruct (Z.eqb_spec ch 8); [done|].
  wp_step. wp_step. wp_step. wp_step. wp_step. change VGA_COLS with 80. fold (cursor s).
  assert (0 ≤ cursor s < 2000) by (unfold cursor; lia).
  apply wp_put_cell; [done|done|]. unfold move in HQ.
  assert (E1 : ∀ r k, r * 80 + k = (cursor s + 1) mod 2000 → 0 ≤ k < 80 →
    ((cursor s + 1) mod 2000) / 80 = r ∧ ((cursor s + 1) mod 2000) mod 80 = k) by (intros; mlia).
  unfold next_row. destruct (Z.leb_spec 80 (vga_col s + 1)).
  - wp_step. wp_step. wp_step. cbn [vga_row set_screen]. change VGA_ROWS with 25.
    destruct (E1 (if 25 <=? vga_row s + 1 then 0 else vga_row s + 1) 0) as [Er Ec].
    + unfold cursor. destruct (Z.leb_spec 25 (vga_row s + 1)); mlia.
    + lia.
    + rewrite Er, Ec in HQ. exact HQ.
  - wp_step. destruct (E1 (vga_row s) (vga_col s + 1)) as [Er Ec]; [unfold cursor; mlia|lia|].
    rewrite Er, Ec in HQ. exact HQ.
Qed.

(** Any character: one cell of the screen at most changes, and the cursor stays inside. *)
Lemma wp_put_any ch s (Q : unit → console K → Prop) :
  con_wf s → (∀ s' m, con_wf s' → s' = set_cursor (vga_row s') (vga_col s') (set_screen m s) → Q tt s') →
  wp (vga_put_char ch) s Q.
Proof.
  intros Hwf HQ. pose proof Hwf as (Hl & Hr & Hc).
  destruct (Z.eq_dec ch 10) as [->|]; [|destruct (Z.eq_dec ch 8) as [->|]].
  - unfold vga_put_char, next_row. cbn [Z.eqb Pos.eqb]. wp_steps. apply (HQ _ (VGA_MEMORY s)); [|by destruct s].
    unfold con_wf. cbn. change VGA_ROWS with 25.
    destruct (Z.leb_spec 25 (vga_row s + 1)); split_and!; (done || lia).
  - unfold vga_put_char. cbn [Z.eqb Pos.eqb]. wp_step. wp_step. wp_step. wp_step.
    apply wp_when; intros Hcol.
    + wp_step. wp_step. change VGA_COLS with 80. apply wp_put_cell; [done|lia|].
      eapply HQ; [|done]. split_and!; cbn; rewrite ?length_set_cell; lia.
    + apply (HQ _ (VGA_MEMORY s)); [done|by destruct s].
  - apply wp_put_plain; [done|done|done|]. eapply HQ; [|done].
    unfold cursor, con_wf, move. cbn. rewrite length_set_cell. split_and!; [done|mlia..].
Qed.

Lemma wp_print_plain buf txt s (Q : unit → console K → Prop) :
  con_wf s → holds buf txt → plain txt →
  Q tt (move ((cursor s + Z.of_nat (length txt)) mod 2000)
         (set_screen (write_text (VGA_MEMORY s) (cursor s) (vga_color s) txt) s)) →
  wp (print_vga buf) s Q.
Proof.
  intros Hwf [Hz [junk ->]] Hpl. revert s Hwf. induction txt as [|c txt IH]; intros s Hwf HQ.
  - cbn [app print_vga Z.eqb]. wp_step. pose proof Hwf as (Hl & Hr & Hc).
    replace s with (move ((cursor s + 0) mod 2000) (set_screen (VGA_MEMORY s) s)) at 1; [exact HQ|].
    unfold move, cursor. destruct s; unfold set_cursor; cbn in *. f_equal; mlia.
  - apply Forall_cons in Hpl as [[H1 H2] Hpl]. apply not_elem_of_cons in Hz as [H0 Hz].
    cbn [app print_vga]. destruct (Z.eqb_spec c 0); [done|]. wp_step. apply wp_put_plain; [done..|].
    pose proof Hwf as (Hl & Hr & Hc).
    assert (Hcur : ∀ p m, 0 ≤ p < 2000 → cursor (move p (set_screen m s)) = p)
      by (intros; unfold cursor, move; cbn; mlia).
    assert (0 ≤ cursor s < 2000) by (unfold cursor; lia).
    apply IH; [done|done| |].
    + split_and!; cbn; rewrite ?length_set_cell; [done|mlia..].
    + rewrite Hcur by mlia. cbn [VGA_MEMORY set_screen move set_cursor vga_color length write_text] in *.
      replace (((cursor s + 1) mod 2000 + Z.of_nat (length txt)) mod 2000)
        with ((cursor s + Z.of_nat (S (length txt))) mod 2000) by mlia. exact HQ.
Qed.

Lemma wp_print_any buf txt s (Q : unit → console K → Prop) :
  con_wf s → holds buf txt →
  (∀ s' m, con_wf s' → s' = set_cursor (vga_row s') (vga_col s') (set_screen m s) → Q tt s') →
  wp (print_vga buf) s Q.
Proof.
  intros Hwf [Hz [junk ->]]. revert s Hwf. induction txt as [|c txt IH]; intros s Hwf HQ.
  - cbn [app print_vga Z.eqb]. wp_step. by apply (HQ s (VGA_MEMORY s)); [|destruct s].
  - apply not_elem_of_cons in Hz as [H0 Hz].
    cbn [app print_vga]. destruct (Z.eqb_spec c 0); [done|]. wp_step. apply wp_put_any; [done|].
    intros s1 m1 Hwf1 E1. apply IH; [done|done|]. intros s2 m2 Hwf2 E2. apply (HQ s2 m2); [done|].
    rewrite E2, E1. done.
Qed.

Lemma wp_set_cursor row col s (Q : unit → console K → Prop) :
  Q tt (set_cursor (clamp 25 row) (clamp 80 col) s) → wp (vga_set_cursor row col) s Q.
Proof.
  intros HQ. unfold vga_set_cursor. cbv zeta. wp_step.
  change VGA_ROWS with 25. change VGA_COLS with 80. unfold clamp in HQ.
  replace (if 25 <=? (if row <? 0 then 0 else row) then 25 - 1 else if row <? 0 then 0 else row)
    with (Z.max 0 (Z.min row (25 - 1))) by (destruct (Z.ltb_spec row 0); case_match; lia).
  replace (if 80 <=? (if col <? 0 then 0 else col) then 80 - 1 else if col <? 0 then 0 else col)
    with (Z.max 0 (Z.min col (80 - 1))) by (destruct (Z.ltb_spec col 0); case_match; lia).
  exact HQ.
Qed.

End screen_lemmas.

(** ** Buffers and numbers *)

Lemma wp_arr_put i x b (Q : unit → list Z → Prop) :
  0 ≤ i < Z.of_nat (length b) → Q tt (arr_set b i x) → wp (arr_put i x) b Q.
Proof.
  intros Hi HQ. unfold arr_put. wp_step. wp_step. cbn [id].
  by rewrite (proj2 (in_range_true b i) Hi).
Qed.

Lemma wp_on_local {S A} buf (m : M (list Z) A) (s : S) (Q : A * list Z → S → Prop) :
  wp m buf (λ a b, Q (a, b) s) → wp (on_local buf m) s Q.
Proof. unfold wp, on_local. by destruct (m buf). Qed.

Lemma arr_get_nat {A} (l : list A) (i : nat) : arr_get l (Z.of_nat i) = l !! i.
Proof. unfold arr_get. destruct (Z.leb_spec 0 (Z.of_nat i)); [by rewrite Nat2Z.id|lia]. Qed.

Lemma arr_get_snoc {A} (l : list A) x i :
  arr_get (l ++ [x]) i = if i =? Z.of_nat (length l) then Some x else arr_get l i.
Proof.
  unfold arr_get. destruct (Z.leb_spec 0 i); [|by destruct (Z.eqb_spec i (Z.of_nat (length l))); [lia|]].
  destruct (Z.eqb_spec i (Z.of_nat (length l))) as [->|].
  - rewrite Nat2Z.id. apply list_lookup_middle. done.
  - destruct (decide (Z.to_nat i < length l)%nat); [by rewrite lookup_app_l|].
    rewrite !(proj2 (lookup_ge_None _ _)); rewrite ?length_app; cbn; (done || lia).
Qed.

Lemma arr_get_ge {A} (l : list A) i : Z.of_nat (length l) ≤ i → arr_get l i = None.
Proof. intros. unfold arr_get. destruct (0 <=? i); [|done]. apply lookup_ge_None. lia. Qed.

(** A string is in a buffer when its characters and the NUL after them are. *)
Lemma holds_get buf txt :
  0 ∉ txt → (∀ i c, txt !! i = Some c → arr_get buf (Z.of_nat i) = Some c) →
  arr_get buf (Z.of_nat (length txt)) = Some 0 → holds buf txt.
Proof.
  intros Hz Hin Hend. split; [done|]. exists (drop (S (length txt)) buf).
  rewrite arr_get_nat in Hend. rewrite <- (take_drop_middle buf (length txt) 0) at 1 by done. f_equal.
  apply list_eq. intros i. destruct (txt !! i) as [c|] eqn:Hi.
  - pose proof (lookup_lt_Some _ _ _ Hi). rewrite lookup_take_lt by done.
    specialize (Hin i c Hi). by rewrite arr_get_nat in Hin.
  - apply lookup_ge_None in Hi. by apply lookup_take_ge.
Qed.

(** Decimal digits, least significant first. *)
Fixpoint digits_rev (fuel : nat) (v : Z) : list Z :=
  match fuel with
  | O => []
  | S fuel => if 0 <? v then (48 + v mod 10) :: digits_rev fuel (v / 10) else []
  end.

Lemma decimal_snoc ds d : decimal_value (ds ++ [d]) = 10 * decimal_value ds + (d - 48).
Proof. unfold decimal_value. by rewrite foldl_app. Qed.

Lemma digits_rev_value fuel v :
  0 ≤ v < 10 ^ Z.of_nat fuel → decimal_value (reverse (digits_rev fuel v)) = v.
Proof.
  revert v. induction fuel as [|fuel IH]; intros v Hv; cbn [digits_rev].
  - cbn in *. lia.
  - rewrite Nat2Z.inj_succ, Z.pow_succ_r in Hv by lia. destruct (Z.ltb_spec 0 v); [|cbn; lia].
    rewrite reverse_cons, decimal_snoc, IH by mlia. mlia.
Qed.

Lemma digits_rev_length fuel v k :
  0 ≤ v < 10 ^ Z.of_nat k → (length (digits_rev fuel v) ≤ k)%nat.
Proof.
  revert v k. induction fuel as [|fuel IH]; intros v k Hv; cbn [digits_rev]; [cbn; lia|].
  destruct (Z.ltb_spec 0 v); [|cbn; lia]. destruct k as [|k]; [cbn in Hv; lia|].
  rewrite Nat2Z.inj_succ, Z.pow_succ_r in Hv by lia. cbn [length].
  specialize (IH (v / 10) k ltac:(mlia)). lia.
Qed.

Lemma digits_rev_digits fuel v : 0 ≤ v → Forall (λ d, 48 ≤ d < 58) (digits_rev fuel v).
Proof.
  revert v. induction fuel as [|fuel IH]; intros v Hv; cbn [digits_rev]; [done|].
  destruct (Z.ltb_spec 0 v); [|done]. constructor; [mlia|]. apply IH. mlia.
Qed.

(** The most significant digit is not 0. *)
Lemma digits_rev_last fuel v d :
  0 ≤ v < 10 ^ Z.of_nat fuel → last (digits_rev fuel v) = Some d → d ≠ 48.
Proof.
  revert v. induction fuel as [|fuel IH]; intros v Hv Hd; cbn [digits_rev] in Hd; [done|].
  destruct (Z.ltb_spec 0 v) as [Hp|]; [|done]. rewrite Nat2Z.inj_succ, Z.pow_succ_r in Hv by lia.
  destruct (digits_rev fuel (v / 10)) as [|d' ds] eqn:E.
  - injection Hd as <-.
    assert (v / 10 = 0) by (rewrite <- (digits_rev_value fuel (v / 10)) by mlia; by rewrite E). mlia.
  - apply (IH (v / 10)); [mlia|]. rewrite E. by rewrite last_cons_cons in Hd.
Qed.

Lemma wp_digits_loop fuel v idx b (Q : Z → list Z → Prop) :
  0 ≤ v < 10 ^ Z.of_nat fuel → 0 ≤ idx →
  idx + Z.of_nat (length (digits_rev fuel v)) ≤ Z.of_nat (length b) →
  (∀ b', length b' = length b → (∀ i, i < idx → arr_get b' i = arr_get b i) →
     (∀ i d, digits_rev fuel v !! i = Some d → arr_get b' (idx + Z.of_nat i) = Some d) →
     Q (idx + Z.of_nat (length (digits_rev fuel v))) b') →
  wp (digits_loop (S fuel) v idx) b Q.
Proof.
  revert v idx b. induction fuel as [|fuel IH]; intros v idx b Hv Hidx Hfit HQ.
  - assert (v = 0) as -> by (cbn in Hv; lia). cbn [digits_loop Z.ltb Z.compare]. wp_step.
    rewrite <- (Z.add_0_r idx). apply HQ; done.
  - remember (S fuel) as f. cbn [digits_loop]. subst f.
    cbn [digits_rev] in Hfit, HQ. destruct (Z.ltb_spec 0 v).
    + cbn [length] in Hfit. wp_step. apply wp_arr_put; [lia|].
      rewrite Nat2Z.inj_succ, Z.pow_succ_r in Hv by lia.
      apply IH; [mlia|lia|rewrite length_arr_set; lia|]. intros b' Hl Hlow Hnew.
      rewrite length_arr_set in Hl. cbn [length] in HQ.
      replace (idx + 1 + Z.of_nat (length (digits_rev fuel (v / 10))))
        with (idx + Z.of_nat (S (length (digits_rev fuel (v / 10))))) by lia.
      apply HQ; [done| |].
      * intros i Hi. rewrite Hlow by lia. by apply arr_get_set_ne; lia.
      * intros [|i] d Hd.
        -- injection Hd as <-. rewrite Z.add_0_r, Hlow by lia. apply arr_get_set_eq. lia.
        -- replace (idx + Z.of_nat (S i)) with (idx + 1 + Z.of_nat i) by lia. by apply Hnew.
    + cbn [length] in HQ. wp_step. rewrite <- (Z.add_0_r idx). apply HQ; done.
Qed.

Lemma wp_reverse_copy tmp ds b (Q : unit → list Z → Prop) :
  (∀ i d, ds !! i = Some d → arr_get tmp (Z.of_nat i) = Some d) → (length ds ≤ length b)%nat →
  (∀ b', length b' = length b →
     (∀ i d, reverse ds !! i = Some d → arr_get b' (Z.of_nat i) = Some d) → Q tt b') →
  wp (reverse_copy tmp (Z.of_nat (length ds))) b Q.
Proof.
  intros Ht Hfit HQ. unfold reverse_copy.
  apply wp_for with (λ k b', length b' = length b ∧ ∀ i d, (Z.of_nat i < k) → reverse ds !! i = Some d →
    arr_get b' (Z.of_nat i) = Some d).
  - split; [done|]. intros i d Hi. lia.
  - intros k b' Hk [Hl Hi]. unfold trips in Hk.
    destruct (lookup_lt_is_Some_2 (reverse ds) (Z.to_nat k)) as [d Hd]; [rewrite length_reverse; lia|].
    pose proof Hd as Hd'. rewrite reverse_lookup in Hd' by lia.
    wp_step. eapply wp_expect.
    { replace (Z.of_nat (length ds) - k - 1) with (Z.of_nat (length ds - S (Z.to_nat k))) by lia. by apply Ht. }
    apply wp_arr_put; [lia|]. rewrite length_arr_set. split; [done|]. intros i d' Hik Hd2.
    destruct (Z.eq_dec (Z.of_nat i) k) as [E|].
    + rewrite <- E, Nat2Z.id in Hd. rewrite E, arr_get_set_eq by lia. congruence.
    + rewrite arr_get_set_ne by lia. apply Hi; [lia|done].
  - intros b' [Hl Hi]. apply HQ; [done|]. intros i d Hd. apply Hi; [|done].
    apply lookup_lt_Some in Hd. rewrite length_reverse in Hd. unfold trips. lia.
Qed.

(** The decimal numeral of a number: its value, its digits, no superfluous zero. *)
Definition numeral (v : Z) (ds : list Z) : Prop :=
  decimal_value ds = v ∧ Forall (λ d, 48 ≤ d < 58) ds ∧ ds ≠ [] ∧
  (v ≠ 0 → head ds ≠ Some 48) ∧ (length ds ≤ 10)%nat.

(** The common end of [uitoa] and of its copy in fat32.c, for a temporary array of [n] bytes. *)
Lemma wp_print_digits n v b (Q : unit → list Z → Prop) :
  is_u32 v → v ≠ 0 → (10 ≤ n)%nat → v < 10 ^ (Z.of_nat (length b) - 1) →
  (∀ b' ds, length b' = length b → holds b' ds → numeral v ds → Q tt b') →
  wp ('(idx, tmp) ← on_local (replicate n 0) (digits_loop 11 v 0);
      reverse_copy tmp idx;; arr_put idx 0) b Q.
Proof.
  intros Hv Hv0 Hn Hfit HQ. set (ds := digits_rev 10 v).
  assert (Hv10 : 0 ≤ v < 10 ^ Z.of_nat 10) by (unfold is_u32 in *; cbn; lia).
  assert (Hlen : (length ds ≤ 10)%nat) by (by apply digits_rev_length).
  assert (Hb : (length ds < length b)%nat).
  { destruct b as [|x b]; [cbn in Hfit; unfold is_u32 in *; lia|]. cbn [length].
    enough (length ds ≤ length b)%nat by lia. apply digits_rev_length. cbn [length] in Hfit.
    replace (Z.of_nat (S (length b)) - 1) with (Z.of_nat (length b)) in Hfit by lia. lia. }
  wp_step. apply wp_on_local. apply wp_digits_loop; [done|lia|rewrite length_replicate; fold ds; lia|].
  fold ds. intros tmp _ _ Htmp. rewrite Z.add_0_l. wp_step.
  apply wp_reverse_copy; [intros i d Hd; by apply (Htmp i d)|lia|]. intros b' Hl Hb'.
  apply wp_arr_put; [lia|].
  pose proof (digits_rev_digits 10 v ltac:(lia)) as Hdig. fold ds in Hdig.
  apply (HQ _ (reverse ds)); [by rewrite length_arr_set| |].
  - apply holds_get; rewrite ?length_reverse.
    + intros Hin. rewrite elem_of_reverse in Hin. rewrite Forall_forall in Hdig. specialize (Hdig 0 Hin). lia.
    + intros i d Hd. pose proof (lookup_lt_Some _ _ _ Hd) as Hi. rewrite length_reverse in Hi.
      rewrite arr_get_set_ne by lia. by apply Hb'.
    + apply arr_get_set_eq. lia.
  - split_and!.
    + by apply digits_rev_value.
    + by apply Forall_reverse.
    + intros E. apply Hv0. rewrite <- (digits_rev_value 10 v) by done. fold ds. by rewrite E.
    + intros _ Hh. rewrite head_reverse in Hh. by apply (digits_rev_last 10 v 48) in Hh.
    + by rewrite length_reverse.
Qed.

Lemma wp_uitoa v b (Q : unit → list Z → Prop) :
  is_u32 v → (2 ≤ length b)%nat → v < 10 ^ (Z.of_nat (length b) - 1) →
  (∀ b' ds, length b' = length b → holds b' ds → numeral v ds → Q tt b') →
  wp (uitoa v) b Q.
Proof.
  intros Hv Hb Hfit HQ. unfold uitoa. destruct (Z.eqb_spec v 0) as [->|Hv0].
  - wp_step. apply wp_arr_put; [lia|]. apply wp_arr_put; [rewrite length_arr_set; lia|].
    apply (HQ _ [48]); [by rewrite !length_arr_set| |].
    + apply holds_get; [set_solver| |].
      * intros [|i] c Hc; [|done]. injection Hc as <-. rewrite arr_get_set_ne by lia.
        apply arr_get_set_eq. lia.
      * cbn [length]. apply arr_get_set_eq. rewrite length_arr_set. lia.
    + split_and!; [done|constructor; [lia|done]|done|done|cbn; lia].
  - by apply wp_print_digits.
Qed.

(** ** Filling cells *)

Section fill.
Context {K : Type}.
Implicit Types s : console K.

(** Both bytes of a cell written one after the other. *)
Lemma wp_vput2 p ch col s (Q : unit → console K → Prop) :
  length (VGA_MEMORY s) = 4000%nat → 0 ≤ p < 2000 →
  Q tt (set_screen (set_cell (VGA_MEMORY s) p ch col) s) →
  wp (vput (p * 2) ch;; vput (p * 2 + 1) col) s Q.
Proof.
  intros Hl Hp HQ. unfold vput. wp_step. wp_step. wp_step. rewrite (proj2 (in_range_true _ _)) by lia.
  wp_step. wp_step. wp_step. cbn [VGA_MEMORY set_screen].
  rewrite (proj2 (in_range_true _ _)) by (rewrite length_arr_set; lia). wp_step. exact HQ.
Qed.

(** A loop whose rounds write the cells [base + lo], [base + lo + 1], ... *)
Lemma wp_fill (body : Z → M (console K) unit) base lo n f col s (Q : unit → console K → Prop) :
  (∀ i s' (Q' : unit → console K → Prop), length (VGA_MEMORY s') = 4000%nat →
     vga_color s' = vga_color s → lo ≤ i < lo + Z.of_nat n →
     Q' tt (set_screen (set_cell (VGA_MEMORY s') (base + i) (f i) col) s') → wp (body i) s' Q') →
  0 ≤ base + lo → base + lo + Z.of_nat n ≤ 2000 → length (VGA_MEMORY s) = 4000%nat →
  (∀ m, length m = 4000%nat →
     (∀ q, cell m q = if (base + lo <=? q) && (q <? base + lo + Z.of_nat n)
                      then (Some (f (q - base)), Some col) else cell (VGA_MEMORY s) q) →
     Q tt (set_screen m s)) →
  wp (for_ lo n body) s Q.
Proof.
  intros Hbody Hlo Hhi Hl HQ.
  apply wp_for with (λ k s', ∃ m, s' = set_screen m s ∧ length m = 4000%nat ∧
    ∀ q, cell m q = if (base + lo <=? q) && (q <? base + k)
                    then (Some (f (q - base)), Some col) else cell (VGA_MEMORY s) q).
  - exists (VGA_MEMORY s). split_and!; [by destruct s|done|]. intros q.
    destruct (Z.leb_spec (base + lo) q), (Z.ltb_spec q (base + lo)); (lia || done).
  - intros k s' Hk (m & -> & Hm & Hq). apply Hbody; [done|done|done|].
    eexists. split; [done|]. cbn [VGA_MEMORY set_screen]. rewrite length_set_cell. split; [done|]. intros q.
    destruct (Z.eq_dec (base + k) q) as [<-|Hne].
    + rewrite cell_set_eq by (done || lia). replace (base + k - base) with k by lia.
      destruct (Z.leb_spec (base + lo) (base + k)), (Z.ltb_spec (base + k) (base + (k + 1))); (lia || done).
    + rewrite cell_set_ne, Hq by done.
      destruct (Z.leb_spec (base + lo) q), (Z.ltb_spec q (base + k)), (Z.ltb_spec q (base + (k + 1))); (lia || done).
  - intros s' (m & -> & Hm & Hq). apply HQ; [done|]. intros q. by rewrite Hq, Z.add_assoc.
Qed.

Lemma wp_draw_input_field row col width s (Q : unit → console K → Prop) :
  length (VGA_MEMORY s) = 4000%nat → 0 ≤ row < 25 → 0 ≤ col → 0 ≤ width → col + width ≤ 80 →
  (∀ m, length m = 4000%nat →
     (∀ q, cell m q = if (row * 80 + col <=? q) && (q <? row * 80 + col + width)
                      then (Some 95, Some (vga_color s)) else cell (VGA_MEMORY s) q) →
     Q tt (set_screen m s)) →
  wp (draw_input_field row col width) s Q.
Proof.
  intros Hl Hr Hc Hw Hcw HQ. unfold draw_input_field. change VGA_COLS with 80.
  apply (wp_fill _ (row * 80 + col) 0 _ (λ _, 95) (vga_color s)); [|lia|lia|done|].
  - intros i s' Q' Hl' Hcol Hi HQ'. apply wp_put_cell; [done|lia|]. by rewrite Hcol.
  - intros m Hm Hq. apply HQ; [done|]. intros q. rewrite Hq, Z.add_0_r.
    by replace (Z.of_nat (Z.to_nat width)) with width by lia.
Qed.

End fill.

(** ** The serial line *)

Section serial_lemmas.
Context {K : Type} `{UartDevice K}.

(** Set up, and ready after at most [uart_delay] polls. *)
Definition uart_ready (k : K) : Prop :=
  Z.testbit (u_lcr (uart_of k)) 7 = false ∧ (u_busy (uart_of k) ≤ uart_delay)%nat.

Lemma wp_serial_wait polls k (Q : unit → K → Prop) :
  (u_busy (uart_of k) < polls)%nat →
  (∀ k', u_busy (uart_of k') = 0%nat → u_lcr (uart_of k') = u_lcr (uart_of k) →
     u_sent (uart_of k') = u_sent (uart_of k) → Q tt k') →
  wp (serial_wait polls) k Q.
Proof.
  revert k. induction polls as [|polls IH]; intros k Hb HQ; [lia|]. cbn [serial_wait].
  destruct (uart_dev_in k) as [Hin Hout]. unfold inb, bind, wp. change (w16 0x3FD) with 0x3FD.
  destruct (dev_in 0x3FD k) as [v k'] eqn:E. cbn [fst snd] in *.
  change 0x20 with (Z.shiftl 1 5). rewrite truth_bit, w8_testbit, Hin by lia.
  destruct (u_busy (uart_of k)) as [|n] eqn:Eb; cbn [negb].
  - apply wp_skip. apply HQ; rewrite Hout; cbn; by rewrite ?Eb.
  - apply IH; [rewrite Hout; cbn; lia|]. intros k2 H1 H2 H3.
    apply HQ; [done|rewrite H2, Hout; done|rewrite H3, Hout; done].
Qed.

Lemma wp_serial_write polls c k (Q : unit → K → Prop) :
  (uart_delay < polls)%nat → uart_ready k → 0 ≤ c < 256 →
  (∀ k', uart_ready k' → u_sent (uart_of k') = u_sent (uart_of k) ++ [c] → Q tt k') →
  wp (serial_write polls c) k Q.
Proof.
  intros Hp [Hl Hb] Hc HQ. unfold serial_write. wp_step. apply wp_serial_wait; [lia|].
  intros k1 Hb1 Hl1 Hs1. unfold outb. wp_step. change (w16 0x3F8) with 0x3F8. rewrite w8_small by done.
  destruct (uart_dev_out 0x3F8 c k1) as (busy & Hbusy & E).
  unfold uart_out in E. cbn [Z.eqb Pos.eqb] in E. rewrite Hl1, Hl, Hb1 in E.
  apply HQ; rewrite ?E; [|cbn; by rewrite Hs1]. split; rewrite E; done.
Qed.

Lemma wp_print_serial polls buf txt k (Q : unit → K → Prop) :
  (uart_delay < polls)%nat → uart_ready k → holds buf txt → Forall (λ c, 0 ≤ c < 256) txt →
  (∀ k', uart_ready k' → u_sent (uart_of k') = u_sent (uart_of k) ++ txt → Q tt k') →
  wp (print_serial polls buf) k Q.
Proof.
  intros Hp Hr [Hz [junk ->]] Hb. revert k Hr. induction txt as [|c txt IH]; intros k Hr HQ.
  - cbn. apply HQ; [done|]. by rewrite app_nil_r.
  - apply Forall_cons in Hb as [Hc Hb]. apply not_elem_of_cons in Hz as [Hc0 Hz].
    cbn [app print_serial]. destruct (Z.eqb_spec c 0); [done|]. wp_step.
    apply wp_serial_write; [done|done|done|]. intros k1 Hr1 Hs1. apply IH; [done|done|done|].
    intros k2 Hr2 Hs2. apply HQ; [done|]. by rewrite Hs2, Hs1, <- app_assoc.
Qed.

End serial_lemmas.

(** Text of the log: bytes without NUL that leave the cursor in its line. *)
Definition loggable (txt : list Z) : Prop := Forall (λ c, 0 ≤ c < 256) txt ∧ plain txt.

Lemma lit_holds s : 0 ∉ str s → holds (lit s) (str s).
Proof. intros Hz. split; [done|]. by exists []. Qed.

Lemma uart_elsewhere busy port v u : ~ 0x3F8 ≤ port ≤ 0x3FC → uart_out busy port v u = u.
Proof. intros Hp. unfold uart_out. by repeat (case_match; [lia|]). Qed.

Lemma str_bytes s : Forall (λ c, 0 ≤ c < 256) (str s).
Proof.
  unfold str. apply Forall_forall. intros x Hx. apply list_elem_of_In, in_map_iff in Hx as (c & <- & _).
  pose proof (Ascii.N_ascii_bounded c). lia.
Qed.

Lemma numeral_bytes v ds : numeral v ds → Forall (λ c, 0 ≤ c < 256) ds.
Proof. intros (_ & Hd & _). eapply Forall_impl; [exact Hd|]. intros x Hx. cbn in Hx. lia. Qed.

Lemma info_loggable : (0 ∉ str "[INFO] ") ∧ loggable (str "[INFO] ").
Proof. split; [vm_compute; set_solver|]. split; repeat constructor; done. Qed.

(** The log on the machine: the serial line. *)
Lemma wp_log_serial {K} `{UartDevice K} polls msg txt (k : K) (Q : unit → K → Prop) :
  (uart_delay < polls)%nat → uart_ready k → holds msg txt → Forall (λ c, 0 ≤ c < 256) txt →
  (∀ k', uart_ready k' →
     u_sent (uart_of k') = u_sent (uart_of k) ++ str "[INFO] " ++ txt ++ [10] → Q tt k') →
  wp (print_serial polls (lit "[INFO] ");; print_serial polls msg;; print_serial polls [10; 0]) k Q.
Proof.
  intros Hp Hr Hm Hb HQ. wp_step.
  apply wp_print_serial with (str "[INFO] "); [done|done|apply lit_holds, info_loggable|apply info_loggable|].
  intros k1 Hr1 Hs1. wp_step. apply wp_print_serial with txt; [done..|]. intros k2 Hr2 Hs2.
  apply wp_print_serial with [10]; [done|done| |repeat constructor; done|].
  - split; [set_solver|by exists []].
  - intros k3 Hr3 Hs3. apply HQ; [done|]. by rewrite Hs3, Hs2, Hs1, <- !app_assoc.
Qed.

(** Text written at a position, in cells. *)
Lemma wp_write_at {K} row col buf txt (c : console K) (Q : unit → console K → Prop) :
  length (VGA_MEMORY c) = 4000%nat → holds buf txt → plain txt → Z.of_nat (length txt) ≤ 2000 →
  let p := clamp 25 row * 80 + clamp 80 col in
  (∀ m, length m = 4000%nat →
     (∀ i ch, txt !! i = Some ch → cell m ((p + Z.of_nat i) mod 2000) = (Some ch, Some (vga_color c))) →
     (∀ q, 0 ≤ q < 2000 → Z.of_nat (length txt) ≤ (q - p) mod 2000 → cell m q = cell (VGA_MEMORY c) q) →
     Q tt (move ((p + Z.of_nat (length txt)) mod 2000) (set_screen m c))) →
  wp (vga_write_at row col buf) c Q.
Proof.
  intros Hl Hh Hpl Hlen p HQ. unfold vga_write_at. wp_step. apply wp_set_cursor.
  assert (Hp : 0 ≤ p < 2000) by (unfold p, clamp; lia).
  apply wp_print_plain with txt; [unfold con_wf, clamp; cbn; split_and!; (done || lia)|done|done|].
  change (cursor (set_cursor _ _ c)) with p. change (move ?x (set_screen ?m (set_cursor _ _ c))) with (move x (set_screen m c)).
  apply HQ; [by rewrite length_write_text| |].
  - intros i ch Hi. by apply cell_write_in.
  - intros q Hq Hd. by apply cell_write_out.
Qed.

Lemma con_wf_move {K} p (c : console K) :
  length (VGA_MEMORY c) = 4000%nat → 0 ≤ p < 2000 → con_wf (move p c) ∧ cursor (move p c) = p.
Proof. intros. unfold con_wf, cursor, move. cbn. split_and!; [done|mlia..]. Qed.

(** ** Drawing: the operations that change the screen and the cursor only *)

Definition drawn {K} (c c' : console K) : Prop :=
  ∃ m row col, length m = 4000%nat ∧ c' = set_cursor row col (set_screen m c).

Definition draws {K} (op : M (console K) unit) : Prop :=
  ∀ c, length (VGA_MEMORY c) = 4000%nat → wp op c (λ _ c', drawn c c').

Section drawing.
Context {K : Type}.
Implicit Types c : console K.

Lemma drawn_trans c1 c2 c3 : drawn c1 c2 → drawn c2 c3 → drawn c1 c3.
Proof. intros (m1 & r1 & k1 & H1 & ->) (m2 & r2 & k2 & H2 & ->). exists m2, r2, k2. done. Qed.

Lemma drawn_refl c : length (VGA_MEMORY c) = 4000%nat → drawn c c.
Proof. intros Hl. exists (VGA_MEMORY c), (vga_row c), (vga_col c). split; [done|by destruct c]. Qed.

Lemma drawn_length c c' : drawn c c' → length (VGA_MEMORY c') = 4000%nat.
Proof. by intros (m & r & k & Hm & ->). Qed.

Lemma draws_seq (op1 op2 : M (console K) unit) : draws op1 → draws op2 → draws (op1;; op2).
Proof.
  intros H1 H2 c Hl. wp_step. eapply wp_mono; [by apply H1|]. intros [] c1 Hd1.
  eapply wp_mono; [apply H2, (drawn_length c c1 Hd1)|]. intros [] c2 Hd2. by eapply drawn_trans.
Qed.

Lemma draws_for lo n (body : Z → M (console K) unit) :
  (∀ i, lo ≤ i < lo + Z.of_nat n → draws (body i)) → draws (for_ lo n body).
Proof.
  intros Hb c Hl. apply wp_for with (λ _ c', drawn c c'); [by apply drawn_refl| |done].
  intros i c1 Hi Hd. eapply wp_mono; [apply Hb; [done|by eapply drawn_length]|].
  intros [] c2 Hd2. by eapply drawn_trans.
Qed.

Lemma draws_put_cell p ch : 0 ≤ p < 2000 → draws (K := K) (put_cell p ch).
Proof.
  intros Hp c Hl. apply wp_put_cell; [done|done|]. exists (set_cell (VGA_MEMORY c) p ch (vga_color c)), (vga_row c), (vga_col c).
  split; [by rewrite length_set_cell|by destruct c].
Qed.

Lemma draws_vput i x : 0 ≤ i < 4000 → draws (K := K) (vput i x).
Proof.
  intros Hi c Hl. unfold vput. wp_step. wp_step. rewrite (proj2 (in_range_true _ _)) by lia. wp_step.
  exists (arr_set (VGA_MEMORY c) i x), (vga_row c), (vga_col c).
  split; [by rewrite length_arr_set|by destruct c].
Qed.

Lemma draws_cursor row col : draws (K := K) (modify (set_cursor row col)).
Proof. intros c Hl. wp_step. exists (VGA_MEMORY c), row, col. split; [done|by destruct c]. Qed.

Lemma draws_write_at row col buf txt : holds buf txt → draws (K := K) (vga_write_at row col buf).
Proof.
  intros Hh c Hl. unfold vga_write_at. wp_step. apply wp_set_cursor.
  apply wp_print_any with txt; [unfold con_wf, clamp; cbn; split_and!; (done || lia)|done|].
  intros c' m Hwf E. rewrite E. exists m, (vga_row c'), (vga_col c'). split; [|done].
  rewrite E in Hwf. apply Hwf.
Qed.

Lemma draws_centered row buf txt : holds buf txt → draws (K := K) (vga_write_centered row buf).
Proof.
  intros Hh c Hl. unfold vga_write_centered. wp_step. apply wp_kstrlen with txt; [done|].
  cbv zeta. eapply draws_write_at; eauto.
Qed.

Lemma draws_clear : draws (K := K) vga_clear.
Proof.
  apply draws_seq; [|apply draws_cursor]. apply draws_for. change (Z.of_nat (trips 0 VGA_ROWS)) with 25.
  intros row Hr. apply draws_for. change (Z.of_nat (trips 0 VGA_COLS)) with 80. intros col Hc.
  apply draws_put_cell. change VGA_COLS with 80. lia.
Qed.

Lemma draws_box top left height width :
  0 ≤ top → 0 ≤ left → 1 ≤ height → 1 ≤ width → top + height ≤ 25 → left + width ≤ 80 →
  draws (K := K) (draw_box top left height width).
Proof.
  intros. unfold draw_box. change VGA_COLS with 80.
  repeat first [apply draws_seq | apply draws_for; intros | apply draws_put_cell; lia | apply draws_vput; lia].
Qed.

Lemma draws_field row col width :
  0 ≤ row < 25 → 0 ≤ col → 0 ≤ width → col + width ≤ 80 → draws (K := K) (draw_input_field row col width).
Proof.
  intros. unfold draw_input_field. change VGA_COLS with 80. apply draws_for. intros i Hi.
  apply draws_put_cell. lia.
Qed.

(** Running a drawing operation before something else. *)
Lemma wp_draws (op : M (console K) unit) c (Q : unit → console K → Prop) :
  draws op → length (VGA_MEMORY c) = 4000%nat → (∀ c', drawn c c' → Q tt c') → wp op c Q.
Proof. intros Hd Hl HQ. eapply wp_mono; [by apply Hd|]. intros [] c'. apply HQ. Qed.

End drawing.

(** Literals hold their text, and it has no control characters. *)
Ltac holds_lit := apply lit_holds; vm_compute; set_solver.

Ltac plain_lit := unfold plain, str; cbn; repeat (apply Forall_cons; split; [lia|]); apply Forall_nil_2.


Create HintDb console.
#[export] Hint Resolve draws_clear draws_cursor : console.
#[export] Hint Extern 2 (draws (draw_box _ _ _ _)) => (apply draws_box; vm_compute; congruence) : console.
#[export] Hint Extern 2 (draws (draw_input_field _ _ _)) => (apply draws_field; vm_compute; intuition congruence) : console.
#[export] Hint Extern 2 (draws (vga_write_centered _ (lit _))) => (eapply draws_centered; holds_lit) : console.
#[export] Hint Extern 2 (draws (vga_write_at _ _ (lit _))) => (eapply draws_write_at; holds_lit) : console.

(** ** Text built in local arrays *)

(** Characters copied into an array from index [l] on. *)
Lemma wp_copy_text src ds l b (Q : Z → list Z → Prop) :
  holds src ds → 0 ≤ l → l + Z.of_nat (length ds) ≤ Z.of_nat (length b) →
  (∀ b', length b' = length b →
     (∀ i d, ds !! i = Some d → arr_get b' (l + Z.of_nat i) = Some d) →
     (∀ i, i < l → arr_get b' i = arr_get b i) → Q (l + Z.of_nat (length ds)) b') →
  wp (copy_text src l) b Q.
Proof.
  intros [Hz [junk ->]]. revert l b. induction ds as [|d ds IH]; intros l b Hl Hfit HQ.
  - cbn. rewrite <- (Z.add_0_r l). apply HQ; done.
  - apply not_elem_of_cons in Hz as [H0 Hz]. cbn [app copy_text length] in *.
    destruct (Z.eqb_spec d 0); [done|]. wp_step. apply wp_arr_put; [lia|].
    apply (IH Hz); [lia|rewrite length_arr_set; lia|]. rewrite length_arr_set. intros b' Hlen Hin Hlow.
    replace (l + 1 + Z.of_nat (length ds)) with (l + Z.of_nat (S (length ds))) by lia.
    apply HQ; [done| |].
    + intros [|i] x Hx.
      * injection Hx as <-. rewrite Z.add_0_r, Hlow by lia. apply arr_get_set_eq. lia.
      * replace (l + Z.of_nat (S i)) with (l + 1 + Z.of_nat i) by lia. by apply Hin.
    + intros i Hi. rewrite Hlow by lia. apply arr_get_set_ne. lia.
Qed.

(** A final character and the NUL after a text. *)
Lemma wp_finish b txt c (Q : unit → list Z → Prop) :
  0 ∉ txt → c ≠ 0 → (∀ i d, txt !! i = Some d → arr_get b (Z.of_nat i) = Some d) →
  (S (length txt) < length b)%nat →
  (∀ b', holds b' (txt ++ [c]) → Q tt b') →
  wp (arr_put (Z.of_nat (length txt)) c;; arr_put (Z.of_nat (length txt) + 1) 0) b Q.
Proof.
  intros Hz Hc Hin Hfit HQ. wp_step. apply wp_arr_put; [lia|]. apply wp_arr_put; [rewrite length_arr_set; lia|].
  apply HQ, holds_get.
  - intros Hx. apply elem_of_app in Hx as [?|?]; set_solver.
  - intros i d Hd. rewrite <- arr_get_nat, arr_get_snoc in Hd.
    destruct (Z.eqb_spec (Z.of_nat i) (Z.of_nat (length txt))) as [E|Hne].
    + injection Hd as <-. rewrite E, arr_get_set_ne by lia. apply arr_get_set_eq. lia.
    + pose proof (arr_get_Some_range _ _ _ Hd). rewrite !arr_get_set_ne by lia.
      apply Hin. by rewrite <- arr_get_nat.
  - rewrite length_app. cbn [length]. replace (Z.of_nat (length txt + 1)) with (Z.of_nat (length txt) + 1) by lia.
    apply arr_get_set_eq. rewrite length_arr_set. lia.
Qed.

(** A line of text centred in its row. *)
Definition centered_at (m m0 : list Z) (row col : Z) (txt : list Z) : Prop :=
  let p := row * 80 + (80 - Z.of_nat (length txt)) / 2 in
  length m = 4000%nat ∧
  (∀ i ch, txt !! i = Some ch → cell m (p + Z.of_nat i) = (Some ch, Some col)) ∧
  (∀ q, 0 ≤ q < 2000 → (q < p ∨ p + Z.of_nat (length txt) ≤ q) → cell m q = cell m0 q).

Lemma wp_centered {K} row buf txt (c : console K) (Q : unit → console K → Prop) :
  length (VGA_MEMORY c) = 4000%nat → holds buf txt → plain txt → 1 ≤ Z.of_nat (length txt) ≤ 80 →
  0 ≤ row < 25 →
  (∀ m p, centered_at m (VGA_MEMORY c) row (vga_color c) txt → Q tt (move p (set_screen m c))) →
  wp (vga_write_centered row buf) c Q.
Proof.
  intros Hl Hh Hpl Hlen Hrow HQ. unfold vga_write_centered. wp_step. apply wp_kstrlen with txt; [done|].
  cbv zeta. change VGA_COLS with 80. rewrite Z.quot_div_nonneg by lia.
  destruct (Z.ltb_spec ((80 - Z.of_nat (length txt)) / 2) 0) as [|_]; [mlia|].
  apply wp_write_at with txt; [done..|lia|]. intros m Hm Hin Hout. apply HQ.
  split; [done|]. set (p := row * 80 + (80 - Z.of_nat (length txt)) / 2) in *.
  assert (Hp : (80 - Z.of_nat (length txt)) / 2 ≤ 80 - Z.of_nat (length txt)) by mlia.
  assert (Ep : clamp 25 row * 80 + clamp 80 ((80 - Z.of_nat (length txt)) / 2) = p) by (unfold clamp, p; mlia).
  rewrite Ep in *. assert (0 ≤ p ∧ p + Z.of_nat (length txt) ≤ 2000) by (unfold p; mlia). split.
  - intros i ch Hi. pose proof (lookup_lt_Some _ _ _ Hi). rewrite <- (Hin i ch Hi). f_equal. rewrite Z.mod_small; lia.
  - intros q Hq Hd. apply Hout; [done|]. clearbody p. mlia.
Qed.

(** The two fields of the login dialogue are the same. *)
Definition same_names {K} (c c' : console K) : Prop :=
  login_username c' = login_username c ∧ login_password c' = login_password c.

(** The screen side of the log, for any message: it ends, and leaves a console in shape with
    the machine the serial side leaves. *)
Lemma wp_log_screen {K} `{Device K} polls msg txt (c : console K) (Q : unit → console K → Prop) :
  length (VGA_MEMORY c) = 4000%nat → holds msg txt →
  wp (print_serial polls (lit "[INFO] ");; print_serial polls msg;; print_serial polls [10; 0]) (machine c)
    (λ _ k, ∀ c', con_wf c' → machine c' = k → same_names c c' → Q tt c') →
  wp (log_info polls msg) c Q.
Proof.
  intros Hl Hm Hs. unfold log_info, on_machine. wp_step. wp_step.
  eapply wp_mono; [exact Hs|]. intros [] k HQ. cbv zeta. change VGA_ROWS with 25. change VGA_COLS with 80. wp_step.
  apply (wp_fill _ 1920 0 _ (λ _, 32) 7); [|lia|change (Z.of_nat (trips 0 80)) with 80; lia|done|].
  { intros i s' Q' Hl' _ Hi HQ'. change (Z.of_nat (trips 0 80)) with 80 in Hi.
    apply wp_vput2; [done|lia|exact HQ']. }
  intros m Hml _. unfold vga_write_at. wp_step. wp_step. apply wp_set_cursor.
  apply wp_print_any with (str "[INFO] "); [unfold con_wf, clamp; cbn; split_and!; (done || lia)|apply lit_holds, info_loggable|].
  intros c1 m1 Hwf1 E1. wp_step. apply wp_set_cursor.
  apply wp_print_any with txt; [unfold con_wf, clamp; cbn; split_and!; (apply Hwf1 || lia)|done|].
  intros c2 m2 Hwf2 E2. apply HQ; [done| |]; rewrite E2, E1; [done|by split].
Qed.

(** What the serial side does to the machine: accesses to two ports, and nothing else. *)
Lemma wlp_serial_wait {K} `{Device K} (I : K → Prop) polls k :
  (∀ k, I k → I (dev_in 0x3FD k).2) → I k → wlp (serial_wait polls) k (λ _ k', I k').
Proof.
  intros Hin. revert k. induction polls as [|polls IH]; intros k Hk; cbn [serial_wait]; [done|].
  apply wlp_bind. unfold inb, wlp at 1. change (w16 0x3FD) with 0x3FD. specialize (Hin k Hk).
  destruct (dev_in 0x3FD k) as [x k1]. destruct (negb _); [by apply IH|done].
Qed.

Lemma wlp_print_serial {K} `{Device K} (I : K → Prop) polls l k :
  (∀ k, I k → I (dev_in 0x3FD k).2) → (∀ v k, I k → I (dev_out 0x3F8 v k)) → I k →
  wlp (print_serial polls l) k (λ _ k', I k').
Proof.
  intros Hin Hout. revert k. induction l as [|x l IH]; intros k Hk; cbn [print_serial]; [done|].
  destruct (x =? 0); [done|]. apply wlp_bind, wlp_bind. eapply wlp_mono; [by apply (wlp_serial_wait I)|].
  intros ? k1 Hk1. apply IH. by apply Hout.
Qed.

(** The log, for any message of bytes and any property of the machine the ports keep. *)
Lemma wp_log_any {K} `{UartDevice K} (I : K → Prop) polls msg txt (c : console K) (Q : unit → console K → Prop) :
  (∀ k, I k → I (dev_in 0x3FD k).2) → (∀ v k, I k → I (dev_out 0x3F8 v k)) → I (machine c) →
  length (VGA_MEMORY c) = 4000%nat → (uart_delay < polls)%nat → uart_ready (machine c) →
  holds msg txt → Forall (λ x, 0 ≤ x < 256) txt →
  (∀ c', con_wf c' → uart_ready (machine c') → I (machine c') →
     u_sent (uart_of (machine c')) = u_sent (uart_of (machine c)) ++ str "[INFO] " ++ txt ++ [10] → same_names c c' → Q tt c') →
  wp (log_info polls msg) c Q.
Proof.
  intros Hin Hout HI Hl Hp Hr Hm Hb HQ. apply wp_log_screen with txt; [done|done|].
  eapply wp_mono; [apply (wp_wlp_and _ _ (λ _ k, uart_ready k ∧
    u_sent (uart_of k) = u_sent (uart_of (machine c)) ++ str "[INFO] " ++ txt ++ [10]) (λ _ k, I k))|].
  - apply wp_log_serial with txt; [done..|]. intros k' Hr' Hs'. exact (conj Hr' Hs').
  - apply wlp_bind. eapply wlp_mono; [by apply (wlp_print_serial I)|]. intros ? k1 Hk1.
    apply wlp_bind. eapply wlp_mono; [by apply (wlp_print_serial I)|]. intros ? k2 Hk2. by apply (wlp_print_serial I).
  - intros [] k [[Hk1 Hk2] Hk3] c' Hwf E Hn. rewrite <- E in *. by apply HQ.
Qed.

(** [log_info] on the serial line and on the screen. *)
Lemma wp_log_info {K} `{UartDevice K} polls msg txt (c : console K) :
  length (VGA_MEMORY c) = 4000%nat → (uart_delay < polls)%nat → uart_ready (machine c) →
  holds msg txt → loggable txt → Z.of_nat (length txt) ≤ 1920 →
  wp (log_info polls msg) c (λ _ c',
    u_sent (uart_of (machine c')) = u_sent (uart_of (machine c)) ++ str "[INFO] " ++ txt ++ [10] ∧
    uart_ready (machine c') ∧ con_wf c' ∧
    (∀ i ch, (str "[INFO] " ++ txt) !! i = Some ch →
       (cell (VGA_MEMORY c') ((1920 + Z.of_nat i) mod 2000)).1 = Some ch) ∧
    (∀ q, 1927 + Z.of_nat (length txt) ≤ q < 2000 → (cell (VGA_MEMORY c') q).1 = Some 32) ∧
    (∀ q, Z.max 0 (Z.of_nat (length txt) - 73) ≤ q < 1920 →
       cell (VGA_MEMORY c') q = cell (VGA_MEMORY c) q)).
Proof.
  intros Hl Hp Hr Hm [Hb Hpl] Hlen. unfold log_info, on_machine. wp_step. wp_step.
  apply wp_log_serial with txt; [done..|]. intros k' Hr' Hs'. cbv zeta. change VGA_ROWS with 25.
  change VGA_COLS with 80. wp_step.
  apply (wp_fill _ 1920 0 _ (λ _, 32) 7);
    [|lia|change (Z.of_nat (trips 0 80)) with 80; lia|done|].
  { intros i s' Q' Hl' _ Hi HQ'. change (Z.of_nat (trips 0 80)) with 80 in Hi.
    apply wp_vput2; [done|lia|exact HQ']. }
  change (Z.of_nat (trips 0 80)) with 80. intros m Hml Hmq. wp_step.
  apply wp_write_at with (str "[INFO] "); [done|apply lit_holds, info_loggable|apply info_loggable|cbn; lia|].
  change (clamp 25 (25 - 1) * 80 + clamp 80 0) with 1920. change (Z.of_nat (length (str "[INFO] "))) with 7.
  change (VGA_MEMORY (set_screen m _)) with m. intros m1 Hm1 Hin1 Hout1.
  apply wp_write_at with txt; [done..|lia|].
  change (clamp 25 (25 - 1) * 80 + clamp 80 7) with 1927.
  change (VGA_MEMORY (move _ (set_screen m1 _))) with m1. intros m2 Hm2 Hin2 Hout2.
  destruct (con_wf_move ((1927 + Z.of_nat (length txt)) mod 2000)
    (set_screen m2 (set_machine k' c))) as [Hwf _]; [done|mlia|].
  split_and!; [done|done|exact Hwf| | |]; cbn [VGA_MEMORY set_screen move set_cursor].
  - intros i ch Hi. destruct (decide (i < 7)%nat) as [Hlt|Hge].
    + rewrite lookup_app_l in Hi by done. rewrite Hout2; [by rewrite (Hin1 i ch Hi)|mlia|mlia].
    + rewrite lookup_app_r in Hi by (cbn; lia). change (length (str "[INFO] ")) with 7%nat in Hi.
      replace (1920 + Z.of_nat i) with (1927 + Z.of_nat (i - 7)) by lia. by rewrite (Hin2 _ ch Hi).
  - intros q Hq. rewrite Hout2, Hout1, Hmq by mlia.
    destruct (Z.leb_spec (1920 + 0) q), (Z.ltb_spec q (1920 + 0 + 80)); (lia || done).
  - intros q Hq. rewrite Hout2, Hout1, Hmq by mlia.
    destruct (Z.leb_spec (1920 + 0) q); (lia || done).
Qed.

(** ** Properties *)

(** Text without control characters written at any coordinates, inside the screen or not,
    appears character by character from the clamped position on, continuing in the next row
    and after the last cell of the screen in the first, in the current colour; every other
    cell is kept, nothing outside the screen is written, and the cursor is after the text. *)
Theorem vga_write_at_spec {K} row col buf txt (c : console K) :
  length (VGA_MEMORY c) = 4000%nat → holds buf txt → plain txt → Z.of_nat (length txt) ≤ 2000 →
  let p := clamp 25 row * 80 + clamp 80 col in
  wp (vga_write_at row col buf) c (λ _ c',
    con_wf c' ∧ cursor c' = (p + Z.of_nat (length txt)) mod 2000 ∧ machine c' = machine c ∧
    (∀ i ch, txt !! i = Some ch →
       cell (VGA_MEMORY c') ((p + Z.of_nat i) mod 2000) = (Some ch, Some (vga_color c))) ∧
    (∀ q, 0 ≤ q < 2000 → Z.of_nat (length txt) ≤ (q - p) mod 2000 →
       cell (VGA_MEMORY c') q = cell (VGA_MEMORY c) q)).
Proof.
  intros Hl Hh Hpl Hlen p. apply wp_write_at with txt; [done..|]. fold p. intros m Hm Hin Hout.
  destruct (con_wf_move ((p + Z.of_nat (length txt)) mod 2000) (set_screen m c)) as [Hwf Hcur]; [done|mlia|].
  split_and!; [apply Hwf..|done|done|exact Hin|exact Hout].
Qed.

(** [log_info] sends the tagged line over the serial port, and shows it in the last row
    of the screen, blank after it; a message of up to 73 characters leaves the rest of the
    screen alone, a longer one goes on in the first rows. *)
Theorem log_info_spec {K} `{UartDevice K} polls msg txt (c : console K) :
  length (VGA_MEMORY c) = 4000%nat → (uart_delay < polls)%nat → uart_ready (machine c) →
  holds msg txt → loggable txt → Z.of_nat (length txt) ≤ 1920 →
  wp (log_info polls msg) c (λ _ c',
    u_sent (uart_of (machine c')) = u_sent (uart_of (machine c)) ++ str "[INFO] " ++ txt ++ [10] ∧
    uart_ready (machine c') ∧ con_wf c' ∧
    (∀ i ch, (str "[INFO] " ++ txt) !! i = Some ch →
       (cell (VGA_MEMORY c') ((1920 + Z.of_nat i) mod 2000)).1 = Some ch) ∧
    (∀ q, 1927 + Z.of_nat (length txt) ≤ q < 2000 → (cell (VGA_MEMORY c') q).1 = Some 32) ∧
    (∀ q, Z.max 0 (Z.of_nat (length txt) - 73) ≤ q < 1920 →
       cell (VGA_MEMORY c') q = cell (VGA_MEMORY c) q)).
Proof. apply wp_log_info. Qed.

(** [uitoa] prints the decimal numeral of every 32-bit number into a buffer that has room
    for it: the digits read back give the number, there is no superfluous zero, and neither
    the buffer nor the ten bytes of the temporary array overflow. *)
Theorem uitoa_spec value buf :
  is_u32 value → (2 ≤ length buf)%nat → value < 10 ^ (Z.of_nat (length buf) - 1) →
  wp (uitoa value) buf (λ _ buf', length buf' = length buf ∧ ∃ ds, holds buf' ds ∧ numeral value ds).
Proof. intros Hv Hb Hfit. apply wp_uitoa; [done..|]. intros buf' ds H1 H2 H3. split; [done|]. by exists ds. Qed.

(** The loading bar at a percentage from 0 to 100: between its brackets the first
    [percent * 38 / 100] of the 38 cells are filled and the others blank, and below it stands
    the numeral of the percentage, followed by a percent sign, in the middle of its row. *)
Theorem draw_loading_bar_spec {K} percent (c : console K) :
  length (VGA_MEMORY c) = 4000%nat → 0 ≤ percent ≤ 100 →
  wp (draw_loading_bar percent) c (λ _ c', drawn c c' ∧
    (cell (VGA_MEMORY c') 1060).1 = Some 91 ∧ (cell (VGA_MEMORY c') 1099).1 = Some 93 ∧
    (∀ i, 0 ≤ i < 38 →
       (cell (VGA_MEMORY c') (1061 + i)).1 = Some (if i <? percent * 38 / 100 then 35 else 32)) ∧
    ∃ ds, numeral percent ds ∧ ∀ i ch, (ds ++ [37]) !! i = Some ch →
      (cell (VGA_MEMORY c') (1120 + (80 - Z.of_nat (length (ds ++ [37]))) / 2 + Z.of_nat i)).1 = Some ch).
Proof.
  intros Hl Hp. unfold draw_loading_bar. cbv zeta. rewrite Z.quot_div_nonneg by lia. wp_step.
  apply wp_write_at with (str "["); [done|apply lit_holds; vm_compute; set_solver|by repeat constructor|cbn; lia|].
  intros m1 Hm1 Hin1 _. wp_step.
  apply wp_write_at with (str "]"); [done|apply lit_holds; vm_compute; set_solver|by repeat constructor|cbn; lia|].
  intros m2 Hm2 Hin2 Hout2. specialize (Hin1 0%nat 91 eq_refl). specialize (Hin2 0%nat 93 eq_refl).
  specialize (Hout2 1060 ltac:(lia) ltac:(vm_compute; discriminate)).
  vm_compute in Hin1. vm_compute in Hin2. wp_step.
  apply (wp_fill _ 1061 0 _ (λ i, if i <? percent * 38 / 100 then 35 else 32) (vga_color c));
    [|lia|vm_compute; discriminate|done|].
  { intros i s' Q' Hl' Hc' Hi HQ'. change (Z.of_nat (trips 0 (40 - 2))) with 38 in Hi. apply wp_put_cell;
      [done|change (13 * VGA_COLS + (VGA_COLS - 40) / 2) with 1060; lia|]. rewrite Hc'. exact HQ'. }
  change (Z.of_nat (trips 0 (40 - 2))) with 38. intros m3 Hm3 Hq3.
  change (VGA_MEMORY (move _ (set_screen m2 _))) with m2 in Hq3. wp_step. apply wp_on_local.
  apply wp_uitoa; [unfold is_u32; lia|cbn; lia|change (10 ^ (Z.of_nat (length (replicate 8 0)) - 1)) with 10000000; lia|].
  intros text ds _ Hh Hnum. wp_step. apply wp_on_local. wp_step. apply wp_arr_put; [cbn; lia|]. wp_step.
  pose proof Hnum as (_ & Hdig & Hne & _ & Hlen).
  apply wp_copy_text with ds; [done|lia|rewrite length_arr_set, length_replicate; lia|]. rewrite length_arr_set, length_replicate. intros b Hb Hin _.
  rewrite Z.add_0_l. apply (wp_finish b ds 37); [apply Hh|done|exact Hin|rewrite Hb; cbn; lia|].
  intros label Hlab. apply wp_centered with (ds ++ [37]); [done|done| |rewrite length_app; cbn; lia|lia|].
  { apply Forall_app. split; [|by repeat constructor]. eapply Forall_impl; [exact Hdig|]. intros x Hx. cbn in Hx. lia. }
  intros m4 p4 (Hm4 & Hin4 & Hout4). change ((13 + 1) * 80) with 1120 in *.
  change (VGA_MEMORY (set_screen m3 _)) with m3 in Hout4. rewrite length_app in Hout4. cbn [length] in Hout4.
  cbn [VGA_MEMORY move set_cursor set_screen].
  assert (Hkeep : ∀ q, 0 ≤ q < 1120 → cell m4 q = cell m3 q) by (intros q Hq; apply Hout4; [lia|left; mlia]).
  split; [by exists m4, (p4 / 80), (p4 mod 80)|]. split_and!.
  - rewrite Hkeep, Hq3 by lia. change ((1061 + 0 <=? 1060) && _) with false. cbv iota. rewrite Hout2.
    exact (f_equal fst Hin1).
  - rewrite Hkeep, Hq3 by lia. change ((1061 + 0 <=? 1099) && (1099 <? 1061 + 0 + 38)) with false. cbv iota.
    exact (f_equal fst Hin2).
  - intros i Hi. rewrite Hkeep, Hq3 by lia. replace (1061 + i - 1061) with i by lia.
    destruct (Z.leb_spec (1061 + 0) (1061 + i)), (Z.ltb_spec (1061 + i) (1061 + 0 + 38)); (lia || done).
  - exists ds. split; [done|]. intros i ch Hi. by rewrite (Hin4 i ch Hi).
Qed.

(** ** A serial port and nothing else *)

#[global] Instance uart_device : Device uart := {|
  dev_in port u := if port =? 0x3FD then (match u_busy u with O => 0x20 | S _ => 0 end, uart_poll u) else (0, u);
  dev_out port v u := uart_out 2 port v u
|}.

#[global] Program Instance uart_bare : UartDevice uart := {| uart_of u := u; uart_delay := 2%nat |}.
Next Obligation. intros port v k. exists 2%nat. done. Qed.
Next Obligation. intros k. cbn. by destruct (u_busy k). Qed.

Definition uart_demo : uart := mkUart 0 0 0 0 0 0 0 [].

Definition console_demo {K} (k : K) : console K :=
  mkCon (replicate 4000 0) 0 0 0x0F (replicate 32 0) (replicate 32 0) k.

Lemma vga_write_at_spec_witness :
  wp (vga_write_at 30 78 (lit "abc")) (console_demo tt) (λ _ c', cursor c' = 1).
Proof.
  assert (Hh : holds (lit "abc") (str "abc")) by holds_lit.
  assert (Hp : plain (str "abc")) by plain_lit.
  pose proof (vga_write_at_spec 30 78 (lit "abc") (str "abc") (console_demo tt) eq_refl Hh Hp ltac:(cbn; lia)) as Hw.
  cbv zeta in Hw. eapply wp_mono; [exact Hw|]. intros u c' (_ & Hc & _). exact Hc.
Defined.

Lemma log_info_spec_witness :
  wp (log_info 5 (lit "up")) (console_demo uart_demo) (λ _ c', u_sent (machine c') = str "[INFO] up" ++ [10]).
Proof.
  eapply wp_mono; [refine (log_info_spec 5 (lit "up") (str "up") (console_demo uart_demo) eq_refl _ _ _ _ _);
    [cbn; lia|split; cbn; [done|lia]|holds_lit|split; plain_lit|cbn; lia]|].
  intros [] c' (Hs & _). exact Hs.
Defined.

Lemma uitoa_spec_witness :
  wp (uitoa 4294967295) (replicate 11 0) (λ _ b, ∃ ds, holds b ds ∧ decimal_value ds = 4294967295).
Proof.
  eapply wp_mono; [exact (uitoa_spec 4294967295 (replicate 11 0) ltac:(unfold is_u32; lia) ltac:(cbn; lia)
    ltac:(vm_compute; reflexivity))|].
  intros [] b (_ & ds & Hh & Hv & _). by exists ds.
Defined.

Lemma draw_loading_bar_spec_witness :
  wp (draw_loading_bar 50) (console_demo tt) (λ _ c', (cell (VGA_MEMORY c') 1079).1 = Some 35).
Proof.
  eapply wp_mono; [exact (draw_loading_bar_spec 50 (console_demo tt) eq_refl ltac:(lia))|].
  intros [] c' (_ & _ & _ & Hb & _). exact (Hb 18 ltac:(lia)).
Defined.
