(* ===== verification/Screen.v ===== *)
(** * The screen keeps its type (src/src/kernel.c)

    Console.v says what each operation draws.  Here the operations are the letters of programs:
    whatever sequence of them runs, no write leaves the video memory, every byte of it stays a
    byte, the cursor stays on the screen and the serial port stays usable. *)

From S2P Require Import Prelude Pic Console.

(** The operations of kernel.c on screen and log. *)
Inductive screen_op :=
| Clear
| SetCursor (row col : Z)
| PutChar (ch : Z)
| WriteAt (row col : Z) (buf : list Z)
| WriteCentered (row : Z) (buf : list Z)
| LoadingBar (percent : Z)
| Box (top lft height width : Z)
| InputField (row col width : Z)
| Log (msg : list Z).

Definition run_op {K} `{Device K} (polls : nat) (o : screen_op) : M (console K) unit :=
  match o with
  | Clear => vga_clear
  | SetCursor row col => vga_set_cursor row col
  | PutChar ch => vga_put_char ch
  | WriteAt row col buf => vga_write_at row col buf
  | WriteCentered row buf => vga_write_centered row buf
  | LoadingBar percent => draw_loading_bar percent
  | Box top lft height width => draw_box top lft height width
  | InputField row col width => draw_input_field row col width
  | Log msg => log_info polls msg
  end.

Fixpoint run_ops {K} `{Device K} (polls : nat) (os : list screen_op) : M (console K) unit :=
  match os with
  | [] => skip
  | o :: os => run_op polls o;; run_ops polls os
  end.

Definition byte (x : Z) : Prop := 0 ≤ x < 256.

(** An array of characters with a string in it. *)
Definition text (buf : list Z) : Prop := Forall byte buf ∧ ∃ txt, holds buf txt.

(** The arguments the operations are made for: strings end, a percentage is one, boxes and
    fields lie on the screen. *)
Definition op_ok (o : screen_op) : Prop :=
  match o with
  | Clear | SetCursor _ _ => True
  | PutChar ch => byte ch
  | WriteAt _ _ buf | WriteCentered _ buf | Log buf => text buf
  | LoadingBar percent => 0 ≤ percent ≤ 100
  | Box top lft height width =>
      0 ≤ top ∧ 0 ≤ lft ∧ 1 ≤ height ∧ 1 ≤ width ∧ top + height ≤ 25 ∧ lft + width ≤ 80
  | InputField row col width => 0 ≤ row < 25 ∧ 0 ≤ col ∧ 0 ≤ width ∧ col + width ≤ 80
  end.

(** The type of the console: 4000 bytes of video memory, a cursor on the screen, a colour that
    is a byte. *)
Definition well_typed {K} (c : console K) : Prop := con_wf c ∧ Forall byte (VGA_MEMORY c) ∧ byte (vga_color c).

(** ** Lemmas *)

Definition keeps {S A} (I : S → Prop) (m : M S A) : Prop := ∀ s, I s → wlp m s (λ _ s', I s').

Section keeps.
Context {S : Type} (I : S → Prop).

Lemma keeps_bind {A B} (m : M S A) (k : A → M S B) : keeps I m → (∀ a, keeps I (k a)) → keeps I (bind m k).
Proof. intros Hm Hk s Hs. apply wlp_bind. eapply wlp_mono; [by apply Hm|]. intros a s' Hs'. by apply Hk. Qed.

Lemma keeps_gets {A} (f : S → A) : keeps I (gets f).
Proof. by intros s Hs. Qed.

Lemma keeps_ret {A} (a : A) : keeps I (ret a).
Proof. by intros s Hs. Qed.

Lemma keeps_undef {A} : keeps I (undef : M S A).
Proof. by intros s Hs. Qed.

Lemma keeps_for lo n (body : Z → M S unit) : (∀ i, keeps I (body i)) → keeps I (for_ lo n body).
Proof. intros Hb s Hs. apply wlp_for; [|done]. intros i s' Hs'. by apply Hb. Qed.

End keeps.

Create HintDb keeps.
#[export] Hint Resolve keeps_gets keeps_ret keeps_undef : keeps.

Lemma arr_set_bytes l i x : Forall byte l → byte x → Forall byte (arr_set l i x).
Proof. intros Hl Hx. unfold arr_set. destruct (0 <=? i); [by apply Forall_insert|done]. Qed.

(** Local arrays of characters. *)
Lemma keeps_arr_put i x : byte x → keeps (Forall byte) (arr_put i x).
Proof.
  intros Hx b Hb. unfold arr_put. apply wlp_bind. unfold wlp at 1, gets. destruct (in_range _ _); [|done].
  unfold wlp, modify. by apply arr_set_bytes.
Qed.

Lemma keeps_digits fuel value idx : keeps (Forall byte) (digits_loop fuel value idx).
Proof.
  revert value idx. induction fuel as [|fuel IH]; intros value idx; cbn [digits_loop]; [done|].
  destruct (0 <? value); [|auto with keeps]. apply keeps_bind; [|intros _; apply IH]. apply keeps_arr_put. unfold byte. mlia.
Qed.

(** Text from a well-typed local array, for the rest of the program. *)
Lemma wlp_local {S A B} (buf : list Z) (m : M (list Z) A) (k : A * list Z → M S B) s (Q : B → S → Prop) :
  keeps (Forall byte) m → Forall byte buf → (∀ a b, Forall byte b → wlp (k (a, b)) s Q) →
  wlp (bind (on_local buf m) k) s Q.
Proof.
  intros Hm Hb HQ. apply wlp_bind. unfold wlp at 1, on_local. specialize (Hm buf Hb). unfold wlp in Hm.
  destruct (m buf) as [a b| | |]; [|done..]. by apply HQ.
Qed.

Lemma zeros_bytes n : Forall byte (replicate n 0).
Proof. apply Forall_replicate. unfold byte. lia. Qed.

Lemma keeps_uitoa value : keeps (Forall byte) (uitoa value).
Proof.
  unfold uitoa. destruct (value =? 0); [apply keeps_bind; [|intros _]; apply keeps_arr_put; unfold byte; lia|].
  intros b Hb. apply wlp_local; [apply keeps_digits|apply zeros_bytes|]. intros idx tmp Ht.
  revert b Hb. change (keeps (Forall byte) (reverse_copy tmp idx;; arr_put idx 0)).
  apply keeps_bind; [|intros _; apply keeps_arr_put; unfold byte; lia]. apply keeps_for. intros i b Hb. apply wlp_bind.
  unfold wlp at 1. destruct (arr_get tmp (idx - i - 1)) as [x|] eqn:E; [|done]. cbn. apply keeps_arr_put; [|done].
  unfold arr_get in E. destruct (0 <=? idx - i - 1); [|done]. exact (Forall_lookup_1 _ _ _ _ Ht E).
Qed.

Lemma keeps_copy src l : Forall byte src → keeps (Forall byte) (copy_text src l).
Proof.
  intros Hs. revert l. induction Hs as [|x src Hx _ IH]; intros l; cbn [copy_text]; [auto with keeps|].
  destruct (x =? 0); [auto with keeps|]. apply keeps_bind; [by apply keeps_arr_put|intros _; apply IH].
Qed.

Section screen.
Context {K : Type}.
Implicit Types c : console K.

Lemma keeps_vput i x : byte x → keeps (well_typed (K := K)) (vput i x).
Proof.
  intros Hx c (Hw & Hm & Hc). unfold vput. apply wlp_bind. unfold wlp at 1, gets. destruct (in_range _ _); [|done].
  unfold wlp, modify. destruct Hw as (W1 & W2 & W3). split; [|split; [by apply arr_set_bytes|done]].
  split_and!; [cbn; by rewrite length_arr_set|apply W2..|apply W3|apply W3].
Qed.

Lemma keeps_put_cell p x : byte x → keeps (well_typed (K := K)) (put_cell p x).
Proof.
  intros Hx c Hc. unfold put_cell. apply wlp_bind. unfold wlp at 1, gets. apply keeps_bind; [by apply keeps_vput| |done].
  intros _. apply keeps_vput, Hc.
Qed.

Lemma keeps_cursor row col : 0 ≤ row < 25 → 0 ≤ col < 80 → keeps (well_typed (K := K)) (modify (set_cursor row col)).
Proof. intros Hr Hc c ((W1 & _ & _) & Hm & Hx). exact (conj (conj W1 (conj Hr Hc)) (conj Hm Hx)). Qed.

Lemma keeps_set_cursor row col : keeps (well_typed (K := K)) (vga_set_cursor row col).
Proof.
  unfold vga_set_cursor. cbv zeta. change VGA_ROWS with 25. change VGA_COLS with 80. apply keeps_cursor; repeat case_match; lia.
Qed.

Lemma keeps_next_row col : 0 ≤ col < 80 → keeps (well_typed (K := K)) (next_row col).
Proof.
  intros Hcol c Hc. unfold next_row. apply wlp_bind. unfold wlp at 1, gets. change VGA_ROWS with 25.
  apply keeps_cursor; [|done|done]. destruct Hc as ((_ & W2 & _) & _). destruct (Z.leb_spec 25 (vga_row c + 1)); lia.
Qed.

Lemma keeps_put_char x : byte x → keeps (well_typed (K := K)) (vga_put_char x).
Proof.
  intros Hx. assert (byte 32) by (unfold byte; lia). unfold vga_put_char. destruct (x =? 10); [apply keeps_next_row; lia|].
  intros c Hc. pose proof Hc as ((_ & W2 & W3) & _).
  destruct (x =? 8); (apply wlp_bind; unfold wlp at 1, gets; apply wlp_bind; unfold wlp at 1, gets).
  - destruct (Z.ltb_spec 0 (vga_col c)); [|done]. cbn [when]. apply keeps_bind; [apply keeps_cursor; lia| |done].
    intros _. by apply keeps_put_cell.
  - apply keeps_bind; [by apply keeps_put_cell| |done]. intros _. change VGA_COLS with 80.
    destruct (Z.leb_spec 80 (vga_col c + 1)); [apply keeps_next_row; lia|apply keeps_cursor; lia].
Qed.

Lemma keeps_print buf : Forall byte buf → keeps (well_typed (K := K)) (print_vga buf).
Proof.
  induction 1 as [|x buf Hx _ IH]; cbn [print_vga]; [apply keeps_undef|]. destruct (x =? 0); [apply keeps_ret|].
  apply (keeps_bind well_typed); [by apply keeps_put_char|intros _; apply IH].
Qed.

Lemma lit_bytes s : Forall byte (lit s).
Proof. unfold lit. apply Forall_app. split; [apply str_bytes|]. repeat constructor; lia. Qed.

Lemma keeps_write_at row col buf : Forall byte buf → keeps (well_typed (K := K)) (vga_write_at row col buf).
Proof. intros Hb. apply keeps_bind; [apply keeps_set_cursor|]. intros _. by apply keeps_print. Qed.

Lemma keeps_kstrlen {S} (I : S → Prop) buf : keeps I (kstrlen buf).
Proof.
  unfold kstrlen. generalize 0. induction buf as [|x buf IH]; intros l; cbn [kstrlen_from]; [auto with keeps|].
  destruct (x =? 0); [auto with keeps|apply IH].
Qed.

Lemma keeps_centered row buf : Forall byte buf → keeps (well_typed (K := K)) (vga_write_centered row buf).
Proof. intros Hb. apply keeps_bind; [apply keeps_kstrlen|]. intros l. cbv zeta. by apply keeps_write_at. Qed.

Lemma keeps_clear : keeps (well_typed (K := K)) vga_clear.
Proof.
  apply keeps_bind; [|intros _; apply keeps_cursor; lia]. do 2 (apply keeps_for; intros ?). apply keeps_put_cell. unfold byte. lia.
Qed.

Lemma keeps_bar percent : keeps (well_typed (K := K)) (draw_loading_bar percent).
Proof.
  unfold draw_loading_bar. cbv zeta. do 2 (apply keeps_bind; [apply keeps_write_at, lit_bytes|]; intros _).
  apply keeps_bind; [apply keeps_for; intros i; apply keeps_put_cell; unfold byte; case_match; lia|]. intros _ c Hc.
  apply wlp_local; [apply keeps_uitoa|apply zeros_bytes|]. intros _ ptext Hp.
  apply wlp_local; [|apply zeros_bytes|].
  - apply keeps_bind; [apply keeps_arr_put; unfold byte; lia|]. intros _. apply keeps_bind; [by apply keeps_copy|].
    intros l. apply keeps_bind; [|intros _]; apply keeps_arr_put; unfold byte; lia.
  - intros _ label Hl. by apply keeps_centered.
Qed.

Lemma keeps_box top lft height width : keeps (well_typed (K := K)) (draw_box top lft height width).
Proof.
  unfold draw_box.
  do 2 (apply keeps_bind; [apply keeps_for; intros i; apply keeps_bind; [|intros _]; apply keeps_put_cell; unfold byte; lia|]; intros _).
  do 3 (apply keeps_bind; [apply keeps_vput; unfold byte; lia|]; intros _). apply keeps_vput. unfold byte. lia.
Qed.

Lemma keeps_field row col width : keeps (well_typed (K := K)) (draw_input_field row col width).
Proof. apply keeps_for. intros i. apply keeps_put_cell. unfold byte. lia. Qed.

Lemma keeps_log `{Device K} polls msg : Forall byte msg → keeps (well_typed (K := K)) (log_info polls msg).
Proof.
  intros Hm. unfold log_info. apply keeps_bind.
  { intros c Hc. unfold on_machine. apply wlp_zoom. unfold wlp. by case_match. }
  intros _. cbv zeta. apply keeps_bind; [apply keeps_for; intros i; apply keeps_bind; [|intros _]; apply keeps_vput; unfold byte; lia|].
  intros _. apply keeps_bind; [apply keeps_write_at, lit_bytes|]. intros _. by apply keeps_write_at.
Qed.

End screen.

(** One operation. *)
Lemma keeps_op {K} `{Device K} polls o : op_ok o → keeps (well_typed (K := K)) (run_op polls o).
Proof.
  destruct o; cbn [op_ok run_op]; intros Ho.
  - apply keeps_clear.
  - apply keeps_set_cursor.
  - by apply keeps_put_char.
  - by apply keeps_write_at, Ho.
  - by apply keeps_centered, Ho.
  - apply keeps_bar.
  - apply keeps_box.
  - apply keeps_field.
  - by apply keeps_log, Ho.
Qed.

(** Console and serial port in order. *)
Definition usable {K} `{UartDevice K} (c : console K) : Prop := well_typed c ∧ uart_ready (machine c).

Lemma returns_op {K} `{UartDevice K} polls o (c : console K) :
  (uart_delay < polls)%nat → op_ok o → con_wf c → uart_ready (machine c) →
  wp (run_op polls o) c (λ _ c', uart_ready (machine c')).
Proof.
  intros Hp Ho Hw Hu. pose proof Hw as (Hl & _ & _).
  assert (Hdraw : ∀ op : M (console K) unit, draws op → wp op c (λ _ c', uart_ready (machine c'))).
  { intros op Hd. apply wp_draws; [done|done|]. by intros c' (m & r & k & _ & ->). }
  destruct o; cbn [op_ok run_op] in *.
  - apply Hdraw, draws_clear.
  - by apply wp_set_cursor.
  - apply wp_put_any; [done|]. intros c' m _ ->. exact Hu.
  - destruct Ho as (_ & txt & Ht). by eapply Hdraw, draws_write_at.
  - destruct Ho as (_ & txt & Ht). by eapply Hdraw, draws_centered.
  - eapply wp_mono; [by apply draw_loading_bar_spec|]. intros [] c' [(m & r & k & _ & ->) _]. exact Hu.
  - apply Hdraw, draws_box; lia.
  - apply Hdraw, draws_field; lia.
  - destruct Ho as (Hb & txt & Ht). apply (wp_log_any (λ _, True)) with txt; [done..| |].
    + destruct Ht as [_ [junk ->]]. by apply Forall_app in Hb as [Hb _].
    + by intros c' _ Hu' _ _ _.
Qed.

(** ** Properties *)

(** C40. The screen keeps its type: every sequence of screen and log operations of kernel.c, with
    the arguments they are made for, returns without an access outside the video memory or an
    array, and leaves 4000 bytes of video memory, a cursor inside the 25 rows and 80 columns, a
    colour that is a byte, and a serial port that takes the next character. *)
Theorem screen_well_typed {K} `{UartDevice K} polls os (c : console K) :
  (uart_delay < polls)%nat → Forall op_ok os → usable c → wp (run_ops polls os) c (λ _ c', usable c').
Proof.
  intros Hp Ho. revert c. induction Ho as [|o os Ho _ IH]; intros c [Ht Hu]; cbn [run_ops]; [by wp_step|].
  wp_step. eapply wp_mono; [apply wp_wlp_and; [by apply returns_op; [..|apply Ht|]|by apply keeps_op]|].
  intros [] c' [Hu' Ht']. by apply IH.
Qed.

(** ** The property at a concrete input *)

Lemma screen_well_typed_witness :
  wp (run_ops 3 [Clear; Box 5 10 4 20; WriteCentered 6 (lit "Hello"); LoadingBar 50; PutChar 10; Log (lit "ready")])
    (console_demo uart_demo) (λ _ c', usable c').
Proof.
  assert (Ht : ∀ s, 0 ∉ str s → text (lit s)).
  { intros s Hs. split; [apply lit_bytes|]. exists (str s). by apply lit_holds. }
  apply (screen_well_typed 3 _ (console_demo uart_demo)); [exact (le_n 3)| |].
  - repeat (apply Forall_cons; split); try apply Forall_nil_2; cbn [op_ok];
      [done|lia|apply Ht; no_nul|lia|unfold byte; lia|apply Ht; no_nul].
  - split; [|split; [done|cbn; lia]]. split; [split_and!; cbn; (done || lia)|]. split; [|unfold byte; cbn; lia].
    refine (bool_decide_unpack _ _). by vm_compute.
Defined.
