(* ===== verification/Login.v ===== *)
(** * The login dialogue and the boot message (src/src/kernel.c)

    The line editor of [read_input], the login screen and the boot message.  The keyboard
    and the timer, which the dialogue waits for, are reached through the interface [Input];
    keyboard.c and timer.c implement it at the end of the file. *)

From S2P Require Import Prelude Pic Idt Timer Keyboard Console.

(** What the login dialogue asks of the keyboard and the timer: [keyboard_get_char] and
    [timer_wait]. *)
Class Input (K : Type) := {
  in_get_char : M K Z;
  in_wait : Z → M K unit
}.

(** ** Input and the login dialogue *)

Section login.
Context {K : Type} `{Input K}.

(** The rounds of [read_input] on its buffer and the console; each one takes a character
    from the keyboard, and [fuel] bounds their number. *)
Fixpoint read_loop (fuel : nat) (row col max_len : Z) (is_password : bool) (pos : Z) :
    M (list Z * console K) Z :=
  match fuel with
  | O => no_fuel
  | S fuel =>
      c ← zoom (λ s, machine s.2) (λ k s, (s.1, set_machine k s.2)) in_get_char;
      if c =? 10 then
        zoom fst (λ b s, (b, s.2)) (arr_put pos 0);;
        ret pos
      else if c =? 8 then
        if 0 <? pos then
          zoom snd (λ k s, (s.1, k)) (put_cell (row * VGA_COLS + col + (pos - 1)) 95);;
          read_loop fuel row col max_len is_password (pos - 1)
        else read_loop fuel row col max_len is_password pos
      else if (pos <? max_len - 1) && (32 <=? c) && (c <? 127) then
        zoom fst (λ b s, (b, s.2)) (arr_put pos c);;
        zoom snd (λ k s, (s.1, k))
          (put_cell (row * VGA_COLS + col + pos) (if is_password then 42 else c));;
        read_loop fuel row col max_len is_password (pos + 1)
      else read_loop fuel row col max_len is_password pos
  end.

Definition read_input (fuel : nat) (row col max_len : Z) (is_password : bool) :
    M (list Z * console K) Z :=
  zoom snd (λ k s, (s.1, k)) (draw_input_field row col max_len);;
  read_loop fuel row col max_len is_password 0.

(** The two static buffers as the argument of [read_input]. *)
Definition into_username {A} (m : M (list Z * console K) A) : M (console K) A :=
  zoom (λ c, (login_username c, c)) (λ p _, set_username p.1 p.2) m.

Definition into_password {A} (m : M (list Z * console K) A) : M (console K) A :=
  zoom (λ c, (login_password c, c)) (λ p _, set_password p.1 p.2) m.

Definition on_input {A} (m : M K A) : M (console K) A := zoom machine set_machine m.

(** The loop of [show_login_screen]; [fuel] bounds the attempts and the keys of a field. *)
Fixpoint login_loop (fuel : nat) (keys : nat) (box_top field_col field_width : Z) :
    M (console K) unit :=
  match fuel with
  | O => no_fuel
  | S fuel =>
      into_username (read_input keys (box_top + 4) field_col field_width false);;
      into_password (read_input keys (box_top + 6) field_col field_width true);;
      u ← gets login_username;
      p ← gets login_password;
      lu ← kstrlen u;
      ok ← (if 0 <? lu then lp ← kstrlen p; ret (0 <? lp) else ret false);
      if ok then skip else
      vga_write_centered (box_top + 9) (lit "Invalid credentials!");;
      on_input (in_wait 100);;
      vga_write_centered (box_top + 9) (lit "                             ");;
      vga_write_centered (box_top + 9) (lit "Press ENTER after each field");;
      draw_input_field (box_top + 4) field_col field_width;;
      draw_input_field (box_top + 6) field_col field_width;;
      login_loop fuel keys box_top field_col field_width
  end.

Definition show_login_screen (fuel keys : nat) : M (console K) unit :=
  vga_clear;;
  let box_width := 40 in
  let box_height := 12 in
  let box_left := (VGA_COLS - box_width) / 2 in
  let box_top := 6 in
  draw_box box_top box_left box_height box_width;;
  vga_write_centered (box_top + 2) (lit "FlowOS Login");;
  let label_col := box_left + 4 in
  let field_col := box_left + 15 in
  let field_width := 20 in
  vga_write_at (box_top + 4) label_col (lit "Username:");;
  draw_input_field (box_top + 4) field_col field_width;;
  vga_write_at (box_top + 6) label_col (lit "Password:");;
  draw_input_field (box_top + 6) field_col field_width;;
  vga_write_centered (box_top + 9) (lit "Press ENTER after each field");;
  login_loop fuel keys box_top field_col field_width;;
  vga_write_centered (box_top + 9) (lit "                             ");;
  vga_write_centered (box_top + 9) (lit "Authenticating...");;
  vga_write_centered (box_top + 9) (lit "Authenticating...");;
  on_input (in_wait 100).

End login.

(** [for (j = 0; name[j] != 0 && i < 46; ++j) welcome[i++] = name[j];] *)
Fixpoint copy_welcome (name : list Z) (i : Z) : M (list Z) Z :=
  match name with
  | [] => undef
  | c :: name =>
      if (c =? 0) || (46 <=? i) then ret i
      else arr_put i c;; copy_welcome name (i + 1)
  end.

Definition show_booted_message {K} : M (console K) unit :=
  vga_clear;;
  let box_width := 50 in
  let box_height := 7 in
  let box_left := (VGA_COLS - box_width) / 2 in
  let box_top := 9 in
  draw_box box_top box_left box_height box_width;;
  old_color ← gets vga_color;
  modify (set_color 0x0A);;
  vga_write_centered (box_top + 3) (lit "FlowOS Booted");;
  modify (set_color old_color);;
  name ← gets login_username;
  '(_, welcome) ← on_local (str "Welcome, " ++ replicate 39 0) (
    i ← copy_welcome name 9;
    arr_put i 33;;
    arr_put (i + 1) 0);
  vga_write_centered (box_top + box_height + 2) welcome.

(** ** What the keyboard and the timer promise: the keys typed ahead come in order, and
    waiting keeps those that fit the keyboard's buffer. *)
Class InputOk (K : Type) `{Input K} := {
  in_inv : K → Prop;
  typed_ahead : K → list Z;
  in_get_char_ok k c cs :
    in_inv k → typed_ahead k = c :: cs →
    wp in_get_char k (λ r k', r = c ∧ in_inv k' ∧ typed_ahead k' = cs);
  in_wait_ok n k :
    in_inv k → is_u32 n → Z.of_nat (length (typed_ahead k)) ≤ 255 →
    wp (in_wait n) k (λ _ k', in_inv k' ∧ typed_ahead k' = typed_ahead k)
}.

(** ** Abstract view: a line editor *)

(** The line editor: what is in the field after the keys up to ENTER, and the keys left. *)
Fixpoint edit (max_len : Z) (line keys : list Z) : option (list Z * list Z) :=
  match keys with
  | [] => None
  | k :: keys =>
      if k =? 10 then Some (line, keys)
      else if k =? 8 then edit max_len (removelast line) keys
      else if (Z.of_nat (length line) <? max_len - 1) && (32 <=? k) && (k <? 127)
      then edit max_len (line ++ [k]) keys
      else edit max_len line keys
  end.

(** The dialogue: pairs of fields until neither is empty. *)
Fixpoint login (fuel : nat) (keys : list Z) : option (list Z * list Z * list Z) :=
  match fuel with
  | O => None
  | S fuel =>
      match edit 20 [] keys with
      | None => None
      | Some (u, keys) =>
          match edit 20 [] keys with
          | None => None
          | Some (p, keys) =>
              if bool_decide (u = []) || bool_decide (p = []) then login fuel keys
              else Some (u, p, keys)
          end
      end
  end.

(** ** The input field *)

(** What the field shows of a line. *)
Definition shown (is_password : bool) (line : list Z) : list Z :=
  if is_password then replicate (length line) 42 else line.

(** The screen with a field of [width] cells at [p] that shows [txt]. *)
Definition field_at (m m0 : list Z) (p width col : Z) (txt : list Z) : Prop :=
  length m = 4000%nat ∧
  ∀ q, cell m q = if (p <=? q) && (q <? p + width)
                  then (Some (default 95 (arr_get txt (q - p))), Some col) else cell m0 q.

Definition printable (c : Z) : Prop := 32 ≤ c < 127.

Lemma length_shown pw line : length (shown pw line) = length line.
Proof. destruct pw; cbn; [by rewrite length_replicate|done]. Qed.

Lemma shown_snoc pw line c : shown pw (line ++ [c]) = shown pw line ++ [if pw then 42 else c].
Proof. destruct pw; cbn; [|done]. by rewrite length_app, replicate_add. Qed.

(** A character appended to the field, and the last one removed. *)
Lemma field_push m m0 p width col txt c :
  field_at m m0 p width col txt → 0 ≤ p → p + width ≤ 2000 → Z.of_nat (length txt) < width →
  field_at (set_cell m (p + Z.of_nat (length txt)) c col) m0 p width col (txt ++ [c]).
Proof.
  intros [Hl Hq] Hp Hw Hlen. split; [by rewrite length_set_cell|]. intros q. rewrite arr_get_snoc.
  destruct (Z.eq_dec (p + Z.of_nat (length txt)) q) as [<-|Hne].
  - rewrite cell_set_eq by (done || lia). replace (p + Z.of_nat (length txt) - p) with (Z.of_nat (length txt)) by lia.
    rewrite Z.eqb_refl. destruct (Z.leb_spec p (p + Z.of_nat (length txt))),
      (Z.ltb_spec (p + Z.of_nat (length txt)) (p + width)); (lia || done).
  - rewrite cell_set_ne, Hq by done. by destruct (Z.eqb_spec (q - p) (Z.of_nat (length txt))); [lia|].
Qed.

Lemma field_pop m m0 p width col txt c :
  field_at m m0 p width col (txt ++ [c]) → 0 ≤ p → p + width ≤ 2000 → Z.of_nat (length txt) < width →
  field_at (set_cell m (p + Z.of_nat (length txt)) 95 col) m0 p width col txt.
Proof.
  intros [Hl Hq] Hp Hw Hlen. split; [by rewrite length_set_cell|]. intros q.
  destruct (Z.eq_dec (p + Z.of_nat (length txt)) q) as [<-|Hne].
  - rewrite cell_set_eq by (done || lia). replace (p + Z.of_nat (length txt) - p) with (Z.of_nat (length txt)) by lia.
    rewrite arr_get_ge by lia. destruct (Z.leb_spec p (p + Z.of_nat (length txt))),
      (Z.ltb_spec (p + Z.of_nat (length txt)) (p + width)); (lia || done).
  - rewrite cell_set_ne, Hq, arr_get_snoc by done. by destruct (Z.eqb_spec (q - p) (Z.of_nat (length txt))); [lia|].
Qed.

(** The editor keeps lines printable and short enough. *)
Lemma edit_bounds max_len line keys out rest :
  edit max_len line keys = Some (out, rest) → Forall printable line →
  Z.of_nat (length line) < max_len →
  Forall printable out ∧ Z.of_nat (length out) < max_len ∧ (length rest < length keys)%nat.
Proof.
  revert line. induction keys as [|k keys IH]; intros line He Hp Hl; cbn [edit] in He; [done|].
  assert (Hnext : ∀ l, edit max_len l keys = Some (out, rest) → Forall printable l →
    Z.of_nat (length l) < max_len →
    Forall printable out ∧ Z.of_nat (length out) < max_len ∧ (length rest < length (k :: keys))%nat).
  { intros l H1 H2 H3. destruct (IH l H1 H2 H3) as (? & ? & ?). cbn [length]. split_and!; [done|done|lia]. }
  destruct (k =? 10); [injection He as <- <-; cbn [length]; split_and!; [done|done|lia]|].
  destruct (k =? 8).
  - destruct line as [|x line _] using rev_ind; [by apply (Hnext [])|].
    rewrite removelast_last in He. rewrite length_app in Hl. cbn in Hl. apply (Hnext line); [done| |lia].
    by apply Forall_app in Hp as [? _].
  - destruct ((Z.of_nat (length line) <? max_len - 1) && (32 <=? k) && (k <? 127)) eqn:E.
    + apply (Hnext (line ++ [k])); [done| |rewrite length_app; cbn; lia].
      apply Forall_app. split; [done|]. constructor; [unfold printable; lia|done].
    + by apply (Hnext line).
Qed.

Section read_input.
Context {K : Type} `{InputOk K}.

Lemma wp_read_loop fuel row col max_len pw line buf (m0 : list Z) (c : console K) out rest
    (Q : Z → list Z * console K → Prop) :
  0 ≤ row < 25 → 0 ≤ col → col + max_len ≤ 80 → max_len ≤ Z.of_nat (length buf) →
  in_inv (machine c) → edit max_len line (typed_ahead (machine c)) = Some (out, rest) →
  (length (typed_ahead (machine c)) ≤ fuel)%nat →
  Forall printable line → Z.of_nat (length line) < max_len →
  (∀ i ch, line !! i = Some ch → arr_get buf (Z.of_nat i) = Some ch) →
  field_at (VGA_MEMORY c) m0 (row * 80 + col) max_len (vga_color c) (shown pw line) →
  (∀ buf' m k, length buf' = length buf → holds buf' out → in_inv k → typed_ahead k = rest →
     field_at m m0 (row * 80 + col) max_len (vga_color c) (shown pw out) →
     Q (Z.of_nat (length out)) (buf', set_machine k (set_screen m c))) →
  wp (read_loop fuel row col max_len pw (Z.of_nat (length line))) (buf, c) Q.
Proof.
  intros Hrow Hcol Hmax Hbl. revert line buf Hbl c. induction fuel as [|fuel IH];
    intros line buf Hbl c Hi He Hf Hpr Hlen Hbuf Hfield HQ.
  { destruct (typed_ahead (machine c)); [done|cbn in Hf; lia]. }
  destruct (typed_ahead (machine c)) as [|ch keys] eqn:Et; [done|]. cbn [read_loop]. wp_step. wp_step.
  cbn [snd]. eapply wp_mono; [by apply in_get_char_ok|]. intros ? k' (-> & Hi' & Hk'). cbn [edit] in He.
  cbn [length] in Hf. cbn [fst snd].
  (* the rest of the loop, from a new line, buffer and screen *)
  assert (Hnext : ∀ line' buf' m', length buf' = length buf → edit max_len line' keys = Some (out, rest) →
    Forall printable line' → Z.of_nat (length line') < max_len →
    (∀ i ch, line' !! i = Some ch → arr_get buf' (Z.of_nat i) = Some ch) →
    field_at m' m0 (row * 80 + col) max_len (vga_color c) (shown pw line') →
    wp (read_loop fuel row col max_len pw (Z.of_nat (length line'))) (buf', set_screen m' (set_machine k' c)) Q).
  { intros line' buf' m' H1 H2 H3 H4 H5 H6. apply IH; cbn [machine set_screen set_machine VGA_MEMORY vga_color];
      rewrite ?Hk', ?H1; [lia|done|done|lia|done|done|done|done|].
    intros b2 m2 k2 G1 G2 G3 G4 G5. apply (HQ b2 m2 k2); [congruence|done..]. }
  assert (Hsame : set_machine k' c = set_screen (VGA_MEMORY c) (set_machine k' c)) by by destruct c.
  destruct (Z.eqb_spec ch 10) as [->|Hn10].
  - injection He as <- <-. wp_step. wp_step. cbn [fst]. apply wp_arr_put; [lia|]. wp_step. rewrite Hsame.
    apply (HQ _ (VGA_MEMORY c) k'); [by rewrite length_arr_set| |done|done|done].
    apply holds_get; [|intros i x Hx|apply arr_get_set_eq; lia].
    + intros Hin. rewrite Forall_forall in Hpr. specialize (Hpr 0 Hin). unfold printable in Hpr. lia.
    + pose proof (lookup_lt_Some _ _ _ Hx). rewrite arr_get_set_ne by lia. by apply Hbuf.
  - destruct (Z.eqb_spec ch 8) as [->|Hn8].
    + destruct line as [|x line _] using rev_ind.
      * cbn [length Z.of_nat Z.ltb Z.compare]. rewrite Hsame. by apply (Hnext []).
      * rewrite removelast_last in He. rewrite length_app in *. cbn [length] in *.
        destruct (Z.ltb_spec 0 (Z.of_nat (length line + 1))); [|lia].
        replace (Z.of_nat (length line + 1) - 1) with (Z.of_nat (length line)) by lia.
        wp_step. wp_step. cbn [snd]. apply wp_put_cell; [apply Hfield|change VGA_COLS with 80; lia|].
        apply Hnext; [done|done|by apply Forall_app in Hpr as [? _]|lia| |].
        -- intros i y Hy. apply Hbuf. by apply lookup_app_l_Some.
        -- rewrite shown_snoc in Hfield. rewrite <- (length_shown pw line). change VGA_COLS with 80.
           eapply field_pop; [exact Hfield|lia|lia|rewrite length_shown; lia].
    + destruct ((Z.of_nat (length line) <? max_len - 1) && (32 <=? ch) && (ch <? 127)) eqn:E.
      * wp_step. wp_step. cbn [fst]. apply wp_arr_put; [lia|]. wp_step. wp_step. cbn [snd].
        apply wp_put_cell; [apply Hfield|change VGA_COLS with 80; lia|].
        replace (Z.of_nat (length line) + 1) with (Z.of_nat (length (line ++ [ch]))) by (rewrite length_app; cbn; lia).
        apply (Hnext (line ++ [ch]) (arr_set buf (Z.of_nat (length line)) ch)); [apply length_arr_set|done| |rewrite length_app; cbn; lia| |].
        -- apply Forall_app. split; [done|]. constructor; [unfold printable; lia|done].
        -- intros i y Hy. rewrite <- arr_get_nat, arr_get_snoc in Hy.
           destruct (Z.eqb_spec (Z.of_nat i) (Z.of_nat (length line))) as [Ei|].
           ++ injection Hy as <-. rewrite Ei. apply arr_get_set_eq. lia.
           ++ rewrite arr_get_set_ne by lia. apply Hbuf. by rewrite <- arr_get_nat.
        -- rewrite shown_snoc. rewrite <- (length_shown pw line). change VGA_COLS with 80.
           apply field_push; [exact Hfield|lia|lia|rewrite length_shown; lia].
      * rewrite Hsame. by apply Hnext.
Qed.

End read_input.

(** ** The dialogue *)

Section dialogue.
Context {K : Type} `{InputOk K}.
Implicit Types c : console K.

(** [read_input] from an empty field. *)
Lemma wp_read_input fuel row col max_len pw buf c line rest (Q : Z → list Z * console K → Prop) :
  length (VGA_MEMORY c) = 4000%nat → 0 ≤ row < 25 → 0 ≤ col → 1 ≤ max_len → col + max_len ≤ 80 →
  max_len ≤ Z.of_nat (length buf) → in_inv (machine c) →
  edit max_len [] (typed_ahead (machine c)) = Some (line, rest) →
  (length (typed_ahead (machine c)) ≤ fuel)%nat →
  (∀ buf' m k, length buf' = length buf → holds buf' line → in_inv k → typed_ahead k = rest →
     field_at m (VGA_MEMORY c) (row * 80 + col) max_len (vga_color c) (shown pw line) →
     Q (Z.of_nat (length line)) (buf', set_machine k (set_screen m c))) →
  wp (read_input fuel row col max_len pw) (buf, c) Q.
Proof.
  intros Hl Hr Hc Hm Hcm Hb Hi He Hf HQ. unfold read_input. wp_step. wp_step. cbn [snd].
  apply wp_draw_input_field; [done|done|done|lia|done|]. intros m Hml Hmq.
  apply (wp_read_loop fuel row col max_len pw [] buf (VGA_MEMORY c)) with line rest;
    cbn [machine set_screen VGA_MEMORY vga_color fst]; [done|done|done|done|done|done|done|done|cbn; lia|done| |].
  - split; [done|]. intros q. rewrite Hmq. replace (shown pw []) with (@nil Z) by by destruct pw.
    unfold arr_get. rewrite lookup_nil. by destruct (0 <=? q - (row * 80 + col)).
  - intros buf' m' k H1 H2 H3 H4 H5. exact (HQ buf' m' k H1 H2 H3 H4 H5).
Qed.

(** The console between two attempts. *)
Definition dialogue_ready c : Prop :=
  length (VGA_MEMORY c) = 4000%nat ∧ length (login_username c) = 32%nat ∧
  length (login_password c) = 32%nat ∧ in_inv (machine c) ∧
  Z.of_nat (length (typed_ahead (machine c))) ≤ 255.

Lemma dialogue_drawn c c' : dialogue_ready c → drawn c c' →
  dialogue_ready c' ∧ login_username c' = login_username c ∧ login_password c' = login_password c ∧
  machine c' = machine c.
Proof. intros (H1 & H2 & H3 & H4 & H5) (m & r & k & Hm & ->). split_and!; done. Qed.

Lemma wp_draw_ready (op : M (console K) unit) c (Q : unit → console K → Prop) :
  draws op → dialogue_ready c →
  (∀ c', dialogue_ready c' → login_username c' = login_username c → login_password c' = login_password c →
     machine c' = machine c → Q tt c') →
  wp op c Q.
Proof.
  intros Hd Hr HQ. apply wp_draws; [done|apply Hr|]. intros c' Hc'.
  destruct (dialogue_drawn c c' Hr Hc') as (H1 & H2 & H3 & H4). by apply HQ.
Qed.

Lemma wp_wait_ready n c (Q : unit → console K → Prop) :
  is_u32 n → dialogue_ready c →
  (∀ c', dialogue_ready c' → login_username c' = login_username c → login_password c' = login_password c →
     typed_ahead (machine c') = typed_ahead (machine c) → Q tt c') →
  wp (on_input (in_wait n)) c Q.
Proof.
  intros Hn (H1 & H2 & H3 & H4 & H5) HQ. unfold on_input. wp_step.
  eapply wp_mono; [by apply in_wait_ok|]. intros [] k [Hi Ht]. apply HQ; [|done|done|done].
  split_and!; cbn; [done|done|done|done|by rewrite Ht].
Qed.

(** One attempt reads both fields. *)
Lemma wp_attempt keys c u p rest1 rest (Q : unit → console K → Prop) :
  dialogue_ready c → (length (typed_ahead (machine c)) ≤ keys)%nat →
  edit 20 [] (typed_ahead (machine c)) = Some (u, rest1) → edit 20 [] rest1 = Some (p, rest) →
  (∀ c', dialogue_ready c' → holds (login_username c') u → holds (login_password c') p →
     typed_ahead (machine c') = rest → (length rest < length (typed_ahead (machine c)))%nat → Q tt c') →
  wp (into_username (read_input keys 10 35 20 false);; into_password (read_input keys 12 35 20 true);; skip) c Q.
Proof.
  intros (H1 & H2 & H3 & H4 & H5) Hk Eu Ep HQ.
  pose proof (edit_bounds _ _ _ _ _ Eu (Forall_nil_2 _) ltac:(cbn; lia)) as (_ & _ & L1).
  pose proof (edit_bounds _ _ _ _ _ Ep (Forall_nil_2 _) ltac:(cbn; lia)) as (_ & _ & L2).
  wp_step. unfold into_username. wp_step.
  apply wp_read_input with u rest1; [done|lia|lia|lia|lia|lia|done|done|done|].
  intros b1 m1 k1 Hb1 Hh1 Hi1 Ht1 [Hm1 _]. wp_step. unfold into_password. wp_step.
  apply wp_read_input with p rest; cbn; rewrite ?Ht1; [done|lia|lia|lia|lia|lia|done|done|lia|].
  intros b2 m2 k2 Hb2 Hh2 Hi2 Ht2 [Hm2 _]. apply wp_skip, HQ; [|done|done|done|lia].
  split_and!; cbn; [done|lia|lia|done|rewrite Ht2; lia].
Qed.

Lemma wp_login_loop fuel keys c u p rest (Q : unit → console K → Prop) :
  dialogue_ready c → (length (typed_ahead (machine c)) ≤ keys)%nat →
  login fuel (typed_ahead (machine c)) = Some (u, p, rest) →
  (∀ c', dialogue_ready c' → holds (login_username c') u → holds (login_password c') p →
     u ≠ [] → p ≠ [] → typed_ahead (machine c') = rest → Q tt c') →
  wp (login_loop fuel keys 6 35 20) c Q.
Proof.
  revert c. induction fuel as [|fuel IH]; intros c Hr Hk Hlog HQ; cbn [login] in Hlog; [done|].
  destruct (edit 20 [] (typed_ahead (machine c))) as [[u1 rest1]|] eqn:Eu; [|done].
  destruct (edit 20 [] rest1) as [[p1 rest2]|] eqn:Ep; [|done]. cbn [login_loop].
  pose proof (wp_attempt keys c u1 p1 rest1 rest2) as Hatt.
  assert (Hgo : ∀ k : M (console K) unit, (∀ c', dialogue_ready c' → holds (login_username c') u1 →
      holds (login_password c') p1 → typed_ahead (machine c') = rest2 →
      (length rest2 < length (typed_ahead (machine c)))%nat → wp k c' Q) →
    wp (into_username (read_input keys 10 35 20 false);; into_password (read_input keys 12 35 20 true);; k) c Q).
  { intros k Hkk. specialize (Hatt (λ _ c', wp k c' Q) Hr Hk Eu Ep Hkk).
    apply wp_bind_inv in Hatt. apply wp_bind. eapply wp_mono; [exact Hatt|]. intros n c1 Hc1.
    apply wp_bind_inv in Hc1. apply wp_bind. eapply wp_mono; [exact Hc1|]. by intros n2 c2 Hc2. }
  apply (Hgo _). clear Hgo Hatt. intros c1 Hr1 Hu1 Hp1 Ht1 Hlt. wp_step. wp_step. wp_step. wp_step. wp_step.
  apply wp_kstrlen with u1; [done|]. wp_step.
  assert (Hok : wp (if 0 <? Z.of_nat (length u1) then lp ← kstrlen (login_password c1); ret (0 <? lp) else ret false) c1
    (λ ok s', ok = negb (bool_decide (u1 = []) || bool_decide (p1 = [])) ∧ s' = c1)).
  { destruct u1 as [|x u1]; [done|]. cbn [length]. destruct (Z.ltb_spec 0 (Z.of_nat (S (length u1)))); [|lia].
    wp_step. apply wp_kstrlen with p1; [done|]. wp_step. split; [|done]. by destruct p1. }
  eapply wp_mono; [exact Hok|]. intros ok c2 [-> ->].
  destruct (bool_decide (u1 = []) || bool_decide (p1 = [])) eqn:Ee; cbn [negb].
  - wp_step. apply wp_draw_ready; [by auto with console|done|]. intros c3 Hr3 _ _ Hm3. wp_step.
    apply wp_wait_ready; [unfold is_u32; lia|done|]. intros c4 Hr4 _ _ Ht4.
    do 4 (wp_step; apply wp_draw_ready; [by auto with console|done|]; intros ? ? _ _ ?).
    apply IH; [done| | |done]; repeat match goal with E : machine ?x = machine _ |- _ => rewrite E; clear E end;
      rewrite Ht4, Hm3, Ht1; [lia|done].
  - injection Hlog as <- <- <-. apply wp_skip. apply orb_false_iff in Ee as [E1 E2].
    apply bool_decide_eq_false in E1, E2. by apply HQ.
Qed.

End dialogue.

(** The same for the user's name, of which 37 characters fit. *)
Lemma wp_copy_welcome src ds l b (Q : Z → list Z → Prop) :
  holds src ds → 0 ≤ l ≤ 46 → 46 ≤ Z.of_nat (length b) →
  let taken := take (Z.to_nat (46 - l)) ds in
  (∀ b', length b' = length b →
     (∀ i d, taken !! i = Some d → arr_get b' (l + Z.of_nat i) = Some d) →
     (∀ i, i < l → arr_get b' i = arr_get b i) → Q (l + Z.of_nat (length taken)) b') →
  wp (copy_welcome src l) b Q.
Proof.
  intros [Hz [junk ->]]. revert l b. induction ds as [|d ds IH]; intros l b Hl Hb taken HQ.
  - cbn. unfold taken in HQ. rewrite take_nil in HQ. rewrite <- (Z.add_0_r l). apply HQ; done.
  - apply not_elem_of_cons in Hz as [H0 Hz]. cbn [app copy_welcome].
    destruct (Z.eqb_spec d 0); [done|]. cbn [orb]. destruct (Z.leb_spec 46 l) as [Hge|Hlt].
    + wp_step. unfold taken in HQ. replace (Z.to_nat (46 - l)) with 0%nat in HQ by lia.
      rewrite <- (Z.add_0_r l). apply HQ; done.
    + wp_step. apply wp_arr_put; [lia|]. apply (IH Hz); [lia|rewrite length_arr_set; lia|].
      rewrite length_arr_set. intros b' Hlen Hin Hlow. unfold taken in HQ.
      replace (Z.to_nat (46 - l)) with (S (Z.to_nat (46 - (l + 1)))) in HQ by lia. cbn [take length] in HQ.
      replace (l + 1 + Z.of_nat (length (take (Z.to_nat (46 - (l + 1))) ds)))
        with (l + Z.of_nat (S (length (take (Z.to_nat (46 - (l + 1))) ds)))) by lia.
      apply HQ; [done| |].
      * intros [|i] x Hx.
        -- injection Hx as <-. rewrite Z.add_0_r, Hlow by lia. apply arr_get_set_eq. lia.
        -- replace (l + Z.of_nat (S i)) with (l + 1 + Z.of_nat i) by lia. by apply Hin.
      * intros i Hi. rewrite Hlow by lia. apply arr_get_set_ne. lia.
Qed.

(** ** The keyboard and the timer behind the interface

    The interrupts to come: ticks of the timer and scan codes of the keyboard; after those
    listed the timer goes on alone.  No other process is switched to: preemption is off, which is
    part of the invariant ([timer_enable_preemption] is never called). *)

Inductive event :=
| Tick
| Key (scancode : Z).

Record inputs := mkInputs {
  in_kbd : kbd;
  in_timer : timer;
  in_events : list event
}.

Definition key_of (e : event) : option Z := match e with Tick => None | Key sc => Some sc end.

Definition irq_of (e : event) : irq := match e with Tick => TimerIrq | Key _ => OtherIrq end.

(** The events left after [n] keys, and the ticks among those that passed. *)
Fixpoint after_keys (n : nat) (es : list event) : list event * Z :=
  match n, es with
  | O, _ | _, [] => (es, 0)
  | S _, Tick :: es => let '(es', t) := after_keys n es in (es', t + 1)
  | S n, Key _ :: es => after_keys n es
  end.

(** [keyboard_get_char] while these interrupts arrive. *)
Definition inputs_get_char : M inputs Z := λ s,
  match keyboard_get_char (omap key_of (in_events s)) (in_kbd s) with
  | Ret (c, rest) k =>
      let '(es, t) := after_keys (length (omap key_of (in_events s)) - length rest) (in_events s) in
      Ret c (mkInputs k (set_ticks (ticks (in_timer s) +w t) (in_timer s)) es)
  | Halt k => Halt (mkInputs k (in_timer s) [])
  | Undef => Undef
  | NoFuel => NoFuel
  end.

(** Scan codes that arrive one after the other. *)
Fixpoint keyboard_inputs (scs : list Z) : M kbd unit :=
  match scs with
  | [] => skip
  | sc :: scs => keyboard_input sc;; keyboard_inputs scs
  end.

(** [timer_wait] while these interrupts arrive: the keys typed meanwhile go to the keyboard. *)
Definition inputs_wait (n : Z) : M inputs unit := λ s,
  let irqs := (irq_of <$> in_events s) ++ replicate (Z.to_nat n) TimerIrq in
  match timer_wait n irqs (in_timer s) with
  | Ret rest t =>
      let used := (length irqs - length rest)%nat in
      match keyboard_inputs (omap key_of (take used (in_events s))) (in_kbd s) with
      | Ret _ k => Ret tt (mkInputs k t (drop used (in_events s)))
      | Halt k => Halt (mkInputs k t (drop used (in_events s)))
      | Undef => Undef
      | NoFuel => NoFuel
      end
  | Halt t => Halt (mkInputs (in_kbd s) t [])
  | Undef => Undef
  | NoFuel => NoFuel
  end.

#[global] Instance inputs_input : Input inputs := {|
  in_get_char := inputs_get_char;
  in_wait := inputs_wait
|}.

Definition inputs_inv (s : inputs) : Prop :=
  kbd_wf (in_kbd s) ∧ (is_u32 (ticks (in_timer s)) ∧ preemption_enabled (in_timer s) = false) ∧
  Forall (λ sc, 0 ≤ sc < 256) (omap key_of (in_events s)).

Definition inputs_typed (s : inputs) : list Z :=
  pending (in_kbd s) ++ omap typed (omap key_of (in_events s)).

Lemma after_keys_spec n es used rest :
  omap key_of es = used ++ rest → length used = n → omap key_of (after_keys n es).1 = rest.
Proof.
  revert n used. induction es as [|e es IH]; intros n used He Hn.
  - destruct used; [|done]. cbn in Hn. subst n. cbn in *. done.
  - destruct n as [|n]; [by destruct used|]. destruct e; cbn [after_keys].
    + destruct (after_keys (S n) es) as [es' t] eqn:E. cbn [fst].
      specialize (IH (S n) used He Hn). by rewrite E in IH.
    + destruct used as [|x used]; [done|]. cbn in He. injection He as _ He. injection Hn as Hn.
      by apply (IH n used).
Qed.

(** The reader takes the characters typed ahead in order, waiting only while there are none. *)
Lemma wp_get_char_stream irqs k c cs (Q : Z * list Z → kbd → Prop) :
  kbd_wf k → Forall (λ sc, 0 ≤ sc < 256) irqs → pending k ++ omap typed irqs = c :: cs →
  (∀ used rest k', irqs = used ++ rest → kbd_wf k' → pending k' ++ omap typed rest = cs → Q (c, rest) k') →
  wp (keyboard_get_char irqs) k Q.
Proof.
  revert k. induction irqs as [|sc irqs IH]; intros k Hwf Hb Hp HQ; pose proof Hwf as (Hl & Hs & He);
    (destruct (Z.eq_dec (buffer_start k) (buffer_end k)) as [E|Hne]; cycle 1;
     [destruct (pending_pop k Hwf Hne) as (c' & Hc & Ep); rewrite Ep in Hp; cbn [app] in Hp; injection Hp as -> Hp;
      eapply wp_take_char; [done|done|exact Hc|]; apply (HQ []); [done|split_and!; cbn; (done || mlia)|done]|]);
    (assert (Enil : pending k = [])
       by (pose proof (length_pending k) as Hlen; rewrite E, Z.sub_diag, Z.mod_0_l in Hlen by lia;
           destruct (pending k); [done|cbn in Hlen; lia])); [by rewrite Enil in Hp|].
  cbn [keyboard_get_char]. unfold no_input. wp_step. apply wp_gets. rewrite E, Z.eqb_refl.
  apply Forall_cons in Hb as [Hsc Hb]. wp_step. apply wp_keyboard_input; [done|done|]. intros k' Hwf' _ _ Hp'.
  apply IH; [done|done| |].
  - rewrite Hp', Enil, <- Hp, Enil. unfold accept. cbn. by destruct (typed sc).
  - intros used rest k2 -> Hwf2 Hp2. by apply (HQ (sc :: used) rest).
Qed.

Lemma wp_keyboard_inputs scs k (Q : unit → kbd → Prop) :
  kbd_wf k → Forall (λ sc, 0 ≤ sc < 256) scs →
  Z.of_nat (length (pending k ++ omap typed scs)) ≤ 255 →
  (∀ k', kbd_wf k' → pending k' = pending k ++ omap typed scs → Q tt k') →
  wp (keyboard_inputs scs) k Q.
Proof.
  revert k. induction scs as [|sc scs IH]; intros k Hwf Hb Hlen HQ; cbn [keyboard_inputs].
  - apply wp_skip, HQ; [done|]. by rewrite app_nil_r.
  - apply Forall_cons in Hb as [Hsc Hb]. wp_step. apply wp_keyboard_input; [done|done|].
    intros k1 Hwf1 _ _ Hp1.
    assert (Ep : pending k1 ++ omap typed scs = pending k ++ omap typed (sc :: scs)).
    { rewrite Hp1, <- app_assoc. unfold accept. cbn in *. destruct (typed sc); [|done].
      rewrite length_app in Hlen. cbn in Hlen. destruct (Z.ltb_spec (Z.of_nat (length (pending k))) 255); [done|lia]. }
    apply IH; [done|done|by rewrite Ep|]. intros k2 Hwf2 Hp2. apply HQ; [done|]. by rewrite Hp2.
Qed.

(** Waiting uses up a prefix of the interrupts, whether the target wraps or not. *)
Lemma wp_timer_wait_any n irqs t (Q : list irq → timer → Prop) :
  is_u32 n → is_u32 (ticks t) → preemption_enabled t = false → n ≤ count_ticks irqs →
  (∀ used rest t', irqs = used ++ rest → is_u32 (ticks t') → preemption_enabled t' = false → Q rest t') →
  wp (timer_wait n irqs) t Q.
Proof.
  intros Hn Ht Hp Hc HQ. unfold timer_wait. wp_step. apply wp_gets.
  apply wp_wait_loop; [done|apply w32_range|done|unfold w32, is_u32 in *; mlia|]. intros used rest E _.
  apply (HQ used rest); [done| |done]. cbn. pose proof (w32_range (ticks t + n)). unfold is_u32 in *. lia.
Qed.

Lemma count_ticks_replicate es n : Z.of_nat n ≤ count_ticks ((irq_of <$> es) ++ replicate n TimerIrq).
Proof.
  induction es as [|e es IH]; cbn [fmap list_fmap app count_ticks foldr].
  - induction n as [|n IHn]; [done|]. cbn [replicate foldr one_tick]. lia.
  - fold (count_ticks ((irq_of <$> es) ++ replicate n TimerIrq)). destruct e; cbn; lia.
Qed.

#[global] Program Instance inputs_ok : InputOk inputs := {|
  in_inv := inputs_inv;
  typed_ahead := inputs_typed
|}.
Next Obligation.
  intros s c cs (Hwf & [Ht Hoff] & Hb) Hp. unfold in_get_char. cbn [inputs_input]. unfold inputs_get_char. unfold wp at 1.
  assert (wp (keyboard_get_char (omap key_of (in_events s))) (in_kbd s) (λ r k', r.1 = c ∧ kbd_wf k' ∧
    pending k' ++ omap typed r.2 = cs ∧ ∃ used, omap key_of (in_events s) = used ++ r.2)) as Hw.
  { apply (wp_get_char_stream _ _ c cs); [done|done|done|]. intros used rest k' E Hwf' Hp'. split_and!; [done..|by exists used]. }
  destruct (wp_ex _ _ _ Hw) as ([c' rest] & k' & -> & [= ->] & Hwf' & Hp' & used & E). cbn [fst snd] in *.
  destruct (after_keys _ _) as [es t] eqn:Ea. cbn.
  assert (omap key_of es = rest) as Er.
  { change es with (es, t).1. rewrite <- Ea. apply after_keys_spec with used; [done|]. rewrite E, length_app. lia. }
  split_and!; [done| |].
  - split_and!; cbn; [done|apply w32_range|done|]. rewrite Er. rewrite E in Hb. by apply Forall_app in Hb as [_ ?].
  - unfold inputs_typed. cbn. by rewrite Er.
Qed.
Next Obligation.
  intros n s (Hwf & [Ht Hoff] & Hb) Hn Hlen. unfold in_wait. cbn [inputs_input]. unfold inputs_wait. unfold wp at 1.
  set (irqs := (irq_of <$> in_events s) ++ replicate (Z.to_nat n) TimerIrq).
  assert (wp (timer_wait n irqs) (in_timer s) (λ rest t',
    (is_u32 (ticks t') ∧ preemption_enabled t' = false) ∧ ∃ used, irqs = used ++ rest)) as Hw.
  { apply wp_timer_wait_any; [done|done|done| |].
    - pose proof (count_ticks_replicate (in_events s) (Z.to_nat n)). fold irqs in H. unfold is_u32 in *. lia.
    - intros used rest t' E Ht' Hp'. split; [done|by exists used]. }
  destruct (wp_ex _ _ _ Hw) as (rest & t' & -> & [Ht' Hoff'] & used & E).
  set (m := (length irqs - length rest)%nat).
  assert (Eo : omap key_of (in_events s) = omap key_of (take m (in_events s)) ++ omap key_of (drop m (in_events s)))
    by (by rewrite <- omap_app, take_drop).
  unfold inputs_typed in *. rewrite Eo in *. rewrite omap_app in *. apply Forall_app in Hb as [Hb1 Hb2].
  assert (wp (keyboard_inputs (omap key_of (take m (in_events s)))) (in_kbd s) (λ _ k', kbd_wf k' ∧
    pending k' = pending (in_kbd s) ++ omap typed (omap key_of (take m (in_events s))))) as Hk.
  { apply wp_keyboard_inputs; [done|done| |done]. rewrite !length_app in *. lia. }
  destruct (wp_ex _ _ _ Hk) as ([] & k' & -> & Hwf' & Hp'). cbn. split.
  - by split_and!.
  - by rewrite Hp', <- app_assoc.
Qed.

(** ** Properties *)

(** [read_input] is a line editor: it returns at the first ENTER, with the characters typed
    and not erased in its buffer as a string, at most [max_len - 1] of them and all printable,
    never writing outside the buffer; the field on the screen shows them, or as many stars in
    a password field whatever the characters are, and the rest of the screen is kept. *)
Theorem read_input_spec {K} `{InputOk K} fuel row col max_len pw buf (c : console K) line rest :
  length (VGA_MEMORY c) = 4000%nat → 0 ≤ row < 25 → 0 ≤ col → 1 ≤ max_len → col + max_len ≤ 80 →
  max_len ≤ Z.of_nat (length buf) → in_inv (machine c) →
  edit max_len [] (typed_ahead (machine c)) = Some (line, rest) →
  (length (typed_ahead (machine c)) ≤ fuel)%nat →
  wp (read_input fuel row col max_len pw) (buf, c) (λ pos s',
    pos = Z.of_nat (length line) ∧ pos < max_len ∧ Forall printable line ∧
    length s'.1 = length buf ∧ holds s'.1 line ∧ typed_ahead (machine s'.2) = rest ∧
    field_at (VGA_MEMORY s'.2) (VGA_MEMORY c) (row * 80 + col) max_len (vga_color c)
      (if pw then replicate (length line) 42 else line)).
Proof.
  intros. apply wp_read_input with line rest; [done..|]. intros buf' m k Hb Hh Hi Ht Hfl.
  destruct (edit_bounds max_len [] (typed_ahead (machine c)) line rest) as (Hpr & Hlen & _); [done..|cbn; lia|].
  by split_and!.
Qed.

(** The dialogue from its first to its last step. *)
Lemma wp_show_login_screen {K} `{InputOk K} fuel keys (c : console K) u p rest (Q : unit → console K → Prop) :
  dialogue_ready c → (255 ≤ keys)%nat → login fuel (typed_ahead (machine c)) = Some (u, p, rest) →
  (∀ c', dialogue_ready c' → holds (login_username c') u → holds (login_password c') p → u ≠ [] → p ≠ [] →
     typed_ahead (machine c') = rest → Q tt c') →
  wp (show_login_screen fuel keys) c Q.
Proof.
  intros Hr Hk Hlog HQ. unfold show_login_screen.
  do 8 (wp_step; apply wp_draw_ready; [by auto with console|done|]; intros ? ? _ _ ?).
  repeat match goal with E : machine ?x = machine _ |- _ => rewrite <- E in Hlog; clear E end.
  wp_step. eapply wp_login_loop; [done| |exact Hlog|].
  { match goal with
    | Hx : dialogue_ready ?x |- (length (typed_ahead (machine ?x)) <= _)%nat => destruct Hx as (_ & _ & _ & _ & ?)
    end. lia. }
  intros c1 Hr1 Hu1 Hp1 Hne1 Hne2 <-.
  wp_step. apply wp_draw_ready; [by auto with console|done|]. intros c2 Hr2 Eu2 Ep2 Em2.
  wp_step. apply wp_draw_ready; [by auto with console|done|]. intros c3 Hr3 Eu3 Ep3 Em3.
  wp_step. apply wp_draw_ready; [by auto with console|done|]. intros c4 Hr4 Eu4 Ep4 Em4.
  apply wp_wait_ready; [unfold is_u32; lia|done|]. intros c5 Hr5 E1 E2 E3. apply HQ; [done|congruence..].
Qed.

(** C35. The login dialogue ends exactly when a pair of fields is entered of which neither is
    empty, with these in the two buffers; pairs with an empty field are refused and asked for
    again.  (No credentials are compared: every such pair is accepted.) *)
Theorem show_login_screen_spec {K} `{InputOk K} fuel keys (c : console K) u p rest :
  length (VGA_MEMORY c) = 4000%nat → length (login_username c) = 32%nat →
  length (login_password c) = 32%nat → in_inv (machine c) →
  Z.of_nat (length (typed_ahead (machine c))) ≤ 255 → (255 ≤ keys)%nat →
  login fuel (typed_ahead (machine c)) = Some (u, p, rest) →
  wp (show_login_screen fuel keys) c (λ _ c',
    holds (login_username c') u ∧ holds (login_password c') p ∧ u ≠ [] ∧ p ≠ [] ∧
    typed_ahead (machine c') = rest).
Proof.
  intros Hl Hu Hp Hi Ht Hk Hlog. apply (wp_show_login_screen fuel keys c u p rest); [done|done|done|].
  intros c' _ H1 H2 H3 H4 H5. by split_and!.
Qed.

(** The boot message greets the user: its row shows the name, of which at most 37
    characters fit the 48 bytes of the local array, between the greeting and an exclamation
    mark, in the colour the screen had before. *)
Theorem show_booted_message_spec {K} (c : console K) u :
  length (VGA_MEMORY c) = 4000%nat → holds (login_username c) u → Forall printable u →
  wp show_booted_message c (λ _ c', drawn c c' ∧
    let msg := str "Welcome, " ++ take 37 u ++ [33] in
    ∀ i ch, msg !! i = Some ch →
      cell (VGA_MEMORY c') (1440 + (80 - Z.of_nat (length msg)) / 2 + Z.of_nat i) = (Some ch, Some (vga_color c))).
Proof.
  intros Hl Hu Hpr. unfold show_booted_message. wp_step. apply wp_draws; [by auto with console|done|].
  intros c1 (m1 & r1 & k1 & Hm1 & ->). cbv zeta. wp_step. apply wp_draws; [by auto with console|done|].
  intros c2 (m2 & r2 & k2 & Hm2 & ->). wp_step. wp_step. wp_step. wp_step. wp_step.
  apply wp_draws; [by auto with console|done|]. intros c3 (m3 & r3 & k3 & Hm3 & ->).
  wp_step. wp_step. wp_step. wp_step. wp_step. apply wp_on_local. wp_step.
  assert (Hwz : 0 ∉ str "Welcome, ") by (vm_compute; set_solver).
  apply wp_copy_welcome with u; [done|lia|cbn; lia|]. change (Z.to_nat (46 - 9)) with 37%nat.
  intros b Hb Hin Hlow. set (name := take 37 u) in *.
  assert (Hn37 : (length name ≤ 37)%nat) by (unfold name; rewrite length_take; lia).
  assert (Hnp : Forall printable name) by (by apply Forall_take).
  replace (9 + Z.of_nat (length name)) with (Z.of_nat (length (str "Welcome, " ++ name))) by (rewrite length_app; cbn; lia).
  apply wp_finish; [| |intros i d Hd|rewrite Hb, length_app; cbn; lia|].
  - intros Hx. apply elem_of_app in Hx as [Hx|Hx]; [done|].
    rewrite Forall_forall in Hnp. specialize (Hnp 0 Hx). unfold printable in Hnp. lia.
  - done.
  - destruct (decide (i < 9)%nat).
    + rewrite lookup_app_l in Hd by done. rewrite Hlow by lia.
      rewrite arr_get_nat. by apply lookup_app_l_Some.
    + rewrite lookup_app_r in Hd by (cbn; lia). change (length (str "Welcome, ")) with 9%nat in Hd.
      replace (Z.of_nat i) with (9 + Z.of_nat (i - 9)) by lia. by apply Hin.
  - intros welcome Hw. rewrite <- app_assoc in Hw.
    apply wp_centered with (str "Welcome, " ++ name ++ [33]); [done|done| |rewrite !length_app; cbn; lia|lia|].
    + apply Forall_app. split; [by repeat constructor|]. apply Forall_app. split; [|by repeat constructor].
      eapply Forall_impl; [exact Hnp|]. unfold printable. intros x Hx. lia.
    + intros m4 p4 (Hm4 & Hin4 & _). split; [by exists m4, (p4 / 80), (p4 mod 80)|]. exact Hin4.
Qed.

(** ** The properties at concrete inputs *)

(** Someone types a, b, backspace, c, ENTER, d, ENTER. *)
Definition typing_demo : inputs :=
  mkInputs kbd_empty timer_start (Tick :: (Key <$> [30; 48; 14; 46; 28; 32; 28])).

Lemma typing_demo_inv : inputs_inv typing_demo.
Proof. split_and!; [done|unfold is_u32; cbn; lia|done|]. cbn. repeat (constructor; [lia|]). constructor. Qed.

Lemma read_input_spec_witness :
  wp (read_input 10 10 35 20 true) (replicate 32 0, console_demo typing_demo) (λ pos s',
    pos = 2 ∧ holds s'.1 [97; 99] ∧ typed_ahead (machine s'.2) = [100; 10]).
Proof.
  eapply wp_mono; [exact (read_input_spec 10 10 35 20 true (replicate 32 0) (console_demo typing_demo)
    [97; 99] [100; 10] eq_refl ltac:(lia) ltac:(lia) ltac:(lia) ltac:(lia) ltac:(cbn; lia) typing_demo_inv
    eq_refl ltac:(vm_compute; lia))|].
  intros pos s' (Hp & _ & _ & _ & Hh & Ht & _). split_and!; [exact Hp|exact Hh|exact Ht].
Defined.

Lemma show_login_screen_spec_witness :
  wp (show_login_screen 1 255) (console_demo typing_demo) (λ _ c',
    holds (login_username c') [97; 99] ∧ holds (login_password c') [100]).
Proof.
  eapply wp_mono; [exact (show_login_screen_spec 1 255 (console_demo typing_demo) [97; 99] [100] []
    eq_refl eq_refl eq_refl typing_demo_inv ltac:(vm_compute; discriminate) ltac:(lia) eq_refl)|].
  intros u c' (Hu & Hp & _). split; [exact Hu|exact Hp].
Defined.

Definition greeting_demo : console unit := set_username (lit "ann") (console_demo tt).

Lemma show_booted_message_spec_witness :
  wp show_booted_message greeting_demo (λ _ c', cell (VGA_MEMORY c') 1482 = (Some 97, Some 0x0F)).
Proof.
  eapply wp_mono; [refine (show_booted_message_spec greeting_demo (str "ann") eq_refl _ _);
    [holds_lit|unfold printable; plain_lit]|].
  intros [] c' (_ & Hm). exact (Hm 9%nat 97 eq_refl).
Defined.
