(* ===== verification/Ata.v ===== *)
(** * The disk driver (src/src/ata.c, src/src/ata.h)

    Programmed input and output to ATA disks.  The disk behind the ports is not part of the
    program: what ata.c relies on is the documented protocol of the PIO commands, stated as
    the automaton [disk] that a device must refine. *)

From S2P Require Import Prelude Pic.

(** ** Word ports (src/src/types.h) *)

Class WordDevice (D : Type) `{Device D} := {
  dev_inw : Z → D → Z * D;
  dev_outw : Z → Z → D → D
}.

Definition inw {D} `{WordDevice D} (port : Z) : M D Z := λ d,
  let '(v, d') := dev_inw (w16 port) d in Ret (w16 v) d'.

Definition outw {D} `{WordDevice D} (port val : Z) : M D unit :=
  modify (dev_outw (w16 port) (w16 val)).

(** ** Constants *)

Definition MAX_DRIVES : Z := 4.

Definition ATA_PRIMARY_IO : Z := 0x1F0.
Definition ATA_PRIMARY_CTRL : Z := 0x3F6.
Definition ATA_SECONDARY_IO : Z := 0x170.
Definition ATA_SECONDARY_CTRL : Z := 0x376.

Definition ATA_MASTER : Z := 0x00.
Definition ATA_SLAVE : Z := 0x10.

Definition ATA_REG_DATA : Z := 0.
Definition ATA_REG_SECCOUNT : Z := 2.
Definition ATA_REG_LBA_LO : Z := 3.
Definition ATA_REG_LBA_MID : Z := 4.
Definition ATA_REG_LBA_HI : Z := 5.
Definition ATA_REG_DRIVE : Z := 6.
Definition ATA_REG_STATUS : Z := 7.
Definition ATA_REG_COMMAND : Z := 7.

Definition ATA_CMD_READ_PIO : Z := 0x20.
Definition ATA_CMD_WRITE_PIO : Z := 0x30.
Definition ATA_CMD_IDENTIFY : Z := 0xEC.
Definition ATA_CMD_FLUSH : Z := 0xE7.

Definition ATA_SR_BSY : Z := 0x80.
Definition ATA_SR_DF : Z := 0x20.
Definition ATA_SR_DRQ : Z := 0x08.
Definition ATA_SR_ERR : Z := 0x01.

(** ** Data *)

Record ata_drive := mkDrive {
  drive_present : bool;
  is_atapi : bool;
  io_base : Z;
  ctrl_base : Z;
  drive_select : Z;
  sectors : Z;
  model : list Z;
  serial : list Z
}.

(** Static variables of ata.c, and the devices. *)
Record ata (D : Type) := mkAta {
  drives : list ata_drive;
  drive_count : Z;
  ports : D
}.

Arguments mkAta {D}.
Arguments drives {D}.
Arguments drive_count {D}.
Arguments ports {D}.

Definition set_present (b : bool) (d : ata_drive) : ata_drive :=
  mkDrive b (is_atapi d) (io_base d) (ctrl_base d) (drive_select d) (sectors d) (model d) (serial d).

Definition set_atapi (b : bool) (d : ata_drive) : ata_drive :=
  mkDrive (drive_present d) b (io_base d) (ctrl_base d) (drive_select d) (sectors d) (model d) (serial d).

Definition set_drives {D} (l : list ata_drive) (s : ata D) : ata D := mkAta l (drive_count s) (ports s).

Definition set_count {D} (n : Z) (s : ata D) : ata D := mkAta (drives s) n (ports s).

Definition set_ports {D} (d : D) (s : ata D) : ata D := mkAta (drives s) (drive_count s) d.

(** [buf[k] = w] on an array of 16-bit words, in bytes: low byte first. *)
Definition put_word (k w : Z) : M (list Z) unit :=
  b ← gets id;
  if in_range b (2 * k + 1) && (0 <=? k)
  then modify (λ b, arr_set (arr_set b (2 * k) (w mod 256)) (2 * k + 1) (w / 256))
  else undef.

(** [buf[k]]. *)
Definition get_word {S} (b : list Z) (k : Z) : M S Z :=
  lo ← expect (arr_get b (2 * k));
  hi ← expect (arr_get b (2 * k + 1));
  ret (lo + 256 * hi).

(** The loop that trims trailing spaces: from index [n - 1] down. *)
Fixpoint trim_spaces (n : nat) (l : list Z) : list Z :=
  match n with
  | O => l
  | S n => if bool_decide (l !! n = Some 32) then trim_spaces n (<[n := 0]> l) else l
  end.

(** [int timeout = 100000]. *)
Definition ready_timeout : nat := Z.to_nat 100000.
#[global] Opaque ready_timeout.

(** ** Operations *)

Section ata.
Context {D : Type} `{WordDevice D}.

(** The loops that wait for the disk, with a bound on the polls. *)
Fixpoint ata_wait_bsy (polls : nat) (io : Z) : M D unit :=
  match polls with
  | O => no_fuel
  | S polls =>
      v ← inb (io + ATA_REG_STATUS);
      if truth (Z.land v ATA_SR_BSY) then ata_wait_bsy polls io else skip
  end.

Fixpoint ata_wait_drq (polls : nat) (io : Z) : M D unit :=
  match polls with
  | O => no_fuel
  | S polls =>
      v ← inb (io + ATA_REG_STATUS);
      if negb (truth (Z.land v ATA_SR_DRQ)) then ata_wait_drq polls io else skip
  end.

(** [while (timeout--)] with [timeout] rounds left. *)
Fixpoint wait_ready_loop (timeout : nat) (io : Z) : M D bool :=
  match timeout with
  | O => ret false
  | S timeout =>
      status ← inb (io + ATA_REG_STATUS);
      if truth (Z.land status ATA_SR_ERR) then ret false
      else if truth (Z.land status ATA_SR_DF) then ret false
      else if negb (truth (Z.land status ATA_SR_BSY)) && truth (Z.land status ATA_SR_DRQ) then ret true
      else wait_ready_loop timeout io
  end.

Definition ata_wait_ready (io : Z) : M D bool := wait_ready_loop ready_timeout io.

Definition ata_soft_reset (ctrl : Z) : M D unit :=
  outb ctrl 0x04;;
  io_wait;; io_wait;; io_wait;; io_wait;;
  outb ctrl 0x00;;
  io_wait.

(** The loop that waits for data or an error after IDENTIFY. *)
Fixpoint identify_wait (polls : nat) (io : Z) : M D bool :=
  match polls with
  | O => no_fuel
  | S polls =>
      status ← inb (io + ATA_REG_STATUS);
      if truth (Z.land status ATA_SR_ERR) then ret false
      else if truth (Z.land status ATA_SR_DRQ) then ret true
      else identify_wait polls io
  end.

(** [n] words from the data port. *)
Fixpoint read_words (n : nat) (io : Z) : M D (list Z) :=
  match n with
  | O => ret []
  | S n => w ← inw (io + ATA_REG_DATA); ws ← read_words n io; ret (w :: ws)
  end.

(** The bytes of [n] words of the identification, swapped. *)
Definition swapped (data : list Z) (first n : nat) : list Z :=
  concat ((λ w, [Z.land (Z.shiftr w 8) 0xFF; Z.land w 0xFF]) <$> take n (drop first data)).

(** What the identification says about a drive. *)
Definition identified (io ctrl sel : Z) (data : list Z) : ata_drive :=
  let word i := default 0 (arr_get data i) in
  mkDrive true false io ctrl sel (Z.lor (w32 (Z.shiftl (word 61) 16)) (word 60))
    (trim_spaces 40 (swapped data 27 20 ++ [0]))
    (swapped data 10 10 ++ [0]).

Context (polls : nat).

(** [ata_identify] on a drive and the ports. *)
Definition ata_identify (io ctrl drive_sel : Z) : M (ata_drive * D) bool :=
  let on_ports {A} (m : M D A) : M (ata_drive * D) A := zoom snd (λ d s, (s.1, d)) m in
  on_ports (
    outb (io + ATA_REG_DRIVE) (Z.lor 0xA0 drive_sel);;
    io_wait;;
    outb (io + ATA_REG_SECCOUNT) 0;;
    outb (io + ATA_REG_LBA_LO) 0;;
    outb (io + ATA_REG_LBA_MID) 0;;
    outb (io + ATA_REG_LBA_HI) 0;;
    outb (io + ATA_REG_COMMAND) ATA_CMD_IDENTIFY;;
    io_wait);;
  status ← on_ports (inb (io + ATA_REG_STATUS));
  if status =? 0 then ret false else
  on_ports (ata_wait_bsy polls io);;
  lba_mid ← on_ports (inb (io + ATA_REG_LBA_MID));
  lba_hi ← on_ports (inb (io + ATA_REG_LBA_HI));
  if negb (lba_mid =? 0) || negb (lba_hi =? 0) then
    modify (λ s, (set_atapi true s.1, s.2));;
    ret false
  else
  ok ← on_ports (identify_wait polls io);
  if negb ok then ret false else
  identify_data ← on_ports (read_words 256 io);
  modify (λ s, (identified io ctrl drive_sel identify_data, s.2));;
  ret true.

(** One probe of [ata_init]. *)
Definition probe (i io ctrl sel : Z) : M (ata D) unit :=
  l ← gets drives;
  d ← expect (arr_get l i);
  found ← zoom (λ s, (d, ports s)) (λ p s, mkAta (arr_set (drives s) i p.1) (drive_count s) p.2)
            (ata_identify io ctrl sel);
  when found (modify (λ s, set_count (w8 (drive_count s + 1)) s)).

Definition ata_init : M (ata D) unit :=
  modify (set_count 0);;
  for_ 0 (trips 0 MAX_DRIVES) (λ i,
    l ← gets drives;
    d ← expect (arr_get l i);
    modify (set_drives (arr_set l i (set_present false d))));;
  probe 0 ATA_PRIMARY_IO ATA_PRIMARY_CTRL ATA_MASTER;;
  probe 1 ATA_PRIMARY_IO ATA_PRIMARY_CTRL ATA_SLAVE;;
  probe 2 ATA_SECONDARY_IO ATA_SECONDARY_CTRL ATA_MASTER;;
  probe 3 ATA_SECONDARY_IO ATA_SECONDARY_CTRL ATA_SLAVE.

(** [drive >= MAX_DRIVES || !drives[drive].present]; the drive otherwise.  An index outside the
    array has no defined value. *)
Definition usable_drive {S} (l : list ata_drive) (drive : Z) : M S (option ata_drive) :=
  if MAX_DRIVES <=? drive then ret None else
  d ← expect (arr_get l drive);
  ret (if drive_present d then Some d else None).

(** The registers of a transfer, and its command. *)
Definition start_transfer (d : ata_drive) (lba count cmd : Z) : M D unit :=
  ata_wait_bsy polls (io_base d);;
  outb (io_base d + ATA_REG_DRIVE)
    (Z.lor (Z.lor 0xE0 (drive_select d)) (Z.land (Z.shiftr lba 24) 0x0F));;
  outb (io_base d + ATA_REG_SECCOUNT) count;;
  outb (io_base d + ATA_REG_LBA_LO) (Z.land lba 0xFF);;
  outb (io_base d + ATA_REG_LBA_MID) (Z.land (Z.shiftr lba 8) 0xFF);;
  outb (io_base d + ATA_REG_LBA_HI) (Z.land (Z.shiftr lba 16) 0xFF);;
  outb (io_base d + ATA_REG_COMMAND) cmd.

(** The two halves of the state of a transfer: the buffer and the ports. *)
Definition on_disk {A} (m : M D A) : M (list Z * ata D) A :=
  zoom (λ s, ports s.2) (λ d s, (s.1, set_ports d s.2)) m.

Definition on_buffer {A} (m : M (list Z) A) : M (list Z * ata D) A :=
  zoom fst (λ b s, (b, s.2)) m.

Definition ata_read_sectors (drive lba count : Z) : M (list Z * ata D) bool :=
  l ← gets (λ s, drives s.2);
  u ← usable_drive l drive;
  match u with
  | None => ret false
  | Some d =>
      on_disk (start_transfer d lba count ATA_CMD_READ_PIO);;
      r ← for_ret 0 (trips 0 count) (λ s,
        ok ← on_disk (ata_wait_ready (io_base d));
        if negb ok then ret (Some false) else
        for_ 0 (trips 0 256) (λ i,
          w ← on_disk (inw (io_base d + ATA_REG_DATA));
          on_buffer (put_word (s * 256 + i) w));;
        ret None);
      ret (default true r)
  end.

Definition ata_write_sectors (drive lba count : Z) (buffer : list Z) : M (ata D) bool :=
  l ← gets drives;
  u ← usable_drive l drive;
  match u with
  | None => ret false
  | Some d =>
      zoom ports set_ports (
        start_transfer d lba count ATA_CMD_WRITE_PIO;;
        for_ 0 (trips 0 count) (λ s,
          ata_wait_drq polls (io_base d);;
          for_ 0 (trips 0 256) (λ i,
            w ← get_word buffer (s * 256 + i);
            outw (io_base d + ATA_REG_DATA) w));;
        outb (io_base d + ATA_REG_COMMAND) ATA_CMD_FLUSH;;
        ata_wait_bsy polls (io_base d));;
      ret true
  end.

Definition ata_get_drive (drive : Z) : M (ata D) (option ata_drive) :=
  l ← gets drives;
  usable_drive l drive.

Definition ata_get_drive_count : M (ata D) Z := gets drive_count.

End ata.

(** ** The disk, as the ATA specification describes it

    One drive of a channel.  [d_busy] is the number of status reads until BSY is clear; while
    it is set, writes to the registers are ignored.  A drive answers only while bit 4 of the
    drive register selects it.  Sectors have 256 words. *)

Inductive phase :=
| Idle
| Failed
| DataIn (left : list Z) (next : list Z)
| DataOut (done : list Z) (targets : list Z).

Record disk := mkDisk {
  d_data : gmap Z (list Z);
  d_size : Z;
  d_id : list Z;
  d_slave : bool;
  d_busy : nat;
  d_phase : phase;
  d_count : Z;
  d_lo : Z;
  d_mid : Z;
  d_hi : Z;
  d_head : Z
}.

Definition sector (k : disk) (i : Z) : list Z := default (replicate 256 0) (d_data k !! i).

Definition selected (k : disk) : bool := bool_decide (Z.testbit (d_head k) 4 = d_slave k).

(** The sectors a command addresses; a count of 0 stands for 256. *)
Definition d_lba (k : disk) : Z :=
  Z.land (d_head k) 0x0F * 16777216 + d_hi k * 65536 + d_mid k * 256 + d_lo k.

Definition d_number (k : disk) : Z := if d_count k =? 0 then 256 else d_count k.

Definition set_phase (busy : nat) (p : phase) (k : disk) : disk :=
  mkDisk (d_data k) (d_size k) (d_id k) (d_slave k) busy p (d_count k) (d_lo k) (d_mid k) (d_hi k) (d_head k).

Definition set_data (m : gmap Z (list Z)) (k : disk) : disk :=
  mkDisk m (d_size k) (d_id k) (d_slave k) (d_busy k) (d_phase k) (d_count k) (d_lo k) (d_mid k) (d_hi k) (d_head k).

(** The next sector to be read, or the end of the command. *)
Definition next_in (busy : nat) (next : list Z) (k : disk) : disk :=
  match next with
  | [] => set_phase (d_busy k) Idle k
  | n :: ns => set_phase busy (DataIn (sector k n) ns) k
  end.

Definition disk_command (busy : nat) (v : Z) (k : disk) : disk :=
  let range := seqZ (d_lba k) (d_number k) in
  let valid := d_lba k + d_number k <=? d_size k in
  if v =? 0x20 then if valid then next_in busy range k else set_phase busy Failed k
  else if v =? 0x30 then if valid then set_phase busy (DataOut [] range) k else set_phase busy Failed k
  else if v =? 0xE7 then set_phase busy Idle k
  else if v =? 0xEC then
    mkDisk (d_data k) (d_size k) (d_id k) (d_slave k) busy (DataIn (d_id k) []) (d_count k) (d_lo k) 0 0 (d_head k)
  else set_phase busy Failed k.

(** A byte written to register [reg]. *)
Definition disk_out (busy : nat) (reg v : Z) (k : disk) : disk :=
  match d_busy k with
  | S _ => k
  | O =>
      if reg =? 2 then mkDisk (d_data k) (d_size k) (d_id k) (d_slave k) 0 (d_phase k) v (d_lo k) (d_mid k) (d_hi k) (d_head k)
      else if reg =? 3 then mkDisk (d_data k) (d_size k) (d_id k) (d_slave k) 0 (d_phase k) (d_count k) v (d_mid k) (d_hi k) (d_head k)
      else if reg =? 4 then mkDisk (d_data k) (d_size k) (d_id k) (d_slave k) 0 (d_phase k) (d_count k) (d_lo k) v (d_hi k) (d_head k)
      else if reg =? 5 then mkDisk (d_data k) (d_size k) (d_id k) (d_slave k) 0 (d_phase k) (d_count k) (d_lo k) (d_mid k) v (d_head k)
      else if reg =? 6 then mkDisk (d_data k) (d_size k) (d_id k) (d_slave k) 0 (d_phase k) (d_count k) (d_lo k) (d_mid k) (d_hi k) v
      else if reg =? 7 then if selected k then disk_command busy v k else k
      else k
  end.

(** The status register, and the poll that reads it. *)
Definition disk_status (k : disk) : Z :=
  if selected k then
    match d_busy k, d_phase k with
    | S _, _ => 0x80
    | O, Idle => 0x50
    | O, Failed => 0x51
    | O, DataIn _ _ | O, DataOut _ _ => 0x58
    end
  else 0.

Definition disk_poll (k : disk) : disk :=
  if selected k then set_phase (pred (d_busy k)) (d_phase k) k else k.

(** A word read from, and written to, the data register. *)
Definition disk_inw (busy : nat) (k : disk) : Z * disk :=
  match d_busy k, d_phase k with
  | O, DataIn (w :: ws) next =>
      (w, match ws with [] => next_in busy next k | _ => set_phase 0 (DataIn ws next) k end)
  | _, _ => (0, k)
  end.

Definition disk_outw (busy : nat) (w : Z) (k : disk) : disk :=
  match d_busy k, d_phase k with
  | O, DataOut acc (t :: ts) =>
      if Z.of_nat (length acc) =? 255
      then set_phase busy (match ts with [] => Idle | _ => DataOut [] ts end)
             (set_data (<[t := acc ++ [w]]> (d_data k)) k)
      else set_phase 0 (DataOut (acc ++ [w]) (t :: ts)) k
  | _, _ => k
  end.

(** A device with such a drive on the channel at [io]. *)
Class AtaDevice (D : Type) `{WordDevice D} (io : Z) := {
  disk_of : D → disk;
  disk_delay : nat;
  disk_port : 0 ≤ io < 65528;
  disk_dev_out reg v d :
    1 ≤ reg ≤ 7 →
    ∃ busy, (busy ≤ disk_delay)%nat ∧ disk_of (dev_out (io + reg) v d) = disk_out busy reg v (disk_of d);
  disk_dev_other port v d :
    ~ io ≤ port ≤ io + 7 → disk_of (dev_out port v d) = disk_of d;
  disk_dev_status d :
    (dev_in (io + 7) d).1 = disk_status (disk_of d) ∧ disk_of (dev_in (io + 7) d).2 = disk_poll (disk_of d);
  disk_dev_signature d :
    (dev_in (io + 4) d).1 = d_mid (disk_of d) ∧ disk_of (dev_in (io + 4) d).2 = disk_of d ∧
    (dev_in (io + 5) d).1 = d_hi (disk_of d) ∧ disk_of (dev_in (io + 5) d).2 = disk_of d;
  disk_dev_inw d :
    ∃ busy, (busy ≤ disk_delay)%nat ∧
      (dev_inw io d).1 = (disk_inw busy (disk_of d)).1 ∧ disk_of (dev_inw io d).2 = (disk_inw busy (disk_of d)).2;
  disk_dev_outw v d :
    ∃ busy, (busy ≤ disk_delay)%nat ∧ disk_of (dev_outw io v d) = disk_outw busy v (disk_of d)
}.

(** ** Abstract view: sectors as bytes *)

Definition word_bytes (w : Z) : list Z := [w mod 256; w / 256].

Definition bytes_of (ws : list Z) : list Z := concat (word_bytes <$> ws).

(** The words of [n] sectors. *)
Definition sector_words (k : disk) (lba n : Z) : list Z := concat (sector k <$> seqZ lba n).

(** The disk a transfer starts from: no command is running. *)
Definition disk_idle (delay : nat) (k : disk) : Prop :=
  d_phase k = Idle ∧ (d_busy k ≤ delay)%nat ∧ (selected k = true ∨ d_busy k = 0%nat).

(** Sectors hold 256 words of 16 bits. *)
Definition disk_wf (k : disk) : Prop :=
  map_Forall (λ _ ws, length ws = 256%nat ∧ Forall (λ w, 0 ≤ w < 65536) ws) (d_data k).

(** ** Lemmas *)

Lemma w16_small x : 0 ≤ x < 65536 → w16 x = x.
Proof. intros. by apply Z.mod_small. Qed.

Lemma bytes_of_app ws1 ws2 : bytes_of (ws1 ++ ws2) = bytes_of ws1 ++ bytes_of ws2.
Proof. unfold bytes_of. by rewrite fmap_app, concat_app. Qed.

Lemma length_bytes_of ws : length (bytes_of ws) = (2 * length ws)%nat.
Proof. unfold bytes_of. induction ws; cbn in *; lia. Qed.

Lemma length_sector k i : disk_wf k → length (sector k i) = 256%nat.
Proof.
  intros Hwf. unfold sector. destruct (d_data k !! i) as [ws|] eqn:E; cbn; [|done]. apply (Hwf i ws E).
Qed.

Lemma sector_range k i : disk_wf k → Forall (λ w, 0 ≤ w < 65536) (sector k i).
Proof.
  intros Hwf. unfold sector. destruct (d_data k !! i) as [ws|] eqn:E; cbn [default]; [by apply (Hwf i ws E)|].
  apply Forall_replicate. lia.
Qed.

(** Storing the next word of a transfer. *)
Lemma wp_put_word ws w b (Q : unit → list Z → Prop) :
  (2 * length ws + 2 ≤ length b)%nat →
  (Q tt (bytes_of (ws ++ [w]) ++ drop (2 * length (ws ++ [w])) b)) →
  wp (put_word (Z.of_nat (length ws)) w) (bytes_of ws ++ drop (2 * length ws) b) Q.
Proof.
  intros Hb HQ. unfold put_word. wp_step. wp_step. cbn [id].
  rewrite (proj2 (in_range_true _ _)) by (rewrite length_app, length_bytes_of, length_drop; lia).
  destruct (Z.leb_spec 0 (Z.of_nat (length ws))); [|lia]. cbn [andb]. wp_step.
  rewrite bytes_of_app, length_app in HQ. cbn [length bytes_of fmap list_fmap concat word_bytes app] in HQ.
  replace (2 * (length ws + 1))%nat with (S (S (2 * length ws))) in HQ by lia.
  destruct (drop (2 * length ws) b) as [|x [|y r]] eqn:Ed.
  - apply (f_equal length) in Ed. rewrite length_drop in Ed. cbn in Ed. lia.
  - apply (f_equal length) in Ed. rewrite length_drop in Ed. cbn in Ed. lia.
  - assert (drop (S (S (2 * length ws))) b = r) as Er.
    { replace (S (S (2 * length ws))) with (2 * length ws + 2)%nat by lia. by rewrite <- drop_drop, Ed. }
    rewrite Er in HQ. unfold arr_set.
    destruct (Z.leb_spec 0 (2 * Z.of_nat (length ws))), (Z.leb_spec 0 (2 * Z.of_nat (length ws) + 1)); [|lia..].
    rewrite insert_app_r_alt by (rewrite length_bytes_of; lia).
    rewrite insert_app_r_alt by (rewrite length_bytes_of; lia).
    rewrite !length_bytes_of. replace (Z.to_nat (2 * Z.of_nat (length ws)) - 2 * length ws)%nat with 0%nat by lia.
    replace (Z.to_nat (2 * Z.of_nat (length ws) + 1) - 2 * length ws)%nat with 1%nat by lia.
    cbn [insert list_insert]. rewrite <- app_assoc in HQ. exact HQ.
Qed.

Section disk_lemmas.
Context {D : Type} `{AtaDevice D io}.
Implicit Types d : D.

Lemma wp_disk_out reg v d (Q : unit → D → Prop) :
  1 ≤ reg ≤ 7 →
  (∀ d' busy, (busy ≤ disk_delay)%nat → disk_of d' = disk_out busy reg (w8 v) (disk_of d) → Q tt d') →
  wp (outb (io + reg) v) d Q.
Proof.
  intros Hr HQ. unfold outb. wp_step. pose proof disk_port. rewrite w16_small by lia.
  destruct (disk_dev_out reg (w8 v) d Hr) as (busy & Hb & E). by apply (HQ _ busy).
Qed.

Lemma wp_disk_status d (Q : Z → D → Prop) :
  (∀ d', disk_of d' = disk_poll (disk_of d) → Q (disk_status (disk_of d)) d') →
  wp (inb (io + ATA_REG_STATUS)) d Q.
Proof.
  intros HQ. unfold wp, inb. pose proof disk_port. change ATA_REG_STATUS with 7. rewrite w16_small by lia.
  destruct (disk_dev_status d) as [Hv Hd]. destruct (dev_in (io + 7) d) as [v d']. cbn [fst snd] in *. subst v.
  rewrite w8_small; [by apply HQ|]. unfold disk_status. destruct (selected (disk_of d)); [|lia].
  destruct (d_busy (disk_of d)), (d_phase (disk_of d)); lia.
Qed.

(** Waiting for BSY to clear leaves the rest of the disk as it is. *)
Lemma wp_wait_bsy polls d (Q : unit → D → Prop) :
  (d_busy (disk_of d) < polls)%nat → (selected (disk_of d) = true ∨ d_busy (disk_of d) = 0%nat) →
  (∀ d', disk_of d' = set_phase 0 (d_phase (disk_of d)) (disk_of d) → Q tt d') →
  wp (ata_wait_bsy polls io) d Q.
Proof.
  revert d. induction polls as [|polls IH]; intros d Hb Hs HQ; [lia|]. cbn [ata_wait_bsy]. wp_step.
  apply wp_disk_status. intros d' Hd'. unfold disk_status, disk_poll in *.
  destruct (selected (disk_of d)) eqn:Es.
  - destruct (d_busy (disk_of d)) as [|n] eqn:Eb.
    + replace (truth (Z.land _ ATA_SR_BSY)) with false by (by destruct (d_phase (disk_of d))).
      apply wp_skip, HQ. by rewrite Hd'.
    + change (truth (Z.land 0x80 ATA_SR_BSY)) with true. cbv iota. apply IH.
      * rewrite Hd'. cbn. lia.
      * left. rewrite Hd'. done.
      * intros d2 Hd2. apply HQ. rewrite Hd2, Hd'. done.
  - change (truth (Z.land 0 ATA_SR_BSY)) with false. cbv iota. apply wp_skip, HQ. rewrite Hd'.
    destruct Hs as [|Hs]; [done|]. destruct (disk_of d); cbn in *. by subst.
Qed.

(** Waiting for data that the disk is about to have. *)
Lemma wp_wait_ready_loop timeout d ws next (Q : bool → D → Prop) :
  (d_busy (disk_of d) < timeout)%nat → selected (disk_of d) = true → d_phase (disk_of d) = DataIn ws next →
  (∀ d', disk_of d' = set_phase 0 (DataIn ws next) (disk_of d) → Q true d') →
  wp (wait_ready_loop timeout io) d Q.
Proof.
  revert d. induction timeout as [|timeout IH]; intros d Hb Hs Hp HQ; [lia|]. cbn [wait_ready_loop]. wp_step.
  apply wp_disk_status. intros d' Hd'. unfold disk_status, disk_poll in *. rewrite Hs, Hp in *.
  destruct (d_busy (disk_of d)) as [|n] eqn:Eb.
  - cbn. apply HQ. by rewrite Hd'.
  - change (truth (Z.land 0x80 ATA_SR_ERR)) with false. change (truth (Z.land 0x80 ATA_SR_DF)) with false.
    change (truth (Z.land 0x80 ATA_SR_BSY)) with true. cbn [negb andb].
    apply IH; rewrite Hd'; [cbn; lia|done|done|]. intros d2 Hd2. apply HQ. by rewrite Hd2.
Qed.


(** The same wait of a write. *)
Lemma wp_wait_drq polls d acc ts (Q : unit → D → Prop) :
  (d_busy (disk_of d) < polls)%nat → selected (disk_of d) = true → d_phase (disk_of d) = DataOut acc ts →
  (∀ d', disk_of d' = set_phase 0 (DataOut acc ts) (disk_of d) → Q tt d') →
  wp (ata_wait_drq polls io) d Q.
Proof.
  revert d. induction polls as [|polls IH]; intros d Hb Hs Hp HQ; [lia|]. cbn [ata_wait_drq]. wp_step.
  apply wp_disk_status. intros d' Hd'. unfold disk_status, disk_poll in *. rewrite Hs, Hp in *.
  destruct (d_busy (disk_of d)) as [|n] eqn:Eb.
  - cbn. apply HQ. by rewrite Hd'.
  - change (truth (Z.land 0x80 ATA_SR_DRQ)) with false. cbn [negb].
    apply IH; rewrite Hd'; [cbn; lia|done|done|]. intros d2 Hd2. apply HQ. by rewrite Hd2.
Qed.

Lemma wp_disk_inw d (Q : Z → D → Prop) :
  (∀ d' busy, (busy ≤ disk_delay)%nat → disk_of d' = (disk_inw busy (disk_of d)).2 →
     Q (w16 (disk_inw busy (disk_of d)).1) d') →
  wp (inw (io + ATA_REG_DATA)) d Q.
Proof.
  intros HQ. unfold wp, inw. pose proof disk_port. change ATA_REG_DATA with 0. rewrite Z.add_0_r, w16_small by lia.
  destruct (disk_dev_inw d) as (busy & Hb & Hv & Hd). destruct (dev_inw io d) as [v d']. cbn [fst snd] in *.
  subst v. by apply (HQ d' busy).
Qed.

Lemma wp_disk_outw w d (Q : unit → D → Prop) :
  (∀ d' busy, (busy ≤ disk_delay)%nat → disk_of d' = disk_outw busy (w16 w) (disk_of d) → Q tt d') →
  wp (outw (io + ATA_REG_DATA) w) d Q.
Proof.
  intros HQ. unfold outw. wp_step. pose proof disk_port. change ATA_REG_DATA with 0. rewrite Z.add_0_r, (w16_small io) by lia.
  destruct (disk_dev_outw (w16 w) d) as (busy & Hb & E). by apply (HQ _ busy).
Qed.

End disk_lemmas.

(** The number of a drive in the drive register. *)
Definition select_of (slave : bool) : Z := if slave then ATA_SLAVE else ATA_MASTER.

Lemma land_low x n : 0 ≤ n → Z.land x (Z.ones n) = x mod 2 ^ n.
Proof. intros. by apply Z.land_ones. Qed.

Lemma head_byte slave h :
  0 ≤ h < 16 →
  let v := w8 (Z.lor (Z.lor 0xE0 (select_of slave)) h) in
  Z.land v 0x0F = h ∧ Z.testbit v 4 = slave.
Proof.
  intros Hh. assert (h ∈ seqZ 0 16) as Hin by (apply elem_of_seqZ; lia).
  change (seqZ 0 16) with [0; 1; 2; 3; 4; 5; 6; 7; 8; 9; 10; 11; 12; 13; 14; 15] in Hin.
  repeat (apply elem_of_cons in Hin as [->|Hin]; [by destruct slave|]). by apply elem_of_nil in Hin.
Qed.

Section transfers.
Context {D : Type} `{AtaDevice D io}.
Implicit Types d : D.

Lemma wp_start_transfer polls dr lba count cmd d (Q : unit → D → Prop) :
  disk_idle disk_delay (disk_of d) → (disk_delay < polls)%nat →
  io_base dr = io → drive_select dr = select_of (d_slave (disk_of d)) →
  is_u32 lba → 0 ≤ count < 256 →
  (∀ d' busy k, (busy ≤ disk_delay)%nat → disk_of d' = disk_command busy (w8 cmd) k →
     d_data k = d_data (disk_of d) → d_size k = d_size (disk_of d) → d_slave k = d_slave (disk_of d) →
     d_phase k = Idle → d_busy k = 0%nat → selected k = true → d_lba k = lba mod 268435456 →
     d_count k = count → Q tt d') →
  wp (start_transfer polls dr lba count cmd) d Q.
Proof.
  intros (Hi & Hb & Hsel) Hp Hio Hds Hlba Hc HQ. unfold start_transfer. rewrite Hio, Hds.
  wp_step. apply wp_wait_bsy; [lia|done|]. intros d0 E0. rewrite Hi in E0.
  wp_step. apply wp_disk_out; [done|]. intros d1 b1 _ E1. rewrite E0 in E1.
  wp_step. apply wp_disk_out; [done|]. intros d2 b2 _ E2. rewrite E1 in E2.
  wp_step. apply wp_disk_out; [done|]. intros d3 b3 _ E3. rewrite E2 in E3.
  wp_step. apply wp_disk_out; [done|]. intros d4 b4 _ E4. rewrite E3 in E4.
  wp_step. apply wp_disk_out; [done|]. intros d5 b5 _ E5. rewrite E4 in E5. clear E0 E1 E2 E3 E4.
  apply wp_disk_out; [done|]. intros d6 busy Hbusy E6. rewrite E5 in E6. clear E5.
  change (Z.land (Z.shiftr lba 24) 0x0F) with (Z.land (Z.shiftr lba 24) (Z.ones 4)) in E6.
  change (Z.land lba 0xFF) with (Z.land lba (Z.ones 8)) in E6.
  change (Z.land (Z.shiftr lba 8) 0xFF) with (Z.land (Z.shiftr lba 8) (Z.ones 8)) in E6.
  change (Z.land (Z.shiftr lba 16) 0xFF) with (Z.land (Z.shiftr lba 16) (Z.ones 8)) in E6.
  rewrite !land_low, !Z.shiftr_div_pow2 in E6 by lia.
  change (2 ^ 24) with 16777216 in E6. change (2 ^ 4) with 16 in E6. change (2 ^ 8) with 256 in E6.
  change (2 ^ 16) with 65536 in E6.
  destruct (head_byte (d_slave (disk_of d)) ((lba / 16777216) mod 16)) as [Hlow Hbit]; [mlia|].
  set (head := w8 (Z.lor (Z.lor 0xE0 (select_of (d_slave (disk_of d)))) ((lba / 16777216) mod 16))) in *.
  rewrite !(w8_small (_ mod 256)) in E6 by mlia. rewrite (w8_small count) in E6 by lia.
  cbn [disk_out set_phase d_busy Z.eqb Pos.eqb ATA_REG_DRIVE ATA_REG_SECCOUNT ATA_REG_LBA_LO ATA_REG_LBA_MID
    ATA_REG_LBA_HI ATA_REG_COMMAND d_data d_size d_id d_slave d_phase d_count d_lo d_mid d_hi d_head] in E6.
  unfold selected in E6. cbn [d_head d_slave] in E6. rewrite Hbit, bool_decide_true in E6 by done.
  eapply (HQ d6 busy); [done|exact E6|done|done|done|done|done| | |done].
  - unfold selected. cbn [d_head d_slave]. by rewrite Hbit, bool_decide_true.
  - unfold d_lba. cbn [d_head d_hi d_mid d_lo]. rewrite Hlow. unfold is_u32 in *. mlia.
Qed.

(** The disk during a read: the sector it is at, and those to come. *)
Definition reading (b : nat) (ns : list Z) (k : disk) : disk :=
  match ns with
  | [] => set_phase 0 Idle k
  | n :: ns => set_phase b (DataIn (sector k n) ns) k
  end.

(** The buffer after the words [ws], over the old contents [b0]. *)
Definition filled (ws b0 : list Z) : list Z := bytes_of ws ++ drop (2 * length ws) b0.

(** One word of a sector. *)
Lemma wp_read_word k l ns ws b0 i d (a : ata D) (Q : unit → list Z * ata D → Prop) :
  (i < length l)%nat → Forall (λ w, 0 ≤ w < 65536) l →
  (2 * (length ws + length l) ≤ length b0)%nat →
  disk_of d = set_phase 0 (DataIn (drop i l) ns) k →
  (∀ d' b, (b ≤ disk_delay)%nat →
     disk_of d' = (if decide (S i = length l) then reading b ns k else set_phase 0 (DataIn (drop (S i) l) ns) k) →
     Q tt (filled (ws ++ take (S i) l) b0, set_ports d' a)) →
  wp (w ← on_disk (inw (io + ATA_REG_DATA)); on_buffer (put_word (Z.of_nat (length ws + i)) w))
    (filled (ws ++ take i l) b0, set_ports d a) Q.
Proof.
  intros Hi Hr Hb0 Hd HQ. destruct (lookup_lt_is_Some_2 l i Hi) as [w Hw].
  pose proof (Forall_lookup_1 _ _ _ _ Hr Hw) as Hwr. cbn in Hwr.
  wp_step. unfold on_disk, on_buffer. wp_step. cbn [snd ports set_ports].
  apply wp_disk_inw. intros d' b Hb E. rewrite Hd in *. unfold disk_inw in *.
  cbn [d_busy d_phase set_phase] in *. rewrite (drop_S l w i Hw) in *. cbn [fst snd] in *. rewrite w16_small by done.
  wp_step. cbn [fst].
  replace (Z.of_nat (length ws + i)) with (Z.of_nat (length (ws ++ take i l)))
    by (rewrite length_app, length_take; lia).
  unfold filled. apply wp_put_word; [rewrite length_app, length_take; lia|].
  rewrite <- app_assoc, <- take_S_r by done. apply (HQ d' b Hb). rewrite E. case_decide as Hend.
  - rewrite (drop_ge l (S i)) by lia. unfold next_in, reading. by destruct ns.
  - destruct (drop (S i) l) as [|x r] eqn:Ed; [|done].
    apply (f_equal length) in Ed. rewrite length_drop in Ed. cbn in Ed. lia.
Qed.

(** A sector: wait for it, then read its 256 words. *)
Lemma wp_read_sector dr k l ns ws b0 j b d (a : ata D) (Q : option bool → list Z * ata D → Prop) :
  io_base dr = io → length l = 256%nat → Forall (λ w, 0 ≤ w < 65536) l → selected k = true →
  (length ws = 256 * j)%nat → (2 * (length ws + 256) ≤ length b0)%nat →
  (b ≤ disk_delay)%nat → (disk_delay < ready_timeout)%nat →
  disk_of d = set_phase b (DataIn l ns) k →
  (∀ d' b', (b' ≤ disk_delay)%nat → disk_of d' = reading b' ns k →
     Q None (filled (ws ++ l) b0, set_ports d' a)) →
  wp (ok ← on_disk (ata_wait_ready (io_base dr));
      if negb ok then ret (Some false) else
      for_ 0 (trips 0 256) (λ i,
        w ← on_disk (inw (io_base dr + ATA_REG_DATA));
        on_buffer (put_word (Z.of_nat j * 256 + i) w));;
      ret None) (filled ws b0, set_ports d a) Q.
Proof.
  intros Hio Hl Hr Hs Hws Hb0 Hb Htime Hd HQ. rewrite Hio. wp_step. unfold on_disk at 1. wp_step.
  cbn [snd ports set_ports]. unfold ata_wait_ready.
  apply wp_wait_ready_loop with l ns; rewrite Hd; [cbn; lia|done|done|]. intros d1 Hd1. cbn [negb fst]. wp_step.
  apply wp_for with (λ i s', ∃ d2 b2, (b2 ≤ disk_delay)%nat ∧
    s' = (filled (ws ++ take (Z.to_nat i) l) b0, set_ports d2 a) ∧
    disk_of d2 = if decide (i = 256) then reading b2 ns k else set_phase 0 (DataIn (drop (Z.to_nat i) l) ns) k).
  - exists d1, 0%nat. split_and!; [lia| |].
    + rewrite app_nil_r. done.
    + rewrite Hd1. done.
  - intros i s' Hi (d2 & b2 & Hb2 & -> & E2). change (Z.of_nat (trips 0 256)) with 256 in Hi.
    rewrite decide_False in E2 by lia.
    replace (Z.of_nat j * 256 + i) with (Z.of_nat (length ws + Z.to_nat i)) by lia.
    apply (wp_read_word k l ns); [lia|done|lia|done|]. intros d3 b3 Hb3 E3. exists d3, b3.
    replace (Z.to_nat (i + 1)) with (S (Z.to_nat i)) by lia. split_and!; [done|done|]. rewrite E3.
    destruct (decide (S (Z.to_nat i) = length l)), (decide (i + 1 = 256)); (done || lia).
  - change (0 + Z.of_nat (trips 0 256)) with 256. intros s' (d2 & b2 & Hb2 & -> & E2).
    rewrite decide_True in E2 by done. wp_step. rewrite take_ge by (change (Z.to_nat 256) with 256%nat; lia).
    by apply (HQ d2 b2).
Qed.

Lemma sector_words_snoc k lba n :
  0 ≤ n → sector_words k lba (n + 1) = sector_words k lba n ++ sector k (lba + n).
Proof. intros. unfold sector_words. rewrite seqZ_snoc, fmap_app, concat_app by done. cbn. by rewrite app_nil_r. Qed.

Lemma length_sector_words k lba n :
  disk_wf k → 0 ≤ n → length (sector_words k lba n) = (256 * Z.to_nat n)%nat.
Proof.
  intros Hwf Hn. pattern n. apply natlike_ind; [done| |done]. intros m Hm IH.
  rewrite <- Z.add_1_r, sector_words_snoc, length_app, IH, length_sector by done. lia.
Qed.

Lemma wp_read_sectors dr k lba count b0 b d (a : ata D) (Q : option bool → list Z * ata D → Prop) :
  io_base dr = io → disk_wf k → selected k = true → 0 ≤ count →
  512 * count ≤ Z.of_nat (length b0) → (b ≤ disk_delay)%nat → (disk_delay < ready_timeout)%nat →
  disk_of d = reading b (seqZ lba count) k →
  (∀ d', disk_of d' = set_phase 0 Idle k → Q None (filled (sector_words k lba count) b0, set_ports d' a)) →
  wp (for_ret 0 (trips 0 count) (λ s,
        ok ← on_disk (ata_wait_ready (io_base dr));
        if negb ok then ret (Some false) else
        for_ 0 (trips 0 256) (λ i,
          w ← on_disk (inw (io_base dr + ATA_REG_DATA));
          on_buffer (put_word (s * 256 + i) w));;
        ret None)) (b0, set_ports d a) Q.
Proof.
  intros Hio Hwf Hs Hc Hb0 Hb Htime Hd HQ. unfold trips. rewrite Z.sub_0_r.
  apply wp_for_ret with (λ i s', ∃ d1 b1, (b1 ≤ disk_delay)%nat ∧
    s' = (filled (sector_words k lba i) b0, set_ports d1 a) ∧
    disk_of d1 = reading b1 (seqZ (lba + i) (count - i)) k).
  - exists d, b. split_and!; [done|done|]. by rewrite Z.add_0_r, Z.sub_0_r.
  - intros i s' Hi (d1 & b1 & Hb1 & -> & E1). rewrite Z2Nat.id in Hi by done.
    rewrite seqZ_cons in E1 by lia. cbn [reading] in E1.
    pose proof (wp_read_sector dr k (sector k (lba + i)) (seqZ (Z.succ (lba + i)) (Z.pred (count - i)))
      (sector_words k lba i) b0 (Z.to_nat i) b1 d1 a) as Hsec. rewrite Z2Nat.id in Hsec by lia.
    apply Hsec; clear Hsec; [done|by apply length_sector|by apply sector_range|done| | |done|done|done|].
    + rewrite length_sector_words by (done || lia). done.
    + rewrite length_sector_words by (done || lia). lia.
    + intros d2 b2 Hb2 E2. exists d2, b2. split_and!; [done| |].
      * by rewrite sector_words_snoc by lia.
      * rewrite E2. f_equal. f_equal; lia.
  - intros s' (d1 & b1 & Hb1 & -> & E1). rewrite Z.add_0_l, Z2Nat.id in * by done.
    apply HQ. rewrite E1, Z.sub_diag. done.
Qed.

End transfers.

(** ** Writing *)

Lemma bytes_of_lookup ws rest j w :
  ws !! j = Some w →
  arr_get (bytes_of ws ++ rest) (2 * Z.of_nat j) = Some (w mod 256) ∧
  arr_get (bytes_of ws ++ rest) (2 * Z.of_nat j + 1) = Some (w / 256).
Proof.
  intros Hj. rewrite <- (take_drop_middle ws j w Hj) at 1 2. pose proof (lookup_lt_Some _ _ _ Hj).
  rewrite bytes_of_app, <- app_assoc. cbn [bytes_of fmap list_fmap concat word_bytes app]. unfold arr_get.
  destruct (Z.leb_spec 0 (2 * Z.of_nat j)), (Z.leb_spec 0 (2 * Z.of_nat j + 1)); [|lia..].
  split; rewrite lookup_app_r by (rewrite length_bytes_of, length_take; lia);
    rewrite length_bytes_of, length_take.
  - by replace (Z.to_nat (2 * Z.of_nat j) - 2 * (j `min` length ws))%nat with 0%nat by lia.
  - by replace (Z.to_nat (2 * Z.of_nat j + 1) - 2 * (j `min` length ws))%nat with 1%nat by lia.
Qed.

Lemma wp_get_word {S} ws rest j w (s : S) (Q : Z → S → Prop) :
  ws !! j = Some w → Q w s → wp (get_word (bytes_of ws ++ rest) (Z.of_nat j)) s Q.
Proof.
  intros Hj HQ. destruct (bytes_of_lookup ws rest j w Hj) as [Hlo Hhi]. unfold get_word.
  wp_step. eapply wp_expect; [exact Hlo|]. wp_step. eapply wp_expect; [exact Hhi|]. wp_step.
  replace (w mod 256 + 256 * (w / 256)) with w by mlia. done.
Qed.

(** The contents of the disk after [n] sectors of [ws] are stored from [lba] on. *)
Fixpoint stored (m : gmap Z (list Z)) (lba : Z) (ws : list Z) (n : nat) : gmap Z (list Z) :=
  match n with
  | O => m
  | S n => <[lba + Z.of_nat n := take 256 (drop (256 * n) ws)]> (stored m lba ws n)
  end.

Section writing.
Context {D : Type} `{AtaDevice D io}.
Implicit Types d : D.

(** The disk during a write. *)
Definition writing (b : nat) (ts : list Z) (k : disk) : disk :=
  set_phase b (match ts with [] => Idle | _ => DataOut [] ts end) k.

Lemma wp_write_sector polls k ws rest ts t j b d (Q : unit → D → Prop) :
  (256 * S j ≤ length ws)%nat → Forall (λ w, 0 ≤ w < 65536) ws → selected k = true →
  (b ≤ disk_delay)%nat → (disk_delay < polls)%nat → disk_of d = writing b (t :: ts) k →
  let l := take 256 (drop (256 * j) ws) in
  (∀ d' b', (b' ≤ disk_delay)%nat → disk_of d' = writing b' ts (set_data (<[t := l]> (d_data k)) k) → Q tt d') →
  wp (ata_wait_drq polls io;;
      for_ 0 (trips 0 256) (λ i,
        w ← get_word (bytes_of ws ++ rest) (Z.of_nat j * 256 + i);
        outw (io + ATA_REG_DATA) w)) d Q.
Proof.
  intros Hlen Hr Hs Hb Hp Hd l HQ. wp_step.
  apply wp_wait_drq with [] (t :: ts); rewrite Hd; [cbn; lia|done|done|]. intros d1 Hd1.
  assert (Hl : length l = 256%nat) by (unfold l; rewrite length_take, length_drop; lia).
  apply wp_for with (λ i d2, ∃ b2, (b2 ≤ disk_delay)%nat ∧ disk_of d2 =
    if decide (i = 256) then writing b2 ts (set_data (<[t := l]> (d_data k)) k)
    else set_phase 0 (DataOut (take (Z.to_nat i) l) (t :: ts)) k).
  - exists 0%nat. split; [lia|]. by rewrite Hd1.
  - intros i d2 Hi (b2 & Hb2 & E2). change (Z.of_nat (trips 0 256)) with 256 in Hi.
    rewrite decide_False in E2 by lia.
    destruct (lookup_lt_is_Some_2 l (Z.to_nat i)) as [w Hw]; [lia|].
    assert (ws !! (256 * j + Z.to_nat i)%nat = Some w) as Hws.
    { unfold l in Hw. rewrite lookup_take_lt, lookup_drop in Hw by lia. done. }
    wp_step. replace (Z.of_nat j * 256 + i) with (Z.of_nat (256 * j + Z.to_nat i)) by lia.
    apply wp_get_word with w; [done|]. apply wp_disk_outw. intros d3 b3 Hb3 E3.
    pose proof (Forall_lookup_1 _ _ _ _ Hr Hws) as Hwr. cbn in Hwr. rewrite w16_small in E3 by done.
    rewrite E2 in E3. unfold disk_outw in E3. cbn [d_busy d_phase set_phase] in E3.
    rewrite length_take, Nat.min_l in E3 by lia. exists b3. split; [done|]. rewrite E3.
    rewrite <- (take_S_r l (Z.to_nat i) w Hw). replace (Z.to_nat (i + 1)) with (S (Z.to_nat i)) by lia.
    destruct (Z.eqb_spec (Z.of_nat (Z.to_nat i)) 255), (decide (i + 1 = 256)); try lia; [|done].
    rewrite take_ge by lia. unfold writing. by destruct ts.
  - change (0 + Z.of_nat (trips 0 256)) with 256. intros d2 (b2 & Hb2 & E2).
    rewrite decide_True in E2 by done. by apply (HQ d2 b2).
Qed.

Lemma wp_write_sectors polls k ws rest lba count b d (Q : unit → D → Prop) :
  0 ≤ count → length ws = (256 * Z.to_nat count)%nat → Forall (λ w, 0 ≤ w < 65536) ws → selected k = true →
  (b ≤ disk_delay)%nat → (disk_delay < polls)%nat → disk_of d = writing b (seqZ lba count) k →
  (∀ d' b', (b' ≤ disk_delay)%nat →
     disk_of d' = set_phase b' Idle (set_data (stored (d_data k) lba ws (Z.to_nat count)) k) → Q tt d') →
  wp (for_ 0 (trips 0 count) (λ s,
        ata_wait_drq polls io;;
        for_ 0 (trips 0 256) (λ i,
          w ← get_word (bytes_of ws ++ rest) (s * 256 + i);
          outw (io + ATA_REG_DATA) w))) d Q.
Proof.
  intros Hc Hlen Hr Hs Hb Hp Hd HQ. unfold trips at 1. rewrite Z.sub_0_r.
  apply wp_for with (λ i d1, ∃ b1, (b1 ≤ disk_delay)%nat ∧ disk_of d1 =
    writing b1 (seqZ (lba + i) (count - i)) (set_data (stored (d_data k) lba ws (Z.to_nat i)) k)).
  - exists b. split; [done|]. rewrite Z.add_0_r, Z.sub_0_r, Hd. by destruct k.
  - intros i d1 Hi (b1 & Hb1 & E1). rewrite seqZ_cons in E1 by lia.
    pose proof (wp_write_sector polls (set_data (stored (d_data k) lba ws (Z.to_nat i)) k) ws rest
      (seqZ (Z.succ (lba + i)) (Z.pred (count - i))) (lba + i) (Z.to_nat i) b1 d1) as Hw.
    rewrite Z2Nat.id in Hw by lia. apply Hw; clear Hw; [lia|done|done|done|done|done|].
    intros d2 b2 Hb2 E2. exists b2. split; [done|]. rewrite E2.
    replace (Z.to_nat (i + 1)) with (S (Z.to_nat i)) by lia. cbn [stored]. rewrite Z2Nat.id by lia.
    replace (seqZ (lba + (i + 1)) (count - (i + 1))) with (seqZ (Z.succ (lba + i)) (Z.pred (count - i))) by (f_equal; lia).
    done.
  - intros d1 (b1 & Hb1 & E1). rewrite Z.add_0_l, Z2Nat.id, Z.sub_diag in E1 by done.
    apply (HQ d1 b1); [done|]. rewrite E1. done.
Qed.

End writing.

Lemma stored_spec m lba ws n i :
  stored m lba ws n !! i =
    if (lba <=? i) && (i <? lba + Z.of_nat n) then Some (take 256 (drop (256 * Z.to_nat (i - lba)) ws)) else m !! i.
Proof.
  induction n as [|n IH]; cbn [stored].
  - destruct (Z.leb_spec lba i), (Z.ltb_spec i (lba + Z.of_nat 0)); (lia || done).
  - destruct (Z.eq_dec (lba + Z.of_nat n) i) as [<-|Hne].
    + rewrite lookup_insert_eq. replace (Z.to_nat (lba + Z.of_nat n - lba)) with n by lia.
      destruct (Z.leb_spec lba (lba + Z.of_nat n)), (Z.ltb_spec (lba + Z.of_nat n) (lba + Z.of_nat (S n))); (lia || done).
    + rewrite lookup_insert_ne, IH by done.
      destruct (Z.leb_spec lba i), (Z.ltb_spec i (lba + Z.of_nat n)), (Z.ltb_spec i (lba + Z.of_nat (S n))); (lia || done).
Qed.

(** ** Identification *)

Section identify.
Context {D : Type} `{AtaDevice D io}.
Implicit Types d : D.

Lemma wp_io_wait_disk d (Q : unit → D → Prop) :
  ~ io ≤ 0x80 ≤ io + 7 → (∀ d', disk_of d' = disk_of d → Q tt d') → wp io_wait d Q.
Proof.
  intros Hio HQ. unfold io_wait, outb. wp_step. apply HQ. change (w16 0x80) with 0x80. by apply disk_dev_other.
Qed.

Lemma wp_read_id l d k (Q : list Z → D → Prop) :
  l ≠ [] → Forall (λ w, 0 ≤ w < 65536) l → disk_of d = set_phase 0 (DataIn l []) k →
  (∀ d', disk_of d' = set_phase 0 Idle k → Q l d') → wp (read_words (length l) io) d Q.
Proof.
  revert d Q. induction l as [|w l IH]; intros d Q Hne Hr Hd HQ; [done|]. apply Forall_cons in Hr as [Hw Hr].
  cbn [read_words length]. wp_step. apply wp_disk_inw. intros d' b Hb E. rewrite Hd in *. unfold disk_inw in *.
  cbn [d_busy d_phase set_phase fst snd] in *. rewrite w16_small by done. wp_step.
  destruct l as [|w2 l]; [cbn; by apply HQ|]. apply IH; [done|done|by rewrite E|]. intros d2 E2. wp_step. by apply HQ.
Qed.

Lemma wp_identify_wait polls d l ns (Q : bool → D → Prop) :
  d_busy (disk_of d) = 0%nat → selected (disk_of d) = true → d_phase (disk_of d) = DataIn l ns →
  (∀ d', disk_of d' = disk_of d → Q true d') → wp (identify_wait (S polls) io) d Q.
Proof.
  intros Hb Hs Hp HQ. cbn [identify_wait]. wp_step. apply wp_disk_status. intros d' Hd'.
  unfold disk_status, disk_poll in *. rewrite Hs, Hb, Hp in *. cbn [truth Z.land]. cbn. apply HQ.
  rewrite Hd'. destruct (disk_of d); cbn in *. by subst.
Qed.

Lemma wp_signature d (Q : Z → D → Prop) :
  d_mid (disk_of d) = 0 → (∀ d', disk_of d' = disk_of d → Q 0 d') → wp (inb (io + ATA_REG_LBA_MID)) d Q.
Proof.
  intros Hm HQ. unfold wp, inb. pose proof disk_port. change ATA_REG_LBA_MID with 4. rewrite w16_small by lia.
  destruct (disk_dev_signature d) as (Hv & Hd & _). destruct (dev_in (io + 4) d) as [v d']. cbn [fst snd] in *.
  rewrite Hv, Hm. change (w8 0) with 0. by apply HQ.
Qed.

Lemma wp_signature_hi d (Q : Z → D → Prop) :
  d_hi (disk_of d) = 0 → (∀ d', disk_of d' = disk_of d → Q 0 d') → wp (inb (io + ATA_REG_LBA_HI)) d Q.
Proof.
  intros Hm HQ. unfold wp, inb. pose proof disk_port. change ATA_REG_LBA_HI with 5. rewrite w16_small by lia.
  destruct (disk_dev_signature d) as (_ & _ & Hv & Hd). destruct (dev_in (io + 5) d) as [v d']. cbn [fst snd] in *.
  rewrite Hv, Hm. change (w8 0) with 0. by apply HQ.
Qed.

(** The registers written before the IDENTIFY command, and the command. *)
Lemma wp_identify_command slave d (Q : unit → D → Prop) :
  d_busy (disk_of d) = 0%nat → ~ io ≤ 0x80 ≤ io + 7 →
  (∀ d' b k, (b ≤ disk_delay)%nat → disk_of d' = disk_out b 7 0xEC k →
     d_data k = d_data (disk_of d) → d_size k = d_size (disk_of d) → d_id k = d_id (disk_of d) →
     d_slave k = d_slave (disk_of d) → d_phase k = d_phase (disk_of d) → d_busy k = 0%nat →
     selected k = bool_decide (slave = d_slave (disk_of d)) → Q tt d') →
  wp (outb (io + ATA_REG_DRIVE) (Z.lor 0xA0 (select_of slave));; io_wait;;
      outb (io + ATA_REG_SECCOUNT) 0;; outb (io + ATA_REG_LBA_LO) 0;; outb (io + ATA_REG_LBA_MID) 0;;
      outb (io + ATA_REG_LBA_HI) 0;; outb (io + ATA_REG_COMMAND) ATA_CMD_IDENTIFY;; io_wait) d Q.
Proof.
  intros Hb Hio HQ.
  wp_step. apply wp_disk_out; [done|]. intros d1 b1 _ E1.
  wp_step. apply wp_io_wait_disk; [done|]. intros d2 E2. rewrite E1 in E2.
  wp_step. apply wp_disk_out; [done|]. intros d3 b3 _ E3. rewrite E2 in E3.
  wp_step. apply wp_disk_out; [done|]. intros d4 b4 _ E4. rewrite E3 in E4.
  wp_step. apply wp_disk_out; [done|]. intros d5 b5 _ E5. rewrite E4 in E5.
  wp_step. apply wp_disk_out; [done|]. intros d6 b6 _ E6. rewrite E5 in E6.
  wp_step. apply wp_disk_out; [done|]. intros d7 b7 Hb7 E7. rewrite E6 in E7. clear E1 E2 E3 E4 E5 E6.
  apply wp_io_wait_disk; [done|]. intros d8 E8. rewrite E7 in E8. clear E7.
  assert (Hbit : Z.testbit (w8 (Z.lor 0xA0 (select_of slave))) 4 = slave) by (by destruct slave).
  set (hd := w8 (Z.lor 0xA0 (select_of slave))) in *. change (w8 ATA_CMD_IDENTIFY) with 0xEC in E8.
  change (w8 0) with 0 in E8. change ATA_REG_COMMAND with 7 in E8.
  refine (HQ d8 b7 _ Hb7 E8 _ _ _ _ _ _ _); clear HQ E8; clearbody hd; destruct (disk_of d);
    cbn in Hb; subst; done.
Qed.

End identify.

(** A drive of the driver's table, and the disk behind it. *)
Definition drive_at {D} `{AtaDevice D io} (s : ata D) (drive : Z) : Prop :=
  drive < MAX_DRIVES ∧ ∃ dr, arr_get (drives s) drive = Some dr ∧ drive_present dr = true ∧ io_base dr = io ∧
    drive_select dr = select_of (d_slave (disk_of (ports s))).

Lemma usable_present {S} l drive dr (s : S) :
  drive < MAX_DRIVES → arr_get l drive = Some dr → drive_present dr = true → usable_drive l drive s = Ret (Some dr) s.
Proof.
  intros Hlt Hdr Hp. unfold usable_drive. destruct (Z.leb_spec MAX_DRIVES drive); [lia|].
  unfold bind. rewrite Hdr. cbn [expect ret]. by rewrite Hp.
Qed.

Lemma wp_usable {S} l drive dr (s : S) (Q : option ata_drive → S → Prop) :
  drive < MAX_DRIVES → arr_get l drive = Some dr → drive_present dr = true → Q (Some dr) s → wp (usable_drive l drive) s Q.
Proof. intros Hlt Hdr Hp HQ. unfold wp. by rewrite (usable_present l drive dr). Qed.

(** A read of sectors that lie on the disk. *)
Lemma ata_read_run {D} `{AtaDevice D io} polls drive lba count buf (s : ata D) :
  drive_at s drive → disk_wf (disk_of (ports s)) → disk_idle disk_delay (disk_of (ports s)) →
  (disk_delay < polls)%nat → (disk_delay < ready_timeout)%nat →
  is_u32 lba → 1 ≤ count < 256 → lba mod 268435456 + count ≤ d_size (disk_of (ports s)) →
  512 * count ≤ Z.of_nat (length buf) →
  wp (ata_read_sectors polls drive lba count) (buf, s) (λ ok r,
    ok = true ∧
    r.1 = bytes_of (sector_words (disk_of (ports s)) (lba mod 268435456) count) ++ drop (512 * Z.to_nat count) buf ∧
    drives r.2 = drives s ∧ d_data (disk_of (ports r.2)) = d_data (disk_of (ports s)) ∧
    d_size (disk_of (ports r.2)) = d_size (disk_of (ports s)) ∧
    drive_at r.2 drive ∧ disk_idle disk_delay (disk_of (ports r.2))).
Proof.
  intros (Hlt & dr & Hdr & Hpr & Hio & Hsel) Hwf Hidle Hp Htime Hlba Hc Hfit Hb. unfold ata_read_sectors.
  wp_step. wp_step. cbn [snd]. wp_step. eapply wp_usable; [done..|]. wp_step. unfold on_disk at 1. wp_step. cbn [snd fst].
  apply wp_start_transfer; [done|done|done|done|done|lia|].
  intros d' busy k Hbusy E Ed Esz Esl Eph Ebz Es El Ec. change (w8 ATA_CMD_READ_PIO) with 0x20 in E.
  unfold disk_command, d_number in E. cbn [Z.eqb Pos.eqb] in E. rewrite El, Ec, Esz in E.
  destruct (Z.eqb_spec count 0); [lia|]. destruct (Z.leb_spec (lba mod 268435456 + count) (d_size (disk_of (ports s)))); [|lia].
  assert (Ek : sector_words k (lba mod 268435456) count = sector_words (disk_of (ports s)) (lba mod 268435456) count)
    by (unfold sector_words, sector; by rewrite Ed).
  assert (Hwfk : disk_wf k) by (unfold disk_wf; by rewrite Ed).
  wp_step. apply (wp_read_sectors dr k (lba mod 268435456) count buf busy); [done|done|done|lia|done|done|done| |].
  { rewrite E. unfold next_in, reading. rewrite seqZ_cons by lia. done. }
  intros d2 E2. wp_step. cbn [default fst snd drives ports set_ports].
  rewrite E2. cbn [d_data d_size set_phase]. unfold filled. rewrite Ek, length_sector_words by (done || lia).
  split_and!; [done| |done|done|done| |].
  - f_equal. f_equal. lia.
  - split; [done|]. exists dr. split_and!; [done|done|done|]. cbn. by rewrite E2, Hsel, <- Esl.
  - split_and!; [done|cbn; lia|by left].
Qed.

(** A write to sectors that lie on the disk. *)
Lemma ata_write_run {D} `{AtaDevice D io} polls drive lba count ws rest (s : ata D) :
  drive_at s drive → disk_wf (disk_of (ports s)) → disk_idle disk_delay (disk_of (ports s)) →
  (disk_delay < polls)%nat → is_u32 lba → 1 ≤ count < 256 →
  lba mod 268435456 + count ≤ d_size (disk_of (ports s)) →
  length ws = (256 * Z.to_nat count)%nat → Forall (λ w, 0 ≤ w < 65536) ws →
  wp (ata_write_sectors polls drive lba count (bytes_of ws ++ rest)) s (λ ok s',
    ok = true ∧ drives s' = drives s ∧ drive_at s' drive ∧
    disk_wf (disk_of (ports s')) ∧ disk_idle disk_delay (disk_of (ports s')) ∧
    d_size (disk_of (ports s')) = d_size (disk_of (ports s)) ∧
    sector_words (disk_of (ports s')) (lba mod 268435456) count = ws ∧
    ∀ i, ~ lba mod 268435456 ≤ i < lba mod 268435456 + count →
      sector (disk_of (ports s')) i = sector (disk_of (ports s)) i).
Proof.
  intros (Hlt & dr & Hdr & Hpr & Hio & Hsel) Hwf Hidle Hp Hlba Hc Hfit Hlen Hr. unfold ata_write_sectors.
  wp_step. wp_step. wp_step. eapply wp_usable; [done..|]. wp_step. wp_step. wp_step.
  apply wp_start_transfer; [done|done|done|done|done|lia|].
  intros d' busy k Hbusy E Ed Esz Esl Eph Ebz Es El Ec. change (w8 ATA_CMD_WRITE_PIO) with 0x30 in E.
  unfold disk_command, d_number in E. cbn [Z.eqb Pos.eqb] in E. rewrite El, Ec, Esz in E.
  destruct (Z.eqb_spec count 0); [lia|]. destruct (Z.leb_spec (lba mod 268435456 + count) (d_size (disk_of (ports s)))); [|lia].
  set (a := lba mod 268435456) in *. rewrite Hio. wp_step.
  apply (wp_write_sectors polls k ws rest a count busy); [lia|done|done|done|done|done| |].
  { rewrite E. unfold writing. by rewrite seqZ_cons by lia. }
  intros d2 b2 Hb2 E2. wp_step. apply wp_disk_out; [done|]. intros d3 b3 Hb3 E3.
  set (m := stored (d_data k) a ws (Z.to_nat count)) in *.
  assert (∃ b4, (b4 ≤ disk_delay)%nat ∧ disk_of d3 = set_phase b4 Idle (set_data m k)) as (b4 & Hb4 & E4).
  { rewrite E3, E2. unfold disk_out. cbn [d_busy set_phase]. destruct b2 as [|b2]; [|by exists (S b2)].
    exists b3. split; [done|]. cbn [Z.eqb Pos.eqb ATA_REG_COMMAND]. change (selected _) with (selected k) at 1. by rewrite Es. }
  clear E3. apply wp_wait_bsy; rewrite E4; [cbn; lia|by left|]. intros d5 E5. cbn [set_phase d_phase] in E5.
  wp_step. cbn [ports set_ports drives]. rewrite E5. cbn [d_data set_phase set_data].
  assert (Hsec : ∀ i, a ≤ i < a + count → sector (set_phase 0 Idle (set_data m k)) i = take 256 (drop (256 * Z.to_nat (i - a)) ws)).
  { intros i Hi. unfold sector. cbn [d_data set_phase set_data]. unfold m. rewrite stored_spec, Z2Nat.id by lia.
    destruct (Z.leb_spec a i), (Z.ltb_spec i (a + count)); (lia || done). }
  split_and!; [done|done| | |split_and!; [done|cbn; lia|by left]|done| |].
  - split; [done|]. exists dr. split_and!; [done|done|done|]. cbn. by rewrite E5, Hsel, <- Esl.
  - intros i l Hi. cbn [d_data set_phase set_data] in Hi. unfold m in Hi. rewrite stored_spec, Z2Nat.id in Hi by lia.
    destruct ((a <=? i) && (i <? a + count)) eqn:Er; [|apply (Hwf i l); by rewrite <- Ed].
    injection Hi as <-. split; [rewrite length_take, length_drop; lia|]. by apply Forall_take, Forall_drop.
  - clear -Hsec Hlen Hc. unfold sector_words.
    assert (∀ n, 0 ≤ n ≤ count → concat (sector (set_phase 0 Idle (set_data m k)) <$> seqZ a n) = take (256 * Z.to_nat n) ws) as Hg.
    { intros n Hn. pose proof (proj1 Hn) as Hn0. revert Hn. pattern n. apply natlike_ind; [done| |done]. intros x Hx IH Hn.
      rewrite <- Z.add_1_r, seqZ_snoc, fmap_app, concat_app, IH by lia. cbn [fmap list_fmap concat].
      rewrite app_nil_r, Hsec by lia. replace (a + x - a) with x by lia.
      replace (256 * Z.to_nat (x + 1))%nat with (256 * Z.to_nat x + 256)%nat by lia. by rewrite take_take_drop. }
    rewrite Hg by lia. apply take_ge. lia.
  - intros i Hi. unfold sector. cbn [d_data set_phase set_data]. unfold m. rewrite stored_spec, Z2Nat.id, Ed by lia.
    destruct (Z.leb_spec a i), (Z.ltb_spec i (a + count)); (lia || done).
Qed.

(** ** Properties *)

(** A transfer of 1 to 255 sectors that lie on the disk succeeds, with the contents of the
    sectors in the buffer, low byte first, and the rest of the buffer and the disk unchanged;
    addresses have 28 bits, higher ones wrap around. *)
Theorem ata_read_sectors_spec {D} `{AtaDevice D io} polls drive lba count buf (s : ata D) :
  drive_at s drive → disk_wf (disk_of (ports s)) → disk_idle disk_delay (disk_of (ports s)) →
  (disk_delay < polls)%nat → (disk_delay < ready_timeout)%nat →
  is_u32 lba → 1 ≤ count < 256 → lba mod 268435456 + count ≤ d_size (disk_of (ports s)) →
  512 * count ≤ Z.of_nat (length buf) →
  wp (ata_read_sectors polls drive lba count) (buf, s) (λ ok r,
    ok = true ∧
    r.1 = bytes_of (sector_words (disk_of (ports s)) (lba mod 268435456) count) ++ drop (512 * Z.to_nat count) buf ∧
    d_data (disk_of (ports r.2)) = d_data (disk_of (ports s)) ∧
    drive_at r.2 drive ∧ disk_idle disk_delay (disk_of (ports r.2))).
Proof.
  intros. eapply wp_mono; [by apply ata_read_run|]. intros ok r (G1 & G2 & _ & G3 & _ & G4 & G5). by split_and!.
Qed.

(** C32. What is written is read back: after a write of 1 to 255 sectors of the disk a read of
    the same sectors gives the bytes that were written, and every other sector is as before. *)
Theorem ata_write_read {D} `{AtaDevice D io} polls drive lba count ws rest buf (s : ata D) :
  drive_at s drive → disk_wf (disk_of (ports s)) → disk_idle disk_delay (disk_of (ports s)) →
  (disk_delay < polls)%nat → (disk_delay < ready_timeout)%nat →
  is_u32 lba → 1 ≤ count < 256 → lba mod 268435456 + count ≤ d_size (disk_of (ports s)) →
  length ws = (256 * Z.to_nat count)%nat → Forall (λ w, 0 ≤ w < 65536) ws →
  length buf = (512 * Z.to_nat count)%nat →
  wp (ok1 ← zoom snd (λ a r, (r.1, a)) (ata_write_sectors polls drive lba count (bytes_of ws ++ rest));
      ok2 ← ata_read_sectors polls drive lba count; ret (ok1 && ok2)) (buf, s) (λ ok r,
    ok = true ∧ r.1 = bytes_of ws ∧
    ∀ i, ~ lba mod 268435456 ≤ i < lba mod 268435456 + count →
      sector (disk_of (ports r.2)) i = sector (disk_of (ports s)) i).
Proof.
  intros Hat Hwf Hidle Hp Htime Hlba Hc Hfit Hlen Hr Hbuf. wp_step. wp_step. cbn [snd].
  eapply wp_mono; [by apply ata_write_run|]. intros ok1 s1 (-> & Hd1 & Hat1 & Hwf1 & Hidle1 & Hsz & Hws & Hout).
  cbn [fst]. wp_step. eapply wp_mono.
  { apply ata_read_run; [done..| |lia]. by rewrite Hsz. }
  cbn beta. intros ok2 r (-> & E1 & _ & E2 & _). wp_step. rewrite E1, Hws, drop_ge, app_nil_r by lia.
  split_and!; [done|done|]. intros i Hi. rewrite <- (Hout i Hi). unfold sector. by rewrite E2.
Qed.


(** The disk after a command: the same drive with the same sectors, at rest. *)
Definition at_rest (k k' : disk) : Prop :=
  d_phase k' = Idle ∧ d_busy k' = 0%nat ∧ d_data k' = d_data k ∧ d_size k' = d_size k ∧ d_id k' = d_id k ∧
  d_slave k' = d_slave k.

(** Identification: a disk on the channel is found by its own drive number and by no other.
    When it is found, the table entry has its ports, the number of sectors from words 60 and
    61 of the identification, and the model name with its bytes in reading order and without
    the spaces at its end; when the number is not its own, the entry is left alone. *)
Theorem ata_identify_spec {D} `{AtaDevice D io} polls ctrl slave dr (d : D) :
  d_phase (disk_of d) = Idle → d_busy (disk_of d) = 0%nat → (disk_delay < polls)%nat →
  ~ io ≤ 0x80 ≤ io + 7 → length (d_id (disk_of d)) = 256%nat →
  Forall (λ w, 0 ≤ w < 65536) (d_id (disk_of d)) →
  wp (ata_identify polls io ctrl (select_of slave)) (dr, d) (λ found r,
    found = bool_decide (slave = d_slave (disk_of d)) ∧
    r.1 = (if found then identified io ctrl (select_of slave) (d_id (disk_of d)) else dr) ∧
    at_rest (disk_of d) (disk_of r.2)).
Proof.
  intros Hi Hb Hp Hio Hlen Hr. unfold ata_identify. cbv zeta. wp_step. wp_step. cbn [snd].
  apply wp_identify_command; [done|done|]. intros d1 b k Hb1 E1 Ed Esz Eid Esl Eph Ebz Es.
  unfold disk_out in E1. rewrite Ebz, Es in E1. cbn [Z.eqb Pos.eqb] in E1. wp_step. wp_step. cbn [snd fst].
  apply wp_disk_status. intros d2 E2. unfold disk_status, disk_poll in *.
  destruct (bool_decide (slave = d_slave (disk_of d))) eqn:Eown.
  - unfold disk_command in E1. cbn [Z.eqb Pos.eqb] in E1. set (k1 := mkDisk _ _ _ _ _ _ _ _ _ _ _) in E1.
    assert (Hk1 : selected k1 = true) by done. rewrite E1, Hk1 in *.
    assert ((match d_busy k1, d_phase k1 with | S _, _ => 0x80 | O, Idle => 0x50 | O, Failed => 0x51
      | O, DataIn _ _ | O, DataOut _ _ => 0x58 end =? 0) = false) as -> by (cbn; by destruct b).
    wp_step. wp_step. cbn [snd fst]. apply wp_wait_bsy; rewrite E2; [cbn; lia|by left|]. intros d3 E3. wp_step. wp_step. cbn [snd fst].
    apply wp_signature; [by rewrite E3|]. intros d4 E4. wp_step. wp_step. cbn [snd fst].
    apply wp_signature_hi; [by rewrite E4, E3|]. intros d5 E5. rewrite E4 in E5. cbn [Z.eqb negb orb]. wp_step. wp_step. cbn [snd fst].
    destruct polls as [|polls]; [lia|].
    apply wp_identify_wait with (d_id (disk_of d)) []; rewrite E5, E3; [done|done|cbn; by rewrite Eid|].
    intros d6 E6. cbn [negb]. wp_step. wp_step. cbn [snd fst].
    rewrite <- Hlen. apply (wp_read_id (d_id (disk_of d)) _ k1); [intros E; by rewrite E in Hlen|done| |].
    + rewrite E6. cbn. by rewrite Eid.
    + intros d7 E7. wp_step. wp_step. wp_step. cbn [fst snd]. rewrite E7. by split_and!.
  - rewrite E1, Es in *. cbn. rewrite E2. unfold at_rest. split_and!; [done|done|congruence..].
Qed.

(** A channel at [io2] without drives, beside the one at [io]: its status reads 0. *)
Class EmptyChannel (D : Type) (io io2 : Z) `{AtaDevice D io} := {
  ec_port : 0 ≤ io2 < 65528;
  ec_apart : io2 + 7 < io ∨ io + 7 < io2;
  ec_status d : (dev_in (io2 + 7) d).1 = 0 ∧ disk_of (dev_in (io2 + 7) d).2 = disk_of d
}.

Lemma ata_identify_empty {D} {io io2} `{EmptyChannel D io io2} polls ctrl sel dr (d : D) :
  ~ io ≤ 0x80 ≤ io + 7 →
  wp (ata_identify polls io2 ctrl sel) (dr, d) (λ found r, found = false ∧ r.1 = dr ∧ disk_of r.2 = disk_of d).
Proof.
  intros Hio. pose proof (ec_port (io2 := io2)) as Hp. pose proof (ec_apart (io2 := io2)) as Ha.
  assert (Hout : ∀ reg v d1 (Q : unit → D → Prop), 1 ≤ reg ≤ 7 → (∀ d2, disk_of d2 = disk_of d1 → Q tt d2) →
    wp (outb (io2 + reg) v) d1 Q).
  { intros reg v d1 Q Hr HQ. unfold outb. wp_step. rewrite w16_small by lia. apply HQ, disk_dev_other. lia. }
  unfold ata_identify. cbv zeta. wp_step. wp_step. cbn [snd].
  wp_step. apply Hout; [done|]. intros d1 E1. wp_step. apply wp_io_wait_disk; [done|]. intros d2 E2.
  wp_step. apply Hout; [done|]. intros d3 E3. wp_step. apply Hout; [done|]. intros d4 E4.
  wp_step. apply Hout; [done|]. intros d5 E5. wp_step. apply Hout; [done|]. intros d6 E6.
  wp_step. apply Hout; [done|]. intros d7 E7. apply wp_io_wait_disk; [done|]. intros d8 E8.
  wp_step. wp_step. cbn [snd fst]. unfold wp, inb. change ATA_REG_STATUS with 7. rewrite w16_small by lia.
  destruct (ec_status (io2 := io2) d8) as [Hv Hd]. destruct (dev_in (io2 + 7) d8) as [v d9]. cbn [fst snd] in *. subst v.
  change (wp (ret false) (dr, d9) (λ found r, found = false ∧ r.1 = dr ∧ disk_of r.2 = disk_of d)). wp_step. cbn [fst snd].
  split_and!; [done|done|congruence].
Qed.

(** A channel with nothing behind it whose lines float high: the status reads as busy, and
    the wait for it never ends, however many polls there are. *)
Theorem ata_identify_floating {D} `{WordDevice D} polls io ctrl sel dr (d : D) :
  0 ≤ io < 65528 → (∀ k, (dev_in (io + 7) k).1 = 0xFF) → ata_identify polls io ctrl sel (dr, d) = NoFuel.
Proof.
  intros Hio Hf. assert (Hin : ∀ k, ∃ k', inb (io + ATA_REG_STATUS) k = Ret 0xFF k').
  { intros k. unfold inb. change ATA_REG_STATUS with 7. rewrite w16_small by lia. specialize (Hf k).
    destruct (dev_in (io + 7) k) as [v k']. cbn in Hf. subst v. by exists k'. }
  assert (Hw : ∀ n k, ata_wait_bsy n io k = NoFuel).
  { induction n as [|n IH]; intros k; [done|]. cbn [ata_wait_bsy]. unfold bind. destruct (Hin k) as [k' ->].
    change (truth (Z.land 0xFF ATA_SR_BSY)) with true. apply IH. }
  unfold ata_identify, io_wait, outb, bind, zoom, modify. cbn [fst snd].
  match goal with |- context [inb (io + ATA_REG_STATUS) ?k] => destruct (Hin k) as [k' ->] end.
  cbn [fst snd]. change (0xFF =? 0) with false. cbv iota beta. cbn [fst snd]. by rewrite Hw.
Qed.

(** The place of the drive in the table. *)
Definition drive_index (k : disk) : Z := if d_slave k then 1 else 0.

(** One probe of the table. *)
Lemma wp_probe {D} `{WordDevice D} polls i io ctrl sel (s : ata D) dr (Q : unit → ata D → Prop) :
  arr_get (drives s) i = Some dr →
  wp (ata_identify polls io ctrl sel) (dr, ports s) (λ found r,
    Q tt (mkAta (arr_set (drives s) i r.1) (if found then w8 (drive_count s + 1) else drive_count s) r.2)) →
  wp (probe polls i io ctrl sel) s Q.
Proof.
  intros Hdr Hw. unfold probe. wp_step. wp_step. wp_step. eapply wp_expect; [exact Hdr|]. wp_step. wp_step.
  eapply wp_mono; [exact Hw|]. intros found r HQ. unfold when. destruct found; [by wp_step|by wp_step].
Qed.

(** The probe of all drives finds the one disk of the primary channel, as master or as slave;
    the other three entries say that nothing is there. *)
Theorem ata_init_spec {D} `{EmptyChannel D 0x1F0 0x170} polls (s : ata D) :
  let k := disk_of (ports s) in
  length (drives s) = 4%nat → d_phase k = Idle → d_busy k = 0%nat → (disk_delay < polls)%nat →
  length (d_id k) = 256%nat → Forall (λ w, 0 ≤ w < 65536) (d_id k) →
  wp (ata_init polls) s (λ _ s',
    drives s' = arr_set (set_present false <$> drives s) (drive_index k)
                  (identified 0x1F0 0x3F6 (select_of (d_slave k)) (d_id k)) ∧
    drive_count s' = 1 ∧ at_rest k (disk_of (ports s')) ∧ drive_at s' (drive_index k)).
Proof.
  intros k Hlen Hi Hb Hp Hid Hr. destruct s as [l n d0]. cbn [drives ports] in *. subst k.
  destruct l as [|a [|b [|c [|e [|? ?]]]]]; try done. clear Hlen. unfold ata_init.
  change ATA_PRIMARY_IO with 0x1F0. change ATA_SECONDARY_IO with 0x170. wp_step. wp_step.
  wp_step. change (trips 0 MAX_DRIVES) with 4%nat. cbn [for_].
  do 4 (wp_step; wp_step; wp_step; wp_step; eapply wp_expect; [reflexivity|]; wp_step). wp_step.
  match goal with |- wp ?m _ ?Q =>
    change (wp m (mkAta [set_present false a; set_present false b; set_present false c; set_present false e] 0 d0) Q) end.
  set (k := disk_of d0) in *. assert (Hio : ~ 0x1F0 ≤ 0x80 ≤ 0x1F0 + 7) by lia.
  wp_step. eapply wp_probe; [reflexivity|]. cbn [ports drives drive_count].
  eapply wp_mono; [apply (ata_identify_spec polls ATA_PRIMARY_CTRL false); done|].
  intros f1 [dr1 d1] (Hf1 & E1 & R1). cbn [fst snd] in *. fold k in Hf1, E1, R1. pose proof R1 as (P1 & B1 & D1 & Z1 & I1 & S1).
  wp_step. eapply wp_probe; [reflexivity|]. cbn [ports drives drive_count].
  eapply wp_mono; [apply (ata_identify_spec polls ATA_PRIMARY_CTRL true); try done; by rewrite I1|].
  intros f2 [dr2 d2] (Hf2 & E2 & R2). cbn [fst snd] in *. rewrite S1 in Hf2. rewrite I1 in E2.
  destruct R2 as (P2 & B2 & D2 & Z2 & I2 & S2).
  wp_step. eapply wp_probe; [reflexivity|]. cbn [ports drives drive_count].
  eapply wp_mono; [apply (ata_identify_empty polls ATA_SECONDARY_CTRL ATA_MASTER); done|].
  intros f3 [dr3 d3] (-> & E3 & R3). cbn [fst snd] in *.
  eapply wp_probe; [reflexivity|]. cbn [ports drives drive_count].
  eapply wp_mono; [apply (ata_identify_empty polls ATA_SECONDARY_CTRL ATA_SLAVE); done|].
  intros f4 [dr4 d4] (-> & E4 & R4). cbn [fst snd drives ports drive_count] in *. subst f1 f2 dr1 dr2 dr3 dr4.
  assert (Hrest : at_rest k (disk_of d4)) by (unfold at_rest; rewrite R4, R3; split_and!; [exact P2|exact B2|by etrans..]).
  assert (Hsel : d_slave (disk_of d4) = d_slave k) by apply Hrest.
  unfold drive_index, drive_at. cbn [drives ports]. rewrite Hsel. destruct (d_slave k).
  - split; [reflexivity|]. split; [reflexivity|]. split; [exact Hrest|]. split; [done|]. eexists. by split_and!.
  - split; [reflexivity|]. split; [reflexivity|]. split; [exact Hrest|]. split; [done|]. eexists. by split_and!.
Qed.

(** ** A disk and nothing else *)

#[global] Instance disk_device : Device disk := {|
  dev_in port k :=
    if port =? 0x1F7 then (disk_status k, disk_poll k)
    else if port =? 0x1F4 then (d_mid k, k)
    else if port =? 0x1F5 then (d_hi k, k) else (0, k);
  dev_out port v k := if (0x1F1 <=? port) && (port <=? 0x1F7) then disk_out 3 (port - 0x1F0) v k else k
|}.

#[global] Instance disk_words : WordDevice disk := {|
  dev_inw port k := if port =? 0x1F0 then disk_inw 3 k else (0, k);
  dev_outw port v k := if port =? 0x1F0 then disk_outw 3 v k else k
|}.

#[global] Program Instance disk_bare : AtaDevice disk 0x1F0 := {| disk_of k := k; disk_delay := 3%nat |}.
Next Obligation. done. Qed.
Next Obligation.
  intros reg v k Hr. exists 3%nat. split; [done|]. unfold dev_out, disk_device.
  destruct (Z.leb_spec 0x1F1 (0x1F0 + reg)), (Z.leb_spec (0x1F0 + reg) 0x1F7); [|lia..]. cbn [andb].
  by replace (0x1F0 + reg - 0x1F0) with reg by lia.
Qed.
Next Obligation.
  intros port v k Hr. unfold dev_out, disk_device.
  destruct (Z.leb_spec 0x1F1 port), (Z.leb_spec port 0x1F7); (lia || done).
Qed.
Next Obligation. done. Qed.
Next Obligation. done. Qed.
Next Obligation. intros k. by exists 3%nat. Qed.
Next Obligation. intros v k. by exists 3%nat. Qed.

(** A disk of 100 sectors, and a driver that knows it. *)
Definition disk_demo : disk :=
  mkDisk {[ 7 := replicate 256 0x6162 ]} 100 (replicate 256 0x2020) false 0 Idle 0 0 0 0 0xA0.

Definition drive_demo : ata_drive := mkDrive true false 0x1F0 0x3F6 0 100 [] [].

Definition absent_demo : ata_drive := mkDrive false false 0 0 0 0 [] [].

Definition ata_demo : ata disk := mkAta [drive_demo; absent_demo; absent_demo; absent_demo] 1 disk_demo.

Lemma disk_demo_wf : disk_wf disk_demo.
Proof.
  intros i ws Hi. unfold disk_demo in Hi. cbn [d_data] in Hi. apply lookup_singleton_Some in Hi as [_ <-].
  split; [done|apply Forall_replicate; lia].
Qed.

Lemma drive_demo_at : drive_at ata_demo 0.
Proof. split; [done|]. by exists drive_demo. Qed.

Lemma timeout_demo : (3 < ready_timeout)%nat.
Proof. apply Nat.ltb_lt. vm_compute. reflexivity. Qed.

Lemma ata_read_sectors_spec_witness :
  wp (ata_read_sectors 5 0 7 1) (replicate 512 0, ata_demo) (λ ok r,
    ok = true ∧ r.1 = bytes_of (replicate 256 0x6162) ++ []).
Proof.
  eapply wp_mono; [exact (ata_read_sectors_spec 5 0 7 1 (replicate 512 0) ata_demo drive_demo_at disk_demo_wf
    ltac:(split_and!; [done|cbn; lia|by left]) ltac:(cbn; lia) timeout_demo ltac:(unfold is_u32; lia) ltac:(lia)
    ltac:(vm_compute; discriminate) ltac:(vm_compute; discriminate))|].
  intros ok r (H1 & H2 & _). split; [exact H1|exact H2].
Defined.

Lemma ata_write_read_witness :
  wp (ok1 ← zoom snd (λ a r, (r.1, a)) (ata_write_sectors 5 0 9 1 (bytes_of (replicate 256 0x1234) ++ []));
      ok2 ← ata_read_sectors 5 0 9 1; ret (ok1 && ok2)) (replicate 512 0, ata_demo) (λ ok r,
    ok = true ∧ r.1 = bytes_of (replicate 256 0x1234)).
Proof.
  eapply wp_mono; [exact (ata_write_read 5 0 9 1 (replicate 256 0x1234) [] (replicate 512 0) ata_demo drive_demo_at
    disk_demo_wf ltac:(split_and!; [done|cbn; lia|by left]) ltac:(cbn; lia) timeout_demo ltac:(unfold is_u32; lia)
    ltac:(lia) ltac:(vm_compute; discriminate) eq_refl ltac:(apply Forall_replicate; lia) eq_refl)|].
  intros ok r (H1 & H2 & _). split; [exact H1|exact H2].
Defined.


Lemma ata_identify_spec_witness :
  wp (ata_identify 5 0x1F0 0x3F6 (select_of true)) (absent_demo, disk_demo) (λ found r,
    found = false ∧ r.1 = absent_demo).
Proof.
  eapply wp_mono; [exact (ata_identify_spec 5 0x3F6 true absent_demo disk_demo eq_refl eq_refl ltac:(cbn; lia)
    ltac:(lia) eq_refl ltac:(apply Forall_replicate; lia))|].
  intros found r (H1 & H2 & _). subst found. split; [reflexivity|exact H2].
Defined.
