(* ===== verification/Vfs.v ===== *)
(** * The file-system switch (src/src/vfs.c, src/src/vfs.h)

    File-system nodes with their callbacks, and the functions that dispatch to them.  A node
    is memory from the heap: a field nobody has written has no defined value. *)

From S2P Require Import Prelude.

(** ** Data *)

Definition FS_FILE : Z := 0x01.
Definition FS_DIRECTORY : Z := 0x02.

(** The functions the kernel stores in nodes (all of fat32.c). *)
Inductive fs_fn :=
| fat32_read_fn
| fat32_readdir_fn
| fat32_finddir_fn.

#[global] Instance fs_fn_eq_dec : EqDecision fs_fn.
Proof. solve_decision. Defined.

(** A field that may never have been written. *)
Definition field (A : Type) : Type := option A.

(** A function pointer; [None] is a null pointer. *)
Definition callback : Type := option fs_fn.

Record fs_node := mkNode {
  n_name : field (list Z);
  n_mask : field Z;
  n_uid : field Z;
  n_gid : field Z;
  n_flags : field Z;
  n_inode : field Z;
  n_length : field Z;
  n_impl : field Z;
  n_read : field callback;
  n_write : field callback;
  n_open : field callback;
  n_close : field callback;
  n_readdir : field callback;
  n_finddir : field callback;
  n_ptr : field Z
}.

Record dirent := mkDirent {
  de_name : list Z;
  de_inode : Z
}.

(** A node fresh from the heap. *)
Definition raw_node : fs_node :=
  mkNode None None None None None None None None None None None None None None None.

(** ** Operations *)

Section vfs.

(** The store, the node a pointer points to, and what the callbacks do: [read] and [write]
    work on a buffer beside the store. *)
Context {S : Type} (node_at : Z → M S fs_node).
Context (run_read : fs_fn → Z → Z → Z → M (list Z * S) Z).
Context (run_open : fs_fn → Z → M S unit).
Context (run_readdir : fs_fn → Z → Z → M S Z).
Context (run_finddir : fs_fn → Z → list Z → M S Z).

Definition beside {A} (m : M S A) : M (list Z * S) A := zoom snd (λ s p, (p.1, s)) m.

Definition vfs_read (node offset size : Z) : M (list Z * S) Z :=
  n ← beside (node_at node);
  cb ← expect (n_read n);
  match cb with
  | Some f => run_read f node offset size
  | None => ret 0
  end.

Definition vfs_write (node offset size : Z) : M (list Z * S) Z :=
  n ← beside (node_at node);
  cb ← expect (n_write n);
  match cb with
  | Some f => run_read f node offset size
  | None => ret 0
  end.

Definition vfs_open (node : Z) : M S unit :=
  n ← node_at node;
  cb ← expect (n_open n);
  match cb with
  | Some f => run_open f node
  | None => skip
  end.

Definition vfs_close (node : Z) : M S unit :=
  n ← node_at node;
  cb ← expect (n_close n);
  match cb with
  | Some f => run_open f node
  | None => skip
  end.

(** [(node->flags & 0x7) == FS_DIRECTORY && cb != 0]; the callback is read only then. *)
Definition directory_callback (n : fs_node) (cb : field callback) : M S callback :=
  fl ← expect (n_flags n);
  if Z.land fl 0x7 =? FS_DIRECTORY then expect cb else ret None.

Definition vfs_readdir (node index : Z) : M S Z :=
  n ← node_at node;
  cb ← directory_callback n (n_readdir n);
  match cb with
  | Some f => run_readdir f node index
  | None => ret 0
  end.

Definition vfs_finddir (node : Z) (name : list Z) : M S Z :=
  n ← node_at node;
  cb ← directory_callback n (n_finddir n);
  match cb with
  | Some f => run_finddir f node name
  | None => ret 0
  end.

End vfs.
