(* ===== verification/Fat32.v ===== *)
(** * The FAT32 file system (src/src/fat32.c, src/src/fat32.h)

    Cluster chains, directories and files of a FAT32 volume, read through the disk driver
    into buffers from the heap.  The heap, the disk and the log are reached through the
    interface [FatEnv].  A buffer from [kmalloc] is memory of its own (Heap.v shows that
    blocks in use do not overlap): it is an array beside the store. *)

From S2P Require Import Prelude Console Vfs.

(** ** Data *)

Record fat_bpb := mkBpb {
  jmp_boot : list Z;
  oem_name : list Z;
  bytes_per_sector : Z;
  sectors_per_cluster : Z;
  reserved_sectors : Z;
  num_fats : Z;
  root_entry_count : Z;
  total_sectors_16 : Z;
  media : Z;
  fat_size_16 : Z;
  sectors_per_track : Z;
  num_heads : Z;
  hidden_sectors : Z;
  total_sectors_32 : Z;
  fat_size_32 : Z;
  ext_flags : Z;
  fs_version : Z;
  bpb_root_cluster : Z;
  fs_info : Z;
  backup_boot_sector : Z;
  reserved : list Z;
  drive_number : Z;
  reserved1 : Z;
  boot_signature : Z;
  volume_id : Z;
  volume_label : list Z;
  fs_type : list Z
}.

Record fat_dir_entry := mkEntry {
  e_name : list Z;
  e_attr : Z;
  e_nt_res : Z;
  e_crt_time_tenth : Z;
  e_crt_time : Z;
  e_crt_date : Z;
  e_lst_acc_date : Z;
  e_fst_clus_hi : Z;
  e_wrt_time : Z;
  e_wrt_date : Z;
  e_fst_clus_lo : Z;
  e_file_size : Z
}.

Definition ATTR_DIRECTORY : Z := 0x10.
Definition ATTR_LONG_NAME : Z := 0x0F.

(** Little-endian numbers in a buffer. *)
Definition le16 (b : list Z) (i : Z) : option Z :=
  match arr_get b i, arr_get b (i + 1) with
  | Some x, Some y => Some (x + 256 * y)
  | _, _ => None
  end.

Definition le32 (b : list Z) (i : Z) : option Z :=
  match le16 b i, le16 b (i + 2) with
  | Some x, Some y => Some (x + 65536 * y)
  | _, _ => None
  end.

Definition slice (b : list Z) (i n : Z) : list Z := take (Z.to_nat n) (drop (Z.to_nat i) b).

(** The structures as they lie in memory. *)
Definition bpb_at (b : list Z) : option fat_bpb :=
  let byte i := default 0 (arr_get b i) in
  let half i := default 0 (le16 b i) in
  let word i := default 0 (le32 b i) in
  if 90 <=? Z.of_nat (length b) then
    Some (mkBpb (slice b 0 3) (slice b 3 8) (half 11) (byte 13) (half 14) (byte 16) (half 17) (half 19)
      (byte 21) (half 22) (half 24) (half 26) (word 28) (word 32) (word 36) (half 40) (half 42) (word 44)
      (half 48) (half 50) (slice b 52 12) (byte 64) (byte 65) (byte 66) (word 67) (slice b 71 11) (slice b 82 8))
  else None.

Definition entry_at (b : list Z) (i : Z) : option fat_dir_entry :=
  let o := 32 * i in
  let byte k := default 0 (arr_get b (o + k)) in
  let half k := default 0 (le16 b (o + k)) in
  if (0 <=? i) && (o + 32 <=? Z.of_nat (length b)) then
    Some (mkEntry (slice b o 11) (byte 11) (byte 12) (byte 13) (half 14) (half 16) (half 18) (half 20)
      (half 22) (half 24) (half 26) (default 0 (le32 b (o + 28))))
  else None.

(** The name built from an entry: no spaces, and a dot before a non-empty extension.  Both
    callers have room for its at most twelve characters and the NUL. *)
Definition short_name (name : list Z) : list Z :=
  filter (λ c, c ≠ 32) (take 8 name) ++
  (if bool_decide (name !! 8%nat = Some 32) then [] else 46 :: filter (λ c, c ≠ 32) (take 3 (drop 8 name))).

(** [(fst_clus_hi << 16) | fst_clus_lo]. *)
Definition first_cluster (e : fat_dir_entry) : Z := Z.lor (w32 (Z.shiftl (e_fst_clus_hi e) 16)) (e_fst_clus_lo e).

(** [for (k = 0; a[k] != 0 || b[k] != 0; k++) if (a[k] != b[k]) no match]. *)
Fixpoint same_string {S} (a b : list Z) : M S bool :=
  match a, b with
  | x :: a, y :: b =>
      if (x =? 0) && (y =? 0) then ret true
      else if negb (x =? y) then ret false
      else same_string a b
  | _, _ => undef
  end.

(** ** What FAT32 asks of the kernel: [kmalloc], [kfree], [ata_read_sectors] of drive 0
    into a buffer, and [log_info]. *)

Class FatEnv (E : Type) := {
  fe_malloc : Z → M E Z;
  fe_free : Z → M E unit;
  fe_read : Z → Z → M (list Z * E) bool;
  fe_log : list Z → M E unit
}.

(** Static variables of fat32.c and vfs.c, the nodes and directory entries on the heap, and
    the rest of the kernel. *)
Record fs (E : Type) := mkFs {
  bpb : fat_bpb;
  fat_start_sector : Z;
  data_start_sector : Z;
  root_cluster : Z;
  fs_root : Z;
  nodes : gmap Z fs_node;
  dirents : gmap Z dirent;
  env : E
}.

Arguments mkFs {E}.
Arguments bpb {E}.
Arguments fat_start_sector {E}.
Arguments data_start_sector {E}.
Arguments root_cluster {E}.
Arguments fs_root {E}.
Arguments nodes {E}.
Arguments dirents {E}.
Arguments env {E}.

Definition set_env {E} (e : E) (s : fs E) : fs E :=
  mkFs (bpb s) (fat_start_sector s) (data_start_sector s) (root_cluster s) (fs_root s) (nodes s) (dirents s) e.

Definition set_bpb {E} (b : fat_bpb) (s : fs E) : fs E :=
  mkFs b (fat_start_sector s) (data_start_sector s) (root_cluster s) (fs_root s) (nodes s) (dirents s) (env s).

Definition set_layout {E} (f d r : Z) (s : fs E) : fs E :=
  mkFs (bpb s) f d r (fs_root s) (nodes s) (dirents s) (env s).

Definition set_root {E} (p : Z) (s : fs E) : fs E :=
  mkFs (bpb s) (fat_start_sector s) (data_start_sector s) (root_cluster s) p (nodes s) (dirents s) (env s).

Definition set_node {E} (p : Z) (n : fs_node) (s : fs E) : fs E :=
  mkFs (bpb s) (fat_start_sector s) (data_start_sector s) (root_cluster s) (fs_root s) (<[p := n]> (nodes s))
    (dirents s) (env s).

Definition set_dirent {E} (p : Z) (d : dirent) (s : fs E) : fs E :=
  mkFs (bpb s) (fat_start_sector s) (data_start_sector s) (root_cluster s) (fs_root s) (nodes s)
    (<[p := d]> (dirents s)) (env s).

(** ** Operations *)

(** [uitoa_simple], with its array of twelve bytes. *)
Definition uitoa_simple (value : Z) : M (list Z) unit :=
  if value =? 0 then arr_put 0 48;; arr_put 1 0
  else
    '(idx, tmp) ← on_local (replicate 12 0) (digits_loop 11 value 0);
    reverse_copy tmp idx;;
    arr_put idx 0.

Section fat32.
Context {E : Type} `{FatEnv E}.

Definition in_env {A} (m : M E A) : M (fs E) A := zoom env set_env m.

Definition kmalloc_ (n : Z) : M (fs E) Z := in_env (fe_malloc n).

Definition kfree_ (p : Z) : M (fs E) unit := in_env (fe_free p).

Definition log (msg : list Z) : M (fs E) unit := in_env (fe_log msg).

(** [ata_read_sectors(0, lba, count, buffer)] for the buffer at [p], whose bytes are [b];
    writing through a null pointer is undefined.  The callers pass zeros for the bytes of a
    buffer: a transfer overwrites all that is read later, except when the sectors of the
    volume are longer than the 512 bytes of the disk's. *)
Definition sectors_into (p : Z) (b : list Z) (lba count : Z) : M (fs E) (bool * list Z) :=
  if p =? 0 then undef else λ s,
  match fe_read lba count (b, env s) with
  | Ret ok (b', e) => Ret (ok, b') (set_env e s)
  | Halt (_, e) => Halt (set_env e s)
  | Undef => Undef
  | NoFuel => NoFuel
  end.

Definition read_cluster (cluster p : Z) (b : list Z) : M (fs E) (bool * list Z) :=
  s ← gets id;
  let lba := data_start_sector s +w (cluster -w 2) *w sectors_per_cluster (bpb s) in
  sectors_into p b lba (sectors_per_cluster (bpb s)).

Definition get_next_cluster (cluster : Z) : M (fs E) Z :=
  s ← gets id;
  let fat_offset := cluster *w 4 in
  if bytes_per_sector (bpb s) =? 0 then undef else
  let fat_sector := fat_start_sector s +w (fat_offset / bytes_per_sector (bpb s)) in
  let ent_offset := fat_offset mod bytes_per_sector (bpb s) in
  buffer ← kmalloc_ 512;
  '(ok, data) ← sectors_into buffer (replicate 512 0) fat_sector 1;
  if negb ok then kfree_ buffer;; ret 0x0FFFFFFF else
  next ← expect (le32 data ent_offset);
  kfree_ buffer;;
  ret (Z.land next 0x0FFFFFFF).

Definition cluster_bytes : M (fs E) Z :=
  gets (λ s, sectors_per_cluster (bpb s) * bytes_per_sector (bpb s)).

Definition node_at (p : Z) : M (fs E) fs_node := m ← gets nodes; expect (m !! p).

(** The loop that skips clusters to reach the offset: the cluster and the offset left, or
    [None] at the end of the chain. *)
Fixpoint skip_clusters (fuel : nat) (cluster_size cluster offset : Z) : M (fs E) (option (Z * Z)) :=
  match fuel with
  | O => no_fuel
  | S fuel =>
      if cluster_size <=? offset then
        next ← get_next_cluster cluster;
        if 0x0FFFFFF8 <=? next then ret None
        else skip_clusters fuel cluster_size next (offset -w cluster_size)
      else ret (Some (cluster, offset))
  end.

(** [for (i = 0; i < chunk; i++) buffer[to + i] = from[offset + i]]. *)
Definition copy_chunk (from : list Z) (offset to chunk : Z) : M (list Z) unit :=
  for_ 0 (trips 0 chunk) (λ i,
    c ← expect (arr_get from (offset + i));
    arr_put (to + i) c).

Definition on_out {A} (m : M (list Z) A) : M (list Z * fs E) A := zoom fst (λ b s, (b, s.2)) m.

(** The loop of [fat32_read] on the caller's buffer; the result is [read_size]. *)
Fixpoint read_loop (fuel : nat) (cluster_size p cluster offset size read_size : Z) : M (list Z * fs E) Z :=
  match fuel with
  | O => no_fuel
  | S fuel =>
      if 0 <? size then
        '(ok, data) ← beside (read_cluster cluster p (replicate (Z.to_nat cluster_size) 0));
        if negb ok then ret read_size else
        let chunk_size := cluster_size -w offset in
        let chunk_size := if size <? chunk_size then size else chunk_size in
        on_out (copy_chunk data offset read_size chunk_size);;
        let read_size := read_size +w chunk_size in
        let size := size -w chunk_size in
        if 0 <? size then
          cluster ← beside (get_next_cluster cluster);
          if 0x0FFFFFF8 <=? cluster then ret read_size
          else read_loop fuel cluster_size p cluster 0 size read_size
        else ret read_size
      else ret read_size
  end.

(** The bound on the rounds of the loops that follow a cluster chain. *)
Context (fuel : nat).

Definition fat32_read (node offset size : Z) : M (list Z * fs E) Z :=
  n ← beside (node_at node);
  cluster ← expect (n_inode n);
  cluster_size ← beside cluster_bytes;
  r ← beside (skip_clusters fuel cluster_size cluster offset);
  match r with
  | None => ret 0
  | Some (cluster, offset) =>
      p ← beside (kmalloc_ cluster_size);
      read_size ← read_loop fuel cluster_size p cluster offset size 0;
      beside (kfree_ p);;
      ret read_size
  end.

(** The entries of a cluster from [i] on: [inl r] when the function returns [r], [inr k] when
    the cluster is finished with [k] entries counted. *)
Fixpoint readdir_scan (n : nat) (i : Z) (data : list Z) (buffer index current_index : Z) : M (fs E) (Z + Z) :=
  match n with
  | O => ret (inr current_index)
  | S n =>
      e ← expect (entry_at data i);
      first ← expect (e_name e !! 0%nat);
      if first =? 0x00 then kfree_ buffer;; ret (inl 0)
      else if first =? 0xE5 then readdir_scan n (i + 1) data buffer index current_index
      else if truth (Z.land (e_attr e) ATTR_LONG_NAME) then readdir_scan n (i + 1) data buffer index current_index
      else if current_index =? index then
        p ← kmalloc_ 132;
        if p =? 0 then undef else
        modify (set_dirent p (mkDirent (short_name (e_name e)) (first_cluster e)));;
        kfree_ buffer;;
        ret (inl p)
      else readdir_scan n (i + 1) data buffer index (current_index +w 1)
  end.

Fixpoint readdir_loop (fuel : nat) (cluster_size cluster buffer index current_index : Z) : M (fs E) Z :=
  match fuel with
  | O => no_fuel
  | S fuel =>
      if cluster <? 0x0FFFFFF8 then
        '(ok, data) ← read_cluster cluster buffer (replicate (Z.to_nat cluster_size) 0);
        if negb ok then
          log (lit "FAT32: read_cluster failed");;
          kfree_ buffer;;
          kfree_ buffer;;
          ret 0
        else
        r ← readdir_scan (Z.to_nat (cluster_size / 32)) 0 data buffer index current_index;
        match r with
        | inl p => ret p
        | inr current_index =>
            cluster ← get_next_cluster cluster;
            readdir_loop fuel cluster_size cluster buffer index current_index
        end
      else
        kfree_ buffer;;
        ret 0
  end.

(** The debugging output of the first call. *)
Definition readdir_debug (cluster cluster_size : Z) : M (fs E) unit :=
  log (lit "FAT32: readdir called");;
  '(_, buf) ← on_local (replicate 32 0) (uitoa_simple cluster);
  log (lit "Root cluster:");;
  log buf;;
  '(_, buf) ← on_local buf (uitoa_simple cluster_size);
  log (lit "Cluster size:");;
  log buf.

Definition fat32_readdir (node index : Z) : M (fs E) Z :=
  n ← node_at node;
  cluster ← expect (n_inode n);
  cluster_size ← cluster_bytes;
  when (index =? 0) (readdir_debug cluster cluster_size);;
  buffer ← kmalloc_ cluster_size;
  if buffer =? 0 then log (lit "FAT32: readdir OOM");; ret 0 else
  readdir_loop fuel cluster_size cluster buffer index 0.

(** The node made for an entry: the fields that are written. *)
Definition entry_node (e : fat_dir_entry) : fs_node :=
  if truth (Z.land (e_attr e) ATTR_DIRECTORY) then
    mkNode None None None None (Some FS_DIRECTORY) (Some (first_cluster e)) (Some (e_file_size e)) None
      None None None None (Some (Some fat32_readdir_fn)) (Some (Some fat32_finddir_fn)) None
  else
    mkNode None None None None (Some FS_FILE) (Some (first_cluster e)) (Some (e_file_size e)) None
      (Some (Some fat32_read_fn)) None None None None None None.

(** [Some r] when the function returns [r]. *)
Fixpoint finddir_scan (n : nat) (i : Z) (data : list Z) (buffer : Z) (name : list Z) : M (fs E) (option Z) :=
  match n with
  | O => ret None
  | S n =>
      e ← expect (entry_at data i);
      first ← expect (e_name e !! 0%nat);
      if first =? 0x00 then kfree_ buffer;; ret (Some 0)
      else if first =? 0xE5 then finddir_scan n (i + 1) data buffer name
      else if truth (Z.land (e_attr e) ATTR_LONG_NAME) then finddir_scan n (i + 1) data buffer name
      else
        same ← same_string name (short_name (e_name e) ++ [0]);
        if same then
          p ← kmalloc_ 184;
          if p =? 0 then undef else
          modify (set_node p (entry_node e));;
          kfree_ buffer;;
          ret (Some p)
        else finddir_scan n (i + 1) data buffer name
  end.

Fixpoint finddir_loop (fuel : nat) (cluster_size cluster buffer : Z) (name : list Z) : M (fs E) Z :=
  match fuel with
  | O => no_fuel
  | S fuel =>
      if cluster <? 0x0FFFFFF8 then
        '(ok, data) ← read_cluster cluster buffer (replicate (Z.to_nat cluster_size) 0);
        if negb ok then kfree_ buffer;; ret 0 else
        r ← finddir_scan (Z.to_nat (cluster_size / 32)) 0 data buffer name;
        match r with
        | Some p => ret p
        | None =>
            cluster ← get_next_cluster cluster;
            finddir_loop fuel cluster_size cluster buffer name
        end
      else kfree_ buffer;; ret 0
  end.

Definition fat32_finddir (node : Z) (name : list Z) : M (fs E) Z :=
  n ← node_at node;
  cluster ← expect (n_inode n);
  cluster_size ← cluster_bytes;
  buffer ← kmalloc_ cluster_size;
  finddir_loop fuel cluster_size cluster buffer name.

Definition fat32_init : M (fs E) unit :=
  log (lit "FAT32: Initializing...");;
  sector0 ← kmalloc_ 512;
  '(ok, data) ← sectors_into sector0 (replicate 512 0) 0 1;
  if negb ok then
    log (lit "FAT32: Failed to read boot sector");;
    kfree_ sector0
  else
  b ← expect (bpb_at data);
  modify (set_bpb b);;
  kfree_ sector0;;
  if (bytes_per_sector b =? 0) || (sectors_per_cluster b =? 0) then
    log (lit "FAT32: Invalid BPB (not a FAT32 volume)")
  else if (fat_size_32 b =? 0) || (num_fats b =? 0) then
    log (lit "FAT32: Invalid FAT32 parameters")
  else
  modify (set_layout (reserved_sectors b) (reserved_sectors b +w num_fats b *w fat_size_32 b) (bpb_root_cluster b));;
  log (lit "FAT32: Volume found");;
  p ← kmalloc_ 184;
  modify (set_root p);;
  if p =? 0 then undef else
  modify (set_node p (mkNode None None None None (Some FS_DIRECTORY) (Some (bpb_root_cluster b)) None None
    None None None None (Some (Some fat32_readdir_fn)) (Some (Some fat32_finddir_fn)) None)).

(** ** The callbacks of the switch *)

Definition run_read (f : fs_fn) : Z → Z → Z → M (list Z * fs E) Z :=
  match f with
  | fat32_read_fn => fat32_read
  | _ => λ _ _ _, undef
  end.

Definition run_readdir (f : fs_fn) : Z → Z → M (fs E) Z :=
  match f with
  | fat32_readdir_fn => fat32_readdir
  | _ => λ _ _, undef
  end.

Definition run_finddir (f : fs_fn) : Z → list Z → M (fs E) Z :=
  match f with
  | fat32_finddir_fn => fat32_finddir
  | _ => λ _ _, undef
  end.

End fat32.

(** ** Abstract view: a volume, its cluster chains and its directories *)

Record volume := mkVolume {
  v_sectors : Z;
  v_sector : Z → list Z
}.

Definition vol_wf (v : volume) : Prop :=
  v_sectors v ≤ 268435456 ∧
  ∀ i, length (v_sector v i) = 512%nat ∧ Forall (λ c, 0 ≤ c < 256) (v_sector v i).

(** ** What the kernel promises

    [fe_ready v e held room]: the disk holds the volume [v]; [held] are the blocks taken and
    not yet released, the last one first, each with the room there was before; a request that
    fits the room with 64 bytes to spare succeeds, and releasing the last block brings the
    room back. *)
Class FatEnvOk (E : Type) `{FatEnv E} := {
  fe_ready : volume → E → list (Z * Z) → Z → Prop;
  fe_malloc_ok v e held r n :
    fe_ready v e held r → 0 < n → n + 64 ≤ r →
    wp (fe_malloc n) e (λ p e', p ≠ 0 ∧ fe_ready v e' ((p, r) :: held) (r - (n + 64)));
  fe_free_ok v e p r0 held r :
    fe_ready v e ((p, r0) :: held) r → wp (fe_free p) e (λ _ e', fe_ready v e' held r0);
  fe_free_under v e q rq p rp held r :
    fe_ready v e ((q, rq) :: (p, rp) :: held) r → wp (fe_free p) e (λ _ e', fe_ready v e' ((q, rp) :: held) r);
  fe_forget v e held r : fe_ready v e held r → fe_ready v e [] r;
  fe_read_ok v e held r lba count b :
    fe_ready v e held r → 0 ≤ lba → 1 ≤ count < 256 → lba + count ≤ v_sectors v →
    512 * count ≤ Z.of_nat (length b) →
    wp (fe_read lba count) (b, e) (λ ok s, ok = true ∧
      s.1 = concat (v_sector v <$> seqZ lba count) ++ drop (512 * Z.to_nat count) b ∧
      fe_ready v s.2 held r);
  fe_log_ok v e held r msg txt :
    fe_ready v e held r → holds msg txt → Forall (λ c, 0 ≤ c < 256) txt →
    wp (fe_log msg) e (λ _ e', fe_ready v e' held r)
}.

(** A mounted volume with sectors of 512 bytes. *)
Definition mounted {E} (v : volume) (s : fs E) : Prop :=
  vol_wf v ∧ bytes_per_sector (bpb s) = 512 ∧ 1 ≤ sectors_per_cluster (bpb s) < 256 ∧
  0 ≤ fat_start_sector s ∧ 0 ≤ data_start_sector s.

Definition csize {E} (s : fs E) : Z := 512 * sectors_per_cluster (bpb s).

(** Where a cluster and its table entry lie. *)
Definition cluster_lba {E} (s : fs E) (c : Z) : Z := data_start_sector s + (c - 2) * sectors_per_cluster (bpb s).

Definition cluster_ok {E} (v : volume) (s : fs E) (c : Z) : Prop :=
  2 ≤ c < 0x0FFFFFF8 ∧ cluster_lba s c + sectors_per_cluster (bpb s) ≤ v_sectors v ∧
  fat_start_sector s + c * 4 / 512 < v_sectors v.

Definition fat_entry {E} (v : volume) (s : fs E) (c : Z) : Z :=
  Z.land (default 0 (le32 (v_sector v (fat_start_sector s + c * 4 / 512)) ((c * 4) mod 512))) 0x0FFFFFFF.

Definition cluster_data {E} (v : volume) (s : fs E) (c : Z) : list Z :=
  concat (v_sector v <$> seqZ (cluster_lba s c) (sectors_per_cluster (bpb s))).

(** The chain of clusters that starts at [c]; it ends, so it has no cycle. *)
Inductive chain {E} (v : volume) (s : fs E) : Z → list Z → Prop :=
| chain_last c :
    cluster_ok v s c → 0x0FFFFFF8 ≤ fat_entry v s c → chain v s c [c]
| chain_next c cs :
    cluster_ok v s c → fat_entry v s c < 0x0FFFFFF8 → chain v s (fat_entry v s c) cs →
    chain v s c (c :: cs).

Definition contents {E} (v : volume) (s : fs E) (cs : list Z) : list Z := concat (cluster_data v s <$> cs).

(** ** Lemmas *)

Lemma seqZ_one lo : seqZ lo 1 = [lo].
Proof. by rewrite seqZ_cons by lia. Qed.

Lemma concat_length {A} (f : Z → list A) n lo k :
  0 ≤ n → (∀ i, length (f i) = k) → length (concat (f <$> seqZ lo n)) = (k * Z.to_nat n)%nat.
Proof.
  intros Hn Hf. pattern n. apply natlike_ind; [|intros m Hm IH|done].
  - change (Z.to_nat 0) with 0%nat. by rewrite Nat.mul_0_r.
  - rewrite <- Z.add_1_r, seqZ_snoc, fmap_app, concat_app, length_app, IH by done.
    cbn [fmap list_fmap concat]. rewrite length_app, Hf. cbn [length]. lia.
Qed.

Lemma length_cluster_data {E} v (s : fs E) c :
  mounted v s → Z.of_nat (length (cluster_data v s c)) = csize s.
Proof.
  intros (Hv & _ & Hsp & _). unfold cluster_data, csize.
  rewrite (concat_length _ _ _ 512) by (lia || apply Hv). lia.
Qed.

Lemma le32_some b i : 0 ≤ i → i + 4 ≤ Z.of_nat (length b) → ∃ x, le32 b i = Some x.
Proof.
  intros. unfold le32, le16. destruct (arr_get_lt b i) as [? ->]; [lia|].
  destruct (arr_get_lt b (i + 1)) as [? ->]; [lia|]. destruct (arr_get_lt b (i + 2)) as [? ->]; [lia|].
  destruct (arr_get_lt b (i + 2 + 1)) as [? ->]; [lia|]. eauto.
Qed.

Lemma chain_not_nil {E} v (s : fs E) c cs : chain v s c cs → cs ≠ [].
Proof. by destruct 1. Qed.

Lemma chain_head_ok {E} v (s : fs E) c cs : chain v s c cs → cluster_ok v s c.
Proof. by destruct 1. Qed.

Section fat_lemmas.
Context {E : Type} `{FatEnvOk E}.
Implicit Types s : fs E.

Lemma wp_malloc v n s held r (Q : Z → fs E → Prop) :
  fe_ready v (env s) held r → 0 < n → n + 64 ≤ r →
  (∀ p e, p ≠ 0 → fe_ready v e ((p, r) :: held) (r - (n + 64)) → Q p (set_env e s)) →
  wp (kmalloc_ n) s Q.
Proof.
  intros Hr Hn Hroom HQ. unfold kmalloc_, in_env. wp_step. eapply wp_mono; [by apply fe_malloc_ok|].
  intros p e [Hp He]. by apply HQ.
Qed.

Lemma wp_free v p r0 s held r (Q : unit → fs E → Prop) :
  fe_ready v (env s) ((p, r0) :: held) r → (∀ e, fe_ready v e held r0 → Q tt (set_env e s)) →
  wp (kfree_ p) s Q.
Proof.
  intros Hr HQ. unfold kfree_, in_env. wp_step. eapply wp_mono; [by eapply fe_free_ok|]. intros [] e He. by apply HQ.
Qed.

Lemma wp_free_under v q rq p rp s held r (Q : unit → fs E → Prop) :
  fe_ready v (env s) ((q, rq) :: (p, rp) :: held) r → (∀ e, fe_ready v e ((q, rp) :: held) r → Q tt (set_env e s)) →
  wp (kfree_ p) s Q.
Proof.
  intros Hr HQ. unfold kfree_, in_env. wp_step. eapply wp_mono; [by eapply fe_free_under|]. intros [] e He. by apply HQ.
Qed.

Lemma wp_log v msg txt s held r (Q : unit → fs E → Prop) :
  fe_ready v (env s) held r → holds msg txt → Forall (λ c, 0 ≤ c < 256) txt →
  (∀ e, fe_ready v e held r → Q tt (set_env e s)) → wp (log msg) s Q.
Proof.
  intros Hr Hm Hb HQ. unfold log, in_env. wp_step. eapply wp_mono; [by eapply fe_log_ok|]. intros [] e He. by apply HQ.
Qed.

Lemma wp_sectors_into v p b lba count s held r (Q : bool * list Z → fs E → Prop) :
  p ≠ 0 → fe_ready v (env s) held r → 0 ≤ lba → 1 ≤ count < 256 → lba + count ≤ v_sectors v →
  Z.of_nat (length b) = 512 * count →
  (∀ e, fe_ready v e held r → Q (true, concat (v_sector v <$> seqZ lba count)) (set_env e s)) →
  wp (sectors_into p b lba count) s Q.
Proof.
  intros Hp Hr Hlba Hc Hfit Hb HQ. unfold sectors_into. destruct (Z.eqb_spec p 0); [done|].
  destruct (wp_ex _ _ _ (fe_read_ok v (env s) held r lba count b Hr Hlba Hc Hfit ltac:(lia)))
    as (ok & [b' e] & Erun & -> & Eb & He). cbn [fst snd] in *.
  unfold wp. rewrite Erun, Eb, drop_ge, app_nil_r by lia. by apply HQ.
Qed.

Lemma wp_read_cluster v p c s held r (Q : bool * list Z → fs E → Prop) :
  mounted v s → cluster_ok v s c → p ≠ 0 → fe_ready v (env s) held r →
  (∀ e, fe_ready v e held r → Q (true, cluster_data v s c) (set_env e s)) →
  wp (read_cluster c p (replicate (Z.to_nat (csize s)) 0)) s Q.
Proof.
  intros (Hv & Hbps & Hspc & Hf & Hd) (Hc & Hlba & _) Hp Hr HQ. unfold read_cluster. wp_step. wp_step. cbv zeta. cbn [id].
  assert (Hl : 0 ≤ (c - 2) * sectors_per_cluster (bpb s)) by nia. unfold cluster_lba in Hlba. destruct Hv as [Hv _].
  rewrite (w32_small (c - 2)) by (unfold is_u32; lia). rewrite (w32_small ((c - 2) * _)) by (unfold is_u32; lia).
  rewrite w32_small by (unfold is_u32; lia).
  eapply wp_sectors_into; [done|done|lia|done|done|rewrite length_replicate; unfold csize; lia|].
  exact HQ.
Qed.

Lemma wp_get_next v c s held r (Q : Z → fs E → Prop) :
  mounted v s → cluster_ok v s c → fe_ready v (env s) held r → 576 ≤ r →
  (∀ e, fe_ready v e held r → Q (fat_entry v s c) (set_env e s)) →
  wp (get_next_cluster c) s Q.
Proof.
  intros (Hv & Hbps & Hspc & Hf & Hd) (Hc & _ & Hfat) Hr Hroom HQ. unfold get_next_cluster. wp_step. wp_step.
  cbv zeta. cbn [id]. rewrite Hbps. rewrite (w32_small (c * 4)) by (unfold is_u32; lia).
  destruct Hv as [Hvs Hvw]. cbn [Z.eqb].
  rewrite w32_small by (unfold is_u32; mlia). wp_step. eapply wp_malloc; [done|lia|lia|]. intros p e1 Hp He1. wp_step.
  eapply wp_sectors_into; [done|done|mlia|lia|lia|done|]. intros e2 He2. cbn [negb].
  rewrite seqZ_one. cbn [fmap list_fmap concat]. rewrite app_nil_r.
  destruct (le32_some (v_sector v (fat_start_sector s + c * 4 / 512)) ((c * 4) mod 512)) as [x Hx];
    [mlia|rewrite (proj1 (Hvw _)); assert (c * 4 mod 512 mod 4 = 0) by mlia; mlia|].
  wp_step. eapply wp_expect; [exact Hx|]. wp_step. eapply wp_free; [exact He2|]. intros e3 He3. wp_step.
  specialize (HQ e3 He3). unfold fat_entry in HQ. rewrite Hx in HQ. exact HQ.
Qed.

End fat_lemmas.

(** ** Reading files *)

Lemma chain_env {E} v (s : fs E) e c cs : chain v s c cs → chain v (set_env e s) c cs.
Proof. induction 1 as [c Hok He|c cs Hok He _ IH]; [by apply chain_last|by apply chain_next]. Qed.

(** The clusters of a volume depend on its layout alone. *)
Definition same_layout {E} (s t : fs E) : Prop :=
  bpb t = bpb s ∧ fat_start_sector t = fat_start_sector s ∧ data_start_sector t = data_start_sector s.

Lemma chain_layout {E} v (s t : fs E) c cs : same_layout s t → chain v s c cs → chain v t c cs.
Proof.
  intros (Eb & Ef & Ed).
  assert (Hok : ∀ c, cluster_ok v s c → cluster_ok v t c) by (intros x; unfold cluster_ok, cluster_lba; by rewrite Eb, Ef, Ed).
  assert (Hen : ∀ c, fat_entry v t c = fat_entry v s c) by (intros x; unfold fat_entry; by rewrite Ef).
  induction 1 as [c G1 G2|c cs G1 G2 _ IH]; [apply chain_last|apply chain_next]; rewrite ?Hen; auto.
Qed.

Lemma contents_layout {E} v (s t : fs E) cs : same_layout s t → contents v t cs = contents v s cs.
Proof. intros (Eb & Ef & Ed). unfold contents, cluster_data, cluster_lba. by rewrite Eb, Ed. Qed.

Lemma contents_cons {E} v (s : fs E) c cs : contents v s (c :: cs) = cluster_data v s c ++ contents v s cs.
Proof. done. Qed.

Lemma length_contents {E} v (s : fs E) cs :
  mounted v s → Z.of_nat (length (contents v s cs)) = csize s * Z.of_nat (length cs).
Proof.
  intros Hm. induction cs as [|c cs IH]; [cbn; lia|]. rewrite contents_cons, length_app.
  pose proof (length_cluster_data v s c Hm). cbn [length]. lia.
Qed.

(** A chunk copied behind what is already in the buffer. *)
Lemma wp_copy_chunk from offset chunk prev b0 (Q : unit → list Z → Prop) :
  0 ≤ offset → 0 ≤ chunk → offset + chunk ≤ Z.of_nat (length from) →
  Z.of_nat (length prev) + chunk ≤ Z.of_nat (length b0) →
  let new := take (Z.to_nat chunk) (drop (Z.to_nat offset) from) in
  Q tt ((prev ++ new) ++ drop (length (prev ++ new)) b0) →
  wp (copy_chunk from offset (Z.of_nat (length prev)) chunk) (prev ++ drop (length prev) b0) Q.
Proof.
  intros Ho Hc Hfrom Hb0 new HQ. unfold copy_chunk, trips. rewrite Z.sub_0_r.
  set (part := λ k, prev ++ take (Z.to_nat k) (drop (Z.to_nat offset) from)).
  assert (Hlen : ∀ k, 0 ≤ k ≤ chunk → Z.of_nat (length (part k)) = Z.of_nat (length prev) + k).
  { intros k Hk. unfold part. rewrite length_app, length_take, length_drop. lia. }
  apply wp_for with (λ k b, b = part k ++ drop (length (part k)) b0).
  - unfold part. change (Z.to_nat 0) with 0%nat. rewrite app_nil_r. done.
  - intros k b Hk ->. rewrite Z2Nat.id in Hk by done. specialize (Hlen k ltac:(lia)) as Hl.
    destruct (arr_get_lt from (offset + k)) as [x Hx]; [lia|]. wp_step. eapply wp_expect; [exact Hx|].
    rewrite <- Hl. apply wp_arr_put; [rewrite length_app, length_drop; lia|].
    assert (part (k + 1) = part k ++ [x]) as ->.
    { unfold part. rewrite <- app_assoc. f_equal. replace (Z.to_nat (k + 1)) with (S (Z.to_nat k)) by lia.
      apply take_S_r. rewrite lookup_drop. unfold arr_get in Hx. destruct (Z.leb_spec 0 (offset + k)); [|lia].
      by replace (Z.to_nat offset + Z.to_nat k)%nat with (Z.to_nat (offset + k)) by lia. }
    unfold arr_set. destruct (Z.leb_spec 0 (Z.of_nat (length (part k)))); [|lia]. rewrite Nat2Z.id.
    rewrite length_app. cbn [length]. rewrite Nat.add_1_r.
    destruct (drop (length (part k)) b0) as [|y r] eqn:Ed.
    + apply (f_equal length) in Ed. rewrite length_drop in Ed. cbn in Ed. lia.
    + rewrite insert_app_r_alt, Nat.sub_diag by done. cbn [insert list_insert]. rewrite <- app_assoc. do 2 f_equal.
      rewrite <- (Nat.add_1_r (length (part k))), <- drop_drop, Ed. done.
  - intros b ->. rewrite Z.add_0_l, Z2Nat.id by done. exact HQ.
Qed.

Section reading.
Context {E : Type} `{FatEnvOk E}.
Implicit Types s : fs E.

(** Skipping clusters: the rest of the file from the offset on is the rest of the chain. *)
Lemma wp_skip_clusters v fuel c cs offset s held r (Q : option (Z * Z) → fs E → Prop) :
  mounted v s → chain v s c cs → (length cs ≤ fuel)%nat → is_u32 offset →
  fe_ready v (env s) held r → 576 ≤ r →
  (∀ e, fe_ready v e held r → csize s * Z.of_nat (length cs) ≤ offset → Q None (set_env e s)) →
  (∀ e c' cs' o, fe_ready v e held r → chain v s c' cs' → (length cs' ≤ length cs)%nat → 0 ≤ o < csize s →
     drop (Z.to_nat offset) (contents v s cs) = drop (Z.to_nat o) (contents v s cs') →
     Q (Some (c', o)) (set_env e s)) →
  wp (skip_clusters fuel (csize s) c offset) s Q.
Proof.
  intros Hm Hch. revert c cs offset s Hm Hch. induction fuel as [|fuel IH];
    intros c cs offset s Hm Hch Hf Ho Hr Hroom HN HS.
  { destruct cs; [by destruct (chain_not_nil _ _ _ _ Hch)|cbn in Hf; lia]. }
  cbn [skip_clusters]. assert (Hcs : 512 ≤ csize s) by (destruct Hm as (_ & _ & ? & _); unfold csize; lia).
  destruct (Z.leb_spec (csize s) offset) as [Hge|Hlt].
  - wp_step. eapply wp_get_next; [done|by eapply chain_head_ok|done|done|]. intros e He.
    pose proof (length_cluster_data v s c Hm) as Hlen.
    destruct Hch as [c Hok Hend|c cs Hok Hnext Hch].
    + destruct (Z.leb_spec 0x0FFFFFF8 (fat_entry v s c)); [|lia]. wp_step. apply HN; [done|cbn; lia].
    + destruct (Z.leb_spec 0x0FFFFFF8 (fat_entry v s c)); [lia|]. cbn [length] in *.
      rewrite w32_small by (unfold is_u32 in *; lia). change (csize s) with (csize (set_env e s)) at 1.
      apply (IH _ cs); [done|by apply chain_env|lia|unfold is_u32 in *; lia|done|done| |].
      * intros e2 He2 Hcs2. apply (HN e2 He2). change (csize (set_env e s)) with (csize s) in Hcs2. lia.
      * intros e2 c' cs' o He2 Hch' Hl Ho' Hd. apply (HS e2 c' cs' o He2); [|lia|done|].
        -- apply (chain_env _ _ (env s)) in Hch'. by destruct s.
        -- rewrite contents_cons. rewrite drop_app_ge by lia.
           replace (Z.to_nat offset - length (cluster_data v s c))%nat with (Z.to_nat (offset - csize s)) by lia. exact Hd.
  - wp_step. replace s with (set_env (env s) s) by by destruct s.
    apply (HS (env s) c cs offset); [done|done|lia|unfold is_u32 in *; lia|done].
Qed.

(** The copying loop: [prev] is what has been copied. *)
Lemma wp_fat_loop v fuel p c cs offset size prev b0 s held r (Q : Z → list Z * fs E → Prop) :
  mounted v s → chain v s c cs → (length cs ≤ fuel)%nat → p ≠ 0 → 0 ≤ offset < csize s → 0 ≤ size →
  Z.of_nat (length prev) + size ≤ Z.of_nat (length b0) → Z.of_nat (length b0) < 4294967296 →
  fe_ready v (env s) held r → 576 ≤ r →
  (∀ e, fe_ready v e held r →
     let data := prev ++ take (Z.to_nat size) (drop (Z.to_nat offset) (contents v s cs)) in
     Q (Z.of_nat (length data)) (data ++ drop (length data) b0, set_env e s)) →
  wp (read_loop fuel (csize s) p c offset size (Z.of_nat (length prev)))
     (prev ++ drop (length prev) b0, s) Q.
Proof.
  intros Hm Hch Hf Hp. revert c cs offset size prev s Hm Hch Hf.
  induction fuel as [|fuel IH]; intros c cs offset size prev s Hm Hch Hf Ho Hs Hb0 Hb1 Hr Hroom HQ.
  { destruct cs; [by destruct (chain_not_nil _ _ _ _ Hch)|cbn in Hf; lia]. }
  cbn [read_loop]. assert (Hcs : 512 ≤ csize s < 131072) by (destruct Hm as (_ & _ & ? & _); unfold csize; lia).
  destruct (Z.ltb_spec 0 size) as [Hpos|Hz].
  2:{ wp_step. assert (size = 0) as -> by lia. specialize (HQ (env s) Hr). cbn in HQ. rewrite app_nil_r in HQ.
      by destruct s. }
  wp_step. unfold beside at 1. wp_step. cbn [snd fst].
  eapply wp_read_cluster; [done|by eapply chain_head_ok|done|done|]. intros e He. cbn [negb].
  pose proof (length_cluster_data v s c Hm) as Hlen. cbv zeta.
  rewrite (w32_small (csize s - offset)) by (unfold is_u32; lia).
  set (chunk := if size <? csize s - offset then size else csize s - offset).
  assert (Hchunk : chunk = Z.min size (csize s - offset)) by (unfold chunk; destruct (Z.ltb_spec size (csize s - offset)); lia).
  clearbody chunk. wp_step. unfold on_out. wp_step. cbn [fst].
  apply wp_copy_chunk; [lia|lia|lia|lia|].
  set (new := take (Z.to_nat chunk) (drop (Z.to_nat offset) (cluster_data v s c))).
  assert (Hnew : Z.of_nat (length new) = chunk) by (unfold new; rewrite length_take, length_drop; lia).
  rewrite (w32_small (size - chunk)), (w32_small (Z.of_nat (length prev) + chunk)) by (unfold is_u32; lia).
  destruct (Z.ltb_spec 0 (size - chunk)) as [Hmore|Hdone].
  - wp_step. unfold beside at 1. wp_step. cbn [snd fst].
    eapply (wp_get_next v); [done|exact (chain_head_ok v s c cs Hch)|exact He|done|]. intros e2 He2.
    change (fat_entry v (set_env e s) c) with (fat_entry v s c). change (set_env e2 (set_env e s)) with (set_env e2 s).
    assert (Hall : new = drop (Z.to_nat offset) (cluster_data v s c)).
    { unfold new. apply take_ge. rewrite length_drop. lia. }
    destruct Hch as [c Hok Hend|c cs Hok Hnext Hch].
    + destruct (Z.leb_spec 0x0FFFFFF8 (fat_entry v s c)); [|lia]. wp_step. specialize (HQ e2 He2).
      unfold contents in HQ. cbn [fmap list_fmap concat] in HQ. rewrite app_nil_r in HQ.
      rewrite (take_ge (drop (Z.to_nat offset) (cluster_data v s c))) in HQ by (rewrite length_drop; lia).
      rewrite <- Hall, length_app, Nat2Z.inj_add, Hnew in HQ. rewrite length_app. exact HQ.
    + destruct (Z.leb_spec 0x0FFFFFF8 (fat_entry v s c)); [lia|]. cbn [length] in Hf.
      replace (Z.of_nat (length prev) + chunk) with (Z.of_nat (length (prev ++ new))) by (rewrite length_app; lia).
      change (csize s) with (csize (set_env e2 s)).
      apply (IH _ cs); [done|by apply chain_env|lia|change (csize (set_env e2 s)) with (csize s); lia|lia
        |rewrite length_app; lia|done|exact He2|done|].
      intros e3 He3. cbv zeta. specialize (HQ e3 He3). cbv zeta in HQ. rewrite contents_cons in HQ.
      assert ((prev ++ new) ++ take (Z.to_nat (size - chunk)) (drop (Z.to_nat 0) (contents v (set_env e2 s) cs)) =
        prev ++ take (Z.to_nat size) (drop (Z.to_nat offset) (cluster_data v s c ++ contents v s cs))) as ->; [|exact HQ].
      rewrite drop_app_le by lia. rewrite <- Hall. rewrite take_app_ge by lia.
      rewrite <- app_assoc. do 2 f_equal. change (Z.to_nat 0) with 0%nat. cbn [drop]. f_equal. lia.
  - wp_step. specialize (HQ e He). cbv zeta in HQ.
    assert (take (Z.to_nat size) (drop (Z.to_nat offset) (contents v s cs)) = new) as Hd.
    { assert (size = chunk) as -> by lia. unfold new.
      assert (∃ t, contents v s cs = cluster_data v s c ++ t) as [t ->] by (destruct Hch; eexists; apply contents_cons).
      rewrite drop_app_le by lia. apply take_app_le. rewrite length_drop. lia. }
    rewrite Hd, length_app, Nat2Z.inj_add, Hnew in HQ. rewrite length_app. exact HQ.
Qed.

End reading.

(** ** Directories *)

Definition entry_first (e : fat_dir_entry) : Z := default 0 (e_name e !! 0%nat).

(** Entries shown: not deleted, and without any of the four attributes of a long name. *)
Definition visible (e : fat_dir_entry) : Prop :=
  entry_first e ≠ 0xE5 ∧ truth (Z.land (e_attr e) ATTR_LONG_NAME) = false.

#[global] Instance visible_dec e : Decision (visible e).
Proof. unfold visible. apply _. Defined.

(** The entries before the end marker, and whether there is one. *)
Fixpoint until_end (es : list fat_dir_entry) : list fat_dir_entry :=
  match es with
  | [] => []
  | e :: es => if entry_first e =? 0 then [] else e :: until_end es
  end.

Definition ended (es : list fat_dir_entry) : Prop := Exists (λ e, entry_first e = 0) es.

#[global] Instance ended_dec es : Decision (ended es).
Proof. unfold ended. apply _. Defined.

Definition listing (es : list fat_dir_entry) : list fat_dir_entry := filter visible (until_end es).

(** The entries in the data of a cluster, and in a directory. *)
Definition entries_of (data : list Z) : list fat_dir_entry :=
  omap (entry_at data) (seqZ 0 (Z.of_nat (length data) / 32)).

Definition dir_entries {E} (v : volume) (s : fs E) (cs : list Z) : list fat_dir_entry :=
  concat ((λ c, entries_of (cluster_data v s c)) <$> cs).

Lemma entry_at_some b i :
  0 ≤ i → 32 * i + 32 ≤ Z.of_nat (length b) →
  ∃ e, entry_at b i = Some e ∧ length (e_name e) = 11%nat.
Proof.
  intros Hi Hb. unfold entry_at. cbv zeta.
  destruct (Z.leb_spec 0 i), (Z.leb_spec (32 * i + 32) (Z.of_nat (length b))); [|lia..]. cbn [andb].
  eexists. split; [done|]. cbn [e_name]. unfold slice. rewrite length_take, length_drop. lia.
Qed.

(** The entries from [i] on, as the scan meets them. *)
Lemma entries_lookup b k :
  0 ≤ k < Z.of_nat (length b) / 32 → entries_of b !! Z.to_nat k = entry_at b k.
Proof.
  intros Hk. unfold entries_of.
  assert (Hall : ∀ (n : nat) lo, 0 ≤ lo → lo + Z.of_nat n ≤ Z.of_nat (length b) / 32 →
    omap (entry_at b) (seqZ lo (Z.of_nat n)) =
      (λ i, default (mkEntry [] 0 0 0 0 0 0 0 0 0 0 0) (entry_at b i)) <$> seqZ lo (Z.of_nat n)).
  { induction n as [|n IH]; intros lo Hlo Hn; [done|]. rewrite seqZ_cons by lia. cbn [omap list_omap fmap list_fmap].
    destruct (entry_at_some b lo) as (e & -> & _); [done|mlia|]. cbn [default]. f_equal.
    replace (Z.pred (Z.of_nat (S n))) with (Z.of_nat n) by lia. apply IH; lia. }
  specialize (Hall (Z.to_nat (Z.of_nat (length b) / 32)) 0). rewrite Z2Nat.id in Hall by mlia.
  rewrite Hall by lia. rewrite list_lookup_fmap, lookup_seqZ_lt by lia. rewrite Z2Nat.id, Z.add_0_l by lia.
  cbn [fmap option_fmap option_map].
  destruct (entry_at_some b k) as (e & -> & _); [lia|mlia|]. done.
Qed.

Lemma length_entries b : Z.of_nat (length (entries_of b)) = Z.of_nat (length b) / 32.
Proof.
  unfold entries_of.
  assert (∀ n, 0 ≤ n ≤ Z.of_nat (length b) / 32 → Z.of_nat (length (omap (entry_at b) (seqZ 0 n))) = n) as Hg; [|apply Hg; mlia].
  intros n [Hn0 Hn]. revert Hn. pattern n. apply natlike_ind; [done| |done]. intros m Hm IH Hn.
  rewrite <- Z.add_1_r, seqZ_snoc, omap_app, length_app, Nat2Z.inj_add, IH by lia. cbn [omap list_omap].
  destruct (entry_at_some b (0 + m)) as (e & -> & _); [lia|mlia|]. cbn. lia.
Qed.

(** A directory in two parts. *)
Lemma until_end_app es1 es2 :
  until_end (es1 ++ es2) = if decide (ended es1) then until_end es1 else until_end es1 ++ until_end es2.
Proof.
  induction es1 as [|e es1 IH]; [by rewrite decide_False by (intros Hx; inversion Hx)|]. cbn [app until_end].
  destruct (Z.eqb_spec (entry_first e) 0) as [E0|Hne].
  - rewrite decide_True; [done|]. by apply Exists_cons_hd.
  - rewrite IH. destruct (decide (ended es1)) as [He|He].
    + rewrite decide_True; [done|]. by apply Exists_cons_tl.
    + rewrite decide_False; [done|]. intros Hx. apply Exists_cons in Hx as [|]; done.
Qed.

Lemma listing_app es1 es2 :
  listing (es1 ++ es2) = if decide (ended es1) then listing es1 else listing es1 ++ listing es2.
Proof. unfold listing. rewrite until_end_app. case_decide; [done|]. apply filter_app. Qed.

Lemma ended_app es1 es2 : ended (es1 ++ es2) ↔ ended es1 ∨ ended es2.
Proof. apply Exists_app. Qed.

Lemma holds_cstring l junk : holds (l ++ 0 :: junk) (cstring l).
Proof.
  induction l as [|c l IH].
  - split; [set_solver|]. by exists junk.
  - cbn [cstring app]. destruct (Z.eqb_spec c 0) as [->|Hne].
    + split; [set_solver|]. by exists (l ++ 0 :: junk).
    + destruct IH as [Hz [j Ej]]. split; [set_solver|]. exists j. cbn. by rewrite Ej.
Qed.

Lemma wp_same_string {S} a b x y (s : S) (Q : bool → S → Prop) :
  holds a x → holds b y → Q (bool_decide (x = y)) s → wp (same_string a b) s Q.
Proof.
  intros [Hx [jx ->]] [Hy [jy ->]]. revert y Hy. induction x as [|c x IH]; intros y Hy HQ.
  - destruct y as [|d y]; cbn [app same_string]; rewrite Z.eqb_refl; [done|].
    apply not_elem_of_cons in Hy as [Hd Hy]. destruct (Z.eqb_spec d 0); [lia|]. cbn [andb].
    destruct (Z.eqb_spec 0 d); [lia|]. cbn [negb]. wp_step. exact HQ.
  - apply not_elem_of_cons in Hx as [Hc Hx]. destruct y as [|d y]; cbn [app same_string].
    + destruct (Z.eqb_spec c 0); [done|]. cbn [andb negb]. wp_step. exact HQ.
    + apply not_elem_of_cons in Hy as [Hd Hy]. destruct (Z.eqb_spec c 0); [done|]. cbn [andb].
      destruct (Z.eqb_spec c d) as [->|Hne]; cbn [negb].
      * apply (IH Hx y Hy). replace (bool_decide (x = y)) with (bool_decide (d :: x = d :: y)); [done|].
        apply bool_decide_ext. naive_solver.
      * wp_step. by rewrite bool_decide_false in HQ by naive_solver.
Qed.

Section directories.
Context {E : Type} `{FatEnvOk E}.
Implicit Types s : fs E.

(** The scan meets the entries [es] of the data, from [i] on. *)
Definition meets (data : list Z) (i : Z) (es : list fat_dir_entry) : Prop :=
  ∀ k e, es !! k = Some e → entry_at data (i + Z.of_nat k) = Some e ∧ length (e_name e) = 11%nat.

Lemma meets_cons data i e es :
  meets data i (e :: es) → entry_at data i = Some e ∧ length (e_name e) = 11%nat ∧ meets data (i + 1) es.
Proof.
  intros Hm. destruct (Hm 0%nat e eq_refl) as [He Hl]. rewrite Z.add_0_r in He. split_and!; [done|done|].
  intros k x Hx. replace (i + 1 + Z.of_nat k) with (i + Z.of_nat (S k)) by lia. by apply Hm.
Qed.

Lemma meets_entries data : meets data 0 (entries_of data).
Proof.
  intros k e Hk. pose proof (lookup_lt_Some _ _ _ Hk) as Hlt. pose proof (length_entries data) as Hlen.
  pose proof (entries_lookup data (Z.of_nat k) ltac:(lia)) as Hlook. rewrite Nat2Z.id, Hk in Hlook.
  destruct (entry_at_some data (Z.of_nat k)) as (e' & He' & Hn); [lia|mlia|]. rewrite Z.add_0_l.
  rewrite He' in Hlook. injection Hlook as ->. done.
Qed.

Lemma wp_entry_first e (s : fs E) (Q : Z → fs E → Prop) :
  length (e_name e) = 11%nat → Q (entry_first e) s → wp (expect (e_name e !! 0%nat)) s Q.
Proof.
  intros Hl HQ. unfold entry_first in HQ. destruct (e_name e) as [|c l]; [done|]. exact HQ.
Qed.

(** One cluster of a directory: the entry is found, or the directory ends, or it goes on. *)
Lemma wp_readdir_scan v es i data buffer index cur s held r0 r (Q : Z + Z → fs E → Prop) :
  meets data i es → 0 ≤ cur ≤ index → index + Z.of_nat (length es) < 4294967296 →
  fe_ready v (env s) ((buffer, r0) :: held) r → 196 ≤ r →
  match listing es !! Z.to_nat (index - cur) with
  | Some e => ∀ p e', p ≠ 0 → fe_ready v e' ((p, r0) :: held) (r - 196) →
      Q (inl p) (set_env e' (set_dirent p (mkDirent (short_name (e_name e)) (first_cluster e)) s))
  | None =>
      if decide (ended es) then ∀ e', fe_ready v e' held r0 → Q (inl 0) (set_env e' s)
      else cur + Z.of_nat (length (listing es)) ≤ index → Q (inr (cur + Z.of_nat (length (listing es)))) s
  end →
  wp (readdir_scan (length es) i data buffer index cur) s Q.
Proof.
  intros Hm Hcur Hidx Hr Hroom. revert i cur Hm Hcur Hidx. induction es as [|e es IH]; intros i cur Hm Hcur Hidx HQ.
  { cbn in *. rewrite Z.add_0_r in HQ. apply HQ. lia. }
  apply meets_cons in Hm as (He & Hl & Hm). cbn [length readdir_scan] in *. wp_step. eapply wp_expect; [exact He|].
  wp_step. apply wp_entry_first; [done|]. unfold listing in HQ. cbn [until_end] in HQ.
  destruct (Z.eqb_spec (entry_first e) 0) as [E0|Hne0].
  { wp_step. eapply wp_free; [exact Hr|]. intros e' He'. wp_step. cbn in HQ.
    rewrite decide_True in HQ by (by apply Exists_cons_hd). by apply HQ. }
  rewrite (decide_ext (ended (e :: es)) (ended es)) in HQ
    by (unfold ended; rewrite Exists_cons; naive_solver).
  rewrite filter_cons in HQ. fold (listing es) in HQ.
  destruct (Z.eqb_spec (entry_first e) 0xE5) as [E5|Hne5].
  { rewrite decide_False in HQ by (intros [Hv _]; done). apply IH; [done|done|lia|exact HQ]. }
  destruct (truth (Z.land (e_attr e) ATTR_LONG_NAME)) eqn:Elong.
  { rewrite decide_False in HQ by (intros [_ Hv]; congruence). apply IH; [done|done|lia|exact HQ]. }
  rewrite decide_True in HQ by done. destruct (Z.eqb_spec cur index) as [->|Hnei].
  - rewrite Z.sub_diag in HQ. cbn in HQ. wp_step. eapply wp_malloc; [exact Hr|lia|lia|]. intros p e1 Hp He1.
    destruct (Z.eqb_spec p 0); [done|]. wp_step. wp_step. wp_step. eapply wp_free_under; [exact He1|].
    intros e2 He2. wp_step. by apply (HQ p e2).
  - rewrite w32_small by (unfold is_u32; lia). apply IH; [done|lia|lia|].
    replace (Z.to_nat (index - cur)) with (S (Z.to_nat (index - (cur + 1)))) in HQ by lia. cbn [length] in HQ.
    change ((e :: listing es) !! S ?k) with (listing es !! k) in HQ. destruct (listing es !! Z.to_nat (index - (cur + 1))); [done|].
    case_decide; [done|]. replace (cur + 1 + Z.of_nat (length (listing es)))
      with (cur + Z.of_nat (S (length (listing es)))) by lia. exact HQ.
Qed.

(** The entry of a directory with a given name. *)
Definition named (name : list Z) (e : fat_dir_entry) : Prop := cstring (short_name (e_name e)) = name.

#[global] Instance named_dec name e : Decision (named name e).
Proof. unfold named. apply _. Defined.

Lemma wp_finddir_scan v es i data buffer name txt s held r0 r (Q : option Z → fs E → Prop) :
  meets data i es → holds name txt → fe_ready v (env s) ((buffer, r0) :: held) r → 248 ≤ r →
  match head (filter (named txt) (listing es)) with
  | Some e => ∀ p e', p ≠ 0 → fe_ready v e' ((p, r0) :: held) (r - 248) → Q (Some p) (set_env e' (set_node p (entry_node e) s))
  | None => if decide (ended es) then ∀ e', fe_ready v e' held r0 → Q (Some 0) (set_env e' s) else Q None s
  end →
  wp (finddir_scan (length es) i data buffer name) s Q.
Proof.
  intros Hm Hn Hr Hroom. revert i Hm. induction es as [|e es IH]; intros i Hm HQ; [done|].
  apply meets_cons in Hm as (He & Hl & Hm). cbn [length finddir_scan] in *. wp_step. eapply wp_expect; [exact He|].
  wp_step. apply wp_entry_first; [done|]. unfold listing in HQ. cbn [until_end] in HQ.
  destruct (Z.eqb_spec (entry_first e) 0) as [E0|Hne0].
  { wp_step. eapply wp_free; [exact Hr|]. intros e' He'. wp_step. cbn in HQ.
    rewrite decide_True in HQ by (by apply Exists_cons_hd). by apply HQ. }
  rewrite (decide_ext (ended (e :: es)) (ended es)) in HQ
    by (unfold ended; rewrite Exists_cons; naive_solver).
  rewrite (filter_cons visible) in HQ. fold (listing es) in HQ.
  destruct (Z.eqb_spec (entry_first e) 0xE5) as [E5|Hne5].
  { rewrite decide_False in HQ by (intros [Hv _]; done). apply IH; [done|exact HQ]. }
  destruct (truth (Z.land (e_attr e) ATTR_LONG_NAME)) eqn:Elong.
  { rewrite decide_False in HQ by (intros [_ Hv]; congruence). apply IH; [done|exact HQ]. }
  rewrite decide_True in HQ by done. rewrite filter_cons in HQ. wp_step.
  eapply wp_same_string; [exact Hn|apply (holds_cstring (short_name (e_name e)) [])|].
  destruct (decide (named txt e)) as [Hnamed|Hnot].
  - rewrite bool_decide_true by done. cbn in HQ. wp_step. eapply wp_malloc; [exact Hr|lia|lia|]. intros p e1 Hp He1.
    destruct (Z.eqb_spec p 0); [done|]. wp_step. wp_step. wp_step. eapply wp_free_under; [exact He1|].
    intros e2 He2. wp_step. by apply (HQ p e2).
  - rewrite bool_decide_false by (intros Hx; by apply Hnot). apply IH; [done|exact HQ].
Qed.

Lemma dir_entries_cons v s c cs : dir_entries v s (c :: cs) = entries_of (cluster_data v s c) ++ dir_entries v s cs.
Proof. done. Qed.

Lemma length_cluster_entries v s c :
  mounted v s → Z.of_nat (length (entries_of (cluster_data v s c))) = csize s / 32 ∧ csize s / 32 ≤ 4080.
Proof.
  intros Hm. rewrite length_entries, length_cluster_data by done. destruct Hm as (_ & _ & ? & _). unfold csize. split; [done|mlia].
Qed.

Lemma wp_readdir_loop v fuel c cs index cur buffer s held r0 r (Q : Z → fs E → Prop) :
  mounted v s → chain v s c cs → (length cs < fuel)%nat → buffer ≠ 0 →
  0 ≤ cur ≤ index → index < 4294963200 → fe_ready v (env s) ((buffer, r0) :: held) r → 576 ≤ r →
  match listing (dir_entries v s cs) !! Z.to_nat (index - cur) with
  | Some e => ∀ p e', p ≠ 0 → fe_ready v e' ((p, r0) :: held) (r - 196) →
      Q p (set_env e' (set_dirent p (mkDirent (short_name (e_name e)) (first_cluster e)) s))
  | None => ∀ e', fe_ready v e' held r0 → Q 0 (set_env e' s)
  end →
  wp (readdir_loop fuel (csize s) c buffer index cur) s Q.
Proof.
  intros Hm Hch Hf Hb. revert c cs cur s Hm Hch Hf.
  induction fuel as [|fuel IH]; intros c cs cur s Hm Hch Hf Hcur Hidx Hr Hroom HQ; [lia|].
  cbn [readdir_loop]. pose proof (chain_head_ok v s c cs Hch) as Hok.
  destruct (Z.ltb_spec c 0x0FFFFFF8); [|destruct Hok as [? _]; lia]. wp_step.
  eapply wp_read_cluster; [done|done|done|done|]. intros e1 He1. cbn [negb].
  destruct (length_cluster_entries v s c Hm) as [Hlen Hmax]. wp_step.
  replace (Z.to_nat (csize s / 32)) with (length (entries_of (cluster_data v s c))) by lia.
  apply (wp_readdir_scan v (entries_of (cluster_data v s c)) 0 _ buffer index cur _ held r0 r);
    [apply meets_entries|done|lia|exact He1|lia|].
  assert (Hes : dir_entries v s cs = entries_of (cluster_data v s c) ++ match cs with [] => [] | _ :: cs => dir_entries v s cs end)
    by (by destruct Hch).
  rewrite Hes, listing_app in HQ. set (es := entries_of (cluster_data v s c)) in *.
  destruct (listing es !! Z.to_nat (index - cur)) as [x|] eqn:Ex.
  - intros p e' Hp He'. wp_step.
    assert ((if decide (ended es) then listing es else listing es ++ listing (match cs with [] => [] | _ :: cs => dir_entries v s cs end))
      !! Z.to_nat (index - cur) = Some x) as Hx by (case_decide; [done|by apply lookup_app_l_Some]).
    rewrite Hx in HQ. by apply (HQ p e').
  - case_decide as Hend.
    + intros e' He'. wp_step. rewrite Ex in HQ. by apply HQ.
    + intros Hcur'. wp_step. eapply (wp_get_next v); [done|done|exact He1|done|]. intros e2 He2.
      change (fat_entry v (set_env e1 s) c) with (fat_entry v s c). change (set_env e2 (set_env e1 s)) with (set_env e2 s).
      apply lookup_ge_None in Ex. rewrite lookup_app_r in HQ by done.
      replace (Z.to_nat (index - cur) - length (listing es))%nat
        with (Z.to_nat (index - (cur + Z.of_nat (length (listing es))))) in HQ by lia.
      change (csize s) with (csize (set_env e2 s)). destruct Hch as [c Hok' Hlast|c cs _ Hnext Hch].
      * destruct fuel as [|fuel]; [cbn in Hf; lia|]. cbn [readdir_loop].
        destruct (Z.ltb_spec (fat_entry v s c) 0x0FFFFFF8); [lia|]. wp_step. eapply wp_free; [exact He2|].
        intros e3 He3. wp_step.
        match type of HQ with context [listing ?t] => change (listing t) with (@nil fat_dir_entry) in HQ end.
        rewrite lookup_nil in HQ. by apply HQ.
      * cbn [length] in Hf. apply (IH _ cs); [done|by apply chain_env|lia|lia|done|exact He2|done|].
        change (dir_entries v (set_env e2 s) cs) with (dir_entries v s cs).
        destruct (listing (dir_entries v s cs) !! Z.to_nat (index - (cur + Z.of_nat (length (listing es))))); exact HQ.
Qed.

Lemma wp_finddir_loop v fuel c cs buffer name txt s held r0 r (Q : Z → fs E → Prop) :
  mounted v s → chain v s c cs → (length cs < fuel)%nat → buffer ≠ 0 → holds name txt →
  fe_ready v (env s) ((buffer, r0) :: held) r → 576 ≤ r →
  match head (filter (named txt) (listing (dir_entries v s cs))) with
  | Some e => ∀ p e', p ≠ 0 → fe_ready v e' ((p, r0) :: held) (r - 248) → Q p (set_env e' (set_node p (entry_node e) s))
  | None => ∀ e', fe_ready v e' held r0 → Q 0 (set_env e' s)
  end →
  wp (finddir_loop fuel (csize s) c buffer name) s Q.
Proof.
  intros Hm Hch Hf Hb Hn. revert c cs s Hm Hch Hf.
  induction fuel as [|fuel IH]; intros c cs s Hm Hch Hf Hr Hroom HQ; [lia|].
  cbn [finddir_loop]. pose proof (chain_head_ok v s c cs Hch) as Hok.
  destruct (Z.ltb_spec c 0x0FFFFFF8); [|destruct Hok as [? _]; lia]. wp_step.
  eapply wp_read_cluster; [done|done|done|done|]. intros e1 He1. cbn [negb].
  destruct (length_cluster_entries v s c Hm) as [Hlen _]. wp_step.
  replace (Z.to_nat (csize s / 32)) with (length (entries_of (cluster_data v s c))) by lia.
  apply (wp_finddir_scan v (entries_of (cluster_data v s c)) 0 _ buffer name txt _ held r0 r);
    [apply meets_entries|done|exact He1|lia|].
  assert (Hes : dir_entries v s cs = entries_of (cluster_data v s c) ++ match cs with [] => [] | _ :: cs => dir_entries v s cs end)
    by (by destruct Hch).
  rewrite Hes, listing_app in HQ. set (es := entries_of (cluster_data v s c)) in *.
  destruct (filter (named txt) (listing es)) as [|x xs] eqn:Ex; cbn [head].
  - case_decide as Hend.
    + intros e' He'. wp_step. rewrite Ex in HQ. by apply HQ.
    + wp_step. eapply (wp_get_next v); [done|done|exact He1|done|]. intros e2 He2.
      change (fat_entry v (set_env e1 s) c) with (fat_entry v s c). change (set_env e2 (set_env e1 s)) with (set_env e2 s).
      rewrite filter_app, Ex in HQ. cbn [app] in HQ.
      change (csize s) with (csize (set_env e2 s)). destruct Hch as [c Hok' Hlast|c cs _ Hnext Hch].
      * destruct fuel as [|fuel]; [cbn in Hf; lia|]. cbn [finddir_loop].
        destruct (Z.ltb_spec (fat_entry v s c) 0x0FFFFFF8); [lia|]. wp_step. eapply wp_free; [exact He2|].
        intros e3 He3. wp_step. cbn in HQ. by apply HQ.
      * cbn [length] in Hf. apply (IH _ cs); [done|by apply chain_env|lia|exact He2|done|].
        change (dir_entries v (set_env e2 s) cs) with (dir_entries v s cs).
        destruct (head (filter (named txt) (listing (dir_entries v s cs)))); exact HQ.
  - intros p e' Hp He'. wp_step.
    assert (head (filter (named txt) (if decide (ended es) then listing es
      else listing es ++ listing (match cs with [] => [] | _ :: cs => dir_entries v s cs end))) = Some x) as Hx.
    { case_decide; [by rewrite Ex|]. rewrite filter_app, Ex. done. }
    rewrite Hx in HQ. by apply (HQ p e').
Qed.

(** The debugging output, which changes nothing here. *)
Lemma wp_uitoa_simple value b (Q : unit → list Z → Prop) :
  is_u32 value → (12 ≤ length b)%nat →
  (∀ b' ds, length b' = length b → holds b' ds → numeral value ds → Q tt b') → wp (uitoa_simple value) b Q.
Proof.
  intros Hv Hb HQ. assert (value < 10 ^ (Z.of_nat (length b) - 1)) as Hfit.
  { apply Z.lt_le_trans with (10 ^ 11); [unfold is_u32 in *; lia|]. apply Z.pow_le_mono_r; lia. }
  unfold uitoa_simple. destruct (Z.eqb_spec value 0) as [->|Hne].
  - replace (arr_put 0 48;; arr_put 1 0) with (uitoa 0) by done. apply wp_uitoa; [done|lia|done|done].
  - apply wp_print_digits; [done|done|lia|done|done].
Qed.

Lemma wp_readdir_debug v c cluster_size s held r (Q : unit → fs E → Prop) :
  is_u32 c → is_u32 cluster_size → fe_ready v (env s) held r →
  (∀ e, fe_ready v e held r → Q tt (set_env e s)) → wp (readdir_debug c cluster_size) s Q.
Proof.
  intros Hc Hcs Hr HQ. unfold readdir_debug. wp_step.
  eapply wp_log; [exact Hr|apply lit_holds; vm_compute; set_solver|apply str_bytes|]. intros e1 He1. wp_step. apply wp_on_local.
  apply wp_uitoa_simple; [done|cbn; lia|]. intros b1 ds1 Hb1 Hh1 Hn1. wp_step.
  eapply wp_log; [exact He1|apply lit_holds; vm_compute; set_solver|apply str_bytes|]. intros e2 He2. wp_step.
  eapply wp_log; [exact He2|exact Hh1|by eapply numeral_bytes|]. intros e3 He3. wp_step. apply wp_on_local.
  apply wp_uitoa_simple; [done|rewrite Hb1; cbn; lia|]. intros b2 ds2 _ Hh2 Hn2. wp_step.
  eapply wp_log; [exact He3|apply lit_holds; vm_compute; set_solver|apply str_bytes|]. intros e4 He4.
  eapply wp_log; [exact He4|exact Hh2|by eapply numeral_bytes|]. intros e5 He5. by apply HQ.
Qed.

End directories.

(** Reading a file, whatever other blocks are held. *)
Lemma wp_fat32_read {E} `{FatEnvOk E} v fuel p n c cs offset size buf (s : fs E) held r :
  mounted v s → nodes s !! p = Some n → n_inode n = Some c → chain v s c cs → (length cs ≤ fuel)%nat →
  is_u32 offset → is_u32 size → size ≤ Z.of_nat (length buf) → Z.of_nat (length buf) < 4294967296 →
  fe_ready v (env s) held r → csize s + 640 ≤ r →
  wp (fat32_read fuel p offset size) (buf, s) (λ k t,
    let data := take (Z.to_nat size) (drop (Z.to_nat offset) (contents v s cs)) in
    k = Z.of_nat (length data) ∧ t.1 = data ++ drop (length data) buf ∧
    ∃ e, t.2 = set_env e s ∧ fe_ready v e held r).
Proof.
  intros Hm Hp Hn Hch Hf Ho Hs Hbuf Hbuf2 Hr Hroom. unfold fat32_read, node_at, cluster_bytes.
  wp_step. unfold beside at 1. wp_step. cbn [snd]. wp_step. wp_step. eapply wp_expect; [exact Hp|]. cbn [fst].
  wp_step. eapply wp_expect; [exact Hn|]. wp_step. unfold beside at 1. wp_step. cbn [snd fst]. wp_step.
  replace (sectors_per_cluster (bpb s) * bytes_per_sector (bpb s)) with (csize s)
    by (destruct Hm as (_ & -> & _); unfold csize; lia).
  assert (Hcs : 512 ≤ csize s) by (destruct Hm as (_ & _ & ? & _); unfold csize; lia).
  wp_step. unfold beside at 1. wp_step. cbn [snd fst].
  apply (wp_skip_clusters v fuel c cs offset s held r); [done|done|done|done|done|lia| |].
  - intros e He Hend. wp_step. cbn [fst snd].
    rewrite drop_ge by (pose proof (length_contents v s cs Hm); lia). rewrite take_nil. cbn. split_and!; [done|done|].
    by exists e.
  - intros e c' cs' o He Hch' Hl Ho' Hd. wp_step. unfold beside at 1. wp_step. cbn [snd fst].
    eapply wp_malloc; [exact He|lia|lia|]. intros q e2 Hq He2. wp_step.
    change (read_loop fuel (csize s) q c' o size 0)
      with (read_loop fuel (csize (set_env e2 (set_env e s))) q c' o size (Z.of_nat (length (@nil Z)))).
    change (wp ?m (buf, ?t)) with (wp m ([] ++ drop (length (@nil Z)) buf, t)).
    eapply (wp_fat_loop v fuel q c' cs'); [done|by do 2 apply chain_env|lia|done|done|unfold is_u32 in *; lia|cbn; lia|done|exact He2|lia|].
    intros e3 He3. cbv zeta. cbn [app]. wp_step. unfold beside. wp_step. cbn [snd fst].
    eapply wp_free; [exact He3|]. intros e4 He4. wp_step. cbn [fst snd]. rewrite Hd. split_and!; [done|done|]. by exists e4.
Qed.

(** Looking a name up. *)
Lemma wp_fat32_finddir {E} `{FatEnvOk E} v fuel p n c cs name txt (s : fs E) held r (Q : Z → fs E → Prop) :
  mounted v s → nodes s !! p = Some n → n_inode n = Some c → chain v s c cs → (length cs < fuel)%nat →
  holds name txt → fe_ready v (env s) held r → csize s + 640 ≤ r →
  match head (filter (named txt) (listing (dir_entries v s cs))) with
  | Some e => ∀ q e', q ≠ 0 → fe_ready v e' ((q, r) :: held) (r - csize s - 312) → Q q (set_env e' (set_node q (entry_node e) s))
  | None => ∀ e', fe_ready v e' held r → Q 0 (set_env e' s)
  end →
  wp (fat32_finddir fuel p name) s Q.
Proof.
  intros Hm Hp Hn Hch Hf Hname Hr Hroom HQ. unfold fat32_finddir, node_at, cluster_bytes.
  wp_step. wp_step. wp_step. eapply wp_expect; [exact Hp|]. wp_step. eapply wp_expect; [exact Hn|]. wp_step. wp_step.
  replace (sectors_per_cluster (bpb s) * bytes_per_sector (bpb s)) with (csize s)
    by (destruct Hm as (_ & -> & _); unfold csize; lia).
  assert (Hcs : 512 ≤ csize s < 131072) by (destruct Hm as (_ & _ & ? & _); unfold csize; lia).
  wp_step. eapply wp_malloc; [exact Hr|lia|lia|]. intros q e1 Hq He1.
  change (csize s) with (csize (set_env e1 s)) at 1.
  eapply (wp_finddir_loop v fuel c cs q); [done|by apply chain_env|done|done|exact Hname|exact He1|lia|].
  change (dir_entries v (set_env e1 s) cs) with (dir_entries v s cs).
  destruct (head (filter (named txt) (listing (dir_entries v s cs)))) as [x|].
  - intros q2 e2 Hq2 He2. apply (HQ q2 e2); [done|].
    by replace (r - csize s - 312) with (r - (csize s + 64) - 248) by lia.
  - intros e2 He2. by apply (HQ e2).
Qed.

(** Listing a directory, whatever other blocks are held. *)
Lemma wp_fat32_readdir {E} `{FatEnvOk E} v fuel p n c cs index (s : fs E) held r (Q : Z → fs E → Prop) :
  mounted v s → nodes s !! p = Some n → n_inode n = Some c → chain v s c cs → (length cs < fuel)%nat →
  0 ≤ index < 4294963200 → fe_ready v (env s) held r → csize s + 640 ≤ r →
  match listing (dir_entries v s cs) !! Z.to_nat index with
  | Some e => ∀ q e', q ≠ 0 → fe_ready v e' ((q, r) :: held) (r - csize s - 260) →
      Q q (set_env e' (set_dirent q (mkDirent (short_name (e_name e)) (first_cluster e)) s))
  | None => ∀ e', fe_ready v e' held r → Q 0 (set_env e' s)
  end →
  wp (fat32_readdir fuel p index) s Q.
Proof.
  intros Hm Hp Hn Hch Hf Hi Hr Hroom HQ. unfold fat32_readdir, node_at, cluster_bytes.
  wp_step. wp_step. wp_step. eapply wp_expect; [exact Hp|]. wp_step. eapply wp_expect; [exact Hn|]. wp_step. wp_step.
  replace (sectors_per_cluster (bpb s) * bytes_per_sector (bpb s)) with (csize s)
    by (destruct Hm as (_ & -> & _); unfold csize; lia).
  assert (Hcs : 512 ≤ csize s < 131072) by (destruct Hm as (_ & _ & ? & _); unfold csize; lia).
  pose proof (chain_head_ok v s c cs Hch) as [Hc _].
  assert (Hrest : ∀ e0, fe_ready v e0 held r → wp (buffer ← kmalloc_ (csize s);
    if buffer =? 0 then log (lit "FAT32: readdir OOM");; ret 0 else
    readdir_loop fuel (csize s) c buffer index 0) (set_env e0 s) Q).
  { intros e0 He0. wp_step. eapply wp_malloc; [exact He0|lia|lia|]. intros q e1 Hq He1.
    destruct (Z.eqb_spec q 0); [done|]. change (csize s) with (csize (set_env e1 (set_env e0 s))) at 1.
    eapply (wp_readdir_loop v fuel c cs index 0 q); [done|by do 2 apply chain_env|done|done|lia|lia|exact He1|lia|].
    change (dir_entries v (set_env e1 (set_env e0 s)) cs) with (dir_entries v s cs). rewrite Z.sub_0_r.
    destruct (listing (dir_entries v s cs) !! Z.to_nat index) as [x|] eqn:Ex.
    - intros q2 e2 Hq2 He2. apply (HQ q2 e2); [done|].
      by replace (r - csize s - 260) with (r - (csize s + 64) - 196) by lia.
    - intros e2 He2. by apply (HQ e2). }
  wp_step. apply wp_when; intros Hidx.
  - eapply wp_readdir_debug; [unfold is_u32; lia|unfold is_u32; lia|exact Hr|]. exact Hrest.
  - specialize (Hrest (env s) Hr). by destruct s.
Qed.

Lemma length_short_name n : (length (short_name n) ≤ 12)%nat.
Proof.
  unfold short_name. rewrite length_app. pose proof (length_filter (λ c, c ≠ 32) (take 8 n)) as L1.
  pose proof (length_filter (λ c, c ≠ 32) (take 3 (drop 8 n))) as L2. rewrite length_take in L1, L2.
  case_bool_decide; cbn [length]; lia.
Qed.

Lemma boot_sector v : vol_wf v → ∃ b, bpb_at (v_sector v 0) = Some b.
Proof.
  intros [_ Hv]. destruct (Hv 0) as [Hlen _]. unfold bpb_at.
  destruct (Z.leb_spec 90 (Z.of_nat (length (v_sector v 0)))); [by eexists|lia].
Qed.

(** The layout of a volume, from its boot sector. *)
Definition laid_out {E} (b : fat_bpb) (s : fs E) : fs E :=
  set_layout (reserved_sectors b) (reserved_sectors b +w num_fats b *w fat_size_32 b) (bpb_root_cluster b) (set_bpb b s).

Definition root_node (b : fat_bpb) : fs_node :=
  mkNode None None None None (Some FS_DIRECTORY) (Some (bpb_root_cluster b)) None None
    None None None None (Some (Some fat32_readdir_fn)) (Some (Some fat32_finddir_fn)) None.

(** Mounting. *)
Lemma wp_fat32_init {E} `{FatEnvOk E} v b (s : fs E) r (Q : unit → fs E → Prop) :
  vol_wf v → 1 ≤ v_sectors v → fe_ready v (env s) [] r → 640 ≤ r → bpb_at (v_sector v 0) = Some b →
  (if (bytes_per_sector b =? 0) || (sectors_per_cluster b =? 0) || (fat_size_32 b =? 0) || (num_fats b =? 0)
   then ∀ e, fe_ready v e [] r → Q tt (set_env e (set_bpb b s))
   else ∀ p e, p ≠ 0 → fe_ready v e [(p, r)] (r - 248) →
     Q tt (set_env e (set_node p (root_node b) (set_root p (laid_out b s))))) →
  wp fat32_init s Q.
Proof.
  intros [Hvs Hvw] Hsec Hr Hroom Hb HQ. unfold fat32_init. wp_step.
  eapply wp_log; [exact Hr|holds_lit|apply str_bytes|]. intros e1 He1. wp_step.
  eapply wp_malloc; [exact He1|lia|lia|]. intros p e2 Hp He2. wp_step.
  eapply wp_sectors_into; [done|exact He2|lia|lia|lia|done|]. intros e3 He3. cbn [negb].
  rewrite seqZ_one. cbn [fmap list_fmap concat]. rewrite app_nil_r. wp_step. eapply wp_expect; [exact Hb|].
  wp_step. wp_step. wp_step. eapply wp_free; [exact He3|]. intros e4 He4.
  destruct ((bytes_per_sector b =? 0) || (sectors_per_cluster b =? 0)); cbn [orb] in HQ.
  { eapply wp_log; [exact He4|holds_lit|apply str_bytes|]. intros e5 He5. by apply HQ. }
  destruct ((fat_size_32 b =? 0) || (num_fats b =? 0)).
  { eapply wp_log; [exact He4|holds_lit|apply str_bytes|]. intros e5 He5. by apply HQ. }
  wp_step. wp_step. wp_step. eapply wp_log; [exact He4|holds_lit|apply str_bytes|]. intros e5 He5. wp_step.
  eapply wp_malloc; [exact He5|lia|lia|]. intros q e6 Hq He6. wp_step. wp_step.
  destruct (Z.eqb_spec q 0); [done|]. wp_step. by apply HQ.
Qed.

(** ** Properties *)

(** C31. Reading a file: for a node whose first cluster starts a chain of the volume,
    [fat32_read] returns and gives the bytes of the clusters of the chain from the offset on,
    at most [size] of them, in the caller's buffer, and their number; it does not write
    beyond them, and every block it took from the heap is released.  (The length recorded in
    the directory entry plays no part: the slack after the end of a file is read too.) *)
Theorem fat32_read_spec {E} `{FatEnvOk E} v fuel p n c cs offset size buf (s : fs E) r :
  mounted v s → nodes s !! p = Some n → n_inode n = Some c → chain v s c cs → (length cs ≤ fuel)%nat →
  is_u32 offset → is_u32 size → size ≤ Z.of_nat (length buf) → Z.of_nat (length buf) < 4294967296 →
  fe_ready v (env s) [] r → csize s + 640 ≤ r →
  wp (fat32_read fuel p offset size) (buf, s) (λ k t,
    let data := take (Z.to_nat size) (drop (Z.to_nat offset) (contents v s cs)) in
    k = Z.of_nat (length data) ∧ t.1 = data ++ drop (length data) buf ∧
    ∃ e, t.2 = set_env e s ∧ fe_ready v e [] r).
Proof. apply wp_fat32_read. Qed.

(** Listing a directory: the [index]th call gives a fresh entry with the name and the first
    cluster of the [index]th visible entry before the end marker, following the chain of the
    directory, and a null pointer when there are fewer; the buffer is released either way, and
    releasing the entry brings the heap back to what it was. *)
Theorem fat32_readdir_spec {E} `{FatEnvOk E} v fuel p n c cs index (s : fs E) r :
  mounted v s → nodes s !! p = Some n → n_inode n = Some c → chain v s c cs → (length cs < fuel)%nat →
  0 ≤ index < 4294963200 → fe_ready v (env s) [] r → csize s + 640 ≤ r →
  wp (fat32_readdir fuel p index) s (λ q t,
    match listing (dir_entries v s cs) !! Z.to_nat index with
    | Some e => q ≠ 0 ∧ dirents t !! q = Some (mkDirent (short_name (e_name e)) (first_cluster e)) ∧
                (length (short_name (e_name e)) ≤ 12)%nat ∧ fe_ready v (env t) [(q, r)] (r - csize s - 260)
    | None => q = 0 ∧ dirents t = dirents s ∧ fe_ready v (env t) [] r
    end ∧ nodes t = nodes s ∧ bpb t = bpb s).
Proof.
  intros Hm Hp Hn Hch Hf Hi Hr Hroom. apply (wp_fat32_readdir v fuel p n c cs index s [] r); [done..|].
  destruct (listing (dir_entries v s cs) !! Z.to_nat index) as [x|].
  - intros q e Hq He. cbn. split_and!; [done|by rewrite lookup_insert_eq|apply length_short_name|done|done|done].
  - intros e He. by split_and!.
Qed.

(** Looking up a name in a directory: the first visible entry before the end marker whose
    8.3 name is the given string gives a fresh node with its first cluster, its length, its
    kind and the callbacks of that kind; without such an entry the result is a null pointer. *)
Theorem fat32_finddir_spec {E} `{FatEnvOk E} v fuel p n c cs name txt (s : fs E) r :
  mounted v s → nodes s !! p = Some n → n_inode n = Some c → chain v s c cs → (length cs < fuel)%nat →
  holds name txt → fe_ready v (env s) [] r → csize s + 640 ≤ r →
  wp (fat32_finddir fuel p name) s (λ q t,
    match head (filter (named txt) (listing (dir_entries v s cs))) with
    | Some e => q ≠ 0 ∧ nodes t = <[q := entry_node e]> (nodes s) ∧ fe_ready v (env t) [(q, r)] (r - csize s - 312)
    | None => q = 0 ∧ nodes t = nodes s ∧ fe_ready v (env t) [] r
    end ∧ dirents t = dirents s ∧ bpb t = bpb s).
Proof.
  intros Hm Hp Hn Hch Hf Hname Hr Hroom.
  apply (wp_fat32_finddir v fuel p n c cs name txt s [] r); [done..|].
  destruct (head (filter (named txt) (listing (dir_entries v s cs)))); intros; by split_and!.
Qed.

(** Mounting: the boot sector alone decides.  When a number that is later divided by or
    multiplied with is 0 the volume is refused and nothing is mounted; otherwise the layout
    is computed from it, at 32 bits, and the root directory is a fresh node with its first
    cluster and the callbacks of a directory. *)
Theorem fat32_init_spec {E} `{FatEnvOk E} v (s : fs E) r :
  vol_wf v → 1 ≤ v_sectors v → fe_ready v (env s) [] r → 640 ≤ r →
  ∃ b, bpb_at (v_sector v 0) = Some b ∧
  wp fat32_init s (λ _ t, bpb t = b ∧
    if (bytes_per_sector b =? 0) || (sectors_per_cluster b =? 0) || (fat_size_32 b =? 0) || (num_fats b =? 0)
    then fs_root t = fs_root s ∧ nodes t = nodes s ∧ fe_ready v (env t) [] r
    else fat_start_sector t = reserved_sectors b ∧
         data_start_sector t = w32 (reserved_sectors b + num_fats b * fat_size_32 b) ∧
         fs_root t ≠ 0 ∧ fe_ready v (env t) [(fs_root t, r)] (r - 248) ∧
         ∃ n, nodes t = <[fs_root t := n]> (nodes s) ∧ n_inode n = Some (bpb_root_cluster b) ∧
              n_flags n = Some FS_DIRECTORY ∧ n_readdir n = Some (Some fat32_readdir_fn) ∧
              n_finddir n = Some (Some fat32_finddir_fn)).
Proof.
  intros Hv Hsec Hr Hroom. destruct (boot_sector v Hv) as [b Hb]. exists b. split; [done|].
  apply (wp_fat32_init v b s r); [done..|].
  destruct (_ || _ || _ || _); intros; (split; [done|]); cbn; [by split_and!|].
  split_and!; [done|by rewrite w32_add_r|done|done|]. eexists. by split_and!.
Qed.

(** The switch on the nodes this file system makes: reading a file and listing or searching
    a directory go to FAT32, listing or searching a file gives nothing; every other
    operation on such a node reads a callback nobody has written. *)
Theorem vfs_fat_nodes {E} `{FatEnv E} fuel (s : fs E) p e buf offset size index name :
  nodes s !! p = Some (entry_node e) →
  (if truth (Z.land (e_attr e) ATTR_DIRECTORY) then
     vfs_readdir node_at (run_readdir fuel) p index s = fat32_readdir fuel p index s ∧
     vfs_finddir node_at (run_finddir fuel) p name s = fat32_finddir fuel p name s ∧
     vfs_read node_at (run_read fuel) p offset size (buf, s) = Undef
   else
     vfs_read node_at (run_read fuel) p offset size (buf, s) = fat32_read fuel p offset size (buf, s) ∧
     vfs_readdir node_at (run_readdir fuel) p index s = Ret 0 s ∧
     vfs_finddir node_at (run_finddir fuel) p name s = Ret 0 s) ∧
  vfs_write node_at (run_read fuel) p offset size (buf, s) = Undef ∧
  vfs_open node_at (λ _ _, skip) p s = Undef ∧ vfs_close node_at (λ _ _, skip) p s = Undef.
Proof.
  intros Hp. assert (Hat : node_at p s = Ret (entry_node e) s) by (unfold node_at, bind, gets; by rewrite Hp).
  unfold vfs_readdir, vfs_finddir, vfs_read, vfs_write, vfs_open, vfs_close, directory_callback, beside, zoom, bind.
  cbn [snd fst]. rewrite !Hat. unfold entry_node.
  destruct (truth (Z.land (e_attr e) ATTR_DIRECTORY)); cbn; by split_and!.
Qed.

(** ** A volume and an allocator for the examples *)

Record sandbox := mkSandbox {
  sb_volume : volume;
  sb_room : Z;
  sb_held : list (Z * Z);
  sb_next : Z
}.

(** A volume of 64 sectors with one sector per cluster: the table is sector 1, the data
    begin at sector 2, the root directory is cluster 2 and has one file, A.TXT, in the
    clusters 3 and 4. *)
Definition boot_demo : list Z :=
  replicate 11 0 ++ [0; 2; 1; 1; 0; 1] ++ replicate 19 0 ++ [1; 0; 0; 0] ++ replicate 4 0 ++ [2; 0; 0; 0] ++ replicate 464 0.

Definition fat_demo : list Z :=
  replicate 8 0 ++ [255; 255; 255; 15] ++ [4; 0; 0; 0] ++ [255; 255; 255; 15] ++ replicate 492 0.

Definition root_demo : list Z :=
  str "A       TXT" ++ replicate 15 0 ++ [3; 0] ++ [88; 2; 0; 0] ++ replicate 480 0.

Definition volume_demo : volume :=
  mkVolume 64 (λ i, if i =? 0 then boot_demo else if i =? 1 then fat_demo else if i =? 2 then root_demo
                    else if i =? 3 then replicate 512 65 else replicate 512 66).

#[global] Instance sandbox_env : FatEnv sandbox := {|
  fe_malloc n := λ e,
    if n + 64 <=? sb_room e
    then Ret (sb_next e) (mkSandbox (sb_volume e) (sb_room e - (n + 64)) ((sb_next e, sb_room e) :: sb_held e) (sb_next e + 1))
    else Ret 0 e;
  fe_free p := λ e,
    match sb_held e with
    | (q, r0) :: held =>
        if q =? p then Ret tt (mkSandbox (sb_volume e) r0 held (sb_next e)) else
        match held with
        | (p', r1) :: held => if p' =? p then Ret tt (mkSandbox (sb_volume e) (sb_room e) ((q, r1) :: held) (sb_next e)) else Undef
        | [] => Undef
        end
    | [] => Undef
    end;
  fe_read lba count := λ s,
    Ret true (concat (v_sector (sb_volume s.2) <$> seqZ lba count) ++ drop (512 * Z.to_nat count) s.1, s.2);
  fe_log msg := skip
|}.

#[global] Program Instance sandbox_ok : FatEnvOk sandbox := {|
  fe_ready v e held r := sb_volume e = v ∧ (∃ rest, sb_held e = held ++ rest) ∧ sb_room e = r ∧ 0 < sb_next e ∧
    NoDup ((sb_held e).*1) ∧ Forall (λ p, p < sb_next e) ((sb_held e).*1)
|}.
Next Obligation.
  intros v e held r n (Hv & [rest Hh] & Hr & Hn & Hd & Hf) Hn0 Hroom. unfold wp. cbn.
  destruct (Z.leb_spec (n + 64) (sb_room e)); [|lia]. cbn. split; [lia|]. rewrite Hr.
  split_and!; [done|exists rest; by rewrite Hh|done|lia| |].
  - constructor; [|done]. intros Hx. rewrite Forall_forall in Hf. specialize (Hf _ Hx). lia.
  - constructor; [lia|]. eapply Forall_impl; [exact Hf|]. intros x Hx. cbn in *. lia.
Qed.
Next Obligation.
  intros v e p r0 held r (Hv & [rest Hh] & Hr & Hn & Hd & Hf). unfold wp. cbn. rewrite Hh in *. cbn in *. rewrite Z.eqb_refl.
  apply NoDup_cons in Hd as [_ Hd]. apply Forall_cons in Hf as [_ Hf]. cbn. split_and!; eauto.
Qed.
Next Obligation.
  intros v e q rq p rp held r (Hv & [rest Hh] & Hr & Hn & Hd & Hf). unfold wp. cbn. rewrite Hh in *. cbn in *.
  apply NoDup_cons in Hd as [Hq Hd]. destruct (Z.eqb_spec q p) as [->|]; [set_solver|]. rewrite Z.eqb_refl.
  apply NoDup_cons in Hd as [_ Hd]. apply Forall_cons in Hf as [Hf1 Hf]. apply Forall_cons in Hf as [_ Hf]. cbn.
  split_and!; [done|by exists rest|done|done|constructor; set_solver|by constructor].
Qed.
Next Obligation. intros v e held r (Hv & [rest Hh] & Hrest). split; [done|]. split; [by eexists|done]. Qed.
Next Obligation. intros v e held r lba count b (<- & Hr) H1 H2 H3 H4. split; [reflexivity|]. split; [reflexivity|]. by split. Qed.
Next Obligation. done. Qed.

Definition fs_demo : fs sandbox :=
  mkFs (default (mkBpb [] [] 0 0 0 0 0 0 0 0 0 0 0 0 0 0 0 0 0 0 [] 0 0 0 0 [] []) (bpb_at boot_demo)) 1 2 2 5
    {[ 5 := mkNode None None None None (Some FS_DIRECTORY) (Some 2) None None None None None None
         (Some (Some fat32_readdir_fn)) (Some (Some fat32_finddir_fn)) None;
       6 := entry_node (default (mkEntry [] 0 0 0 0 0 0 0 0 0 0 0) (entry_at root_demo 0)) ]} ∅
    (mkSandbox volume_demo 10000 [] 10).

Lemma volume_demo_wf : vol_wf volume_demo.
Proof.
  split; [done|]. intros i. unfold volume_demo. cbn [v_sector].
  repeat case_match; (split; [reflexivity|apply bytes_checked; vm_compute; reflexivity]).
Qed.

Lemma fs_demo_mounted : mounted volume_demo fs_demo.
Proof. split_and!; [apply volume_demo_wf|done|vm_compute; congruence|done|vm_compute; congruence|vm_compute; congruence]. Qed.

Lemma fs_demo_ready : fe_ready volume_demo (env fs_demo) [] 10000.
Proof. split_and!; [done|by exists []|done|done|constructor|constructor]. Qed.

Lemma file_chain_demo : chain volume_demo fs_demo 3 [3; 4].
Proof.
  apply chain_next; [split_and!; vm_compute; congruence|done|].
  change (fat_entry volume_demo fs_demo 3) with 4.
  apply chain_last; [split_and!; vm_compute; congruence|vm_compute; congruence].
Qed.

Lemma root_chain_demo : chain volume_demo fs_demo 2 [2].
Proof. apply chain_last; [split_and!; vm_compute; congruence|vm_compute; congruence]. Qed.

(** ** The properties at concrete inputs *)

Lemma fat32_read_spec_witness :
  wp (fat32_read 3 6 510 4) (replicate 4 0, fs_demo) (λ k t, k = 4 ∧ t.1 = [65; 65; 66; 66]).
Proof.
  pose proof (fat32_read_spec volume_demo 3 6 _ 3 [3; 4] 510 4 (replicate 4 0) fs_demo 10000 fs_demo_mounted
    eq_refl eq_refl file_chain_demo ltac:(cbn; lia) ltac:(unfold is_u32; lia) ltac:(unfold is_u32; lia)
    ltac:(cbn; lia) ltac:(cbn; lia) fs_demo_ready ltac:(vm_compute; congruence)) as Hw.
  eapply wp_mono; [exact Hw|]. cbv zeta. intros k t (Hk & Ht & _). split; [exact Hk|exact Ht].
Defined.

Lemma fat32_readdir_spec_witness :
  wp (fat32_readdir 3 5 0) fs_demo (λ q t, dirents t !! q = Some (mkDirent (str "A.TXT") 3)).
Proof.
  pose proof (fat32_readdir_spec volume_demo 3 5 _ 2 [2] 0 fs_demo 10000 fs_demo_mounted
    eq_refl eq_refl root_chain_demo ltac:(cbn; lia) ltac:(lia) fs_demo_ready ltac:(vm_compute; congruence)) as Hw.
  replace (listing (dir_entries volume_demo fs_demo [2]) !! Z.to_nat 0)
    with (Some (default (mkEntry [] 0 0 0 0 0 0 0 0 0 0 0) (entry_at root_demo 0))) in Hw by (vm_compute; reflexivity).
  eapply wp_mono; [exact Hw|]. intros q t ((_ & Hd & _) & _). exact Hd.
Defined.

Lemma fat32_finddir_spec_witness :
  wp (fat32_finddir 3 5 (lit "A.TXT")) fs_demo (λ q t, q ≠ 0) ∧
  wp (fat32_finddir 3 5 (lit "B.TXT")) fs_demo (λ q t, q = 0).
Proof.
  assert (H1 : holds (lit "A.TXT") (str "A.TXT")) by (apply lit_holds; vm_compute; set_solver).
  assert (H2 : holds (lit "B.TXT") (str "B.TXT")) by (apply lit_holds; vm_compute; set_solver).
  pose proof (λ name txt H, fat32_finddir_spec volume_demo 3 5 _ 2 [2] name txt fs_demo 10000 fs_demo_mounted
    eq_refl eq_refl root_chain_demo ltac:(cbn; lia) H fs_demo_ready ltac:(vm_compute; congruence)) as Hw.
  split.
  - specialize (Hw _ _ H1).
    replace (head (filter (named (str "A.TXT")) (listing (dir_entries volume_demo fs_demo [2]))))
      with (Some (default (mkEntry [] 0 0 0 0 0 0 0 0 0 0 0) (entry_at root_demo 0))) in Hw by (vm_compute; reflexivity).
    eapply wp_mono; [exact Hw|]. intros q t ((Hq & _) & _). exact Hq.
  - specialize (Hw _ _ H2).
    replace (head (filter (named (str "B.TXT")) (listing (dir_entries volume_demo fs_demo [2]))))
      with (@None fat_dir_entry) in Hw by (vm_compute; reflexivity).
    eapply wp_mono; [exact Hw|]. intros q t ((Hq & _) & _). exact Hq.
Defined.

Lemma fat32_init_spec_witness :
  wp fat32_init fs_demo (λ _ t, fat_start_sector t = 1 ∧ data_start_sector t = 2 ∧ fs_root t ≠ 0).
Proof.
  destruct (fat32_init_spec volume_demo fs_demo 10000 volume_demo_wf ltac:(vm_compute; congruence) fs_demo_ready ltac:(lia))
    as (b & Hb & Hw).
  assert (Hb' : Some b = bpb_at boot_demo) by (symmetry; exact Hb). vm_compute in Hb'. injection Hb' as ->.
  eapply wp_mono; [exact Hw|]. intros u t (_ & Ht). cbn in Ht. destruct Ht as (H1 & H2 & H3 & _).
  split; [exact H1|]. split; [exact H2|exact H3].
Defined.

Lemma vfs_fat_nodes_witness :
  vfs_write node_at (run_read 3) 6 0 4 ([], fs_demo) = Undef.
Proof.
  destruct (vfs_fat_nodes 3 fs_demo 6 (default (mkEntry [] 0 0 0 0 0 0 0 0 0 0 0) (entry_at root_demo 0))
    [] 0 4 0 [] eq_refl) as (_ & Hw & _). exact Hw.
Defined.
