(* ===== verification/Gdt.v ===== *)
(** * Segments and the task state (src/src/gdt.c, src/src/gdt.h)

    The global descriptor table and the task-state segment, with what the processor reads
    out of a descriptor. *)

From S2P Require Import Prelude.

(** ** Data *)

Definition GDT_ENTRIES : Z := 6.

Record gdt_entry := mkDescr {
  g_limit_low : Z;
  g_base_low : Z;
  g_base_middle : Z;
  g_access : Z;
  g_granularity : Z;
  g_base_high : Z
}.

Record tss_entry_struct := mkTss {
  prev_tss : Z;
  tss_esp0 : Z;
  tss_ss0 : Z;
  tss_esp1 : Z;
  tss_ss1 : Z;
  tss_esp2 : Z;
  tss_ss2 : Z;
  tss_cr3 : Z;
  tss_eip : Z;
  tss_eflags : Z;
  tss_eax : Z;
  tss_ecx : Z;
  tss_edx : Z;
  tss_ebx : Z;
  tss_esp : Z;
  tss_ebp : Z;
  tss_esi : Z;
  tss_edi : Z;
  tss_es : Z;
  tss_cs : Z;
  tss_ss : Z;
  tss_ds : Z;
  tss_fs : Z;
  tss_gs : Z;
  tss_ldt : Z;
  tss_trap : Z;
  tss_iomap_base : Z
}.

(** [sizeof(tss_entry)]: 25 words and two halves. *)
Definition TSS_SIZE : Z := 104.

Record gdt_ptr := mkGdtPtr { gp_limit : Z; gp_base : Z }.

(** Addresses of the table and of the task state, fixed by the linker. *)
Class GdtAddresses := {
  gdt_address : Z;
  tss_address : Z
}.

(** Static variables of gdt.c, and the two registers of the processor. *)
Record seg_state := mkSegState {
  gdt : list gdt_entry;
  gp : gdt_ptr;
  tss_entry : tss_entry_struct;
  gdtr : option gdt_ptr;
  task_register : option Z
}.

Definition set_gdt (t : list gdt_entry) (s : seg_state) : seg_state :=
  mkSegState t (gp s) (tss_entry s) (gdtr s) (task_register s).

Definition set_tss (t : tss_entry_struct) (s : seg_state) : seg_state :=
  mkSegState (gdt s) (gp s) t (gdtr s) (task_register s).

(** ** Operations *)

(** The entry [gdt_set_gate] writes. *)
Definition descriptor (base limit acc gran : Z) : gdt_entry :=
  mkDescr (Z.land limit 0xFFFF) (Z.land base 0xFFFF) (Z.land (Z.shiftr base 16) 0xFF) acc
    (Z.lor (Z.land (Z.shiftr limit 16) 0x0F) (Z.land gran 0xF0)) (Z.land (Z.shiftr base 24) 0xFF).

Definition gdt_set_gate (num base limit acc gran : Z) : M seg_state unit :=
  t ← gets gdt;
  if in_range t num then modify (set_gdt (arr_set t num (descriptor base limit acc gran))) else undef.

(** A task state of zeros but for the fields [write_tss] sets after clearing it. *)
Definition fresh_tss (ss0 esp0 : Z) : tss_entry_struct :=
  mkTss 0 esp0 ss0 0 0 0 0 0 0 0 0 0 0 0 0 0 0 0 0x13 0x0b 0x13 0x13 0x13 0x13 0 0 0.

Section gdt.
Context `{GdtAddresses}.

Definition write_tss (num ss0 esp0 : Z) : M seg_state unit :=
  let base := tss_address in
  let limit := base +w TSS_SIZE in
  gdt_set_gate num base limit 0xE9 0x00;;
  modify (set_tss (fresh_tss ss0 esp0)).

Definition gdt_init : M seg_state unit :=
  modify (λ s, mkSegState (gdt s) (mkGdtPtr (8 * GDT_ENTRIES - 1) gdt_address) (tss_entry s) (gdtr s) (task_register s));;
  gdt_set_gate 0 0 0 0 0;;
  gdt_set_gate 1 0 0xFFFFFFFF 0x9A 0xCF;;
  gdt_set_gate 2 0 0xFFFFFFFF 0x92 0xCF;;
  gdt_set_gate 3 0 0xFFFFFFFF 0xFA 0xCF;;
  gdt_set_gate 4 0 0xFFFFFFFF 0xF2 0xCF;;
  write_tss 5 0x10 0x0;;
  modify (λ s, mkSegState (gdt s) (gp s) (tss_entry s) (Some (gp s)) (task_register s));;
  modify (λ s, mkSegState (gdt s) (gp s) (tss_entry s) (gdtr s) (Some 0x2B)).

End gdt.

(** ** What the processor reads *)

Definition seg_base (d : gdt_entry) : Z := g_base_low d + 65536 * g_base_middle d + 16777216 * g_base_high d.

(** The raw limit, and the last byte of the segment: in units of 4 KB with bit 7 of the
    g_granularity. *)
Definition seg_limit20 (d : gdt_entry) : Z := g_limit_low d + 65536 * (g_granularity d mod 16).

Definition seg_last (d : gdt_entry) : Z :=
  if Z.testbit (g_granularity d) 7 then 4096 * seg_limit20 d + 4095 else seg_limit20 d.

Definition seg_present (d : gdt_entry) : bool := Z.testbit (g_access d) 7.

Definition seg_dpl (d : gdt_entry) : Z := (g_access d / 32) mod 4.

Definition seg_code (d : gdt_entry) : bool := Z.testbit (g_access d) 3.

(** The table index and the privilege of a selector. *)
Definition sel_index (sel : Z) : Z := sel / 8.

Definition sel_rpl (sel : Z) : Z := sel mod 4.

(** ** Lemmas *)

Lemma land_mask x n : 0 ≤ n → Z.land x (Z.ones n) = x mod 2 ^ n.
Proof. intros. by apply Z.land_ones. Qed.

(** Low and high half of the g_granularity byte. *)
Lemma granularity_parts l g :
  0 ≤ g < 256 → let b := Z.lor (Z.land l 0x0F) (Z.land g 0xF0) in b mod 16 = l mod 16 ∧ Z.testbit b 7 = Z.testbit g 7.
Proof.
  intros Hg b. split.
  - apply Z.bits_inj'. intros k Hk. change 16 with (2 ^ 4). destruct (Z.lt_ge_cases k 4).
    + rewrite !Z.mod_pow2_bits_low by lia. unfold b. rewrite Z.lor_spec, !Z.land_spec.
      change 0x0F with (Z.ones 4). rewrite Z.ones_spec_low by lia.
      replace (Z.testbit 0xF0 k) with false; [by rewrite andb_true_r, andb_false_r, orb_false_r|].
      assert (k = 0 ∨ k = 1 ∨ k = 2 ∨ k = 3) as [-> | [-> | [-> | ->]]] by lia; done.
    + by rewrite !Z.mod_pow2_bits_high by lia.
  - unfold b. rewrite Z.lor_spec, !Z.land_spec. change (Z.testbit 0x0F 7) with false.
    change (Z.testbit 0xF0 7) with true. by rewrite andb_false_r, andb_true_r.
Qed.

Lemma wp_gdt_set_gate num base limit acc gran s (Q : unit → seg_state → Prop) :
  0 ≤ num < Z.of_nat (length (gdt s)) →
  Q tt (set_gdt (arr_set (gdt s) num (descriptor base limit acc gran)) s) →
  wp (gdt_set_gate num base limit acc gran) s Q.
Proof.
  intros Hn HQ. unfold gdt_set_gate. wp_step. wp_step. by rewrite (proj2 (in_range_true _ _) Hn).
Qed.

Lemma descriptor_base base limit acc gran : is_u32 base → seg_base (descriptor base limit acc gran) = base.
Proof.
  intros Hb. unfold seg_base, descriptor. cbn [g_base_low g_base_middle g_base_high].
  change 0xFFFF with (Z.ones 16). change 0xFF with (Z.ones 8). rewrite !land_mask, !Z.shiftr_div_pow2 by lia.
  change (2 ^ 16) with 65536. change (2 ^ 8) with 256. change (2 ^ 24) with 16777216. mlia.
Qed.

Lemma descriptor_limit base limit acc gran :
  is_u32 limit → 0 ≤ gran < 256 → seg_limit20 (descriptor base limit acc gran) = limit mod 1048576.
Proof.
  intros Hl Hg. unfold seg_limit20, descriptor. cbn [g_limit_low g_granularity].
  destruct (granularity_parts (Z.shiftr limit 16) gran Hg) as [-> _].
  change 0xFFFF with (Z.ones 16). rewrite land_mask, Z.shiftr_div_pow2 by lia. change (2 ^ 16) with 65536. mlia.
Qed.

(** ** Properties *)

(** A descriptor written by [gdt_set_gate] reads back: the processor finds the base, the
    low 20 bits of the limit and the g_access byte that were given, at every index of the
    table, and the other entries are kept; an index outside it is undefined. *)
Theorem gdt_set_gate_roundtrip num base limit acc gran s :
  length (gdt s) = 6%nat → is_u32 base → is_u32 limit → 0 ≤ gran < 256 →
  (0 ≤ num < 6 →
   wp (gdt_set_gate num base limit acc gran) s (λ _ s', ∃ d, arr_get (gdt s') num = Some d ∧
     seg_base d = base ∧ seg_limit20 d = limit mod 1048576 ∧ g_access d = acc ∧
     Z.testbit (g_granularity d) 7 = Z.testbit gran 7 ∧
     ∀ k, k ≠ num → arr_get (gdt s') k = arr_get (gdt s) k)) ∧
  (~ 0 ≤ num < 6 → gdt_set_gate num base limit acc gran s = Undef).
Proof.
  intros Hlen Hb Hl Hg. split.
  - intros Hn. apply wp_gdt_set_gate; [lia|]. exists (descriptor base limit acc gran). cbn [gdt set_gdt].
    split_and!; [by apply arr_get_set_eq; lia|by apply descriptor_base|by apply descriptor_limit|done| |].
    + unfold descriptor. cbn [g_granularity]. by destruct (granularity_parts (Z.shiftr limit 16) gran Hg) as [_ ->].
    + intros k Hk. by apply arr_get_set_ne.
  - intros Hn. unfold gdt_set_gate, bind, gets. destruct (in_range (gdt s) num) eqn:E; [|done].
    apply in_range_true in E. lia.
Qed.

(** The descriptors as the processor reads them, with [esp0] as the stack of the kernel in the
    task state. *)
Definition segments `{GdtAddresses} (esp0 : Z) (s : seg_state) : Prop :=
  length (gdt s) = 6%nat ∧ gdtr s = Some (mkGdtPtr 47 gdt_address) ∧ task_register s = Some 0x2B ∧
  tss_entry s = fresh_tss 0x10 esp0 ∧
  arr_get (gdt s) 0 = Some (mkDescr 0 0 0 0 0 0) ∧
  (∀ sel dpl code, (sel, dpl, code) ∈ [(0x08, 0, true); (0x10, 0, false); (0x1B, 3, true); (0x23, 3, false)] →
     ∃ d, arr_get (gdt s) (sel_index sel) = Some d ∧ seg_present d = true ∧ seg_base d = 0 ∧
       seg_last d = 4294967295 ∧ seg_dpl d = dpl ∧ seg_dpl d = sel_rpl sel ∧ seg_code d = code) ∧
  ∃ d, arr_get (gdt s) (sel_index 0x2B) = Some d ∧ seg_present d = true ∧ seg_base d = tss_address ∧
    seg_last d = (tss_address + 104) mod 1048576 ∧ g_access d = 0xE9.

(** The descriptor of the task state. *)
Lemma task_descriptor `{GdtAddresses} :
  is_u32 tss_address →
  let d := descriptor tss_address (tss_address +w TSS_SIZE) 0xE9 0x00 in
  seg_present d = true ∧ seg_base d = tss_address ∧ seg_last d = (tss_address + 104) mod 1048576 ∧ g_access d = 0xE9.
Proof.
  intros Ht. cbv zeta. split_and!; [done|by apply descriptor_base| |done].
  unfold seg_last. change (Z.testbit _ 7) with (Z.testbit (Z.lor (Z.land (Z.shiftr (tss_address +w TSS_SIZE) 16) 0x0F) (Z.land 0 0xF0)) 7).
  destruct (granularity_parts (Z.shiftr (tss_address +w TSS_SIZE) 16) 0 ltac:(lia)) as [_ ->]. cbn [Z.testbit].
  rewrite descriptor_limit by (apply w32_range || lia). unfold w32, TSS_SIZE. mlia.
Qed.

Lemma wp_gdt_init `{GdtAddresses} s :
  length (gdt s) = 6%nat → is_u32 tss_address → wp gdt_init s (λ _ s', segments 0 s').
Proof.
  intros Hlen Ht. destruct s as [t g ts gr tr]. cbn in Hlen.
  destruct t as [|a0 [|a1 [|a2 [|a3 [|a4 [|a5 [|]]]]]]]; try done. unfold gdt_init. wp_step. wp_step.
  do 5 (wp_step; apply wp_gdt_set_gate; [cbn [gdt set_gdt]; rewrite ?length_arr_set; cbn; lia|]). wp_step. unfold write_tss. cbv zeta. wp_step.
  apply wp_gdt_set_gate; [cbn [gdt set_gdt]; rewrite ?length_arr_set; cbn; lia|]. wp_steps. unfold segments.
  cbn [gdt set_gdt set_tss gdtr gp task_register tss_entry arr_set Z.leb Z.compare Z.to_nat Pos.to_nat Pos.iter_op Nat.add
    insert list_insert]. split_and!; [done|done|done|done|done| |].
  - intros sel dpl code Hin. repeat (apply elem_of_cons in Hin as [[= -> -> ->]|Hin]; [eexists; by split_and!|]).
    by apply elem_of_nil in Hin.
  - eexists. split; [reflexivity|]. by apply task_descriptor.
Qed.

(** The stack the processor takes when an interrupt arrives in user mode. *)
Lemma wp_write_tss `{GdtAddresses} esp0 top s :
  is_u32 tss_address → segments esp0 s → wp (write_tss 5 0x10 top) s (λ _ s', segments top s').
Proof.
  intros Ht (Hl & Hg & Hr & _ & H0 & Hsel & _). unfold write_tss. cbv zeta. wp_step.
  apply wp_gdt_set_gate; [lia|]. wp_step. unfold segments. cbn [gdt set_gdt set_tss gdtr task_register tss_entry].
  split_and!; [by rewrite length_arr_set|done|done|done|by rewrite arr_get_set_ne by done| |].
  - intros sel dpl code Hin. destruct (Hsel sel dpl code Hin) as (d & Hd & Hrest). exists d. split; [|done].
    rewrite arr_get_set_ne; [done|]. repeat (apply elem_of_cons in Hin as [[= -> -> ->]|Hin]; [done|]). by apply elem_of_nil in Hin.
  - change (sel_index 0x2B) with 5. eexists. split; [apply arr_get_set_eq; lia|]. by apply task_descriptor.
Qed.

(** After [gdt_init] the processor uses six descriptors: a null one, flat present code and
    data segments of 4 GB for the kernel and for user programs, and the task state at its
    address, selected by the task register; the selectors used elsewhere (0x08, 0x10, 0x1B,
    0x23, 0x2B) name them with the right privilege.  The limit of the task-state segment is
    computed from its end address instead of its size. *)
Theorem gdt_init_segments `{GdtAddresses} s :
  length (gdt s) = 6%nat → is_u32 tss_address → wp gdt_init s (λ _ s', segments 0 s').
Proof. apply wp_gdt_init. Qed.

(** ** The properties at concrete inputs *)

Definition seg_demo : seg_state :=
  mkSegState (replicate 6 (mkDescr 0 0 0 0 0 0)) (mkGdtPtr 0 0) (fresh_tss 0 0) None None.

Definition addresses_demo : GdtAddresses := {| gdt_address := 0x110000; tss_address := 0x110040 |}.

Lemma gdt_set_gate_roundtrip_witness :
  wp (gdt_set_gate 5 0x123456 0x68 0xE9 0) seg_demo (λ _ s', ∃ d, arr_get (gdt s') 5 = Some d ∧
    seg_base d = 0x123456 ∧ seg_limit20 d = 0x68).
Proof.
  eapply wp_mono; [exact (proj1 (gdt_set_gate_roundtrip 5 0x123456 0x68 0xE9 0 seg_demo eq_refl
    ltac:(unfold is_u32; lia) ltac:(unfold is_u32; lia) ltac:(lia)) ltac:(lia))|].
  intros u s' (d & H1 & H2 & H3 & _). exists d. split; [exact H1|]. split; [exact H2|exact H3].
Defined.

Lemma gdt_init_segments_witness :
  wp (@gdt_init addresses_demo) seg_demo (λ _ s', task_register s' = Some 0x2B).
Proof.
  eapply wp_mono; [exact (@gdt_init_segments addresses_demo seg_demo eq_refl ltac:(unfold is_u32; cbn; lia))|].
  intros u s' (_ & _ & Hr & _). exact Hr.
Defined.
