(* ===== verification/Syscalls.v ===== *)
(** * System calls (src/src/syscalls.c, src/src/syscalls.h)

    The handler of interrupt 0x80: reading a line from the keyboard into the memory of the
    caller, writing a string to the log, running a program, and leaving.  Memory is the
    bytes of the current address space; the program loader is a parameter here. *)

From S2P Require Import Prelude Pic Idt Timer Keyboard Console Login.

(** ** Data *)

Definition SYS_EXIT : Z := 1.
Definition SYS_READ : Z := 3.
Definition SYS_WRITE : Z := 4.
Definition SYS_EXEC : Z := 11.

Record sys (K : Type) := mkSys {
  mem : gmap Z Z;
  con : console K
}.

Arguments mkSys {K}.
Arguments mem {K}.
Arguments con {K}.

Definition in_con {K A} (m : M (console K) A) : M (sys K) A := zoom con (λ c s, mkSys (mem s) c) m.

(** [*p = c] for a byte. *)
Definition store8 {K} (p c : Z) : M (sys K) unit := modify (λ s, mkSys (<[w32 p := w8 c]> (mem s)) (con s)).

Definition load8 {K} (p : Z) : M (sys K) Z := gets (λ s, default 0 (mem s !! w32 p)).

(** The string at [p] with its NUL; [fuel] bounds its length. *)
Fixpoint string_at {K} (fuel : nat) (p : Z) : M (sys K) (list Z) :=
  match fuel with
  | O => no_fuel
  | S fuel =>
      c ← load8 p;
      if c =? 0 then ret [0] else l ← string_at fuel (p +w 1); ret (c :: l)
  end.

(** ** Operations *)

Section syscalls.
Context {K : Type} `{Device K} `{Input K}.
Context (polls fuel : nat).
Context (elf_exec : list Z → M (sys K) Z).

(** The endless loop of [hlt]s at the end never returns. *)
Definition sys_exit (code : Z) : M (sys K) unit :=
  in_con (log_info polls (lit "Process exited"));;
  halt.

(** The loop of [sys_read] at index [i]. *)
Fixpoint sys_read_loop (n : nat) (buffer max_len i : Z) : M (sys K) Z :=
  match n with
  | O => no_fuel
  | S n =>
      if i <? max_len - 1 then
        c ← in_con (on_input in_get_char);
        if c =? 10 then
          store8 (buffer + i) 0;;
          in_con (vga_put_char 10);;
          ret i
        else if c =? 8 then
          if 0 <? i then
            in_con (vga_put_char 8);;
            sys_read_loop n buffer max_len (i - 1)
          else sys_read_loop n buffer max_len i
        else
          store8 (buffer + i) c;;
          in_con (vga_put_char c);;
          sys_read_loop n buffer max_len (i + 1)
      else
        store8 (buffer + i) 0;;
        ret i
  end.

(** [max_len - 1] overflows at the least [int]. *)
Definition sys_read (buffer max_len : Z) : M (sys K) Z :=
  if max_len =? -2147483648 then undef else sys_read_loop fuel buffer max_len 0.

Definition sys_write (str : Z) : M (sys K) unit :=
  s ← string_at fuel str;
  in_con (log_info polls s).

Definition sys_exec (path : Z) : M (sys K) Z :=
  s ← string_at fuel path;
  elf_exec s.

(** The frame with a new [eax]. *)
Definition with_eax (v : Z) (r : registers) : registers :=
  mkRegs (rg_ds r) (rg_edi r) (rg_esi r) (rg_ebp r) (rg_esp r) (rg_ebx r) (rg_edx r) (rg_ecx r) v
    (int_no r) (err_code r) (rg_eip r) (rg_cs r) (rg_eflags r) (rg_useresp r) (rg_ss r).

Definition syscall_handler (regs : registers) : M (sys K) registers :=
  ret_ ← (if rg_eax regs =? SYS_EXIT then sys_exit (rg_ebx regs);; ret 0
          else if rg_eax regs =? SYS_READ then sys_read (rg_ebx regs) (s32 (rg_ecx regs))
          else if rg_eax regs =? SYS_WRITE then sys_write (rg_ebx regs);; ret 0
          else if rg_eax regs =? SYS_EXEC then sys_exec (rg_ebx regs)
          else in_con (log_info polls (lit "Unknown Syscall"));; ret (-1));
  ret (with_eax (w32 ret_) regs).

(** [syscall_init] on the console and the interrupt tables. *)
Definition syscall_init {D} `{Device D} (isr128 : Z) : M (console K * intr D) unit :=
  zoom fst (λ c s, (c, s.2)) (log_info polls (lit "Syscalls: Initializing..."));;
  zoom snd (λ i s, (s.1, i)) (
    in_handlers (register_interrupt_handler 0x80 syscall_handler_fn);;
    idt_set_gate 0x80 isr128 0x08 0xEE).

End syscalls.

(** ** Abstract view: a line editor without filter *)

(** What has been read when ENTER comes or the buffer is full, and the keys left. *)
Fixpoint sys_edit (max_len : Z) (line keys : list Z) : option (list Z * list Z) :=
  if Z.of_nat (length line) <? max_len - 1 then
    match keys with
    | [] => None
    | k :: keys =>
        if k =? 10 then Some (line, keys)
        else if k =? 8 then sys_edit max_len (removelast line) keys
        else sys_edit max_len (line ++ [k]) keys
    end
  else Some (line, keys).

(** A string in memory. *)
Definition in_memory (m : gmap Z Z) (p : Z) (l : list Z) : Prop :=
  ∀ i c, l !! i = Some c → m !! (p + Z.of_nat i) = Some c.

(** ** Lemmas *)

Lemma wp_in_con {K A} (m : M (console K) A) (s : sys K) (Q : A → sys K → Prop) :
  wp m (con s) (λ a c, Q a (mkSys (mem s) c)) → wp (in_con m) s Q.
Proof. intros Hw. unfold in_con. wp_step. exact Hw. Qed.

Section reading.
Context {K : Type} `{InputOk K}.

Lemma wp_key (s : sys K) c cs (Q : Z → sys K → Prop) :
  in_inv (machine (con s)) → typed_ahead (machine (con s)) = c :: cs →
  (∀ k, in_inv k → typed_ahead k = cs → Q c (mkSys (mem s) (set_machine k (con s)))) →
  wp (in_con (on_input in_get_char)) s Q.
Proof.
  intros Hi Ht HQ. apply wp_in_con. unfold on_input. wp_step. eapply wp_mono; [by apply in_get_char_ok|].
  intros ? k (-> & Hk & Hcs). by apply HQ.
Qed.

(** Echoing a character keeps the console in shape and its machine alone. *)
Lemma wp_echo ch (s : sys K) (Q : unit → sys K → Prop) :
  con_wf (con s) → (∀ c, con_wf c → machine c = machine (con s) → Q tt (mkSys (mem s) c)) →
  wp (in_con (vga_put_char ch)) s Q.
Proof.
  intros Hwf HQ. apply wp_in_con. apply wp_put_any; [done|]. intros c m Hc E. apply HQ; [done|]. by rewrite E.
Qed.

Lemma wp_sys_read_loop n buffer max_len line (s : sys K) out rest (Q : Z → sys K → Prop) :
  con_wf (con s) → in_inv (machine (con s)) → Forall (λ c, 0 ≤ c < 256) (typed_ahead (machine (con s))) →
  0 ≤ buffer → buffer + max_len ≤ 4294967296 → buffer + 1 ≤ 4294967296 →
  sys_edit max_len line (typed_ahead (machine (con s))) = Some (out, rest) →
  (length (typed_ahead (machine (con s))) < n)%nat → (line = [] ∨ Z.of_nat (length line) < max_len) →
  in_memory (mem s) buffer line →
  (∀ m c, con_wf c → in_inv (machine c) → typed_ahead (machine c) = rest → in_memory m buffer (out ++ [0]) →
     (∀ a, ~ buffer ≤ a < buffer + Z.max 1 max_len → m !! a = mem s !! a) →
     (out = [] ∨ Z.of_nat (length out) < max_len) → Q (Z.of_nat (length out)) (mkSys m c)) →
  wp (sys_read_loop n buffer max_len (Z.of_nat (length line))) s Q.
Proof.
  intros Hwf Hi Hb Hb0 Hbm Hb1. revert line s Hwf Hi Hb. induction n as [|n IH];
    intros line s Hwf Hi Hb He Hn Hline Hmem HQ; [lia|].
  cbn [sys_read_loop].
  assert (Hend : ∀ (s1 : sys K) (l : list Z), mem s1 = mem s → (l = [] ∨ Z.of_nat (length l) < max_len) →
    in_memory (mem s1) buffer l →
    in_memory (<[w32 (buffer + Z.of_nat (length l)) := w8 0]> (mem s1)) buffer (l ++ [0]) ∧
    ∀ a, ~ buffer ≤ a < buffer + Z.max 1 max_len →
      <[w32 (buffer + Z.of_nat (length l)) := w8 0]> (mem s1) !! a = mem s !! a).
  { intros s1 l E1 Hl Hm. assert (Z.of_nat (length l) < Z.max 1 max_len) by (destruct Hl as [->|]; cbn; lia).
    rewrite w32_small by (unfold is_u32; lia). split.
    - intros i x Hx. rewrite <- arr_get_nat, arr_get_snoc in Hx.
      destruct (Z.eqb_spec (Z.of_nat i) (Z.of_nat (length l))) as [E|Hne].
      + injection Hx as <-. rewrite E. by rewrite lookup_insert_eq.
      + rewrite lookup_insert_ne by lia. apply Hm. by rewrite <- arr_get_nat.
    - intros a Ha. rewrite lookup_insert_ne by lia. by rewrite E1. }
  assert (Hstep : sys_edit max_len line (typed_ahead (machine (con s))) =
    if Z.of_nat (length line) <? max_len - 1 then
      match typed_ahead (machine (con s)) with
      | [] => None
      | k :: keys => if k =? 10 then Some (line, keys)
          else if k =? 8 then sys_edit max_len (removelast line) keys else sys_edit max_len (line ++ [k]) keys
      end
    else Some (line, typed_ahead (machine (con s)))) by (by destruct (typed_ahead (machine (con s)))).
  rewrite He in Hstep. clear He.
  destruct (Z.ltb_spec (Z.of_nat (length line)) (max_len - 1)) as [Hlt|Hge].
  2:{ injection Hstep as -> ->. unfold store8. wp_step. wp_step. wp_step.
      destruct (Hend s line eq_refl Hline Hmem) as [H1 H2]. by apply HQ. }
  destruct (typed_ahead (machine (con s))) as [|c cs] eqn:Et; [done|]. apply Forall_cons in Hb as [Hc Hb].
  cbn [length] in Hn. wp_step. eapply wp_key; [done|exact Et|]. intros k Hk Hcs.
  set (s1 := mkSys (mem s) (set_machine k (con s))).
  assert (Hwf1 : con_wf (con s1)) by done.
  destruct (Z.eqb_spec c 10) as [->|Hn10].
  { injection Hstep as -> ->. unfold store8. wp_step. wp_step. wp_step. apply wp_echo; [done|]. intros c2 Hwf2 Hm2. wp_step.
    destruct (Hend s1 line eq_refl Hline Hmem) as [H1 H2]. cbn [mem].
    apply HQ; [done|by rewrite Hm2|by rewrite Hm2|done|done|done]. }
  destruct (Z.eqb_spec c 8) as [->|Hn8].
  - destruct line as [|x line _] using rev_ind.
    + change (0 <? Z.of_nat (length (@nil Z))) with false. cbv iota.
      apply IH; cbn [con s1 machine set_machine]; rewrite ?Hcs; [done|done|done|done|lia|by left|done|exact HQ].
    + rewrite removelast_last in Hstep. rewrite length_app in *. cbn [length] in *.
      destruct (Z.ltb_spec 0 (Z.of_nat (length line + 1))); [|lia]. wp_step. apply wp_echo; [done|]. intros c2 Hwf2 Hm2.
      replace (Z.of_nat (length line + 1) - 1) with (Z.of_nat (length line)) by lia.
      apply IH; cbn [con mem]; rewrite ?Hm2; cbn [s1 con machine set_machine]; rewrite ?Hcs;
        [done|done|done|done|lia|right; lia| |exact HQ].
      intros i y Hy. apply Hmem. by apply lookup_app_l_Some.
  - unfold store8. wp_step. wp_step. wp_step. apply wp_echo; [done|]. intros c2 Hwf2 Hm2. cbn [mem s1].
    replace (Z.of_nat (length line) + 1) with (Z.of_nat (length (line ++ [c]))) by (rewrite length_app; cbn; lia).
    rewrite w32_small by (unfold is_u32; lia). rewrite w8_small by done.
    apply IH; cbn [con mem]; rewrite ?Hm2; cbn [s1 con machine set_machine]; rewrite ?Hcs;
      [done|done|done|done|lia|right; rewrite length_app; cbn; lia| |].
    + intros i y Hy. rewrite <- arr_get_nat, arr_get_snoc in Hy.
      destruct (Z.eqb_spec (Z.of_nat i) (Z.of_nat (length line))) as [E|].
      * injection Hy as <-. rewrite E. by rewrite lookup_insert_eq.
      * rewrite lookup_insert_ne by lia. apply Hmem. by rewrite <- arr_get_nat.
    + intros m c3 H1 H2 H3 H4 H5 H6. apply HQ; [done..| |done]. intros a Ha. rewrite H5 by done.
      by rewrite lookup_insert_ne by lia.
Qed.

End reading.

(** A string read back from memory. *)
Lemma string_at_run {K} fuel p txt (s : sys K) :
  0 ≤ p → p + Z.of_nat (length txt) < 4294967296 → (0 ∉ txt) → in_memory (mem s) p (txt ++ [0]) →
  (length txt < fuel)%nat → string_at fuel p s = Ret (txt ++ [0]) s.
Proof.
  revert p fuel. induction txt as [|c txt IH]; intros p [|fuel] Hp Hl Hz Hm Hf; try (cbn in Hf; lia); cbn [string_at].
  - pose proof (Hm 0%nat 0 eq_refl) as H0. cbn in H0, Hl. rewrite Z.add_0_r in H0.
    unfold bind, load8, gets. rewrite w32_small by (unfold is_u32; lia). by rewrite H0.
  - pose proof (Hm 0%nat c eq_refl) as H0. cbn [length] in *. rewrite Z.add_0_r in H0.
    unfold bind at 1, load8, gets. rewrite w32_small by (unfold is_u32; lia). rewrite H0.
    change (default 0 (Some c)) with c.
    apply not_elem_of_cons in Hz as [Hc Hz]. destruct (Z.eqb_spec c 0) as [->|]; [done|].
    unfold bind. cbv beta iota. rewrite w32_small by (unfold is_u32; lia). rewrite IH; [done|lia|lia|done| |lia].
    intros i x Hx. replace (p + 1 + Z.of_nat i) with (p + Z.of_nat (S i)) by lia. by apply Hm.
Qed.

Lemma wp_string_at {K} fuel p txt (s : sys K) (Q : list Z → sys K → Prop) :
  0 ≤ p → p + Z.of_nat (length txt) < 4294967296 → (0 ∉ txt) → in_memory (mem s) p (txt ++ [0]) →
  (length txt < fuel)%nat → Q (txt ++ [0]) s → wp (string_at fuel p) s Q.
Proof. intros. unfold wp. by rewrite (string_at_run fuel p txt). Qed.

(** The log of a system call: one line on the serial port, the memory untouched. *)
Lemma wp_sys_log {K} `{UartDevice K} polls msg txt (s : sys K) (Q : unit → sys K → Prop) :
  con_wf (con s) → (uart_delay < polls)%nat → uart_ready (machine (con s)) →
  holds msg txt → loggable txt → Z.of_nat (length txt) ≤ 1920 →
  (∀ c, con_wf c → uart_ready (machine c) →
     u_sent (uart_of (machine c)) = u_sent (uart_of (machine (con s))) ++ str "[INFO] " ++ txt ++ [10] →
     Q tt (mkSys (mem s) c)) →
  wp (in_con (log_info polls msg)) s Q.
Proof.
  intros Hwf Hp Hr Hm Hl Hlen HQ. apply wp_in_con. eapply wp_mono; [apply (wp_log_info polls msg txt); try done; apply Hwf|].
  intros [] c (H1 & H2 & H3 & _). by apply HQ.
Qed.

Lemma lit_logs m : (0 ∉ str m) → loggable (str m) → holds (lit m) (str m) ∧ loggable (str m).
Proof. intros. split; [by apply lit_holds|done]. Qed.

(** What the machine of a system call has: a serial port that is up, and a screen. *)
Definition logging {K} `{UartDevice K} (polls : nat) (s : sys K) : Prop :=
  con_wf (con s) ∧ (uart_delay < polls)%nat ∧ uart_ready (machine (con s)).

(** The system call logged exactly [txt], and did nothing to memory. *)
Definition logged {K} `{UartDevice K} (txt : list Z) (s s' : sys K) : Prop :=
  mem s' = mem s ∧ con_wf (con s') ∧ uart_ready (machine (con s')) ∧
  u_sent (uart_of (machine (con s'))) = u_sent (uart_of (machine (con s))) ++ str "[INFO] " ++ txt ++ [10].

(** A NUL-terminated string of the caller. *)
Definition user_string (m : gmap Z Z) (p : Z) (txt : list Z) : Prop :=
  is_u32 p ∧ p + Z.of_nat (length txt) < 4294967296 ∧ (0 ∉ txt) ∧ in_memory m p (txt ++ [0]).

(** ** Properties *)

(** C34. Reading a line: system call 3 stores the edited line and its NUL at [ebx], never more
    than [ecx] bytes when [ecx] is positive and one byte otherwise, leaves the rest of memory
    alone, consumes exactly the keys of the line, and returns the length in [eax]. *)
Theorem sys_read_spec {K} `{Device K} `{InputOk K} polls fuel elf_exec regs (s : sys K) line rest :
  con_wf (con s) → in_inv (machine (con s)) → Forall (λ c, 0 ≤ c < 256) (typed_ahead (machine (con s))) →
  (length (typed_ahead (machine (con s))) < fuel)%nat →
  rg_eax regs = SYS_READ → 0 ≤ rg_ebx regs → rg_ebx regs + Z.max 1 (s32 (rg_ecx regs)) ≤ 4294967296 →
  s32 (rg_ecx regs) ≠ -2147483648 →
  sys_edit (s32 (rg_ecx regs)) [] (typed_ahead (machine (con s))) = Some (line, rest) →
  wp (syscall_handler polls fuel elf_exec regs) s (λ regs' s',
    regs' = with_eax (Z.of_nat (length line)) regs ∧
    in_memory (mem s') (rg_ebx regs) (line ++ [0]) ∧
    Z.of_nat (length line) + 1 ≤ Z.max 1 (s32 (rg_ecx regs)) ∧
    (∀ a, ~ rg_ebx regs ≤ a < rg_ebx regs + Z.max 1 (s32 (rg_ecx regs)) → mem s' !! a = mem s !! a) ∧
    con_wf (con s') ∧ in_inv (machine (con s')) ∧ typed_ahead (machine (con s')) = rest).
Proof.
  intros Hwf Hi Hb Hf He Hb0 Hm Hmin Hed. unfold syscall_handler. rewrite He.
  change (SYS_READ =? SYS_EXIT) with false. change (SYS_READ =? SYS_READ) with true. cbv iota. wp_step.
  unfold sys_read. destruct (Z.eqb_spec (s32 (rg_ecx regs)) (-2147483648)); [done|].
  apply (wp_sys_read_loop fuel _ _ []) with line rest; try done; try lia; [by left|].
  intros m c G1 G2 G3 G4 G5 G6. wp_step. cbn [mem con].
  assert (Z.of_nat (length line) + 1 ≤ Z.max 1 (s32 (rg_ecx regs))) by (destruct G6 as [->|]; cbn; lia).
  rewrite w32_small by (unfold is_u32; lia). by split_and!.
Qed.

(** C39. The other system calls: 4 logs the string at [ebx] and returns 0; 11 returns what
    the program loader returns for the string at [ebx]; 1 logs and never returns; any other
    number is logged and returns 0xFFFFFFFF.  No register but [eax] changes. *)
Theorem syscall_handler_spec {K} `{UartDevice K} `{Input K} polls fuel elf_exec regs (s : sys K) :
  logging polls s →
  (∀ txt, rg_eax regs = SYS_WRITE → user_string (mem s) (rg_ebx regs) txt → (length txt < fuel)%nat →
     loggable txt → Z.of_nat (length txt) ≤ 1920 →
     wp (syscall_handler polls fuel elf_exec regs) s (λ regs' s', regs' = with_eax 0 regs ∧ logged txt s s')) ∧
  (∀ txt Q, rg_eax regs = SYS_EXEC → user_string (mem s) (rg_ebx regs) txt → (length txt < fuel)%nat →
     wp (elf_exec (txt ++ [0])) s (λ v s', Q (with_eax (w32 v) regs) s') →
     wp (syscall_handler polls fuel elf_exec regs) s Q) ∧
  (rg_eax regs = SYS_EXIT →
     ∃ s', syscall_handler polls fuel elf_exec regs s = Halt s' ∧ logged (str "Process exited") s s') ∧
  (rg_eax regs ∉ [SYS_EXIT; SYS_READ; SYS_WRITE; SYS_EXEC] →
     wp (syscall_handler polls fuel elf_exec regs) s (λ regs' s',
       regs' = with_eax 0xFFFFFFFF regs ∧ logged (str "Unknown Syscall") s s')).
Proof.
  intros (Hwf & Hp & Hr). unfold syscall_handler. split_and!.
  - intros txt -> (Hu & Hl & Hz & Hm) Hf Hlog Hlen. change (SYS_WRITE =? SYS_EXIT) with false.
    change (SYS_WRITE =? SYS_READ) with false. change (SYS_WRITE =? SYS_WRITE) with true. cbv iota.
    wp_step. wp_step. unfold sys_write. wp_step.
    apply wp_string_at with txt; [apply Hu|done..|]. assert (holds (txt ++ [0]) txt) by (split; [done|by exists []]).
    by apply wp_sys_log with txt.
  - intros txt Q -> (Hu & Hl & Hz & Hm) Hf HQ. change (SYS_EXEC =? SYS_EXIT) with false.
    change (SYS_EXEC =? SYS_READ) with false. change (SYS_EXEC =? SYS_WRITE) with false.
    change (SYS_EXEC =? SYS_EXEC) with true. cbv iota.
    wp_step. unfold sys_exec. wp_step. apply wp_string_at with txt; [apply Hu|done..|].
    eapply wp_mono; [exact HQ|]. intros v s' Hv. wp_step. exact Hv.
  - intros ->. change (SYS_EXIT =? SYS_EXIT) with true. cbv iota. unfold sys_exit.
    assert (wp (in_con (log_info polls (lit "Process exited"))) s (λ _ s', logged (str "Process exited") s s')) as Hw.
    { apply wp_sys_log with (str "Process exited"); try done; [holds_lit|split; plain_lit]. }
    destruct (wp_ex _ _ _ Hw) as ([] & s' & E & Hs). exists s'. split; [|done]. unfold bind. by rewrite E.
  - intros Hn. repeat rewrite not_elem_of_cons in Hn. destruct Hn as (N1 & N2 & N3 & N4 & _).
    rewrite (proj2 (Z.eqb_neq _ _) N1), (proj2 (Z.eqb_neq _ _) N2), (proj2 (Z.eqb_neq _ _) N3), (proj2 (Z.eqb_neq _ _) N4).
    wp_step. wp_step. apply wp_sys_log with (str "Unknown Syscall"); try done; [holds_lit|split; plain_lit].
Qed.

(** [syscall_init] installs the handler at vector 0x80 behind a gate that user mode may
    enter: the kernel's code segment, present, privilege level 3, an interrupt gate; no other
    gate or handler changes. *)
Theorem syscall_init_spec {K} `{UartDevice K} {D} `{Device D} polls isr128 (c : console K) (i : intr D) :
  con_wf c → (uart_delay < polls)%nat → uart_ready (machine c) →
  length (idt i) = 256%nat → length (interrupt_handlers i) = 256%nat → is_u32 isr128 →
  wp (syscall_init polls isr128) (c, i) (λ _ s,
    let i' := s.2 in
    (∃ g, arr_get (idt i') 0x80 = Some g ∧ gate_base g = isr128 ∧ sel g = 0x08 ∧
       Z.testbit (gate_flags g) 7 = true ∧ Z.land (Z.shiftr (gate_flags g) 5) 3 = 3 ∧
       Z.land (gate_flags g) 0x1F = 0xE) ∧
    arr_get (interrupt_handlers i') 0x80 = Some (Some syscall_handler_fn) ∧
    (∀ n, n ≠ 0x80 → arr_get (idt i') n = arr_get (idt i) n ∧
       arr_get (interrupt_handlers i') n = arr_get (interrupt_handlers i) n) ∧
    idtr i' = idtr i ∧ dev i' = dev i).
Proof.
  intros Hwf Hp Hr Hl1 Hl2 Hu. unfold syscall_init. wp_step. wp_step. cbn [fst].
  eapply wp_mono; [apply (wp_log_info polls _ (str "Syscalls: Initializing...")); try done;
    [apply Hwf|holds_lit|split; plain_lit]|].
  intros [] c' _. wp_step. cbn [snd fst]. wp_step. unfold in_handlers. wp_step.
  unfold register_interrupt_handler. wp_step. wp_step. cbn [id].
  rewrite (proj2 (in_range_true _ 0x80)) by (unfold id; lia). wp_step. unfold idt_set_gate. wp_step. wp_step.
  cbn [idt set_interrupt_handlers]. rewrite (proj2 (in_range_true _ 0x80)) by lia. wp_step.
  cbn [idt interrupt_handlers set_idt set_interrupt_handlers idtr dev snd]. split_and!.
  - eexists. split; [by apply arr_get_set_eq; lia|]. by rewrite gate_base_id.
  - apply arr_get_set_eq. unfold id. lia.
  - intros n Hn. by rewrite !arr_get_set_ne by done.
  - done.
  - done.
Qed.

(** ** The properties at concrete inputs *)

(** A machine with a serial port and the keyboard and timer of Login.v. *)
Definition desk : Type := uart * inputs.

#[global] Instance desk_device : Device desk := {|
  dev_in port d := ((dev_in port d.1).1, ((dev_in port d.1).2, d.2));
  dev_out port v d := (dev_out port v d.1, d.2)
|}.

#[global] Program Instance desk_uart : UartDevice desk := {| uart_of d := d.1; uart_delay := 2%nat |}.
Next Obligation. intros port v k. exists 2%nat. done. Qed.
Next Obligation. intros [u i]. cbn. by destruct (u_busy u). Qed.

#[global] Instance desk_input : Input desk := {|
  in_get_char := zoom snd (λ i d, (d.1, i)) in_get_char;
  in_wait n := zoom snd (λ i d, (d.1, i)) (in_wait n)
|}.

#[global] Program Instance desk_input_ok : InputOk desk := {|
  in_inv d := in_inv d.2;
  typed_ahead d := typed_ahead d.2
|}.
Next Obligation. intros d c cs Hi Ht. apply wp_zoom. exact (in_get_char_ok d.2 c cs Hi Ht). Qed.
Next Obligation. intros n d Hi Hn Hl. apply wp_zoom. exact (in_wait_ok n d.2 Hi Hn Hl). Qed.

Definition frame_demo (eax ebx ecx : Z) : registers :=
  mkRegs 0x23 0 0 0 0 ebx 0 ecx eax 0x80 0 0x400000 0x1B 0x202 0xBFFFFF00 0x23.

(** The word "hi" at 0x1000, and the keys of [typing_demo] typed ahead. *)
Definition sys_demo : sys desk :=
  mkSys (<[0x1000 := 104]> (<[0x1001 := 105]> (<[0x1002 := 0]> ∅))) (console_demo (uart_demo, typing_demo)).

Definition no_loader : list Z → M (sys desk) Z := λ _, ret (-1).

Lemma sys_demo_logging : logging 5 sys_demo.
Proof. split; [split_and!; cbn; (done || lia)|]. split; [cbn; lia|]. split; cbn; (done || lia). Qed.

Lemma sys_demo_string : user_string (mem sys_demo) 0x1000 (str "hi").
Proof.
  split; [unfold is_u32; lia|]. split; [cbn; lia|]. split; [vm_compute; set_solver|].
  intros [|[|[|]]] c [= <-]; reflexivity.
Qed.

Lemma sys_read_spec_witness :
  wp (syscall_handler 5 20 no_loader (frame_demo 3 0x2000 16)) sys_demo (λ regs' s',
    rg_eax regs' = 2 ∧ mem s' !! 0x2000 = Some 97 ∧ mem s' !! 0x2001 = Some 99 ∧ mem s' !! 0x2002 = Some 0 ∧
    mem s' !! 0x1000 = Some 104).
Proof.
  eapply wp_mono; [refine (sys_read_spec 5 20 no_loader (frame_demo 3 0x2000 16) sys_demo [97; 99] [100; 10]
    _ typing_demo_inv _ _ eq_refl _ _ _ eq_refl)|].
  - split_and!; cbn; (done || lia).
  - vm_compute. repeat (constructor; [split; congruence|]). constructor.
  - vm_compute. lia.
  - cbn. lia.
  - vm_compute. discriminate.
  - vm_compute. discriminate.
  - intros regs' s' (-> & Hm & _ & Hout & _). split_and!;
      [reflexivity|exact (Hm 0%nat 97 eq_refl)|exact (Hm 1%nat 99 eq_refl)|exact (Hm 2%nat 0 eq_refl)|].
    rewrite Hout; [reflexivity|]. vm_compute. intuition congruence.
Defined.

Lemma syscall_handler_spec_witness :
  wp (syscall_handler 5 20 no_loader (frame_demo 4 0x1000 0)) sys_demo (λ regs' s',
    rg_eax regs' = 0 ∧ u_sent (machine (con s')).1 = str "[INFO] hi" ++ [10]) ∧
  wp (syscall_handler 5 20 no_loader (frame_demo 99 0 0)) sys_demo (λ regs' _, rg_eax regs' = 4294967295).
Proof.
  pose proof sys_demo_string as Hs. split.
  - eapply wp_mono; [refine (proj1 (syscall_handler_spec 5 20 no_loader (frame_demo 4 0x1000 0) sys_demo
      sys_demo_logging) (str "hi") eq_refl Hs _ _ _); [cbn; lia|split; plain_lit|cbn; lia]|].
    intros regs' s' (-> & _ & _ & _ & Hu). split; [reflexivity|exact Hu].
  - eapply wp_mono; [refine (proj2 (proj2 (proj2 (syscall_handler_spec 5 20 no_loader (frame_demo 99 0 0) sys_demo
      sys_demo_logging))) _); vm_compute; set_solver|].
    intros regs' s' (-> & _). reflexivity.
Defined.

Lemma syscall_init_spec_witness :
  wp (syscall_init 5 0x123456) (console_demo uart_demo, intr_demo) (λ _ s,
    arr_get (interrupt_handlers s.2) 0x80 = Some (Some syscall_handler_fn)).
Proof.
  eapply wp_mono; [refine (syscall_init_spec 5 0x123456 (console_demo uart_demo) intr_demo _ _ _ eq_refl eq_refl _)|].
  - split_and!; cbn; (done || lia).
  - cbn. lia.
  - split; cbn; [done|lia].
  - unfold is_u32. lia.
  - intros [] s (_ & Hh & _). exact Hh.
Defined.
