(* ===== verification/Stubs.v ===== *)
(** * Interrupt entry and exit (src/src/isr.asm)

    The processor delivers an interrupt by pushing part of its state and jumping to the stub
    of the vector; the stub completes the [struct registers] of idt.h on the stack, calls the
    C handler with its address, and restores everything from it.  The instructions the stubs
    use are modelled one by one, the stubs are lists of them, and the C handler is a function
    on the structure. *)

From S2P Require Import Prelude Pic Idt Console Login Syscalls.

(** ** The processor *)

(** General registers, instruction pointer, flags and segment registers. *)
Record x86 := mkX86 {
  x_eax : Z; x_ecx : Z; x_edx : Z; x_ebx : Z; x_esp : Z; x_ebp : Z; x_esi : Z; x_edi : Z;
  x_eip : Z; x_eflags : Z;
  x_cs : Z; x_ss : Z; x_ds : Z; x_es : Z; x_fs : Z; x_gs : Z
}.

(** The processor, the words of the stacks, and the state the C handlers work on. *)
Record xstate (S : Type) := mkXs { e_cpu : x86; e_stack : gmap Z Z; e_rest : S }.

Arguments mkXs {S}.
Arguments e_cpu {S}.
Arguments e_stack {S}.
Arguments e_rest {S}.

(** Instructions of isr.asm. *)
Inductive instr :=
| push_imm (n : Z)
| push_eax
| push_esp
| pop_eax
| pusha
| popa
| mov_ax_imm (n : Z)
| mov_ax_ds
| mov_ds_ax
| mov_es_ax
| mov_fs_ax
| mov_gs_ax
| add_esp (n : Z)
| call_handler
| iret.

(** *** The stubs *)

(** [isr_common_stub] and [irq_common_stub] differ in the handler they call. *)
Definition common_stub : list instr :=
  [pusha; mov_ax_ds; push_eax; mov_ax_imm 0x10; mov_ds_ax; mov_es_ax; mov_fs_ax; mov_gs_ax;
   push_esp; call_handler; add_esp 4;
   pop_eax; mov_ds_ax; mov_es_ax; mov_fs_ax; mov_gs_ax; popa; add_esp 8; iret].

(** The vectors of the [ISR_ERRCODE] macro. *)
Definition errcode_vectors : list Z := [8; 10; 11; 12; 13; 14; 17; 30].

Definition stub_code (n : Z) : list instr :=
  (if bool_decide (n ∈ errcode_vectors) then [] else [push_imm 0]) ++ push_imm n :: common_stub.

(** *** Register updates *)

Definition set_esp (v : Z) (c : x86) : x86 :=
  mkX86 (x_eax c) (x_ecx c) (x_edx c) (x_ebx c) v (x_ebp c) (x_esi c) (x_edi c) (x_eip c) (x_eflags c)
    (x_cs c) (x_ss c) (x_ds c) (x_es c) (x_fs c) (x_gs c).

Definition set_eax (v : Z) (c : x86) : x86 :=
  mkX86 v (x_ecx c) (x_edx c) (x_ebx c) (x_esp c) (x_ebp c) (x_esi c) (x_edi c) (x_eip c) (x_eflags c)
    (x_cs c) (x_ss c) (x_ds c) (x_es c) (x_fs c) (x_gs c).

(** [ax], and its replacement in [eax]. *)
Definition ax (c : x86) : Z := x_eax c mod 65536.

Definition with_ax (v : Z) (c : x86) : x86 := set_eax (x_eax c - ax c + v) c.

Definition set_data (ds es fs gs : Z) (c : x86) : x86 :=
  mkX86 (x_eax c) (x_ecx c) (x_edx c) (x_ebx c) (x_esp c) (x_ebp c) (x_esi c) (x_edi c) (x_eip c) (x_eflags c)
    (x_cs c) (x_ss c) ds es fs gs.

(** Where execution is: instruction pointer, flags, code and stack segment. *)
Definition set_flow (eip eflags cs ss : Z) (c : x86) : x86 :=
  mkX86 (x_eax c) (x_ecx c) (x_edx c) (x_ebx c) (x_esp c) (x_ebp c) (x_esi c) (x_edi c) eip eflags
    cs ss (x_ds c) (x_es c) (x_fs c) (x_gs c).

(** The processor runs in user mode: the privilege of its code segment is 3. *)
Definition in_user (c : x86) : bool := x_cs c mod 4 =? 3.

(** *** The structure on the stack *)

Definition regs_words (r : registers) : list Z :=
  [rg_ds r; rg_edi r; rg_esi r; rg_ebp r; rg_esp r; rg_ebx r; rg_edx r; rg_ecx r; rg_eax r;
   int_no r; err_code r; rg_eip r; rg_cs r; rg_eflags r; rg_useresp r; rg_ss r].

Definition regs_at (m : gmap Z Z) (p : Z) : registers :=
  let w i := ldw m (p +w 4 * i) in
  mkRegs (w 0) (w 1) (w 2) (w 3) (w 4) (w 5) (w 6) (w 7) (w 8) (w 9) (w 10) (w 11) (w 12) (w 13) (w 14) (w 15).

Fixpoint store_words (p : Z) (ws : list Z) (m : gmap Z Z) : gmap Z Z :=
  match ws with
  | [] => m
  | w :: ws => <[w32 p := w]> (store_words (p + 4) ws m)
  end.

Section machine.
Context {S : Type}.

Definition on_cpu (f : x86 → x86) : M (xstate S) unit :=
  modify (λ e, mkXs (f (e_cpu e)) (e_stack e) (e_rest e)).

Definition push (v : Z) : M (xstate S) unit :=
  modify (λ e, let sp := x_esp (e_cpu e) -w 4 in
    mkXs (set_esp sp (e_cpu e)) (<[sp := v]> (e_stack e)) (e_rest e)).

Definition pop : M (xstate S) Z :=
  e ← gets id;
  on_cpu (set_esp (x_esp (e_cpu e) +w 4));;
  ret (ldw (e_stack e) (x_esp (e_cpu e))).

(** The C handler, the address its call returns to, and what a C function leaves in the
    registers it need not preserve: [eax], [ecx], [edx] and the flags. *)
Context (handler : registers → M S registers) (return_address : Z) (scratch : registers → Z * Z * Z * Z).

Definition call : M (xstate S) unit :=
  p ← (e ← gets id; ret (ldw (e_stack e) (x_esp (e_cpu e))));
  push return_address;;
  m ← gets e_stack;
  r ← zoom e_rest (λ s e, mkXs (e_cpu e) (e_stack e) s) (handler (regs_at m p));
  modify (λ e, mkXs (e_cpu e) (store_words p (regs_words r) (e_stack e)) (e_rest e));;
  _ ← pop;
  let '(a, c, d, f) := scratch r in
  on_cpu (λ x, mkX86 a c d (x_ebx x) (x_esp x) (x_ebp x) (x_esi x) (x_edi x) (x_eip x) f
                 (x_cs x) (x_ss x) (x_ds x) (x_es x) (x_fs x) (x_gs x)).

Definition exec_pusha : M (xstate S) unit :=
  c ← gets e_cpu;
  push (x_eax c);; push (x_ecx c);; push (x_edx c);; push (x_ebx c);;
  push (x_esp c);; push (x_ebp c);; push (x_esi c);; push (x_edi c).

Definition exec_popa : M (xstate S) unit :=
  edi ← pop; esi ← pop; ebp ← pop; _ ← pop; ebx ← pop; edx ← pop; ecx ← pop; eax ← pop;
  on_cpu (λ x, mkX86 eax ecx edx ebx (x_esp x) ebp esi edi (x_eip x) (x_eflags x)
                 (x_cs x) (x_ss x) (x_ds x) (x_es x) (x_fs x) (x_gs x)).

(** A data segment of the kernel is taken from user mode when it is entered: the descriptors
    1 and 2 have privilege 0. *)
Definition outer_data (sel : Z) : Z := if bool_decide (sel / 8 = 1 ∨ sel / 8 = 2) then 0 else sel.

(** Return from an interrupt; to user mode with its stack. *)
Definition exec_iret : M (xstate S) unit :=
  eip ← pop; cs ← pop; eflags ← pop;
  if cs mod 4 =? 3 then
    esp ← pop; ss ← pop;
    on_cpu (λ x, set_flow eip eflags (cs mod 65536) (ss mod 65536) (set_esp esp
      (set_data (outer_data (x_ds x)) (outer_data (x_es x)) (outer_data (x_fs x)) (outer_data (x_gs x)) x)))
  else on_cpu (λ x, set_flow eip eflags (cs mod 65536) (x_ss x) x).

Definition exec_instr (i : instr) : M (xstate S) unit :=
  match i with
  | push_imm n => push n
  | push_eax => e ← gets id; push (x_eax (e_cpu e))
  | push_esp => e ← gets id; push (x_esp (e_cpu e))
  | pop_eax => v ← pop; on_cpu (set_eax v)
  | pusha => exec_pusha
  | popa => exec_popa
  | mov_ax_imm n => on_cpu (with_ax n)
  | mov_ax_ds => on_cpu (λ c, with_ax (x_ds c) c)
  | mov_ds_ax => on_cpu (λ c, set_data (ax c) (x_es c) (x_fs c) (x_gs c) c)
  | mov_es_ax => on_cpu (λ c, set_data (x_ds c) (ax c) (x_fs c) (x_gs c) c)
  | mov_fs_ax => on_cpu (λ c, set_data (x_ds c) (x_es c) (ax c) (x_gs c) c)
  | mov_gs_ax => on_cpu (λ c, set_data (x_ds c) (x_es c) (x_fs c) (ax c) c)
  | add_esp n => on_cpu (λ c, set_esp (x_esp c +w n) c)
  | call_handler => call
  | iret => exec_iret
  end.

Fixpoint run (code : list instr) : M (xstate S) unit :=
  match code with
  | [] => skip
  | i :: code => exec_instr i;; run code
  end.

(** *** Delivery by the processor *)

(** Flags an interrupt gate clears: trap, interrupt enable, nested task, resume, virtual 8086. *)
Definition gate_flags (f : Z) : Z := Z.ldiff f 0x34300.

(** The vectors for which the processor pushes an error code. *)
Definition cpu_error (n : Z) : bool := bool_decide (n ∈ [8; 10; 11; 12; 13; 14; 17; 21; 29; 30]).

(** Through an interrupt gate to the kernel's code; from user mode to the stack of the task
    state, [ss0] and [esp0]. *)
Definition deliver (ss0 esp0 stub n err : Z) : M (xstate S) unit :=
  c ← gets e_cpu;
  when (in_user c) (on_cpu (λ x, set_flow (x_eip x) (x_eflags x) (x_cs x) ss0 (set_esp esp0 x));;
                    push (x_ss c);; push (x_esp c));;
  push (x_eflags c);; push (x_cs c);; push (x_eip c);;
  when (cpu_error n) (push err);;
  on_cpu (λ x, set_flow stub (gate_flags (x_eflags x)) 0x08 (x_ss x) x).

(** An interrupt from its arrival to the return. *)
Definition interrupt (ss0 esp0 stub n err : Z) : M (xstate S) unit :=
  deliver ss0 esp0 stub n err;; run (stub_code n).

End machine.

(** ** What an interrupt does to the interrupted program *)

(** The end of the structure on the stack: the top of the kernel's stack, or two words of the
    interrupted stack when the kernel itself is interrupted. *)
Definition frame_end (esp0 : Z) (c : x86) : Z := if in_user c then esp0 else x_esp c + 8.

(** The structure the handler is given. *)
Definition seen (esp0 n err : Z) (c : x86) (m : gmap Z Z) : registers :=
  mkRegs (x_eax c - ax c + x_ds c) (x_edi c) (x_esi c) (x_ebp c) (frame_end esp0 c - 28)
    (x_ebx c) (x_edx c) (x_ecx c) (x_eax c) n (if cpu_error n then err else 0) (x_eip c) (x_cs c) (x_eflags c)
    (if in_user c then x_esp c else ldw m (x_esp c)) (if in_user c then x_ss c else ldw m (x_esp c + 4)).

(** The processor after the return, from the structure the handler left. *)
Definition resumed (c : x86) (r : registers) : x86 :=
  let d := rg_ds r mod 65536 in
  let d := if in_user c then outer_data d else d in
  mkX86 (rg_eax r) (rg_ecx r) (rg_edx r) (rg_ebx r) (if in_user c then rg_useresp r else x_esp c)
    (rg_ebp r) (rg_esi r) (rg_edi r) (rg_eip r) (rg_eflags r) (rg_cs r mod 65536)
    (if in_user c then rg_ss r mod 65536 else x_ss c) d d d d.

(** ** Lemmas: the stack as a list of words *)

(** From [sp] up to [hi] the memory holds the words [ws]; from [hi] on it is as in [m0]. *)
Definition in_frame (hi : Z) (m0 m : gmap Z Z) (sp : Z) (ws : list Z) : Prop :=
  sp = hi - 4 * Z.of_nat (length ws) ∧ 0 ≤ sp ∧ hi ≤ 4294967292 ∧
  (∀ i w, ws !! i = Some w → ldw m (sp + 4 * Z.of_nat i) = w) ∧ ∀ a, hi ≤ a → ldw m a = ldw m0 a.

Lemma ldw_put m a x b : ldw (<[a := x]> m) b = if decide (a = b) then x else ldw m b.
Proof. unfold ldw. rewrite lookup_insert. by destruct (decide (a = b)). Qed.

Lemma frame_push hi m0 m sp ws v :
  in_frame hi m0 m sp ws → 4 ≤ sp → in_frame hi m0 (<[sp -w 4 := v]> m) (sp -w 4) (v :: ws).
Proof.
  intros (Hsp & H0 & Hhi & Hw & Ha) H4. rewrite w32_small by (unfold is_u32; lia). unfold in_frame. cbn [length].
  split_and!; [lia|lia|done| |].
  - intros [|i] w Hi; rewrite ldw_put.
    + rewrite decide_True by lia. by injection Hi.
    + rewrite decide_False by lia. rewrite <- (Hw i w Hi). f_equal. lia.
  - intros a Hle. rewrite ldw_put, decide_False by lia. by apply Ha.
Qed.

Lemma frame_pop hi m0 m sp v ws :
  in_frame hi m0 m sp (v :: ws) → ldw m sp = v ∧ in_frame hi m0 m (sp +w 4) ws.
Proof.
  intros (Hsp & H0 & Hhi & Hw & Ha). cbn [length] in Hsp. rewrite w32_small by (unfold is_u32; lia). split.
  - rewrite <- (Hw 0%nat v eq_refl). f_equal. lia.
  - split_and!; [lia|lia|done| |done]. intros i w Hi. rewrite <- (Hw (S i) w Hi). f_equal. lia.
Qed.

Lemma ldw_store_words p ws m x :
  0 ≤ p → p + 4 * Z.of_nat (length ws) ≤ 4294967296 →
  (∀ i w, ws !! i = Some w → ldw (store_words p ws m) (p + 4 * Z.of_nat i) = w) ∧
  ((∀ i, (i < length ws)%nat → x ≠ p + 4 * Z.of_nat i) → ldw (store_words p ws m) x = ldw m x).
Proof.
  revert p. induction ws as [|w ws IH]; intros p Hp Hl; cbn [store_words length] in *; [by split; [intros i w ?|]|].
  rewrite w32_small by (unfold is_u32; lia). split.
  - intros [|i] v Hi; rewrite ldw_put.
    + rewrite decide_True by lia. by injection Hi.
    + rewrite decide_False by lia. destruct (IH (p + 4)) as [Hin _]; [lia|lia|]. rewrite <- (Hin i v Hi). f_equal. lia.
  - intros Hx. rewrite ldw_put, decide_False.
    + apply IH; [lia|lia|]. intros i Hi. specialize (Hx (S i)). lia.
    + specialize (Hx O). lia.
Qed.

(** Writing over the words below [hi]. *)
Lemma frame_store hi m0 m sp a b b' :
  in_frame hi m0 m sp (a ++ b) → length b' = length b →
  in_frame hi m0 (store_words (hi - 4 * Z.of_nat (length b)) b' m) sp (a ++ b').
Proof.
  intros (Hsp & H0 & Hhi & Hw & Ha) Hl. rewrite length_app in Hsp. unfold in_frame. rewrite length_app, Hl.
  pose proof (λ x, ldw_store_words (hi - 4 * Z.of_nat (length b)) b' m x ltac:(lia) ltac:(lia)) as Hs.
  split_and!; [lia|done|done| |].
  - intros i w Hi. apply lookup_app_Some in Hi as [Hi|[Hge Hi]].
    + rewrite (proj2 (Hs _)), <- (Hw i w); [done|by apply lookup_app_l_Some|].
      apply lookup_lt_Some in Hi. intros j Hj. lia.
    + rewrite <- (proj1 (Hs 0) _ _ Hi). f_equal. lia.
  - intros x Hx. rewrite (proj2 (Hs x)); [by apply Ha|]. intros j Hj. lia.
Qed.

(** The structure is read from its words. *)
Lemma frame_regs hi m0 m sp a r :
  in_frame hi m0 m sp (a ++ regs_words r) → regs_at m (hi - 64) = r.
Proof.
  intros (Hsp & H0 & Hhi & Hw & _). rewrite length_app in Hsp. change (length (regs_words r)) with 16%nat in Hsp.
  assert (Hr : ∀ i w, regs_words r !! i = Some w → ldw m ((hi - 64) +w 4 * Z.of_nat i) = w).
  { intros i w Hi. pose proof (lookup_lt_Some _ _ _ Hi) as Hlt. change (length (regs_words r)) with 16%nat in Hlt.
    rewrite w32_small by (unfold is_u32; lia). rewrite <- (Hw (length a + i)%nat w); [f_equal; lia|].
    rewrite lookup_app_r by lia. by replace (length a + i - length a)%nat with i by lia. }
  destruct r. unfold regs_at. cbn in Hr. f_equal.
  all: match goal with |- ldw _ (_ +w 4 * ?k) = ?w => exact (Hr (Z.to_nat k) w eq_refl) end.
Qed.

Section running.
Context {S : Type}.
Implicit Types (c : x86) (m : gmap Z Z) (s : S).

Lemma wp_push hi m0 ws v c m s (Q : unit → xstate S → Prop) :
  in_frame hi m0 m (x_esp c) ws → 4 ≤ x_esp c →
  (∀ m' sp, in_frame hi m0 m' sp (v :: ws) → Q tt (mkXs (set_esp sp c) m' s)) → wp (push v) (mkXs c m s) Q.
Proof. intros Hf H4 HQ. unfold push. wp_step. apply HQ. by apply frame_push. Qed.

Lemma wp_pop hi m0 ws v c m s (Q : Z → xstate S → Prop) :
  in_frame hi m0 m (x_esp c) (v :: ws) →
  (∀ sp, in_frame hi m0 m sp ws → Q v (mkXs (set_esp sp c) m s)) → wp pop (mkXs c m s) Q.
Proof.
  intros Hf HQ. destruct (frame_pop _ _ _ _ _ _ Hf) as [Hv Hp]. unfold pop, on_cpu. wp_steps. cbn in *. rewrite Hv. by apply HQ.
Qed.

Lemma frame_sp hi m0 m sp ws : in_frame hi m0 m sp ws → sp = hi - 4 * Z.of_nat (length ws).
Proof. by intros [? _]. Qed.

Context (handler : registers → M S registers) (return_address : Z) (scratch : registers → Z * Z * Z * Z).

(** The eight pushes and pops. *)
Lemma wp_pusha hi m0 ws c m s (Q : unit → xstate S → Prop) :
  in_frame hi m0 m (x_esp c) ws → 32 ≤ x_esp c →
  (∀ m' sp, in_frame hi m0 m' sp ([x_edi c; x_esi c; x_ebp c; x_esp c; x_ebx c; x_edx c; x_ecx c; x_eax c] ++ ws) →
     Q tt (mkXs (set_esp sp c) m' s)) →
  wp exec_pusha (mkXs c m s) Q.
Proof.
  intros Hf H32 HQ. unfold exec_pusha. wp_step. wp_step. cbn [e_cpu]. pose proof (frame_sp _ _ _ _ _ Hf) as Esp.
  do 7 (wp_step; eapply wp_push; [eassumption|cbn; match goal with G : in_frame _ _ _ _ _ |- _ => apply frame_sp in G; cbn in G; lia end|];
        clear dependent m; intros m ? ?).
  eapply wp_push; [eassumption|cbn; match goal with G : in_frame _ _ _ _ _ |- _ => apply frame_sp in G; cbn in G; lia end|].
  intros m' sp' Hf'. by apply (HQ m' sp').
Qed.

Lemma wp_popa hi m0 ws edi esi ebp tmp ebx edx ecx eax c m s (Q : unit → xstate S → Prop) :
  in_frame hi m0 m (x_esp c) ([edi; esi; ebp; tmp; ebx; edx; ecx; eax] ++ ws) →
  (∀ sp, in_frame hi m0 m sp ws →
     Q tt (mkXs (mkX86 eax ecx edx ebx sp ebp esi edi (x_eip c) (x_eflags c)
                   (x_cs c) (x_ss c) (x_ds c) (x_es c) (x_fs c) (x_gs c)) m s)) →
  wp exec_popa (mkXs c m s) Q.
Proof.
  intros Hf HQ. unfold exec_popa. do 8 (wp_step; eapply wp_pop; [eassumption|]; intros ? ?).
  unfold on_cpu. wp_step. by apply HQ.
Qed.

(** The call of the C handler with the structure on top of the stack. *)
Lemma wp_call hi m0 r r' c m s s' (Q : unit → xstate S → Prop) :
  in_frame hi m0 m (x_esp c) (hi - 64 :: regs_words r) → 72 ≤ hi → handler r s = Ret r' s' →
  (∀ m' sp a cx d f, in_frame hi m0 m' sp (hi - 64 :: regs_words r') →
     Q tt (mkXs (mkX86 a cx d (x_ebx c) sp (x_ebp c) (x_esi c) (x_edi c) (x_eip c) f
                   (x_cs c) (x_ss c) (x_ds c) (x_es c) (x_fs c) (x_gs c)) m' s')) →
  wp (call handler return_address scratch) (mkXs c m s) Q.
Proof.
  intros Hf H72 Hh HQ. unfold call. wp_step. wp_steps. cbn [id e_stack e_cpu].
  destruct (frame_pop _ _ _ _ _ _ Hf) as [-> _]. pose proof (frame_sp _ _ _ _ _ Hf) as Esp. cbn in Esp.
  eapply wp_push; [exact Hf|lia|]. intros m1 sp1 Hf1. wp_steps. cbn [e_stack e_rest].
  change (return_address :: hi - 64 :: regs_words r) with ([return_address; hi - 64] ++ regs_words r) in Hf1.
  rewrite (frame_regs _ _ _ _ _ _ Hf1). unfold wp at 1. rewrite Hh. wp_steps. cbn [e_cpu e_stack e_rest].
  pose proof (frame_store _ _ _ _ _ _ (regs_words r') Hf1 eq_refl) as Hf2. change (4 * Z.of_nat (length (regs_words r))) with 64 in Hf2.
  eapply wp_pop; [exact Hf2|]. intros sp2 Hf3. destruct (scratch r') as [[[a cx] d] f]. unfold on_cpu. wp_steps. by apply HQ.
Qed.

(** The four moves to the data segments. *)
Lemma wp_segments code c m s (Q : unit → xstate S → Prop) :
  wp (run handler return_address scratch code) (mkXs (set_data (ax c) (ax c) (ax c) (ax c) c) m s) Q →
  wp (run handler return_address scratch (mov_ds_ax :: mov_es_ax :: mov_fs_ax :: mov_gs_ax :: code)) (mkXs c m s) Q.
Proof. by destruct c. Qed.

Lemma wp_run_cons i code st (Q : unit → xstate S → Prop) :
  wp (exec_instr handler return_address scratch i) st (λ _ st', wp (run handler return_address scratch code) st' Q) →
  wp (run handler return_address scratch (i :: code)) st Q.
Proof. intros Hw. cbn [run]. by wp_step. Qed.

Lemma run_cons i code :
  run handler return_address scratch (i :: code) = (exec_instr handler return_address scratch i;; run handler return_address scratch code).
Proof. done. Qed.

Lemma wp_on_cpu f c m s (Q : unit → xstate S → Prop) : Q tt (mkXs (f c) m s) → wp (on_cpu f) (mkXs c m s) Q.
Proof. done. Qed.

(** The stub up to the call: it completes the structure [r] below the processor's frame and
    pushes its address. *)
Definition stub_entry : list instr :=
  [pusha; mov_ax_ds; push_eax; mov_ax_imm 0x10; mov_ds_ax; mov_es_ax; mov_fs_ax; mov_gs_ax; push_esp].

Lemma wp_stub_entry code hi m0 r c m s (X : M (xstate S) unit → xstate S → Prop) :
  (∀ (a : M (xstate S) unit) k st, wp a st (λ _ st', X k st') → X (a;; k) st) →
  in_frame hi m0 m (x_esp c) [int_no r; err_code r; rg_eip r; rg_cs r; rg_eflags r; rg_useresp r; rg_ss r] →
  124 ≤ hi →
  r = mkRegs (x_eax c - ax c + x_ds c) (x_edi c) (x_esi c) (x_ebp c) (hi - 28) (x_ebx c) (x_edx c) (x_ecx c) (x_eax c)
        (int_no r) (err_code r) (rg_eip r) (rg_cs r) (rg_eflags r) (rg_useresp r) (rg_ss r) →
  (∀ c' m', in_frame hi m0 m' (x_esp c') (hi - 64 :: regs_words r) →
     x_eip c' = x_eip c → x_cs c' = x_cs c → x_ss c' = x_ss c →
     X (run handler return_address scratch code) (mkXs c' m' s)) →
  X (run handler return_address scratch (stub_entry ++ code)) (mkXs c m s).
Proof.
  intros HX Hf H128 Hr HQ. pose proof (frame_sp _ _ _ _ _ Hf) as Esp. cbn in Esp. unfold stub_entry. cbn [app run].
  apply HX. eapply wp_pusha; [exact Hf|lia|]. intros m1 sp1 Hf1. pose proof (frame_sp _ _ _ _ _ Hf1) as Esp1. cbn in Esp1.
  apply HX, wp_on_cpu, HX. cbn [exec_instr]. wp_step. wp_step. cbn [e_cpu id].
  eapply wp_push; [exact Hf1|cbn; lia|]. intros m2 sp2 Hf2. pose proof (frame_sp _ _ _ _ _ Hf2) as Esp2. cbn in Esp2.
  do 5 apply HX, wp_on_cpu. apply HX. cbn [exec_instr]. wp_step. wp_step. cbn [e_cpu id].
  eapply wp_push; [exact Hf2|cbn; lia|]. intros m3 sp3 Hf3. apply HQ; [|done..].
  replace (hi - 64) with sp2 by lia. replace (x_esp c) with (hi - 28) in Hf3 by lia.
  unfold regs_words. rewrite Hr. cbn. exact Hf3.
Qed.

(** From the processor's frame to the return: the stub hands the handler the structure [r]
    and takes everything from what it leaves there. *)
Lemma wp_common hi m0 r r' c m s s' (Q : unit → xstate S → Prop) :
  in_frame hi m0 m (x_esp c) [int_no r; err_code r; rg_eip r; rg_cs r; rg_eflags r; rg_useresp r; rg_ss r] →
  128 ≤ hi →
  r = mkRegs (x_eax c - ax c + x_ds c) (x_edi c) (x_esi c) (x_ebp c) (hi - 28) (x_ebx c) (x_edx c) (x_ecx c) (x_eax c)
        (int_no r) (err_code r) (rg_eip r) (rg_cs r) (rg_eflags r) (rg_useresp r) (rg_ss r) →
  handler r s = Ret r' s' →
  (∀ f m' sp, in_frame hi m0 m' sp [rg_eip r'; rg_cs r'; rg_eflags r'; rg_useresp r'; rg_ss r'] →
     wp exec_iret (mkXs (mkX86 (rg_eax r') (rg_ecx r') (rg_edx r') (rg_ebx r') sp (rg_ebp r') (rg_esi r') (rg_edi r')
       (x_eip c) f (x_cs c) (x_ss c) (rg_ds r' mod 65536) (rg_ds r' mod 65536) (rg_ds r' mod 65536) (rg_ds r' mod 65536)) m' s') Q) →
  wp (run handler return_address scratch common_stub) (mkXs c m s) Q.
Proof.
  intros Hf H128 Hr Hh HQ.
  apply (wp_stub_entry [call_handler; add_esp 4; pop_eax; mov_ds_ax; mov_es_ax; mov_fs_ax; mov_gs_ax; popa; add_esp 8; iret]
    hi m0 r c m s (λ a st, wp a st Q)); [intros a k st Hw; by apply wp_bind|first [lia|done]..|]. intros c' m3 Hf3 E1 E2 E3. rewrite <- E1, <- E2, <- E3 in HQ.
  apply wp_run_cons. eapply (wp_call hi m0 r r'); [exact Hf3|lia|exact Hh|].
  intros m4 sp4 a cx d f Hf4. apply wp_run_cons, wp_on_cpu.
  destruct (frame_pop _ _ _ _ _ _ Hf4) as [_ Hf5]. apply wp_run_cons. cbn [exec_instr]. wp_step.
  eapply wp_pop; [exact Hf5|]. intros sp5 Hf6. apply wp_on_cpu, wp_segments, wp_run_cons.
  eapply wp_popa; [exact Hf6|]. intros sp6 Hf7. apply wp_run_cons, wp_on_cpu.
  destruct (frame_pop _ _ _ _ _ _ Hf7) as [_ Hf8]. destruct (frame_pop _ _ _ _ _ _ Hf8) as [_ Hf9].
  rewrite w32_add_l, <- Z.add_assoc in Hf9. apply wp_run_cons. cbn [run exec_instr].
  eapply wp_mono; [exact (HQ f m4 _ Hf9)|]. intros [] st HQ'. by wp_step.
Qed.

(** A handler that stops the machine. *)
Lemma whalt_common hi m0 r c m s s' :
  in_frame hi m0 m (x_esp c) [int_no r; err_code r; rg_eip r; rg_cs r; rg_eflags r; rg_useresp r; rg_ss r] →
  124 ≤ hi →
  r = mkRegs (x_eax c - ax c + x_ds c) (x_edi c) (x_esi c) (x_ebp c) (hi - 28) (x_ebx c) (x_edx c) (x_ecx c) (x_eax c)
        (int_no r) (err_code r) (rg_eip r) (rg_cs r) (rg_eflags r) (rg_useresp r) (rg_ss r) →
  handler r s = Halt s' →
  whalt (run handler return_address scratch common_stub) (mkXs c m s) (λ st, e_rest st = s').
Proof.
  intros Hf H128 Hr Hh.
  apply (wp_stub_entry [call_handler; add_esp 4; pop_eax; mov_ds_ax; mov_es_ax; mov_fs_ax; mov_gs_ax; popa; add_esp 8; iret]
    hi m0 r c m s (λ a st, whalt a st (λ st, e_rest st = s'))); [intros a k st Hw; by apply whalt_bind|done..|].
  intros c' m3 Hf3 _ _ _. cbn [run exec_instr]. apply whalt_halted. unfold call. apply whalt_bind. wp_steps. cbn [id e_stack e_cpu].
  destruct (frame_pop _ _ _ _ _ _ Hf3) as [-> _]. pose proof (frame_sp _ _ _ _ _ Hf3) as Esp. cbn in Esp.
  apply whalt_bind. eapply wp_push; [exact Hf3|lia|]. intros m4 sp4 Hf4. apply whalt_bind. wp_step. cbn [e_stack].
  change (return_address :: hi - 64 :: regs_words r) with ([return_address; hi - 64] ++ regs_words r) in Hf4.
  apply whalt_halted, whalt_zoom. cbn [e_rest]. rewrite (frame_regs _ _ _ _ _ _ Hf4). unfold whalt. by rewrite Hh.
Qed.

(** What the processor pushes. *)
Lemma wp_deliver ss0 esp0 stub n err c m s (Q : unit → xstate S → Prop) :
  128 ≤ frame_end esp0 c ≤ 4294967292 → (in_user c = false → 0 ≤ x_esp c) →
  (∀ m' sp, let r := seen esp0 n err c m in
     in_frame (frame_end esp0 c) m m' sp ((if cpu_error n then [err] else []) ++ [rg_eip r; rg_cs r; rg_eflags r; rg_useresp r; rg_ss r]) →
     Q tt (mkXs (set_flow stub (gate_flags (x_eflags c)) 0x08 (if in_user c then ss0 else x_ss c) (set_esp sp c)) m' s)) →
  wp (deliver ss0 esp0 stub n err) (mkXs c m s) Q.
Proof.
  intros Hhi Hesp HQ. unfold deliver. wp_step. wp_step. cbn [e_cpu].
  assert (Hrest : ∀ ss' m1 sp1, ss' = (if in_user c then ss0 else x_ss c) →
    in_frame (frame_end esp0 c) m m1 sp1 [if in_user c then x_esp c else ldw m (x_esp c); if in_user c then x_ss c else ldw m (x_esp c + 4)] →
    wp (push (x_eflags c);; push (x_cs c);; push (x_eip c);; when (cpu_error n) (push err);;
        on_cpu (λ x, set_flow stub (gate_flags (x_eflags x)) 0x08 (x_ss x) x))
      (mkXs (set_flow (x_eip c) (x_eflags c) (x_cs c) ss' (set_esp sp1 c)) m1 s) Q).
  { intros ss' m1 sp1 Hss F1. pose proof (frame_sp _ _ _ _ _ F1) as E1. cbn in E1.
    wp_step. eapply wp_push; [exact F1|cbn; lia|]. intros m2 sp2 F2. pose proof (frame_sp _ _ _ _ _ F2) as E2. cbn in E2.
    wp_step. eapply wp_push; [exact F2|cbn; lia|]. intros m3 sp3 F3. pose proof (frame_sp _ _ _ _ _ F3) as E3. cbn in E3.
    wp_step. eapply wp_push; [exact F3|cbn; lia|]. intros m4 sp4 F4. pose proof (frame_sp _ _ _ _ _ F4) as E4. cbn in E4.
    wp_step. cbv zeta in HQ. rewrite <- Hss in HQ. destruct (cpu_error n); cbn [when].
    - eapply wp_push; [exact F4|cbn; lia|]. intros m5 sp5 F5. apply wp_on_cpu. exact (HQ m5 sp5 F5).
    - wp_step. apply wp_on_cpu. exact (HQ m4 sp4 F4). }
  unfold frame_end in *. wp_step. destruct (in_user c); cbn [when].
  - wp_step. apply wp_on_cpu. wp_step. eapply (wp_push esp0 m []); [|cbn; lia|].
    { split_and!; cbn; [lia|lia|lia| |done]. by intros [|i] w Hi. }
    intros m1 sp1 F1. pose proof (frame_sp _ _ _ _ _ F1) as E1. cbn in E1.
    eapply wp_push; [exact F1|cbn; lia|]. intros m2 sp2 F2. by apply (Hrest ss0).
  - wp_step. specialize (Hesp eq_refl). 
    replace (mkXs c m s) with (mkXs (set_flow (x_eip c) (x_eflags c) (x_cs c) (x_ss c) (set_esp (x_esp c) c)) m s) by by destruct c.
    apply (Hrest (x_ss c) m (x_esp c) eq_refl). split_and!; cbn; [lia|lia|lia| |done].
    intros [|[|i]] w Hi; [injection Hi as <-; f_equal; lia|injection Hi as <-; f_equal; lia|done].
Qed.

(** The return takes the program's place from the frame. *)
Lemma wp_iret hi m0 r' c x m s (Q : unit → xstate S → Prop) :
  in_frame hi m0 m (x_esp x) [rg_eip r'; rg_cs r'; rg_eflags r'; rg_useresp r'; rg_ss r'] →
  rg_cs r' mod 4 = x_cs c mod 4 → (in_user c = false → hi = x_esp c + 8 ∧ x_ss x = x_ss c) →
  x = mkX86 (rg_eax r') (rg_ecx r') (rg_edx r') (rg_ebx r') (x_esp x) (rg_ebp r') (rg_esi r') (rg_edi r')
       (x_eip x) (x_eflags x) (x_cs x) (x_ss x) (rg_ds r' mod 65536) (rg_ds r' mod 65536) (rg_ds r' mod 65536) (rg_ds r' mod 65536) →
  ((in_user c = false → ldw m (x_esp c) = rg_useresp r' ∧ ldw m (x_esp c + 4) = rg_ss r') → Q tt (mkXs (resumed c r') m s)) →
  wp exec_iret (mkXs x m s) Q.
Proof.
  intros Hf Hcs Hk Hx HQ. unfold exec_iret. wp_step. eapply wp_pop; [exact Hf|]. intros sp1 F1.
  wp_step. eapply wp_pop; [exact F1|]. intros sp2 F2. wp_step. eapply wp_pop; [exact F2|]. intros sp3 F3.
  unfold resumed in HQ. unfold in_user in *. rewrite <- Hcs in *. destruct (rg_cs r' mod 4 =? 3).
  - wp_step. eapply wp_pop; [exact F3|]. intros sp4 F4. wp_step. eapply wp_pop; [exact F4|]. intros sp5 F5.
    apply wp_on_cpu. rewrite Hx. by apply HQ.
  - destruct (Hk eq_refl) as [Hhi Hss]. apply wp_on_cpu.
    destruct F3 as (E3 & _ & _ & Hw & _). cbn in E3. assert (E : sp3 = x_esp c) by lia.
    pose proof (Hw 0%nat _ eq_refl) as W0. pose proof (Hw 1%nat _ eq_refl) as W1. cbn in W0, W1. rewrite E in W0, W1.
    rewrite Z.add_0_r in W0. rewrite E, Hx, Hss. by apply HQ.
Qed.

End running.

(** Delivery and the pushes of the stub. *)
Lemma wp_to_common {S} (handler : registers → M S registers) return_address scratch ss0 esp0 stub n err c m (s : S)
    (X : M (xstate S) unit → xstate S → Prop) :
  (∀ (a : M (xstate S) unit) k st, wp a st (λ _ st', X k st') → X (a;; k) st) →
  cpu_error n = bool_decide (n ∈ errcode_vectors) →
  128 ≤ frame_end esp0 c ≤ 4294967292 → (in_user c = false → 0 ≤ x_esp c) →
  (∀ m' sp, let r := seen esp0 n err c m in
     in_frame (frame_end esp0 c) m m' sp [int_no r; err_code r; rg_eip r; rg_cs r; rg_eflags r; rg_useresp r; rg_ss r] →
     X (run handler return_address scratch common_stub)
       (mkXs (set_flow stub (gate_flags (x_eflags c)) 0x08 (if in_user c then ss0 else x_ss c) (set_esp sp c)) m' s)) →
  X (interrupt handler return_address scratch ss0 esp0 stub n err) (mkXs c m s).
Proof.
  intros HX Herr Hhi Hesp HQ. unfold interrupt. apply HX. apply wp_deliver; [done|done|]. cbv zeta in *. intros m1 sp1 F1.
  set (r := seen esp0 n err c m) in *. set (x := set_flow _ _ _ _ _).
  assert (Ec : err_code r = if cpu_error n then err else 0) by done.
  unfold stub_code. rewrite <- Herr. destruct (cpu_error n); cbn [app]; rewrite ?run_cons.
  - apply HX. eapply wp_push; [exact F1|apply frame_sp in F1; cbn in F1 |- *; lia|]. intros m2 sp2 F2.
    rewrite <- Ec in F2. exact (HQ m2 sp2 F2).
  - apply HX. eapply wp_push; [exact F1|apply frame_sp in F1; cbn in F1 |- *; lia|]. intros m2 sp2 F2.
    apply HX. eapply wp_push; [exact F2|apply frame_sp in F2; cbn in F2 |- *; lia|]. intros m3 sp3 F3.
    rewrite <- Ec in F3. exact (HQ m3 sp3 F3).
Qed.

(** Delivery, stub and return together. *)
Lemma wp_interrupt {S} (handler : registers → M S registers) return_address scratch ss0 esp0 stub n err c m (s s' : S) r' :
  cpu_error n = bool_decide (n ∈ errcode_vectors) →
  128 ≤ frame_end esp0 c ≤ 4294967292 → (in_user c = false → 0 ≤ x_esp c) →
  handler (seen esp0 n err c m) s = Ret r' s' → rg_cs r' mod 4 = x_cs c mod 4 →
  wp (interrupt handler return_address scratch ss0 esp0 stub n err) (mkXs c m s) (λ _ st,
    e_rest st = s' ∧ e_cpu st = resumed c r' ∧
    (∀ a, frame_end esp0 c ≤ a → ldw (e_stack st) a = ldw m a) ∧
    (in_user c = false → ldw (e_stack st) (x_esp c) = rg_useresp r' ∧ ldw (e_stack st) (x_esp c + 4) = rg_ss r')).
Proof.
  intros Herr Hhi Hesp Hh Hcs. match goal with |- wp _ _ ?Q0 => set (Q := Q0) end.
  apply (wp_to_common _ _ _ _ _ _ _ _ _ _ _ (λ a st, wp a st Q)); [intros a k st Hw; by apply wp_bind|done..|].
  cbv zeta. set (r := seen esp0 n err c m) in *. intros m2 sp2 F2.
  eapply (wp_common _ _ _ (frame_end esp0 c) m r r'); [exact F2|lia|done|exact Hh|].
  intros f m3 sp3 F3. eapply (wp_iret _ m r' c); [exact F3|done| |done|].
  - intros Hk. unfold frame_end. rewrite Hk. by split.
  - intros Hst. split_and!; [done|done|apply F3|exact Hst].
Qed.

Lemma whalt_interrupt {S} (handler : registers → M S registers) return_address scratch ss0 esp0 stub n err c m (s s' : S) :
  cpu_error n = bool_decide (n ∈ errcode_vectors) →
  128 ≤ frame_end esp0 c ≤ 4294967292 → (in_user c = false → 0 ≤ x_esp c) →
  handler (seen esp0 n err c m) s = Halt s' →
  whalt (interrupt handler return_address scratch ss0 esp0 stub n err) (mkXs c m s) (λ st, e_rest st = s').
Proof.
  intros Herr Hhi Hesp Hh.
  apply (wp_to_common _ _ _ _ _ _ _ _ _ _ _ (λ a st, whalt a st (λ st, e_rest st = s'))); [intros a k st Hw; by apply whalt_bind|done..|].
  cbv zeta. intros m2 sp2 F2. eapply (whalt_common _ _ _ (frame_end esp0 c) m); [exact F2|lia|done|exact Hh].
Qed.

(** The vectors 21 and 29: the processor pushes an error code, and the stub a zero as if it had
    not.  The handler gets the right vector, and every field after the error code one word
    off; one that stops the machine all the same stops it. *)
Lemma whalt_misaligned {S} (handler : registers → M S registers) return_address scratch ss0 esp0 stub n err c m (s s' : S) :
  cpu_error n = true → n ∉ errcode_vectors →
  128 ≤ frame_end esp0 c ≤ 4294967292 → (in_user c = false → 0 ≤ x_esp c) →
  (∀ r, int_no r = n → handler r s = Halt s') →
  whalt (interrupt handler return_address scratch ss0 esp0 stub n err) (mkXs c m s) (λ st, e_rest st = s').
Proof.
  intros Herr Hn Hhi Hesp Hh. unfold interrupt. apply whalt_bind. apply wp_deliver; [done|done|]. cbv zeta. intros m1 sp1 F1.
  rewrite Herr in F1. set (r := seen esp0 n err c m) in *. set (x := set_flow _ _ _ _ _).
  unfold stub_code. rewrite bool_decide_false by done. cbn [app] in *. rewrite !run_cons.
  apply whalt_bind. eapply wp_push; [exact F1|apply frame_sp in F1; cbn in F1 |- *; lia|]. intros m2 sp2 F2.
  apply whalt_bind. eapply wp_push; [exact F2|apply frame_sp in F2; cbn in F2 |- *; lia|]. intros m3 sp3 (E3 & L3 & _ & W3 & _).
  cbn [length] in E3. eapply (whalt_common _ _ _ (frame_end esp0 c - 4) m3
    (mkRegs (x_eax c - ax c + x_ds c) (x_edi c) (x_esi c) (x_ebp c) (frame_end esp0 c - 4 - 28) (x_ebx c) (x_edx c) (x_ecx c) (x_eax c)
       n 0 err (rg_eip r) (rg_cs r) (rg_eflags r) (rg_useresp r))); [|lia|done|by apply Hh].
  split_and!; cbn [x_esp set_esp length]; [lia|lia|lia| |done].
  intros i w Hi. apply W3. do 7 (destruct i as [|i]; [exact Hi|]). done.
Qed.

(** ** Properties *)

(** An interrupt is transparent except for what the handler changes in its structure: the
    handler of vector [n] is called once, with every general register, the flags, the
    instruction pointer, the data segment and (in user mode) the stack of the interrupted
    program, the vector and the error code in the fields of its argument; after it has
    returned the program goes on with the registers of the structure, on its own stack and
    in its own mode, and every word of its stack is as it was.  (The segment registers es,
    fs and gs get the value of ds.) *)
Theorem interrupt_resumes {S} (handler : registers → M S registers) return_address scratch ss0 esp0 stub n err c m (s s' : S) r' :
  cpu_error n = bool_decide (n ∈ errcode_vectors) →
  128 ≤ frame_end esp0 c ≤ 4294967292 → (in_user c = false → 0 ≤ x_esp c) →
  handler (seen esp0 n err c m) s = Ret r' s' → rg_cs r' mod 4 = x_cs c mod 4 →
  wp (interrupt handler return_address scratch ss0 esp0 stub n err) (mkXs c m s) (λ _ st,
    e_rest st = s' ∧ e_cpu st = resumed c r' ∧
    (∀ a, frame_end esp0 c ≤ a → ldw (e_stack st) a = ldw m a) ∧
    (in_user c = false → ldw (e_stack st) (x_esp c) = rg_useresp r' ∧ ldw (e_stack st) (x_esp c + 4) = rg_ss r')).
Proof. apply wp_interrupt. Qed.

(** C28. A system call returns to its caller: whatever interrupt 0x80 is proved to do on the
    structure of the calling program holds of the call made from user mode through the stub,
    and the program finds its registers, its stack pointer, its flags and its place
    unchanged, but for the result in eax (and es, fs and gs equal to ds). *)
Theorem system_call_returns {K} `{Device K} `{Input K} polls fuel elf_exec return_address scratch esp0 stub c m
    (s : sys K) (P : registers → sys K → Prop) :
  x_cs c = 0x1B → x_ss c = 0x23 → x_ds c = 0x23 → 128 ≤ esp0 ≤ 4294967292 →
  wp (syscall_handler polls fuel elf_exec (seen esp0 128 0 c m)) s P →
  wp (interrupt (syscall_handler polls fuel elf_exec) return_address scratch 0x10 esp0 stub 128 0) (mkXs c m s) (λ _ st,
    ∃ v, is_u32 v ∧ P (with_eax v (seen esp0 128 0 c m)) (e_rest st) ∧
      e_cpu st = set_eax v (set_data 0x23 0x23 0x23 0x23 c) ∧
      ∀ a, esp0 ≤ a → ldw (e_stack st) a = ldw m a).
Proof.
  intros Hcs Hss Hds Hesp Hw. assert (Hu : in_user c = true) by (unfold in_user; by rewrite Hcs).
  destruct (wp_ex _ _ _ Hw) as (r' & s' & Hrun & HP).
  assert (∃ v, is_u32 v ∧ r' = with_eax v (seen esp0 128 0 c m)) as (v & Hv & ->).
  { unfold syscall_handler, bind at 1 in Hrun. match type of Hrun with (match ?e with _ => _ end = _) => destruct e end; try done.
    injection Hrun as <- _. eexists. split; [|done]. apply w32_range. }
  eapply wp_mono; [apply (wp_interrupt _ _ _ _ _ _ _ _ _ _ _ s' (with_eax v (seen esp0 128 0 c m)))|].
  - done.
  - unfold frame_end. by rewrite Hu.
  - by rewrite Hu.
  - exact Hrun.
  - done.
  - intros [] st (<- & Hc & Hm & _). exists v. unfold frame_end in Hm. rewrite Hu in Hm. split_and!; [done|done| |done].
    rewrite Hc. unfold resumed. rewrite Hu.
    assert (E : (x_eax c - ax c + 0x23) mod 65536 = 0x23) by (unfold ax; mlia).
    cbn. rewrite Hu, Hds, Hcs, Hss, E. unfold set_eax, set_data. cbn. by rewrite Hcs, Hss.
Qed.

(** ** The properties at concrete inputs *)

Definition user_demo : x86 := mkX86 99 2 3 4 0xBFFFF000 6 7 8 0x40000000 0x202 0x1B 0x23 0x23 0x23 0x23 0x23.

Lemma interrupt_resumes_witness :
  wp (interrupt (λ r, ret r) 0x100200 (λ _, (0, 0, 0, 0)) 0x10 0x106000 0x100000 14 5) (mkXs user_demo ∅ tt) (λ _ st,
    e_cpu st = user_demo).
Proof.
  eapply wp_mono; [exact (interrupt_resumes (λ r, ret r) 0x100200 (λ _, (0, 0, 0, 0)) 0x10 0x106000 0x100000 14 5 user_demo ∅ tt tt
    (seen 0x106000 14 5 user_demo ∅) eq_refl ltac:(vm_compute; split; congruence) ltac:(discriminate) eq_refl eq_refl)|].
  intros u st (_ & Hc & _). exact Hc.
Defined.

Lemma system_call_returns_witness :
  wp (interrupt (syscall_handler 3 10 no_loader) 0x100200 (λ _, (0, 0, 0, 0)) 0x10 0x106000 0x100000 128 0) (mkXs user_demo ∅ sys_demo)
    (λ _ st, ∃ v, e_cpu st = set_eax v user_demo).
Proof.
  assert (Hw : wp (syscall_handler 3 10 no_loader (seen 0x106000 128 0 user_demo ∅)) sys_demo (λ _ _, True)) by (vm_compute; exact I).
  eapply wp_mono; [exact (system_call_returns 3 10 no_loader 0x100200 (λ _, (0, 0, 0, 0)) 0x106000 0x100000 user_demo ∅ sys_demo
    (λ _ _, True) eq_refl eq_refl eq_refl ltac:(lia) Hw)|].
  intros u st (v & _ & _ & Hc & _). exists v. exact Hc.
Defined.
