(* ===== verification/Shell.v ===== *)
(** * The shell (src/userspace/shell.c, src/userspace/test.c)

    The command line in user mode: its string functions, its system calls and its command
    loop, over the bytes of its address space.  A system call runs the handler of Syscalls.v;
    the program loader is a parameter of it, and may refuse a program, return from it or enter
    it (Elf.v has the one of the kernel).  The abstract dialogue is the relation [session]. *)

From S2P Require Import Prelude Pic Idt Timer Keyboard Console Login Syscalls.

(** ** Data *)

(** Where the linker and the compiler put the string literals and the two local arrays. *)
Class ShellImage := {
  lit_at : string → Z;
  buffer_at : Z;
  path_at : Z
}.

(** The length of the arrays [buffer] and [path]. *)
Definition BUFFER_SIZE : Z := 128.

Definition nl : string := String (Ascii.ascii_of_nat 10) EmptyString.

(** The registers at a system call. *)
Definition with_args (eax ebx ecx : Z) (r : registers) : registers :=
  mkRegs (rg_ds r) (rg_edi r) (rg_esi r) (rg_ebp r) (rg_esp r) (w32 ebx) (rg_edx r) (w32 ecx) (w32 eax)
    0x80 (err_code r) (rg_eip r) (rg_cs r) (rg_eflags r) (rg_useresp r) (rg_ss r).

(** ** Operations *)

Section shell.
Context {K : Type} `{Device K} `{Input K} `{ShellImage}.
Context (polls fuel : nat) (elf_exec : list Z → M (sys K) Z).

(** The registers the program does not set for the call. *)
Context (user : registers).

Definition syscall2 (num arg1 arg2 : Z) : M (sys K) Z :=
  r ← syscall_handler polls fuel elf_exec (with_args num arg1 arg2 user);
  ret (s32 (rg_eax r)).

(** [ecx] is whatever it was. *)
Definition syscall1 (num arg1 : Z) : M (sys K) Z := syscall2 num arg1 (rg_ecx user).

Definition write (s : Z) : M (sys K) unit := syscall1 SYS_WRITE s;; skip.

Definition read (buffer max_len : Z) : M (sys K) Z := syscall2 SYS_READ buffer max_len.

Definition exec (path : Z) : M (sys K) Z := syscall1 SYS_EXEC path.

Definition exit (code : Z) : M (sys K) unit := syscall1 SYS_EXIT code;; skip.

(** [while (str[len]) len++]; the loops over strings take [n] rounds at most. *)
Fixpoint strlen (n : nat) (s len : Z) : M (sys K) Z :=
  match n with
  | O => no_fuel
  | S n => c ← load8 (s + len); if truth c then strlen n s (len + 1) else ret len
  end.

Fixpoint strcmp (n : nat) (s1 s2 : Z) : M (sys K) Z :=
  match n with
  | O => no_fuel
  | S n =>
      a ← load8 s1;
      b ← load8 s2;
      if truth a && (a =? b) then strcmp n (s1 +w 1) (s2 +w 1) else ret (a - b)
  end.

(** [while (( *dest++ = *src++ ))]. *)
Fixpoint strcpy (n : nat) (dest src : Z) : M (sys K) unit :=
  match n with
  | O => no_fuel
  | S n =>
      c ← load8 src;
      store8 dest c;;
      if truth c then strcpy n (dest +w 1) (src +w 1) else skip
  end.

(** [path[i] = c]. *)
Definition path_store (i c : Z) : M (sys K) unit :=
  if (0 <=? i) && (i <? BUFFER_SIZE) then store8 (path_at + i) c else undef.

(** The conversion to upper case, from index [i] on. *)
Fixpoint upper_loop (n : nat) (i : Z) : M (sys K) unit :=
  match n with
  | O => no_fuel
  | S n =>
      c ← load8 (buffer_at + i);
      if truth c then
        path_store i (if (97 <=? c) && (c <=? 122) then c - 32 else c);;
        upper_loop n (i + 1)
      else skip
  end.

(** [strcmp(buffer, name) == 0]. *)
Definition is_command (name : string) : M (sys K) bool :=
  r ← strcmp fuel buffer_at (lit_at name);
  ret (r =? 0).

(** The program named by the line of [len] characters. *)
Definition run_program (len : Z) : M (sys K) unit :=
  upper_loop fuel 0;;
  path_store len 0;;
  result ← exec path_at;
  if result <? 0 then
    write (lit_at "Command not found: ");;
    write buffer_at;;
    write (lit_at nl)
  else skip.

(** The chain of commands. *)
Definition run_command (len : Z) : M (sys K) unit :=
  help ← is_command "help";
  if help : bool then
    write (lit_at ("Available commands:" +:+ nl));;
    write (lit_at ("  help  - Show this help" +:+ nl));;
    write (lit_at ("  clear - Clear screen" +:+ nl));;
    write (lit_at ("  test  - Run test program" +:+ nl));;
    write (lit_at ("  exit  - Exit shell" +:+ nl +:+ nl))
  else
  clear ← is_command "clear";
  clear ← (if clear : bool then ret true else is_command "cls");
  if clear : bool then for_ 0 (trips 0 25) (λ _, write (lit_at nl))
  else
  quit ← is_command "exit";
  if quit : bool then
    write (lit_at ("Goodbye!" +:+ nl));;
    exit 0
  else if 0 <? len then run_program len
  else skip.

(** One round of the loop of [_start]. *)
Definition shell_round : M (sys K) unit :=
  write (lit_at "FlowOS> ");;
  len ← read buffer_at BUFFER_SIZE;
  if len =? 0 then skip
  else
    write (lit_at nl);;
    run_command len.

Fixpoint shell_loop (rounds : nat) : M (sys K) unit :=
  match rounds with
  | O => no_fuel
  | S rounds => shell_round;; shell_loop rounds
  end.

(** [_start]; the loop has no end but those of a round. *)
Definition shell_start (rounds : nat) : M (sys K) unit :=
  write (lit_at (nl +:+ nl +:+ "*** FlowOS Shell ***" +:+ nl));;
  write (lit_at ("Type 'help' for available commands" +:+ nl +:+ nl));;
  shell_loop rounds.

(** The test program: a message, and then an endless loop. *)
Definition test_start : M (sys K) unit :=
  syscall1 SYS_WRITE (lit_at ("Hello from userspace program!" +:+ nl));;
  halt.

End shell.

(** ** What the machine promises: the serial port and the keyboard do not disturb each other *)
Class Terminal (K : Type) `{UartDevice K} `{InputOk K} := {
  term_in k : in_inv k → in_inv (dev_in 0x3FD k).2 ∧ typed_ahead (dev_in 0x3FD k).2 = typed_ahead k;
  term_out v k : in_inv k → in_inv (dev_out 0x3F8 v k) ∧ typed_ahead (dev_out 0x3F8 v k) = typed_ahead k;
  term_key k c cs :
    in_inv k → uart_ready k → typed_ahead k = c :: cs →
    wp in_get_char k (λ r k', (r = c ∧ in_inv k' ∧ typed_ahead k' = cs) ∧
      uart_ready k' ∧ u_sent (uart_of k') = u_sent (uart_of k));
  term_wait n k :
    in_inv k → uart_ready k → is_u32 n → Z.of_nat (length (typed_ahead k)) ≤ 255 →
    wp (in_wait n) k (λ _ k', (in_inv k' ∧ typed_ahead k' = typed_ahead k) ∧
      uart_ready k' ∧ u_sent (uart_of k') = u_sent (uart_of k))
}.

(** ** Abstract view: the dialogue of the shell *)

Definition upper (c : Z) : Z := if (97 <=? c) && (c <=? 122) then c - 32 else c.

(** What a log line looks like on the serial port. *)
Definition logline (txt : list Z) : list Z := str "[INFO] " ++ txt ++ [10].

Definition sent_lines (msgs : list (list Z)) : list Z := concat (logline <$> msgs).

(** The messages of a command that is not a program, and whether it ends the shell. *)
Definition builtin (line : list Z) : option (list (list Z)) :=
  if decide (line = str "help") then
    Some (str <$> ["Available commands:" +:+ nl; "  help  - Show this help" +:+ nl; "  clear - Clear screen" +:+ nl;
      "  test  - Run test program" +:+ nl; "  exit  - Exit shell" +:+ nl +:+ nl])
  else if decide (line = str "clear" ∨ line = str "cls") then Some (replicate 25 (str nl))
  else None.

(** The line that is edited from the keys, and the keys after it. *)
Definition typed (keys line rest : list Z) : Prop := sys_edit BUFFER_SIZE [] keys = Some (line, rest).

(** One of the next [n] lines is [exit]. *)
Fixpoint exits (n : nat) (keys : list Z) : bool :=
  match n with
  | O => false
  | S n => match sys_edit BUFFER_SIZE [] keys with
           | Some (line, rest) => bool_decide (line = str "exit") || exits n rest
           | None => false
           end
  end.

(** The dialogue.  [answer path result out] says what the loader may do about a program: send
    [out] over the serial line and return a result, or enter the program and not come back. *)
Section dialogue.
Context (answer : list Z → option Z → list Z → Prop).

Definition not_found (line : list Z) : list Z := sent_lines [str "Command not found: "; line; str nl].

(** What the shell sends after a line that is neither empty nor [exit], before it asks again. *)
Definition reply (line out : list Z) : Prop :=
  match builtin line with
  | Some msgs => out = sent_lines msgs
  | None => ∃ v log, answer (upper <$> line) (Some v) log ∧ out = log ++ (if v <? 0 then not_found line else [])
  end.

(** A session from the keys that are typed to those that are left, with the bytes sent. *)
Inductive session : list Z → list Z → list Z → Prop :=
| session_empty keys rest rest' out :
    typed keys [] rest → session rest rest' out → session keys rest' (logline (str "FlowOS> ") ++ out)
| session_exit keys rest :
    typed keys (str "exit") rest →
    session keys rest (sent_lines [str "FlowOS> "; str nl; str ("Goodbye!" +:+ nl); str "Process exited"])
| session_reply keys line rest rest' o out :
    typed keys line rest → line ≠ [] → line ≠ str "exit" → reply line o → session rest rest' out →
    session keys rest' (sent_lines [str "FlowOS> "; str nl] ++ o ++ out)
| session_program keys line rest log :
    typed keys line rest → line ≠ [] → line ≠ str "exit" → builtin line = None → answer (upper <$> line) None log →
    session keys rest (sent_lines [str "FlowOS> "; str nl] ++ log).

End dialogue.

Definition shell_literals : list string :=
  [nl +:+ nl +:+ "*** FlowOS Shell ***" +:+ nl; "Type 'help' for available commands" +:+ nl +:+ nl; "FlowOS> "; nl;
   "help"; "clear"; "cls"; "exit"; "Available commands:" +:+ nl; "  help  - Show this help" +:+ nl;
   "  clear - Clear screen" +:+ nl; "  test  - Run test program" +:+ nl; "  exit  - Exit shell" +:+ nl +:+ nl;
   "Goodbye!" +:+ nl; "Command not found: "].

(** The layout: the two arrays are apart and inside the address space, and so are the
    literals, which are in memory. *)
Definition apart_from_arrays `{ShellImage} (a : Z) : Prop :=
  ~ (buffer_at ≤ a < buffer_at + 128) ∧ ~ (path_at ≤ a < path_at + 128).

Definition shell_layout `{ShellImage} : Prop :=
  0 ≤ buffer_at ∧ buffer_at + 128 ≤ 4294967296 ∧ 0 ≤ path_at ∧ path_at + 128 ≤ 4294967296 ∧
  (buffer_at + 128 ≤ path_at ∨ path_at + 128 ≤ buffer_at) ∧
  ∀ l, l ∈ shell_literals → ∀ i, 0 ≤ i ≤ Z.of_nat (length (str l)) → apart_from_arrays (lit_at l + i).

Definition literals_in `{ShellImage} (m : gmap Z Z) : Prop :=
  ∀ l, l ∈ shell_literals → user_string m (lit_at l) (str l).

(** ** Lemmas *)

Lemma literals_text l : l ∈ shell_literals → Forall (λ c, 0 ≤ c < 256) (str l) ∧ (length (str l) < 64)%nat.
Proof.
  intros Hl. assert (Hall : forallb (λ l, forallb (λ c, (0 <=? c) && (c <? 256)) (str l) && (length (str l) <? 64)%nat)
    shell_literals = true) by (vm_compute; reflexivity).
  rewrite forallb_forall in Hall. apply list_elem_of_In in Hl. specialize (Hall l Hl).
  apply andb_prop in Hall as [H1 H2%Nat.ltb_lt]. split; [by apply bytes_checked|done].
Qed.

Ltac lit_in := refine (bool_decide_unpack _ _); vm_compute; exact I.

(** Comparing two strings. *)
Fixpoint compare (a b : list Z) : Z :=
  match a, b with
  | [], [] => 0
  | [], y :: _ => - y
  | x :: _, [] => x
  | x :: a, y :: b => if x =? y then compare a b else x - y
  end.

Lemma compare_eq a b : (0 ∉ a) → (0 ∉ b) → compare a b = 0 ↔ a = b.
Proof.
  revert b. induction a as [|x a IH]; intros [|y b] Ha Hb; cbn; try done.
  - apply not_elem_of_cons in Hb as [? _]. split; [lia|done].
  - apply not_elem_of_cons in Ha as [? _]. split; [lia|done].
  - apply not_elem_of_cons in Ha as [? Ha], Hb as [? Hb]. destruct (Z.eqb_spec x y) as [->|Hne].
    + rewrite IH by done. split; [by intros ->|by intros [= ->]].
    + split; [lia|by intros [= -> _]].
Qed.

Lemma in_memory_tail m p c l : in_memory m p (c :: l) → m !! p = Some c ∧ in_memory m (p + 1) l.
Proof.
  intros Hm. split.
  - specialize (Hm 0%nat c eq_refl). by rewrite Z.add_0_r in Hm.
  - intros i x Hx. replace (p + 1 + Z.of_nat i) with (p + Z.of_nat (S i)) by lia. by apply Hm.
Qed.

Lemma wp_load8 {K} p c (s : sys K) (Q : Z → sys K → Prop) :
  is_u32 p → mem s !! p = Some c → Q c s → wp (load8 p) s Q.
Proof. intros Hp Hm HQ. unfold load8. wp_step. rewrite w32_small by done. by rewrite Hm. Qed.

Lemma wp_strcmp {K} n p q a b (s : sys K) (Q : Z → sys K → Prop) :
  user_string (mem s) p a → user_string (mem s) q b → (length a < n)%nat →
  Q (compare a b) s → wp (strcmp n p q) s Q.
Proof.
  revert p q b n. induction a as [|x a IH]; intros p q b [|n] (Hp & Hpl & Hza & Hma) (Hq & Hql & Hzb & Hmb) Hn HQ;
    cbn [length] in *; try lia; cbn [strcmp]; wp_step.
  - apply in_memory_tail in Hma as [Hma _]. apply wp_load8 with 0; [done|done|]. wp_step.
    destruct b as [|y b]; apply in_memory_tail in Hmb as [Hmb _].
    + apply wp_load8 with 0; [done..|]. exact HQ.
    + apply wp_load8 with y; [done..|]. exact HQ.
  - rewrite <- app_comm_cons in Hma. apply in_memory_tail in Hma as [Hx Hma]. apply wp_load8 with x; [done|done|]. wp_step.
    apply not_elem_of_cons in Hza as [Hx0 Hza]. rewrite (proj2 (truth_true x)) by lia.
    destruct b as [|y b].
    + apply in_memory_tail in Hmb as [Hmb _]. apply wp_load8 with 0; [done..|].
      destruct (Z.eqb_spec x 0); [lia|]. cbn [andb]. wp_step. cbn [compare] in HQ. by rewrite Z.sub_0_r.
    + cbn [length] in *. rewrite <- app_comm_cons in Hmb. apply in_memory_tail in Hmb as [Hy Hmb].
      apply not_elem_of_cons in Hzb as [Hy0 Hzb]. apply wp_load8 with y; [done..|]. cbn [compare] in HQ.
      destruct (Z.eqb_spec x y) as [->|]; cbn [andb]; [|by wp_step].
      unfold is_u32 in *. rewrite !w32_small by (unfold is_u32; lia).
      apply (IH _ _ b); [unfold user_string, is_u32; split_and!; (done || lia)..|lia|exact HQ].
Qed.

Section terminal.
Context {K : Type} `{Terminal K} `{ShellImage}.
Context (polls fuel : nat) (elf_exec : list Z → M (sys K) Z) (user : registers).
Context (Hpolls : (uart_delay < polls)%nat) (Hfuel : (256 ≤ fuel)%nat).
Implicit Types s : sys K.

(** The machine with these keys typed ahead and these bytes sent on the serial line. *)
Definition term s (keys sent : list Z) : Prop :=
  con_wf (con s) ∧ uart_ready (machine (con s)) ∧ in_inv (machine (con s)) ∧
  typed_ahead (machine (con s)) = keys ∧ u_sent (uart_of (machine (con s))) = sent.

(** Reading keys with the serial port at rest. *)
Program Definition term_input (sent : list Z) : InputOk K := {|
  in_inv k := in_inv k ∧ uart_ready k ∧ u_sent (uart_of k) = sent;
  typed_ahead := typed_ahead
|}.
Next Obligation.
  intros sent k c cs (Hi & Hu & Hs) Ht. eapply wp_mono; [by apply term_key|].
  intros r k' ((-> & Hi' & Ht') & Hu' & Hs'). rewrite Hs'. by split_and!.
Qed.
Next Obligation.
  intros sent n k (Hi & Hu & Hs) Hn Hl. eapply wp_mono; [by apply term_wait|].
  intros [] k' ((Hi' & Ht') & Hu' & Hs'). rewrite Hs'. by split_and!.
Qed.

(** A log line of a system call. *)
Lemma wp_term_log msg txt s keys sent (Q : unit → sys K → Prop) :
  term s keys sent → holds msg txt → Forall (λ c, 0 ≤ c < 256) txt →
  (∀ s', mem s' = mem s → term s' keys (sent ++ logline txt) → Q tt s') →
  wp (in_con (log_info polls msg)) s Q.
Proof.
  intros (Hwf & Hu & Hi & Ht & Hs) Hm Hb HQ. apply wp_in_con.
  apply (wp_log_any (λ k, in_inv k ∧ typed_ahead k = keys)) with txt; try done.
  - intros k [Hk Hkt]. destruct (term_in k Hk) as [? ->]. done.
  - intros v k [Hk Hkt]. destruct (term_out v k Hk) as [? ->]. done.
  - apply Hwf.
  - intros c' Hwf' Hu' [Hi' Ht'] Hs' _. apply HQ; [done|]. unfold term. cbn [con]. by rewrite Hs', Hs.
Qed.

Lemma wp_write p txt s keys sent (Q : unit → sys K → Prop) :
  term s keys sent → user_string (mem s) p txt → Forall (λ c, 0 ≤ c < 256) txt → (length txt < fuel)%nat →
  (∀ s', mem s' = mem s → term s' keys (sent ++ logline txt) → Q tt s') →
  wp (write polls fuel elf_exec user p) s Q.
Proof.
  intros Ht (Hp & Hpl & Hz & Hm) Hb Hf HQ. unfold write, syscall1, syscall2, syscall_handler. wp_step. wp_step. wp_step.
  cbn [rg_eax rg_ebx with_args]. change (w32 SYS_WRITE) with SYS_WRITE. change (SYS_WRITE =? SYS_EXIT) with false.
  change (SYS_WRITE =? SYS_READ) with false. change (SYS_WRITE =? SYS_WRITE) with true. cbv iota.
  rewrite w32_small by done. unfold sys_write. wp_step. wp_step.
  apply wp_string_at with txt; [apply Hp|done..|]. apply wp_term_log with txt keys sent; [done| |done|].
  - split; [done|by exists []].
  - intros s' Hm' Ht'. repeat wp_step. by apply HQ.
Qed.

(** A literal of the program. *)
Lemma wp_write_lit l s keys sent (Q : unit → sys K → Prop) :
  term s keys sent → literals_in (mem s) → l ∈ shell_literals →
  (∀ s', mem s' = mem s → term s' keys (sent ++ logline (str l)) → Q tt s') →
  wp (write polls fuel elf_exec user (lit_at l)) s Q.
Proof.
  intros Ht Hl Hin HQ. destruct (literals_text l Hin). apply wp_write with (str l) keys sent; [done|by apply Hl|done|lia|done].
Qed.

Lemma wp_read s keys sent line rest (Q : Z → sys K → Prop) :
  term s keys sent → Forall (λ c, 0 < c < 256) keys → shell_layout → (length keys < fuel)%nat →
  sys_edit BUFFER_SIZE [] keys = Some (line, rest) →
  (∀ s', term s' rest sent → in_memory (mem s') buffer_at (line ++ [0]) → (length line < 128)%nat →
     (∀ a, ~ buffer_at ≤ a < buffer_at + 128 → mem s' !! a = mem s !! a) → Q (Z.of_nat (length line)) s') →
  wp (read polls fuel elf_exec user buffer_at BUFFER_SIZE) s Q.
Proof.
  intros (Hwf & Hu & Hi & Ht & Hs) Hk (Hb0 & Hb1 & _) Hf He HQ. unfold read, syscall2, syscall_handler. wp_step. wp_step.
  cbn [rg_eax rg_ebx rg_ecx with_args]. change (w32 SYS_READ) with SYS_READ. change (SYS_READ =? SYS_EXIT) with false.
  change (SYS_READ =? SYS_READ) with true. cbv iota. rewrite (w32_small buffer_at) by (unfold is_u32; lia).
  unfold sys_read. change (s32 (w32 BUFFER_SIZE)) with 128. change (128 =? -2147483648) with false. cbv iota.
  refine (@wp_sys_read_loop K _ (term_input sent) fuel buffer_at 128 [] s line rest _ Hwf _ _ _ _ _ _ _ _ _ _).
  - by split_and!.
  - cbn. rewrite Ht. eapply Forall_impl; [exact Hk|]. intros c Hc. cbn in *. lia.
  - done.
  - lia.
  - lia.
  - cbn. by rewrite Ht.
  - cbn. by rewrite Ht.
  - by left.
  - intros i c Hic. done.
  - intros m c Hwf' (Hi' & Hu' & Hs') Ht' Hm Hout Hl. wp_step. wp_step.
    assert (Z.of_nat (length line) < 128) by (destruct Hl as [->|]; [cbn; lia|lia]).
    cbn [rg_eax with_eax]. rewrite w32_small by (unfold is_u32; lia). unfold s32. rewrite w32_small by (unfold is_u32; lia).
    destruct (Z.ltb_spec (Z.of_nat (length line)) 2147483648); [|lia]. apply HQ; [by split_and!|done|lia|done].
Qed.

(** Changes inside the arrays leave the literals alone. *)
Lemma literals_keep m m' :
  shell_layout → literals_in m → (∀ a, apart_from_arrays a → m' !! a = m !! a) → literals_in m'.
Proof.
  intros (_ & _ & _ & _ & _ & Hlay) Hl Hm l Hin. destruct (Hl l Hin) as (Hp & Hpl & Hz & Hmem). split_and!; [apply Hp..|done|done|].
  intros i c Hi. rewrite Hm; [by apply Hmem|]. apply Hlay; [done|].
  apply lookup_lt_Some in Hi. rewrite length_app in Hi. cbn in Hi. lia.
Qed.

Lemma wp_is_command name line s (Q : bool → sys K → Prop) :
  literals_in (mem s) → name ∈ shell_literals → user_string (mem s) buffer_at line → (length line < 128)%nat →
  Q (bool_decide (line = str name)) s → wp (is_command fuel name) s Q.
Proof.
  intros Hl Hin Hline Hlen HQ. unfold is_command. wp_step. pose proof (Hl name Hin) as Hname.
  apply wp_strcmp with line (str name); [done|done|lia|]. wp_step.
  replace (compare line (str name) =? 0) with (bool_decide (line = str name)); [done|].
  apply eq_true_iff_eq. rewrite bool_decide_eq_true, Z.eqb_eq.
  symmetry. apply compare_eq; [apply Hline|apply Hname].
Qed.

Lemma wp_path_store i c s (Q : unit → sys K → Prop) :
  shell_layout → 0 ≤ i < 128 → 0 ≤ c < 256 →
  Q tt (mkSys (<[path_at + i := c]> (mem s)) (con s)) → wp (path_store i c) s Q.
Proof.
  intros (_ & _ & Hp0 & Hp1 & _) Hi Hc HQ. unfold path_store, BUFFER_SIZE, store8.
  destruct (Z.leb_spec 0 i), (Z.ltb_spec i 128); try lia. cbn [andb]. wp_step.
  rewrite w32_small by (unfold is_u32; lia). rewrite w8_small by lia. exact HQ.
Qed.

Lemma upper_byte c : 0 < c < 256 → 0 < upper c < 256.
Proof. intros. unfold upper. destruct (Z.leb_spec 97 c), (Z.leb_spec c 122); cbn [andb]; lia. Qed.

Lemma in_memory_snoc m p l c : in_memory m p l → in_memory (<[p + Z.of_nat (length l) := c]> m) p (l ++ [c]).
Proof.
  intros Hm i x Hx. destruct (decide (i = length l)) as [->|Hne].
  - rewrite lookup_app_r, Nat.sub_diag in Hx by lia. injection Hx as <-. apply lookup_insert_eq.
  - rewrite lookup_insert_ne by lia. apply Hm. apply lookup_app_Some in Hx as [|[? Hx]]; [done|].
    apply lookup_lt_Some in Hx. cbn in Hx. lia.
Qed.

Lemma wp_upper_loop n line pre suf s (Q : unit → sys K → Prop) :
  shell_layout → line = pre ++ suf → Forall (λ c, 0 < c < 256) line → (length line < 128)%nat → (length suf < n)%nat →
  in_memory (mem s) buffer_at (line ++ [0]) → in_memory (mem s) path_at (upper <$> pre) →
  (∀ s', con s' = con s → in_memory (mem s') path_at (upper <$> line) →
     (∀ a, ~ path_at ≤ a < path_at + 128 → mem s' !! a = mem s !! a) → Q tt s') →
  wp (upper_loop n (Z.of_nat (length pre))) s Q.
Proof.
  intros Hlay Hline Hby Hlen. revert pre suf s Hline. induction n as [|n IH]; intros pre suf s Hline Hn Hbuf Hpath HQ; [lia|].
  cbn [upper_loop]. wp_step. pose proof Hlay as (Hb0 & Hb1 & Hp0 & Hp1 & Hd & _).
  assert (Hat : mem s !! (buffer_at + Z.of_nat (length pre)) = Some (hd 0 suf)).
  { apply Hbuf. subst line. rewrite <- app_assoc, lookup_app_r, Nat.sub_diag by lia. by destruct suf. }
  assert (length line = (length pre + length suf)%nat) by (subst line; apply length_app).
  apply wp_load8 with (hd 0 suf); [unfold is_u32; lia|done|]. destruct suf as [|c suf]; cbn [hd].
  - change (truth 0) with false. cbv iota. wp_step. rewrite app_nil_r in Hline. subst pre. by apply HQ.
  - assert (Hc : 0 < c < 256) by (subst line; apply Forall_app in Hby as [_ [? _]%Forall_cons]; done).
    rewrite (proj2 (truth_true c)) by lia. fold (upper c). wp_step. cbn [length] in *. pose proof (upper_byte c Hc).
    apply wp_path_store; [done|lia|lia|].
    replace (Z.of_nat (length pre) + 1) with (Z.of_nat (length (pre ++ [c]))) by (rewrite length_app; cbn; lia).
    apply (IH _ suf); cbn [mem con]; [by rewrite <- app_assoc|lia| | |].
    + intros i x Hx. rewrite lookup_insert_ne; [by apply Hbuf|]. apply lookup_lt_Some in Hx. rewrite length_app in Hx. cbn in Hx. lia.
    + rewrite fmap_app. cbn [fmap list_fmap]. replace (length pre) with (length (upper <$> pre)) by apply length_fmap.
      by apply in_memory_snoc.
    + intros s' Hc' Hp' Hout. apply HQ; [done|done|]. intros a Ha. rewrite Hout by done. rewrite lookup_insert_ne by lia. done.
Qed.

Lemma sent_lines_app l1 l2 : sent_lines (l1 ++ l2) = sent_lines l1 ++ sent_lines l2.
Proof. unfold sent_lines. by rewrite fmap_app, concat_app. Qed.

Lemma sent_lines_cons m l : sent_lines (m :: l) = logline m ++ sent_lines l.
Proof. done. Qed.

(** Several literals in a row. *)
Lemma wp_write_lits (ls : list string) (k : M (sys K) unit) s keys sent (Q : unit → sys K → Prop) :
  term s keys sent → literals_in (mem s) → Forall (λ l, l ∈ shell_literals) ls →
  (∀ s', mem s' = mem s → term s' keys (sent ++ sent_lines (str <$> ls)) → wp k s' Q) →
  wp (foldr (λ l m, write polls fuel elf_exec user (lit_at l);; m) k ls) s Q.
Proof.
  intros Ht Hl Hin. revert s sent Ht Hl. induction Hin as [|l ls Hin _ IH]; intros s sent Ht Hl HQ; cbn [foldr].
  - apply HQ; [done|]. by rewrite app_nil_r.
  - wp_step. apply wp_write_lit with keys sent; [done..|]. intros s1 Hm1 Ht1. apply (IH _ (sent ++ logline (str l)));
      [done|by rewrite Hm1|]. intros s2 Hm2 Ht2. apply HQ; [congruence|].
    rewrite <- app_assoc in Ht2. exact Ht2.
Qed.

(** What is known of the loader: it returns a result, with the memory of the shell as before, or
    enters a program; it reads no keys, and what it sends fits its answer. *)
Context (answer : list Z → option Z → list Z → Prop).
Context (Hloader : ∀ path s keys sent, term s keys sent → Forall (λ c, 0 < c < 256) path → (length path < 128)%nat →
  ends (elf_exec (path ++ [0])) s
    (λ v s', -2147483648 ≤ v < 2147483648 ∧ mem s' = mem s ∧ ∃ out, answer path (Some v) out ∧ term s' keys (sent ++ out))
    (λ s', ∃ out, answer path None out ∧ term s' keys (sent ++ out))).

Lemma ends_exec path s keys sent (Q : Z → sys K → Prop) (R : sys K → Prop) :
  term s keys sent → user_string (mem s) path_at path → Forall (λ c, 0 < c < 256) path → (length path < 128)%nat →
  (∀ v s' out, mem s' = mem s → answer path (Some v) out → term s' keys (sent ++ out) → Q v s') →
  (∀ s' out, answer path None out → term s' keys (sent ++ out) → R s') →
  ends (exec polls fuel elf_exec user path_at) s Q R.
Proof.
  intros Ht (Hp & Hpl & Hz & Hm) Hby Hlen HQ HR. unfold exec, syscall1, syscall2, syscall_handler. apply ends_bind, ends_bind.
  cbn [rg_eax rg_ebx with_args]. change (w32 SYS_EXEC) with SYS_EXEC. change (SYS_EXEC =? SYS_EXIT) with false.
  change (SYS_EXEC =? SYS_READ) with false. change (SYS_EXEC =? SYS_WRITE) with false. change (SYS_EXEC =? SYS_EXEC) with true.
  cbv iota. rewrite w32_small by done. unfold sys_exec. apply ends_seq. apply wp_string_at with path; [apply Hp|first [done|lia]..|].
  eapply ends_mono; [by apply (Hloader path s keys sent)| |].
  - intros v s' (Hv & Hm' & out & Ha & Ht'). apply ends_wp. wp_step. apply ends_wp. wp_step.
    cbn [rg_eax with_eax]. unfold s32. rewrite w32_idem.
    replace (if w32 v <? 2147483648 then w32 v else w32 v - 4294967296) with v; [by apply (HQ v s' out)|].
    unfold w32. clear -Hv. destruct (Z.ltb_spec (v mod 4294967296) 2147483648); mlia.
  - intros s' (out & Ha & Ht'). by apply (HR s' out).
Qed.

(** A line that is no command of the shell. *)
Lemma ends_run_program line s keys sent (Q : unit → sys K → Prop) (R : sys K → Prop) :
  term s keys sent → shell_layout → literals_in (mem s) → Forall (λ c, 0 < c < 256) line → (length line < 128)%nat →
  in_memory (mem s) buffer_at (line ++ [0]) →
  (∀ v s' log, answer (upper <$> line) (Some v) log → literals_in (mem s') →
     term s' keys (sent ++ log ++ (if v <? 0 then not_found line else [])) → Q tt s') →
  (∀ s' log, answer (upper <$> line) None log → term s' keys (sent ++ log) → R s') →
  ends (run_program polls fuel elf_exec user (Z.of_nat (length line))) s Q R.
Proof.
  intros Ht Hlay Hl Hby Hlen Hbuf HQ HR. pose proof Hlay as (Hb0 & Hb1 & Hp0 & Hp1 & Hd & _). unfold run_program. apply ends_seq.
  apply (wp_upper_loop fuel line [] line); [done|done|done|done|lia|done|intros i x Hx; done|]. intros s1 Hc1 Hp1' Hm1. apply ends_seq.
  apply wp_path_store; [done|lia|lia|]. set (s2 := mkSys _ _).
  assert (Hm2 : ∀ a, ~ path_at ≤ a < path_at + 128 → mem s2 !! a = mem s !! a).
  { intros a Ha. cbn [s2 mem]. rewrite lookup_insert_ne by lia. by apply Hm1. }
  assert (Ht2 : term s2 keys sent) by (unfold term in *; cbn [s2 con]; by rewrite Hc1).
  assert (Hlit2 : literals_in (mem s2)) by (apply (literals_keep (mem s)); [done|done|intros a [? ?]; by apply Hm2]).
  assert (Hpath : user_string (mem s2) path_at (upper <$> line)).
  { unfold user_string, is_u32. rewrite length_fmap. split; [lia|]. split; [lia|]. split.
    - intros (c & Hc & Hin)%list_elem_of_fmap. rewrite Forall_forall in Hby. pose proof (upper_byte c (Hby c Hin)). lia.
    - cbn [s2 mem]. replace (length line) with (length (upper <$> line)) by apply length_fmap. by apply in_memory_snoc. }
  assert (Hline : ∀ m, (∀ a, mem s2 !! a = m !! a) → user_string m buffer_at line).
  { intros m Hm. split; [unfold is_u32; lia|]. split; [lia|]. split.
    - intros Hin. rewrite Forall_forall in Hby. specialize (Hby 0 Hin). lia.
    - intros i x Hx. rewrite <- Hm, Hm2; [by apply Hbuf|]. apply lookup_lt_Some in Hx. rewrite length_app in Hx. cbn in Hx. lia. }
  apply ends_bind, (ends_exec (upper <$> line) s2 keys sent); [done|done| |by rewrite length_fmap| |exact HR].
  { apply Forall_fmap. eapply Forall_impl; [exact Hby|]. intros c Hc. by apply upper_byte. }
  intros v s3 log Hm3 Ha Ht3. apply ends_wp. destruct (Z.ltb_spec v 0) as [Hv|Hv].
  - wp_step. eapply wp_write_lit; [exact Ht3|by rewrite Hm3|lit_in|]. intros s4 Hm4 Ht4. wp_step.
    eapply (wp_write buffer_at line); [exact Ht4|apply Hline; intros a; by rewrite Hm4, Hm3
      |eapply Forall_impl; [exact Hby|]; cbn; lia|lia|]. intros s5 Hm5 Ht5.
    eapply wp_write_lit; [exact Ht5|by rewrite Hm5, Hm4, Hm3|lit_in|]. intros s6 Hm6 Ht6.
    apply (HQ v s6 log); [done|by rewrite Hm6, Hm5, Hm4, Hm3|]. destruct (Z.ltb_spec v 0); [|lia].
    unfold not_found. rewrite !sent_lines_cons. change (sent_lines []) with (@nil Z). rewrite app_nil_r, !app_assoc.
    exact Ht6.
  - wp_step. apply (HQ v s3 log); [done|by rewrite Hm3|]. destruct (Z.ltb_spec v 0); [lia|]. by rewrite app_nil_r.
Qed.

(** A line of the caller as a string of the shell's memory. *)
Lemma line_string line (m : gmap Z Z) :
  shell_layout → Forall (λ c, 0 < c < 256) line → (length line < 128)%nat → in_memory m buffer_at (line ++ [0]) →
  user_string m buffer_at line.
Proof.
  intros (Hb0 & Hb1 & _) Hby Hlen Hbuf. split; [unfold is_u32; lia|]. split; [lia|]. split; [|done].
  intros Hin. rewrite Forall_forall in Hby. specialize (Hby 0 Hin). lia.
Qed.

(** The chain of commands after [help]; [b] tells whether the line asks to clear the screen. *)
Lemma ends_clear_or_run (b : bool) line s keys sent (Q : unit → sys K → Prop) (R : sys K → Prop) :
  term s keys sent → shell_layout → literals_in (mem s) → Forall (λ c, 0 < c < 256) line → (0 < length line < 128)%nat →
  in_memory (mem s) buffer_at (line ++ [0]) → line ≠ str "exit" → line ≠ str "help" →
  (b = true ↔ line = str "clear" ∨ line = str "cls") →
  (∀ s' o, reply answer line o → term s' keys (sent ++ o) → literals_in (mem s') → Q tt s') →
  (∀ s' log, builtin line = None → answer (upper <$> line) None log → term s' keys (sent ++ log) → R s') →
  ends (if b then for_ 0 (trips 0 25) (λ _, write polls fuel elf_exec user (lit_at nl))
      else quit ← is_command fuel "exit";
        if quit : bool then
          write polls fuel elf_exec user (lit_at ("Goodbye!" +:+ nl));;
          exit polls fuel elf_exec user 0
        else if 0 <? Z.of_nat (length line) then run_program polls fuel elf_exec user (Z.of_nat (length line))
        else skip) s Q R.
Proof.
  intros Ht Hlay Hl Hby Hlen Hbuf Hexit Hhelp Hb HQ HR. unfold reply, builtin in HQ, HR.
  rewrite !decide_False in HQ, HR by done. destruct b.
  - rewrite decide_True in HQ by by apply Hb. change (trips 0 25) with 25%nat.
    apply ends_wp, wp_for with (λ j s', mem s' = mem s ∧ term s' keys (sent ++ sent_lines (replicate (Z.to_nat j) (str nl)))).
    + split; [done|]. by rewrite app_nil_r.
    + intros j s' Hj [Hm Ht']. eapply wp_write_lit; [exact Ht'|by rewrite Hm|lit_in|]. intros s2 Hm2 Ht2. split; [congruence|].
      replace (Z.to_nat (j + 1)) with (Z.to_nat j + 1)%nat by lia. rewrite replicate_add, sent_lines_app, app_assoc. exact Ht2.
    + intros s' [Hm Ht']. eapply HQ; [reflexivity|exact Ht'|by rewrite Hm].
  - rewrite decide_False in HQ, HR by (intros Hx; by apply Hb in Hx). apply ends_seq.
    apply wp_is_command with line; [done|lit_in|by apply line_string; [..|lia|]|lia|].
    rewrite bool_decide_eq_false_2 by done. destruct (Z.ltb_spec 0 (Z.of_nat (length line))); [|lia].
    apply ends_run_program with keys sent; [done|done|done|done|lia|done| |].
    + intros v s' log Ha Hl' Ht'. eapply HQ; [by exists v, log|exact Ht'|exact Hl'].
    + intros s' log Ha Ht'. by apply (HR s' log).
Qed.

(** The rest of a round, after a line that does not end the shell. *)
Lemma ends_run_command line s keys sent (Q : unit → sys K → Prop) (R : sys K → Prop) :
  term s keys sent → shell_layout → literals_in (mem s) → Forall (λ c, 0 < c < 256) line → (0 < length line < 128)%nat →
  in_memory (mem s) buffer_at (line ++ [0]) → line ≠ str "exit" →
  (∀ s' o, reply answer line o → term s' keys (sent ++ o) → literals_in (mem s') → Q tt s') →
  (∀ s' log, builtin line = None → answer (upper <$> line) None log → term s' keys (sent ++ log) → R s') →
  ends (run_command polls fuel elf_exec user (Z.of_nat (length line))) s Q R.
Proof.
  intros Ht Hlay Hl Hby Hlen Hbuf Hexit HQ HR.
  assert (Hline : user_string (mem s) buffer_at line) by (apply line_string; [done|done|lia|done]).
  unfold run_command. apply ends_seq. apply wp_is_command with line; [done|lit_in|done|lia|].
  destruct (decide (line = str "help")) as [E1|E1]; [rewrite bool_decide_eq_true_2 by done|rewrite bool_decide_eq_false_2 by done].
  { refine (ends_wp _ _ _ _ (wp_write_lits ["Available commands:" +:+ nl; "  help  - Show this help" +:+ nl; "  clear - Clear screen" +:+ nl;
      "  test  - Run test program" +:+ nl] _ s keys sent Q Ht Hl _ _)); [repeat (constructor; [lit_in|]); constructor|].
    intros s1 Hm1 Ht1. eapply wp_write_lit; [exact Ht1|by rewrite Hm1|lit_in|]. intros s2 Hm2 Ht2.
    eapply HQ; [unfold reply, builtin; rewrite decide_True by done; reflexivity| |by rewrite Hm2, Hm1].
    rewrite <- app_assoc in Ht2. exact Ht2. }
  apply ends_seq. apply wp_is_command with line; [done|lit_in|done|lia|]. apply ends_seq.
  destruct (decide (line = str "clear")) as [E2|E2]; [rewrite bool_decide_eq_true_2 by done|rewrite bool_decide_eq_false_2 by done].
  - wp_step. apply (ends_clear_or_run true line s keys sent); [done..|tauto|exact HQ|exact HR].
  - apply wp_is_command with line; [done|lit_in|done|lia|].
    apply (ends_clear_or_run _ line s keys sent); [done..|rewrite bool_decide_eq_true; tauto|exact HQ|exact HR].
Qed.

(** The line [exit]. *)
Lemma whalt_exit s keys sent (Q : sys K → Prop) :
  term s keys sent → literals_in (mem s) → user_string (mem s) buffer_at (str "exit") →
  (∀ s', term s' keys (sent ++ sent_lines [str ("Goodbye!" +:+ nl); str "Process exited"]) → Q s') →
  whalt (run_command polls fuel elf_exec user 4) s Q.
Proof.
  intros Ht Hl Hline HQ. unfold run_command.
  apply whalt_bind. apply wp_is_command with (str "exit"); [done|lit_in|done|cbn; lia|]. rewrite bool_decide_eq_false_2 by done.
  apply whalt_bind. apply wp_is_command with (str "exit"); [done|lit_in|done|cbn; lia|]. rewrite bool_decide_eq_false_2 by done.
  apply whalt_bind. apply wp_is_command with (str "exit"); [done|lit_in|done|cbn; lia|]. rewrite bool_decide_eq_false_2 by done.
  apply whalt_bind. apply wp_is_command with (str "exit"); [done|lit_in|done|cbn; lia|]. rewrite bool_decide_eq_true_2 by done.
  apply whalt_bind. apply wp_write_lit with keys sent; [done|done|lit_in|]. intros s1 Hm1 Ht1.
  unfold exit, syscall1, syscall2, syscall_handler. cbn [rg_eax rg_ebx with_args].
  change (w32 SYS_EXIT =? SYS_EXIT) with true. cbv iota. unfold sys_exit.
  do 4 apply whalt_halted. apply whalt_bind. apply wp_term_log with (str "Process exited") keys (sent ++ logline (str ("Goodbye!" +:+ nl)));
    [done|holds_lit|plain_lit|]. intros s2 Hm2 Ht2. unfold whalt, halt. apply HQ. rewrite <- app_assoc in Ht2. exact Ht2.
Qed.

Lemma sys_edit_keeps (P : Z → Prop) max_len line keys out rest :
  Forall P line → Forall P keys → sys_edit max_len line keys = Some (out, rest) →
  Forall P out ∧ Forall P rest ∧ (length rest ≤ length keys)%nat.
Proof.
  revert line. induction keys as [|k keys IH]; intros line Hl Hk; cbn [sys_edit].
  - destruct (_ <? _); [done|]. intros [= <- <-]. done.
  - apply Forall_cons in Hk as [Hk1 Hk]. destruct (_ <? _).
    + destruct (k =? 10); [intros [= <- <-]; cbn [length]; split_and!; (done || lia)|].
      destruct (k =? 8); intros He; (apply IH in He as (? & ? & ?); [cbn [length]; split_and!; (done || lia)| |done]).
      * destruct line as [|x line _] using rev_ind; [done|]. rewrite removelast_last. by apply Forall_app in Hl as [? _].
      * apply Forall_app. by split; [|constructor].
    + intros [= <- <-]. split_and!; [done|by constructor|cbn; lia].
Qed.

(** The prompt and the line, before the rest [k] of a round and the rounds after it. *)
Lemma whalt_prompt s keys sent line rest (k : Z → M (sys K) unit) (next : M (sys K) unit) (Q : sys K → Prop) :
  term s keys sent → shell_layout → literals_in (mem s) → Forall (λ c, 0 < c < 256) keys → (length keys < fuel)%nat →
  sys_edit BUFFER_SIZE [] keys = Some (line, rest) →
  (∀ s1, term s1 rest (sent ++ logline (str "FlowOS> ")) → literals_in (mem s1) →
     in_memory (mem s1) buffer_at (line ++ [0]) → (length line < 128)%nat →
     whalt (k (Z.of_nat (length line));; next) s1 Q) →
  whalt ((write polls fuel elf_exec user (lit_at "FlowOS> ");;
          len ← read polls fuel elf_exec user buffer_at BUFFER_SIZE; k len);; next) s Q.
Proof.
  intros Ht Hlay Hl Hk Hf He HQ.
  assert (Hw : wp (write polls fuel elf_exec user (lit_at "FlowOS> ");;
    read polls fuel elf_exec user buffer_at BUFFER_SIZE) s (λ len s1, len = Z.of_nat (length line) ∧
      term s1 rest (sent ++ logline (str "FlowOS> ")) ∧ literals_in (mem s1) ∧
      in_memory (mem s1) buffer_at (line ++ [0]) ∧ (length line < 128)%nat)).
  { wp_step. apply wp_write_lit with keys sent; [done|done|lit_in|]. intros s1 Hm1 Ht1.
    eapply wp_read; [exact Ht1|done|done|lia|exact He|]. intros s2 Ht2 Hb2 Hlen Hm2. split_and!; [done|done| |done|done].
    apply (literals_keep (mem s1)); [done|by rewrite Hm1|]. intros a [Ha _]. by apply Hm2. }
  destruct (wp_ex _ _ _ Hw) as (len & s1 & Hrun & -> & Ht1 & Hl1 & Hb1 & Hlen). specialize (HQ s1 Ht1 Hl1 Hb1 Hlen).
  unfold whalt, bind in *. destruct (write _ _ _ _ _ s) as [? ?| | |]; [|done..]. by rewrite Hrun.
Qed.

(** The loop of the shell follows the dialogue. *)
Lemma whalt_shell_loop n s keys sent (Q : sys K → Prop) :
  term s keys sent → shell_layout → literals_in (mem s) → Forall (λ c, 0 < c < 256) keys → (length keys < fuel)%nat →
  exits n keys = true →
  (∀ s' rest out, session answer keys rest out → term s' rest (sent ++ out) → Q s') →
  whalt (shell_loop polls fuel elf_exec user n) s Q.
Proof.
  intros Ht Hlay Hl Hk Hf. revert s keys sent Q Ht Hl Hk Hf.
  induction n as [|n IH]; intros s keys sent Q Ht Hl Hk Hf Hx HQ; [done|]. cbn [exits] in Hx.
  destruct (sys_edit BUFFER_SIZE [] keys) as [[line rest]|] eqn:He; [|done].
  destruct (sys_edit_keeps (λ c, 0 < c < 256) BUFFER_SIZE [] keys line rest) as (Hby & Hk' & Hlr); [constructor|done|done|].
  cbn [shell_loop]. unfold shell_round.
  apply (whalt_prompt s keys sent line rest); [done..|].
  intros s1 Ht1 Hl1 Hb1 Hlen. destruct (decide (line = str "exit")) as [->|Hexit].
  { change (Z.of_nat (length (str "exit")) =? 0) with false. cbv iota.
    apply whalt_halted, whalt_bind. apply wp_write_lit with rest (sent ++ logline (str "FlowOS> ")); [done|done|lit_in|].
    intros s2 Hm2 Ht2. eapply whalt_exit; [exact Ht2|by rewrite Hm2|by rewrite Hm2; apply line_string|].
    intros s' Ht'. eapply (HQ s' rest); [by apply session_exit|]. rewrite <- !app_assoc in Ht'. exact Ht'. }
  rewrite bool_decide_eq_false_2 in Hx by done. cbn [orb] in Hx. destruct (decide (line = [])) as [->|Hne].
  { change (Z.of_nat (length (@nil Z)) =? 0) with true. cbv iota. apply whalt_bind. wp_step.
    eapply IH; [exact Ht1|done|done|lia|done|]. intros s' rest' out Hs Ht'.
    eapply HQ; [by eapply session_empty|]. by rewrite app_assoc. }
  assert (Hpos : (0 < length line)%nat) by (destruct line; [done|cbn; lia]).
  destruct (Z.eqb_spec (Z.of_nat (length line)) 0); [lia|].
  apply whalt_ends, ends_seq. apply wp_write_lit with rest (sent ++ logline (str "FlowOS> ")); [done|done|lit_in|]. intros s2 Hm2 Ht2.
  eapply ends_run_command; [exact Ht2|done|by rewrite Hm2|done|lia|by rewrite Hm2|done| |].
  - intros s3 o Ho Ht3 Hl3. eapply IH; [exact Ht3|done|done|lia|done|]. intros s' rest' out Hs Ht'.
    eapply HQ; [by eapply session_reply|]. rewrite !sent_lines_cons. change (sent_lines []) with (@nil Z).
    rewrite app_nil_r, !app_assoc. exact Ht'.
  - intros s3 log Hb Ha Ht3. eapply HQ; [by eapply session_program|]. rewrite !sent_lines_cons. change (sent_lines []) with (@nil Z).
    rewrite app_nil_r, !app_assoc. exact Ht3.
Qed.

End terminal.

(** ** Properties *)

(** C33. A session of the shell, with a loader that may refuse a program, return from it with any
    result, or enter it for good: until a line [exit] or the first program that is entered,
    the shell holds the abstract dialogue.  Every line is edited from the keys typed and
    answered as the dialogue says: help and clear with their messages, an empty line with a new
    prompt, any other line by asking the loader for the program of that name in upper case,
    and with a message exactly when the result is negative; at [exit] the shell says goodbye
    and its process ends.  The keys after that are left; what goes over the serial line is the
    dialogue and nothing else, and neither array overflows. *)
Theorem shell_session {K} `{Terminal K} `{ShellImage} polls fuel elf_exec user answer n (s : sys K) keys sent :
  (uart_delay < polls)%nat → (256 ≤ fuel)%nat → (length keys < fuel)%nat →
  (∀ path s keys sent, term s keys sent → Forall (λ c, 0 < c < 256) path → (length path < 128)%nat →
     ends (elf_exec (path ++ [0])) s
       (λ v s', -2147483648 ≤ v < 2147483648 ∧ mem s' = mem s ∧ ∃ out, answer path (Some v) out ∧ term s' keys (sent ++ out))
       (λ s', ∃ out, answer path None out ∧ term s' keys (sent ++ out))) →
  shell_layout → literals_in (mem s) → term s keys sent → Forall (λ c, 0 < c < 256) keys → exits n keys = true →
  whalt (shell_start polls fuel elf_exec user n) s (λ s', ∃ rest out, session answer keys rest out ∧
    term s' rest (sent ++ sent_lines [str (nl +:+ nl +:+ "*** FlowOS Shell ***" +:+ nl);
      str ("Type 'help' for available commands" +:+ nl +:+ nl)] ++ out)).
Proof.
  intros Hp Hf Hkf Hload Hlay Hl Ht Hk Hx. unfold shell_start.
  apply whalt_bind. eapply wp_write_lit; [done|done|exact Ht|done|lit_in|]. intros s1 Hm1 Ht1.
  apply whalt_bind. eapply wp_write_lit; [done|done|exact Ht1|by rewrite Hm1|lit_in|]. intros s2 Hm2 Ht2.
  eapply whalt_shell_loop; [done|done|exact Hload|exact Ht2|done|by rewrite Hm2, Hm1|done|done|exact Hx|].
  intros s' rest out Hs Ht'. exists rest, out. split; [exact Hs|]. rewrite <- !app_assoc in Ht'. exact Ht'.
Qed.

(** [strcmp] returns 0 exactly for equal strings. *)
Theorem strcmp_spec {K} n p q a b (s : sys K) :
  user_string (mem s) p a → user_string (mem s) q b → (length a < n)%nat →
  wp (strcmp n p q) s (λ r s', s' = s ∧ (r = 0 ↔ a = b)).
Proof. intros Ha Hb Hn. apply wp_strcmp with a b; [done..|]. split; [done|]. apply compare_eq; [apply Ha|apply Hb]. Qed.

(** ** The properties at concrete inputs *)

#[global] Program Instance desk_terminal : Terminal desk.
Next Obligation. intros [u i] Hi. by split. Qed.
Next Obligation. intros v [u i] Hi. by split. Qed.
Next Obligation.
  intros [u i] c cs Hi Hu Ht. apply wp_zoom. eapply wp_mono; [exact (in_get_char_ok i c cs Hi Ht)|].
  intros r i' Hr. by split.
Qed.
Next Obligation.
  intros n [u i] Hi Hu Hn Hl. apply wp_zoom. eapply wp_mono; [exact (in_wait_ok n i Hi Hn Hl)|].
  intros r i' Hr. by split.
Qed.

(** The literals from 0x40001000 on, 64 bytes for each. *)
#[global] Instance image_demo : ShellImage := {|
  lit_at l := match list_find (λ x, x = l) shell_literals with
              | Some (i, _) => 0x40001000 + 64 * Z.of_nat i
              | None => 0x40002000
              end;
  buffer_at := 0xBFFFFE00;
  path_at := 0xBFFFFE80
|}.

Fixpoint bytes_at (p : Z) (l : list Z) (m : gmap Z Z) : gmap Z Z :=
  match l with
  | [] => m
  | c :: l => <[p := c]> (bytes_at (p + 1) l m)
  end.

Definition shell_mem : gmap Z Z := foldr (λ l m, bytes_at (lit_at l) (lit l) m) ∅ shell_literals.

(** Someone types [help], [foo], [ok], [run] and [exit]. *)
Definition shell_keys : inputs :=
  mkInputs kbd_empty timer_start (Key <$> [35; 18; 38; 25; 28; 33; 24; 24; 28; 24; 37; 28; 19; 22; 49; 28; 18; 45; 23; 20; 28]).

Definition shell_demo : sys desk := mkSys shell_mem (console_demo (uart_demo, shell_keys)).

(** A loader that refuses FOO, returns from OK and enters any other program. *)
Definition loader_demo (path : list Z) : M (sys desk) Z :=
  if decide (path = str "FOO" ++ [0]) then in_con (log_info 5 (lit "ELF: File not found"));; ret (-1)
  else if decide (path = str "OK" ++ [0]) then ret 0
  else in_con (log_info 5 (lit "ELF: Jumping to userspace..."));; halt.

Definition answer_demo (path : list Z) (result : option Z) (out : list Z) : Prop :=
  if decide (path = str "FOO") then result = Some (-1) ∧ out = logline (str "ELF: File not found")
  else if decide (path = str "OK") then result = Some 0 ∧ out = []
  else result = None ∧ out = logline (str "ELF: Jumping to userspace...").

Lemma in_memory_checked m p l :
  forallb (λ i, bool_decide (m !! (p + Z.of_nat i) = l !! i)) (seq 0 (length l)) = true → in_memory m p l.
Proof.
  intros Hc i c Hi. rewrite forallb_forall in Hc. rewrite <- Hi. apply (bool_decide_unpack _), Is_true_true, Hc.
  apply in_seq. apply lookup_lt_Some in Hi. lia.
Qed.

Lemma shell_demo_literals : literals_in (mem shell_demo).
Proof.
  intros l Hl. destruct (literals_text l Hl) as [Hb Hlen].
  assert (Hall : forallb (λ l, (0 <=? lit_at l) && (lit_at l <? 0x50000000) && bool_decide (0 ∉ str l) &&
    forallb (λ i, bool_decide (shell_mem !! (lit_at l + Z.of_nat i) = (str l ++ [0]) !! i)) (seq 0 (length (str l ++ [0]))))
    shell_literals = true) by (vm_compute; reflexivity).
  rewrite forallb_forall in Hall. apply list_elem_of_In in Hl. specialize (Hall l Hl).
  apply andb_prop in Hall as [[[H0 H1]%andb_prop Hz]%andb_prop Hm].
  split; [unfold is_u32; lia|]. split; [lia|]. split; [by apply (bool_decide_unpack _), Is_true_true|].
  by apply in_memory_checked.
Qed.

Lemma shell_demo_layout : shell_layout.
Proof.
  unfold shell_layout. do 4 (split; [vm_compute; congruence|]). split; [left; vm_compute; congruence|].
  intros l Hl i Hi. destruct (literals_text l Hl) as [_ Hlen].
  assert (Hall : forallb (λ l, (0 <=? lit_at l) && (lit_at l <? 0x50000000)) shell_literals = true) by (vm_compute; reflexivity).
  rewrite forallb_forall in Hall. apply list_elem_of_In in Hl. specialize (Hall l Hl).
  unfold apart_from_arrays. change buffer_at with 0xBFFFFE00. change path_at with 0xBFFFFE80. lia.
Qed.

Lemma shell_keys_inv : inputs_inv shell_keys.
Proof. split_and!; [done|unfold is_u32; cbn; lia|done|]. cbn. repeat (constructor; [lia|]). constructor. Qed.

Lemma loader_demo_answers (path : list Z) (s : sys desk) keys sent :
  term s keys sent →
  ends (loader_demo (path ++ [0])) s
    (λ v s', -2147483648 ≤ v < 2147483648 ∧ mem s' = mem s ∧ ∃ out, answer_demo path (Some v) out ∧ term s' keys (sent ++ out))
    (λ s', ∃ out, answer_demo path None out ∧ term s' keys (sent ++ out)).
Proof.
  intros Ht. unfold loader_demo, answer_demo. assert (Hp : (uart_delay (K := desk) < 5)%nat) by (cbn; lia).
  destruct (decide (path = str "FOO")) as [->|Hfoo]; [rewrite decide_True by done|rewrite decide_False].
  - apply ends_seq. eapply (wp_term_log 5 Hp); [exact Ht|by apply lit_holds; vm_compute; set_solver|plain_lit|].
    intros s1 Hm1 Ht1. apply ends_wp. wp_step. split; [lia|]. split; [done|]. by eexists.
  - destruct (decide (path = str "OK")) as [->|Hok]; [rewrite decide_True by done|rewrite decide_False].
    + apply ends_wp. wp_step. split; [lia|]. split; [done|]. exists []. by rewrite app_nil_r.
    + apply ends_seq. eapply (wp_term_log 5 Hp); [exact Ht|by apply lit_holds; vm_compute; set_solver|plain_lit|].
      intros s1 Hm1 Ht1. by eexists.
    + intros E. by apply app_inj_tail in E as [? _].
  - intros E. by apply app_inj_tail in E as [? _].
Qed.

(** The next line of a dialogue is the one the keys give. *)
Lemma session_line answer keys line rest rest' out :
  typed keys line rest → line ≠ [] → line ≠ str "exit" → session answer keys rest' out →
  (∃ o out', reply answer line o ∧ session answer rest rest' out' ∧ out = sent_lines [str "FlowOS> "; str nl] ++ o ++ out') ∨
  (∃ log, builtin line = None ∧ answer (upper <$> line) None log ∧ rest' = rest ∧ out = sent_lines [str "FlowOS> "; str nl] ++ log).
Proof.
  unfold typed. intros Hk Hne Hx Hs. destruct Hs as [? ? ? ? Hk' _|? ? Hk'|? ? ? ? o out' Hk' _ _ Ho Hs|? ? ? log Hk' _ _ Hb Ha];
    unfold typed in Hk'; rewrite Hk in Hk'; injection Hk' as -> ->; [done|done| |].
  - left. by exists o, out'.
  - right. by exists log.
Qed.

(** What has gone over the serial line when [run] is entered; the keys of [exit] are left. *)
Definition shell_demo_sent : list Z :=
  sent_lines (str <$> [nl +:+ nl +:+ "*** FlowOS Shell ***" +:+ nl; "Type 'help' for available commands" +:+ nl +:+ nl;
    "FlowOS> "; nl; "Available commands:" +:+ nl; "  help  - Show this help" +:+ nl; "  clear - Clear screen" +:+ nl;
    "  test  - Run test program" +:+ nl; "  exit  - Exit shell" +:+ nl +:+ nl;
    "FlowOS> "; nl; "ELF: File not found"; "Command not found: "; "foo"; nl;
    "FlowOS> "; nl; "FlowOS> "; nl; "ELF: Jumping to userspace..."]).

Lemma shell_demo_term : term shell_demo (typed_ahead (machine (con shell_demo))) [].
Proof.
  split; [split_and!; cbn; (done || lia)|]. split; [split; cbn; (done || lia)|]. split; [exact shell_keys_inv|by split].
Qed.

Lemma shell_demo_dialogue rest out :
  session answer_demo (typed_ahead (machine (con shell_demo))) rest out →
  rest = str ("exit" +:+ nl) ∧
  sent_lines [str (nl +:+ nl +:+ "*** FlowOS Shell ***" +:+ nl); str ("Type 'help' for available commands" +:+ nl +:+ nl)] ++ out
    = shell_demo_sent.
Proof.
  intros Hs. apply (session_line _ _ (str "help") (str ("foo" +:+ nl +:+ "ok" +:+ nl +:+ "run" +:+ nl +:+ "exit" +:+ nl))) in Hs
    as [(o1 & out1 & Ho1 & Hs & ->)|(? & ? & _)]; [|done|vm_compute; reflexivity|done|done].
  apply (session_line _ _ (str "foo") (str ("ok" +:+ nl +:+ "run" +:+ nl +:+ "exit" +:+ nl))) in Hs
    as [(o2 & out2 & (v2 & l2 & [Hv2 ->] & ->) & Hs & ->)|(? & _ & [? _] & _)]; [|done|vm_compute; reflexivity|done|done].
  apply (session_line _ _ (str "ok") (str ("run" +:+ nl +:+ "exit" +:+ nl))) in Hs
    as [(o3 & out3 & (v3 & l3 & [Hv3 ->] & ->) & Hs & ->)|(? & _ & [? _] & _)]; [|done|vm_compute; reflexivity|done|done].
  apply (session_line _ _ (str "run") (str ("exit" +:+ nl))) in Hs
    as [(o4 & out4 & (v4 & l4 & [? _] & _) & _)|(l4 & _ & [_ ->] & -> & ->)]; [done| |vm_compute; reflexivity|done|done].
  injection Hv2 as ->. injection Hv3 as ->. cbv beta iota delta [reply] in Ho1. vm_compute in Ho1. subst o1.
  split; [done|]. vm_compute. reflexivity.
Qed.

Lemma shell_session_witness :
  whalt (shell_start 5 300 loader_demo (frame_demo 0 0 0) 5) shell_demo (λ s',
    term s' (str ("exit" +:+ nl)) shell_demo_sent).
Proof.
  assert (Hk : Forall (λ c, 0 < c < 256) (typed_ahead (machine (con shell_demo)))).
  { vm_compute. repeat (constructor; [split; congruence|]). constructor. }
  assert (Hp : (uart_delay (K := desk) < 5)%nat) by (cbn; lia).
  assert (Hl : (length (typed_ahead (machine (con shell_demo))) < 300)%nat) by (vm_compute; lia).
  eapply whalt_mono; [exact (shell_session 5 300 loader_demo (frame_demo 0 0 0) answer_demo 5 shell_demo
    (typed_ahead (machine (con shell_demo))) [] Hp ltac:(lia) Hl (λ path s keys sent Ht _ _, loader_demo_answers path s keys sent Ht)
    shell_demo_layout shell_demo_literals shell_demo_term Hk ltac:(vm_compute; reflexivity))|].
  intros s' (rest & out & Hs & Ht). destruct (shell_demo_dialogue rest out Hs) as [-> <-]. exact Ht.
Defined.

Lemma strcmp_spec_witness :
  wp (strcmp 10 (lit_at "help") (lit_at "exit")) shell_demo (λ r s', s' = shell_demo ∧ (r = 0 ↔ str "help" = str "exit")).
Proof.
  apply strcmp_spec; [apply shell_demo_literals; lit_in|apply shell_demo_literals; lit_in|cbn; lia].
Defined.
