(* ===== verification/Pmm.v ===== *)
(** * Physical memory manager (src/src/pmm.c, src/src/pmm.h)

    The bitmap of page frames, its two allocators and their inverses, and
    the boot-time initialisation from the multiboot memory map.  The
    abstract view of a state is the set of free page frames. *)

From S2P Require Import Prelude.
Open Scope Z_scope.

(** ** Data *)

Definition BITMAP_SIZE : Z := 32768.

Definition PAGE_SIZE : Z := 4096.

(** The static variables [bitmap], [total_pages] and [used_pages]. *)
Record pmm := mkPmm {
  bitmap : list Z;
  total_pages : Z;
  used_pages : Z
}.

Definition set_bitmap (b : list Z) (s : pmm) : pmm := mkPmm b (total_pages s) (used_pages s).

Definition set_total (n : Z) (s : pmm) : pmm := mkPmm (bitmap s) n (used_pages s).

Definition set_used (n : Z) (s : pmm) : pmm := mkPmm (bitmap s) (total_pages s) n.

Record multiboot_mmap_entry := mkEntry {
  me_size : Z;
  me_addr : Z;
  me_len : Z;
  me_type : Z
}.

Record multiboot_info := mkMboot {
  mb_flags : Z;
  mb_mem_lower : Z;
  mb_mem_upper : Z;
  mb_boot_device : Z;
  mb_cmdline : Z;
  mb_mods_count : Z;
  mb_mods_addr : Z;
  mb_syms : list Z;
  mb_mmap_length : Z;
  mb_mmap_addr : Z
}.

(** ** The bitmap *)

(** [bitmap[i]]: an index outside the array has no defined value. *)
Definition bitmap_word (i : Z) : M pmm Z :=
  b ← gets bitmap; expect (arr_get b i).

Definition bitmap_store (i w : Z) : M pmm unit :=
  b ← gets bitmap;
  if in_range b i then modify (set_bitmap (arr_set b i w)) else undef.

Definition bitmap_set (page : Z) : M pmm unit :=
  w ← bitmap_word (page / 32);
  bitmap_store (page / 32) (Z.lor w (Z.shiftl 1 (page mod 32))).

Definition bitmap_clear (page : Z) : M pmm unit :=
  w ← bitmap_word (page / 32);
  bitmap_store (page / 32) (Z.land w (not32 (Z.shiftl 1 (page mod 32)))).

Definition bitmap_test (page : Z) : M pmm bool :=
  w ← bitmap_word (page / 32);
  ret (truth (Z.land w (Z.shiftl 1 (page mod 32)))).

Definition add_total (n : Z) : M pmm unit :=
  modify (λ s, set_total (total_pages s +w n) s).

Definition add_used (n : Z) : M pmm unit :=
  modify (λ s, set_used (used_pages s +w n) s).

(** ** Initialisation *)

(** The body of the page loop of [pmm_init]. *)
Definition release_page (kernel_end page : Z) : M pmm unit :=
  let page_addr := page *w PAGE_SIZE in
  when ((0x100000 <=? page_addr) && (kernel_end <=? page_addr))
    (bitmap_clear page;; add_total 1).

(** The page range of an available entry, computed in [uint64_t] and
    truncated to [uint32_t]. *)
Definition entry_start (e : multiboot_mmap_entry) : Z :=
  w32 (w64 (me_addr e + PAGE_SIZE - 1) / PAGE_SIZE).

Definition entry_len (e : multiboot_mmap_entry) : Z :=
  if 0x100000000 <? w64 (me_addr e + me_len e)
  then w64 (0x100000000 - me_addr e) else me_len e.

Definition entry_end (e : multiboot_mmap_entry) : Z :=
  w32 (w64 (me_addr e + entry_len e) / PAGE_SIZE).

(** The body of the memory-map loop of [pmm_init], before the advance. *)
Definition init_entry (kernel_end : Z) (e : multiboot_mmap_entry) : M pmm unit :=
  when (me_type e =? 1)
    (when (me_addr e <? 0x100000000)
      (for_ (entry_start e) (trips (entry_start e) (entry_end e))
         (release_page kernel_end))).

(** [(uint32_t)mmap + mmap->size + sizeof(mmap->size)]. *)
Definition next_entry (mmap : Z) (e : multiboot_mmap_entry) : Z :=
  mmap +w me_size e +w 4.

(** The memory-map loop; [mmap_at] is the memory the boot loader filled. *)
Fixpoint mmap_loop (mmap_at : Z → multiboot_mmap_entry) (fuel : nat)
    (kernel_end mmap mmap_end : Z) : M pmm unit :=
  match fuel with
  | O => no_fuel
  | S fuel =>
      if mmap <? mmap_end then
        init_entry kernel_end (mmap_at mmap);;
        mmap_loop mmap_at fuel kernel_end (next_entry mmap (mmap_at mmap)) mmap_end
      else skip
  end.

(** The linker symbol [_end], rounded up to a page. *)
Definition kernel_end_of (_end : Z) : Z :=
  Z.land (w32 (_end + PAGE_SIZE - 1)) (not32 (PAGE_SIZE - 1)).

Definition init_fallback (kernel_end : Z) (mboot : multiboot_info) : M pmm unit :=
  let mem_size := (mb_mem_upper mboot +w 1024) *w 1024 in
  let start_page := kernel_end / PAGE_SIZE in
  let end_page := mem_size / PAGE_SIZE in
  for_ start_page (trips start_page (Z.min end_page (BITMAP_SIZE * 32)))
    (λ page, bitmap_clear page;; add_total 1).

Definition pmm_init (mmap_at : Z → multiboot_mmap_entry) (_end : Z) (fuel : nat)
    (mboot : multiboot_info) : M pmm unit :=
  modify (set_bitmap (replicate (Z.to_nat BITMAP_SIZE) 0xFFFFFFFF));;
  (let kernel_end := kernel_end_of _end in
   if truth (Z.land (mb_flags mboot) (Z.shiftl 1 6)) then
     mmap_loop mmap_at fuel kernel_end (mb_mmap_addr mboot)
       (mb_mmap_addr mboot +w mb_mmap_length mboot)
   else init_fallback kernel_end mboot);;
  modify (set_used 0).

(** ** Allocation and release *)

(** The scan of one bitmap word for a clear bit. *)
Definition alloc_in_word (i : Z) : M pmm (option Z) :=
  for_ret 0 (trips 0 32) (λ j,
    w ← bitmap_word i;
    if negb (truth (Z.land w (Z.shiftl 1 j))) then
      let page := i *w 32 +w j in
      bitmap_set page;; add_used 1;; ret (Some (page *w PAGE_SIZE))
    else ret None).

Definition pmm_alloc_page : M pmm Z :=
  r ← for_ret 0 (trips 0 BITMAP_SIZE) (λ i,
    w ← bitmap_word i;
    if negb (w =? 0xFFFFFFFF) then alloc_in_word i else ret None);
  ret (default 0 r).

Definition pmm_free_page (addr : Z) : M pmm unit :=
  let page := addr / PAGE_SIZE in
  b ← bitmap_test page;
  when b (bitmap_clear page;; add_used (-1)).

Definition pmm_get_free_pages : M pmm Z :=
  gets (λ s, total_pages s -w used_pages s).

Definition pmm_get_total_pages : M pmm Z := gets total_pages.

(** Is some page of the run [start .. start + n - 1] in use? *)
Definition run_blocked (start n : Z) : M pmm (option unit) :=
  for_ret 0 (trips 0 n) (λ k,
    b ← bitmap_test (start +w k);
    ret (if b then Some tt else None)).

Definition alloc_run (start n : Z) : M pmm Z :=
  for_ 0 (trips 0 n) (λ k, bitmap_set (start +w k));;
  add_used n;;
  ret (start *w PAGE_SIZE).

Definition pmm_alloc_pages (n : Z) : M pmm Z :=
  if n =? 0 then ret 0 else
  let total_avail := BITMAP_SIZE * 32 in
  r ← for_ret 0 (trips 0 ((total_avail -w n) + 1)) (λ start,
    blocked ← run_blocked start n;
    match blocked with
    | Some _ => ret None
    | None => a ← alloc_run start n; ret (Some a)
    end);
  ret (default 0 r).

Definition pmm_free_pages (addr n : Z) : M pmm unit :=
  if n =? 0 then skip else
  let page := addr / PAGE_SIZE in
  for_ 0 (trips 0 n) (λ i,
    let p := page +w i in
    if p <? BITMAP_SIZE * 32 then
      b ← bitmap_test p;
      when b (bitmap_clear p;; add_used (-1))
    else skip).

(** ** Abstract view *)

(** Number of page frames the bitmap describes. *)
Definition NPAGES : Z := 1048576.

Definition page_used (s : pmm) (p : Z) : bool :=
  match arr_get (bitmap s) (p / 32) with
  | Some w => Z.testbit w (p mod 32)
  | None => true
  end.

Definition is_page (p : Z) : Prop := 0 ≤ p < NPAGES.

Definition free_list (s : pmm) : list Z :=
  filter (λ p, page_used s p = false) (seqZ 0 NPAGES).

Definition free_count (s : pmm) : Z := Z.of_nat (length (free_list s)).

Definition pmm_wf (s : pmm) : Prop :=
  Z.of_nat (length (bitmap s)) = BITMAP_SIZE ∧ Forall is_u32 (bitmap s) ∧
  is_u32 (total_pages s) ∧ is_u32 (used_pages s).

(** The counters describe the bitmap. *)
Definition accounted (s : pmm) : Prop :=
  total_pages s -w used_pages s = free_count s.

(** What [bitmap_set] and [bitmap_clear] do to a well-formed state. *)
Definition upd_word (f : Z → Z) (p : Z) (s : pmm) : pmm :=
  set_bitmap (arr_set (bitmap s) (p / 32)
                (f (default 0 (arr_get (bitmap s) (p / 32))))) s.

Definition mark_used (p : Z) (s : pmm) : pmm :=
  upd_word (λ w, Z.lor w (Z.shiftl 1 (p mod 32))) p s.

Definition mark_free (p : Z) (s : pmm) : pmm :=
  upd_word (λ w, Z.land w (not32 (Z.shiftl 1 (p mod 32)))) p s.

Definition take_page (p : Z) (s : pmm) : pmm :=
  set_used (used_pages s +w 1) (mark_used p s).

Definition give_page (p : Z) (s : pmm) : pmm :=
  set_used (used_pages s +w -1) (mark_free p s).

(** Reference: the lowest free page, if there is one. *)
Definition alloc_page_ref (s : pmm) : res pmm Z :=
  match head (free_list s) with
  | Some p => Ret (p * PAGE_SIZE) (take_page p s)
  | None => Ret 0 s
  end.

Definition first_free (s : pmm) (p : Z) : Prop :=
  is_page p ∧ page_used s p = false ∧ ∀ q, 0 ≤ q < p → page_used s q = true.

(** The run of [n] pages from [a] lies inside the bitmap and is free. *)
Definition run_free (s : pmm) (a n : Z) : Prop :=
  0 ≤ a ∧ a + n ≤ NPAGES ∧ ∀ q, a ≤ q < a + n → page_used s q = false.

(** [s'] is [s] with the pages [a .. a + n - 1] set to [b] and the counter
    of used pages moved by [d]. *)
Definition run_update (b : bool) (a n d : Z) (s s' : pmm) : Prop :=
  pmm_wf s' ∧ total_pages s' = total_pages s ∧ used_pages s' = used_pages s +w d ∧
  ∀ q, is_page q →
    page_used s' q = if (a <=? q) && (q <? a + n) then b else page_used s q.

(** Public operations as steps of a client. *)
Inductive pmm_step : pmm → pmm → Prop :=
| step_alloc s s' a : pmm_alloc_page s = Ret a s' → pmm_step s s'
| step_free s s' addr : is_u32 addr → pmm_free_page addr s = Ret tt s' → pmm_step s s'
| step_alloc_pages s s' n a :
    0 ≤ n ≤ NPAGES → pmm_alloc_pages n s = Ret a s' → pmm_step s s'
| step_free_pages s s' addr n :
    is_u32 addr → is_u32 n → pmm_free_pages addr n s = Ret tt s' → pmm_step s s'.

(** Pages an entry of the memory map makes available. *)
Definition entry_pages (kernel_end : Z) (e : multiboot_mmap_entry) : list Z :=
  if (me_type e =? 1) && (me_addr e <? 0x100000000) then
    filter (λ p, 0x100000 ≤ p * PAGE_SIZE ∧ kernel_end ≤ p * PAGE_SIZE)
      (seqZ (entry_start e) (entry_end e - entry_start e))
  else [].

(** A memory map as the multiboot specification has it: entries one after the other from [a]
    on, each [size] bytes long beside the size field itself, up to the address [last]. *)
Inductive memory_map (mmap_at : Z → multiboot_mmap_entry) (last : Z) : Z → list multiboot_mmap_entry → Prop :=
| map_end a : last ≤ a → memory_map mmap_at last a []
| map_entry a es : a < last → memory_map mmap_at last (a + 4 + me_size (mmap_at a)) es →
    memory_map mmap_at last a (mmap_at a :: es).

(** The bytes from [lo] up to [hi] are memory that an entry offers: its type is 1, and the
    region it describes does not wrap around the 64-bit address space. *)
Definition offers (e : multiboot_mmap_entry) (lo hi : Z) : Prop :=
  me_type e = 1 ∧ me_addr e + me_len e < 18446744073709551616 ∧ me_addr e ≤ lo ∧ hi ≤ me_addr e + me_len e.

(** No two entries describe the same byte. *)
Definition apart (e e' : multiboot_mmap_entry) : Prop :=
  me_addr e + me_len e ≤ me_addr e' ∨ me_addr e' + me_len e' ≤ me_addr e.

(** The bitmap after the fill loop of [pmm_init]: every page in use. *)
Definition pmm_full : pmm := mkPmm (replicate (Z.to_nat BITMAP_SIZE) 0xFFFFFFFF) 0 0.

(** The static variables before [pmm_init], a state with one free page at 1 MB, and
    a memory map with one available region. *)
Definition pmm_static : pmm := mkPmm (replicate (Z.to_nat BITMAP_SIZE) 0) 0 0.

Definition pmm_demo : pmm := give_page 256 pmm_full.

Definition demo_mmap (a : Z) : multiboot_mmap_entry :=
  if a =? 0x9000 then mkEntry 20 0x200000 0x40000 1 else mkEntry 20 0 0 2.

Definition demo_mboot (flags : Z) : multiboot_info :=
  mkMboot flags 640 4096 0 0 0 0 [] 24 0x9000.

(** A map with ragged regions: the first begins and ends within a page, the second crosses
    4 GB, and the third is reserved. *)
Definition ragged_mmap (a : Z) : multiboot_mmap_entry :=
  if a =? 0x9000 then mkEntry 20 0x200800 0x3000 1 else
  if a =? 0x9018 then mkEntry 20 0xFFFFE800 0x10000 1 else mkEntry 20 0x300000 0x5000 2.

(** Fields of an entry are [uint32_t]/[uint64_t] values. *)
Definition entry_ok (e : multiboot_mmap_entry) : Prop :=
  is_u32 (me_size e) ∧ 0 ≤ me_addr e < 18446744073709551616 ∧
  0 ≤ me_len e < 18446744073709551616.

(** [s'] is [s] after the pages of [l] were released. *)
Definition released (l : list Z) (s s' : pmm) : Prop :=
  pmm_wf s' ∧ used_pages s' = used_pages s ∧
  total_pages s' = total_pages s +w Z.of_nat (length l) ∧
  (∀ q, is_page q → page_used s' q = false ↔ page_used s q = false ∨ q ∈ l) ∧
  (NoDup l → (∀ q, q ∈ l → page_used s q = true) →
     free_count s' = free_count s + Z.of_nat (length l)).

(** The entries the loop visits, [None] when the fuel does not reach the end. *)
Fixpoint mmap_walk (mmap_at : Z → multiboot_mmap_entry) (fuel : nat)
    (mmap mmap_end : Z) : option (list multiboot_mmap_entry) :=
  match fuel with
  | O => None
  | S fuel =>
      if mmap <? mmap_end then
        cons (mmap_at mmap) <$>
          mmap_walk mmap_at fuel (next_entry mmap (mmap_at mmap)) mmap_end
      else Some []
  end.

(** ** The bitmap operations on well-formed states *)

Ltac pmm_lia := unfold is_page, NPAGES, BITMAP_SIZE, PAGE_SIZE in *; mlia.

Lemma page_word s p :
  pmm_wf s → is_page p → ∃ w, arr_get (bitmap s) (p / 32) = Some w ∧ is_u32 w.
Proof.
  intros (Hlen & Hw & _) Hp.
  destruct (arr_get_lt (bitmap s) (p / 32)) as [w E]; [pmm_lia|].
  exists w. split; [done|]. by eapply Forall_arr_get.
Qed.

Lemma wp_bitmap_word s p Q :
  pmm_wf s → is_page p →
  (∀ w, arr_get (bitmap s) (p / 32) = Some w → is_u32 w → Q w s) →
  wp (bitmap_word (p / 32)) s Q.
Proof.
  intros Hwf Hp HQ. destruct (page_word s p) as (w & E & Hw); [done..|].
  unfold bitmap_word. wp_steps. by eapply wp_expect, HQ.
Qed.

Lemma wp_bitmap_store s i w Q :
  pmm_wf s → 0 ≤ i < BITMAP_SIZE → Q tt (set_bitmap (arr_set (bitmap s) i w) s) →
  wp (bitmap_store i w) s Q.
Proof.
  intros (Hlen & _) Hi HQ. unfold bitmap_store. wp_steps.
  - done.
  - exfalso. assert (in_range (bitmap s) i = true); [|congruence].
    apply in_range_true. lia.
Qed.

Lemma wp_bitmap_set s p (Q : unit → pmm → Prop) :
  pmm_wf s → is_page p → Q tt (mark_used p s) → wp (bitmap_set p) s Q.
Proof.
  intros Hwf Hp HQ. unfold bitmap_set. wp_steps. apply wp_bitmap_word; [done..|].
  intros w E Hw. apply wp_bitmap_store; [done|pmm_lia|].
  unfold mark_used, upd_word in HQ. by rewrite E in HQ.
Qed.

Lemma wp_bitmap_clear s p (Q : unit → pmm → Prop) :
  pmm_wf s → is_page p → Q tt (mark_free p s) → wp (bitmap_clear p) s Q.
Proof.
  intros Hwf Hp HQ. unfold bitmap_clear. wp_steps. apply wp_bitmap_word; [done..|].
  intros w E Hw. apply wp_bitmap_store; [done|pmm_lia|].
  unfold mark_free, upd_word in HQ. by rewrite E in HQ.
Qed.

Lemma wp_bitmap_test s p (Q : bool → pmm → Prop) :
  pmm_wf s → is_page p → Q (page_used s p) s → wp (bitmap_test p) s Q.
Proof.
  intros Hwf Hp HQ. unfold bitmap_test. wp_steps. apply wp_bitmap_word; [done..|].
  intros w E Hw. wp_steps. unfold page_used in HQ. rewrite E in HQ.
  rewrite truth_bit by pmm_lia. done.
Qed.

Lemma wf_upd_word f p s :
  pmm_wf s → (∀ w, is_u32 w → is_u32 (f w)) → is_page p → pmm_wf (upd_word f p s).
Proof.
  intros Hwf Hf Hp. destruct (page_word s p) as (w & E & Hw); [done..|].
  destruct Hwf as (Hlen & Hall & Ht & Hu). unfold upd_word, pmm_wf. rewrite E. cbn.
  rewrite length_arr_set. split_and!; auto using Forall_arr_set.
Qed.

Lemma wf_mark_used p s : pmm_wf s → is_page p → pmm_wf (mark_used p s).
Proof.
  intros. apply wf_upd_word; [done| |done]. intros w Hw. apply lor_u32; [done|].
  apply shiftl1_u32. pmm_lia.
Qed.

Lemma wf_mark_free p s : pmm_wf s → is_page p → pmm_wf (mark_free p s).
Proof. intros. apply wf_upd_word; auto with flowos. Qed.

Lemma wf_set_used n s : pmm_wf s → is_u32 n → pmm_wf (set_used n s).
Proof. unfold pmm_wf. cbn. tauto. Qed.

Lemma wf_set_total n s : pmm_wf s → is_u32 n → pmm_wf (set_total n s).
Proof. unfold pmm_wf. cbn. tauto. Qed.

#[export] Hint Resolve wf_mark_used wf_mark_free wf_set_used wf_set_total : flowos.

Lemma page_used_upd (b : bool) f p q s :
  pmm_wf s → is_page p → is_page q →
  (∀ w k, is_u32 w → Z.testbit (f w) k = if p mod 32 =? k then b else Z.testbit w k) →
  page_used (upd_word f p s) q = if p =? q then b else page_used s q.
Proof.
  intros Hwf Hp Hq Hf. destruct (page_word s p) as (w & E & Hw); [done..|].
  unfold page_used, upd_word. cbn [bitmap set_bitmap]. rewrite E. cbn [default].
  destruct (Z.eq_dec (p / 32) (q / 32)) as [Hd|Hd].
  - rewrite Hd, arr_get_set_eq, <- Hd, E by (destruct Hwf as [Hl _]; pmm_lia).
    cbn. rewrite Hf by done.
    destruct (Z.eqb_spec (p mod 32) (q mod 32)), (Z.eqb_spec p q); try done; pmm_lia.
  - rewrite arr_get_set_ne by done.
    destruct (Z.eqb_spec p q); [congruence|done].
Qed.

Lemma page_used_mark_used p q s :
  pmm_wf s → is_page p → is_page q →
  page_used (mark_used p s) q = if p =? q then true else page_used s q.
Proof.
  intros. apply page_used_upd; [done..|]. intros w k _.
  rewrite set_bit_spec by pmm_lia. by destruct (_ =? k).
Qed.

Lemma page_used_mark_free p q s :
  pmm_wf s → is_page p → is_page q →
  page_used (mark_free p s) q = if p =? q then false else page_used s q.
Proof.
  intros. apply page_used_upd; [done..|]. intros w k Hw.
  rewrite clear_bit_spec by (done || pmm_lia). by destruct (_ =? k).
Qed.

(** ** Counting free pages *)

Lemma elem_of_pages p : p ∈ seqZ 0 NPAGES ↔ is_page p.
Proof. rewrite elem_of_seqZ. pmm_lia. Qed.

Lemma elem_of_free_list s p : p ∈ free_list s ↔ is_page p ∧ page_used s p = false.
Proof. unfold free_list. rewrite list_elem_of_filter, elem_of_pages. tauto. Qed.

(** The count depends only on the abstract view. *)
Lemma free_count_ext s s' :
  (∀ p, is_page p → page_used s p = page_used s' p) → free_count s = free_count s'.
Proof.
  intros H. unfold free_count, free_list. do 2 f_equal. apply filter_agree.
  intros p Hp%elem_of_pages. by rewrite H.
Qed.

Lemma free_count_flip s s' p :
  is_page p → page_used s p = false → page_used s' p = true →
  (∀ q, is_page q → q ≠ p → page_used s q = page_used s' q) →
  free_count s = free_count s' + 1.
Proof.
  intros Hp Hf Hu Hq.
  set (g q := if decide (is_page q) then page_used s q else false).
  set (g' q := if decide (is_page q) then page_used s' q else false).
  assert (∀ t h, (∀ q, is_page q → h q = page_used t q) →
    free_count t = Z.of_nat (length (filter (λ q, h q = false) (seqZ 0 NPAGES)))) as Hc.
  { intros t h Hh. unfold free_count, free_list. do 2 f_equal. apply filter_agree.
    intros q Hq'%elem_of_pages. by rewrite Hh. }
  rewrite (Hc s g), (Hc s' g')
    by (intros q Hq'; unfold g, g'; by rewrite decide_True).
  rewrite (length_filter_flip g g' _ p); [lia| | | | |].
  - apply NoDup_seqZ.
  - by apply elem_of_pages.
  - unfold g. by rewrite decide_True.
  - unfold g'. by rewrite decide_True.
  - intros q Hne. unfold g, g'. destruct (decide (is_page q)); auto.
Qed.

Lemma free_count_range s : 0 ≤ free_count s ≤ NPAGES.
Proof.
  unfold free_count. split; [lia|].
  assert (length (free_list s) ≤ length (seqZ 0 NPAGES))%nat as H
    by apply length_filter.
  rewrite length_seqZ in H. unfold NPAGES in *. lia.
Qed.

Lemma free_count_set_used n s : free_count (set_used n s) = free_count s.
Proof. apply free_count_ext. reflexivity. Qed.

Lemma free_count_set_total n s : free_count (set_total n s) = free_count s.
Proof. apply free_count_ext. reflexivity. Qed.

Lemma free_count_mark_used s p :
  pmm_wf s → is_page p → page_used s p = false →
  free_count (mark_used p s) = free_count s - 1.
Proof.
  intros Hwf Hp Hf. enough (free_count s = free_count (mark_used p s) + 1) by lia.
  apply (free_count_flip _ _ p); [done..| |].
  - by rewrite page_used_mark_used, Z.eqb_refl.
  - intros q Hq Hne. rewrite page_used_mark_used by done.
    by rewrite (proj2 (Z.eqb_neq p q)) by done.
Qed.

Lemma free_count_mark_free s p :
  pmm_wf s → is_page p → page_used s p = true →
  free_count (mark_free p s) = free_count s + 1.
Proof.
  intros Hwf Hp Hf. apply (free_count_flip _ _ p); [done| |done|].
  - by rewrite page_used_mark_free, Z.eqb_refl.
  - intros q Hq Hne. rewrite page_used_mark_free by done.
    by rewrite (proj2 (Z.eqb_neq p q)) by done.
Qed.

(** Marking a page keeps the counters in step with the bitmap. *)
Lemma accounted_take s p :
  pmm_wf s → is_page p → page_used s p = false → accounted s →
  accounted (set_used (used_pages s +w 1) (mark_used p s)).
Proof.
  unfold accounted. intros Hwf Hp Hf Hacc.
  rewrite free_count_set_used, free_count_mark_used, <- Hacc by done. cbn.
  pose proof (free_count_range (mark_used p s)) as Hr.
  rewrite free_count_mark_used, <- Hacc in Hr by done.
  unfold w32, NPAGES in *. mlia.
Qed.

Lemma accounted_give s p :
  pmm_wf s → is_page p → page_used s p = true → accounted s →
  accounted (set_used (used_pages s +w -1) (mark_free p s)).
Proof.
  unfold accounted. intros Hwf Hp Hf Hacc.
  rewrite free_count_set_used, free_count_mark_free, <- Hacc by done. cbn.
  pose proof (free_count_range (mark_free p s)) as Hr.
  rewrite free_count_mark_free, <- Hacc in Hr by done.
  unfold w32, NPAGES in *. mlia.
Qed.

(** ** Single-page allocation *)

Lemma first_free_head s p : first_free s p → head (free_list s) = Some p.
Proof.
  intros (Hp & Hf & Hlt). apply head_filter_seqZ; [pmm_lia|done|].
  intros q Hq. rewrite Hlt by done. done.
Qed.

Lemma none_free_head s :
  (∀ p, is_page p → page_used s p = true) → free_list s = [].
Proof.
  intros H. apply filter_none. intros p Hp%elem_of_pages. rewrite H by done. done.
Qed.

Lemma bitmap_word_used s i w j :
  arr_get (bitmap s) i = Some w → 0 ≤ j < 32 →
  page_used s (32 * i + j) = Z.testbit w j.
Proof.
  intros E Hj. unfold page_used.
  replace ((32 * i + j) / 32) with i by mlia. rewrite E.
  by replace ((32 * i + j) mod 32) with j by mlia.
Qed.

(** The scan of a word finds its first clear bit. *)
Lemma wp_alloc_in_word s i w Q :
  pmm_wf s → 0 ≤ i < BITMAP_SIZE → arr_get (bitmap s) i = Some w →
  (∀ q, 0 ≤ q < 32 * i → page_used s q = true) →
  (∀ p, first_free s p → Q (Some (p * PAGE_SIZE)) (take_page p s)) →
  (w = 0xFFFFFFFF → Q None s) →
  wp (alloc_in_word i) s Q.
Proof.
  intros Hwf Hi E Hlow Hsome Hnone. unfold alloc_in_word.
  apply wp_for_ret with
    (λ j s', s' = s ∧ ∀ q, 0 ≤ q < 32 * i + j → page_used s q = true).
  - split; [done|]. intros q Hq. apply Hlow. lia.
  - intros j ? Hj [-> Hq]. unfold trips in Hj. wp_step.
    unfold bitmap_word. wp_steps; (eapply wp_expect; [done|]); rewrite truth_bit by lia.
    rewrite <- (bitmap_word_used s i w) by (done || lia).
    destruct (page_used s (32 * i + j)) eqn:Eu; cbn [negb].
    + wp_steps. split; [done|]. intros q Hq'.
      destruct (Z.eq_dec q (32 * i + j)) as [->|]; [done|]. apply Hq. lia.
    + cbv zeta. replace (i *w 32 +w j) with (32 * i + j)
        by (unfold BITMAP_SIZE, w32 in *; mlia).
      wp_steps. apply wp_bitmap_set; [done|pmm_lia|]. unfold add_used. wp_steps.
      rewrite w32_small by pmm_lia. apply (Hsome (32 * i + j)).
      split_and!; [pmm_lia|done|done].
  - intros ? [-> Hall]. apply Hnone. apply u32_bits_eq.
    + eapply Forall_arr_get; [apply Hwf|done].
    + done.
    + intros k Hk. rewrite all_ones_testbit by done.
      rewrite <- (bitmap_word_used s i w) by done. apply Hall. unfold trips. lia.
Qed.

Lemma wp_pmm_alloc_page s Q :
  pmm_wf s →
  (∀ p, first_free s p → Q (p * PAGE_SIZE) (take_page p s)) →
  ((∀ p, is_page p → page_used s p = true) → Q 0 s) →
  wp pmm_alloc_page s Q.
Proof.
  intros Hwf Hsome Hnone. unfold pmm_alloc_page. wp_step.
  apply wp_for_ret with
    (λ i s', s' = s ∧ ∀ q, 0 ≤ q < 32 * i → page_used s q = true).
  - split; [done|]. lia.
  - intros i ? Hi [-> Hlow]. unfold trips, BITMAP_SIZE in Hi.
    destruct (arr_get_lt (bitmap s) i) as [w E];
      [destruct Hwf as [Hl _]; unfold BITMAP_SIZE in Hl; lia|].
    assert (w = 0xFFFFFFFF → ∀ q, 0 ≤ q < 32 * (i + 1) → page_used s q = true) as Hfull.
    { intros -> q Hq. destruct (Z.lt_ge_cases q (32 * i)); [apply Hlow; lia|].
      replace q with (32 * i + (q - 32 * i)) by lia.
      rewrite (bitmap_word_used s i _ _ E) by lia. apply all_ones_testbit. lia. }
    wp_step. unfold bitmap_word. wp_steps; (eapply wp_expect; [done|]).
    destruct (Z.eqb_spec w 0xFFFFFFFF) as [->|Hne]; cbn [negb].
    + wp_steps. auto.
    + eapply wp_alloc_in_word; [done|unfold BITMAP_SIZE; lia|done|done| |].
      * intros p Hp. wp_steps. by apply Hsome.
      * done.
  - intros ? [-> Hall]. wp_steps. cbn. apply Hnone. intros p Hp. apply Hall.
    unfold trips. pmm_lia.
Qed.

Lemma wp_pmm_free_page s addr (Q : unit → pmm → Prop) :
  pmm_wf s → is_u32 addr →
  (page_used s (addr / PAGE_SIZE) = true → Q tt (give_page (addr / PAGE_SIZE) s)) →
  (page_used s (addr / PAGE_SIZE) = false → Q tt s) →
  wp (pmm_free_page addr) s Q.
Proof.
  intros Hwf Ha Hu Hf. assert (is_page (addr / PAGE_SIZE)) by pmm_lia.
  unfold pmm_free_page. cbv zeta. wp_step. apply wp_bitmap_test; [done..|].
  wp_step; [|auto]. wp_step. apply wp_bitmap_clear; [done..|].
  unfold add_used. wp_steps. auto.
Qed.

(** ** Runs of pages *)

Lemma wp_add_used n s (Q : unit → pmm → Prop) :
  Q tt (set_used (used_pages s +w n) s) → wp (add_used n) s Q.
Proof. done. Qed.

(** Two well-formed states with the same view and counters are equal. *)
Lemma pmm_ext s s' :
  pmm_wf s → pmm_wf s' → (∀ q, is_page q → page_used s q = page_used s' q) →
  total_pages s = total_pages s' → used_pages s = used_pages s' → s = s'.
Proof.
  intros Hwf Hwf' Hview Ht Hu. destruct s as [b t u], s' as [b' t' u']; cbn in *; subst.
  f_equal. pose proof (proj1 Hwf) as Hl. pose proof (proj1 Hwf') as Hl'. cbn in Hl, Hl'.
  apply arr_ext; [lia|]. intros i Hi.
  destruct (arr_get_lt b i) as [w E]; [lia|]. destruct (arr_get_lt b' i) as [w' E']; [lia|].
  rewrite E, E'. f_equal. apply u32_bits_eq.
  - eapply Forall_arr_get; [apply Hwf|done].
  - eapply Forall_arr_get; [apply Hwf'|done].
  - intros k Hk. specialize (Hview (32 * i + k)).
    rewrite (bitmap_word_used (mkPmm b t' u') i w) in Hview by done.
    rewrite (bitmap_word_used (mkPmm b' t' u') i w') in Hview by done.
    apply Hview. pmm_lia.
Qed.

Lemma wp_run_blocked s a n (Q : option unit → pmm → Prop) :
  pmm_wf s → 0 ≤ a → 0 ≤ n → a + n ≤ NPAGES →
  (run_free s a n → Q None s) →
  (¬ run_free s a n → Q (Some tt) s) →
  wp (run_blocked a n) s Q.
Proof.
  intros Hwf Ha Hn Han Hfree Hblk. unfold run_blocked.
  apply wp_for_ret with
    (λ k s', s' = s ∧ ∀ q, a ≤ q < a + k → page_used s q = false).
  - split; [done|lia].
  - intros k ? Hk [-> Hq]. unfold trips in Hk.
    rewrite w32_small by pmm_lia. wp_step. apply wp_bitmap_test; [done|pmm_lia|].
    wp_steps. destruct (page_used s (a + k)) eqn:E.
    + apply Hblk. intros (_ & _ & Hf). rewrite Hf in E by lia. done.
    + split; [done|]. intros q Hq'.
      destruct (Z.eq_dec q (a + k)) as [->|]; [done|]. apply Hq. lia.
  - intros ? [-> Hq]. apply Hfree. split_and!; [done|done|].
    intros q Hq'. apply Hq. unfold trips. lia.
Qed.

(** Setting the bits of a free run. *)
Lemma wp_alloc_run s a n (Q : Z → pmm → Prop) :
  pmm_wf s → 0 ≤ n → run_free s a n →
  (∀ s', run_update true a n n s s' → free_count s' = free_count s - n →
     Q (a * PAGE_SIZE) s') →
  is_page a → wp (alloc_run a n) s Q.
Proof.
  intros Hwf Hn (Ha & Han & Hfree) HQ Hpa. unfold alloc_run. wp_step.
  apply wp_for with (λ k s', run_update true a k 0 s s' ∧ free_count s' = free_count s - k).
  - split; [|lia]. split_and!; [done|done| |].
    + rewrite Z.add_0_r, w32_small; [done|apply Hwf].
    + intros q _. destruct (Z.leb_spec a q), (Z.ltb_spec q (a + 0)); try done; lia.
  - intros k s1 Hk [(Hwf1 & Ht & Hu & Hv) Hc]. unfold trips in Hk.
    assert (is_page (a + k)) by pmm_lia. rewrite w32_small by pmm_lia.
    apply wp_bitmap_set; [done..|].
    assert (page_used s1 (a + k) = false) as Hf.
    { rewrite Hv by done. destruct (Z.leb_spec a (a + k)), (Z.ltb_spec (a + k) (a + k));
        cbn; try lia; apply Hfree; lia. }
    split; [|rewrite free_count_mark_used by done; lia].
    split_and!; [auto with flowos|done|done|]. intros q Hq.
    rewrite page_used_mark_used, Hv by done.
    destruct (Z.eqb_spec (a + k) q), (Z.leb_spec a q), (Z.ltb_spec q (a + k)),
      (Z.ltb_spec q (a + (k + 1))); cbn; try done; lia.
  - intros s1 [(Hwf1 & Ht & Hu & Hv) Hc]. unfold trips in *.
    wp_step. apply wp_add_used. wp_steps. rewrite w32_small by pmm_lia.
    rewrite Z.sub_0_r, Z.add_0_l, Z2Nat.id in * by done.
    apply HQ; [|by rewrite free_count_set_used].
    split_and!; [auto with flowos|done| |done].
    cbn. rewrite Hu, Z.add_0_r, w32_add_l. done.
Qed.

Lemma wp_pmm_alloc_pages s n (Q : Z → pmm → Prop) :
  pmm_wf s → 0 < n ≤ NPAGES →
  (∀ a s', run_free s a n → (∀ b, 0 ≤ b < a → ¬ run_free s b n) →
     run_update true a n n s s' → free_count s' = free_count s - n →
     Q (a * PAGE_SIZE) s') →
  ((∀ b, ¬ run_free s b n) → Q 0 s) →
  wp (pmm_alloc_pages n) s Q.
Proof.
  intros Hwf Hn Hsome Hnone. unfold pmm_alloc_pages.
  rewrite (proj2 (Z.eqb_neq n 0)) by lia. cbv zeta.
  rewrite (w32_small (BITMAP_SIZE * 32 - n)) by pmm_lia. wp_step.
  apply wp_for_ret with (λ a s', s' = s ∧ ∀ b, 0 ≤ b < a → ¬ run_free s b n).
  - split; [done|lia].
  - intros a ? Ha [-> Hb]. unfold trips in Ha.
    wp_step. apply wp_run_blocked; [done|lia|lia|pmm_lia| |].
    + intros Hf. wp_step. apply wp_alloc_run; [done|lia|done| |pmm_lia].
      intros s' Hup Hc. wp_steps. by apply Hsome.
    + intros Hnf. wp_steps. split; [done|]. intros b Hb'.
      destruct (Z.eq_dec b a) as [->|]; [done|]. apply Hb. lia.
  - intros ? [-> Hb]. wp_steps. cbn. apply Hnone. intros b Hf.
    apply (Hb b); [|done]. destruct Hf as (? & ? & _). unfold trips. pmm_lia.
Qed.

(** ** Releasing runs *)

Lemma wp_pmm_free_pages s addr n (Q : unit → pmm → Prop) :
  pmm_wf s → is_u32 addr → 0 < n → addr / PAGE_SIZE + n ≤ NPAGES →
  (∀ q, addr / PAGE_SIZE ≤ q < addr / PAGE_SIZE + n → page_used s q = true) →
  (∀ s', run_update false (addr / PAGE_SIZE) n (- n) s s' → Q tt s') →
  wp (pmm_free_pages addr n) s Q.
Proof.
  intros Hwf Haddr Hn Han Hused HQ. unfold pmm_free_pages.
  rewrite (proj2 (Z.eqb_neq n 0)) by lia. cbv zeta.
  set (a := addr / PAGE_SIZE) in *. assert (0 ≤ a) by (subst a; pmm_lia).
  apply wp_for with (λ k s', run_update false a k (- k) s s').
  - split_and!; [done|done| |].
    + rewrite Z.add_0_r, w32_small; [done|apply Hwf].
    + intros q _. destruct (Z.leb_spec a q), (Z.ltb_spec q (a + 0)); try done; lia.
  - intros k s1 Hk (Hwf1 & Ht & Hu & Hv). unfold trips in Hk.
    assert (is_page (a + k)) by pmm_lia. rewrite w32_small by pmm_lia.
    wp_step; [|pmm_lia]. wp_step. apply wp_bitmap_test; [done..|].
    assert (page_used s1 (a + k) = true) as Hp.
    { rewrite Hv by done. destruct (Z.leb_spec a (a + k)), (Z.ltb_spec (a + k) (a + k));
        cbn; try lia; apply Hused; lia. }
    wp_step; [|congruence]. wp_step. apply wp_bitmap_clear; [done..|]. apply wp_add_used.
    split_and!; [auto with flowos|done| |].
    + cbn. rewrite Hu, w32_add_l. f_equal. lia.
    + intros q Hq. change (page_used (set_used _ ?x) q) with (page_used x q).
      rewrite page_used_mark_free, Hv by done.
      destruct (Z.eqb_spec (a + k) q), (Z.leb_spec a q), (Z.ltb_spec q (a + k)),
        (Z.ltb_spec q (a + (k + 1))); cbn; try done; lia.
  - intros s1 H1. apply HQ. unfold trips in H1.
    by rewrite Z.sub_0_r, Z.add_0_l, Z2Nat.id in H1 by lia.
Qed.

(** Any release keeps the counters right, whatever pages it names. *)
Lemma wp_free_pages_accounted s addr n :
  pmm_wf s → accounted s → is_u32 addr →
  wp (pmm_free_pages addr n) s (λ _ s', pmm_wf s' ∧ accounted s').
Proof.
  intros Hwf Hacc Ha. unfold pmm_free_pages. wp_steps; [done|]. cbv zeta.
  apply wp_for with (λ _ s', pmm_wf s' ∧ accounted s'); [done| |done].
  intros i s1 Hi [Hwf1 Hacc1].
  pose proof (w32_range (addr / PAGE_SIZE + i)) as Hr. wp_step; [|by apply wp_skip].
  assert (is_page (addr / PAGE_SIZE +w i)) by pmm_lia.
  wp_step. apply wp_bitmap_test; [done..|]. wp_step; [|done].
  wp_step. apply wp_bitmap_clear; [done..|]. apply wp_add_used.
  split; [auto with flowos|]. by apply (accounted_give s1).
Qed.

(** ** Initialisation *)

Lemma wp_release_page ke p s (Q : unit → pmm → Prop) :
  pmm_wf s → is_page p →
  (0x100000 ≤ p * PAGE_SIZE ∧ ke ≤ p * PAGE_SIZE →
     Q tt (set_total (total_pages s +w 1) (mark_free p s))) →
  (¬ (0x100000 ≤ p * PAGE_SIZE ∧ ke ≤ p * PAGE_SIZE) → Q tt s) →
  wp (release_page ke p) s Q.
Proof.
  intros Hwf Hp Hin Hout. unfold release_page. cbv zeta. rewrite w32_small by pmm_lia.
  wp_step.
  - wp_step. apply wp_bitmap_clear; [done..|]. unfold add_total. wp_steps. apply Hin. lia.
  - apply Hout. lia.
Qed.

Lemma released_nil s : pmm_wf s → released [] s s.
Proof.
  intros Hwf. split_and!; [done|done| | |].
  - cbn. rewrite Z.add_0_r, w32_small; [done|apply Hwf].
  - set_solver.
  - cbn. lia.
Qed.

Lemma released_app l k s s1 s2 :
  (∀ q, q ∈ k → is_page q) →
  released l s s1 → released k s1 s2 → released (l ++ k) s s2.
Proof.
  intros Hk (Hwf1 & Hu1 & Ht1 & Hv1 & Hc1) (Hwf2 & Hu2 & Ht2 & Hv2 & Hc2).
  split_and!; [done|congruence| | |].
  - rewrite Ht2, Ht1, w32_add_l, length_app. f_equal. lia.
  - intros q Hq. rewrite Hv2, Hv1, elem_of_app by done. tauto.
  - intros (Hnl & Hdis & Hnk)%NoDup_app Hall.
    rewrite Hc2, Hc1, length_app; [lia|done| |done|].
    + intros q Hq. apply Hall. set_solver.
    + intros q Hq. destruct (page_used s1 q) eqn:E; [done|].
      apply Hv1 in E as [E|E]; [|set_solver|by apply Hk].
      rewrite Hall in E by set_solver. done.
Qed.

Lemma released_one p s :
  pmm_wf s → is_page p →
  released [p] s (set_total (total_pages s +w 1) (mark_free p s)).
Proof.
  intros Hwf Hp. split_and!; [auto with flowos|done|done| |].
  - intros q Hq. change (page_used (set_total _ ?x) q) with (page_used x q).
    rewrite page_used_mark_free, list_elem_of_singleton by done.
    destruct (Z.eqb_spec p q); naive_solver.
  - intros _ Hu. rewrite free_count_set_total, free_count_mark_free by set_solver. done.
Qed.

Lemma entry_range e :
  entry_ok e → me_addr e < 0x100000000 → 0 ≤ entry_start e ∧ entry_end e ≤ NPAGES.
Proof.
  intros (_ & Ha & Hl) H4. unfold entry_start, entry_end, entry_len, w32, w64.
  split; [mlia|]. destruct (Z.ltb_spec 0x100000000 ((me_addr e + me_len e) mod
    18446744073709551616)); pmm_lia.
Qed.

Lemma entry_pages_range ke e p : entry_ok e → p ∈ entry_pages ke e → is_page p.
Proof.
  intros He. unfold entry_pages. destruct (me_type e =? 1); [|set_solver]. cbn [andb].
  destruct (Z.ltb_spec (me_addr e) 0x100000000); [|set_solver].
  rewrite list_elem_of_filter, elem_of_seqZ.
  pose proof (entry_range e). unfold is_page. naive_solver lia.
Qed.

(** The page loop over [lo .. lo + n - 1] releases the pages above both limits. *)
Lemma wp_release_pages ke lo n s :
  pmm_wf s → 0 ≤ lo → 0 ≤ n → lo + n ≤ NPAGES →
  wp (for_ lo (Z.to_nat n) (release_page ke)) s (λ _ s',
    released (filter (λ p, 0x100000 ≤ p * PAGE_SIZE ∧ ke ≤ p * PAGE_SIZE) (seqZ lo n)) s s').
Proof.
  intros Hwf Hlo Hn Hhi.
  set (G p := 0x100000 ≤ p * PAGE_SIZE ∧ ke ≤ p * PAGE_SIZE).
  apply wp_for with (λ i s', released (filter G (seqZ lo (i - lo))) s s').
  - rewrite Z.sub_diag. by apply released_nil.
  - intros i s1 Hi H1. assert (is_page i) by (unfold is_page; lia).
    replace (i + 1 - lo) with ((i - lo) + 1) by lia.
    rewrite seqZ_snoc, filter_app by lia. replace (lo + (i - lo)) with i by lia.
    apply wp_release_page; [apply H1|done|..]; intros HG.
    + rewrite filter_cons, decide_True by done.
      eapply released_app; [set_solver|done|]. by apply released_one; [apply H1|].
    + rewrite filter_cons, decide_False by done.
      eapply released_app; [set_solver|done|]. apply released_nil, H1.
  - intros s1 H1. rewrite Z2Nat.id in H1 by done.
    by replace (lo + n - lo) with n in H1 by lia.
Qed.

Lemma wp_init_entry ke e s :
  pmm_wf s → entry_ok e →
  wp (init_entry ke e) s (λ _ s', released (entry_pages ke e) s s').
Proof.
  intros Hwf He. unfold init_entry, entry_pages.
  wp_step; [|rewrite H; by apply released_nil].
  wp_step; rewrite H, H0; cbn [andb]; [|by apply released_nil].
  destruct (entry_range e He) as [Hs Hend]; [lia|]. unfold trips.
  destruct (Z.lt_ge_cases (entry_end e) (entry_start e)).
  - replace (Z.to_nat _) with O by lia.
    rewrite seqZ_nil by lia. by apply released_nil.
  - apply wp_release_pages; [done|lia..].
Qed.

Lemma mmap_walk_ok mmap_at fuel mmap mmap_end es e :
  (∀ a, entry_ok (mmap_at a)) →
  mmap_walk mmap_at fuel mmap mmap_end = Some es → e ∈ es → entry_ok e.
Proof.
  intros Hok. revert mmap es. induction fuel as [|fuel IH]; intros mmap es Hw He; [done|].
  cbn [mmap_walk] in Hw. destruct (mmap <? mmap_end).
  - apply fmap_Some in Hw as (es' & Hw & ->). apply elem_of_cons in He as [->|He]; eauto.
  - injection Hw as <-. by apply elem_of_nil in He.
Qed.

Lemma wp_mmap_loop mmap_at fuel ke mmap mmap_end es s :
  (∀ a, entry_ok (mmap_at a)) →
  mmap_walk mmap_at fuel mmap mmap_end = Some es → pmm_wf s →
  wp (mmap_loop mmap_at fuel ke mmap mmap_end) s
     (λ _ s', released (es ≫= entry_pages ke) s s').
Proof.
  intros Hok. revert mmap es s. induction fuel as [|fuel IH]; intros mmap es s Hw Hwf; [done|].
  cbn [mmap_loop mmap_walk] in *. destruct (mmap <? mmap_end).
  - apply fmap_Some in Hw as (es' & Hw & ->). wp_step.
    eapply wp_mono; [by apply wp_init_entry|]. intros [] s1 H1.
    eapply wp_mono; [eapply IH; [done|apply H1]|]. intros [] s2 H2. cbn.
    eapply released_app; [|done|done].
    intros q (e & Hq & He)%list_elem_of_bind. eapply entry_pages_range; [|done].
    by eapply mmap_walk_ok.
  - injection Hw as <-. wp_steps. by apply released_nil.
Qed.

Lemma wf_all_used n u :
  is_u32 n → is_u32 u → pmm_wf (mkPmm (replicate (Z.to_nat BITMAP_SIZE) 0xFFFFFFFF) n u).
Proof.
  intros. split_and!; [|by apply Forall_replicate|done|done].
  cbn [bitmap]. rewrite length_replicate. unfold BITMAP_SIZE. lia.
Qed.

Lemma all_used_view n u p :
  is_page p → page_used (mkPmm (replicate (Z.to_nat BITMAP_SIZE) 0xFFFFFFFF) n u) p = true.
Proof.
  intros Hp. unfold page_used, arr_get. cbn [bitmap].
  destruct (Z.leb_spec 0 (p / 32)); [|pmm_lia].
  rewrite lookup_replicate_2 by pmm_lia. apply all_ones_testbit. mlia.
Qed.

Lemma released_all_used l n u s :
  is_u32 n → is_u32 u →
  released l (mkPmm (replicate (Z.to_nat BITMAP_SIZE) 0xFFFFFFFF) n u) s →
  (∀ q, q ∈ l → is_page q) →
  (∀ q, is_page q → page_used s q = false ↔ q ∈ l) ∧
  (NoDup l → free_count s = Z.of_nat (length l)).
Proof.
  intros Hn Hu (Hwf & _ & _ & Hv & Hc) Hl. split.
  - intros q Hq. rewrite Hv, all_used_view by done.
    split; [by intros [|]|by right].
  - intros Hnd. rewrite Hc; [|done|intros q Hq; by apply all_used_view, Hl].
    unfold free_count. rewrite none_free_head by (intros; by apply all_used_view). done.
Qed.

(** The walk over the memory map ends: every entry is at least four bytes,
    and below the limit the pointer does not wrap. *)
Lemma mmap_walk_total mmap_at fuel mmap mmap_end K :
  (∀ a, 0 ≤ me_size (mmap_at a) ≤ K) →
  0 ≤ mmap → mmap_end + K + 4 ≤ 4294967296 → mmap_end - mmap + 4 ≤ 4 * Z.of_nat fuel →
  (0 < fuel)%nat → ∃ es, mmap_walk mmap_at fuel mmap mmap_end = Some es.
Proof.
  intros HK. revert mmap. induction fuel as [|fuel IH]; intros mmap H0 Hend Hf Hpos; [lia|].
  cbn [mmap_walk]. destruct (Z.ltb_spec mmap mmap_end); [|by eexists].
  assert (next_entry mmap (mmap_at mmap) = mmap + me_size (mmap_at mmap) + 4) as ->.
  { specialize (HK mmap). unfold next_entry. rewrite w32_add_l, w32_small by mlia. done. }
  destruct (IH (mmap + me_size (mmap_at mmap) + 4)) as [es ->];
    [specialize (HK mmap); lia..|by eexists].
Qed.

(** The fallback loop releases a whole range of pages. *)
Lemma wp_clear_range lo n s :
  pmm_wf s → 0 ≤ lo → 0 ≤ n → lo + n ≤ NPAGES →
  wp (for_ lo (Z.to_nat n) (λ page, bitmap_clear page;; add_total 1)) s
     (λ _ s', released (seqZ lo n) s s').
Proof.
  intros Hwf Hlo Hn Hhi.
  apply wp_for with (λ i s', released (seqZ lo (i - lo)) s s').
  - rewrite Z.sub_diag. by apply released_nil.
  - intros i s1 Hi H1. assert (is_page i) by (unfold is_page; lia).
    replace (i + 1 - lo) with ((i - lo) + 1) by lia. rewrite seqZ_snoc by lia.
    replace (lo + (i - lo)) with i by lia.
    wp_step. apply wp_bitmap_clear; [apply H1|done|]. unfold add_total. wp_steps.
    eapply released_app; [set_solver|done|]. by apply (released_one i s1); [apply H1|].
  - intros s1 H1. rewrite Z2Nat.id in H1 by done.
    by replace (lo + n - lo) with n in H1 by lia.
Qed.

(** Past the last page the bitmap has no word. *)
Lemma bitmap_test_undef s p :
  pmm_wf s → NPAGES ≤ p → bitmap_test p s = Undef.
Proof.
  intros (Hlen & _) Hp. unfold bitmap_test, bitmap_word, bind, gets.
  destruct (arr_get (bitmap s) (p / 32)) as [w|] eqn:E; [|done].
  apply arr_get_Some_range in E. exfalso. pmm_lia.
Qed.

Lemma bitmap_test_run s p :
  pmm_wf s → is_page p → bitmap_test p s = Ret (page_used s p) s.
Proof.
  intros Hwf Hp. assert (wp (bitmap_test p) s (λ b s', b = page_used s p ∧ s' = s)) as H
    by (by apply wp_bitmap_test). destruct (wp_ex _ _ _ H) as (b & s' & -> & -> & ->). done.
Qed.

(** A run longer than the bitmap: the scan meets a used page or leaves the bitmap. *)
Lemma run_blocked_too_long s a n :
  pmm_wf s → 0 ≤ a ≤ NPAGES → NPAGES < n < 4294967296 →
  run_blocked a n s = Undef ∨
  (a < NPAGES ∧ run_blocked a n s = Ret (Some tt) s).
Proof.
  intros Hwf Ha Hn. unfold run_blocked.
  edestruct (for_ret_stuck 0 (trips 0 n) (NPAGES - a)
    (λ k, b ← bitmap_test (a +w k); ret (if b then Some tt else None)) s)
    as [->|(k & [] & Hk & _ & ->)]; [unfold trips; lia| | |by left|right].
  - rewrite w32_small by pmm_lia. unfold bind.
    by rewrite bitmap_test_undef by (done || lia).
  - intros k Hk. right. eexists. unfold bind. rewrite w32_small by pmm_lia.
    rewrite bitmap_test_run by (done || pmm_lia). done.
  - split; [lia|done].
Qed.

(** Concrete states for the witnesses. *)
Lemma wf_pmm_full : pmm_wf pmm_full.
Proof. by apply wf_all_used. Qed.

Lemma accounted_pmm_full : accounted pmm_full.
Proof.
  unfold accounted, free_count. rewrite none_free_head; [done|].
  intros p Hp. by apply all_used_view.
Qed.

Lemma wf_pmm_demo : pmm_wf pmm_demo.
Proof.
  apply wf_set_used; [|apply w32_range]. apply wf_mark_free; [apply wf_pmm_full|pmm_lia].
Qed.

Lemma pmm_demo_view q : is_page q → page_used pmm_demo q = negb (q =? 256).
Proof.
  intros Hq. unfold pmm_demo, give_page.
  change (page_used (set_used _ ?x) q) with (page_used x q).
  rewrite page_used_mark_free by (done || apply wf_pmm_full || pmm_lia).
  rewrite Z.eqb_sym. destruct (q =? 256); [done|]. by apply all_used_view.
Qed.

Lemma pmm_demo_first_free : first_free pmm_demo 256.
Proof.
  split_and!; [pmm_lia|by rewrite pmm_demo_view by pmm_lia|].
  intros q Hq. rewrite pmm_demo_view by pmm_lia. lia.
Qed.

Lemma alloc_page_run s p :
  pmm_wf s → first_free s p → pmm_alloc_page s = Ret (p * PAGE_SIZE) (take_page p s).
Proof.
  intros Hwf Hp%first_free_head.
  assert (wp pmm_alloc_page s (λ a s', a = p * PAGE_SIZE ∧ s' = take_page p s)) as H.
  { apply wp_pmm_alloc_page; [done|..].
    - intros q Hq%first_free_head. rewrite Hp in Hq. by injection Hq as <-.
    - intros Hall%none_free_head. by rewrite Hall in Hp. }
  destruct (wp_ex _ _ _ H) as (a & s' & -> & -> & ->). done.
Qed.

(** The range the code computes for an entry holds the whole pages it offers. *)
Lemma kernel_end_le _end q :
  0 ≤ _end ≤ 0xFFFFF000 → kernel_end_of _end ≤ q * PAGE_SIZE ↔ _end ≤ q * PAGE_SIZE.
Proof.
  intros He. unfold kernel_end_of. change (PAGE_SIZE - 1) with (Z.ones 12).
  rewrite land_not32 by apply w32_range. rewrite <- Z.ldiff_land, Z.ldiff_ones_r by lia.
  rewrite Z.shiftl_mul_pow2, Z.shiftr_div_pow2 by lia. unfold PAGE_SIZE. change (2 ^ 12) with 4096.
  change (Z.ones 12) with 4095. rewrite w32_small by (unfold is_u32; lia). mlia.
Qed.

Lemma elem_of_entry_pages _end e q :
  entry_ok e → 0 ≤ _end ≤ 0xFFFFF000 → is_page q →
  q ∈ entry_pages (kernel_end_of _end) e ↔
  offers e (q * PAGE_SIZE) ((q + 1) * PAGE_SIZE) ∧ 0x100000 ≤ q * PAGE_SIZE ∧ _end ≤ q * PAGE_SIZE.
Proof.
  intros (_ & Ha & Hl) He Hq. unfold entry_pages, offers.
  destruct (Z.eqb_spec (me_type e) 1), (Z.ltb_spec (me_addr e) 0x100000000); cbn [andb];
    rewrite ?elem_of_nil; [|unfold is_page, NPAGES, PAGE_SIZE in *; lia|lia..].
  rewrite list_elem_of_filter, elem_of_seqZ, kernel_end_le by done.
  enough (entry_start e ≤ q < entry_start e + (entry_end e - entry_start e) ↔
    me_addr e + me_len e < 18446744073709551616 ∧ me_addr e ≤ q * PAGE_SIZE ∧ (q + 1) * PAGE_SIZE ≤ me_addr e + me_len e) by tauto.
  unfold entry_start, entry_end, entry_len, w32, w64, is_page, NPAGES, PAGE_SIZE in *.
  destruct (Z.ltb_spec 0x100000000 ((me_addr e + me_len e) mod 18446744073709551616)); mlia.
Qed.

Lemma NoDup_entry_pages ke es :
  (∀ e, e ∈ es → entry_ok e) →
  (∀ i j e e', i ≠ j → es !! i = Some e → es !! j = Some e' → apart e e') →
  0 ≤ ke ≤ 0xFFFFF000 → NoDup (es ≫= entry_pages (kernel_end_of ke)).
Proof.
  intros Hok Hap Hke. induction es as [|e es IH]; [constructor|]. cbn. apply NoDup_app. split_and!.
  - unfold entry_pages. destruct (_ && _); [|constructor]. apply NoDup_filter, NoDup_seqZ.
  - intros q Hq (e' & Hq' & He')%list_elem_of_bind.
    assert (entry_ok e) as Hoe by (apply Hok; by left). assert (entry_ok e') as Hoe' by (apply Hok; by right).
    assert (is_page q) as Hp by (by eapply entry_pages_range).
    apply elem_of_entry_pages in Hq as [(_ & _ & ? & ?) _]; [|done..].
    apply elem_of_entry_pages in Hq' as [(_ & _ & ? & ?) _]; [|done..].
    apply list_elem_of_lookup in He' as [j Hj]. destruct (Hap O (S j) e e'); [done..|pmm_lia|pmm_lia].
  - apply IH; [intros e' He'; apply Hok; by right|]. intros i j e1 e2 Hij. apply (Hap (S i) (S j)). congruence.
Qed.

(** The loop visits the entries of the map. *)
Lemma mmap_walk_map mmap_at K fuel mmap mmap_end es :
  (∀ a, 0 ≤ me_size (mmap_at a) ≤ K) → 0 ≤ mmap → mmap_end + K + 4 ≤ 4294967296 →
  mmap_walk mmap_at fuel mmap mmap_end = Some es → memory_map mmap_at mmap_end mmap es.
Proof.
  intros HK. revert mmap es. induction fuel as [|fuel IH]; intros mmap es H0 Hend Hw; [done|].
  cbn [mmap_walk] in Hw. destruct (Z.ltb_spec mmap mmap_end).
  - apply fmap_Some in Hw as (es' & Hw & ->). specialize (HK mmap) as HKm.
    replace (next_entry mmap (mmap_at mmap)) with (mmap + 4 + me_size (mmap_at mmap)) in Hw
      by (unfold next_entry; rewrite w32_add_l, w32_small by mlia; lia).
    constructor; [done|]. apply IH; [lia|lia|done].
  - injection Hw as <-. by constructor.
Qed.

Lemma bool_false_ext (b c : bool) : (b = false ↔ c = false) → b = c.
Proof. intros [H1 H2]. destruct b, c; [done|by apply H2|symmetry; by apply H1|done]. Qed.

Lemma memory_map_go mmap_at last a es :
  memory_map mmap_at last a es → a < last →
  ∃ es', es = mmap_at a :: es' ∧ memory_map mmap_at last (a + 4 + me_size (mmap_at a)) es'.
Proof. intros Hm Ha. destruct Hm as [a Hl|a es' _ Hm]; [lia|by eexists]. Qed.

Lemma memory_map_stop mmap_at last a es : memory_map mmap_at last a es → last ≤ a → es = [].
Proof. intros Hm Ha. destruct Hm; [done|lia]. Qed.

(** [pmm_init] on a memory map. *)
Lemma pmm_init_mmap_run mmap_at _end fuel mboot K s0 :
  total_pages s0 = 0 → used_pages s0 = 0 →
  (∀ a, entry_ok (mmap_at a) ∧ me_size (mmap_at a) ≤ K) →
  Z.testbit (mb_flags mboot) 6 = true →
  0 ≤ mb_mmap_addr mboot → 0 ≤ mb_mmap_length mboot →
  mb_mmap_addr mboot + mb_mmap_length mboot + K + 4 ≤ 4294967296 →
  mb_mmap_length mboot + 4 ≤ 4 * Z.of_nat fuel →
  ∃ es, mmap_walk mmap_at fuel (mb_mmap_addr mboot)
          (mb_mmap_addr mboot + mb_mmap_length mboot) = Some es ∧
  let pages := es ≫= entry_pages (kernel_end_of _end) in
  wp (pmm_init mmap_at _end fuel mboot) s0 (λ _ s,
    pmm_wf s ∧ used_pages s = 0 ∧
    (∀ q, is_page q → page_used s q = false ↔ q ∈ pages) ∧
    (∀ q, is_page q → page_used s q = false →
       0x100000 ≤ q * PAGE_SIZE ∧ kernel_end_of _end ≤ q * PAGE_SIZE) ∧
    (NoDup pages → accounted s)).
Proof.
  intros Ht0 Hu0 Hat Hflag Ha Hl Hend Hfuel.
  assert (0 ≤ K) as HK0 by (destruct (Hat 0) as [[Hsz _] Hk]; mlia).
  destruct (mmap_walk_total mmap_at fuel (mb_mmap_addr mboot)
    (mb_mmap_addr mboot + mb_mmap_length mboot) K) as [es Hw]; [|lia..|].
  { intros a. destruct (Hat a) as [[[Hsz _] _] Hk]. done. }
  exists es. split; [done|]. cbv zeta. unfold pmm_init. cbv zeta.
  wp_step. wp_step. wp_step. rewrite truth_bit, Hflag by lia.
  unfold set_bitmap. rewrite Ht0, Hu0.
  rewrite w32_small by mlia.
  eapply wp_mono; [eapply wp_mmap_loop; [apply Hat|exact Hw|by apply wf_all_used]|].
  intros [] s1 H1. wp_steps.
  assert (∀ q, q ∈ es ≫= entry_pages (kernel_end_of _end) → is_page q) as Hpages.
  { intros q (e & Hq & He)%list_elem_of_bind. eapply entry_pages_range; [|done].
    eapply (mmap_walk_ok mmap_at); [apply Hat|apply Hw|apply He]. }
  destruct (released_all_used (es ≫= entry_pages (kernel_end_of _end)) 0 0 s1)
    as [Hview Hcount];
    [done|done|exact H1|exact Hpages|].
  destruct H1 as (Hwf1 & _ & Ht & _). split_and!; [auto with flowos|done|done| |].
  - intros q Hq Hf. apply Hview in Hf as (e & He & _)%list_elem_of_bind; [|done].
    unfold entry_pages in He. destruct (_ && _); [|by apply elem_of_nil in He].
    by apply list_elem_of_filter in He as [? _].
  - intros Hnd. unfold accounted. rewrite free_count_set_used, Hcount by done. cbn.
    rewrite Ht, w32_sub_l. cbn. rewrite Z.sub_0_r. apply w32_small.
    rewrite <- Hcount by done. pose proof (free_count_range s1). unfold NPAGES in *. mlia.
Qed.

(** ** Properties *)

(** C6. On a well-formed bitmap the word-skipping scan of [pmm_alloc_page] is the
    first-fit allocator: it returns the address of the lowest free page and marks
    exactly that page, or returns 0 and changes nothing when no page is free. *)
Theorem pmm_alloc_page_first_fit s : pmm_wf s → pmm_alloc_page s = alloc_page_ref s.
Proof.
  intros Hwf.
  assert (wp pmm_alloc_page s (λ a s', Ret a s' = alloc_page_ref s)) as H.
  { unfold alloc_page_ref. apply wp_pmm_alloc_page; [done|..].
    - intros p Hp%first_free_head. by rewrite Hp.
    - intros Hall%none_free_head. by rewrite Hall. }
  destruct (wp_ex _ _ _ H) as (a & s' & -> & HQ). done.
Qed.

(** Freeing the page [pmm_alloc_page] returned restores the state exactly:
    bitmap and counters. *)
Theorem pmm_alloc_free_page s a s' :
  pmm_wf s → pmm_alloc_page s = Ret a s' → a ≠ 0 → pmm_free_page a s' = Ret tt s.
Proof.
  intros Hwf Ha Hne.
  assert (wp pmm_alloc_page s (λ a s', a ≠ 0 → pmm_free_page a s' = Ret tt s)) as H.
  { apply wp_pmm_alloc_page; [done| |done]. intros p (Hp & Hf & _) _.
    assert (wp (pmm_free_page (p * PAGE_SIZE)) (take_page p s) (λ _ s2, s2 = s)) as Hw.
    { assert (p * PAGE_SIZE / PAGE_SIZE = p) as E by pmm_lia.
      assert (pmm_wf (mark_used p s)) by auto with flowos.
      apply wp_pmm_free_page; [unfold take_page; auto with flowos|pmm_lia|..]; rewrite E.
      - intros _. apply pmm_ext; [unfold give_page, take_page; auto with flowos|done| |done|].
        + intros q Hq. unfold give_page, take_page.
          change (page_used (set_used _ ?x) q) with (page_used x q).
          rewrite page_used_mark_free by (done || auto with flowos).
          change (page_used (set_used _ ?x) q) with (page_used x q).
          rewrite page_used_mark_used by done. by destruct (Z.eqb_spec p q) as [->|].
        + cbn. rewrite w32_add_l. rewrite w32_small; [lia|].
          replace (_ + 1 + -1) with (used_pages s) by lia. apply Hwf.
      - intros Hc. exfalso. revert Hc. unfold take_page.
        change (page_used (set_used _ ?x) p) with (page_used x p).
        by rewrite page_used_mark_used, Z.eqb_refl. }
    destruct (wp_ex _ _ _ Hw) as ([] & s2 & -> & ->). done. }
  destruct (wp_ex _ _ _ H) as (a1 & s1 & E & HQ). rewrite Ha in E. injection E as <- <-. auto.
Qed.

(** Every client step preserves well-formedness and the accounting. *)
Lemma pmm_step_accounted s s' :
  pmm_step s s' → pmm_wf s → accounted s → pmm_wf s' ∧ accounted s'.
Proof.
  intros Hstep Hwf Hacc.
  assert (∀ A (m : M pmm A) a, m s = Ret a s' →
    wp m s (λ _ s', pmm_wf s' ∧ accounted s') → pmm_wf s' ∧ accounted s') as Hrun.
  { intros A m a E Hw. destruct (wp_ex _ _ _ Hw) as (a1 & s1 & E1 & HQ).
    rewrite E in E1. by injection E1 as _ <-. }
  destruct Hstep as [s s' a E|s s' addr Ha E|s s' n a Hn E|s s' addr n Ha Hn E];
    (eapply Hrun; [done|]).
  - apply wp_pmm_alloc_page; [done| |done]. intros p (Hp & Hf & _).
    split; [unfold take_page; auto with flowos|]. by apply accounted_take.
  - assert (is_page (addr / PAGE_SIZE)) by pmm_lia.
    apply wp_pmm_free_page; [done|done| |done]. intros Hu.
    split; [unfold give_page; auto with flowos|]. by apply accounted_give.
  - destruct (Z.eq_dec n 0) as [->|]; [by unfold pmm_alloc_pages; wp_steps|].
    apply wp_pmm_alloc_pages; [done|lia| |done].
    intros b s1 _ _ (Hwf1 & Ht & Hu & _) Hc. split; [done|].
    unfold accounted in *. rewrite Hc, Ht, Hu, <- Hacc.
    pose proof (free_count_range s1) as Hr. rewrite Hc, <- Hacc in Hr.
    unfold w32, NPAGES in *. mlia.
  - by apply wp_free_pages_accounted.
Qed.

(** C19. After any sequence of allocations and releases, single pages or runs, even of
    pages that were never allocated, [pmm_get_free_pages] is the number of clear
    bits of the bitmap. *)
Theorem pmm_accounting s s' :
  pmm_wf s → accounted s → rtc pmm_step s s' →
  pmm_wf s' ∧ pmm_get_free_pages s' = Ret (free_count s') s'.
Proof.
  intros Hwf Hacc Hrtc.
  assert (pmm_wf s' ∧ accounted s') as [Hwf' Hacc'].
  { induction Hrtc as [|s s1 s' Hstep _ IH]; [done|].
    destruct (pmm_step_accounted s s1); [done..|]. auto. }
  split; [done|]. unfold pmm_get_free_pages, gets. by rewrite Hacc'.
Qed.

(** C23. [pmm_alloc_pages n] returns the lowest run of [n] free pages inside the bitmap
    and marks exactly that run, or returns 0 and changes nothing when there is no
    such run. *)
Theorem pmm_alloc_pages_spec s n :
  pmm_wf s → 0 < n ≤ NPAGES →
  wp (pmm_alloc_pages n) s (λ a s',
    (∃ p, a = p * PAGE_SIZE ∧ run_free s p n ∧ (∀ b, 0 ≤ b < p → ¬ run_free s b n) ∧
       run_update true p n n s s') ∨
    ((∀ b, ¬ run_free s b n) ∧ a = 0 ∧ s' = s)).
Proof.
  intros Hwf Hn. apply wp_pmm_alloc_pages; [done|done| |].
  - intros p s' Hf Hlow Hup _. left. exists p. done.
  - intros Hnone. right. done.
Qed.

(** Releasing the run [pmm_alloc_pages] returned, with the same length, restores
    the state exactly. *)
Theorem pmm_alloc_free_pages s n a s' :
  pmm_wf s → 0 < n ≤ NPAGES → pmm_alloc_pages n s = Ret a s' → a ≠ 0 →
  pmm_free_pages a n s' = Ret tt s.
Proof.
  intros Hwf Hn Ha Hne.
  assert (wp (pmm_alloc_pages n) s (λ a s', a ≠ 0 → pmm_free_pages a n s' = Ret tt s)) as H.
  { apply wp_pmm_alloc_pages; [done|done| |done].
    intros p s1 (Hp & Hpn & Hf) _ (Hwf1 & Ht & Hu & Hv) _ _.
    assert (wp (pmm_free_pages (p * PAGE_SIZE) n) s1 (λ _ s2, s2 = s)) as Hw.
    { assert (p * PAGE_SIZE / PAGE_SIZE = p) as E by pmm_lia.
      apply wp_pmm_free_pages; rewrite ?E; [done|pmm_lia|lia|lia| |].
      - intros q Hq. rewrite Hv by pmm_lia.
        destruct (Z.leb_spec p q), (Z.ltb_spec q (p + n)); cbn; lia || done.
      - intros s2 (Hwf2 & Ht2 & Hu2 & Hv2).
        apply pmm_ext; [done|done| |congruence|].
        + intros q Hq. rewrite Hv2, Hv by done.
          destruct (Z.leb_spec p q), (Z.ltb_spec q (p + n)); cbn; try done.
          symmetry. apply Hf. lia.
        + rewrite Hu2, Hu, w32_add_l. replace (_ + n + - n) with (used_pages s) by lia.
          apply w32_small, Hwf. }
    destruct (wp_ex _ _ _ Hw) as ([] & s2 & -> & ->). done. }
  destruct (wp_ex _ _ _ H) as (a1 & s1 & E & HQ). rewrite Ha in E. injection E as <- <-. auto.
Qed.

(** C20. From the static initial state, [pmm_init] on a memory map terminates, and then exactly
    those pages are available that lie as a whole in a region of type 1, above 1 MB and above
    the kernel image, however ragged the regions are; what a region has above 4 GB is left
    out.  When no two regions overlap, [pmm_get_total_pages] is the number of these pages.
    (Page 0 is never available, so that 0 can mean "out of memory".) *)
Theorem pmm_init_mmap mmap_at _end fuel mboot K s0 :
  total_pages s0 = 0 → used_pages s0 = 0 →
  (∀ a, entry_ok (mmap_at a) ∧ me_size (mmap_at a) ≤ K) →
  Z.testbit (mb_flags mboot) 6 = true →
  0 ≤ mb_mmap_addr mboot → 0 ≤ mb_mmap_length mboot →
  mb_mmap_addr mboot + mb_mmap_length mboot + K + 4 ≤ 4294967296 →
  mb_mmap_length mboot + 4 ≤ 4 * Z.of_nat fuel → 0 ≤ _end ≤ 0xFFFFF000 →
  ∃ es, memory_map mmap_at (mb_mmap_addr mboot + mb_mmap_length mboot) (mb_mmap_addr mboot) es ∧
  wp (pmm_init mmap_at _end fuel mboot) s0 (λ _ s,
    pmm_wf s ∧ used_pages s = 0 ∧
    (∀ q, is_page q → page_used s q = false ↔
       (∃ e, e ∈ es ∧ offers e (4096 * q) (4096 * q + 4096)) ∧ 0x100000 ≤ 4096 * q ∧ _end ≤ 4096 * q) ∧
    ((∀ i j e e', i ≠ j → es !! i = Some e → es !! j = Some e' → apart e e') →
       pmm_get_total_pages s = Ret (free_count s) s)).
Proof.
  intros Ht0 Hu0 Hat Hflag Ha Hl Hend Hfuel Hke.
  destruct (pmm_init_mmap_run mmap_at _end fuel mboot K s0 Ht0 Hu0 Hat Hflag Ha Hl Hend Hfuel) as (es & Hw & Hrun).
  assert (∀ e, e ∈ es → entry_ok e) as Hok by (intros e; eapply mmap_walk_ok; [apply Hat|exact Hw]).
  exists es. split; [eapply mmap_walk_map; [|done..|exact Hw]; intros a; split; apply Hat|].
  eapply wp_mono; [exact Hrun|]. intros [] s (Hwf & Hu & Hv & _ & Hacc). split_and!; [done|done| |].
  - intros q Hq. rewrite Hv, list_elem_of_bind by done.
    assert (∀ e, e ∈ es → q ∈ entry_pages (kernel_end_of _end) e ↔
      offers e (4096 * q) (4096 * q + 4096) ∧ 0x100000 ≤ 4096 * q ∧ _end ≤ 4096 * q) as Hel.
    { intros e He. rewrite elem_of_entry_pages by auto. unfold PAGE_SIZE.
      replace ((q + 1) * 4096) with (4096 * q + 4096) by lia. by replace (q * 4096) with (4096 * q) by lia. }
    split.
    + intros (e & Hqe & He). apply (Hel e He) in Hqe as (? & ?). split; [by exists e|done].
    + intros [(e & He & Ho) Hlim]. exists e. split; [|done]. by apply Hel.
  - intros Hap. specialize (Hacc (NoDup_entry_pages _ _ Hok Hap Hke)). unfold accounted in Hacc.
    rewrite Hu, Z.sub_0_r, w32_small in Hacc by apply Hwf. unfold pmm_get_total_pages, gets. by rewrite Hacc.
Qed.

(** Without a memory map, [pmm_init] makes available exactly the pages between the
    end of the kernel image and the memory size that [mem_upper] gives in 32-bit
    arithmetic, and the counters agree with the bitmap. *)
Theorem pmm_init_without_mmap mmap_at _end fuel mboot s0 :
  total_pages s0 = 0 → used_pages s0 = 0 → Z.testbit (mb_flags mboot) 6 = false →
  let first := kernel_end_of _end / PAGE_SIZE in
  let last := (mb_mem_upper mboot +w 1024) *w 1024 / PAGE_SIZE in
  wp (pmm_init mmap_at _end fuel mboot) s0 (λ _ s,
    pmm_wf s ∧ accounted s ∧
    ∀ q, is_page q → page_used s q = false ↔ first ≤ q < last).
Proof.
  intros Ht0 Hu0 Hflag first last. unfold pmm_init. cbv zeta.
  wp_step. wp_step. wp_step. rewrite truth_bit, Hflag by lia.
  unfold init_fallback. cbv zeta. fold first last.
  unfold set_bitmap. rewrite Ht0, Hu0.
  assert (0 ≤ first) as Hfirst.
  { apply Z.div_pos; [|done]. apply land_u32, w32_range. }
  assert (last ≤ NPAGES) as Hlast.
  { pose proof (w32_range ((mb_mem_upper mboot +w 1024) * 1024)). subst last. pmm_lia. }
  rewrite Z.min_l by (unfold NPAGES, BITMAP_SIZE in *; lia).
  assert (wp (for_ first (trips first last) (λ page, bitmap_clear page;; add_total 1))
    (mkPmm (replicate (Z.to_nat BITMAP_SIZE) 0xFFFFFFFF) 0 0)
    (λ _ s1, released (seqZ first (last - first))
       (mkPmm (replicate (Z.to_nat BITMAP_SIZE) 0xFFFFFFFF) 0 0) s1)) as Hloop.
  { destruct (Z.lt_ge_cases last first).
    - unfold trips. replace (Z.to_nat _) with O by lia. rewrite seqZ_nil by lia.
      apply wp_skip, released_nil, wf_all_used; done.
    - apply wp_clear_range; [by apply wf_all_used|lia..]. }
  eapply wp_mono; [exact Hloop|]. intros [] s1 H1. wp_steps.
  destruct (released_all_used (seqZ first (last - first)) 0 0 s1) as [Hview Hcount];
    [done|done|exact H1| |].
  { intros q Hq%elem_of_seqZ. unfold is_page. lia. }
  destruct H1 as (Hwf1 & _ & Ht & _). split_and!; [auto with flowos| |].
  - unfold accounted. rewrite free_count_set_used, Hcount by apply NoDup_seqZ. cbn.
    rewrite Ht, w32_sub_l. cbn. rewrite Z.sub_0_r. apply w32_small.
    rewrite <- Hcount by apply NoDup_seqZ.
    pose proof (free_count_range s1). unfold NPAGES in *. mlia.
  - intros q Hq. change (page_used (set_used 0 s1) q) with (page_used s1 q).
    rewrite Hview, elem_of_seqZ by done. lia.
Qed.

(** A request for more pages than the bitmap has makes [total_avail - n] wrap: the
    scan leaves the bitmap array. *)
Theorem pmm_alloc_pages_too_many s n :
  pmm_wf s → NPAGES < n < 4294967296 → pmm_alloc_pages n s = Undef.
Proof.
  intros Hwf Hn. unfold pmm_alloc_pages. rewrite (proj2 (Z.eqb_neq n 0)) by pmm_lia.
  cbv zeta. unfold bind at 1.
  edestruct (for_ret_stuck 0 (trips 0 ((BITMAP_SIZE * 32 -w n) + 1)) NPAGES (λ start,
    blocked ← run_blocked start n;
    match blocked with
    | Some _ => ret None
    | None => a ← alloc_run start n; ret (Some a)
    end) s) as [->|(a & r & Ha & Hr & _)]; [| | |done|].
  - unfold trips, w32. pmm_lia.
  - unfold bind. by destruct (run_blocked_too_long s NPAGES n) as [->|[? _]];
      [done|pmm_lia|done|..|lia].
  - intros a Ha. unfold bind.
    destruct (run_blocked_too_long s a n) as [->|[_ ->]]; [done|lia|done|by left|].
    right. exists None. reflexivity.
  - exfalso. revert Hr. unfold bind.
    by destruct (run_blocked_too_long s a n) as [->|[_ ->]]; [done|lia|done|..].
Qed.

(** ** Witnesses *)

Lemma pmm_alloc_page_first_fit_witness :
  pmm_alloc_page pmm_demo = Ret 0x100000 (take_page 256 pmm_demo).
Proof.
  rewrite (pmm_alloc_page_first_fit pmm_demo wf_pmm_demo). unfold alloc_page_ref.
  rewrite (first_free_head _ _ pmm_demo_first_free). reflexivity.
Defined.

Lemma pmm_alloc_free_page_witness :
  pmm_free_page 0x100000 (take_page 256 pmm_demo) = Ret tt pmm_demo.
Proof.
  apply (pmm_alloc_free_page pmm_demo 0x100000 (take_page 256 pmm_demo)).
  - exact wf_pmm_demo.
  - exact (alloc_page_run pmm_demo 256 wf_pmm_demo pmm_demo_first_free).
  - lia.
Defined.

Lemma pmm_accounting_witness :
  pmm_wf pmm_full ∧ accounted pmm_full ∧
  ∃ s', rtc pmm_step pmm_full s' ∧ pmm_get_free_pages s' = Ret (free_count s') s'.
Proof.
  split; [exact wf_pmm_full|]. split; [exact accounted_pmm_full|].
  assert (wp (pmm_free_page 0x100000) pmm_full (λ _ _, True)) as H.
  { apply wp_pmm_free_page; [exact wf_pmm_full|done|done|done]. }
  destruct (wp_ex _ _ _ H) as ([] & s' & E & _). exists s'.
  assert (rtc pmm_step pmm_full s') as Hr.
  { apply rtc_once. refine (step_free pmm_full s' 0x100000 _ E). unfold is_u32. lia. }
  split; [exact Hr|].
  apply (pmm_accounting pmm_full s' wf_pmm_full accounted_pmm_full Hr).
Defined.

Lemma pmm_alloc_pages_spec_witness :
  pmm_wf pmm_demo ∧ wp (pmm_alloc_pages 1) pmm_demo (λ a s',
    (∃ p, a = p * PAGE_SIZE ∧ run_free pmm_demo p 1 ∧
       (∀ b, 0 ≤ b < p → ¬ run_free pmm_demo b 1) ∧ run_update true p 1 1 pmm_demo s') ∨
    ((∀ b, ¬ run_free pmm_demo b 1) ∧ a = 0 ∧ s' = pmm_demo)).
Proof.
  split; [exact wf_pmm_demo|].
  apply (pmm_alloc_pages_spec pmm_demo 1 wf_pmm_demo). unfold NPAGES. lia.
Defined.

Lemma pmm_alloc_free_pages_witness :
  ∃ s', pmm_alloc_pages 1 pmm_demo = Ret 0x100000 s' ∧
        pmm_free_pages 0x100000 1 s' = Ret tt pmm_demo.
Proof.
  assert (wp (pmm_alloc_pages 1) pmm_demo (λ a _, a = 0x100000)) as H.
  { apply wp_pmm_alloc_pages; [exact wf_pmm_demo|unfold NPAGES; lia|..].
    - intros a s' (Ha & Hn & Hf) _ _ _. specialize (Hf a ltac:(lia)).
      rewrite pmm_demo_view in Hf by (unfold is_page; lia). unfold PAGE_SIZE. lia.
    - intros Hn. exfalso. apply (Hn 256). split_and!; [done|done|].
      intros q Hq. replace q with 256 by lia. by rewrite pmm_demo_view by pmm_lia. }
  destruct (wp_ex _ _ _ H) as (a & s' & E & ->). exists s'. split; [exact E|].
  apply (pmm_alloc_free_pages pmm_demo 1 0x100000 s');
    [exact wf_pmm_demo|unfold NPAGES; lia|exact E|lia].
Defined.

Lemma pmm_init_mmap_witness :
  wp (pmm_init ragged_mmap 0x1F0123 20 (mkMboot 64 640 4096 0 0 0 0 [] 72 0x9000)) pmm_static (λ _ s,
    page_used s 0x200 = true ∧ page_used s 0x201 = false ∧ page_used s 0x202 = false ∧ page_used s 0x203 = true ∧
    page_used s 0xFFFFE = true ∧ page_used s 0xFFFFF = false ∧ page_used s 0x301 = true ∧
    pmm_get_total_pages s = Ret (free_count s) s).
Proof.
  destruct (pmm_init_mmap ragged_mmap 0x1F0123 20 (mkMboot 64 640 4096 0 0 0 0 [] 72 0x9000) 20 pmm_static) as (es & Hm & Hrun);
    [done|done| |done|done|done|done|done|done|].
  { intros a. unfold ragged_mmap, entry_ok, is_u32. destruct (a =? 0x9000); [|destruct (a =? 0x9018)]; cbn; lia. }
  assert (es = [mkEntry 20 0x200800 0x3000 1; mkEntry 20 0xFFFFE800 0x10000 1; mkEntry 20 0x300000 0x5000 2]) as ->.
  { do 3 (apply memory_map_go in Hm as (? & -> & Hm); [|vm_compute; done]).
    apply memory_map_stop in Hm as ->; [done|vm_compute; discriminate]. }
  eapply wp_mono; [exact Hrun|]. intros [] s (_ & _ & Hv & Htot). clear Hrun Hm.
  assert (∀ q, is_page q → page_used s q = false ↔ (q = 0x201 ∨ q = 0x202 ∨ q = 0xFFFFF)) as Hq.
  { intros q Hp. rewrite Hv by done. unfold is_page, NPAGES, offers in *. split.
    - intros [(e & He & Ho) _]. rewrite !elem_of_cons, elem_of_nil in He.
      destruct He as [->|[->|[->|[]]]]; cbn in Ho; lia.
    - intros H. split; [|lia]. assert (q < 0x300 ∨ 0x300 ≤ q) as [H1|H1] by lia.
      + exists (mkEntry 20 0x200800 0x3000 1). split; [by left|cbn; lia].
      + exists (mkEntry 20 0xFFFFE800 0x10000 1). split; [right; by left|cbn; lia]. }
  clear Hv. split_and!; [..|apply Htot].
  1-7: (apply bool_false_ext; rewrite Hq by pmm_lia; first [split; [lia|done]|split; [done|lia]]).
  intros [|[|[|i]]] [|[|[|j]]] e e' Hij He He'; try done; injection He as <-; injection He' as <-; unfold apart; cbn; lia.
Defined.

Lemma pmm_init_without_mmap_witness :
  wp (pmm_init demo_mmap 0x1F0123 8 (demo_mboot 0)) pmm_static (λ _ s,
    pmm_wf s ∧ accounted s ∧
    ∀ q, is_page q → page_used s q = false ↔
      kernel_end_of 0x1F0123 / PAGE_SIZE ≤ q < (4096 +w 1024) *w 1024 / PAGE_SIZE).
Proof.
  apply (pmm_init_without_mmap demo_mmap 0x1F0123 8 (demo_mboot 0) pmm_static); done.
Defined.

Lemma pmm_alloc_pages_too_many_witness : pmm_alloc_pages 0x100001 pmm_full = Undef.
Proof.
  apply (pmm_alloc_pages_too_many pmm_full 0x100001 wf_pmm_full). unfold NPAGES. lia.
Defined.
