(* ===== verification/Paging.v ===== *)
(** * Paging (src/src/paging.c, src/src/paging.h)

    Page directories and page tables in physical memory, the operations that
    map, unmap, translate, clone and switch address spaces, and the page-fault
    handler.  The kernel reaches page-table frames through the identity map
    of the first gigabyte: the model accesses physical words directly.  The
    translation cache of the processor is part of the state, so that the
    invalidations of the code can be checked. *)

From S2P Require Import Prelude Pic Idt Pmm.

(** ** Data *)

Definition PAGE_PRESENT : Z := 0x001.

Definition PAGE_WRITE : Z := 0x002.

Definition PAGE_USER : Z := 0x004.

(** Static variables of paging.c with the page-frame allocator, the handler
    table, physical memory (by words), and the processor's side: [cr3], the
    paging bit of [cr0], the translation cache (page number to entry); [vm_log]
    records the messages given to [log_info]. *)
Record vm := mkVm {
  vm_pmm : pmm;
  vm_handlers : list (option handler);
  vm_mem : gmap Z Z;
  kernel_pd_phys : Z;
  current_pd_phys : Z;
  cr3 : Z;
  cr0_pg : bool;
  tlb : gmap Z Z;
  vm_log : list (list Z)
}.

Definition set_pmm (p : pmm) (v : vm) : vm :=
  mkVm p (vm_handlers v) (vm_mem v) (kernel_pd_phys v) (current_pd_phys v) (cr3 v)
    (cr0_pg v) (tlb v) (vm_log v).

Definition set_handlers (h : list (option handler)) (v : vm) : vm :=
  mkVm (vm_pmm v) h (vm_mem v) (kernel_pd_phys v) (current_pd_phys v) (cr3 v)
    (cr0_pg v) (tlb v) (vm_log v).

Definition set_mem (m : gmap Z Z) (v : vm) : vm :=
  mkVm (vm_pmm v) (vm_handlers v) m (kernel_pd_phys v) (current_pd_phys v) (cr3 v)
    (cr0_pg v) (tlb v) (vm_log v).

Definition set_kernel_pd (a : Z) (v : vm) : vm :=
  mkVm (vm_pmm v) (vm_handlers v) (vm_mem v) a (current_pd_phys v) (cr3 v)
    (cr0_pg v) (tlb v) (vm_log v).

Definition set_current_pd (a : Z) (v : vm) : vm :=
  mkVm (vm_pmm v) (vm_handlers v) (vm_mem v) (kernel_pd_phys v) a (cr3 v)
    (cr0_pg v) (tlb v) (vm_log v).

Definition set_cr3 (a : Z) (pg : bool) (t : gmap Z Z) (v : vm) : vm :=
  mkVm (vm_pmm v) (vm_handlers v) (vm_mem v) (kernel_pd_phys v) (current_pd_phys v) a
    pg t (vm_log v).

Definition set_tlb (t : gmap Z Z) (v : vm) : vm := set_cr3 (cr3 v) (cr0_pg v) t v.

Definition set_log (l : list (list Z)) (v : vm) : vm :=
  mkVm (vm_pmm v) (vm_handlers v) (vm_mem v) (kernel_pd_phys v) (current_pd_phys v)
    (cr3 v) (cr0_pg v) (tlb v) l.

(** ** Memory and processor primitives *)

Definition in_pmm {A} (m : M pmm A) : M vm A := zoom vm_pmm set_pmm m.

(** Address of the [i]-th word of an array at [base]. *)
Definition slot (base i : Z) : Z := base +w 4 * i.

Definition load (a : Z) : M vm Z := gets (λ v, ldw (vm_mem v) a).

Definition store (a x : Z) : M vm unit := modify (λ v, set_mem (<[a := x]> (vm_mem v)) v).

(** [invlpg]: forget the cached translation of the page. *)
Definition invlpg (va : Z) : M vm unit :=
  modify (λ v, set_tlb (delete (Z.shiftr va 12) (tlb v)) v).

(** [mov cr3]: a new page directory; no cached translation survives. *)
Definition load_cr3 (pd : Z) : M vm unit := modify (λ v, set_cr3 pd (cr0_pg v) ∅ v).

(** [paging_enable] (src/src/isr.asm): load [cr3], set the PG bit of [cr0]. *)
Definition paging_enable (pd : Z) : M vm unit := modify (set_cr3 pd true ∅).

Definition log_msg (msg : list Z) : M vm unit :=
  modify (λ v, set_log (vm_log v ++ [msg]) v).

(** ** Mapping *)

Definition pd_index (va : Z) : Z := Z.shiftr va 22.

Definition pt_index (va : Z) : Z := Z.land (Z.shiftr va 12) 0x3FF.

(** [entry & 0xFFFFF000]. *)
Definition frame (e : Z) : Z := Z.land e 0xFFFFF000.

Definition present (e : Z) : bool := truth (Z.land e PAGE_PRESENT).

(** The branch that creates a page table; [false] when there is no frame. *)
Definition new_page_table (pd va flags : Z) : M vm bool :=
  pt_phys ← in_pmm pmm_alloc_page;
  if pt_phys =? 0 then ret false else
  for_ 0 (trips 0 1024) (λ i, store (slot pt_phys i) 0);;
  store (slot pd (pd_index va))
    (Z.lor (Z.lor (Z.lor pt_phys PAGE_PRESENT) PAGE_WRITE) (Z.land flags PAGE_USER));;
  ret true.

Definition paging_map_page (virtual_addr physical_addr flags : Z) : M vm unit :=
  pd ← gets current_pd_phys;
  e ← load (slot pd (pd_index virtual_addr));
  ok ← (if negb (present e) then new_page_table pd virtual_addr flags else ret true);
  if negb ok then skip else
  e ← load (slot pd (pd_index virtual_addr));
  store (slot (frame e) (pt_index virtual_addr))
    (Z.lor (Z.lor (frame physical_addr) flags) PAGE_PRESENT);;
  invlpg virtual_addr.

Definition paging_unmap_page (virtual_addr : Z) : M vm unit :=
  pd ← gets current_pd_phys;
  pd_entry ← load (slot pd (pd_index virtual_addr));
  if negb (present pd_entry) then skip else
  store (slot (frame pd_entry) (pt_index virtual_addr)) 0;;
  invlpg virtual_addr.

Definition paging_get_physical (virtual_addr : Z) : M vm Z :=
  pd ← gets current_pd_phys;
  let offset := Z.land virtual_addr 0xFFF in
  pd_entry ← load (slot pd (pd_index virtual_addr));
  if negb (present pd_entry) then ret 0 else
  pt_entry ← load (slot (frame pd_entry) (pt_index virtual_addr));
  if negb (present pt_entry) then ret 0 else
  ret (frame pt_entry +w offset).

Definition paging_kernel_pd_phys : M vm Z := gets kernel_pd_phys.

Definition paging_clone_pd : M vm Z :=
  new_pd_phys ← in_pmm pmm_alloc_page;
  if new_pd_phys =? 0 then ret 0 else
  kern_pd ← gets kernel_pd_phys;
  for_ 0 (trips 0 1024) (λ i,
    e ← load (slot kern_pd i); store (slot new_pd_phys i) e);;
  ret new_pd_phys.

Definition paging_switch (pd_phys : Z) : M vm unit :=
  modify (set_current_pd pd_phys);; load_cr3 pd_phys.

(** ** Initialisation; [kernel_pd] and [kernel_page_tables] are the addresses
    of the static arrays *)

(** Address of [kernel_page_tables[i]]. *)
Definition table_addr (kernel_page_tables i : Z) : Z := kernel_page_tables +w i *w 4096.

Definition init_table (kernel_pd kernel_page_tables i : Z) : M vm unit :=
  for_ 0 (trips 0 1024) (λ j,
    let addr := (i * 1024 + j) *w PAGE_SIZE in
    store (slot (table_addr kernel_page_tables i) j)
      (Z.lor (Z.lor addr PAGE_PRESENT) PAGE_WRITE));;
  store (slot kernel_pd i)
    (Z.lor (Z.lor (table_addr kernel_page_tables i) PAGE_PRESENT) PAGE_WRITE).

Definition paging_init (kernel_pd kernel_page_tables : Z) : M vm unit :=
  for_ 0 (trips 0 1024) (λ i, store (slot kernel_pd i) 0);;
  for_ 0 (trips 0 256) (init_table kernel_pd kernel_page_tables);;
  modify (set_kernel_pd kernel_pd);;
  modify (λ v, set_current_pd (kernel_pd_phys v) v);;
  zoom vm_handlers set_handlers (register_interrupt_handler 14 page_fault_handler_fn);;
  paging_enable kernel_pd.

(** ** Page faults *)

(** [hex[(cr2 >> (i*4)) & 0xF]]. *)
Definition hex_digit (n : Z) : Z := if n <? 10 then 48 + n else 55 + n.

(** The text of the panic message: two characters of prefix, then eight digits
    written from the last to the first, then the NUL. *)
Definition hex_string (cr2 : Z) : list Z :=
  let buf := [48; 120] ++ replicate 30 0 in
  let digit i buf :=
    arr_set buf (9 - i) (hex_digit (Z.land (Z.shiftr cr2 (i * 4)) 0xF)) in
  arr_set (foldl (λ b i, digit i b) buf (seqZ 0 8)) 10 0.

Definition fault_panic (cr2 : Z) : M vm unit :=
  log_msg (str "Page Fault Panic!");;
  log_msg (str "Fault Address (CR2):");;
  log_msg (cstring (hex_string cr2));;
  halt.

Definition page_fault_handler (fault_addr err : Z) : M vm unit :=
  if truth (Z.land err 0x1) then fault_panic fault_addr else
  if truth (Z.land err 0x8) then fault_panic fault_addr else
  let page_addr := Z.land fault_addr 0xFFFFF000 in
  let flags := Z.lor PAGE_PRESENT PAGE_WRITE in
  let flags := if truth (Z.land err 0x4) then Z.lor flags PAGE_USER else flags in
  phys ← in_pmm pmm_alloc_page;
  if phys =? 0 then fault_panic fault_addr else
  paging_map_page page_addr phys flags.

(** ** Abstract view: the page walk of the processor *)

Definition walk (m : gmap Z Z) (D va : Z) : option Z :=
  let e := ldw m (slot D (pd_index va)) in
  if present e then
    let p := ldw m (slot (frame e) (pt_index va)) in
    if present p then Some p else None
  else None.

Definition pde (v : vm) (D i : Z) : Z := ldw (vm_mem v) (slot D i).

Definition aligned (a : Z) : Prop := is_u32 a ∧ a mod 4096 = 0.

Definition frame_used (v : vm) (a : Z) : Prop := page_used (vm_pmm v) (a / 4096) = true.

(** The invariant of the address spaces [pds]: directories and tables are used
    page frames, no frame is both a directory and a table, a directory has no
    table twice, the processor runs the current directory, and every cached
    translation is the one the tables give. *)
Record vm_inv (pds : list Z) (v : vm) : Prop := mkInv {
  inv_pmm : pmm_wf (vm_pmm v);
  inv_page0 : page_used (vm_pmm v) 0 = true;
  inv_mem : map_Forall (λ _ x, is_u32 x) (vm_mem v);
  inv_current : current_pd_phys v ∈ pds;
  inv_kernel : kernel_pd_phys v ∈ pds;
  inv_cr3 : cr3 v = current_pd_phys v;
  inv_pds D : D ∈ pds → aligned D ∧ frame_used v D;
  inv_tables D i : D ∈ pds → 0 ≤ i < 1024 → present (pde v D i) = true →
    frame_used v (frame (pde v D i)) ∧ frame (pde v D i) ∉ pds;
  inv_distinct D i j : D ∈ pds → 0 ≤ i < 1024 → 0 ≤ j < 1024 → i ≠ j →
    present (pde v D i) = true → present (pde v D j) = true →
    frame (pde v D i) ≠ frame (pde v D j);
  inv_tlb n e : tlb v !! n = Some e →
    is_page n ∧ walk (vm_mem v) (current_pd_phys v) (n * 4096) = Some e
}.

(** The table of [va] in the current directory is not used by [D']. *)
Definition unshared (v : vm) (va D' : Z) : Prop :=
  let e := pde v (current_pd_phys v) (pd_index va) in
  present e = true → ∀ i, 0 ≤ i < 1024 → present (pde v D' i) = true →
    frame (pde v D' i) ≠ frame e.

(** Writing one entry of a table of the current space, and invalidating it. *)
Definition put_pte (va x : Z) (v : vm) : vm :=
  let t := frame (pde v (current_pd_phys v) (pd_index va)) in
  set_tlb (delete (Z.shiftr va 12) (tlb v))
    (set_mem (<[slot t (pt_index va) := x]> (vm_mem v)) v).

Definition table_entry (pt_phys flags : Z) : Z :=
  Z.lor (Z.lor (Z.lor pt_phys PAGE_PRESENT) PAGE_WRITE) (Z.land flags PAGE_USER).

(** The state after a table was created: [p] is the new frame; besides it only the entry of the
    directory was written. *)
Definition fresh_table (pds : list Z) (va flags p : Z) (v v' : vm) : Prop :=
  vm_inv pds v' ∧ current_pd_phys v' = current_pd_phys v ∧
  vm_pmm v' = take_page p (vm_pmm v) ∧
  present (pde v' (current_pd_phys v) (pd_index va)) = true ∧
  (∀ D va', D ∈ pds → is_u32 va' → walk (vm_mem v') D va' = walk (vm_mem v) D va') ∧
  (∀ D i, D ∈ pds → 0 ≤ i < 1024 → present (pde v' D i) = true →
     (D, i) ≠ (current_pd_phys v, pd_index va) →
     frame (pde v' D i) ≠ frame (pde v' (current_pd_phys v) (pd_index va))) ∧
  pde v' (current_pd_phys v) (pd_index va) = table_entry (p * 4096) flags ∧
  (∀ a, a / 4096 ≠ p → a ≠ slot (current_pd_phys v) (pd_index va) → ldw (vm_mem v') a = ldw (vm_mem v) a).

Definition pte_value (pa flags : Z) : Z := Z.lor (Z.lor (frame pa) flags) PAGE_PRESENT.

(** The state in which the entry is written: the given one, or one with a new table. *)
Definition table_ready (pds : list Z) (va flags : Z) (v v1 : vm) : Prop :=
  (v1 = v ∧ present (pde v (current_pd_phys v) (pd_index va)) = true) ∨
  (present (pde v (current_pd_phys v) (pd_index va)) = false ∧
   ∃ p, is_page p ∧ page_used (vm_pmm v) p = false ∧ fresh_table pds va flags p v v1).

(** A new directory: its entries are those of the kernel's. *)
Definition cloned (pds : list Z) (p : Z) (v v' : vm) : Prop :=
  vm_inv (p * 4096 :: pds) v' ∧ vm_pmm v' = take_page p (vm_pmm v) ∧
  current_pd_phys v' = current_pd_phys v ∧ kernel_pd_phys v' = kernel_pd_phys v ∧
  (∀ va, is_u32 va →
     walk (vm_mem v') (p * 4096) va = walk (vm_mem v) (kernel_pd_phys v) va) ∧
  (∀ D va, D ∈ pds → is_u32 va → walk (vm_mem v') D va = walk (vm_mem v) D va).

Definition rw_entry (f : Z) : Z := Z.lor (Z.lor f PAGE_PRESENT) PAGE_WRITE.

(** Steps of a running system: the kernel's operations on the list of address
    spaces, and the processor caching a translation it walked. *)
Inductive vm_step : list Z * vm → list Z * vm → Prop :=
| vs_map pds v v' va pa flags :
    is_u32 va → is_u32 pa → 0 ≤ flags < 4096 →
    paging_map_page va pa flags v = Ret tt v' → vm_step (pds, v) (pds, v')
| vs_unmap pds v v' va :
    is_u32 va → paging_unmap_page va v = Ret tt v' → vm_step (pds, v) (pds, v')
| vs_clone pds v v' D :
    paging_clone_pd v = Ret D v' →
    vm_step (pds, v) (if D =? 0 then pds else D :: pds, v')
| vs_switch pds v v' D :
    D ∈ pds → paging_switch D v = Ret tt v' → vm_step (pds, v) (pds, v')
| vs_fault pds v v' va err :
    is_u32 va → page_fault_handler va err v = Ret tt v' → vm_step (pds, v) (pds, v')
| vs_fill pds v n e :
    is_page n → walk (vm_mem v) (current_pd_phys v) (n * 4096) = Some e →
    vm_step (pds, v) (pds, set_tlb (<[n := e]> (tlb v)) v).

(** Value of a string of hexadecimal digits. *)
Definition hex_value (ds : list Z) : Z :=
  foldl (λ acc c, 16 * acc + (if c <? 58 then c - 48 else c - 55)) 0 ds.

(** Flags of the page the fault handler maps. *)
Definition fault_flags (err : Z) : Z := if Z.testbit err 2 then 7 else 3.

(** A state with an empty kernel directory at 0x1000 and two free pages. *)
Definition pmm_demo2 : pmm := give_page 257 pmm_demo.

Definition vm_demo : vm :=
  mkVm pmm_demo2 (replicate 256 None) ∅ 0x1000 0x1000 0x1000 true ∅ [].

(** Memory after [k] tables of the identity map were filled: directory [KP], tables
    from [KT]. *)
Definition tables_filled (KP KT k : Z) (m : gmap Z Z) : Prop :=
  (∀ i, 0 ≤ i < 1024 →
     ldw m (slot KP i) = if i <? k then rw_entry (KT + 4096 * i) else 0) ∧
  (∀ i j, 0 ≤ i < k → 0 ≤ j < 1024 →
     ldw m (slot (KT + 4096 * i) j) = rw_entry ((i * 1024 + j) * 4096)) ∧
  map_Forall (λ _ x, is_u32 x) m.

(** ** Bit fields of addresses and entries *)

Ltac pg_lia := unfold aligned in *; pmm_lia.

Lemma frame_div e : is_u32 e → frame e = 4096 * (e / 4096).
Proof.
  intros He. unfold frame. change 0xFFFFF000 with (not32 (Z.ones 12)).
  rewrite land_not32, <- Z.ldiff_land by done.
  rewrite Z.ldiff_ones_r, Z.shiftl_mul_pow2, Z.shiftr_div_pow2 by lia.
  change (2 ^ 12) with 4096. lia.
Qed.

Lemma frame_aligned e : is_u32 e → aligned (frame e).
Proof. intros He. rewrite frame_div by done. pg_lia. Qed.

Lemma frame_id a : aligned a → frame a = a.
Proof. intros [Ha Hm]. rewrite frame_div by done. pg_lia. Qed.

Lemma frame_lor x y : frame (Z.lor x y) = Z.lor (frame x) (frame y).
Proof. apply Z.land_lor_distr_l. Qed.

Lemma frame_small x : 0 ≤ x < 4096 → frame x = 0.
Proof. intros. rewrite frame_div by mlia. mlia. Qed.

Lemma pd_index_div va : pd_index va = va / 4194304.
Proof. apply Z.shiftr_div_pow2. lia. Qed.

Lemma pt_index_div va : pt_index va = va / 4096 mod 1024.
Proof.
  unfold pt_index. rewrite Z.shiftr_div_pow2 by lia.
  change 0x3FF with (Z.ones 10). by rewrite Z.land_ones by lia.
Qed.

Lemma pd_index_range va : is_u32 va → 0 ≤ pd_index va < 1024.
Proof. intros. rewrite pd_index_div. mlia. Qed.

Lemma pt_index_range va : 0 ≤ pt_index va < 1024.
Proof. rewrite pt_index_div. mlia. Qed.

(** Two addresses with the same indices are in the same page. *)
Lemma same_indices va va' :
  pd_index va = pd_index va' → pt_index va = pt_index va' → va / 4096 = va' / 4096.
Proof. rewrite !pd_index_div, !pt_index_div. mlia. Qed.

Lemma walk_page m D va : walk m D va = walk m D (va / 4096 * 4096).
Proof.
  unfold walk. replace (pd_index (va / 4096 * 4096)) with (pd_index va)
    by (rewrite !pd_index_div; mlia).
  replace (pt_index (va / 4096 * 4096)) with (pt_index va); [done|].
  rewrite !pt_index_div. by rewrite Z.div_mul by lia.
Qed.

Lemma present_bit e : present e = Z.testbit e 0.
Proof. apply (truth_bit e 0). lia. Qed.

Lemma present_lor x y : present (Z.lor x y) = present x || present y.
Proof. rewrite !present_bit. apply Z.lor_spec. Qed.

Lemma slot_eq f i : aligned f → 0 ≤ i < 1024 → slot f i = f + 4 * i.
Proof. intros. unfold slot. apply w32_small. pg_lia. Qed.

Lemma slot_inj f g i j :
  aligned f → aligned g → 0 ≤ i < 1024 → 0 ≤ j < 1024 →
  slot f i = slot g j → f = g ∧ i = j.
Proof. intros Hf Hg Hi Hj. rewrite !slot_eq by done. pg_lia. Qed.

Lemma aligned_page a : aligned a → is_page (a / 4096).
Proof. pg_lia. Qed.

Lemma aligned_of_page p : is_page p → aligned (p * 4096).
Proof. pg_lia. Qed.

#[export] Hint Resolve frame_aligned pd_index_range pt_index_range aligned_page
  aligned_of_page : flowos.

(** ** Word memory *)

Lemma ldw_insert m a x b : ldw (<[a := x]> m) b = if decide (a = b) then x else ldw m b.
Proof. unfold ldw. rewrite lookup_insert. by destruct (decide (a = b)). Qed.

Lemma ldw_u32 m a : map_Forall (λ _ x, is_u32 x) m → is_u32 (ldw m a).
Proof.
  intros H. unfold ldw. destruct (m !! a) eqn:E; [by eapply H|done].
Qed.

Lemma mem_insert_u32 (m : gmap Z Z) a x :
  map_Forall (λ _ x, is_u32 x) m → is_u32 x → map_Forall (λ _ x, is_u32 x) (<[a := x]> m).
Proof. intros. by apply map_Forall_insert_2. Qed.

#[export] Hint Resolve ldw_u32 mem_insert_u32 : flowos.

Lemma walk_agree m m' D va :
  ldw m' (slot D (pd_index va)) = ldw m (slot D (pd_index va)) →
  (present (ldw m (slot D (pd_index va))) = true →
     ldw m' (slot (frame (ldw m (slot D (pd_index va)))) (pt_index va)) =
     ldw m (slot (frame (ldw m (slot D (pd_index va)))) (pt_index va))) →
  walk m' D va = walk m D va.
Proof.
  intros H1 H2. unfold walk. rewrite H1. destruct (present _) eqn:E; [|done].
  by rewrite H2.
Qed.

(** A loop of stores over the 1024 words of a frame. *)
Lemma wp_fill_frame f (g : Z → Z) v (Q : unit → vm → Prop) body :
  aligned f →
  (∀ i m, 0 ≤ i < 1024 → (∀ a, a / 4096 ≠ f / 4096 → ldw m a = ldw (vm_mem v) a) →
     ∀ P : unit → vm → Prop, P tt (set_mem (<[slot f i := g i]> m) v) →
     wp (body i) (set_mem m v) P) →
  (∀ i, is_u32 (g i)) → map_Forall (λ _ x, is_u32 x) (vm_mem v) →
  (∀ m, (∀ i, 0 ≤ i < 1024 → ldw m (slot f i) = g i) →
     (∀ a, a / 4096 ≠ f / 4096 → ldw m a = ldw (vm_mem v) a) →
     map_Forall (λ _ x, is_u32 x) m → Q tt (set_mem m v)) →
  wp (for_ 0 (trips 0 1024) body) v Q.
Proof.
  intros Hf Hbody Hg Hm HQ.
  apply wp_for with (λ k v', ∃ m, v' = set_mem m v ∧
    (∀ i, 0 ≤ i < k → ldw m (slot f i) = g i) ∧
    (∀ a, a / 4096 ≠ f / 4096 → ldw m a = ldw (vm_mem v) a) ∧
    map_Forall (λ _ x, is_u32 x) m).
  - exists (vm_mem v). destruct v. split_and!; [done|lia|done|done].
  - intros k ? Hk (m & -> & Hlo & Hout & Hu). unfold trips in Hk.
    apply Hbody; [lia|done|]. eexists. split; [done|]. split_and!.
    + intros i Hi. rewrite ldw_insert. case_decide as Hd.
      * apply slot_inj in Hd as [_ ->]; [done|done|done|lia|lia].
      * apply Hlo. assert (i ≠ k) by congruence. lia.
    + intros a Ha. rewrite ldw_insert. case_decide as Hd; [|by apply Hout].
      exfalso. subst a. rewrite slot_eq in Ha by (done || lia). pg_lia.
    + by apply mem_insert_u32.
  - intros ? (m & -> & Hlo & Hout & Hu). unfold trips in Hlo. by apply HQ.
Qed.

(** ** Preservation of the invariant *)

Lemma pde_u32 pds v D i : vm_inv pds v → is_u32 (pde v D i).
Proof. intros H. apply ldw_u32, H. Qed.

#[export] Hint Resolve pde_u32 : flowos.

(** Updates that leave the directories alone. *)
Lemma vm_inv_upd pds v v' :
  vm_inv pds v →
  pmm_wf (vm_pmm v') →
  (∀ p, is_page p → page_used (vm_pmm v) p = true → page_used (vm_pmm v') p = true) →
  map_Forall (λ _ x, is_u32 x) (vm_mem v') →
  current_pd_phys v' = current_pd_phys v → kernel_pd_phys v' = kernel_pd_phys v →
  cr3 v' = cr3 v →
  (∀ D i, D ∈ pds → 0 ≤ i < 1024 → pde v' D i = pde v D i) →
  (∀ n e, tlb v' !! n = Some e →
     is_page n ∧ walk (vm_mem v') (current_pd_phys v) (n * 4096) = Some e) →
  vm_inv pds v'.
Proof.
  intros Hinv Hpmm Hused Hmem Hc Hk H3 Hpde Htlb.
  constructor; rewrite ?Hc, ?Hk, ?H3; try done.
  - apply Hused, Hinv. done.
  - apply Hinv.
  - apply Hinv.
  - apply Hinv.
  - intros D HD. destruct (inv_pds _ _ Hinv D HD) as [Ha Hu].
    split; [done|]. apply Hused; auto with flowos.
  - intros D i HD Hi. rewrite Hpde by done. intros Hp.
    destruct (inv_tables _ _ Hinv D i HD Hi Hp) as [Hu Hn].
    split; [|done]. apply Hused; eauto with flowos.
  - intros D i j HD Hi Hj. rewrite !Hpde by done. by apply Hinv.
Qed.

Lemma set_pmm_id v : set_pmm (vm_pmm v) v = v.
Proof. by destruct v. Qed.

(** Allocation of a frame: a fresh page, or nothing changes. *)
Lemma wp_vm_alloc pds v (Q : Z → vm → Prop) :
  vm_inv pds v →
  (∀ p, is_page p → p ≠ 0 → page_used (vm_pmm v) p = false →
     vm_inv pds (set_pmm (take_page p (vm_pmm v)) v) →
     (∀ q, is_page q → page_used (take_page p (vm_pmm v)) q =
        if p =? q then true else page_used (vm_pmm v) q) →
     Q (p * 4096) (set_pmm (take_page p (vm_pmm v)) v)) →
  ((∀ p, is_page p → page_used (vm_pmm v) p = true) → Q 0 v) →
  wp (in_pmm pmm_alloc_page) v Q.
Proof.
  intros Hinv Hsome Hnone. unfold in_pmm. wp_step.
  apply wp_pmm_alloc_page; [apply Hinv| |].
  - intros p (Hp & Hf & _).
    assert (∀ q, is_page q → page_used (take_page p (vm_pmm v)) q =
        if p =? q then true else page_used (vm_pmm v) q) as Hview.
    { intros q Hq. unfold take_page.
      change (page_used (set_used _ ?x) q) with (page_used x q).
      by rewrite page_used_mark_used by (done || apply Hinv). }
    apply Hsome; [done| |done| |done].
    + intros ->. rewrite (inv_page0 _ _ Hinv) in Hf. done.
    + apply (vm_inv_upd pds v); try done; [| |apply Hinv|apply Hinv].
      * pose proof (inv_pmm _ _ Hinv). cbn. unfold take_page. auto with flowos.
      * intros q Hq Hu. cbn. rewrite Hview by done. by destruct (p =? q).
  - intros Hall. rewrite set_pmm_id. by apply Hnone.
Qed.

Lemma put_pte_pde pds v va x D i :
  vm_inv pds v → is_u32 va → present (pde v (current_pd_phys v) (pd_index va)) = true →
  D ∈ pds → 0 ≤ i < 1024 → pde (put_pte va x v) D i = pde v D i.
Proof.
  intros Hinv Hva Hp HD Hi. unfold pde at 1, put_pte. cbn. rewrite ldw_insert.
  case_decide as E; [|done]. exfalso.
  apply slot_inj in E as [E _]; eauto with flowos; [|by apply (inv_pds _ _ Hinv)].
  destruct (inv_tables _ _ Hinv (current_pd_phys v) (pd_index va)) as [_ Hn];
    [apply Hinv|auto with flowos|done|]. by rewrite E in Hn.
Qed.

(** Which translations a table write changes. *)
Lemma put_pte_walk pds v va x D' va' :
  vm_inv pds v → is_u32 va → is_u32 va' →
  present (pde v (current_pd_phys v) (pd_index va)) = true → D' ∈ pds →
  (∀ i, 0 ≤ i < 1024 → present (pde v D' i) = true → i = pd_index va' →
     frame (pde v D' i) ≠ frame (pde v (current_pd_phys v) (pd_index va)) ∨
     pt_index va' ≠ pt_index va) →
  walk (vm_mem (put_pte va x v)) D' va' = walk (vm_mem v) D' va'.
Proof.
  intros Hinv Hva Hva' Hp HD' Hne. apply walk_agree.
  - apply (put_pte_pde pds); auto with flowos.
  - intros Hp'. cbn. rewrite ldw_insert. case_decide as E; [|done]. exfalso.
    apply slot_inj in E as [E1 E2]; auto with flowos;
      [|by eapply frame_aligned, pde_u32|by eapply frame_aligned, ldw_u32, Hinv].
    destruct (Hne (pd_index va')) as [H|H]; auto with flowos.
Qed.

Lemma shiftr12 va : Z.shiftr va 12 = va / 4096.
Proof. by rewrite Z.shiftr_div_pow2 by lia. Qed.

Lemma put_pte_walk_current pds v va x va' :
  vm_inv pds v → is_u32 va → is_u32 va' →
  present (pde v (current_pd_phys v) (pd_index va)) = true →
  walk (vm_mem (put_pte va x v)) (current_pd_phys v) va' =
    if va' / 4096 =? va / 4096 then (if present x then Some x else None)
    else walk (vm_mem v) (current_pd_phys v) va'.
Proof.
  intros Hinv Hva Hva' Hp. destruct (Z.eqb_spec (va' / 4096) (va / 4096)) as [E|E].
  - rewrite walk_page, E, <- walk_page. unfold walk.
    change (ldw _ (slot (current_pd_phys v) (pd_index va)))
      with (pde (put_pte va x v) (current_pd_phys v) (pd_index va)).
    rewrite (put_pte_pde pds), Hp by (auto with flowos || apply Hinv).
    cbn. rewrite ldw_insert. by rewrite decide_True.
  - eapply put_pte_walk; [done..|apply Hinv|]. intros i Hi Hpi ->.
    destruct (Z.eq_dec (pd_index va') (pd_index va)) as [Ei|Ei].
    + right. intros Ej. apply E. symmetry. by apply same_indices.
    + left. eapply inv_distinct; eauto with flowos. apply Hinv.
Qed.

Lemma put_pte_inv pds v va x :
  vm_inv pds v → is_u32 va → is_u32 x →
  present (pde v (current_pd_phys v) (pd_index va)) = true →
  vm_inv pds (put_pte va x v).
Proof.
  intros Hinv Hva Hx Hp. apply (vm_inv_upd pds v); try done.
  - apply Hinv.
  - apply mem_insert_u32; [apply Hinv|done].
  - intros D i HD Hi. by apply (put_pte_pde pds).
  - intros n e. cbn. rewrite shiftr12, lookup_delete_Some. intros [Hn He].
    destruct (inv_tlb _ _ Hinv n e He) as [Hpg Hw]. split; [done|].
    change (<[_:=_]> _) with (vm_mem (put_pte va x v)).
    rewrite (put_pte_walk_current pds) by (done || pmm_lia).
    rewrite Z.div_mul by lia. by rewrite (proj2 (Z.eqb_neq n (va / 4096))) by done.
Qed.

(** ** Creating a page table *)

Lemma table_entry_spec f flags :
  aligned f → is_u32 (table_entry f flags) ∧ frame (table_entry f flags) = f ∧
  present (table_entry f flags) = true.
Proof.
  intros Hf. unfold table_entry. split_and!.
  - assert (is_u32 (Z.land flags PAGE_USER)).
    { rewrite Z.land_comm. apply land_u32. done. }
    destruct Hf. by repeat apply lor_u32.
  - rewrite !frame_lor, frame_id by done.
    rewrite (frame_small PAGE_PRESENT), (frame_small PAGE_WRITE) by (cbv; split; congruence).
    unfold frame. rewrite <- Z.land_assoc. change (Z.land PAGE_USER _) with 0.
    by rewrite Z.land_0_r, !Z.lor_0_r.
  - rewrite !present_lor. by rewrite orb_true_r.
Qed.

(** A free frame is none of the frames in use. *)
Lemma used_ne v p a : page_used (vm_pmm v) p = false → frame_used v a → a / 4096 ≠ p.
Proof. unfold frame_used. intros Hf Hu E. rewrite E in Hu. congruence. Qed.

Lemma free_old_frame pds v p D i :
  vm_inv pds v → is_page p → page_used (vm_pmm v) p = false →
  D ∈ pds → 0 ≤ i < 1024 → present (pde v D i) = true → frame (pde v D i) ≠ p * 4096.
Proof.
  intros Hinv Hp Hf HD Hi Hpr E.
  destruct (inv_tables _ _ Hinv D i HD Hi Hpr) as [Hu%(used_ne v p) _]; [|done].
  rewrite E in Hu. pg_lia.
Qed.

Lemma free_not_pd pds v p :
  vm_inv pds v → is_page p → page_used (vm_pmm v) p = false → p * 4096 ∉ pds.
Proof.
  intros Hinv Hp Hf Hin.
  destruct (inv_pds _ _ Hinv _ Hin) as [_ Hu%(used_ne v p)]; [|done]. pg_lia.
Qed.

Section fresh_table.
Context (pds : list Z) (va flags p x : Z) (v : vm) (m : gmap Z Z).
Let D := current_pd_phys v.
Let v2 := set_mem (<[slot D (pd_index va) := x]> m) (set_pmm (take_page p (vm_pmm v)) v).
Hypothesis Hinv : vm_inv pds v.
Hypothesis Hinv1 : vm_inv pds (set_pmm (take_page p (vm_pmm v)) v).
Hypothesis Hva : is_u32 va.
Hypothesis Hp : is_page p.
Hypothesis Hfree : page_used (vm_pmm v) p = false.
Hypothesis Hview : ∀ q, is_page q → page_used (take_page p (vm_pmm v)) q =
  if p =? q then true else page_used (vm_pmm v) q.
Hypothesis Habs : present (pde v D (pd_index va)) = false.
Hypothesis Hx : is_u32 x ∧ frame x = p * 4096 ∧ present x = true.
Hypothesis Hxe : x = table_entry (p * 4096) flags.
Hypothesis Hzero : ∀ i, 0 ≤ i < 1024 → ldw m (slot (p * 4096) i) = 0.
Hypothesis Hout : ∀ a, a / 4096 ≠ p → ldw m a = ldw (vm_mem v) a.
Hypothesis Hm : map_Forall (λ _ x, is_u32 x) m.

Lemma fresh_slot D' i : D' ∈ pds → 0 ≤ i < 1024 → ldw m (slot D' i) = pde v D' i.
Proof.
  intros HD' Hi. destruct (inv_pds _ _ Hinv D' HD') as [Ha Hu%(used_ne v p)]; [|done].
  apply Hout. rewrite slot_eq by done. pg_lia.
Qed.

Lemma fresh_pde D' i :
  D' ∈ pds → 0 ≤ i < 1024 →
  pde v2 D' i = if decide (D' = D ∧ i = pd_index va) then x else pde v D' i.
Proof.
  intros HD' Hi. unfold pde at 1, v2. cbn. rewrite ldw_insert.
  case_decide as E; case_decide as E'; try done.
  - exfalso. apply E'. apply slot_inj in E as [-> ->]; auto with flowos;
      [by apply (inv_pds _ _ Hinv), Hinv|by apply (inv_pds _ _ Hinv)].
  - destruct E' as [-> ->]. done.
  - by apply fresh_slot.
Qed.

Lemma fresh_walk D' va' :
  D' ∈ pds → is_u32 va' → walk (vm_mem v2) D' va' = walk (vm_mem v) D' va'.
Proof.
  intros HD' Hva'. unfold walk.
  change (ldw (vm_mem v2) (slot D' ?i)) with (pde v2 D' i).
  change (ldw (vm_mem v) (slot D' ?i)) with (pde v D' i).
  rewrite fresh_pde by auto with flowos. case_decide as E.
  - destruct E as [-> ->], Hx as (Hx1 & Hx2 & Hx3). rewrite Hx2, Hx3, Habs.
    unfold v2. cbn. rewrite ldw_insert, decide_False, Hzero; auto with flowos.
    intros E. apply slot_inj in E as [E _]; auto with flowos;
      [|by apply (inv_pds _ _ Hinv)]. apply (free_not_pd pds v p); [done..|]. by rewrite <- E.
  - destruct (present (pde v D' (pd_index va'))) eqn:Hpr; [|done].
    destruct (inv_tables _ _ Hinv D' (pd_index va')) as [Hu%(used_ne v p) Hn]; auto with flowos.
    assert (aligned (frame (pde v D' (pd_index va')))) as Hal by eauto with flowos.
    unfold v2. cbn. rewrite ldw_insert, decide_False.
    + rewrite Hout; [done|]. pose proof (pt_index_range va').
      rewrite slot_eq by done. pg_lia.
    + intros E'. apply slot_inj in E' as [E' _]; auto with flowos;
        [|by apply (inv_pds _ _ Hinv), Hinv]. apply Hn. rewrite <- E'. apply Hinv.
Qed.

Lemma fresh_table_intro : fresh_table pds va flags p v v2.
Proof.
  pose proof fresh_pde as Hpde. destruct Hx as (Hx1 & Hx2 & Hx3).
  assert (D ∈ pds) as HD by apply Hinv.
  assert (pde v2 D (pd_index va) = x) as Hnew.
  { rewrite Hpde by auto with flowos. by rewrite decide_True. }
  assert (∀ D' i, D' ∈ pds → 0 ≤ i < 1024 → present (pde v2 D' i) = true →
    (D', i) ≠ (D, pd_index va) → pde v2 D' i = pde v D' i ∧ present (pde v D' i) = true)
    as Hold.
  { intros D' i HD' Hi Hpr Hne. rewrite Hpde in * by done.
    rewrite decide_False in * by naive_solver. done. }
  split_and!; [|done|done|by fold D; rewrite Hnew|apply fresh_walk| |by fold D; rewrite Hnew|].
  - constructor; try apply Hinv1.
    + cbn. by apply mem_insert_u32.
    + intros D' i HD' Hi Hpr. destruct (decide ((D', i) = (D, pd_index va))) as [E|E].
      * injection E as -> ->. rewrite Hnew, Hx2. split; [|by apply (free_not_pd pds v p)].
        unfold frame_used. cbn. rewrite Z.div_mul, Hview by (done || lia).
        by rewrite Z.eqb_refl.
      * destruct (Hold D' i) as [-> Hp']; [done..|]. by apply Hinv1.
    + intros D' i j HD' Hi Hj Hne Hpi Hpj.
      destruct (decide ((D', i) = (D, pd_index va))) as [E|E].
      * injection E as -> ->. rewrite Hnew, Hx2.
        destruct (Hold D j) as [-> Hp']; [done..|congruence|].
        intros E'. by eapply (free_old_frame pds v p).
      * destruct (Hold D' i) as [-> Hp']; [done..|].
        destruct (decide ((D', j) = (D, pd_index va))) as [E'|E'].
        -- injection E' as -> ->. rewrite Hnew, Hx2. by apply (free_old_frame pds v p).
        -- destruct (Hold D' j) as [-> Hp'']; [done..|]. by apply Hinv.
    + intros n e He. destruct (inv_tlb _ _ Hinv n e He) as [Hn Hw]. split; [done|].
      etrans; [|exact Hw]. apply fresh_walk; [done|pmm_lia].
  - intros D' i HD' Hi Hpr Hne. fold D. rewrite Hnew, Hx2.
    destruct (Hold D' i) as [-> Hp']; [done..|]. by apply (free_old_frame pds v p).
  - intros a Ha Hs. unfold v2. cbn. rewrite ldw_insert, decide_False by (intros E; by apply Hs). by apply Hout.
Qed.

End fresh_table.

Lemma wp_new_page_table pds v va flags (Q : bool → vm → Prop) :
  vm_inv pds v → is_u32 va → present (pde v (current_pd_phys v) (pd_index va)) = false →
  (∀ p v', is_page p → page_used (vm_pmm v) p = false → fresh_table pds va flags p v v' →
     Q true v') →
  ((∀ p, is_page p → page_used (vm_pmm v) p = true) → Q false v) →
  wp (new_page_table (current_pd_phys v) va flags) v Q.
Proof.
  intros Hinv Hva Habs Hsome Hnone. unfold new_page_table. wp_step.
  eapply wp_vm_alloc; [done| |].
  - intros p Hp Hp0 Hf Hinv1 Hview. rewrite (proj2 (Z.eqb_neq (p * 4096) 0)) by lia.
    wp_step. apply (wp_fill_frame (p * 4096) (λ _, 0)); [auto with flowos| |done|apply Hinv|].
    { intros i m Hi _ P HP. unfold store. by wp_steps. }
    intros m Hzero Hout Hm. unfold store. wp_steps.
    apply (Hsome p); [done|done|].
    apply fresh_table_intro; try done.
    + apply table_entry_spec. auto with flowos.
    + intros a Ha. rewrite Hout; [done|]. by rewrite Z.div_mul by lia.
  - intros Hall. cbn. wp_steps. by apply Hnone.
Qed.

(** ** The operations *)

Lemma pte_value_spec pa flags :
  is_u32 pa → 0 ≤ flags < 4096 →
  is_u32 (pte_value pa flags) ∧ frame (pte_value pa flags) = frame pa ∧
  present (pte_value pa flags) = true.
Proof.
  intros Hpa Hf. unfold pte_value. split_and!.
  - destruct (frame_aligned pa Hpa). repeat apply lor_u32; auto with flowos. done.
  - rewrite !frame_lor, (frame_small flags), (frame_small PAGE_PRESENT), !Z.lor_0_r by done.
    apply frame_id. auto with flowos.
  - rewrite !present_lor. by rewrite orb_true_r.
Qed.

Lemma table_ready_facts pds va flags v v1 :
  vm_inv pds v → table_ready pds va flags v v1 →
  vm_inv pds v1 ∧ current_pd_phys v1 = current_pd_phys v ∧
  present (pde v1 (current_pd_phys v1) (pd_index va)) = true ∧
  ∀ D va', D ∈ pds → is_u32 va' → walk (vm_mem v1) D va' = walk (vm_mem v) D va'.
Proof.
  intros Hinv [[-> Hp]|(_ & p & _ & _ & Hinv1 & Hc & _ & Hp & Hw & _)]; [done|].
  rewrite Hc. done.
Qed.

(** Creating a table leaves the other entries of the directories alone, and takes a page. *)
Lemma fresh_table_pde pds va flags p v v1 D i :
  vm_inv pds v → is_u32 va → page_used (vm_pmm v) p = false → fresh_table pds va flags p v v1 →
  D ∈ pds → 0 ≤ i < 1024 → (D, i) ≠ (current_pd_phys v, pd_index va) → pde v1 D i = pde v D i.
Proof.
  intros Hv Hva Hfree Hnew HD Hi Hne. destruct Hnew as (_ & _ & _ & _ & _ & _ & _ & Hmem).
  destruct (inv_pds _ _ Hv D HD) as [Ha Hu%(used_ne v p)]; [|done].
  destruct (inv_pds _ _ Hv (current_pd_phys v)) as [Hc _]; [apply Hv|].
  apply Hmem; [rewrite slot_eq by done; pg_lia|]. intros E. apply Hne.
  apply slot_inj in E as [-> ->]; auto with flowos.
Qed.

Lemma free_count_take s p : pmm_wf s → is_page p → page_used s p = false → free_count (take_page p s) = free_count s - 1.
Proof. intros. unfold take_page. by rewrite free_count_set_used, free_count_mark_used. Qed.

Lemma wp_paging_map_page pds v va pa flags (Q : unit → vm → Prop) :
  vm_inv pds v → is_u32 va →
  (∀ v1, table_ready pds va flags v v1 → Q tt (put_pte va (pte_value pa flags) v1)) →
  (present (pde v (current_pd_phys v) (pd_index va)) = false →
     (∀ p, is_page p → page_used (vm_pmm v) p = true) → Q tt v) →
  wp (paging_map_page va pa flags) v Q.
Proof.
  intros Hinv Hva Hok Hoom. unfold paging_map_page. wp_step. wp_step. wp_step.
  unfold load. wp_step. wp_step.
  change (ldw (vm_mem v) _) with (pde v (current_pd_phys v) (pd_index va)).
  destruct (present (pde v (current_pd_phys v) (pd_index va))) eqn:Hp; cbn [negb].
  - unfold store, invlpg. wp_step. cbn [negb]. wp_steps. apply (Hok v). by left.
  - eapply wp_new_page_table; [done..| |].
    + intros p v1 Hpg Hf Hfresh. unfold store, invlpg. cbn [negb]. wp_steps.
      assert (current_pd_phys v1 = current_pd_phys v) as Hc by apply Hfresh.
      rewrite <- Hc. apply (Hok v1). right. eauto.
    + intros Hall. cbn [negb]. wp_steps. by apply Hoom.
Qed.

Lemma wp_paging_unmap_page pds v va (Q : unit → vm → Prop) :
  vm_inv pds v → is_u32 va →
  (present (pde v (current_pd_phys v) (pd_index va)) = true → Q tt (put_pte va 0 v)) →
  (present (pde v (current_pd_phys v) (pd_index va)) = false → Q tt v) →
  wp (paging_unmap_page va) v Q.
Proof.
  intros Hinv Hva H1 H2. unfold paging_unmap_page, load. do 4 wp_step.
  change (ldw (vm_mem v) _) with (pde v (current_pd_phys v) (pd_index va)).
  destruct (present (pde v (current_pd_phys v) (pd_index va))) eqn:Hp; cbn [negb].
  - unfold store, invlpg. wp_steps. by apply H1.
  - wp_steps. by apply H2.
Qed.

(** [paging_get_physical] reads the walk of the current space. *)
Lemma paging_get_physical_run v va :
  paging_get_physical va v =
  Ret (match walk (vm_mem v) (current_pd_phys v) va with
       | Some p => frame p +w Z.land va 0xFFF
       | None => 0
       end) v.
Proof.
  unfold paging_get_physical, walk, bind, gets, load, gets, ret.
  destruct (present (ldw (vm_mem v) (slot (current_pd_phys v) (pd_index va)))); [|done].
  cbn [negb]. by destruct (present _).
Qed.

Section clone.
Context (pds : list Z) (p : Z) (v : vm) (m : gmap Z Z).
Let K := kernel_pd_phys v.
Let v2 := set_mem m (set_pmm (take_page p (vm_pmm v)) v).
Hypothesis Hinv : vm_inv pds v.
Hypothesis Hinv1 : vm_inv pds (set_pmm (take_page p (vm_pmm v)) v).
Hypothesis Hp : is_page p.
Hypothesis Hfree : page_used (vm_pmm v) p = false.
Hypothesis Hview : ∀ q, is_page q → page_used (take_page p (vm_pmm v)) q =
  if p =? q then true else page_used (vm_pmm v) q.
Hypothesis Hcopy : ∀ i, 0 ≤ i < 1024 → ldw m (slot (p * 4096) i) = pde v K i.
Hypothesis Hout : ∀ a, a / 4096 ≠ p → ldw m a = ldw (vm_mem v) a.
Hypothesis Hm : map_Forall (λ _ x, is_u32 x) m.

(** The words of a frame in use did not change. *)
Lemma clone_slot a i :
  aligned a → frame_used v a → 0 ≤ i < 1024 →
  ldw m (slot a i) = ldw (vm_mem v) (slot a i).
Proof.
  intros Ha Hu Hi. apply Hout. rewrite slot_eq by done.
  assert (a / 4096 ≠ p) by (by apply (used_ne v p)). pg_lia.
Qed.

Lemma clone_pde D i : D ∈ pds → 0 ≤ i < 1024 → pde v2 D i = pde v D i.
Proof. intros HD Hi. destruct (inv_pds _ _ Hinv D HD). by apply clone_slot. Qed.

Lemma clone_table D i va :
  D ∈ pds → 0 ≤ i < 1024 → present (pde v D i) = true →
  ldw m (slot (frame (pde v D i)) (pt_index va)) =
  ldw (vm_mem v) (slot (frame (pde v D i)) (pt_index va)).
Proof.
  intros HD Hi Hpr. destruct (inv_tables _ _ Hinv D i) as [Hu _]; [done..|].
  apply clone_slot; eauto with flowos.
Qed.

Lemma cloned_intro : cloned pds p v v2.
Proof.
  assert (K ∈ pds) as HK by apply Hinv.
  assert (p * 4096 ∉ pds) as Hnew by (by apply (free_not_pd pds v p)).
  assert (∀ D i, D ∈ pds → 0 ≤ i < 1024 → present (pde v D i) = true →
    frame_used v2 (frame (pde v D i)) ∧ (frame (pde v D i) ∉ p * 4096 :: pds)) as Htab.
  { intros D i HD Hi Hpr. split; [exact (proj1 (inv_tables _ _ Hinv1 D i HD Hi Hpr))|].
    rewrite not_elem_of_cons.
    split; [by eapply (free_old_frame pds v p)|by apply Hinv]. }
  assert (∀ D va, D ∈ pds → is_u32 va → walk (vm_mem v2) D va = walk (vm_mem v) D va) as Hw.
  { intros D va HD Hva. apply walk_agree; [by apply clone_pde; auto with flowos|].
    intros Hpr. apply clone_table; auto with flowos. }
  assert (∀ i, 0 ≤ i < 1024 → pde v2 (p * 4096) i = pde v K i) as Hnewpde by apply Hcopy.
  split_and!; [|done|done|done| |done].
  - constructor; try apply Hinv1; [done|by right; apply Hinv|by right; apply Hinv| | | |].
    + intros D [->|HD]%elem_of_cons; [|by apply Hinv1].
      split; [auto with flowos|]. unfold frame_used. cbn.
      rewrite Z.div_mul, Hview by (done || lia). by rewrite Z.eqb_refl.
    + intros D i [->|HD]%elem_of_cons Hi; rewrite ?Hnewpde, ?clone_pde by done; auto.
    + intros D i j [->|HD]%elem_of_cons Hi Hj; rewrite ?Hnewpde, ?clone_pde by done;
        by apply Hinv.
    + intros n e He. destruct (inv_tlb _ _ Hinv n e He) as [Hn He']. split; [done|].
      etrans; [|exact He']. apply Hw; [apply Hinv|pmm_lia].
  - intros va Hva. unfold walk.
    change (ldw (vm_mem v2) (slot (p * 4096) ?i)) with (pde v2 (p * 4096) i).
    rewrite Hnewpde by auto with flowos.
    change (ldw (vm_mem v) (slot (kernel_pd_phys v) ?i)) with (pde v K i).
    destruct (present (pde v K (pd_index va))) eqn:Hpr; [|done].
    change (vm_mem v2) with m. by rewrite clone_table by auto with flowos.
Qed.

End clone.

Lemma wp_paging_clone_pd pds v (Q : Z → vm → Prop) :
  vm_inv pds v →
  (∀ p v', is_page p → p ≠ 0 → page_used (vm_pmm v) p = false → cloned pds p v v' →
     Q (p * 4096) v') →
  ((∀ p, is_page p → page_used (vm_pmm v) p = true) → Q 0 v) →
  wp paging_clone_pd v Q.
Proof.
  intros Hinv Hsome Hnone. unfold paging_clone_pd. wp_step.
  eapply wp_vm_alloc; [done| |].
  - intros p Hp Hp0 Hf Hinv1 Hview. rewrite (proj2 (Z.eqb_neq (p * 4096) 0)) by lia.
    wp_step. wp_step. wp_step.
    apply (wp_fill_frame (p * 4096) (pde v (kernel_pd_phys v)));
      [auto with flowos| |eauto with flowos|apply Hinv|].
    { intros i m Hi Hout P HP. unfold load, store. wp_steps.
      cbn [vm_mem set_mem] in *. rewrite Hout; [exact HP|].
      destruct (inv_pds _ _ Hinv (kernel_pd_phys v)) as [Ha Hu]; [apply Hinv|].
      assert (kernel_pd_phys v / 4096 ≠ p) by (by apply (used_ne v p)).
      cbn. rewrite slot_eq by done. pg_lia. }
    intros m Hcopy Hout Hm. wp_steps. apply (Hsome p); [done|done|done|].
    apply cloned_intro; try done.
    intros a Ha. rewrite Hout; [done|]. by rewrite Z.div_mul by lia.
  - intros Hall. cbn. wp_steps. by apply Hnone.
Qed.

Lemma paging_switch_inv pds v D :
  vm_inv pds v → D ∈ pds →
  wp (paging_switch D) v (λ _ v', vm_inv pds v' ∧ current_pd_phys v' = D ∧
    vm_mem v' = vm_mem v).
Proof.
  intros Hinv HD. unfold paging_switch, load_cr3. wp_steps. split_and!; [|done|done].
  constructor; try done; apply Hinv.
Qed.

(** ** Initialisation *)

Lemma rw_entry_spec f :
  aligned f → is_u32 (rw_entry f) ∧ frame (rw_entry f) = f ∧ present (rw_entry f) = true.
Proof.
  intros Hf. pose proof (table_entry_spec f 0 Hf) as H. unfold table_entry in H.
  by rewrite Z.land_0_l, Z.lor_0_r in H.
Qed.

Section init.
Context (KP KT : Z) (v : vm).
Hypothesis HKP : aligned KP.
Hypothesis HKT : aligned KT.
Hypothesis Hroom : KT + 256 * 4096 ≤ 4294967296.
Hypothesis Hdisj : KP + 4096 ≤ KT ∨ KT + 256 * 4096 ≤ KP.

Lemma table_addr_eq i : 0 ≤ i < 256 → table_addr KT i = KT + 4096 * i ∧ aligned (KT + 4096 * i).
Proof.
  intros Hi. unfold table_addr. rewrite (w32_small (i * 4096)) by pg_lia.
  rewrite w32_small by pg_lia. split; [lia|pg_lia].
Qed.

Lemma wp_init_table k m (Q : unit → vm → Prop) :
  0 ≤ k < 256 → tables_filled KP KT k m →
  (∀ m', tables_filled KP KT (k + 1) m' → Q tt (set_mem m' v)) →
  wp (init_table KP KT k) (set_mem m v) Q.
Proof.
  intros Hk (Hpd & Htab & Hm) HQ. destruct (table_addr_eq k Hk) as [Ek Hal].
  unfold init_table. rewrite Ek. wp_step.
  apply (wp_fill_frame (KT + 4096 * k) (λ j, rw_entry (w32 ((k * 1024 + j) * PAGE_SIZE))));
    [done| | |done|].
  - intros j m' Hj _ P HP. unfold store. by wp_steps.
  - intros j. repeat apply lor_u32; auto with flowos; done.
  - intros m' Hnew Hout Hm'. unfold store. wp_steps. apply HQ. cbn [set_mem vm_mem] in *.
    fold (rw_entry (KT + 4096 * k)).
    assert (∀ i, 0 ≤ i < 256 → i ≠ k → (KT + 4096 * i) / 4096 ≠ (KT + 4096 * k) / 4096)
      as Hother by (intros; pg_lia).
    assert (KP / 4096 ≠ (KT + 4096 * k) / 4096) as HKP' by pg_lia.
    split_and!.
    + intros i Hi. rewrite ldw_insert. case_decide as E.
      * apply slot_inj in E as [_ ->]; [|done|done|lia|done].
        by rewrite (proj2 (Z.ltb_lt i (i + 1))) by lia.
      * rewrite Hout, Hpd; [|done|rewrite slot_eq by done; pg_lia].
        assert (i ≠ k) by congruence.
        destruct (Z.ltb_spec i k), (Z.ltb_spec i (k + 1)); try done; lia.
    + intros i j Hi Hj. destruct (table_addr_eq i) as [_ Hali]; [lia|].
      rewrite ldw_insert, decide_False.
      * destruct (Z.eq_dec i k) as [->|Hne].
        -- rewrite Hnew by done. by rewrite w32_small by pg_lia.
        -- rewrite Hout, Htab; [done|lia|done|]. specialize (Hother i).
           rewrite slot_eq by done. pg_lia.
      * intros E. apply slot_inj in E as [E _]; [pg_lia|done|done|lia|done].
    + apply mem_insert_u32; [done|]. by apply rw_entry_spec.
Qed.

Lemma tables_filled_walk m va :
  tables_filled KP KT 256 m → is_u32 va →
  walk m KP va = if va <? 0x40000000 then Some (rw_entry (va / 4096 * 4096)) else None.
Proof.
  intros (Hpd & Htab & _) Hva. unfold walk. pose proof (pt_index_range va).
  pose proof (pd_index_range va Hva). rewrite Hpd by done.
  replace (pd_index va <? 256) with (va <? 0x40000000)
    by (rewrite pd_index_div; destruct (Z.ltb_spec va 0x40000000); mlia).
  destruct (Z.ltb_spec va 0x40000000) as [Hlt|]; [|done].
  assert (0 ≤ pd_index va < 256) by (rewrite pd_index_div; mlia).
  destruct (table_addr_eq (pd_index va)) as [_ Hal]; [done|].
  destruct (rw_entry_spec _ Hal) as (_ & -> & ->). rewrite Htab by done.
  replace ((pd_index va * 1024 + pt_index va) * 4096) with (va / 4096 * 4096)
    by (rewrite pd_index_div, pt_index_div; mlia).
  by destruct (rw_entry_spec (va / 4096 * 4096)) as (_ & _ & ->); [pg_lia|].
Qed.

Lemma tables_filled_inv m v' :
  tables_filled KP KT 256 m → vm_mem v' = m → kernel_pd_phys v' = KP → current_pd_phys v' = KP →
  cr3 v' = KP → tlb v' = ∅ → pmm_wf (vm_pmm v') → page_used (vm_pmm v') 0 = true →
  frame_used v' KP → (∀ i, 0 ≤ i < 256 → frame_used v' (KT + 4096 * i)) →
  vm_inv [KP] v'.
Proof.
  intros (Hpd & Htab & Hm) <- Hk Hc H3 Ht Hwf H0 HuP HuT.
  assert (∀ D i, D ∈ [KP] → 0 ≤ i < 1024 → present (pde v' D i) = true →
    0 ≤ i < 256 ∧ frame (pde v' D i) = KT + 4096 * i) as Hpde.
  { intros D i ->%list_elem_of_singleton Hi. unfold pde. rewrite Hpd by done.
    destruct (Z.ltb_spec i 256); [|done]. intros _. split; [lia|].
    apply rw_entry_spec, table_addr_eq. lia. }
  constructor; try done.
  - rewrite Hc. by left.
  - rewrite Hk. by left.
  - congruence.
  - intros D ->%list_elem_of_singleton. done.
  - intros D i HD Hi Hp. destruct (Hpde D i) as [Hi' ->]; [done..|].
    split; [by apply HuT|]. rewrite list_elem_of_singleton. pg_lia.
  - intros D i j HD Hi Hj Hne Hpi Hpj. destruct (Hpde D i) as [? ->]; [done..|].
    destruct (Hpde D j) as [? ->]; [done..|]. lia.
  - rewrite Ht. intros n e He. by rewrite lookup_empty in He.
Qed.

Lemma wp_paging_init (Q : unit → vm → Prop) :
  map_Forall (λ _ x, is_u32 x) (vm_mem v) → (14 < length (vm_handlers v))%nat →
  (∀ m, tables_filled KP KT 256 m →
     Q tt (mkVm (vm_pmm v) (arr_set (vm_handlers v) 14 (Some page_fault_handler_fn)) m
             KP KP KP true ∅ (vm_log v))) →
  wp (paging_init KP KT) v Q.
Proof.
  intros Hm Hh HQ. unfold paging_init. wp_step.
  apply (wp_fill_frame KP (λ _, 0)); [done| |done|done|].
  { intros i m Hi _ P HP. unfold store. by wp_steps. }
  intros m0 Hz _ Hm0. wp_step.
  apply wp_for with (λ k v', ∃ m, v' = set_mem m v ∧ tables_filled KP KT k m).
  - exists m0. split; [done|]. split_and!; [|lia|done].
    intros i Hi. rewrite Hz by done. by destruct (Z.ltb_spec i 0); [lia|].
  - intros k ? Hk (m & -> & Hf). unfold trips in Hk.
    apply (wp_init_table k m); [lia|done|]. intros m' Hm'. by exists m'.
  - intros ? (m & -> & Hf). unfold trips in Hf. wp_steps.
    unfold register_interrupt_handler. wp_steps.
    + unfold paging_enable. wp_steps. by apply HQ.
    + exfalso. revert H. unfold in_range. cbn. lia.
Qed.

End init.

Lemma map_page_inv pds v va pa flags :
  vm_inv pds v → is_u32 va → is_u32 pa → 0 ≤ flags < 4096 →
  wp (paging_map_page va pa flags) v (λ _ v', vm_inv pds v').
Proof.
  intros Hinv Hva Hpa Hf. apply (wp_paging_map_page pds); [done|done| |done].
  intros v1 Hr. destruct (table_ready_facts _ _ _ _ _ Hinv Hr) as (Hinv1 & _ & Hp & _).
  apply put_pte_inv; [done|done|by apply pte_value_spec|done].
Qed.

Lemma truth_bits err k : 0 ≤ k → truth (Z.land err (2 ^ k)) = Z.testbit err k.
Proof. intros. rewrite <- Z.shiftl_1_l. by apply truth_bit. Qed.

(** The handler of a fault it can serve: a fresh frame, then the mapping. *)
Lemma wp_page_fault pds v va err (Q : unit → vm → Prop) :
  vm_inv pds v → is_u32 va → Z.testbit err 0 = false → Z.testbit err 3 = false →
  (∀ p v1, is_page p → page_used (vm_pmm v) p = false →
     v1 = set_pmm (take_page p (vm_pmm v)) v → vm_inv pds v1 →
     (∀ q, is_page q → page_used (vm_pmm v1) q =
        if p =? q then true else page_used (vm_pmm v) q) →
     wp (paging_map_page (frame va) (p * 4096) (fault_flags err)) v1 Q) →
  ¬ (∀ p, is_page p → page_used (vm_pmm v) p = true) →
  wp (page_fault_handler va err) v Q.
Proof.
  intros Hinv Hva H0 H3 HQ Hsome. unfold page_fault_handler.
  change 0x1 with (2 ^ 0). change 0x8 with (2 ^ 3). change 0x4 with (2 ^ 2).
  rewrite !truth_bits, H0, H3 by lia. cbv zeta. wp_step.
  eapply wp_vm_alloc; [done| |by intros].
  intros p Hp Hp0 Hf Hinv1 Hview. rewrite (proj2 (Z.eqb_neq (p * 4096) 0)) by lia.
  replace (if Z.testbit err 2 then _ else _) with (fault_flags err)
    by (unfold fault_flags; by destruct (Z.testbit err 2)).
  by apply (HQ p (set_pmm (take_page p (vm_pmm v)) v)).
Qed.

Lemma fault_flags_range err : 0 ≤ fault_flags err < 4096.
Proof. unfold fault_flags. destruct (Z.testbit err 2); lia. Qed.

Lemma fault_panic_run va v :
  fault_panic va v = Halt (set_log (vm_log v ++ [str "Page Fault Panic!";
    str "Fault Address (CR2):"; cstring (hex_string va)]) v).
Proof.
  unfold fault_panic, bind, log_msg, modify, halt. cbn. by rewrite <- !app_assoc.
Qed.

(** A fault the handler does not return from is a panic. *)
Lemma page_fault_returns pds v va err :
  vm_inv pds v → is_u32 va → wlp (page_fault_handler va err) v (λ _ v', vm_inv pds v').
Proof.
  intros Hinv Hva. unfold page_fault_handler.
  assert (∀ v1 (Q : unit → vm → Prop), wlp (fault_panic va) v1 Q) as Hpanic.
  { intros v1 Q. unfold wlp. by rewrite fault_panic_run. }
  apply wlp_if; intros _; [done|]. apply wlp_if; intros _; [done|]. cbv zeta.
  apply wlp_bind, wp_wlp. eapply wp_vm_alloc; [done| |].
  - intros p Hp _ _ Hinv1 _. apply wlp_if; intros _; [done|]. apply wp_wlp.
    apply map_page_inv; [done|by apply land_u32|pmm_lia|].
    destruct (truth (Z.land err 4)); done.
  - intros _. by apply wlp_if.
Qed.

Lemma vm_step_inv pds v pds' v' :
  vm_step (pds, v) (pds', v') → vm_inv pds v → vm_inv pds' v'.
Proof.
  intros Hstep Hinv.
  inversion Hstep as [? ? ? va pa flags Hva Hpa Hf E|? ? ? va Hva E|? ? ? D E|? ? ? D HD E
    |? ? ? va err Hva E|? ? n e Hn Hw]; subst.
  - eapply (wlp_run _ _ _ _ (λ _ v', vm_inv pds' v') E), wp_wlp. by apply map_page_inv.
  - eapply (wlp_run _ _ _ _ (λ _ v', vm_inv pds' v') E), wp_wlp.
    apply (wp_paging_unmap_page pds'); [done|done| |done]. intros Hp. by apply put_pte_inv.
  - eapply (wlp_run _ _ _ _ (λ D v', vm_inv (if D =? 0 then pds else D :: pds) v') E), wp_wlp.
    eapply wp_paging_clone_pd; [done| |done]. intros p v1 Hp Hp0 _ Hc.
    rewrite (proj2 (Z.eqb_neq (p * 4096) 0)) by lia. apply Hc.
  - eapply (wlp_run _ _ _ _ (λ _ v', vm_inv pds' v') E), wp_wlp.
    eapply wp_mono; [by apply (paging_switch_inv pds')|]. by intros ? ? [? _].
  - by eapply (wlp_run _ _ _ _ (λ _ v', vm_inv pds' v') E), page_fault_returns.
  - apply (vm_inv_upd pds' v); try done; try apply Hinv.
    intros k e'. cbn. rewrite lookup_insert. case_decide as Ek.
    + subst k. by intros [= <-].
    + apply Hinv.
Qed.

Lemma wf_pmm_demo2 : pmm_wf pmm_demo2.
Proof.
  apply wf_set_used; [|apply w32_range]. apply wf_mark_free; [apply wf_pmm_demo|pmm_lia].
Qed.

Lemma pmm_demo2_view q :
  is_page q → page_used pmm_demo2 q = negb ((q =? 256) || (q =? 257)).
Proof.
  intros Hq. unfold pmm_demo2, give_page.
  change (page_used (set_used _ ?x) q) with (page_used x q).
  rewrite page_used_mark_free by (done || apply wf_pmm_demo || pmm_lia).
  rewrite Z.eqb_sym, pmm_demo_view by done. by destruct (q =? 256), (q =? 257).
Qed.

Lemma vm_demo_pde D i : pde vm_demo D i = 0.
Proof. unfold pde, ldw. cbn. by rewrite lookup_empty. Qed.

Lemma vm_demo_inv : vm_inv [0x1000] vm_demo.
Proof.
  constructor.
  - exact wf_pmm_demo2.
  - change (page_used pmm_demo2 0 = true). rewrite pmm_demo2_view; [done|pmm_lia].
  - apply map_Forall_empty.
  - by left.
  - by left.
  - done.
  - intros D ->%list_elem_of_singleton. split; [pg_lia|].
    change (page_used pmm_demo2 1 = true). rewrite pmm_demo2_view; [done|pmm_lia].
  - intros D i _ _. by rewrite vm_demo_pde.
  - intros D i j _ _ _ _. by rewrite vm_demo_pde.
  - intros n e He. cbn in He. by rewrite lookup_empty in He.
Qed.

(** ** Properties *)

(** C10. [paging_map_page] changes the translation of exactly one page of the current
    space to the given frame and flags and keeps the invariant; the only other outcome
    is that no page table exists and no frame is free, and then nothing changes. *)
Theorem paging_map_page_spec pds v va pa flags :
  vm_inv pds v → is_u32 va → is_u32 pa → 0 ≤ flags < 4096 →
  wp (paging_map_page va pa flags) v (λ _ v',
    vm_inv pds v' ∧ current_pd_phys v' = current_pd_phys v ∧
    ((∀ va', is_u32 va' → walk (vm_mem v') (current_pd_phys v) va' =
        if va' / 4096 =? va / 4096
        then Some (Z.lor (Z.lor (frame pa) flags) PAGE_PRESENT)
        else walk (vm_mem v) (current_pd_phys v) va') ∨
     (v' = v ∧ present (pde v (current_pd_phys v) (pd_index va)) = false ∧
      ∀ p, is_page p → page_used (vm_pmm v) p = true))).
Proof.
  intros Hinv Hva Hpa Hf. destruct (pte_value_spec pa flags Hpa Hf) as (Hu & _ & Hpr).
  apply (wp_paging_map_page pds); [done|done| |].
  - intros v1 Hr. destruct (table_ready_facts _ _ _ _ _ Hinv Hr) as (Hinv1 & Hc & Hp & Hw).
    split_and!; [by apply put_pte_inv|done|]. left. intros va' Hva'.
    rewrite <- Hc, (put_pte_walk_current pds), Hpr by done.
    destruct (va' / 4096 =? va / 4096); [done|]. rewrite Hc. apply Hw; [apply Hinv|done].
  - intros Habs Hall. split_and!; [done|done|]. right. done.
Qed.

(** A page mapped in one address space stays invisible in every other space that
    does not share the page table involved; tables created by the call are never
    shared. *)
Theorem paging_map_page_isolation pds v va pa flags D' :
  vm_inv pds v → is_u32 va → is_u32 pa → 0 ≤ flags < 4096 →
  D' ∈ pds → D' ≠ current_pd_phys v → unshared v va D' →
  wp (paging_map_page va pa flags) v (λ _ v',
    ∀ va', is_u32 va' → walk (vm_mem v') D' va' = walk (vm_mem v) D' va').
Proof.
  intros Hinv Hva Hpa Hf HD' Hne Huns.
  apply (wp_paging_map_page pds); [done|done| |done]. intros v1 Hr va' Hva'.
  destruct (table_ready_facts _ _ _ _ _ Hinv Hr) as (Hinv1 & Hc & Hp & Hw).
  rewrite <- (Hw D' va') by done. eapply put_pte_walk; [done..|].
  intros i Hi Hpi ->. left. rewrite Hc in *.
  destruct Hr as [[-> Hp0]|(_ & p & _ & _ & Hfresh)]; [by apply Huns|].
  apply Hfresh; [done|done|done|]. congruence.
Qed.

(** Mapping then translating: with a page table or a free frame at hand,
    [paging_get_physical] after [paging_map_page] gives the frame plus the page offset. *)
Theorem paging_map_translate pds v va pa flags :
  vm_inv pds v → is_u32 va → is_u32 pa → 0 ≤ flags < 4096 →
  (present (pde v (current_pd_phys v) (pd_index va)) = true ∨
   ∃ p, is_page p ∧ page_used (vm_pmm v) p = false) →
  wp (paging_map_page va pa flags;; paging_get_physical va) v (λ r _,
    r = pa / 4096 * 4096 + va mod 4096).
Proof.
  intros Hinv Hva Hpa Hf Hready. destruct (pte_value_spec pa flags Hpa Hf) as (Hu & Hfr & Hpr).
  wp_step. apply (wp_paging_map_page pds); [done|done| |].
  - intros v1 Hr. destruct (table_ready_facts _ _ _ _ _ Hinv Hr) as (Hinv1 & _ & Hp & _).
    unfold wp. rewrite paging_get_physical_run.
    change (current_pd_phys (put_pte _ _ v1)) with (current_pd_phys v1).
    rewrite (put_pte_walk_current pds), Z.eqb_refl, Hpr, Hfr by done.
    change 0xFFF with (Z.ones 12). rewrite Z.land_ones by lia. change (2 ^ 12) with 4096.
    rewrite frame_div, w32_small by (done || mlia). lia.
  - intros Habs Hall. exfalso. destruct Hready as [Hp|(p & Hpg & Hfree)]; [congruence|].
    rewrite Hall in Hfree by done. done.
Qed.

(** After [paging_unmap_page] the page is not translated, and no other page of the
    space changed. *)
Theorem paging_unmap_page_spec pds v va :
  vm_inv pds v → is_u32 va →
  wp (paging_unmap_page va) v (λ _ v',
    vm_inv pds v' ∧
    ∀ va', is_u32 va' → walk (vm_mem v') (current_pd_phys v) va' =
      if va' / 4096 =? va / 4096 then None else walk (vm_mem v) (current_pd_phys v) va').
Proof.
  intros Hinv Hva. apply (wp_paging_unmap_page pds); [done|done| |].
  - intros Hp. split; [by apply put_pte_inv|]. intros va' Hva'.
    by rewrite (put_pte_walk_current pds) by done.
  - intros Habs. split; [done|]. intros va' Hva'.
    destruct (Z.eqb_spec (va' / 4096) (va / 4096)) as [E|]; [|done].
    rewrite walk_page, E, <- walk_page. unfold walk. fold (pde v (current_pd_phys v)
      (pd_index va)). by rewrite Habs.
Qed.

(** [paging_clone_pd] returns a new directory that translates every address as the
    kernel directory does and leaves every existing space alone, or returns 0 and
    changes nothing when no frame is free. *)
Theorem paging_clone_pd_spec pds v :
  vm_inv pds v →
  wp paging_clone_pd v (λ D v',
    (D ≠ 0 ∧ (D ∉ pds) ∧ vm_inv (D :: pds) v' ∧
     (∀ va, is_u32 va → walk (vm_mem v') D va = walk (vm_mem v) (kernel_pd_phys v) va) ∧
     (∀ D' va, D' ∈ pds → is_u32 va → walk (vm_mem v') D' va = walk (vm_mem v) D' va)) ∨
    (D = 0 ∧ v' = v ∧ ∀ p, is_page p → page_used (vm_pmm v) p = true)).
Proof.
  intros Hinv. eapply wp_paging_clone_pd; [done| |by right].
  intros p v' Hp Hp0 Hf (Hinv' & _ & _ & _ & Hk & Hold). left.
  split_and!; [lia|by apply (free_not_pd pds v p)|done|done|done].
Qed.

(** C3. Along any run of kernel operations and of translations cached by the processor,
    the invariant holds: in particular every cached translation is the one the current
    page tables give. *)
Theorem vm_runs_coherent pds v pds' v' :
  vm_inv pds v → rtc vm_step (pds, v) (pds', v') →
  vm_inv pds' v' ∧
  ∀ n e, tlb v' !! n = Some e → walk (vm_mem v') (cr3 v') (n * 4096) = Some e.
Proof.
  intros Hinv Hr.
  assert (∀ x y, rtc vm_step x y → vm_inv x.1 x.2 → vm_inv y.1 y.2) as Hrtc.
  { induction 1 as [|[? ?] [? ?] ? Hs _ IH]; [done|]. intros Hi.
    apply IH. by eapply vm_step_inv. }
  specialize (Hrtc _ _ Hr Hinv). cbn in Hrtc. split; [done|]. intros n e He.
  rewrite (inv_cr3 _ _ Hrtc). by apply (inv_tlb _ _ Hrtc) in He as [_ He].
Qed.

(** A fault on a page that is not present. *)
Lemma wp_demand_paging pds v va err p q :
  vm_inv pds v → is_u32 va → Z.testbit err 0 = false → Z.testbit err 3 = false →
  is_page p → is_page q → p ≠ q →
  page_used (vm_pmm v) p = false → page_used (vm_pmm v) q = false →
  wp (page_fault_handler va err) v (λ _ v',
    vm_inv pds v' ∧ ∃ f, is_page f ∧ page_used (vm_pmm v) f = false ∧
    ∀ va', is_u32 va' → walk (vm_mem v') (current_pd_phys v) va' =
      if va' / 4096 =? va / 4096
      then Some (Z.lor (Z.lor (f * 4096) (if Z.testbit err 2 then 7 else 3)) PAGE_PRESENT)
      else walk (vm_mem v) (current_pd_phys v) va').
Proof.
  intros Hinv Hva H0 H3 Hp Hq Hpq Hfp Hfq.
  apply (wp_page_fault pds); [done..| |].
  2:{ intros Hall. rewrite Hall in Hfp by done. done. }
  intros f v1 Hf Hff -> Hinv1 Hview.
  assert (is_u32 (frame va)) as Hfva by (by apply land_u32).
  assert (frame va / 4096 = va / 4096) as Eva by (rewrite frame_div by done; mlia).
  destruct (pte_value_spec (f * 4096) (fault_flags err)) as (Hu & _ & Hpr);
    [pmm_lia|apply fault_flags_range|].
  apply (wp_paging_map_page pds); [done|done| |].
  - intros v2 Hr. destruct (table_ready_facts _ _ _ _ _ Hinv1 Hr) as (Hinv2 & Hc & Hp2 & Hw).
    split; [by apply put_pte_inv|]. exists f. split_and!; [done|done|].
    intros va' Hva'. change (current_pd_phys (set_pmm _ v)) with (current_pd_phys v) in *.
    rewrite <- Hc, (put_pte_walk_current pds), Hpr, Eva by done.
    destruct (va' / 4096 =? va / 4096).
    + unfold pte_value. by rewrite frame_id by auto with flowos.
    + rewrite Hc. apply Hw; [apply Hinv|done].
  - intros _ Hall. exfalso.
    assert (∃ r, is_page r ∧ r ≠ f ∧ page_used (vm_pmm v) r = false) as (r & Hr & Hne & Hfr).
    { destruct (Z.eq_dec p f) as [->|]; [by exists q|by exists p]. }
    specialize (Hall r Hr). rewrite Hview in Hall by done.
    rewrite (proj2 (Z.eqb_neq f r)) in Hall by done. congruence.
Qed.

(** A fault on a page that is not present, with two frames free, returns with the
    faulting page mapped to a frame that was free, with the user bit taken from the
    error code, and with no other translation changed: the instruction can be retried. *)
Theorem page_fault_demand_paging pds v va err p q :
  vm_inv pds v → is_u32 va → Z.testbit err 0 = false → Z.testbit err 3 = false →
  is_page p → is_page q → p ≠ q →
  page_used (vm_pmm v) p = false → page_used (vm_pmm v) q = false →
  wp (page_fault_handler va err) v (λ _ v',
    vm_inv pds v' ∧ ∃ f, is_page f ∧ page_used (vm_pmm v) f = false ∧
    ∀ va', is_u32 va' → walk (vm_mem v') (current_pd_phys v) va' =
      if va' / 4096 =? va / 4096
      then Some (Z.lor (Z.lor (f * 4096) (if Z.testbit err 2 then 7 else 3)) PAGE_PRESENT)
      else walk (vm_mem v) (current_pd_phys v) va').
Proof. apply wp_demand_paging. Qed.

(** A protection violation or a reserved-bit fault stops the machine after logging
    the fault address, printed as "0x" and eight hexadecimal digits whose value is the
    address. *)
Theorem page_fault_panic v va err :
  is_u32 va → Z.testbit err 0 = true ∨ Z.testbit err 3 = true →
  ∃ ds, length ds = 8%nat ∧ hex_value ds = va ∧
  page_fault_handler va err v = Halt (set_log (vm_log v ++
    [str "Page Fault Panic!"; str "Fault Address (CR2):"; str "0x" ++ ds]) v).
Proof.
  intros Hva Herr. set (d i := hex_digit (Z.land (Z.shiftr va (i * 4)) 0xF)).
  exists [d 7; d 6; d 5; d 4; d 3; d 2; d 1; d 0].
  assert (∀ i, 0 ≤ i → Z.land (Z.shiftr va (i * 4)) 0xF = va / 2 ^ (i * 4) mod 16) as Hnib.
  { intros i Hi. change 0xF with (Z.ones 4).
    by rewrite Z.land_ones, Z.shiftr_div_pow2 by lia. }
  assert (∀ i, 0 ≤ i → (d i ≠ 0) ∧
    (if d i <? 58 then d i - 48 else d i - 55) = va / 2 ^ (i * 4) mod 16) as Hd.
  { intros i Hi. unfold d. rewrite Hnib by done. unfold hex_digit.
    pose proof (Z.mod_pos_bound (va / 2 ^ (i * 4)) 16 ltac:(lia)).
    destruct (Z.ltb_spec (va / 2 ^ (i * 4) mod 16) 10).
    - destruct (Z.ltb_spec (48 + va / 2 ^ (i * 4) mod 16) 58); lia.
    - destruct (Z.ltb_spec (55 + va / 2 ^ (i * 4) mod 16) 58); lia. }
  assert (∀ i, 0 ≤ i → (if d i <? 58 then d i - 48 else d i - 55) =
    va / 2 ^ (i * 4) mod 16) as Hdv by (intros; by apply Hd).
  split_and!; [done| |].
  - unfold hex_value. cbn [foldl]. rewrite !Hdv by lia.
    change (2 ^ (7 * 4)) with 268435456. change (2 ^ (6 * 4)) with 16777216.
    change (2 ^ (5 * 4)) with 1048576. change (2 ^ (4 * 4)) with 65536.
    change (2 ^ (3 * 4)) with 4096. change (2 ^ (2 * 4)) with 256.
    change (2 ^ (1 * 4)) with 16. change (2 ^ (0 * 4)) with 1. mlia.
  - replace (str "0x" ++ [d 7; d 6; d 5; d 4; d 3; d 2; d 1; d 0])
      with (cstring (hex_string va)).
    + rewrite <- fault_panic_run. unfold page_fault_handler.
      change 0x1 with (2 ^ 0). change 0x8 with (2 ^ 3). rewrite !truth_bits by lia.
      destruct Herr as [->| ->]; [done|]. by destruct (Z.testbit err 0).
    + change (hex_string va) with
        ([48; 120; d 7; d 6; d 5; d 4; d 3; d 2; d 1; d 0] ++ replicate 22 0).
      cbn [cstring app]. repeat rewrite (proj2 (Z.eqb_neq (d _) 0)) by (apply Hd; lia).
      done.
Qed.

(** [paging_init] leaves the first gigabyte mapped to itself and nothing else
    mapped, installs the page-fault handler, turns paging on, and establishes the
    invariant for the kernel directory. *)
Theorem paging_init_identity KP KT v :
  aligned KP → aligned KT → KT + 256 * 4096 ≤ 4294967296 →
  KP + 4096 ≤ KT ∨ KT + 256 * 4096 ≤ KP →
  map_Forall (λ _ x, is_u32 x) (vm_mem v) → length (vm_handlers v) = 256%nat →
  pmm_wf (vm_pmm v) → page_used (vm_pmm v) 0 = true → frame_used v KP →
  (∀ i, 0 ≤ i < 256 → frame_used v (KT + 4096 * i)) →
  wp (paging_init KP KT) v (λ _ v',
    vm_inv [KP] v' ∧ cr0_pg v' = true ∧ cr3 v' = KP ∧
    arr_get (vm_handlers v') 14 = Some (Some page_fault_handler_fn) ∧
    ∀ va, is_u32 va → paging_get_physical va v' =
      Ret (if va <? 0x40000000 then va else 0) v').
Proof.
  intros HKP HKT Hroom Hdisj Hm Hh Hwf H0 HuP HuT.
  apply wp_paging_init; [done..|lia|]. intros m Hfill.
  split_and!; [|done|done| |].
  - by eapply (tables_filled_inv KP KT).
  - cbn [vm_handlers]. apply arr_get_set_eq. lia.
  - intros va Hva. rewrite paging_get_physical_run. f_equal.
    cbn [vm_mem current_pd_phys]. rewrite (tables_filled_walk KP KT) by done.
    destruct (Z.ltb_spec va 0x40000000); [|done].
    destruct (rw_entry_spec (va / 4096 * 4096)) as (_ & -> & _); [pg_lia|].
    change 0xFFF with (Z.ones 12). rewrite Z.land_ones by lia. change (2 ^ 12) with 4096.
    rewrite w32_small by mlia. mlia.
Qed.

(** ** Witnesses *)

Lemma vm_demo_free p :
  is_page p → (p =? 256) || (p =? 257) = true → page_used (vm_pmm vm_demo) p = false.
Proof.
  intros Hp E. change (page_used pmm_demo2 p = false).
  by rewrite pmm_demo2_view, E.
Qed.

Lemma paging_map_page_spec_witness :
  wp (paging_map_page 0xC0000000 0x200000 3) vm_demo (λ _ v',
    vm_inv [0x1000] v' ∧ current_pd_phys v' = 0x1000 ∧
    ((∀ va', is_u32 va' → walk (vm_mem v') 0x1000 va' =
        if va' / 4096 =? 0xC0000000 / 4096
        then Some (Z.lor (Z.lor (frame 0x200000) 3) PAGE_PRESENT)
        else walk (vm_mem vm_demo) 0x1000 va') ∨
     (v' = vm_demo ∧ present (pde vm_demo 0x1000 (pd_index 0xC0000000)) = false ∧
      ∀ p, is_page p → page_used (vm_pmm vm_demo) p = true))).
Proof.
  apply (paging_map_page_spec [0x1000] vm_demo 0xC0000000 0x200000 3);
    [exact vm_demo_inv|done|done|done].
Defined.

(** A second space: the invariant of [vm_demo] with a directory at 0x2000. *)
Lemma vm_demo_inv2 : vm_inv [0x1000; 0x2000] vm_demo.
Proof.
  pose proof vm_demo_inv as H. constructor; try apply H; [by left|by left| | |].
  - intros D [->|[->|[]%elem_of_nil]%elem_of_cons]%elem_of_cons; (split; [pg_lia|]).
    + change (page_used pmm_demo2 1 = true). rewrite pmm_demo2_view; [done|pmm_lia].
    + change (page_used pmm_demo2 2 = true). rewrite pmm_demo2_view; [done|pmm_lia].
  - intros D i _ _. by rewrite vm_demo_pde.
  - intros D i j _ _ _ _. by rewrite vm_demo_pde.
Qed.

Lemma paging_map_page_isolation_witness :
  wp (paging_map_page 0x40000000 0x200000 7) vm_demo (λ _ v',
    ∀ va', is_u32 va' → walk (vm_mem v') 0x2000 va' = walk (vm_mem vm_demo) 0x2000 va').
Proof.
  apply (paging_map_page_isolation [0x1000; 0x2000] vm_demo 0x40000000 0x200000 7 0x2000);
    [exact vm_demo_inv2|done|done|done|by right; left|done|].
  intros Hp. by rewrite vm_demo_pde in Hp.
Defined.

Lemma paging_map_translate_witness :
  wp (paging_map_page 0xC0000000 0x200000 3;; paging_get_physical 0xC0000000) vm_demo
     (λ r _, r = 0x200000 / 4096 * 4096 + 0xC0000000 mod 4096).
Proof.
  apply (paging_map_translate [0x1000] vm_demo 0xC0000000 0x200000 3);
    [exact vm_demo_inv|done|done|done|].
  right. exists 256. split; [pmm_lia|]. apply vm_demo_free; [pmm_lia|done].
Defined.

Lemma paging_unmap_page_spec_witness :
  wp (paging_unmap_page 0xC0000000) vm_demo (λ _ v',
    vm_inv [0x1000] v' ∧
    ∀ va', is_u32 va' → walk (vm_mem v') 0x1000 va' =
      if va' / 4096 =? 0xC0000000 / 4096 then None else walk (vm_mem vm_demo) 0x1000 va').
Proof.
  apply (paging_unmap_page_spec [0x1000] vm_demo 0xC0000000); [exact vm_demo_inv|done].
Defined.

Lemma paging_clone_pd_spec_witness :
  wp paging_clone_pd vm_demo (λ D v',
    (D ≠ 0 ∧ (D ∉ [0x1000]) ∧ vm_inv [D; 0x1000] v' ∧
     (∀ va, is_u32 va → walk (vm_mem v') D va = walk (vm_mem vm_demo) 0x1000 va) ∧
     (∀ D' va, D' ∈ [0x1000] → is_u32 va →
        walk (vm_mem v') D' va = walk (vm_mem vm_demo) D' va)) ∨
    (D = 0 ∧ v' = vm_demo ∧ ∀ p, is_page p → page_used (vm_pmm vm_demo) p = true)).
Proof. apply (paging_clone_pd_spec [0x1000] vm_demo). exact vm_demo_inv. Defined.

Lemma vm_runs_coherent_witness :
  ∃ v', rtc vm_step ([0x1000], vm_demo) ([0x1000], v') ∧ vm_inv [0x1000] v'.
Proof.
  assert (wp (paging_map_page 0xC0000000 0x200000 3) vm_demo (λ _ _, True)) as H.
  { eapply wp_mono; [apply (map_page_inv [0x1000]); [exact vm_demo_inv|done..]|done]. }
  destruct (wp_ex _ _ _ H) as ([] & v' & E & _).
  assert (rtc vm_step ([0x1000], vm_demo) ([0x1000], v')) as Hr.
  { apply rtc_once. refine (vs_map [0x1000] vm_demo v' 0xC0000000 0x200000 3 _ _ _ E);
      unfold is_u32; lia. }
  exists v'. split; [exact Hr|].
  apply (vm_runs_coherent [0x1000] vm_demo [0x1000] v' vm_demo_inv Hr).
Defined.

Lemma page_fault_demand_paging_witness :
  wp (page_fault_handler 0x40000123 6) vm_demo (λ _ v',
    vm_inv [0x1000] v' ∧ ∃ f, is_page f ∧ page_used (vm_pmm vm_demo) f = false ∧
    ∀ va', is_u32 va' → walk (vm_mem v') 0x1000 va' =
      if va' / 4096 =? 0x40000123 / 4096
      then Some (Z.lor (Z.lor (f * 4096) 7) PAGE_PRESENT)
      else walk (vm_mem vm_demo) 0x1000 va').
Proof.
  apply (page_fault_demand_paging [0x1000] vm_demo 0x40000123 6 256 257);
    [exact vm_demo_inv|done|done|done|pmm_lia|pmm_lia|done
    |apply vm_demo_free; [pmm_lia|done]|apply vm_demo_free; [pmm_lia|done]].
Defined.

Lemma page_fault_panic_witness :
  ∃ ds, length ds = 8%nat ∧ hex_value ds = 0xDEADBEEF ∧
  page_fault_handler 0xDEADBEEF 1 vm_demo = Halt (set_log ([] ++
    [str "Page Fault Panic!"; str "Fault Address (CR2):"; str "0x" ++ ds]) vm_demo).
Proof. apply (page_fault_panic vm_demo 0xDEADBEEF 1); [done|by left]. Defined.

Lemma paging_init_identity_witness :
  wp (paging_init 0x400000 0x500000) vm_demo (λ _ v',
    vm_inv [0x400000] v' ∧ cr0_pg v' = true ∧ cr3 v' = 0x400000 ∧
    arr_get (vm_handlers v') 14 = Some (Some page_fault_handler_fn) ∧
    ∀ va, is_u32 va → paging_get_physical va v' =
      Ret (if va <? 0x40000000 then va else 0) v').
Proof.
  apply (paging_init_identity 0x400000 0x500000 vm_demo);
    [pg_lia|pg_lia|lia|lia|exact (inv_mem _ _ vm_demo_inv)|reflexivity
    |exact wf_pmm_demo2|exact (inv_page0 _ _ vm_demo_inv)| |].
  - change (page_used pmm_demo2 1024 = true). rewrite pmm_demo2_view; [done|pmm_lia].
  - intros i Hi. change (page_used pmm_demo2 ((0x500000 + 4096 * i) / 4096) = true).
    rewrite pmm_demo2_view; [|pmm_lia]. replace ((0x500000 + 4096 * i) / 4096)
      with (1280 + i) by mlia. lia.
Defined.
