(* ===== verification/Elf.v ===== *)
(** * The program loader (src/src/elf.c, src/src/elf.h, enter_usermode of src/src/switch.asm)

    [elf_exec]: finding a program on the volume, checking its header, mapping and filling its
    segments and its stack, and entering user mode.  Files come from Fat32.v through the
    switch of Vfs.v; physical pages, mappings and stores to the new pages are the interface
    [MemEnv]. *)

From S2P Require Import Prelude Pic Idt Pmm Paging Console Vfs Fat32.

(** ** Data *)

Definition ELF_MAGIC : Z := 0x464C457F.
Definition ET_EXEC : Z := 2.
Definition EM_386 : Z := 3.
Definition PT_LOAD : Z := 1.
Definition PF_W : Z := 0x2.

Record elf_header := mkEhdr {
  eh_magic : Z;
  eh_class : Z;
  eh_endianness : Z;
  eh_version : Z;
  eh_os_abi : Z;
  eh_padding : list Z;
  eh_type : Z;
  eh_machine : Z;
  eh_version2 : Z;
  eh_entry : Z;
  eh_phoff : Z;
  eh_shoff : Z;
  eh_flags : Z;
  eh_ehsize : Z;
  eh_phentsize : Z;
  eh_phnum : Z;
  eh_shentsize : Z;
  eh_shnum : Z;
  eh_shstrndx : Z
}.

Record elf_program_header := mkPhdr {
  ph_type : Z;
  ph_offset : Z;
  ph_vaddr : Z;
  ph_paddr : Z;
  ph_filesz : Z;
  ph_memsz : Z;
  ph_flags : Z;
  ph_align : Z
}.

(** The structures as they lie in memory: 52 and 32 bytes. *)
Definition elf_header_at (b : list Z) : option elf_header :=
  let byte i := default 0 (arr_get b i) in
  let half i := default 0 (le16 b i) in
  let word i := default 0 (le32 b i) in
  if 52 <=? Z.of_nat (length b) then
    Some (mkEhdr (word 0) (byte 4) (byte 5) (byte 6) (byte 7) (slice b 8 8) (half 16) (half 18) (word 20)
      (word 24) (word 28) (word 32) (word 36) (half 40) (half 42) (half 44) (half 46) (half 48) (half 50))
  else None.

Definition program_header_at (b : list Z) (i : Z) : option elf_program_header :=
  let word k := default 0 (le32 b (32 * i + k)) in
  if (0 <=? i) && (32 * i + 32 <=? Z.of_nat (length b)) then
    Some (mkPhdr (word 0) (word 4) (word 8) (word 12) (word 16) (word 20) (word 24) (word 28))
  else None.

(** What the loader asks of the memory of the kernel: [pmm_alloc_page], [paging_map_page],
    and the store of a byte at an address of the current address space. *)
Class MemEnv (E : Type) := {
  me_alloc_page : M E Z;
  me_map_page : Z → Z → Z → M E unit;
  me_poke : Z → Z → M E unit
}.

(** The registers user mode starts with. *)
Record user_frame := mkUser {
  uf_ds : Z;
  uf_ss : Z;
  uf_esp : Z;
  uf_eflags : Z;
  uf_cs : Z;
  uf_eip : Z
}.

(** The file system with the kernel below it, the flags of the processor, and the registers
    of user mode once it has been entered. *)
Record loader (E : Type) := mkLoader {
  ld_fs : fs E;
  eflags : Z;
  user_cpu : option user_frame
}.

Arguments mkLoader {E}.
Arguments ld_fs {E}.
Arguments eflags {E}.
Arguments user_cpu {E}.

Definition set_fs {E} (f : fs E) (s : loader E) : loader E := mkLoader f (eflags s) (user_cpu s).

(** ** Operations *)

Section elf.
Context {E : Type} `{FatEnv E} `{MemEnv E}.

Definition in_fs {A} (m : M (fs E) A) : M (loader E) A := zoom ld_fs set_fs m.

Definition elog (msg : list Z) : M (loader E) unit := in_fs (log msg).

(** [vfs_finddir(fs_root, path)] and [vfs_read] into a fresh buffer, with the bytes read. *)
Context (fuel : nat).

Definition find_file (path : list Z) : M (loader E) Z :=
  in_fs (root ← gets fs_root; vfs_finddir node_at (run_finddir fuel) root path).

Definition read_bytes (file offset size : Z) : M (fs E) (Z * list Z) := λ s,
  match vfs_read node_at (run_read fuel) file offset size (replicate (Z.to_nat size) 0, s) with
  | Ret n (b, s') => Ret (n, b) s'
  | Halt (_, s') => Halt s'
  | Undef => Undef
  | NoFuel => NoFuel
  end.

(** Stores of bytes at consecutive addresses. *)
Fixpoint poke_bytes (a : Z) (l : list Z) : M E unit :=
  match l with
  | [] => skip
  | c :: l => me_poke a c;; poke_bytes (a +w 1) l
  end.

(** [vfs_read(file, offset, filesz, (uint8_t* )vaddr)]: the bytes read are stored from [vaddr]
    on. *)
Definition read_to_memory (file offset filesz vaddr : Z) : M (fs E) Z :=
  '(n, b) ← read_bytes file offset filesz;
  in_env (poke_bytes vaddr (take (Z.to_nat n) b));;
  ret n.

(** [vaddr & 0xFFFFF000], and the number of pages of a segment. *)
Definition page_start (vaddr : Z) : Z := frame vaddr.

Definition num_pages (vaddr memsz : Z) : Z :=
  let page_end := frame (vaddr +w memsz +w 0xFFF) in
  (page_end -w page_start vaddr) / PAGE_SIZE.

(** [PAGE_PRESENT | PAGE_USER], with [PAGE_WRITE] for a writable segment. *)
Definition segment_flags (flags : Z) : Z :=
  let base := Z.lor PAGE_PRESENT PAGE_USER in
  if truth (Z.land flags PF_W) then Z.lor base PAGE_WRITE else base.

(** The pages of a segment; [Some (-1)] when memory runs out. *)
Definition map_segment (pheaders : Z) (ph : elf_program_header) : M (fs E) (option Z) :=
  for_ret 0 (trips 0 (num_pages (ph_vaddr ph) (ph_memsz ph))) (λ j,
    let page_vaddr := page_start (ph_vaddr ph) +w (j *w PAGE_SIZE) in
    page_paddr ← in_env me_alloc_page;
    if page_paddr =? 0 then
      log (lit "ELF: Out of physical memory");;
      kfree_ pheaders;;
      ret (Some (-1))
    else
      in_env (me_map_page page_vaddr page_paddr (segment_flags (ph_flags ph)));;
      ret None).

(** [for (j = 0; j < memsz - filesz; j++) bss[j] = 0]. *)
Definition zero_bss (ph : elf_program_header) : M E unit :=
  let bss := ph_vaddr ph +w ph_filesz ph in
  for_ 0 (trips 0 (ph_memsz ph -w ph_filesz ph)) (λ j, me_poke (bss +w j) 0).

(** One round of the loop over the program headers [table], which lie at [pheaders]. *)
Definition load_segment (file pheaders : Z) (table : list Z) (i : Z) : M (fs E) (option Z) :=
  ph ← expect (program_header_at table i);
  if negb (ph_type ph =? PT_LOAD) then ret None else
  r ← map_segment pheaders ph;
  match r with
  | Some v => ret (Some v)
  | None =>
      (if 0 <? ph_filesz ph
       then read_to_memory file (ph_offset ph) (ph_filesz ph) (ph_vaddr ph);; skip else skip);;
      when (ph_filesz ph <? ph_memsz ph) (in_env (zero_bss ph));;
      ret None
  end.

(** The two pages of the stack, below 3 GB. *)
Definition map_stack : M (fs E) (option Z) :=
  for_ret 0 (trips 0 2) (λ i,
    page_paddr ← in_env me_alloc_page;
    if page_paddr =? 0 then
      log (lit "ELF: Out of memory for stack");;
      ret (Some (-1))
    else
      in_env (me_map_page (0xC0000000 -w (i +w 1) *w PAGE_SIZE) page_paddr (Z.lor (Z.lor PAGE_PRESENT PAGE_WRITE) PAGE_USER));;
      ret None).

(** [enter_usermode]: interrupts off, the data segments of user mode, and an [iret] into the
    entry point with interrupts on.  It does not come back. *)
Definition enter_usermode (entry stack : Z) : M (loader E) unit :=
  modify (λ s, mkLoader (ld_fs s) (Z.clearbit (eflags s) 9) (user_cpu s));;
  modify (λ s, mkLoader (ld_fs s) (eflags s)
    (Some (mkUser 0x23 0x23 stack (Z.lor (eflags s) 0x200) 0x1B entry)));;
  halt.

Definition fail (msg : string) : M (loader E) Z := elog (lit msg);; ret (-1).

Definition elf_exec (path : list Z) : M (loader E) Z :=
  elog (lit "ELF: Loading executable...");;
  file ← find_file path;
  if file =? 0 then fail "ELF: File not found" else
  '(n, hb) ← in_fs (read_bytes file 0 52);
  if negb (n =? 52) then fail "ELF: Failed to read header" else
  header ← expect (elf_header_at hb);
  if negb (eh_magic header =? ELF_MAGIC) then fail "ELF: Invalid magic number" else
  if negb (eh_machine header =? EM_386) then fail "ELF: Not i386 executable" else
  if negb (eh_type header =? ET_EXEC) then fail "ELF: Not executable file" else
  elog (lit "ELF: Valid executable detected");;
  let table_size := eh_phnum header * 32 in
  pheaders ← in_fs (kmalloc_ table_size);
  if pheaders =? 0 then fail "ELF: Out of memory" else
  '(n, table) ← in_fs (read_bytes file (eh_phoff header) table_size);
  if negb (n =? table_size) then
    elog (lit "ELF: Failed to read program headers");;
    in_fs (kfree_ pheaders);;
    ret (-1)
  else
  r ← in_fs (for_ret 0 (trips 0 (eh_phnum header)) (load_segment file pheaders table));
  match r with
  | Some v => ret v
  | None =>
      in_fs (kfree_ pheaders);;
      r ← in_fs map_stack;
      match r with
      | Some v => ret v
      | None =>
          elog (lit "ELF: Jumping to userspace...");;
          enter_usermode (eh_entry header) 0xC0000000;;
          ret 0
      end
  end.

End elf.

(** ** Abstract view: the address space of the program

    The pages below the kernel heap with their flags, the bytes known to be in them, and a
    lower bound on the physical pages left. *)
Record space := mkSpace {
  sp_pages : gmap Z Z;
  sp_bytes : gmap Z Z;
  sp_frames : nat
}.

(** Mapping a page: its old bytes are gone, and a page table may be needed. *)
Definition with_page (p fl : Z) (w : space) : space :=
  mkSpace (<[p := fl]> (sp_pages w)) (filter (λ ab, ab.1 / 4096 ≠ p) (sp_bytes w)) (pred (sp_frames w)).

Definition with_byte (a c : Z) (w : space) : space :=
  mkSpace (sp_pages w) (<[a := c]> (sp_bytes w)) (sp_frames w).

(** ** What the kernel promises the loader

    For every state of the address space the file system's side of the contract holds with
    that state kept: reading files and using the heap do not touch the pages of the program. *)
Class LoaderOk (E : Type) `{FatEnv E} `{MemEnv E} := {
  lo_fat : space → FatEnvOk E;
  lo_fresh : E → Z → Prop;
  lo_alloc_ok w v e held r :
    @fe_ready E _ (lo_fat w) v e held r → (1 ≤ sp_frames w)%nat →
    wp me_alloc_page e (λ f e', f ≠ 0 ∧ lo_fresh e' f ∧
      @fe_ready E _ (lo_fat (mkSpace (sp_pages w) (sp_bytes w) (pred (sp_frames w)))) v e' held r);
  lo_map_ok w v e held r va f fl :
    @fe_ready E _ (lo_fat w) v e held r → lo_fresh e f → (1 ≤ sp_frames w)%nat →
    va mod 4096 = 0 → 0x40000000 ≤ va < 0xC0000000 → fl = 5 ∨ fl = 7 →
    wp (me_map_page va f fl) e (λ _ e', @fe_ready E _ (lo_fat (with_page (va / 4096) fl w)) v e' held r);
  lo_poke_ok w v e held r a c fl :
    @fe_ready E _ (lo_fat w) v e held r → sp_pages w !! (a / 4096) = Some fl → 0 ≤ c < 256 →
    wp (me_poke a c) e (λ _ e', @fe_ready E _ (lo_fat (with_byte a c w)) v e' held r)
}.

(** The loaded segment: the bytes of the file and then zeros, in pages of user mode that are
    writable when the segment is. *)
Definition segment_byte (img : list Z) (ph : elf_program_header) (k : Z) : option Z :=
  if k <? ph_filesz ph then arr_get img (ph_offset ph + k) else Some 0.

Definition segment_loaded (img : list Z) (ph : elf_program_header) (w : space) : Prop :=
  ∀ k, 0 ≤ k < ph_memsz ph →
    sp_bytes w !! (ph_vaddr ph + k) = segment_byte img ph k ∧
    sp_pages w !! ((ph_vaddr ph + k) / 4096) = Some (segment_flags (ph_flags ph)).

(** The pages of a segment. *)
Definition in_segment (ph : elf_program_header) (p : Z) : Prop :=
  ph_vaddr ph / 4096 ≤ p < (ph_vaddr ph + ph_memsz ph + 4095) / 4096.

Definition segment_pages (ph : elf_program_header) : Z :=
  (ph_vaddr ph + ph_memsz ph + 4095) / 4096 - ph_vaddr ph / 4096.

(** A segment the loader can handle: above the gigabyte the kernel maps to itself, below the
    stack, inside the file, and not longer in the file than in memory. *)
Definition segment_ok (img : list Z) (ph : elf_program_header) : Prop :=
  0x40000000 ≤ ph_vaddr ph ∧ 0 ≤ ph_filesz ph ≤ ph_memsz ph ∧ ph_vaddr ph + ph_memsz ph ≤ 0xBFFFE000 ∧
  0 ≤ ph_offset ph ∧ ph_offset ph + ph_filesz ph ≤ Z.of_nat (length img).

(** ** Lemmas *)

Lemma segment_flags_cases fl : segment_flags fl = 5 ∨ segment_flags fl = 7.
Proof. unfold segment_flags. destruct (truth _); [by right|by left]. Qed.

(** Without wrap-around the pages of a segment are those its bytes lie in. *)
Lemma num_pages_eq ph img : segment_ok img ph →
  page_start (ph_vaddr ph) = 4096 * (ph_vaddr ph / 4096) ∧
  num_pages (ph_vaddr ph) (ph_memsz ph) = segment_pages ph ∧ 0 ≤ segment_pages ph.
Proof.
  intros (Hv & Hf & Hm & _). unfold num_pages, page_start, segment_pages.
  rewrite (w32_small (ph_vaddr ph + ph_memsz ph)) by (unfold is_u32; lia).
  rewrite (w32_small (ph_vaddr ph + ph_memsz ph + 0xFFF)) by (unfold is_u32; lia).
  rewrite !frame_div by (unfold is_u32; lia). change PAGE_SIZE with 4096.
  rewrite w32_small by mlia. split_and!; [done|mlia|mlia].
Qed.

Section loading.
Context {E : Type} `{LoaderOk E}.
Implicit Types (s : fs E) (w : space).

(** The file system with the kernel in order and the address space [w]. *)
Definition ready (w : space) (v : volume) (s : fs E) (held : list (Z * Z)) (r : Z) : Prop :=
  @fe_ready E _ (lo_fat w) v (env s) held r.

Lemma wp_poke_bytes w v a l (e : E) held r (Q : unit → E → Prop) :
  @fe_ready E _ (lo_fat w) v e held r → 0 ≤ a → a + Z.of_nat (length l) ≤ 4294967295 →
  Forall (λ c, 0 ≤ c < 256) l →
  (∀ b, a ≤ b < a + Z.of_nat (length l) → is_Some (sp_pages w !! (b / 4096))) →
  (∀ w' e', @fe_ready E _ (lo_fat w') v e' held r → sp_pages w' = sp_pages w → sp_frames w' = sp_frames w →
     (∀ b, sp_bytes w' !! b = if (a <=? b) && (b <? a + Z.of_nat (length l)) then l !! Z.to_nat (b - a)
                              else sp_bytes w !! b) → Q tt e') →
  wp (poke_bytes a l) e Q.
Proof.
  revert w a e. induction l as [|c l IH]; intros w a e Hr Ha Hl Hb Hp HQ; cbn [poke_bytes].
  - wp_step. apply (HQ w); [done..|]. intros b. change (Z.of_nat (length (@nil Z))) with 0.
    destruct (Z.leb_spec a b), (Z.ltb_spec b (a + 0)); (lia || done).
  - apply Forall_cons in Hb as [Hc Hb]. cbn [length] in *. wp_step.
    destruct (Hp a) as [fl Hfl]; [lia|]. eapply wp_mono; [by apply (lo_poke_ok w v e held r a c fl)|]. intros [] e1 He1. cbv beta.
    rewrite w32_small by (unfold is_u32; lia).
    apply (IH (with_byte a c w) (a + 1)); [done|lia|lia|done|intros b Hbb; apply Hp; lia|].
    intros w' e' Hr' Hpg Hfr Hby. apply (HQ w'); [done|done|done|]. intros b. rewrite Hby. cbn [sp_bytes with_byte].
    destruct (Z.leb_spec (a + 1) b), (Z.ltb_spec b (a + 1 + Z.of_nat (length l))), (Z.leb_spec a b),
      (Z.ltb_spec b (a + Z.of_nat (S (length l)))); cbn [andb]; try lia; try (by rewrite lookup_insert_ne by lia).
    + replace (Z.to_nat (b - a)) with (S (Z.to_nat (b - (a + 1)))) by lia. done.
    + replace b with a by lia. rewrite Z.sub_diag, lookup_insert_eq. done.
Qed.

Lemma wp_zero_bss w v ph img (e : E) held r (Q : unit → E → Prop) :
  @fe_ready E _ (lo_fat w) v e held r → segment_ok img ph →
  (∀ k, 0 ≤ k < ph_memsz ph → is_Some (sp_pages w !! ((ph_vaddr ph + k) / 4096))) →
  (∀ w' e', @fe_ready E _ (lo_fat w') v e' held r → sp_pages w' = sp_pages w → sp_frames w' = sp_frames w →
     (∀ b, sp_bytes w' !! b = if (ph_vaddr ph + ph_filesz ph <=? b) && (b <? ph_vaddr ph + ph_memsz ph) then Some 0
                              else sp_bytes w !! b) → Q tt e') →
  wp (zero_bss ph) e Q.
Proof.
  intros Hr (Hv & Hf & Hm & _) Hp HQ. unfold zero_bss. cbv zeta.
  rewrite (w32_small (ph_vaddr ph + ph_filesz ph)), (w32_small (ph_memsz ph - ph_filesz ph)) by (unfold is_u32; lia).
  set (a := ph_vaddr ph + ph_filesz ph). set (n := ph_memsz ph - ph_filesz ph).
  apply wp_for with (λ j e', ∃ w', @fe_ready E _ (lo_fat w') v e' held r ∧ sp_pages w' = sp_pages w ∧
    sp_frames w' = sp_frames w ∧
    ∀ b, sp_bytes w' !! b = if (a <=? b) && (b <? a + j) then Some 0 else sp_bytes w !! b).
  - exists w. split_and!; [done..|]. intros b. destruct (Z.leb_spec a b), (Z.ltb_spec b (a + 0)); (lia || done).
  - intros j e' Hj (w' & Hr' & Hpg & Hfr & Hby). unfold trips in Hj. subst a n.
    rewrite w32_small by (unfold is_u32; lia).
    destruct (Hp (ph_filesz ph + j)) as [fl Hfl]; [lia|]. rewrite Z.add_assoc in Hfl.
    eapply wp_mono; [apply (lo_poke_ok w' v e' held r _ 0 fl); [done|by rewrite Hpg|lia]|].
    intros [] e2 He2. exists (with_byte (ph_vaddr ph + ph_filesz ph + j) 0 w'). split_and!; [done..|].
    intros b. cbn [sp_bytes with_byte]. destruct (Z.eq_dec b (ph_vaddr ph + ph_filesz ph + j)) as [->|Hne].
    + rewrite lookup_insert_eq. destruct (Z.leb_spec (ph_vaddr ph + ph_filesz ph) (ph_vaddr ph + ph_filesz ph + j)),
        (Z.ltb_spec (ph_vaddr ph + ph_filesz ph + j) (ph_vaddr ph + ph_filesz ph + (j + 1))); (lia || done).
    + rewrite lookup_insert_ne, Hby by done. destruct (Z.leb_spec (ph_vaddr ph + ph_filesz ph) b),
        (Z.ltb_spec b (ph_vaddr ph + ph_filesz ph + j)), (Z.ltb_spec b (ph_vaddr ph + ph_filesz ph + (j + 1))); (lia || done).
  - intros e' (w' & Hr' & Hpg & Hfr & Hby). apply (HQ w'); [done..|]. intros b. rewrite Hby. unfold trips.
    subst a n. by replace (ph_vaddr ph + ph_filesz ph + (0 + Z.of_nat (Z.to_nat (ph_memsz ph - ph_filesz ph - 0))))
      with (ph_vaddr ph + ph_memsz ph) by lia.
Qed.

(** A fresh page at [va]; [oom] is what the code does when there is none. *)
Lemma wp_new_page (oom : M (fs E) (option Z)) w v va fl s held r (Q : option Z → fs E → Prop) :
  ready w v s held r → (2 ≤ sp_frames w)%nat → va mod 4096 = 0 → 0x40000000 ≤ va < 0xC0000000 → fl = 5 ∨ fl = 7 →
  (∀ w' e, ready w' v (set_env e s) held r → sp_pages w' = <[va / 4096 := fl]> (sp_pages w) →
     (∀ a, a / 4096 ≠ va / 4096 → sp_bytes w' !! a = sp_bytes w !! a) →
     sp_frames w = (2 + sp_frames w')%nat → Q None (set_env e s)) →
  wp (f ← in_env me_alloc_page; if f =? 0 then oom else in_env (me_map_page va f fl);; ret None) s Q.
Proof.
  intros Hr Hf Hva Hrange Hfl HQ. unfold in_env. wp_step. wp_step.
  eapply wp_mono; [apply (lo_alloc_ok w v (env s) held r); [done|lia]|]. intros f e1 (Hf0 & Hfresh & Hr1).
  destruct (Z.eqb_spec f 0); [done|]. wp_step. wp_step.
  eapply wp_mono; [by apply (lo_map_ok _ v e1 held r va f fl Hr1 Hfresh); [cbn; lia|..]|]. intros [] e2 Hr2.
  wp_step. eapply (HQ _ e2 Hr2); cbn; [done| |lia].
  intros a Ha. rewrite map_lookup_filter. destruct (sp_bytes w !! a); [|done]. cbn. by rewrite option_guard_True.
Qed.

(** What mapping [n] pages from page [p0] on does to the address space. *)
Definition pages_mapped (p0 n fl : Z) (w w' : space) : Prop :=
  (∀ p, sp_pages w' !! p = if (p0 <=? p) && (p <? p0 + n) then Some fl else sp_pages w !! p) ∧
  (∀ a, ~ p0 ≤ a / 4096 < p0 + n → sp_bytes w' !! a = sp_bytes w !! a) ∧
  Z.of_nat (sp_frames w) = 2 * n + Z.of_nat (sp_frames w').

Lemma pages_mapped_0 p0 fl w : pages_mapped p0 0 fl w w.
Proof.
  split_and!; [|done|lia]. intros p. destruct (Z.leb_spec p0 p), (Z.ltb_spec p (p0 + 0)); (lia || done).
Qed.

Lemma pages_mapped_snoc p0 n fl w w1 w2 :
  0 ≤ n → pages_mapped p0 n fl w w1 → sp_pages w2 = <[p0 + n := fl]> (sp_pages w1) →
  (∀ a, a / 4096 ≠ p0 + n → sp_bytes w2 !! a = sp_bytes w1 !! a) → sp_frames w1 = (2 + sp_frames w2)%nat →
  pages_mapped p0 (n + 1) fl w w2.
Proof.
  intros Hn (G1 & G2 & G3) Hp Hb Hf. split_and!; [| |lia].
  - intros p. rewrite Hp. destruct (Z.eq_dec p (p0 + n)) as [->|Hne].
    + rewrite lookup_insert_eq. destruct (Z.leb_spec p0 (p0 + n)), (Z.ltb_spec (p0 + n) (p0 + (n + 1))); (lia || done).
    + rewrite lookup_insert_ne, G1 by done.
      destruct (Z.leb_spec p0 p), (Z.ltb_spec p (p0 + n)), (Z.ltb_spec p (p0 + (n + 1))); (lia || done).
  - intros a Ha. rewrite Hb, G2 by lia. done.
Qed.

Lemma wp_map_segment w v p ph img s held r (Q : option Z → fs E → Prop) :
  ready w v s held r → segment_ok img ph → 2 * segment_pages ph ≤ Z.of_nat (sp_frames w) →
  (∀ w' e, ready w' v (set_env e s) held r →
     pages_mapped (ph_vaddr ph / 4096) (segment_pages ph) (segment_flags (ph_flags ph)) w w' →
     Q None (set_env e s)) →
  wp (map_segment p ph) s Q.
Proof.
  intros Hr Hok Hfr HQ. destruct (num_pages_eq ph img Hok) as (Hps & Hnp & Hn0).
  unfold map_segment. rewrite Hnp, Hps. set (p0 := ph_vaddr ph / 4096) in *. unfold trips. rewrite Z.sub_0_r.
  assert (Htop : 262144 ≤ p0 ∧ p0 + segment_pages ph ≤ 786430).
  { destruct Hok as (? & ? & ? & _). unfold segment_pages, p0. split; mlia. }
  apply wp_for_ret with (λ j s', ∃ w' e, s' = set_env e s ∧ ready w' v s' held r ∧
    pages_mapped p0 j (segment_flags (ph_flags ph)) w w').
  - exists w, (env s). split_and!; [by destruct s|done|apply pages_mapped_0].
  - intros j s' Hj (w1 & e1 & -> & Hr1 & Hm1). cbv zeta. change PAGE_SIZE with 4096.
    rewrite (w32_small (j * 4096)) by (unfold is_u32; lia). rewrite w32_small by (unfold is_u32; lia).
    replace (4096 * p0 + j * 4096) with ((p0 + j) * 4096) by lia.
    eapply wp_new_page; [exact Hr1|destruct Hm1 as (_ & _ & ?); lia|apply Z.mod_mul; lia|lia|apply segment_flags_cases|].
    intros w2 e2 Hr2 Hp2 Hb2 Hf2. rewrite Z.div_mul in * by lia. exists w2, e2. split_and!; [done|done|].
    by apply (pages_mapped_snoc p0 j _ w w1); [lia|..].
  - intros s' (w1 & e1 & -> & Hr1 & Hm1). apply (HQ w1); [done|].
    by replace (segment_pages ph) with (0 + Z.of_nat (Z.to_nat (segment_pages ph))) by lia.
Qed.

Lemma wp_map_stack w v s held r (Q : option Z → fs E → Prop) :
  ready w v s held r → (4 ≤ sp_frames w)%nat →
  (∀ w' e, ready w' v (set_env e s) held r →
     sp_pages w' = <[0xBFFFE := 7]> (<[0xBFFFF := 7]> (sp_pages w)) →
     (∀ a, ~ 0xBFFFE ≤ a / 4096 ≤ 0xBFFFF → sp_bytes w' !! a = sp_bytes w !! a) → Q None (set_env e s)) →
  wp map_stack s Q.
Proof.
  intros Hr Hf HQ. unfold map_stack. change (trips 0 2) with 2%nat. cbn [for_ret]. wp_step.
  change (0xC0000000 -w (0 +w 1) *w PAGE_SIZE) with (786431 * 4096). change (Z.lor (Z.lor PAGE_PRESENT PAGE_WRITE) PAGE_USER) with 7.
  eapply wp_new_page; [exact Hr|lia|done|lia|by right|]. intros w1 e1 Hr1 Hp1 Hb1 Hf1. wp_step.
  change (0xC0000000 -w (0 + 1 +w 1) *w PAGE_SIZE) with (786430 * 4096).
  eapply wp_new_page; [exact Hr1|lia|done|lia|by right|]. intros w2 e2 Hr2 Hp2 Hb2 Hf2. wp_step.
  rewrite Z.div_mul in * by lia. apply (HQ w2); [done| |].
  - rewrite Hp2, Hp1. done.
  - intros a Ha. rewrite Hb2, Hb1 by lia. done.
Qed.

(** An open file of the mounted volume whose clusters hold [img]. *)
Definition file_image (fuel : nat) (v : volume) (s : fs E) (file : Z) (img : list Z) : Prop :=
  mounted v s ∧ ∃ n c cs, nodes s !! file = Some n ∧ n_read n = Some (Some fat32_read_fn) ∧
    n_inode n = Some c ∧ chain v s c cs ∧ (length cs ≤ fuel)%nat ∧ contents v s cs = img.

Lemma file_image_env fuel v s file img e : file_image fuel v s file img → file_image fuel v (set_env e s) file img.
Proof.
  intros (Hm & n & c & cs & G1 & G2 & G3 & G4 & G5 & G6). split; [done|]. exists n, c, cs.
  pose proof (chain_env v s e c cs G4). by split_and!.
Qed.

(** The bytes a read of [size] bytes at [offset] gives. *)
Definition part (img : list Z) (offset size : Z) : list Z := take (Z.to_nat size) (drop (Z.to_nat offset) img).

Lemma wp_read_bytes w fuel v file img offset size s held r (Q : Z * list Z → fs E → Prop) :
  file_image fuel v s file img → ready w v s held r → csize s + 640 ≤ r → is_u32 offset → is_u32 size →
  (∀ e, ready w v (set_env e s) held r →
     Q (Z.of_nat (length (part img offset size)),
        part img offset size ++ drop (length (part img offset size)) (replicate (Z.to_nat size) 0)) (set_env e s)) →
  wp (read_bytes fuel file offset size) s Q.
Proof.
  intros (Hm & n & c & cs & Hn & Hcb & Hi & Hch & Hf & Hc) Hr Hroom Ho Hs HQ.
  assert (wp (vfs_read node_at (run_read fuel) file offset size) (replicate (Z.to_nat size) 0, s) (λ k t,
    k = Z.of_nat (length (part img offset size)) ∧
    t.1 = part img offset size ++ drop (length (part img offset size)) (replicate (Z.to_nat size) 0) ∧
    ∃ e, t.2 = set_env e s ∧ ready w v (set_env e s) held r)) as Hw.
  { unfold vfs_read, beside. wp_step. wp_step. cbn [snd]. unfold node_at. wp_step. wp_step.
    eapply wp_expect; [exact Hn|]. wp_step. eapply wp_expect; [exact Hcb|]. cbn [run_read fst].
    eapply wp_mono; [apply (@wp_fat32_read E _ (lo_fat w) v fuel file n c cs offset size _ s held r);
      try done; rewrite length_replicate; unfold is_u32 in Hs; lia|].
    cbv zeta. unfold part. rewrite Hc. intros k t (-> & Ht & e & He & Hre). split_and!; [done|done|].
    exists e. by split. }
  destruct (wp_ex _ _ _ Hw) as (k & [b s'] & E1 & -> & Hb & e & He & Hre). cbn [fst snd] in *. subst.
  unfold wp, read_bytes. rewrite E1. by apply HQ.
Qed.

Lemma length_part img offset size :
  0 ≤ offset → 0 ≤ size → offset + size ≤ Z.of_nat (length img) → length (part img offset size) = Z.to_nat size.
Proof. intros. unfold part. rewrite length_take, length_drop. lia. Qed.

(** A read inside the file. *)
Lemma wp_read_inside w fuel v file img offset size s held r (Q : Z * list Z → fs E → Prop) :
  file_image fuel v s file img → ready w v s held r → csize s + 640 ≤ r →
  0 ≤ offset → 0 ≤ size → offset + size ≤ Z.of_nat (length img) → Z.of_nat (length img) < 4294967296 →
  (∀ e, ready w v (set_env e s) held r → Q (size, part img offset size) (set_env e s)) →
  wp (read_bytes fuel file offset size) s Q.
Proof.
  intros Hi Hr Hroom Ho Hs Hin Hl HQ.
  eapply (wp_read_bytes w); [done|done|done|unfold is_u32; lia|unfold is_u32; lia|]. intros e He.
  rewrite (length_part img offset size), drop_ge, app_nil_r, Z2Nat.id by (rewrite ?length_replicate; lia).
  by apply HQ.
Qed.

Lemma bytes_part img offset size : Forall (λ c, 0 ≤ c < 256) img → Forall (λ c, 0 ≤ c < 256) (part img offset size).
Proof. intros. by apply Forall_take, Forall_drop. Qed.

Lemma part_lookup img offset size k :
  0 ≤ offset → 0 ≤ k < size → part img offset size !! Z.to_nat k = arr_get img (offset + k).
Proof.
  intros Ho Hk. unfold part, arr_get. destruct (Z.leb_spec 0 (offset + k)); [|lia].
  rewrite lookup_take_lt, lookup_drop by lia. f_equal. lia.
Qed.

(** What loading a segment does to the address space. *)
Definition segment_step (img : list Z) (ph : elf_program_header) (w w' : space) : Prop :=
  segment_loaded img ph w' ∧
  (∀ p, ~ in_segment ph p → sp_pages w' !! p = sp_pages w !! p) ∧
  (∀ a, ~ in_segment ph (a / 4096) → sp_bytes w' !! a = sp_bytes w !! a) ∧
  Z.of_nat (sp_frames w) = 2 * segment_pages ph + Z.of_nat (sp_frames w').

Lemma segment_page_in ph k : 0 ≤ ph_vaddr ph → 0 ≤ k < ph_memsz ph → in_segment ph ((ph_vaddr ph + k) / 4096).
Proof. intros. unfold in_segment. split; mlia. Qed.

(** The three steps together: pages, bytes of the file, zeros. *)
Lemma segment_step_intro img ph w w1 w2 w3 :
  segment_ok img ph →
  pages_mapped (ph_vaddr ph / 4096) (segment_pages ph) (segment_flags (ph_flags ph)) w w1 →
  sp_pages w2 = sp_pages w1 → sp_frames w2 = sp_frames w1 →
  (∀ b, sp_bytes w2 !! b = if (ph_vaddr ph <=? b) && (b <? ph_vaddr ph + ph_filesz ph)
                           then arr_get img (ph_offset ph + (b - ph_vaddr ph)) else sp_bytes w1 !! b) →
  sp_pages w3 = sp_pages w2 → sp_frames w3 = sp_frames w2 →
  (∀ b, sp_bytes w3 !! b = if (ph_vaddr ph + ph_filesz ph <=? b) && (b <? ph_vaddr ph + ph_memsz ph) then Some 0
                           else sp_bytes w2 !! b) →
  segment_step img ph w w3.
Proof.
  intros (Hv & Hf & Hm & _) (Hp1 & Hb1 & Hf1) Hp2 Hf2 Hb2 Hp3 Hf3 Hb3. unfold segment_step.
  assert (Hseg : ∀ p, in_segment ph p ↔ ph_vaddr ph / 4096 ≤ p < ph_vaddr ph / 4096 + segment_pages ph).
  { intros p. unfold in_segment, segment_pages. lia. }
  split_and!; [| | |lia].
  - intros k Hk. pose proof (segment_page_in ph k ltac:(lia) Hk) as Hin. apply Hseg in Hin. split.
    + rewrite Hb3, Hb2. unfold segment_byte. destruct (Z.ltb_spec k (ph_filesz ph)).
      * destruct (Z.leb_spec (ph_vaddr ph + ph_filesz ph) (ph_vaddr ph + k)); [lia|]. cbn [andb].
        destruct (Z.leb_spec (ph_vaddr ph) (ph_vaddr ph + k)), (Z.ltb_spec (ph_vaddr ph + k) (ph_vaddr ph + ph_filesz ph));
          [|lia..]. cbn [andb]. f_equal. lia.
      * destruct (Z.leb_spec (ph_vaddr ph + ph_filesz ph) (ph_vaddr ph + k)),
          (Z.ltb_spec (ph_vaddr ph + k) (ph_vaddr ph + ph_memsz ph)); (lia || done).
    + rewrite Hp3, Hp2, Hp1. set (p := (ph_vaddr ph + k) / 4096) in *.
      destruct (Z.leb_spec (ph_vaddr ph / 4096) p), (Z.ltb_spec p (ph_vaddr ph / 4096 + segment_pages ph)); (lia || done).
  - intros p Hn. rewrite Hseg in Hn. rewrite Hp3, Hp2, Hp1.
    destruct (Z.leb_spec (ph_vaddr ph / 4096) p), (Z.ltb_spec p (ph_vaddr ph / 4096 + segment_pages ph)); (lia || done).
  - intros a Hn. assert (Hout : ~ (ph_vaddr ph ≤ a < ph_vaddr ph + ph_memsz ph)).
    { intros Ha. apply Hn. replace a with (ph_vaddr ph + (a - ph_vaddr ph)) by lia. apply segment_page_in; lia. }
    rewrite Hb3, Hb2. rewrite Hseg in Hn. rewrite Hb1 by done.
    destruct (Z.leb_spec (ph_vaddr ph + ph_filesz ph) a), (Z.ltb_spec a (ph_vaddr ph + ph_memsz ph)); cbn [andb]; try lia;
      destruct (Z.leb_spec (ph_vaddr ph) a), (Z.ltb_spec a (ph_vaddr ph + ph_filesz ph)); (lia || done).
Qed.

(** The part of a segment that is in the file. *)
Lemma wp_segment_data w fuel v file img ph s held r (Q : unit → fs E → Prop) :
  file_image fuel v s file img → ready w v s held r → csize s + 640 ≤ r → segment_ok img ph →
  Forall (λ c, 0 ≤ c < 256) img → Z.of_nat (length img) < 4294967296 →
  (∀ k, 0 ≤ k < ph_memsz ph → is_Some (sp_pages w !! ((ph_vaddr ph + k) / 4096))) →
  (∀ w' e, ready w' v (set_env e s) held r → sp_pages w' = sp_pages w → sp_frames w' = sp_frames w →
     (∀ b, sp_bytes w' !! b = if (ph_vaddr ph <=? b) && (b <? ph_vaddr ph + ph_filesz ph)
                              then arr_get img (ph_offset ph + (b - ph_vaddr ph)) else sp_bytes w !! b) →
     Q tt (set_env e s)) →
  wp (if 0 <? ph_filesz ph then read_to_memory fuel file (ph_offset ph) (ph_filesz ph) (ph_vaddr ph);; skip else skip) s Q.
Proof.
  intros Hi Hr Hroom (Hv & Hf & Hm & Ho & Hin) Hby Hlen Hpg HQ. destruct (Z.ltb_spec 0 (ph_filesz ph)) as [Hpos|Hz].
  - wp_step. unfold read_to_memory. wp_step. eapply (wp_read_inside w); [done..|lia|lia|lia|lia|]. intros e He. wp_step.
    unfold in_env. wp_step. pose proof (length_part img (ph_offset ph) (ph_filesz ph) ltac:(lia) ltac:(lia) ltac:(lia)) as Hlp.
    rewrite take_ge by lia. eapply (wp_poke_bytes w); [exact He|lia|lia|by apply bytes_part| |].
    + intros b Hb. replace b with (ph_vaddr ph + (b - ph_vaddr ph)) by lia. apply Hpg. lia.
    + intros w' e' Hr' Hp' Hf' Hb'. wp_step. wp_step. apply (HQ w'); [done..|]. intros b. rewrite Hb', Hlp, Z2Nat.id by lia.
      destruct (Z.leb_spec (ph_vaddr ph) b), (Z.ltb_spec b (ph_vaddr ph + ph_filesz ph)); cbn [andb]; try done.
      apply part_lookup; lia.
  - wp_step. replace s with (set_env (env s) s) by (by destruct s). apply (HQ w); [by destruct s|done..|]. intros b.
    destruct (Z.leb_spec (ph_vaddr ph) b), (Z.ltb_spec b (ph_vaddr ph + ph_filesz ph)); (lia || done).
Qed.

Lemma wp_load_segment w fuel v file p table i ph img s held r (Q : option Z → fs E → Prop) :
  file_image fuel v s file img → ready w v s held r → csize s + 640 ≤ r →
  program_header_at table i = Some ph → ph_type ph = PT_LOAD → segment_ok img ph →
  Forall (λ c, 0 ≤ c < 256) img → Z.of_nat (length img) < 4294967296 →
  2 * segment_pages ph ≤ Z.of_nat (sp_frames w) →
  (∀ w' e, ready w' v (set_env e s) held r → segment_step img ph w w' → Q None (set_env e s)) →
  wp (load_segment fuel file p table i) s Q.
Proof.
  intros Hi Hr Hroom Hph Ht Hok Hby Hlen Hfr HQ. unfold load_segment. wp_step. eapply wp_expect; [exact Hph|].
  rewrite Ht. change (negb (PT_LOAD =? PT_LOAD)) with false. cbv iota. wp_step.
  eapply (wp_map_segment w); [done|done|done|]. intros w1 e1 Hr1 Hm1. cbv iota. wp_step.
  assert (Hpg1 : ∀ k, 0 ≤ k < ph_memsz ph → is_Some (sp_pages w1 !! ((ph_vaddr ph + k) / 4096))).
  { intros k Hk. destruct Hok as (Hv & _). pose proof (segment_page_in ph k ltac:(lia) Hk) as [? ?].
    destruct Hm1 as (-> & _). unfold segment_pages. set (q := (ph_vaddr ph + k) / 4096) in *.
    destruct (Z.leb_spec (ph_vaddr ph / 4096) q), (Z.ltb_spec q (ph_vaddr ph / 4096 +
      ((ph_vaddr ph + ph_memsz ph + 4095) / 4096 - ph_vaddr ph / 4096))); (lia || eauto). }
  eapply (wp_segment_data w1); [by apply file_image_env|done|done|done|done|done|done|]. intros w2 e2 Hr2 Hp2 Hf2 Hb2.
  change (set_env e2 (set_env e1 s)) with (set_env e2 s) in *. wp_step. wp_step.
  - unfold in_env. wp_step. eapply (wp_zero_bss w2); [exact Hr2|exact Hok|by rewrite Hp2|].
    intros w3 e3 Hr3 Hp3 Hf3 Hb3. wp_step. apply (HQ w3); [done|]. by apply (segment_step_intro img ph w w1 w2 w3).
  - wp_step. apply (HQ w2); [done|]. apply (segment_step_intro img ph w w1 w2 w2); try done.
    intros b. destruct (Z.leb_spec (ph_vaddr ph + ph_filesz ph) b), (Z.ltb_spec b (ph_vaddr ph + ph_memsz ph)); (lia || done).
Qed.

(** The segments to load among the first [n] headers of the table. *)
Definition load_list (table : list Z) (n : Z) : list elf_program_header :=
  filter (λ ph, ph_type ph = PT_LOAD) (omap (program_header_at table) (seqZ 0 n)).

(** No page belongs to two of them. *)
Definition pages_apart (l : list elf_program_header) : Prop :=
  ∀ i j a b p, l !! i = Some a → l !! j = Some b → i ≠ j → in_segment a p → ~ in_segment b p.

Definition total_pages (l : list elf_program_header) : Z := foldr (λ ph n, segment_pages ph + n) 0 l.

Lemma load_list_snoc table n ph :
  0 ≤ n → program_header_at table n = Some ph →
  load_list table (n + 1) = load_list table n ++ (if decide (ph_type ph = PT_LOAD) then [ph] else []).
Proof.
  intros Hn Hp. unfold load_list. rewrite seqZ_snoc by done. rewrite omap_app, filter_app, Z.add_0_l. f_equal.
  cbn [omap list_omap]. rewrite Hp, filter_cons. by case_decide.
Qed.

Lemma load_list_prefix table i n : 0 ≤ i ≤ n → ∃ l, load_list table n = load_list table i ++ l.
Proof.
  intros Hi. unfold load_list. replace n with (i + (n - i)) by lia. rewrite seqZ_app by lia.
  rewrite omap_app, filter_app. eauto.
Qed.

Lemma total_pages_app l1 l2 : total_pages (l1 ++ l2) = total_pages l1 + total_pages l2.
Proof.
  unfold total_pages. induction l1 as [|a l1 IH]; cbn; [done|]. lia.
Qed.

Lemma total_pages_nonneg img l : Forall (segment_ok img) l → 0 ≤ total_pages l.
Proof.
  induction 1 as [|ph l Hok _ IH]; cbn; [lia|]. fold (total_pages l).
  pose proof (num_pages_eq ph img Hok) as (_ & _ & ?). lia.
Qed.

(** A loaded segment stays loaded while other pages change. *)
Lemma segment_loaded_step img a ph w w' :
  0 ≤ ph_vaddr a → segment_loaded img a w → segment_step img ph w w' →
  (∀ p, in_segment a p → ~ in_segment ph p) → segment_loaded img a w'.
Proof.
  intros Hv Hl (_ & Hp & Hb & _) Hd k Hk. destruct (Hl k Hk) as [Hby Hpg].
  pose proof (Hd _ (segment_page_in a k Hv Hk)) as Hn. by rewrite Hb, Hp.
Qed.

(** What the whole loop does. *)
Definition segments_step (img : list Z) (l : list elf_program_header) (w w' : space) : Prop :=
  Forall (λ ph, segment_loaded img ph w') l ∧
  (∀ p, (∀ ph, ph ∈ l → ~ in_segment ph p) → sp_pages w' !! p = sp_pages w !! p) ∧
  Z.of_nat (sp_frames w) = 2 * total_pages l + Z.of_nat (sp_frames w').

Lemma segments_step_snoc img l ph w w1 w2 :
  Forall (segment_ok img) l → segments_step img l w w1 → segment_step img ph w1 w2 →
  (∀ a p, a ∈ l → in_segment a p → ~ in_segment ph p) → segments_step img (l ++ [ph]) w w2.
Proof.
  intros Hok (G1 & G2 & G3) Hs Hd. pose proof Hs as (L1 & L2 & _ & L4). split_and!.
  - apply Forall_app. split; [|by constructor]. apply Forall_forall. intros a Ha.
    rewrite Forall_forall in G1, Hok. eapply segment_loaded_step; [destruct (Hok a Ha); lia|by apply G1|exact Hs|].
    intros p. by apply Hd.
  - intros p Hp. rewrite L2 by (apply Hp; set_solver). apply G2. intros a Ha. apply Hp. set_solver.
  - rewrite total_pages_app. cbn. lia.
Qed.

Lemma wp_load_segments w fuel v file p table n img s held r (Q : option Z → fs E → Prop) :
  file_image fuel v s file img → ready w v s held r → csize s + 640 ≤ r →
  Z.of_nat (length table) = 32 * n → 0 ≤ n →
  Forall (segment_ok img) (load_list table n) → pages_apart (load_list table n) →
  Forall (λ c, 0 ≤ c < 256) img → Z.of_nat (length img) < 4294967296 →
  2 * total_pages (load_list table n) ≤ Z.of_nat (sp_frames w) →
  (∀ w' e, ready w' v (set_env e s) held r → segments_step img (load_list table n) w w' → Q None (set_env e s)) →
  wp (for_ret 0 (trips 0 n) (load_segment fuel file p table)) s Q.
Proof.
  intros Hi Hr Hroom Htab Hn Hok Hap Hby Hlen Hfr HQ.
  apply wp_for_ret with (λ i s', ∃ w' e, s' = set_env e s ∧ ready w' v s' held r ∧ segments_step img (load_list table i) w w').
  - exists w, (env s). split_and!; [by destruct s|done|].
    change (load_list table 0) with (@nil elf_program_header). split_and!; [constructor|done|cbn; lia].
  - unfold trips. intros i s' Hii (w1 & e1 & -> & Hr1 & Hs1).
    assert (Hph : ∃ ph, program_header_at table i = Some ph).
    { unfold program_header_at. destruct (Z.leb_spec 0 i), (Z.leb_spec (32 * i + 32) (Z.of_nat (length table))); (lia || eauto). }
    destruct Hph as [ph Hph]. destruct (load_list_prefix table (i + 1) n) as [rest Hrest]; [lia|].
    rewrite (load_list_snoc table i ph) in * by (lia || done). destruct (decide (ph_type ph = PT_LOAD)) as [Ht|Ht].
    + rewrite Hrest in Hok, Hap, Hfr. rewrite <- app_assoc in Hok, Hap, Hfr. cbn [app] in *.
      apply Forall_app in Hok as [Hok1 [Hokp Hok2]%Forall_cons]. rewrite total_pages_app in Hfr. cbn in Hfr.
      fold (total_pages rest) in Hfr. pose proof (total_pages_nonneg img rest Hok2). destruct Hs1 as (? & ? & Hf1) eqn:?.
      eapply (wp_load_segment w1); [by apply file_image_env|done|done|done|done|done|done|done|lia|].
      intros w2 e2 Hr2 Hs2. exists w2, e2. split_and!; [done|done|]. eapply segments_step_snoc; [done|done|exact Hs2|].
      intros a q [k Hk]%list_elem_of_lookup Ha. apply (Hap k (length (load_list table i)) a ph q); [|by apply list_lookup_middle| |done].
      * by apply lookup_app_l_Some.
      * apply lookup_lt_Some in Hk. lia.
    + unfold load_segment. wp_step. eapply wp_expect; [exact Hph|]. destruct (Z.eqb_spec (ph_type ph) PT_LOAD); [done|].
      cbn [negb]. wp_step. exists w1, e1. rewrite app_nil_r. done.
  - unfold trips. rewrite Z.sub_0_r, Z2Nat.id, Z.add_0_l by done. intros s' (w1 & e1 & -> & Hr1 & Hs1). by apply (HQ w1).
Qed.

Lemma chain_node v s q n c cs : chain v s c cs → chain v (set_node q n s) c cs.
Proof. induction 1; [by apply chain_last|by apply chain_next]. Qed.

(** The bytes of a file are bytes. *)
Lemma contents_bytes v s cs : mounted v s → Forall (λ c, 0 ≤ c < 256) (contents v s cs).
Proof.
  intros ((_ & Hv) & _). unfold contents, cluster_data.
  apply Forall_concat, Forall_fmap, Forall_forall. intros c _. cbn.
  apply Forall_concat, Forall_fmap, Forall_forall. intros i _. apply Hv.
Qed.

(** The root directory of the mounted volume, with its clusters. *)
Definition root_directory (fuel : nat) (v : volume) (s : fs E) (cs : list Z) : Prop :=
  mounted v s ∧ (length cs < fuel)%nat ∧ ∃ n c, nodes s !! fs_root s = Some n ∧ n_flags n = Some FS_DIRECTORY ∧
    n_finddir n = Some (Some fat32_finddir_fn) ∧ n_inode n = Some c ∧ chain v s c cs.

Lemma root_directory_env fuel v s cs e : root_directory fuel v s cs → root_directory fuel v (set_env e s) cs.
Proof.
  intros (Hm & Hf & n & c & G1 & G2 & G3 & G4 & G5). split_and!; [done|done|]. exists n, c.
  pose proof (chain_env v s e c cs G5). by split_and!.
Qed.

(** The entry of a path in the directory. *)
Definition entry_of (v : volume) (s : fs E) (cs : list Z) (path : list Z) : option fat_dir_entry :=
  head (filter (named path) (listing (dir_entries v s cs))).

Lemma wp_find_file w fuel v path txt cs (s : loader E) r (Q : Z → loader E → Prop) :
  root_directory fuel v (ld_fs s) cs → holds path txt → ready w v (ld_fs s) [] r → csize (ld_fs s) + 640 ≤ r →
  match entry_of v (ld_fs s) cs txt with
  | Some x => ∀ q e, q ≠ 0 → ready w v (set_env e (ld_fs s)) [] (r - csize (ld_fs s) - 312) →
      Q q (set_fs (set_env e (set_node q (entry_node x) (ld_fs s))) s)
  | None => ∀ e, ready w v (set_env e (ld_fs s)) [] r → Q 0 (set_fs (set_env e (ld_fs s)) s)
  end →
  wp (find_file fuel path) s Q.
Proof.
  intros (Hm & Hf & n & c & Hn & Hfl & Hcb & Hi & Hch) Hp Hr Hroom HQ. unfold find_file, in_fs. wp_step. wp_step. wp_step.
  unfold vfs_finddir. wp_step. unfold node_at. wp_step. wp_step. eapply wp_expect; [exact Hn|].
  unfold directory_callback. wp_step. wp_step. eapply wp_expect; [exact Hfl|]. change (Z.land FS_DIRECTORY 0x7 =? FS_DIRECTORY) with true.
  cbv iota. eapply wp_expect; [exact Hcb|]. cbn [run_finddir].
  apply (@wp_fat32_finddir E _ (lo_fat w) v fuel (fs_root (ld_fs s)) n c cs path txt _ [] r); [done..|].
  unfold entry_of in HQ. destruct (head _); [|exact HQ].
  intros q e Hq He. apply HQ; [done|]. by eapply fe_forget.
Qed.

(** Logging leaves everything in place. *)
Lemma wp_elog w v msg txt (s : loader E) held r (Q : unit → loader E → Prop) :
  ready w v (ld_fs s) held r → holds msg txt → Forall (λ c, 0 ≤ c < 256) txt →
  (∀ e, ready w v (set_env e (ld_fs s)) held r → Q tt (set_fs (set_env e (ld_fs s)) s)) → wp (elog msg) s Q.
Proof.
  intros Hr Hh Hb HQ. unfold elog, in_fs. wp_step. apply (@wp_log E _ (lo_fat w) v msg txt _ held r); [done|done|done|].
  intros e He. by apply HQ.
Qed.

Lemma wp_fail w v msg (s : loader E) held r (Q : Z → loader E → Prop) :
  ready w v (ld_fs s) held r → (0 ∉ str msg) →
  (∀ e, ready w v (set_env e (ld_fs s)) held r → Q (-1) (set_fs (set_env e (ld_fs s)) s)) → wp (fail msg) s Q.
Proof.
  intros Hr Hz HQ. unfold fail. wp_step. eapply wp_elog; [exact Hr|by apply lit_holds|apply str_bytes|]. intros e He. wp_step. by apply HQ.
Qed.

(** The stack does not disturb the segments below it. *)
Lemma segment_loaded_stack img a w w' :
  segment_ok img a → segment_loaded img a w →
  sp_pages w' = <[0xBFFFE := 7]> (<[0xBFFFF := 7]> (sp_pages w)) →
  (∀ a, ~ 0xBFFFE ≤ a / 4096 ≤ 0xBFFFF → sp_bytes w' !! a = sp_bytes w !! a) → segment_loaded img a w'.
Proof.
  intros (Hv & Hf & Hm & _) Hl Hp Hb k Hk. destruct (Hl k Hk) as [Hby Hpg].
  assert ((ph_vaddr a + k) / 4096 < 0xBFFFE) by mlia.
  rewrite Hb by lia. split; [done|]. rewrite Hp, !lookup_insert_ne by lia. done.
Qed.

End loading.

(** ** Properties *)

(** The header checks of the loader. *)
Definition accepted (h : elf_header) : bool :=
  (eh_magic h =? ELF_MAGIC) && (eh_machine h =? EM_386) && (eh_type h =? ET_EXEC).

(** A program the loader can run: a header it accepts, its table of program headers in the
    file, segments it can handle, and no page in two of them. *)
Definition executable (img : list Z) (h : elf_header) (segs : list elf_program_header) : Prop :=
  52 ≤ Z.of_nat (length img) < 4294967296 ∧ elf_header_at (part img 0 52) = Some h ∧ accepted h = true ∧
  1 ≤ eh_phnum h < 65536 ∧ 0 ≤ eh_phoff h ∧ eh_phoff h + eh_phnum h * 32 ≤ Z.of_nat (length img) ∧
  segs = load_list (part img (eh_phoff h) (eh_phnum h * 32)) (eh_phnum h) ∧
  Forall (segment_ok img) segs ∧ pages_apart segs.

(** The file of a path: an entry of the root directory that is not a directory, and the
    bytes of its clusters. *)
Definition file_at {E} (fuel : nat) (v : volume) (s : fs E) (cs : list Z) (path img : list Z) : Prop :=
  ∃ x fcs, entry_of v s cs path = Some x ∧ truth (Z.land (e_attr x) ATTR_DIRECTORY) = false ∧
    chain v s (first_cluster x) fcs ∧ (length fcs ≤ fuel)%nat ∧ img = contents v s fcs.

Section running.
Context {E : Type} `{LoaderOk E}.

(** The file of a path once it has been found: an image the loader can read. *)
Lemma opened_image fuel v (s : fs E) q x fcs e :
  mounted v s → truth (Z.land (e_attr x) ATTR_DIRECTORY) = false → chain v s (first_cluster x) fcs →
  (length fcs ≤ fuel)%nat →
  file_image fuel v (set_env e (set_node q (entry_node x) s)) q (contents v s fcs).
Proof.
  intros Hm Hx Hch Hl. split; [done|]. exists (entry_node x), (first_cluster x), fcs.
  cbn [nodes set_env set_node]. rewrite lookup_insert_eq. unfold entry_node. rewrite Hx.
  split_and!; [done|done|done|by apply chain_env, chain_node|done|done].
Qed.

(** The beginning of every run that finds a file: up to the header. *)
Lemma wp_header w fuel v cs path txt img (s : loader E) r (k : Z → Z * list Z → M (loader E) Z)
    (run : M (loader E) Z → loader E → Prop) :
  (∀ A (m : M (loader E) A) (f : A → M (loader E) Z) t, wp m t (λ a t', run (f a) t') → run (bind m f) t) →
  root_directory fuel v (ld_fs s) cs → holds path txt → file_at fuel v (ld_fs s) cs txt img →
  ready w v (ld_fs s) [] r → 2 * csize (ld_fs s) + 952 ≤ r →
  (∀ f q e, q ≠ 0 → file_image fuel v f q img → csize f = csize (ld_fs s) →
     ready w v (set_env e f) [] (r - csize (ld_fs s) - 312) →
     run (k q (Z.of_nat (length (part img 0 52)),
               part img 0 52 ++ drop (length (part img 0 52)) (replicate 52 0))) (set_fs (set_env e f) s)) →
  run (elog (lit "ELF: Loading executable...");;
       file ← find_file fuel path;
       if file =? 0 then fail "ELF: File not found" else
       x ← in_fs (read_bytes fuel file 0 52);
       k file x) s.
Proof.
  intros Hrun Hroot Hp (x & fcs & Hx & Hdir & Hch & Hl & ->) Hr Hroom Hk.
  assert (Hc : 512 ≤ csize (ld_fs s)) by (destruct Hroot as ((_ & _ & ? & _) & _); unfold csize; lia).
  apply Hrun. eapply wp_elog; [exact Hr|holds_lit|apply str_bytes|]. intros e1 He1.
  apply Hrun. eapply (wp_find_file w fuel v path txt cs); [by apply root_directory_env|exact Hp|exact He1|change (csize (ld_fs s) + 640 ≤ r); lia|].
  change (entry_of v (ld_fs (set_fs (set_env e1 (ld_fs s)) s)) cs txt) with (entry_of v (ld_fs s) cs txt).
  rewrite Hx. intros q e2 Hq He2. destruct (Z.eqb_spec q 0); [done|]. apply Hrun. unfold in_fs. wp_step.
  destruct Hroot as (Hm & _).
  eapply (wp_read_bytes w fuel v q (contents v (ld_fs s) fcs)); [exact (opened_image fuel v (ld_fs s) q x fcs e2 Hm Hdir Hch Hl)|exact He2| | | |];
    [change (csize (ld_fs s) + 640 ≤ r - csize (ld_fs s) - 312); lia|unfold is_u32; lia|unfold is_u32; lia|].
  intros e3 He3. eapply (Hk (set_node q (entry_node x) (ld_fs s)) q e3); [done|exact (opened_image fuel v (ld_fs s) q x fcs (env (ld_fs s)) Hm Hdir Hch Hl)|done|exact He3].
Qed.

(** The header of an image of at least 52 bytes. *)
Lemma header_read img :
  52 ≤ Z.of_nat (length img) →
  Z.of_nat (length (part img 0 52)) = 52 ∧
  part img 0 52 ++ drop (length (part img 0 52)) (replicate 52 0) = part img 0 52.
Proof.
  intros Hl. rewrite (length_part img 0 52) by lia. split; [lia|].
  rewrite drop_ge by (rewrite length_replicate; lia). apply app_nil_r.
Qed.

End running.

(** Running a program: when the root directory of the mounted volume has a file that is an
    i386 executable whose segments lie below the stack, inside the file and in different
    pages, and there are pages and heap enough, [elf_exec] does not return: user mode is
    entered at the entry point with the user segments, interrupts on and the stack at 3 GB;
    every loadable segment is in memory byte by byte, zeros after the bytes of the file, in
    user pages that are writable exactly when the segment is, two pages of stack are mapped,
    and the other pages are as they were. *)
Theorem elf_exec_spec {E} `{LoaderOk E} fuel w v cs path txt img h segs (s : loader E) r :
  root_directory fuel v (ld_fs s) cs → holds path txt → file_at fuel v (ld_fs s) cs txt img →
  executable img h segs → 2 * total_pages segs + 4 ≤ Z.of_nat (sp_frames w) →
  ready w v (ld_fs s) [] r → 2 * csize (ld_fs s) + 32 * eh_phnum h + 1016 ≤ r →
  whalt (elf_exec fuel path) s (λ s', ∃ w',
    user_cpu s' = Some (mkUser 0x23 0x23 0xC0000000 (Z.lor (Z.clearbit (eflags s) 9) 0x200) 0x1B (eh_entry h)) ∧
    Forall (λ ph, segment_loaded img ph w') segs ∧
    sp_pages w' !! 0xBFFFE = Some 7 ∧ sp_pages w' !! 0xBFFFF = Some 7 ∧
    (∀ p, (∀ ph, ph ∈ segs → ¬ in_segment ph p) → p ≠ 0xBFFFE → p ≠ 0xBFFFF → sp_pages w' !! p = sp_pages w !! p) ∧
    ready w' v (ld_fs s') [] (r - csize (ld_fs s) - 312)).
Proof.
  intros Hroot Hp Hfile (Hlen & Hh & Hacc & Hnum & Hoff & Hin & -> & Hok & Hap) Hfr Hr Hroom.
  pose proof Hfile as (x & fcs & _ & _ & _ & _ & Himg).
  assert (Hby : Forall (λ c, 0 ≤ c < 256) img) by (subst img; apply contents_bytes, Hroot).
  assert (Hc : 512 ≤ csize (ld_fs s)) by (destruct Hroot as ((_ & _ & ? & _) & _); unfold csize; lia).
  unfold elf_exec. match goal with |- whalt _ _ ?Q0 => set (Q := Q0) end.
  eapply (wp_header w fuel v cs path txt img s r _ (λ m t, whalt m t Q));
    [intros A m g t Hw; apply whalt_bind; exact Hw|done..|lia|].
  intros f q e Hq Hf Hcs He. destruct (header_read img) as [-> ->]; [lia|].
  change (negb (52 =? 52)) with false. cbv iota. rewrite Hh. cbn [expect].
  apply whalt_bind. wp_step. unfold accepted in Hacc. apply andb_prop in Hacc as [[-> ->]%andb_prop ->]. cbn [negb].
  apply whalt_bind. eapply wp_elog; [exact He|holds_lit|apply str_bytes|]. intros e1 He1. cbv zeta.
  apply whalt_bind. unfold in_fs at 1. wp_step.
  apply (@wp_malloc E _ (lo_fat w) v (eh_phnum h * 32) _ [] (r - csize (ld_fs s) - 312)); [exact He1|lia|lia|].
  intros ph e2 Hph He2. destruct (Z.eqb_spec ph 0); [done|].
  apply whalt_bind. unfold in_fs at 1. wp_step.
  eapply (wp_read_inside w fuel v q img); [exact (file_image_env fuel v f q img e2 Hf)|exact He2| | | | | |];
    [change (csize f + 640 ≤ r - csize (ld_fs s) - 312 - (eh_phnum h * 32 + 64)); lia|lia|lia|lia|lia|].
  intros e3 He3. rewrite Z.eqb_refl. cbn [negb]. cbv iota.
  apply whalt_bind. unfold in_fs at 1. wp_step.
  eapply (wp_load_segments w fuel v q ph _ _ img); [exact (file_image_env fuel v f q img e3 Hf)|exact He3| | | | | | | | |];
    [change (csize f + 640 ≤ r - csize (ld_fs s) - 312 - (eh_phnum h * 32 + 64)); lia
    |rewrite length_part by lia; lia|lia|done|done|done|lia|lia|].
  intros w4 e4 He4 (Hld & Hpg & Hf4).
  apply whalt_bind. unfold in_fs at 1. wp_step.
  apply (@wp_free E _ (lo_fat w4) v ph (r - csize (ld_fs s) - 312) _ [] (r - csize (ld_fs s) - 312 - (eh_phnum h * 32 + 64)));
    [exact He4|]. intros e5 He5.
  apply whalt_bind. unfold in_fs at 1. wp_step. eapply (wp_map_stack w4); [exact He5|lia|]. intros w6 e6 He6 Hp6 Hb6.
  apply whalt_bind. eapply wp_elog; [exact He6|holds_lit|apply str_bytes|]. intros e7 He7.
  unfold enter_usermode. unfold whalt, bind, modify, halt, Q. exists w6. split_and!; [done| | | | |exact He7].
  - apply Forall_forall. intros a Ha. rewrite Forall_forall in Hld, Hok.
    apply (segment_loaded_stack img a w4); [by apply Hok|by apply Hld|done|done].
  - rewrite Hp6. by rewrite lookup_insert_eq.
  - rewrite Hp6, lookup_insert_ne by done. by rewrite lookup_insert_eq.
  - intros p Hout Hp1 Hp2. rewrite Hp6, !lookup_insert_ne by done. by apply Hpg.
Qed.

(** What the loader refuses: too short for a header, a header it does not accept, or a table of
    program headers (of at most [m] bytes) that is not all in the file. *)
Definition rejected (m : Z) (img : list Z) : Prop :=
  Z.of_nat (length img) < 52 ∨
  52 ≤ Z.of_nat (length img) ∧ ∃ h, elf_header_at (part img 0 52) = Some h ∧
    (accepted h = false ∨
     1 ≤ eh_phnum h ∧ eh_phnum h * 32 ≤ m ∧ m < 2097152 ∧ is_u32 (eh_phoff h) ∧
     Z.of_nat (length img) < eh_phoff h + eh_phnum h * 32).

(** The loader on a file that is not a program. *)
Lemma wp_elf_exec_refused {E} `{LoaderOk E} fuel w v cs path txt m (s : loader E) r :
  root_directory fuel v (ld_fs s) cs → holds path txt →
  entry_of v (ld_fs s) cs txt = None ∨ (∃ img, file_at fuel v (ld_fs s) cs txt img ∧ rejected m img) →
  ready w v (ld_fs s) [] r → 0 ≤ m → 2 * csize (ld_fs s) + m + 1016 ≤ r →
  wp (elf_exec fuel path) s (λ c s', c = -1 ∧ user_cpu s' = user_cpu s ∧
    ∃ r', r - csize (ld_fs s) - 312 ≤ r' ∧ ready w v (ld_fs s') [] r').
Proof.
  intros Hroot Hp Hbad Hr Hm0 Hroom.
  assert (Hc : 512 ≤ csize (ld_fs s)) by (destruct Hroot as ((_ & _ & ? & _) & _); unfold csize; lia).
  match goal with |- wp _ _ ?Q0 => set (Q := Q0) end.
  assert (Hfail : ∀ msg (t : loader E) r', (0 ∉ str msg) → user_cpu t = user_cpu s → r - csize (ld_fs s) - 312 ≤ r' →
    ready w v (ld_fs t) [] r' → wp (fail msg) t Q).
  { intros msg t r' Hz Hu Hr' Ht. eapply wp_fail; [exact Ht|exact Hz|]. intros e He. split_and!; [done|exact Hu|].
    exists r'. by split. }
  destruct Hbad as [Hnone|(img & Hfile & Hrej)].
  - unfold elf_exec. wp_step. eapply wp_elog; [exact Hr|holds_lit|apply str_bytes|]. intros e1 He1. wp_step.
    eapply (wp_find_file w fuel v path txt cs); [by apply root_directory_env|exact Hp|exact He1
      |change (csize (ld_fs s) + 640 ≤ r); lia|].
    change (entry_of v (ld_fs (set_fs (set_env e1 (ld_fs s)) s)) cs txt) with (entry_of v (ld_fs s) cs txt).
    rewrite Hnone. intros e2 He2. change (0 =? 0) with true. cbv iota.
    eapply Hfail; [vm_compute; set_solver|done| |exact He2]. lia.
  - unfold elf_exec. eapply (wp_header w fuel v cs path txt img s r _ (λ m t, wp m t Q));
      [intros A m' g t Hw; apply wp_bind; exact Hw|done..|lia|].
    intros f q e Hq Hf Hcs He. destruct Hrej as [Hshort|(Hlen & h & Hh & Hcase)].
    { assert (Z.of_nat (length (part img 0 52)) < 52) by (unfold part; rewrite length_take, length_drop; lia).
      destruct (Z.eqb_spec (Z.of_nat (length (part img 0 52))) 52); [lia|]. cbn [negb].
      eapply Hfail; [vm_compute; set_solver|done| |exact He]. lia. }
    destruct (header_read img Hlen) as [-> ->]. change (negb (52 =? 52)) with false. cbv iota. rewrite Hh.
    cbn [expect]. wp_step. wp_step. unfold accepted in Hcase.
    destruct (eh_magic h =? ELF_MAGIC); cbn [negb andb] in *;
      [|by eapply Hfail; [vm_compute; set_solver|done| |exact He]; lia].
    destruct (eh_machine h =? EM_386); cbn [negb andb] in *;
      [|by eapply Hfail; [vm_compute; set_solver|done| |exact He]; lia].
    destruct (eh_type h =? ET_EXEC); cbn [negb andb] in *;
      [|by eapply Hfail; [vm_compute; set_solver|done| |exact He]; lia].
    destruct Hcase as [?|(Hnum & Hm & Hm2 & Hoff & Hout)]; [done|].
    wp_step. eapply wp_elog; [exact He|holds_lit|apply str_bytes|]. intros e1 He1. cbv zeta. wp_step. unfold in_fs at 1. wp_step.
    apply (@wp_malloc E _ (lo_fat w) v (eh_phnum h * 32) _ [] (r - csize (ld_fs s) - 312)); [exact He1|lia|lia|].
    intros ph e2 Hph He2. destruct (Z.eqb_spec ph 0); [done|]. wp_step. unfold in_fs at 1. wp_step.
    eapply (wp_read_bytes w fuel v q img); [exact (file_image_env fuel v f q img e2 Hf)|exact He2| |done| |];
      [change (csize f + 640 ≤ r - csize (ld_fs s) - 312 - (eh_phnum h * 32 + 64)); lia|unfold is_u32; lia|].
    intros e3 He3. assert (Z.of_nat (length (part img (eh_phoff h) (eh_phnum h * 32))) < eh_phnum h * 32).
    { unfold part. rewrite length_take, length_drop. unfold is_u32 in Hoff. lia. }
    destruct (Z.eqb_spec (Z.of_nat (length (part img (eh_phoff h) (eh_phnum h * 32)))) (eh_phnum h * 32)); [lia|].
    cbn [negb]. wp_step. eapply wp_elog; [exact He3|holds_lit|apply str_bytes|]. intros e4 He4. wp_step. unfold in_fs at 1. wp_step.
    apply (@wp_free E _ (lo_fat w) v ph (r - csize (ld_fs s) - 312) _ [] (r - csize (ld_fs s) - 312 - (eh_phnum h * 32 + 64)));
      [exact He4|]. intros e5 He5. wp_step. split_and!; [done|done|]. exists (r - csize (ld_fs s) - 312). by split; [lia|].
Qed.

(** C36. Files that are not programs: a path that is not in the root directory, a file too short
    for a header, one with the wrong magic number, machine or type, and one whose program
    headers are missing are refused with -1; no page is mapped, nothing is stored, user mode
    is not entered, and only the node of the file stays allocated. *)
Theorem elf_exec_errors {E} `{LoaderOk E} fuel w v cs path txt m (s : loader E) r :
  root_directory fuel v (ld_fs s) cs → holds path txt →
  entry_of v (ld_fs s) cs txt = None ∨ (∃ img, file_at fuel v (ld_fs s) cs txt img ∧ rejected m img) →
  ready w v (ld_fs s) [] r → 0 ≤ m → 2 * csize (ld_fs s) + m + 1016 ≤ r →
  wp (elf_exec fuel path) s (λ c s', c = -1 ∧ user_cpu s' = user_cpu s ∧
    ∃ r', r - csize (ld_fs s) - 312 ≤ r' ∧ ready w v (ld_fs s') [] r').
Proof. apply wp_elf_exec_refused. Qed.

(** ** A machine for the examples: the file system of Fat32.v beside an address space *)

Definition bench : Type := sandbox * space.

#[global] Instance bench_fat : FatEnv bench := {|
  fe_malloc n := zoom fst (λ b e, (b, e.2)) (fe_malloc n);
  fe_free p := zoom fst (λ b e, (b, e.2)) (fe_free p);
  fe_read lba count := zoom (λ s, (s.1, s.2.1)) (λ p s, (p.1, (p.2, s.2.2))) (fe_read lba count);
  fe_log msg := zoom fst (λ b e, (b, e.2)) (fe_log msg)
|}.

#[global] Instance bench_mem : MemEnv bench := {|
  me_alloc_page := λ e,
    match sp_frames e.2 with
    | O => Ret 0 e
    | S n => Ret (4096 * Z.of_nat (S n)) (e.1, mkSpace (sp_pages e.2) (sp_bytes e.2) n)
    end;
  me_map_page va f fl := modify (λ e, (e.1, with_page (va / 4096) fl e.2));
  me_poke a c := λ e,
    match sp_pages e.2 !! (a / 4096) with
    | Some _ => Ret tt (e.1, with_byte a c e.2)
    | None => Undef
    end
|}.

Program Definition bench_fat_ok (w : space) : FatEnvOk bench := {|
  fe_ready v e held r := fe_ready v e.1 held r ∧ e.2 = w
|}.
Next Obligation.
  intros w v e held r n [Hr <-] Hn Hroom. unfold fe_malloc, bench_fat. wp_step.
  eapply wp_mono; [by apply (fe_malloc_ok v)|]. intros p b [Hp Hb]. by split_and!.
Qed.
Next Obligation.
  intros w v e p r0 held r [Hr <-]. unfold fe_free, bench_fat. wp_step.
  eapply wp_mono; [by eapply fe_free_ok|]. intros [] b Hb. done.
Qed.
Next Obligation.
  intros w v e q rq p rp held r [Hr <-]. unfold fe_free, bench_fat. wp_step.
  eapply wp_mono; [by eapply fe_free_under|]. intros [] b Hb. done.
Qed.
Next Obligation. intros w v e held r [Hr <-]. split; [by eapply fe_forget|done]. Qed.
Next Obligation.
  intros w v e held r lba count b [Hr <-] G1 G2 G3 G4. unfold fe_read, bench_fat. wp_step.
  eapply wp_mono; [by apply (fe_read_ok v e.1 held r)|]. intros ok [b' sb] (-> & -> & Hsb). done.
Qed.
Next Obligation.
  intros w v e held r msg txt [Hr <-] Hh Hb. unfold fe_log, bench_fat. wp_step.
  eapply wp_mono; [by eapply fe_log_ok|]. intros [] b Hb1. done.
Qed.

#[global] Program Instance bench_ok : LoaderOk bench := {|
  lo_fat := bench_fat_ok;
  lo_fresh e f := True
|}.
Next Obligation.
  intros w v [sb w'] held r [Hr Hw] Hf. cbn in Hw. subst w'. unfold wp. cbn.
  destruct (sp_frames w); [lia|]. split; [lia|]. split; [done|]. split; [exact Hr|done].
Qed.
Next Obligation. intros w v [sb w'] held r va f fl [Hr Hw] _ Hf Ha Hva Hfl. cbn in Hw. subst w'. by split. Qed.
Next Obligation.
  intros w v [sb w'] held r a c fl [Hr Hw] Hp Hc. cbn in Hw. subst w'. unfold wp. cbn. rewrite Hp. by split.
Qed.

(** A program of one segment of eight bytes, four of them in the file. *)
Definition program_demo : list Z :=
  [0x7F; 0x45; 0x4C; 0x46; 1; 1; 1; 0] ++ replicate 8 0 ++ [2; 0; 3; 0; 1; 0; 0; 0] ++ [0; 0; 0; 0x40] ++
  [52; 0; 0; 0] ++ replicate 8 0 ++ [52; 0; 32; 0; 1; 0; 0; 0; 0; 0; 0; 0] ++
  [1; 0; 0; 0; 84; 0; 0; 0; 0; 0; 0; 0x40; 0; 0; 0; 0; 4; 0; 0; 0; 8; 0; 0; 0; 5; 0; 0; 0; 0; 16; 0; 0] ++
  [0xEB; 0xFE; 0x90; 0x90] ++ replicate 424 0.

Definition programs_demo : volume :=
  mkVolume 64 (λ i, if i =? 0 then boot_demo else if i =? 1 then fat_demo
    else if i =? 2 then str "SHELL      " ++ [0x20] ++ replicate 14 0 ++ [3; 0; 0; 4; 0; 0] ++ replicate 480 0
    else if i =? 3 then program_demo else replicate 512 66).

Definition space_demo : space := mkSpace ∅ ∅ 6.

Definition loader_demo : loader bench :=
  mkLoader (mkFs (bpb fs_demo) 1 2 2 5 (nodes fs_demo) ∅ (mkSandbox programs_demo 10000 [] 10, space_demo)) 0x202 None.

Lemma programs_demo_wf : vol_wf programs_demo.
Proof.
  split; [done|]. intros i. unfold programs_demo. cbn [v_sector].
  repeat case_match; (split; [reflexivity|apply bytes_checked; vm_compute; reflexivity]).
Qed.

Lemma root_demo_directory : root_directory 3 programs_demo (ld_fs loader_demo) [2].
Proof.
  split; [split_and!; [apply programs_demo_wf|done|vm_compute; congruence|done|vm_compute; congruence|vm_compute; congruence]|].
  split; [cbn; lia|]. eexists _, 2. split; [reflexivity|]. split_and!; [done|done|done|].
  apply chain_last; [split_and!; vm_compute; congruence|vm_compute; congruence].
Qed.

Lemma program_demo_file : file_at 3 programs_demo (ld_fs loader_demo) [2] (str "SHELL") (program_demo ++ replicate 512 66).
Proof.
  eexists (default (mkEntry [] 0 0 0 0 0 0 0 0 0 0 0) (entry_at (v_sector programs_demo 2) 0)), [3; 4].
  split; [vm_compute; reflexivity|]. split; [done|]. split; [|split; [cbn; lia|vm_compute; reflexivity]].
  apply chain_next; [split_and!; vm_compute; congruence|vm_compute; congruence|].
  apply chain_last; [split_and!; vm_compute; congruence|vm_compute; congruence].
Qed.

Definition segment_demo : elf_program_header := mkPhdr 1 84 0x40000000 0 4 8 5 0x1000.

Definition header_demo : elf_header :=
  mkEhdr ELF_MAGIC 1 1 1 0 (replicate 8 0) 2 3 1 0x40000000 52 0 0 52 32 1 0 0 0.

Lemma program_demo_executable : executable (program_demo ++ replicate 512 66) header_demo [segment_demo].
Proof.
  split; [vm_compute; split; congruence|]. split; [vm_compute; reflexivity|]. split; [vm_compute; reflexivity|].
  split; [vm_compute; split; congruence|]. split; [vm_compute; congruence|]. split; [vm_compute; congruence|].
  split; [vm_compute; reflexivity|]. split.
  - repeat constructor; vm_compute; congruence.
  - intros i j a b p Ha Hb Hij. apply list_lookup_singleton_Some in Ha as [-> <-], Hb as [-> <-]. done.
Qed.

(** ** The properties at concrete inputs *)

Lemma elf_exec_spec_witness :
  whalt (elf_exec 3 (lit "SHELL")) loader_demo (λ s',
    (uf_eip <$> user_cpu s') = Some 0x40000000 ∧ (uf_eflags <$> user_cpu s') = Some 0x202 ∧
    ∃ w', sp_bytes w' !! 0x40000001 = Some 0xFE ∧ sp_bytes w' !! 0x40000007 = Some 0 ∧
      sp_pages w' !! 0x40000 = Some 5 ∧ sp_pages w' !! 0xBFFFF = Some 7).
Proof.
  assert (Hp : holds (lit "SHELL") (str "SHELL")) by holds_lit.
  assert (Hr : ready space_demo programs_demo (ld_fs loader_demo) [] 10000)
    by (split; [split_and!; [done|by exists []|done|done|constructor|constructor]|done]).
  assert (Hroom : 2 * csize (ld_fs loader_demo) + 32 * eh_phnum header_demo + 1016 ≤ 10000) by (vm_compute; congruence).
  pose proof (elf_exec_spec 3 space_demo programs_demo [2] (lit "SHELL") (str "SHELL") _ header_demo [segment_demo] loader_demo 10000
    root_demo_directory Hp program_demo_file program_demo_executable ltac:(vm_compute; congruence) Hr Hroom) as Hw.
  unfold whalt in *. destruct (elf_exec 3 (lit "SHELL") loader_demo) as [| s' | |]; [done| |done|done].
  destruct Hw as (w' & Hu & Hl & _ & Hst & _). rewrite Hu. split; [done|]. split; [done|]. exists w'.
  apply Forall_cons in Hl as [Hl _]. destruct (Hl 1) as [Hb1 Hp1]; [vm_compute; by split|].
  destruct (Hl 7) as [Hb7 _]; [vm_compute; by split|].
  split; [exact Hb1|]. split; [exact Hb7|]. split; [exact Hp1|exact Hst].
Defined.

Lemma elf_exec_errors_witness :
  wp (elf_exec 3 (lit "TEST")) loader_demo (λ c s', c = -1 ∧ user_cpu s' = None).
Proof.
  assert (Hp : holds (lit "TEST") (str "TEST")) by holds_lit.
  assert (Hr : ready space_demo programs_demo (ld_fs loader_demo) [] 10000)
    by (split; [split_and!; [done|by exists []|done|done|constructor|constructor]|done]).
  eapply wp_mono; [refine (elf_exec_errors 3 space_demo programs_demo [2] (lit "TEST") (str "TEST") 0 loader_demo 10000
    root_demo_directory Hp (or_introl _) Hr _ _); [vm_compute; reflexivity|lia|vm_compute; congruence]|].
  intros c s' (Hc & Hu & _). split; [exact Hc|exact Hu].
Defined.
