(* ===== verification/Heap.v ===== *)
(** * Kernel heap (src/src/heap.c, src/src/heap.h)

    The block list of the kernel heap, its allocator and its release with
    coalescing.  Block headers are kept by address; a header that was merged
    away stays in memory, as in the code.  The heap grows through an
    interface, [PageProvider], that paging implements. *)

From S2P Require Import Prelude Pmm Paging.

(** ** What the heap asks of the rest of the kernel *)

Class PageProvider (E : Type) := {
  pp_alloc_page : M E Z;
  pp_map_page : Z → Z → Z → M E unit
}.

(** The promise: from a good state both calls return to a good state, and the
    allocator's answer is an address. *)
Class PageProviderOk (E : Type) `{PageProvider E} := {
  pp_inv : E → Prop;
  pp_alloc_ok e : pp_inv e → wp pp_alloc_page e (λ a e', pp_inv e' ∧ is_u32 a);
  pp_map_ok e va pa flags :
    pp_inv e → is_u32 va → is_u32 pa → 0 ≤ flags < 4096 →
    wp (pp_map_page va pa flags) e (λ _ e', pp_inv e')
}.

(** ** Data *)

Record heap_block := mkBlock {
  size : Z;
  is_free : Z;
  next : Z;
  prev : Z
}.

Definition BLOCK_HEADER_SIZE : Z := 16.

Definition MIN_BLOCK_SIZE : Z := BLOCK_HEADER_SIZE + 16.

(** Static variables of heap.c, the block headers in memory, and the words
    [kmalloc_aligned] writes. *)
Record heap := mkHeap {
  blocks : gmap Z heap_block;
  words : gmap Z Z;
  heap_start : Z;
  heap_end : Z;
  heap_size : Z;
  heap_used : Z;
  heap_virt_start : Z
}.

Definition set_blocks (m : gmap Z heap_block) (h : heap) : heap :=
  mkHeap m (words h) (heap_start h) (heap_end h) (heap_size h) (heap_used h)
    (heap_virt_start h).

Definition set_words (m : gmap Z Z) (h : heap) : heap :=
  mkHeap (blocks h) m (heap_start h) (heap_end h) (heap_size h) (heap_used h)
    (heap_virt_start h).

Definition set_heap_end (a : Z) (h : heap) : heap :=
  mkHeap (blocks h) (words h) (heap_start h) a (heap_size h) (heap_used h)
    (heap_virt_start h).

Definition set_heap_size (n : Z) (h : heap) : heap :=
  mkHeap (blocks h) (words h) (heap_start h) (heap_end h) n (heap_used h)
    (heap_virt_start h).

Definition set_heap_used (n : Z) (h : heap) : heap :=
  mkHeap (blocks h) (words h) (heap_start h) (heap_end h) (heap_size h) n
    (heap_virt_start h).

Definition with_size (n : Z) (b : heap_block) : heap_block :=
  mkBlock n (is_free b) (next b) (prev b).

Definition with_free (n : Z) (b : heap_block) : heap_block :=
  mkBlock (size b) n (next b) (prev b).

Definition with_next (n : Z) (b : heap_block) : heap_block :=
  mkBlock (size b) (is_free b) n (prev b).

Definition with_prev (n : Z) (b : heap_block) : heap_block :=
  mkBlock (size b) (is_free b) (next b) n.

(** ** Operations on the headers *)

(** [*p]; a pointer that is no block header has no defined value. *)
Definition block_at (p : Z) : M heap heap_block :=
  m ← gets blocks; expect (m !! p).

(** All four fields of a header written at [p]. *)
Definition new_header (p : Z) (b : heap_block) : M heap unit :=
  modify (λ h, set_blocks (<[p := b]> (blocks h)) h).

(** One field of the header at [p] written. *)
Definition set_field (p : Z) (f : heap_block → heap_block) : M heap unit :=
  b ← block_at p; new_header p (f b).

Definition heap_init (start size : Z) : M heap unit :=
  modify (λ h, mkHeap (<[start := mkBlock size 1 0 0]> (blocks h)) (words h)
    start start size BLOCK_HEADER_SIZE start).

Fixpoint find_loop (fuel : nat) (n current : Z) : M heap Z :=
  match fuel with
  | O => no_fuel
  | S fuel =>
      if current =? 0 then ret 0 else
      b ← block_at current;
      if truth (is_free b) && (n +w BLOCK_HEADER_SIZE <=? size b) then ret current
      else find_loop fuel n (next b)
  end.

(** The fuel is one more than the number of headers in memory. *)
Definition find_free_block (n : Z) : M heap Z :=
  m ← gets blocks;
  current ← gets heap_start;
  find_loop (S (base.size m)) n current.

Definition split_block (block n : Z) : M heap unit :=
  let total_needed := n +w BLOCK_HEADER_SIZE in
  b ← block_at block;
  when (total_needed +w MIN_BLOCK_SIZE <=? size b)
    (let new_block := block +w total_needed in
     new_header new_block (mkBlock (size b -w total_needed) 1 (next b) block);;
     b ← block_at block;
     when (truth (next b)) (set_field (next b) (with_prev new_block));;
     set_field block (with_size total_needed);;
     set_field block (with_next new_block);;
     e ← gets heap_end;
     when (block =? e) (modify (set_heap_end new_block))).

(** First half of [merge_free_blocks]: swallow the next block. *)
Definition merge_next (block : Z) : M heap unit :=
  b ← block_at block;
  if truth (next b) then
    c ← block_at (next b);
    when (truth (is_free c))
      (set_field block (with_size (size b +w size c));;
       set_field block (with_next (next c));;
       b ← block_at block;
       if truth (next b) then set_field (next b) (with_prev block)
       else modify (set_heap_end block))
  else skip.

(** Second half: be swallowed by the previous block. *)
Definition merge_prev (block : Z) : M heap unit :=
  b ← block_at block;
  if truth (prev b) then
    c ← block_at (prev b);
    when (truth (is_free c))
      (set_field (prev b) (with_size (size c +w size b));;
       set_field (prev b) (with_next (next b));;
       if truth (next b) then set_field (next b) (with_prev (prev b))
       else modify (set_heap_end (prev b)))
  else skip.

Definition merge_free_blocks (block : Z) : M heap unit :=
  merge_next block;; merge_prev block.

(** ** Allocation and release; [E] is the rest of the kernel *)

Section kmalloc.
Context {E : Type} `{PageProvider E}.

Definition in_heap {A} (m : M heap A) : M (heap * E) A :=
  zoom fst (λ h s, (h, s.2)) m.

Definition in_env {A} (m : M E A) : M (heap * E) A :=
  zoom snd (λ e s, (s.1, e)) m.

(** The branch of [kmalloc] that grows the heap by one page; [false] when there
    is no page. *)
Definition expand_heap : M (heap * E) bool :=
  phys ← in_env pp_alloc_page;
  if phys =? 0 then ret false else
  new_virt ← gets (λ s, heap_virt_start s.1 +w heap_size s.1);
  in_env (pp_map_page new_virt phys (Z.lor PAGE_PRESENT PAGE_WRITE));;
  in_heap (
    modify (λ h, set_heap_size (heap_size h +w PAGE_SIZE) h);;
    e ← gets heap_end;
    new_header new_virt (mkBlock PAGE_SIZE 1 0 e);;
    when (truth e) (set_field e (with_next new_virt));;
    modify (set_heap_end new_virt));;
  ret true.

(** [(size + 7) & ~7]. *)
Definition align8 (n : Z) : Z := Z.land (n +w 7) (not32 7).

(** The tail of [kmalloc]: take the block found. *)
Definition take_block (block n : Z) : M heap Z :=
  split_block block n;;
  set_field block (with_free 0);;
  b ← block_at block;
  modify (λ h, set_heap_used (heap_used h +w size b) h);;
  ret (block +w BLOCK_HEADER_SIZE).

Definition kmalloc (n : Z) : M (heap * E) Z :=
  if n =? 0 then ret 0 else
  let n := align8 n in
  block ← in_heap (find_free_block n);
  if block =? 0 then
    ok ← expand_heap;
    if negb ok then ret 0 else
    block ← in_heap (find_free_block n);
    if block =? 0 then ret 0 else in_heap (take_block block n)
  else in_heap (take_block block n).

Definition kmalloc_aligned (n alignment : Z) : M (heap * E) Z :=
  let total := n +w alignment -w 1 +w 4 in
  ptr ← kmalloc total;
  if ptr =? 0 then ret 0 else
  let addr := ptr +w 4 in
  let aligned := Z.land (addr +w alignment -w 1) (not32 (alignment -w 1)) in
  in_heap (modify (λ h, set_words (<[aligned -w 4 := ptr]> (words h)) h));;
  ret aligned.

End kmalloc.

Definition kfree (ptr : Z) : M heap unit :=
  if ptr =? 0 then skip else
  let block := ptr -w BLOCK_HEADER_SIZE in
  h ← gets id;
  if (block <? heap_start h) || (heap_start h +w heap_size h <=? block) then skip else
  b ← block_at block;
  if truth (is_free b) then skip else
  modify (λ h, set_heap_used (heap_used h -w size b) h);;
  set_field block (with_free 1);;
  merge_free_blocks block.

Definition heap_get_used : M heap Z := gets heap_used.

Definition heap_get_free : M heap Z := gets (λ h, heap_size h -w heap_used h).

(** ** Abstract view: the heap as a list of segments *)

Record seg := mkSeg { s_addr : Z; s_size : Z; s_free : bool }.

#[global] Instance seg_eq_dec : EqDecision seg.
Proof. solve_decision. Defined.

Definition hd_addr (bs : list seg) (nx : Z) : Z :=
  match bs with [] => nx | b :: _ => s_addr b end.

Fixpoint last_addr (pr : Z) (bs : list seg) : Z :=
  match bs with [] => pr | b :: bs => last_addr (s_addr b) bs end.

Definition addrs (bs : list seg) : list Z := s_addr <$> bs.

Definition seg_total (bs : list seg) : Z := foldr (λ b n, s_size b + n) 0 bs.

(** The headers of [bs] are in memory, linked both ways; [pr] comes before the
    first block and [nx] after the last. *)
Fixpoint lseg (m : gmap Z heap_block) (pr : Z) (bs : list seg) (nx : Z) : Prop :=
  match bs with
  | [] => True
  | b :: bs =>
      m !! s_addr b =
        Some (mkBlock (s_size b) (if s_free b then 1 else 0) (hd_addr bs nx) pr) ∧
      lseg m (s_addr b) bs nx
  end.

(** The blocks tile the addresses from [a] to [e]; sizes are multiples of 8 and
    have room for a header. *)
Fixpoint tiles (a : Z) (bs : list seg) (e : Z) : Prop :=
  match bs with
  | [] => a = e
  | b :: bs =>
      s_addr b = a ∧ BLOCK_HEADER_SIZE ≤ s_size b ∧ s_size b mod 8 = 0 ∧
      tiles (a + s_size b) bs e
  end.

Definition used_size (bs : list seg) : Z :=
  foldr (λ b n, if s_free b then n else s_size b + n) 0 bs.

(** The headers in memory describe the segments [bs], which tile the heap. *)
Record heap_shape (h : heap) (bs : list seg) : Prop := mkHeapShape {
  hs_nonempty : bs ≠ [];
  hs_virt : heap_virt_start h = heap_start h;
  hs_start : 32 ≤ heap_start h ∧ heap_start h mod 8 = 0;
  hs_top : heap_start h + heap_size h < 4294967296;
  hs_tiles : tiles (heap_start h) bs (heap_start h + heap_size h);
  hs_links : lseg (blocks h) 0 bs 0;
  hs_end : heap_end h = last_addr 0 bs
}.

(** ... and the counter counts the used ones, and one header more. *)
Definition heap_inv (h : heap) (bs : list seg) : Prop :=
  heap_shape h bs ∧ heap_used h = BLOCK_HEADER_SIZE + used_size bs.

(** First fit with splitting. *)
Definition fits (n : Z) (b : seg) : bool :=
  s_free b && (n + BLOCK_HEADER_SIZE <=? s_size b).

Definition carve (n : Z) (b : seg) : list seg :=
  let t := n + BLOCK_HEADER_SIZE in
  if t + MIN_BLOCK_SIZE <=? s_size b
  then [mkSeg (s_addr b) t false; mkSeg (s_addr b + t) (s_size b - t) true]
  else [mkSeg (s_addr b) (s_size b) false].

Fixpoint alloc_list (n : Z) (bs : list seg) : option (Z * list seg) :=
  match bs with
  | [] => None
  | b :: bs =>
      if fits n b then Some (s_addr b, carve n b ++ bs)
      else (λ '(a, l), (a, b :: l)) <$> alloc_list n bs
  end.

(** Release with coalescing, on the blocks before (nearest first), the block,
    and the blocks after. *)
Definition join_next (b : seg) (r : list seg) : seg * list seg :=
  match r with
  | c :: r' => if s_free c then (mkSeg (s_addr b) (s_size b + s_size c) (s_free b), r')
               else (b, r)
  | [] => (b, r)
  end.

Definition join_prev (l : list seg) (b : seg) : list seg :=
  match last l with
  | Some c => if s_free c
              then removelast l ++ [mkSeg (s_addr c) (s_size c + s_size b) true]
              else l ++ [b]
  | None => [b]
  end.

Definition free_at (l : list seg) (b : seg) (r : list seg) : list seg :=
  let '(b', r') := join_next (mkSeg (s_addr b) (s_size b) true) r in
  join_prev l b' ++ r'.

(** What [kmalloc] answers for a request of [n] bytes (already aligned) when the
    segments are [bs]. *)
Definition alloc_answer (n : Z) (bs : list seg) (p : Z) (h' : heap) : Prop :=
  match alloc_list n bs with
  | Some (a, bs') => p = a + BLOCK_HEADER_SIZE ∧ heap_inv h' bs'
  | None => p = 0 ∧ heap_inv h' bs
  end.

(** No two neighbours are both free. *)
Fixpoint coalesced (bs : list seg) : bool :=
  match bs with
  | b :: (c :: _) as bs' => negb (s_free b && s_free c) && coalesced bs'
  | _ => true
  end.

Definition free_size (bs : list seg) : Z := seg_total bs - used_size bs.

(** Paging and the page allocator provide the pages of the kernel heap. *)
#[global] Instance vm_page_provider : PageProvider vm := {|
  pp_alloc_page := in_pmm pmm_alloc_page;
  pp_map_page := paging_map_page
|}.

(** The calls of the heap's clients: any request size [kmalloc] handles while the
    address space has room, and releases of blocks of the list. *)
Inductive heap_step {E} `{PageProvider E} : heap * E → heap * E → Prop :=
| step_kmalloc n p s s' :
    0 ≤ n ≤ 4294967272 → heap_start s.1 + heap_size s.1 + 4096 < 4294967296 →
    kmalloc n s = Ret p s' → heap_step s s'
| step_kfree h e h' bs b :
    heap_inv h bs → b ∈ bs → kfree (s_addr b + BLOCK_HEADER_SIZE) h = Ret tt h' →
    heap_step (h, e) (h', e).

(** A heap of one page as [heap_init] leaves it. *)
Definition heap_demo : heap :=
  mkHeap {[ 0x400000 := mkBlock 4096 1 0 0 ]} ∅ 0x400000 0x400000 4096 16 0x400000.

(** ... and after a [kmalloc(100)]. *)
Definition heap_demo1 : heap :=
  mkHeap {[ 0x400000 := mkBlock 120 0 0x400078 0; 0x400078 := mkBlock 3976 1 0 0x400000 ]} ∅
    0x400000 0x400078 4096 136 0x400000.

(** ** Lemmas on segments *)

Lemma hd_addr_app l r nx : hd_addr (l ++ r) nx = hd_addr l (hd_addr r nx).
Proof. by destruct l. Qed.

Lemma last_addr_app pr l r : last_addr pr (l ++ r) = last_addr (last_addr pr l) r.
Proof. revert pr. induction l as [|b l IH]; intros pr; [done|apply IH]. Qed.

Lemma last_addr_in pr l : l ≠ [] → last_addr pr l ∈ addrs l.
Proof.
  revert pr. induction l as [|b [|c l] IH]; intros pr Hne; [done|by left|].
  right. by apply (IH (s_addr b)).
Qed.

Lemma lseg_app m pr l r nx :
  lseg m pr (l ++ r) nx ↔ lseg m pr l (hd_addr r nx) ∧ lseg m (last_addr pr l) r nx.
Proof.
  revert pr. induction l as [|b l IH]; intros pr; cbn; [tauto|].
  rewrite IH, hd_addr_app. tauto.
Qed.

Lemma lseg_agree m m' pr l nx :
  (∀ a, a ∈ addrs l → m' !! a = m !! a) → lseg m pr l nx → lseg m' pr l nx.
Proof.
  revert pr. induction l as [|b l IH]; intros pr Ha; cbn; [done|].
  intros [Hb Hl]. split; [rewrite Ha by (by left); done|].
  apply IH; [|done]. intros a Hin. apply Ha. by right.
Qed.

(** The headers of the middle part are rewritten; before it nothing changes, and
    after it only the back link of the first block. *)
Lemma lseg_replace m m' l mid mid' r :
  lseg m 0 (l ++ mid ++ r) 0 → hd_addr (mid' ++ r) 0 = hd_addr (mid ++ r) 0 →
  (∀ a, a ∈ addrs l → m' !! a = m !! a) →
  lseg m' (last_addr 0 l) mid' (hd_addr r 0) →
  match r with
  | [] => True
  | c :: r' => m' !! s_addr c = with_prev (last_addr (last_addr 0 l) mid') <$> m !! s_addr c ∧
               ∀ a, a ∈ addrs r' → m' !! a = m !! a
  end →
  lseg m' 0 (l ++ mid' ++ r) 0.
Proof.
  rewrite !lseg_app. intros (Hl & Hmid & Hr) Hhd Hlm Hmid' Hrm.
  rewrite Hhd. split; [by apply lseg_agree with m|]. split; [done|].
  destruct r as [|c r']; [done|]. destruct Hrm as [Hc Hr'], Hr as [Hc0 Hr].
  cbn. split; [by rewrite Hc, Hc0|]. by apply lseg_agree with m.
Qed.

Lemma tiles_app a l r e :
  tiles a (l ++ r) e ↔ tiles a l (a + seg_total l) ∧ tiles (a + seg_total l) r e.
Proof.
  revert a. induction l as [|b l IH]; intros a; cbn; [rewrite Z.add_0_r; tauto|].
  rewrite IH. replace (a + s_size b + seg_total l) with (a + (s_size b + seg_total l)) by lia.
  tauto.
Qed.

Lemma tiles_total a bs e : tiles a bs e → e = a + seg_total bs.
Proof.
  revert a. induction bs as [|b bs IH]; intros a; cbn; [lia|]. fold (seg_total bs).
  intros (_ & _ & _ & Ht). apply IH in Ht. lia.
Qed.

Lemma tiles_bounds a bs e :
  tiles a bs e →
  a ≤ e ∧ ∀ b, b ∈ bs → a ≤ s_addr b ∧ s_addr b + s_size b ≤ e ∧ 16 ≤ s_size b.
Proof.
  revert a. induction bs as [|b bs IH]; intros a; cbn.
  - intros ->. split; [lia|]. set_solver.
  - intros (<- & Hsz & _ & Ht). destruct (IH _ Ht) as [Hle Hb].
    unfold BLOCK_HEADER_SIZE in Hsz. split; [lia|].
    intros c [->|Hc]%elem_of_cons; [lia|]. specialize (Hb c Hc). lia.
Qed.

Lemma tiles_addr a bs e x : tiles a bs e → x ∈ addrs bs → a ≤ x < e.
Proof.
  intros Ht (b & -> & Hb)%list_elem_of_fmap.
  apply tiles_bounds in Ht as [_ Ht]. specialize (Ht b Hb). lia.
Qed.

Lemma tiles_NoDup a bs e : tiles a bs e → NoDup (addrs bs).
Proof.
  revert a. induction bs as [|b bs IH]; intros a; [constructor|].
  cbn. intros (<- & Hsz & _ & Ht). constructor; [|by eapply IH].
  intros Hin. pose proof (tiles_addr _ _ _ _ Ht Hin). unfold BLOCK_HEADER_SIZE in *. lia.
Qed.

Lemma lseg_lookup m pr l nx a : lseg m pr l nx → a ∈ addrs l → is_Some (m !! a).
Proof.
  revert pr. induction l as [|b l IH]; intros pr; cbn; [set_solver|].
  intros [Hb Hl] [->|Hin]%elem_of_cons; [by rewrite Hb|by eapply IH].
Qed.

(** There are at least as many headers in memory as blocks in the list, so the
    fuel of [find_free_block] is enough. *)
Lemma lseg_length m pr l nx : NoDup (addrs l) → lseg m pr l nx → (length l ≤ base.size m)%nat.
Proof.
  intros Hnd Hl. rewrite <- (size_dom (D:=gset Z)), <- (length_fmap s_addr).
  change (s_addr <$> l) with (addrs l).
  rewrite <- (size_list_to_set (C:=gset Z)) by done.
  apply subseteq_size. intros a Ha. apply elem_of_list_to_set in Ha.
  apply elem_of_dom. by eapply lseg_lookup.
Qed.

(** ** Lemmas on the operations *)

Lemma wp_block_at p b h (Q : heap_block → heap → Prop) :
  blocks h !! p = Some b → Q b h → wp (block_at p) h Q.
Proof. intros Hb HQ. unfold block_at. wp_steps. by eapply wp_expect. Qed.

Lemma wp_new_header p b h (Q : unit → heap → Prop) :
  Q tt (set_blocks (<[p := b]> (blocks h)) h) → wp (new_header p b) h Q.
Proof. done. Qed.

Lemma wp_set_field p f b h (Q : unit → heap → Prop) :
  blocks h !! p = Some b → Q tt (set_blocks (<[p := f b]> (blocks h)) h) →
  wp (set_field p f) h Q.
Proof. intros Hb HQ. unfold set_field. wp_steps. by eapply wp_block_at. Qed.

Lemma alloc_list_split n bs :
  match alloc_list n bs with
  | Some (a, bs') => ∃ l b r, bs = l ++ b :: r ∧ fits n b = true ∧ a = s_addr b ∧
                       bs' = l ++ carve n b ++ r
  | None => ∀ b, b ∈ bs → fits n b = false
  end.
Proof.
  induction bs as [|b bs IH]; cbn; [set_solver|].
  destruct (fits n b) eqn:Hf; [by exists [], b, bs|].
  destruct (alloc_list n bs) as [[a bs']|]; cbn.
  - destruct IH as (l & c & r & -> & Hc & -> & ->). by exists (b :: l), c, r.
  - intros c [->|Hc]%elem_of_cons; auto.
Qed.

Lemma wp_find_loop fuel n h pr bs (Q : Z → heap → Prop) :
  (length bs < fuel)%nat → 0 ≤ n < 4294967280 → lseg (blocks h) pr bs 0 →
  (∀ a, a ∈ addrs bs → a ≠ 0) →
  Q (match alloc_list n bs with Some (a, _) => a | None => 0 end) h →
  wp (find_loop fuel n (hd_addr bs 0)) h Q.
Proof.
  intros Hfuel Hn. revert fuel pr Hfuel.
  induction bs as [|b bs IH]; intros [|fuel] pr Hfuel Hl Hnz HQ; cbn in Hfuel; [lia| |lia|].
  - by apply wp_ret.
  - cbn [hd_addr find_loop]. destruct Hl as [Hb Hl].
    destruct (Z.eqb_spec (s_addr b) 0) as [E|_]; [by destruct (Hnz (s_addr b)); [left|]|].
    apply wp_bind. eapply wp_block_at; [exact Hb|]. cbn [is_free Heap.size next].
    cbn [alloc_list] in HQ. unfold fits in HQ.
    rewrite w32_small by (unfold is_u32, BLOCK_HEADER_SIZE; lia).
    assert (truth (if s_free b then 1 else 0) = s_free b) as -> by by destruct (s_free b).
    destruct (s_free b && (n + BLOCK_HEADER_SIZE <=? s_size b)); [by apply wp_ret|].
    apply (IH fuel (s_addr b)); [lia|done| |].
    + intros a Ha. apply Hnz. by right.
    + by destruct (alloc_list n bs) as [[]|].
Qed.

Lemma shape_addr h bs a : heap_shape h bs → a ∈ addrs bs → 32 ≤ a < heap_start h + heap_size h.
Proof.
  intros [? ? Hs ? Ht ? ?] Ha. pose proof (tiles_addr _ _ _ _ Ht Ha). lia.
Qed.

Lemma wp_find_free_block n h bs (Q : Z → heap → Prop) :
  heap_shape h bs → 0 ≤ n < 4294967280 →
  Q (match alloc_list n bs with Some (a, _) => a | None => 0 end) h →
  wp (find_free_block n) h Q.
Proof.
  intros Hs Hn HQ. unfold find_free_block. wp_steps.
  replace (heap_start h) with (hd_addr bs 0).
  2:{ destruct Hs as [Hne ? ? ? Ht ? ?]. by destruct bs; [|destruct Ht]. }
  apply wp_find_loop with 0; [|done|apply Hs| |done].
  - pose proof (lseg_length (blocks h) 0 bs 0 (tiles_NoDup _ _ _ (hs_tiles _ _ Hs)) (hs_links _ _ Hs)). lia.
  - intros a Ha. pose proof (shape_addr _ _ _ Hs Ha). lia.
Qed.

(** Everything known at one block of the list. *)
Lemma shape_at h l b r :
  heap_shape h (l ++ b :: r) →
  blocks h !! s_addr b =
    Some (mkBlock (s_size b) (if s_free b then 1 else 0) (hd_addr r 0) (last_addr 0 l)) ∧
  (∀ a, a ∈ addrs l → 32 ≤ a < s_addr b) ∧
  (∀ a, a ∈ addrs r → s_addr b + s_size b ≤ a) ∧
  32 ≤ s_addr b ∧ s_addr b mod 8 = 0 ∧ 16 ≤ s_size b ∧ s_size b mod 8 = 0 ∧
  s_addr b + s_size b ≤ heap_start h + heap_size h < 4294967296.
Proof.
  intros [_ _ [Hs Hs8] Htop Ht Hl _]. apply lseg_app in Hl as [_ [Hb _]].
  split; [done|]. clear Hb.
  assert (Hm : seg_total l mod 8 = 0).
  { apply tiles_app in Ht as [Ht _]. revert Ht. generalize (heap_start h + seg_total l).
    generalize (heap_start h). clear. induction l as [|b l IH]; intros a e; [done|].
    cbn. fold (seg_total l). intros (_ & _ & H8 & Ht). specialize (IH _ _ Ht). mlia. }
  apply tiles_app in Ht as [Hl (Hb & Hsz & H8 & Hr)]. unfold BLOCK_HEADER_SIZE in Hsz.
  pose proof (tiles_bounds _ _ _ Hr) as [Htop' _].
  assert (0 ≤ seg_total l) by (destruct (tiles_bounds _ _ _ Hl); lia).
  split_and!; try lia; [| |mlia].
  - intros a Ha. pose proof (tiles_addr _ _ _ _ Hl Ha). lia.
  - intros a Ha. pose proof (tiles_addr _ _ _ _ Hr Ha). lia.
Qed.

Lemma shape_replace h h' l mid mid' r :
  heap_shape h (l ++ mid ++ r) → mid ≠ [] → mid' ≠ [] →
  (∀ a e, tiles a mid e → tiles a mid' e) →
  heap_start h' = heap_start h → heap_size h' = heap_size h →
  heap_virt_start h' = heap_virt_start h → heap_end h' = last_addr (last_addr 0 mid') r →
  (∀ a, a ∈ addrs l → blocks h' !! a = blocks h !! a) →
  lseg (blocks h') (last_addr 0 l) mid' (hd_addr r 0) →
  match r with
  | [] => True
  | c :: r' =>
      blocks h' !! s_addr c = with_prev (last_addr (last_addr 0 l) mid') <$> blocks h !! s_addr c ∧
      ∀ a, a ∈ addrs r' → blocks h' !! a = blocks h !! a
  end →
  heap_shape h' (l ++ mid' ++ r).
Proof.
  intros [? ? ? ? Ht Hl ?] Hm Hm' Htm E1 E2 E3 E4 Hbl Hmid Hr.
  assert (Ht' : tiles (heap_start h) (l ++ mid' ++ r) (heap_start h + heap_size h)).
  { revert Ht. rewrite !tiles_app. intros (Htl & Htmid & Htr). pose proof (Htm _ _ Htmid) as Htm'.
    assert (seg_total mid' = seg_total mid) as -> by (apply tiles_total in Htm'; lia).
    done. }
  split; rewrite ?E1, ?E2, ?E3; try done.
  - by destruct l, mid'.
  - eapply lseg_replace; [exact Hl| |done|done|done].
    rewrite !hd_addr_app. destruct mid as [|b mid], mid' as [|b' mid']; [done..|]. cbn.
    revert Ht Ht'. rewrite !tiles_app. intros (_ & (-> & _) & _) (_ & (-> & _) & _). done.
  - rewrite E4, !last_addr_app. by destruct mid'.
Qed.

(** The block after next, when there is one. *)
Lemma shape_next h l b c r :
  heap_shape h (l ++ b :: c :: r) → heap_shape h ((l ++ [b]) ++ c :: r).
Proof. by rewrite <- app_assoc. Qed.

Ltac sizes := change MIN_BLOCK_SIZE with 32 in *; change BLOCK_HEADER_SIZE with 16 in *.

(** Lookups in a chain of header writes; [ne] shows addresses apart. *)
Ltac blk ne :=
  cbn [blocks set_blocks set_heap_end set_heap_used fmap option_fmap option_map
       Heap.size is_free next prev with_size with_free with_next with_prev];
  repeat first [rewrite lookup_insert_eq | rewrite lookup_insert_ne by ne].

(** Splitting a block. *)
Lemma wp_split_block n h l b r (Q : unit → heap → Prop) :
  heap_shape h (l ++ b :: r) → 0 ≤ n → n mod 8 = 0 → n + BLOCK_HEADER_SIZE ≤ s_size b →
  (∀ h', heap_shape h' (l ++ (if n + BLOCK_HEADER_SIZE + MIN_BLOCK_SIZE <=? s_size b
            then [mkSeg (s_addr b) (n + 16) (s_free b); mkSeg (s_addr b + (n + 16)) (s_size b - (n + 16)) true]
            else [b]) ++ r) →
     heap_used h' = heap_used h → Q tt h') →
  wp (split_block (s_addr b) n) h Q.
Proof.
  intros Hs Hn0 Hn8 Hfit HQ.
  destruct (shape_at _ _ _ _ Hs) as (Hb & Hl & Hr & Ha & Ha8 & Hsz & Hsz8 & Htop).
  unfold split_block. sizes. rewrite (w32_small (n + 16)) by (unfold is_u32; lia). wp_step.
  eapply wp_block_at; [exact Hb|]. cbn [Heap.size next is_free prev].
  rewrite (w32_small (n + 16 + 32)), (w32_small (s_addr b + (n + 16))) by (unfold is_u32; lia).
  wp_step; match goal with H : _ = _ |- _ => rewrite H in HQ; revert H end; intros Hfits;
    [|by apply HQ].
  rewrite (w32_small (s_size b - (n + 16))) by (unfold is_u32; lia).
  wp_step. apply wp_new_header. wp_step.
  eapply wp_block_at; [blk ltac:(lia); exact Hb|]. cbn [next].
  wp_step.
  assert (Hend : heap_end h = last_addr (s_addr b) r)
    by (rewrite (hs_end _ _ Hs), last_addr_app; done).
  destruct r as [|c r].
  - wp_step; [done|]. do 2 (wp_step; eapply wp_set_field; [blk ltac:(lia); done|]).
    do 2 wp_step. cbn in Hend. cbn [heap_end set_blocks]. rewrite Hend, Z.eqb_refl.
    wp_step; [|done]. wp_step.
    apply HQ; [|done]. eapply (shape_replace h _ l [b]); try done.
    + cbn. intros a e (-> & _ & _ & <-). sizes. split_and!; try lia; mlia.
    + intros a Hin. specialize (Hl a Hin). blk ltac:(lia). done.
    + cbn. split_and!; [| |done]; blk ltac:(lia); done.
  - destruct (shape_at _ _ _ _ (shape_next _ _ _ _ _ Hs)) as (Hc & _ & Hr' & _ & _ & ? & _).
    specialize (Hr (s_addr c) ltac:(by left)). rewrite last_addr_app in Hc. cbn in Hc, Hend |- *.
    wp_step; [|match goal with H : truth _ = false |- _ => apply truth_false in H end; lia].
    eapply wp_set_field; [blk ltac:(lia); exact Hc|].
    do 2 (wp_step; eapply wp_set_field; [blk ltac:(lia); done|]).
    do 2 wp_step. cbn [heap_end set_blocks]. rewrite Hend.
    assert (s_addr b ≠ last_addr (s_addr c) r).
    { destruct (decide (r = [])) as [->|Hne]; [cbn; lia|].
      pose proof (Hr' _ (last_addr_in (s_addr c) r Hne)). lia. }
    destruct (Z.eqb_spec (s_addr b) (last_addr (s_addr c) r)) as [|_]; [done|].
    wp_step; [done|]. apply HQ; [|done]. eapply (shape_replace h _ l [b]); try done.
    + cbn. intros a e (-> & _ & _ & <-). sizes. split_and!; try lia; mlia.
    + intros a Hin. specialize (Hl a Hin). blk ltac:(lia). done.
    + cbn. split_and!; [| |done]; blk ltac:(lia); done.
    + cbn. blk ltac:(lia). rewrite Hc. split; [done|].
      intros a Hin. specialize (Hr' a Hin). blk ltac:(lia). done.
Qed.

Lemma truth_flag (f : bool) : truth (if f then 1 else 0) = f.
Proof. by destruct f. Qed.

(** Dropping the header of [c] from [b; c]: [b] keeps its address and takes both
    sizes; the block after, or [heap_end], points back to [b]. *)
Lemma shape_join h h' l b c r :
  heap_shape h (l ++ [b; c] ++ r) →
  heap_start h' = heap_start h → heap_size h' = heap_size h →
  heap_virt_start h' = heap_virt_start h → heap_end h' = last_addr (s_addr b) r →
  blocks h' =
    (let m := <[s_addr b := mkBlock (s_size b + s_size c) (if s_free b then 1 else 0)
                  (hd_addr r 0) (last_addr 0 l)]> (blocks h) in
     match r with
     | [] => m
     | d :: _ => <[s_addr d := mkBlock (s_size d) (if s_free d then 1 else 0)
                     (hd_addr (tail r) 0) (s_addr b)]> m
     end) →
  heap_shape h' (l ++ mkSeg (s_addr b) (s_size b + s_size c) (s_free b) :: r).
Proof.
  intros Hs E1 E2 E3 E4 Em.
  destruct (shape_at _ _ _ _ Hs) as (_ & Hl & Hr & Ha & _ & Hsz & _ & Htop).
  destruct (shape_at _ _ _ _ (shape_next _ _ _ _ _ Hs)) as (_ & _ & Hr' & Ha' & _ & Hsz' & _ & Htop').
  specialize (Hr (s_addr c) ltac:(by left)).
  refine (shape_replace h h' l [b; c] [_] r Hs _ _ _ E1 E2 E3 _ _ _ _); [done|done| |done|..]; rewrite ?Em.
  - cbn. intros a e (? & ? & ? & ? & ? & ? & ?). sizes. split_and!; try lia; mlia.
  - intros a Hin. specialize (Hl a Hin).
    destruct r as [|d r]; [|specialize (Hr' (s_addr d) ltac:(by left))]; blk ltac:(lia); done.
  - cbn. split; [|done].
    destruct r as [|d r]; [|specialize (Hr' (s_addr d) ltac:(by left))]; blk ltac:(lia); done.
  - destruct r as [|d r]; [done|].
    assert (Hs' : heap_shape h ((l ++ [b; c]) ++ d :: r)) by by rewrite <- app_assoc.
    destruct (shape_at _ _ _ _ Hs') as (Hd & _ & Hr'' & _ & _ & ? & _).
    specialize (Hr' (s_addr d) ltac:(by left)). rewrite Hd. cbn. blk ltac:(lia). split; [done|].
    intros a Hin. specialize (Hr'' a Hin). blk ltac:(lia). done.
Qed.

Lemma wp_merge_next h l b r (Q : unit → heap → Prop) :
  heap_shape h (l ++ b :: r) →
  (∀ h', heap_shape h' (l ++ (join_next b r).1 :: (join_next b r).2) →
     heap_used h' = heap_used h → Q tt h') →
  wp (merge_next (s_addr b)) h Q.
Proof.
  intros Hs HQ. destruct (shape_at _ _ _ _ Hs) as (Hb & _ & Hr & Hb0 & _ & Hbs & _ & Htop).
  unfold merge_next. wp_step. eapply wp_block_at; [exact Hb|]. cbn [next].
  destruct r as [|c r]; cbn [hd_addr]; [by apply HQ|].
  destruct (shape_at _ _ _ _ (shape_next _ _ _ _ _ Hs)) as (Hc & _ & Hr' & Hc0 & _ & Hcs & _ & Htop').
  specialize (Hr (s_addr c) ltac:(by left)).
  wp_step; [|match goal with H : truth _ = false |- _ => apply truth_false in H end; lia].
  wp_step. eapply wp_block_at; [exact Hc|]. cbn [is_free Heap.size]. rewrite truth_flag.
  cbn [join_next] in HQ. destruct (s_free c) eqn:Hf; [|by apply HQ].
  rewrite w32_small by (unfold is_u32; lia). cbn [when fst snd] in *.
  wp_step. eapply wp_set_field; [exact Hb|].
  wp_step. eapply wp_set_field; [blk ltac:(lia); done|].
  wp_step. eapply wp_block_at; [blk ltac:(lia); done|]. blk ltac:(lia). rewrite insert_insert_eq.
  destruct r as [|d r]; cbn [hd_addr].
  - cbn. apply HQ; [|done]. by eapply (shape_join h).
  - specialize (Hr' (s_addr d) ltac:(by left)).
    assert (Hs' : heap_shape h ((l ++ [b; c]) ++ d :: r)) by by rewrite <- app_assoc.
    destruct (shape_at _ _ _ _ Hs') as (Hd & _).
    wp_step; [|match goal with H : truth _ = false |- _ => apply truth_false in H end; lia].
    eapply wp_set_field; [blk ltac:(lia); exact Hd|]. apply HQ; [|done].
    eapply (shape_join h); try done. cbn. by rewrite (hs_end _ _ Hs), last_addr_app.
Qed.

Lemma join_prev_snoc l c b :
  join_prev (l ++ [c]) b =
    if s_free c then l ++ [mkSeg (s_addr c) (s_size c + s_size b) true] else (l ++ [c]) ++ [b].
Proof. unfold join_prev. rewrite last_snoc. by rewrite removelast_last. Qed.

Lemma wp_merge_prev h l b r (Q : unit → heap → Prop) :
  heap_shape h (l ++ b :: r) →
  (∀ h', heap_shape h' (join_prev l b ++ r) → heap_used h' = heap_used h → Q tt h') →
  wp (merge_prev (s_addr b)) h Q.
Proof.
  intros Hs HQ. destruct (shape_at _ _ _ _ Hs) as (Hb & Hl & Hr & Hb0 & _ & Hbs & _ & Htop).
  unfold merge_prev. wp_step. eapply wp_block_at; [exact Hb|]. cbn [prev next Heap.size].
  destruct l as [|c l _] using rev_ind; [by apply HQ|].
  rewrite last_addr_app. cbn [last_addr]. rewrite join_prev_snoc in HQ.
  assert (Hs' : heap_shape h (l ++ c :: b :: r)) by (by rewrite <- app_assoc in Hs).
  destruct (shape_at _ _ _ _ Hs') as (Hc & _ & _ & Hc0 & _ & Hcs & _ & Htop').
  specialize (Hl (s_addr c) ltac:(apply list_elem_of_fmap; exists c; set_solver)).
  wp_step; [|match goal with H : truth _ = false |- _ => apply truth_false in H end; lia].
  wp_step. eapply wp_block_at; [exact Hc|]. cbn [is_free Heap.size]. rewrite truth_flag.
  destruct (s_free c) eqn:Hf; [|by rewrite <- app_assoc in HQ; apply HQ].
  assert (s_size c + s_size b < 4294967296).
  { destruct (shape_at _ _ _ _ Hs') as (_ & _ & Hcb & _).
    specialize (Hcb (s_addr b) ltac:(by left)). lia. }
  rewrite w32_small by (unfold is_u32; lia). cbn [when].
  wp_step. eapply wp_set_field; [exact Hc|].
  wp_step. eapply wp_set_field; [blk ltac:(lia); done|].
  blk ltac:(lia). rewrite insert_insert_eq. rewrite <- app_assoc in HQ. cbn [app] in HQ.
  destruct r as [|d r]; cbn [hd_addr].
  - cbn. apply HQ; [|done]. rewrite <- Hf. eapply (shape_join h); try done. cbn. by rewrite Hf.
  - specialize (Hr (s_addr d) ltac:(by left)).
    destruct (shape_at _ _ _ _ (shape_next _ _ _ _ _ Hs)) as (Hd & _).
    wp_step; [|match goal with H : truth _ = false |- _ => apply truth_false in H end; lia].
    eapply wp_set_field; [blk ltac:(lia); exact Hd|]. apply HQ; [|done]. rewrite <- Hf.
    eapply (shape_join h); try done. { cbn. by rewrite (hs_end _ _ Hs), last_addr_app. }
    cbn. by rewrite Hf.
Qed.

(** Writing the flag of a block. *)
Lemma shape_flag h l b r (f : bool) u :
  heap_shape h (l ++ b :: r) →
  heap_shape (set_heap_used u (set_blocks (<[s_addr b := mkBlock (s_size b) (if f then 1 else 0)
      (hd_addr r 0) (last_addr 0 l)]> (blocks h)) h)) (l ++ mkSeg (s_addr b) (s_size b) f :: r).
Proof.
  intros Hs. destruct (shape_at _ _ _ _ Hs) as (Hb & Hl & Hr & Hb0 & _ & Hbs & _ & _).
  refine (shape_replace h _ l [b] [_] r Hs _ _ _ _ _ _ _ _ _ _); try done.
  - cbn. by rewrite (hs_end _ _ Hs), last_addr_app.
  - intros a Hin. specialize (Hl a Hin). blk ltac:(lia). done.
  - cbn. split; [|done]. blk ltac:(lia). done.
  - destruct r as [|c r]; [done|]. pose proof (Hr (s_addr c) ltac:(by left)).
    destruct (shape_at _ _ _ _ (shape_next _ _ _ _ _ Hs)) as (Hc & _ & Hr' & _ & _ & ? & _).
    cbn. blk ltac:(lia). rewrite Hc, last_addr_app. split; [done|].
    intros a Hin. specialize (Hr' a Hin). blk ltac:(lia). done.
Qed.

Lemma used_nil : used_size [] = 0.
Proof. done. Qed.

Lemma used_cons b r : used_size (b :: r) = (if s_free b then 0 else s_size b) + used_size r.
Proof. cbn. destruct (s_free b); done. Qed.

#[local] Arguments used_size : simpl never.

Lemma used_size_app l r : used_size (l ++ r) = used_size l + used_size r.
Proof. induction l as [|b l IH]; [done|]. cbn [app]. rewrite !used_cons, IH. lia. Qed.

Lemma used_size_bounds a bs e : tiles a bs e → 0 ≤ used_size bs ≤ e - a.
Proof.
  revert a. induction bs as [|b bs IH]; intros a; [unfold used_size; cbn; lia|].
  intros (_ & ? & _ & Ht). rewrite used_cons. sizes. specialize (IH _ Ht). destruct (s_free b); lia.
Qed.

Lemma inv_used_bounds h bs :
  heap_inv h bs → used_size bs ≤ heap_size h ∧ 0 ≤ used_size bs ∧ heap_size h < 4294967264.
Proof.
  intros [[? ? ? ? Ht ? ?] _]. apply used_size_bounds in Ht. lia.
Qed.

Lemma free_used l b r :
  s_free b = false → used_size (free_at l b r) = used_size (l ++ b :: r) - s_size b.
Proof.
  intros Hb. unfold free_at.
  assert (Hr : used_size (join_next (mkSeg (s_addr b) (s_size b) true) r).2 = used_size r ∧
    s_free (join_next (mkSeg (s_addr b) (s_size b) true) r).1 = true).
  { destruct r as [|c r]; [done|]. cbn. destruct (s_free c) eqn:Hc; cbn; by rewrite ?used_cons, ?Hc. }
  destruct (join_next _ r) as [b' r']. cbn in Hr. destruct Hr as [Hr Hb'].
  rewrite !used_size_app, used_cons, Hb, Hr.
  enough (used_size (join_prev l b') = used_size l) by lia.
  destruct l as [|c l _] using rev_ind; [cbn; by rewrite used_cons, Hb'|].
  rewrite join_prev_snoc. destruct (s_free c) eqn:Hc; rewrite ?used_size_app, !used_cons, ?used_nil; cbn;
    rewrite ?Hc, ?Hb'; lia.
Qed.

Lemma wp_kfree_live h l b r (Q : unit → heap → Prop) :
  heap_inv h (l ++ b :: r) → s_free b = false →
  (∀ h', heap_inv h' (free_at l b r) → Q tt h') →
  wp (kfree (s_addr b + BLOCK_HEADER_SIZE)) h Q.
Proof.
  intros [Hs Hu] Hf HQ. pose proof (inv_used_bounds h _ (conj Hs Hu)) as Hub.
  destruct (shape_at _ _ _ _ Hs) as (Hb & _ & _ & Hb0 & _ & Hbs & _ & Htop).
  pose proof (hs_tiles _ _ Hs) as Ht. apply tiles_app in Ht as [Htl (Hba & _)].
  pose proof (tiles_bounds _ _ _ Htl) as [Hlow _]. pose proof (free_used l b r Hf) as Hfu.
  assert (s_size b ≤ used_size (l ++ b :: r)).
  { rewrite used_size_app, used_cons, Hf.
    pose proof (hs_tiles _ _ Hs) as Ht. apply tiles_app in Ht as [H1 (_ & _ & _ & H2)].
    apply used_size_bounds in H1, H2. lia. }
  unfold kfree. sizes. destruct (Z.eqb_spec (s_addr b + 16) 0) as [|_]; [lia|].
  replace (s_addr b + 16 - 16) with (s_addr b) by lia. rewrite w32_small by (unfold is_u32; lia).
  do 2 wp_step. cbn [id]. rewrite w32_small by (destruct (hs_start _ _ Hs); unfold is_u32; lia).
  wp_step; [exfalso; lia|]. wp_step. eapply wp_block_at; [exact Hb|]. cbn [is_free Heap.size].
  rewrite Hf. cbn [truth Z.eqb negb]. wp_step. wp_step.
  wp_step. eapply wp_set_field; [exact Hb|].
  unfold merge_free_blocks. wp_step.
  apply (wp_merge_next _ l (mkSeg (s_addr b) (s_size b) true) r).
  { apply (shape_flag h l b r true (heap_used h -w s_size b)); [done]. }
  intros h1 Hs1 Hu1. unfold free_at in *. destruct (join_next _ r) as [b' r'] eqn:Ej. cbn in Hs1.
  assert (s_addr b' = s_addr b) as <-.
  { destruct r as [|c r]; cbn in Ej; [|destruct (s_free c)]; by injection Ej as <- <-. }
  apply (wp_merge_prev _ l b' r'); [done|]. intros h2 Hs2 Hu2. apply HQ. split; [done|].
  rewrite Hu2, Hu1. cbn. rewrite Hu. rewrite w32_small by (unfold is_u32; sizes; lia). sizes. lia.
Qed.

(** Freeing what is not a live block does nothing. *)
Lemma kfree_ignored h bs p :
  heap_inv h bs → is_u32 p →
  p = 0 ∨ p -w 16 < heap_start h ∨ heap_start h + heap_size h ≤ p -w 16 ∨
  (∃ b, b ∈ bs ∧ s_free b = true ∧ p = s_addr b + 16) →
  kfree p h = Ret tt h.
Proof.
  intros [Hs _] Hp Hcase. unfold kfree. sizes.
  destruct (Z.eqb_spec p 0) as [|Hp0]; [done|]. unfold bind, gets. cbn [id].
  assert (32 ≤ heap_start h) by apply Hs.
  assert (0 ≤ heap_size h) by (destruct (tiles_bounds _ _ _ (hs_tiles _ _ Hs)); lia).
  rewrite (w32_small (heap_start h + heap_size h)) by (pose proof (hs_top _ _ Hs); unfold is_u32; lia).
  destruct (p -w 16 <? heap_start h) eqn:E1; [done|]. destruct (_ <=? p -w 16) eqn:E2; [done|].
  destruct Hcase as [|[|[|(b & Hb & Hf & ->)]]]; [lia|lia|lia|].
  apply list_elem_of_split in Hb as (l & r & ->).
  destruct (shape_at _ _ _ _ Hs) as (Hb & _ & _ & Hb0 & _ & Hbs & _ & Htop).
  assert (s_addr b + 16 -w 16 = s_addr b) as ->.
  { replace (s_addr b + 16 - 16) with (s_addr b) by lia. apply w32_small. unfold is_u32. lia. }
  unfold block_at, bind, gets. cbn [orb]. cbn beta iota. rewrite Hb. cbn. by rewrite Hf.
Qed.

Lemma used_carve n b :
  s_free b = true → used_size (carve n b) = (match carve n b with c :: _ => s_size c | [] => 0 end).
Proof.
  intros Hb. unfold carve. destruct (_ <=? _); rewrite !used_cons, used_nil; cbn; lia.
Qed.

Lemma wp_take_block n h l b r (Q : Z → heap → Prop) :
  heap_inv h (l ++ b :: r) → 0 ≤ n → n mod 8 = 0 → fits n b = true →
  (∀ h', heap_inv h' (l ++ carve n b ++ r) → Q (s_addr b + 16) h') →
  wp (take_block (s_addr b) n) h Q.
Proof.
  intros [Hs Hu] Hn0 Hn8 Hfit HQ. pose proof (inv_used_bounds h _ (conj Hs Hu)) as Hub.
  destruct (shape_at _ _ _ _ Hs) as (_ & _ & _ & Hb0 & _ & Hbs & _ & Htop).
  unfold fits in Hfit. apply andb_true_iff in Hfit as [Hf Hfit]. apply Z.leb_le in Hfit.
  assert (Hold : used_size (l ++ b :: r) = used_size l + used_size r).
  { rewrite used_size_app, used_cons, Hf. lia. }
  assert (Hlr : used_size l + s_size b + used_size r ≤ heap_size h).
  { pose proof (hs_tiles _ _ Hs) as Ht. apply tiles_app in Ht as [H1 (_ & _ & _ & H2)].
    apply used_size_bounds in H1, H2. lia. }
  unfold take_block. wp_step. apply (wp_split_block n h l b r); [done|done|done|done|].
  intros h1 Hs1 Hu1. pose proof (used_carve n b Hf) as Hc. unfold carve in *. cbv zeta in *. sizes.
  destruct (n + 16 + 32 <=? s_size b) eqn:Esplit.
  - destruct (shape_at _ _ _ _ Hs1) as (Hb & _). cbn [s_addr s_size] in Hb.
    wp_step. eapply wp_set_field; [exact Hb|]. wp_step.
    eapply wp_block_at; [blk ltac:(lia); done|]. cbn [Heap.size with_free].
    wp_step. wp_step. wp_step. rewrite (w32_small (s_addr b + 16)) by (unfold is_u32; lia).
    apply HQ. split; [by apply (shape_flag h1 l _ _ false (heap_used h1 +w (n + 16))) in Hs1|].
    cbn [heap_used set_heap_used set_blocks]. rewrite Hu1, Hu, Hold, !used_size_app, Hc. cbn [s_size].
    rewrite w32_small by (unfold is_u32; sizes; lia). sizes. lia.
  - destruct (shape_at _ _ _ _ Hs1) as (Hb & _).
    wp_step. eapply wp_set_field; [exact Hb|]. wp_step.
    eapply wp_block_at; [blk ltac:(lia); done|]. cbn [Heap.size with_free].
    wp_step. wp_step. wp_step. rewrite (w32_small (s_addr b + 16)) by (unfold is_u32; lia).
    apply HQ. split; [by apply (shape_flag h1 l _ _ false (heap_used h1 +w s_size b)) in Hs1|].
    cbn [heap_used set_heap_used set_blocks]. rewrite Hu1, Hu, Hold, !used_size_app, Hc. cbn [s_size].
    rewrite w32_small by (unfold is_u32; sizes; lia). sizes. lia.
Qed.

(** ** Growth and allocation *)

Lemma tiles_grow a bs n :
  tiles a bs (a + n) → tiles a (bs ++ [mkSeg (a + n) 4096 true]) (a + (n + 4096)).
Proof.
  intros Ht. pose proof (tiles_total _ _ _ Ht) as Htot. apply tiles_app. rewrite <- Htot.
  split; [done|]. cbn. sizes. split_and!; [done|lia|done|lia].
Qed.

Lemma shape_grow h h' bs m :
  heap_shape h bs → heap_start h + heap_size h + 4096 < 4294967296 →
  m = <[heap_start h + heap_size h := mkBlock 4096 1 0 (heap_end h)]> (blocks h) →
  heap_start h' = heap_start h → heap_size h' = heap_size h + 4096 →
  heap_virt_start h' = heap_virt_start h → heap_end h' = heap_start h + heap_size h →
  (∃ b, m !! heap_end h = Some b ∧
     blocks h' = <[heap_end h := with_next (heap_start h + heap_size h) b]> m) →
  heap_shape h' (bs ++ [mkSeg (heap_start h + heap_size h) 4096 true]).
Proof.
  intros Hs Hroom Hm E1 E2 E3 E4 (b0 & Hb0 & E5).
  destruct bs as [|b l _] using rev_ind; [by destruct Hs|].
  destruct (shape_at _ _ _ _ Hs) as (Hb & Hl & _ & Hba & _ & Hbs & _ & Htop).
  assert (Hend : heap_end h = s_addr b) by (rewrite (hs_end _ _ Hs), last_addr_app; done).
  rewrite Hend in *. subst m. rewrite lookup_insert_ne in Hb0 by lia.
  rewrite Hb in Hb0. injection Hb0 as <-. destruct Hs as [? ? ? ? Ht Hlk ?].
  split; rewrite ?E1, ?E2, ?E3; try done; [by destruct l|lia| | |].
  - by apply tiles_grow.
  - rewrite <- app_assoc. change ([b] ++ [?x]) with ([b; x] ++ []).
    eapply (lseg_replace (blocks h) _ l [b]); [by rewrite app_nil_r|done| | |done]; rewrite E5.
    + intros a Hin. specialize (Hl a Hin). blk ltac:(lia). done.
    + cbn. split_and!; [| |done]; blk ltac:(lia); done.
  - rewrite E4, last_addr_app. done.
Qed.

Section kmalloc_spec.
Context {E : Type} `{PageProviderOk E}.
Implicit Types e : E.

(** What one growth does: a page is asked for; without one nothing changes, and
    with one it is mapped at the end of the heap as a free block of its own. *)
Lemma wp_expand_heap h e bs (Q : bool → heap * E → Prop) :
  heap_inv h bs → pp_inv e → heap_start h + heap_size h + 4096 < 4294967296 →
  (∀ phys e1, pp_alloc_page e = Ret phys e1 → pp_inv e1 →
    (phys = 0 → Q false (h, e1)) ∧
    (phys ≠ 0 → ∀ h' e2,
       pp_map_page (heap_start h + heap_size h) phys 3 e1 = Ret tt e2 → pp_inv e2 →
       heap_inv h' (bs ++ [mkSeg (heap_start h + heap_size h) 4096 true]) → Q true (h', e2))) →
  wp expand_heap (h, e) Q.
Proof.
  intros [Hs Hu] He Hroom HQ. unfold expand_heap, in_env, in_heap.
  assert (0 ≤ heap_size h) by (destruct (tiles_bounds _ _ _ (hs_tiles _ _ Hs)); lia).
  assert (32 ≤ heap_start h) by apply Hs.
  assert (Hlast : is_Some (blocks h !! heap_end h) ∧ 32 ≤ heap_end h < heap_start h + heap_size h).
  { rewrite (hs_end _ _ Hs). pose proof (last_addr_in 0 bs (hs_nonempty _ _ Hs)) as Hin.
    split; [by eapply lseg_lookup; [apply Hs|]|by apply (shape_addr _ _ _ Hs)]. }
  destruct (wp_ex _ _ _ (pp_alloc_ok e He)) as (phys & e1 & Ealloc & He1 & Hphys).
  destruct (HQ phys e1 Ealloc He1) as [Hz Hnz]. clear HQ.
  wp_step. wp_step. cbn [snd]. unfold wp at 1. rewrite Ealloc. cbn [fst].
  destruct (Z.eqb_spec phys 0) as [->|Hp]; [by apply Hz|].
  wp_step. wp_step. wp_step. wp_step. cbn [fst snd]. rewrite (hs_virt _ _ Hs).
  rewrite w32_small by (unfold is_u32; lia). change (Z.lor PAGE_PRESENT PAGE_WRITE) with 3.
  destruct (wp_ex _ _ _ (pp_map_ok e1 (heap_start h + heap_size h) phys 3 He1
    ltac:(unfold is_u32; lia) Hphys ltac:(lia))) as ([] & e2 & Emap & He2).
  unfold wp at 1. rewrite Emap. cbn [fst snd].
  destruct Hlast as [[b0 Hb0] Hrange].
  do 2 wp_step. cbn [fst snd]. do 5 wp_step. apply wp_new_header.
  cbn [heap_end set_heap_size set_blocks blocks]. wp_step. wp_step.
  2:{ match goal with H : truth _ = false |- _ => apply truth_false in H end; lia. }
  eapply wp_set_field; [blk ltac:(lia); exact Hb0|]. wp_step. apply wp_ret. cbn [fst snd].
  apply (Hnz Hp _ _ Emap He2). split.
  - eapply (shape_grow h); try done.
    + cbn. change PAGE_SIZE with 4096. apply w32_small. unfold is_u32. lia.
    + exists b0. split; [blk ltac:(lia); done|]. done.
  - cbn. rewrite Hu, used_size_app, used_cons, used_nil. cbn. lia.
Qed.

Lemma wp_find_and_take n h bs e (Q : Z → heap * E → Prop) (otherwise : M (heap * E) Z) :
  heap_inv h bs → 0 ≤ n < 4294967280 → n mod 8 = 0 →
  match alloc_list n bs with
  | Some (a, bs') => ∀ h', heap_inv h' bs' → Q (a + BLOCK_HEADER_SIZE) (h', e)
  | None => wp otherwise (h, e) Q
  end →
  wp (block ← in_heap (find_free_block n);
      if block =? 0 then otherwise else in_heap (take_block block n)) (h, e) Q.
Proof.
  intros Hi Hn Hn8 HQ. pose proof (alloc_list_split n bs) as Hsp.
  unfold in_heap. wp_step. wp_step. apply (wp_find_free_block _ _ bs); [apply Hi|done|]. cbn [fst snd].
  destruct (alloc_list n bs) as [[a bs']|]; [|done].
  destruct Hsp as (l & b & r & -> & Hfit & -> & ->).
  destruct (shape_at _ _ _ _ (proj1 Hi)) as (_ & _ & _ & Hb0 & _).
  destruct (Z.eqb_spec (s_addr b) 0) as [|_]; [lia|]. wp_step. cbn [fst].
  apply (wp_take_block n h l b r); [done|lia|done|done|]. intros h' Hi'. by apply HQ.
Qed.

Lemma wp_kmalloc_aligned_size n h e bs (Q : Z → heap * E → Prop) :
  heap_inv h bs → pp_inv e → 0 < n < 4294967296 → 0 ≤ align8 n < 4294967280 → align8 n mod 8 = 0 →
  heap_start h + heap_size h + 4096 < 4294967296 →
  match alloc_list (align8 n) bs with
  | Some (a, bs') => ∀ h', heap_inv h' bs' → Q (a + BLOCK_HEADER_SIZE) (h', e)
  | None =>
      ∀ phys e1, pp_alloc_page e = Ret phys e1 → pp_inv e1 →
        (phys = 0 → Q 0 (h, e1)) ∧
        (phys ≠ 0 → ∀ p h' e2,
           pp_map_page (heap_start h + heap_size h) phys 3 e1 = Ret tt e2 → pp_inv e2 →
           alloc_answer (align8 n) (bs ++ [mkSeg (heap_start h + heap_size h) 4096 true]) p h' →
           Q p (h', e2))
  end →
  wp (kmalloc n) (h, e) Q.
Proof.
  intros Hi He Hn Ha Ha8 Hroom HQ. unfold kmalloc.
  destruct (Z.eqb_spec n 0) as [|_]; [lia|]. cbv zeta.
  apply (wp_find_and_take _ _ bs); [done|done|done|].
  destruct (alloc_list (align8 n) bs) as [[a bs']|]; [done|].
  wp_step. apply (wp_expand_heap h e bs); [done|done|done|].
  intros phys e1 Ealloc He1. destruct (HQ phys e1 Ealloc He1) as [Hz Hnz].
  split; intros Hp; [by apply wp_ret, Hz|]. intros h' e2 Emap He2 Hi'. cbn [negb].
  apply (wp_find_and_take _ _ _ _ _ _ Hi' Ha Ha8). unfold alloc_answer in Hnz.
  destruct (alloc_list (align8 n) (bs ++ _)) as [[a bs']|].
  - intros h2 Hi2. by apply (Hnz Hp).
  - by apply wp_ret, (Hnz Hp).
Qed.

End kmalloc_spec.

Lemma align8_spec n :
  0 ≤ n ≤ 4294967288 → align8 n = 8 * ((n + 7) / 8) ∧ n ≤ align8 n < n + 8.
Proof.
  intros Hn. assert (align8 n = 8 * ((n + 7) / 8)) as ->; [|split; [done|mlia]].
  unfold align8. rewrite w32_small, land_not32 by (unfold is_u32; lia).
  rewrite <- Z.ldiff_land. change 7 with (Z.ones 3) at 2.
  rewrite Z.ldiff_ones_r, Z.shiftl_mul_pow2, Z.shiftr_div_pow2 by lia. change (2 ^ 3) with 8. lia.
Qed.

(** The segment that an allocation hands out. *)
Lemma alloc_list_payload n bs a bs' x e :
  alloc_list n bs = Some (a, bs') → tiles x bs e → 0 ≤ n →
  ∃ b, b ∈ bs' ∧ s_addr b = a ∧ s_free b = false ∧ n + 16 ≤ s_size b ∧
    (∀ c, c ∈ bs → s_free c = false →
       c ∈ bs' ∧ (s_addr c + s_size c ≤ s_addr b ∨ s_addr b + s_size b ≤ s_addr c)).
Proof.
  intros Hal Ht Hn. pose proof (alloc_list_split n bs) as Hsp. rewrite Hal in Hsp.
  destruct Hsp as (l & b & r & -> & Hfit & -> & ->).
  apply andb_true_iff in Hfit as [Hf Hfit]. apply Z.leb_le in Hfit. sizes.
  apply tiles_app in Ht as [Htl (Hb & _ & _ & Htr)].
  pose proof (proj2 (tiles_bounds _ _ _ Htl)) as Hl. pose proof (proj2 (tiles_bounds _ _ _ Htr)) as Hr.
  assert (Hin : ∀ c, c ∈ l ∨ c ∈ carve n b ∨ c ∈ r → c ∈ l ++ carve n b ++ r)
    by (intros c; rewrite !elem_of_app; tauto).
  assert (Hcar : hd b (carve n b) ∈ carve n b ∧ s_addr (hd b (carve n b)) = s_addr b ∧
    s_free (hd b (carve n b)) = false ∧ n + 16 ≤ s_size (hd b (carve n b)) ≤ s_size b).
  { unfold carve. cbv zeta. sizes. destruct (Z.leb_spec (n + 16 + 32) (s_size b)); cbn;
      (split_and!; [by left|done|done|lia|lia]). }
  destruct Hcar as (H1 & H2 & H3 & H4). exists (hd b (carve n b)).
  split_and!; [by auto|done|done|lia|]. intros c Hc Hcf.
  apply elem_of_app in Hc as [Hc|[->|Hc]%elem_of_cons].
  - specialize (Hl c Hc). split; [by auto|lia].
  - by rewrite Hf in Hcf.
  - specialize (Hr c Hc). split; [by auto|lia].
Qed.

(** Paging keeps the heap's side of the contract, for any set of address spaces. *)
#[global] Program Instance vm_page_provider_ok (pds : list Z) : PageProviderOk vm :=
  {| pp_inv v := vm_inv pds v |}.
Next Obligation.
  intros pds v Hv. apply (wp_vm_alloc pds); [done| |].
  - intros p Hp _ _ Hv' _. split; [done|]. pmm_lia.
  - intros _. split; [done|]. unfold is_u32. lia.
Qed.
Next Obligation. intros pds v va pa flags Hv Hva Hpa Hf. by apply (map_page_inv pds). Qed.

Lemma seg_total_app l r : seg_total (l ++ r) = seg_total l + seg_total r.
Proof. induction l as [|b l IH]; cbn; [done|]. fold (seg_total (l ++ r)) (seg_total l). lia. Qed.

Lemma tiles_hd a bs e : tiles a bs e → hd_addr bs e = a.
Proof. destruct bs; cbn; [done|]. by intros [-> _]. Qed.

(** The end of the heap, from the segments. *)
Lemma inv_top h bs : heap_inv h bs → heap_start h + heap_size h = hd_addr bs 0 + seg_total bs.
Proof.
  intros [[Hne ? ? ? Ht ? ?] _]. pose proof (tiles_total _ _ _ Ht).
  pose proof (tiles_hd _ _ _ Ht). destruct bs; [done|]. cbn [hd_addr] in *. lia.
Qed.

Lemma alloc_list_total n bs a bs' :
  alloc_list n bs = Some (a, bs') → hd_addr bs' 0 = hd_addr bs 0 ∧ seg_total bs' = seg_total bs.
Proof.
  intros Hal. pose proof (alloc_list_split n bs) as Hsp. rewrite Hal in Hsp.
  destruct Hsp as (l & b & r & -> & _ & _ & ->).
  rewrite !hd_addr_app, !seg_total_app. unfold carve. cbv zeta.
  destruct (_ <=? _); cbn; fold (seg_total r); (split; [done|lia]).
Qed.

Lemma free_at_total l b r :
  hd_addr (free_at l b r) 0 = hd_addr (l ++ b :: r) 0 ∧ seg_total (free_at l b r) = seg_total (l ++ b :: r).
Proof.
  unfold free_at.
  assert (∃ b' r', join_next (mkSeg (s_addr b) (s_size b) true) r = (b', r') ∧ s_addr b' = s_addr b ∧
    s_size b' + seg_total r' = s_size b + seg_total r) as (b' & r' & -> & Ea & Et).
  { destruct r as [|c r]; [by eexists _, _|]. cbn. destruct (s_free c); eexists _, _; (split; [done|]); cbn;
      fold (seg_total r); (split; [done|lia]). }
  rewrite !hd_addr_app, !seg_total_app. cbn. fold (seg_total r).
  destruct l as [|c l _] using rev_ind; cbn; [rewrite Ea; split; [done|lia]|].
  rewrite join_prev_snoc. destruct (s_free c); rewrite ?hd_addr_app, ?seg_total_app; cbn;
    (split; [by destruct l|lia]).
Qed.

(** Releasing a block keeps every other block in use. *)
Lemma free_at_keeps l b r c : c ∈ l ∨ c ∈ r → s_free c = false → c ∈ free_at l b r.
Proof.
  intros Hin Hf. unfold free_at.
  assert (∃ b' r', join_next (mkSeg (s_addr b) (s_size b) true) r = (b', r') ∧ (c ∈ r → c ∈ r'))
    as (b' & r' & -> & Hr).
  { destruct r as [|d r]; [by eexists _, _|]. cbn. destruct (s_free d) eqn:Hd; eexists _, _; (split; [done|]); [|done].
    intros [->|]%elem_of_cons; [congruence|done]. }
  apply elem_of_app. destruct Hin as [Hin|Hin]; [left|right; auto].
  destruct l as [|d l _] using rev_ind; [by apply elem_of_nil in Hin|].
  rewrite join_prev_snoc. apply elem_of_app in Hin as [Hin|Hin%list_elem_of_singleton].
  - destruct (s_free d); apply elem_of_app; left; [done|apply elem_of_app; by left].
  - subst d. rewrite Hf. apply elem_of_app. left. apply elem_of_app. right. by left.
Qed.

(** The segments of a heap are determined by its headers. *)
Lemma lseg_unique m pr a e l1 l2 :
  lseg m pr l1 0 → lseg m pr l2 0 → tiles a l1 e → tiles a l2 e → l1 = l2.
Proof.
  revert pr a l2. induction l1 as [|b l1 IH]; intros pr a [|c l2] H1 H2 T1 T2; [done| | |].
  - cbn in T1, T2. destruct T2 as (_ & Hs & _ & Ht). apply tiles_bounds in Ht as [Ht _]. sizes. lia.
  - cbn in T1, T2. destruct T1 as (_ & Hs & _ & Ht). apply tiles_bounds in Ht as [Ht _]. sizes. lia.
  - destruct H1 as [Hb H1], H2 as [Hc H2], T1 as (Ea & _ & _ & T1), T2 as (Ea' & _ & _ & T2).
    rewrite Ea' in *. rewrite Ea in *. rewrite Hb in Hc. injection Hc as Es Ef _.
    rewrite <- Es in T2. rewrite (IH _ _ l2 H1 H2 T1 T2). f_equal.
    destruct b as [ab sb fb], c as [ac sc fc]. cbn in *. subst. f_equal. by destruct fb, fc.
Qed.

Lemma heap_inv_unique h bs bs' : heap_inv h bs → heap_inv h bs' → bs = bs'.
Proof. intros [Hs _] [Hs' _]. by eapply lseg_unique; [apply Hs|apply Hs'|apply Hs|apply Hs']. Qed.

Lemma kmalloc_zero {E} `{PageProvider E} (s : heap * E) : kmalloc 0 s = Ret 0 s.
Proof. done. Qed.

Section properties.
Context {E : Type} `{PageProviderOk E}.
Implicit Types e : E.

(** What every allocation keeps and gives. *)
Lemma wp_kmalloc_payload n h e bs (Q : Z → heap * E → Prop) :
  heap_inv h bs → pp_inv e → 0 < n ≤ 4294967272 →
  heap_start h + heap_size h + 4096 < 4294967296 →
  (∀ p h' e' bs', heap_inv h' bs' → pp_inv e' →
     heap_start h' + heap_size h' ≤ heap_start h + heap_size h + 4096 →
     (∀ c, c ∈ bs → s_free c = false → c ∈ bs') →
     p = 0 ∨ (∃ b, b ∈ bs' ∧ p = s_addr b + 16 ∧ s_free b = false ∧ n + 16 ≤ s_size b ∧
       ∀ c, c ∈ bs → s_free c = false →
         s_addr c + s_size c ≤ s_addr b ∨ s_addr b + s_size b ≤ s_addr c) →
     Q p (h', e')) →
  wp (kmalloc n) (h, e) Q.
Proof.
  intros Hi He Hn Hroom HQ. destruct (align8_spec n ltac:(lia)) as [Ha Hle].
  pose proof (inv_top h bs Hi) as Htop.
  assert (Halign : align8 n < 4294967280) by (rewrite Ha in *; mlia).
  assert (Hpay : ∀ bs0 a bs' h' e' t, alloc_list (align8 n) bs0 = Some (a, bs') →
    tiles (heap_start h) bs0 t → t ≤ heap_start h + heap_size h + 4096 → (∀ c, c ∈ bs → c ∈ bs0) →
    heap_inv h' bs' → pp_inv e' → Q (a + 16) (h', e')).
  { intros bs0 a bs' h' e' t Hal Ht Hlt Hsub Hi' He'.
    destruct (alloc_list_payload _ _ _ _ _ _ Hal Ht ltac:(lia)) as (b & Hb & <- & Hf & Hsz & Hc).
    apply (HQ _ _ _ bs'); [done|done| |by intros c Hin Hcf; apply Hc; [apply Hsub|]|right].
    - rewrite (inv_top h' bs' Hi'). destruct (alloc_list_total _ _ _ _ Hal) as [-> ->].
      pose proof (tiles_total _ _ _ Ht). pose proof (tiles_hd _ _ _ Ht) as Hhd.
      destruct bs0 as [|b0 bs0]; [done|]. cbn [hd_addr] in *. lia.
    - exists b. split_and!; [done|done|done|lia|]. intros c Hin Hcf. apply Hc; [by apply Hsub|done]. }
  apply (wp_kmalloc_aligned_size n h e bs); [done|done|lia|lia|rewrite Ha; mlia|done|].
  destruct (alloc_list (align8 n) bs) as [[a bs']|] eqn:Hal.
  - intros h' Hi'. sizes. eapply (Hpay bs); [done|apply Hi|lia|done|done|done].
  - intros phys e1 _ He1. split.
    { intros _. apply (HQ _ _ _ bs); [done|done|lia|done|by left]. }
    intros _ p h' e2 _ He2 Hans. unfold alloc_answer in Hans.
    destruct (alloc_list (align8 n) (bs ++ _)) as [[a bs']|] eqn:Hal'.
    + destruct Hans as [-> Hi']. sizes.
      eapply Hpay; [exact Hal'|apply tiles_grow, Hi|lia|set_solver|done|done].
    + destruct Hans as [-> Hi']. eapply HQ; [done|done| |set_solver|by left].
      rewrite (inv_top h' _ Hi'), hd_addr_app, seg_total_app. cbn [seg_total foldr s_size].
      destruct bs as [|b bs]; [by destruct Hi as [[] _]|]. cbn [hd_addr] in *. lia.
Qed.

Lemma coalesced_app l b r :
  coalesced (l ++ b :: r) = true →
  (∀ c, last l = Some c → s_free b = true → s_free c = false) ∧
  (∀ c r', r = c :: r' → s_free b = true → s_free c = false).
Proof.
  induction l as [|x l IH]; intros Hc.
  - split; [done|]. intros c r' -> Hf. cbn in Hc. rewrite Hf in Hc. by destruct (s_free c).
  - destruct l as [|y l].
    + cbn in Hc. apply andb_true_iff in Hc as [Hx Hc]. split; [|by apply IH].
      intros c [= <-] Hf. rewrite Hf in Hx. by destruct (s_free x).
    + apply IH. cbn in Hc |- *. by apply andb_true_iff in Hc as [_ Hc].
Qed.

(** Releasing the block just carved gives the old segments back. *)
Lemma free_carve n l b r :
  coalesced (l ++ b :: r) = true → fits n b = true →
  ∃ c r', carve n b ++ r = c :: r' ∧ s_addr c = s_addr b ∧ s_free c = false ∧
    free_at l c r' = l ++ b :: r.
Proof.
  intros Hc [Hf Hfit]%andb_true_iff. destruct (coalesced_app _ _ _ Hc) as [Hl Hr].
  assert (Hprev : join_prev l b = l ++ [b]).
  { destruct l as [|c l _] using rev_ind; [done|]. rewrite join_prev_snoc.
    rewrite (Hl c); [done|by apply last_snoc|done]. }
  destruct b as [a s f]. cbn in Hf. subst f. unfold carve. cbv zeta. cbn [s_addr s_size].
  destruct (_ <=? s); eexists _, _; (split; [done|]); split; try done; split; try done;
    unfold free_at; cbn -[join_prev].
  - replace (n + BLOCK_HEADER_SIZE + (s - (n + BLOCK_HEADER_SIZE))) with s by lia.
    by rewrite Hprev, <- app_assoc.
  - destruct r as [|c r]; cbn -[join_prev]; [|rewrite (Hr c r) by done; cbn -[join_prev]];
      by rewrite Hprev, <- app_assoc.
Qed.

(** C2. [kmalloc] implements first fit with splitting over the list of segments: the
    answer and the new segments are those of [alloc_list] on the request rounded up to
    8 bytes. When no block fits it asks for one page; without one it answers NULL and
    the heap is unchanged, and with one the page is mapped at the end of the heap as a
    free block of its own and the search is made once more. *)
Theorem kmalloc_refines n h e bs :
  heap_inv h bs → pp_inv e → 0 < n ≤ 4294967272 →
  heap_start h + heap_size h + 4096 < 4294967296 →
  wp (kmalloc n) (h, e) (λ p s', pp_inv s'.2 ∧
    match alloc_list (8 * ((n + 7) / 8)) bs with
    | Some (a, bs') => p = a + BLOCK_HEADER_SIZE ∧ heap_inv s'.1 bs' ∧ s'.2 = e
    | None => ∃ phys e1, pp_alloc_page e = Ret phys e1 ∧
        if phys =? 0 then p = 0 ∧ s' = (h, e1) else
        pp_map_page (heap_start h + heap_size h) phys 3 e1 = Ret tt s'.2 ∧
        alloc_answer (8 * ((n + 7) / 8))
          (bs ++ [mkSeg (heap_start h + heap_size h) 4096 true]) p s'.1
    end).
Proof.
  intros Hi He Hn Hroom. destruct (align8_spec n ltac:(lia)) as [Ha Hle].
  assert (align8 n < 4294967280) by (rewrite Ha in *; mlia). rewrite <- Ha.
  apply (wp_kmalloc_aligned_size n h e bs); [done|done|lia|lia|rewrite Ha; mlia|done|].
  destruct (alloc_list (align8 n) bs) as [[a bs']|]; [by auto|].
  intros phys e1 Ealloc He1. split.
  - intros ->. split; [done|]. by exists 0, e1.
  - intros Hp p h' e2 Emap He2 Hans. split; [done|]. exists phys, e1. split; [done|].
    destruct (Z.eqb_spec phys 0); [done|]. done.
Qed.

(** C12. The memory [kmalloc] hands out: the pointer is NULL or a multiple of 8, the [n]
    bytes behind it lie in one used block inside the heap, that block is apart from every
    block that was in use, and those blocks are still there, unchanged. *)
Theorem kmalloc_memory n h e bs :
  heap_inv h bs → pp_inv e → 0 < n ≤ 4294967272 →
  heap_start h + heap_size h + 4096 < 4294967296 →
  wp (kmalloc n) (h, e) (λ p s', ∃ bs', heap_inv s'.1 bs' ∧
    (p = 0 ∨
     p mod 8 = 0 ∧ heap_start s'.1 ≤ p ∧ p + n ≤ heap_start s'.1 + heap_size s'.1 ∧
     ∃ b, b ∈ bs' ∧ s_free b = false ∧ p = s_addr b + 16 ∧ p + n ≤ s_addr b + s_size b ∧
       ∀ c, c ∈ bs → s_free c = false →
         c ∈ bs' ∧ (s_addr c + s_size c ≤ s_addr b ∨ s_addr b + s_size b ≤ s_addr c))).
Proof.
  intros Hi He Hn Hroom. apply (wp_kmalloc_payload n h e bs); [done..|].
  intros p h' e' bs' Hi' _ _ Hkeep [->|(b & Hb & -> & Hf & Hsz & Hc)]; exists bs'; (split; [done|]);
    [by left|right].
  pose proof (proj2 (tiles_bounds _ _ _ (hs_tiles _ _ (proj1 Hi'))) b Hb) as Hbb.
  assert (s_addr b mod 8 = 0).
  { apply list_elem_of_split in Hb as (l & r & ->).
    by destruct (shape_at _ _ _ _ (proj1 Hi')) as (_ & _ & _ & _ & ? & _). }
  cbn [fst]. split_and!; [mlia|lia|lia|]. exists b. split_and!; [done|done|done|lia|]. intros c Hin Hcf. split; auto.
Qed.

(** A [kmalloc] that needs no growth followed by [kfree] of its answer gives back the
    segments it started from, when no two neighbours were free. *)
Theorem kmalloc_kfree_restores n h e bs :
  heap_inv h bs → pp_inv e → 0 < n ≤ 4294967272 →
  heap_start h + heap_size h + 4096 < 4294967296 →
  coalesced bs = true → alloc_list (8 * ((n + 7) / 8)) bs ≠ None →
  wp (p ← kmalloc n; in_heap (kfree p)) (h, e) (λ _ s', heap_inv s'.1 bs ∧ s'.2 = e).
Proof.
  intros Hi He Hn Hroom Hco Hsome. destruct (align8_spec n ltac:(lia)) as [Ha Hle].
  assert (align8 n < 4294967280) by (rewrite Ha in *; mlia). rewrite <- Ha in Hsome.
  wp_step. apply (wp_kmalloc_aligned_size n h e bs); [done|done|lia|lia|rewrite Ha; mlia|done|].
  pose proof (alloc_list_split (align8 n) bs) as Hsp.
  destruct (alloc_list (align8 n) bs) as [[a bs']|]; [|done].
  destruct Hsp as (l & b & r & -> & Hfit & -> & ->). intros h' Hi'.
  destruct (free_carve _ _ _ _ Hco Hfit) as (c & r' & Ecr & Eaddr & Hcf & Efree).
  rewrite Ecr in Hi'. unfold in_heap. wp_step. cbn [fst]. rewrite <- Eaddr.
  apply (wp_kfree_live h' l c r'); [done|done|]. intros h2 Hi2. by rewrite Efree in Hi2.
Qed.

End properties.

(** C11. [kfree] of the pointer of a block in use marks it free and merges it with a free
    next and a free previous block; of the pointer of a free block (a double free), of
    NULL and of an address outside the heap it changes nothing. *)
Theorem kfree_refines h l b r :
  heap_inv h (l ++ b :: r) →
  (∀ p, is_u32 p →
     p = 0 ∨ p -w 16 < heap_start h ∨ heap_start h + heap_size h ≤ p -w 16 →
     kfree p h = Ret tt h) ∧
  wp (kfree (s_addr b + BLOCK_HEADER_SIZE)) h (λ _ h',
    if s_free b then h' = h else heap_inv h' (free_at l b r)).
Proof.
  intros Hi. split; [intros p Hp Hout; eapply kfree_ignored; [done|done|tauto]|].
  destruct (s_free b) eqn:Hf; [|by apply (wp_kfree_live h l b r)].
  destruct (shape_at _ _ _ _ (proj1 Hi)) as (_ & _ & _ & Hb0 & _ & Hbs & _ & Htop).
  unfold wp. rewrite (kfree_ignored h _ (s_addr b + BLOCK_HEADER_SIZE) Hi); [done|sizes; unfold is_u32; lia|].
  do 3 right. exists b. split_and!; [|done|done]. apply elem_of_app. right. by left.
Qed.

Lemma heap_init_inv start n h :
  32 ≤ start → start mod 8 = 0 → 16 ≤ n → n mod 8 = 0 → start + n < 4294967296 →
  wp (heap_init start n) h (λ _ h', heap_inv h' [mkSeg start n true] ∧
    heap_start h' = start ∧ heap_size h' = n).
Proof.
  intros. apply wp_modify. split_and!; [|done|done]. split; [|done].
  split; cbn; try done.
  split; [by rewrite lookup_insert_eq|done].
Qed.

Section runs.
Context {E : Type} `{PageProviderOk E}.

Lemma heap_step_inv (s s' : heap * E) :
  heap_step s s' → (∃ bs, heap_inv s.1 bs) ∧ pp_inv s.2 → (∃ bs, heap_inv s'.1 bs) ∧ pp_inv s'.2.
Proof.
  intros [n p [h e] s'' Hn Hroom Hk|h e h' bs b Hi Hb Hk] [[bs0 Hi0] He].
  - destruct (Z.eq_dec n 0) as [->|Hn0]; [injection Hk as <- <-; eauto|].
    assert (wp (kmalloc n) (h, e) (λ _ s, (∃ bs, heap_inv s.1 bs) ∧ pp_inv s.2)) as Hw.
    { apply (wp_kmalloc_payload n h e bs0); [done|done|lia|done|]. intros. eauto. }
    unfold wp in Hw. by rewrite Hk in Hw.
  - split; [|done]. cbn. apply list_elem_of_split in Hb as (l & r & ->).
    destruct (s_free b) eqn:Hf.
    + destruct (shape_at _ _ _ _ (proj1 Hi)) as (_ & _ & _ & Hb0 & _ & Hbs & _ & Htop).
      rewrite (kfree_ignored h (l ++ b :: r)) in Hk; [by injection Hk as <-; eauto|done|..].
      * sizes. unfold is_u32. lia.
      * do 3 right. exists b. split_and!; [|done|done]. apply elem_of_app. right. by left.
    + assert (wp (kfree (s_addr b + BLOCK_HEADER_SIZE)) h (λ _ h, ∃ bs, heap_inv h bs)) as Hw
        by (apply (wp_kfree_live h l b r); eauto).
      unfold wp in Hw. by rewrite Hk in Hw.
Qed.

Lemma heap_run_inv (s s' : heap * E) :
  rtc heap_step s s' → (∃ bs, heap_inv s.1 bs) ∧ pp_inv s.2 → (∃ bs, heap_inv s'.1 bs) ∧ pp_inv s'.2.
Proof. induction 1 as [|s s1 s2 Hst _ IH]; [done|]. intros Hi. by apply IH, (heap_step_inv s). Qed.

(** C9. From [heap_init] on, after any sequence of [kmalloc]s and of [kfree]s of blocks,
    single or double, the headers in memory form one doubly linked list whose blocks tile
    the heap without gap or overlap, [heap_get_used] is the size of the used blocks and one
    header, and [heap_get_free] the size of the free blocks less one header, at 32 bits. *)
Theorem heap_runs_tiled start n h0 h (e e' : E) h' :
  32 ≤ start → start mod 8 = 0 → 16 ≤ n → n mod 8 = 0 → start + n < 4294967296 →
  heap_init start n h0 = Ret tt h → pp_inv e → rtc heap_step (h, e) (h', e') →
  ∃ bs, lseg (blocks h') 0 bs 0 ∧ heap_end h' = last_addr 0 bs ∧
    tiles (heap_start h') bs (heap_start h' + heap_size h') ∧
    heap_get_used h' = Ret (16 + used_size bs) h' ∧
    heap_get_free h' = Ret (w32 (free_size bs - 16)) h'.
Proof.
  intros Hs1 Hs2 Hn1 Hn2 Htop Hinit He Hrun.
  pose proof (heap_init_inv start n h0 Hs1 Hs2 Hn1 Hn2 Htop) as Hi. unfold wp in Hi.
  rewrite Hinit in Hi. destruct Hi as [Hi _].
  assert ((∃ bs, heap_inv h' bs) ∧ pp_inv e') as [[bs [Hs Hu]] _].
  { apply (heap_run_inv (h, e) (h', e') Hrun). cbn. eauto. }
  exists bs. split_and!; [apply Hs..| |].
  - unfold heap_get_used, gets. by rewrite Hu.
  - unfold heap_get_free, gets, free_size. rewrite Hu.
    pose proof (tiles_total _ _ _ (hs_tiles _ _ Hs)). sizes. do 2 f_equal. lia.
Qed.

End runs.

(** ** Aligned allocation, and requests near the top of the 32-bit range *)

Lemma align_up_spec a k :
  0 ≤ k < 32 → 0 ≤ a → a + 2 ^ k ≤ 4294967296 →
  Z.land (a +w 2 ^ k -w 1) (not32 (2 ^ k -w 1)) mod 2 ^ k = 0 ∧
  a ≤ Z.land (a +w 2 ^ k -w 1) (not32 (2 ^ k -w 1)) < a + 2 ^ k.
Proof.
  intros Hk Ha Hle. pose proof (Z.pow_pos_nonneg 2 k ltac:(lia) ltac:(lia)) as Hpos.
  assert (2 ^ k < 4294967296) by (change 4294967296 with (2 ^ 32); apply Z.pow_lt_mono_r; lia).
  rewrite w32_sub_l. rewrite (w32_small (a + 2 ^ k - 1)), (w32_small (2 ^ k - 1)) by (unfold is_u32; lia).
  rewrite land_not32 by (unfold is_u32; lia). rewrite <- Z.ldiff_land.
  replace (Z.ldiff (a + 2 ^ k - 1) (2 ^ k - 1)) with (Z.ldiff (a + 2 ^ k - 1) (Z.ones k))
    by (rewrite Z.ones_equiv; f_equal; lia).
  rewrite Z.ldiff_ones_r, Z.shiftl_mul_pow2, Z.shiftr_div_pow2 by lia.
  split; [apply Z.mod_mul; lia|].
  pose proof (Z.div_mod (a + 2 ^ k - 1) (2 ^ k) ltac:(lia)).
  pose proof (Z.mod_pos_bound (a + 2 ^ k - 1) (2 ^ k) ltac:(lia)). nia.
Qed.

Lemma inv_set_words h bs m : heap_inv h bs → heap_inv (set_words m h) bs.
Proof. intros [[] ?]. by split. Qed.

Section aligned.
Context {E : Type} `{PageProviderOk E}.

(** [kmalloc_aligned n 2^k] returns NULL or a multiple of [2^k]; the [n] bytes behind
    it lie in the block of one [kmalloc], and the pointer of that block is stored in the
    word before them, which also lies in that block. *)
Theorem kmalloc_aligned_spec n k h (e : E) bs :
  heap_inv h bs → pp_inv e → 0 ≤ n → 0 ≤ k < 32 → n + 2 ^ k + 3 ≤ 4294967272 →
  heap_start h + heap_size h + 4096 < 4294967296 →
  wp (kmalloc_aligned n (2 ^ k)) (h, e) (λ q s', ∃ bs', heap_inv s'.1 bs' ∧
    (q = 0 ∨ q mod 2 ^ k = 0 ∧
     ∃ b, b ∈ bs' ∧ s_free b = false ∧ s_addr b + 16 ≤ q - 4 ∧ q + n ≤ s_addr b + s_size b ∧
       words s'.1 !! (q - 4) = Some (s_addr b + 16))).
Proof.
  intros Hi He Hn Hk Htot Hroom. unfold kmalloc_aligned. cbv zeta.
  pose proof (Z.pow_pos_nonneg 2 k ltac:(lia) ltac:(lia)) as Hpos.
  rewrite w32_sub_l, w32_add_l, w32_small by (unfold is_u32; lia). wp_step.
  apply (wp_kmalloc_payload _ h e bs); [done|done|lia|done|].
  intros p h' e' bs' Hi' _ _ _ [->|(b & Hb & -> & Hf & Hsz & _)].
  { cbn. exists bs'. split; [done|by left]. }
  assert (32 ≤ s_addr b ∧ s_addr b + s_size b < 4294967296) as [Hb0 Htop].
  { destruct (proj2 (tiles_bounds _ _ _ (hs_tiles _ _ (proj1 Hi'))) b Hb) as (H1 & H2 & _).
    destruct (proj1 Hi') as [_ _ [? _] ? _ _ _]. lia. }
  destruct (Z.eqb_spec (s_addr b + 16) 0) as [|_]; [lia|].
  rewrite (w32_small (s_addr b + 16 + 4)) by (unfold is_u32; lia).
  destruct (align_up_spec (s_addr b + 16 + 4) k) as [Hmod Hrange]; [lia|lia|lia|].
  set (q := Z.land _ _) in *. unfold in_heap. wp_steps. exists bs'. cbn [fst].
  split; [by apply inv_set_words|right]. split; [done|]. exists b.
  split_and!; [done|done|lia|lia|]. cbn [words set_words].
  rewrite (w32_small (q - 4)) by (unfold is_u32; lia). by rewrite lookup_insert_eq.
Qed.

(** A request of [2^32 - 16] bytes wraps to a block of size 0: right after [heap_init]
    it is answered with a pointer as if it had succeeded, and it leaves the first block
    linked to itself, so that no later search ends, whatever its size and its fuel. *)
Theorem kmalloc_wrap_hangs start n h0 h (e : E) :
  32 ≤ start → start + n < 4294967296 → 32 ≤ n → heap_init start n h0 = Ret tt h →
  ∃ h', kmalloc 4294967280 (h, e) = Ret (start + 16) (h', e) ∧
    ∀ fuel m, find_loop fuel m start h' = NoFuel.
Proof.
  intros Hs Htop Hn [= <-].
  enough (wp (kmalloc 4294967280) (mkHeap (<[start := mkBlock n 1 0 0]> (blocks h0)) (words h0)
    start start n BLOCK_HEADER_SIZE start, e)
    (λ p s', p = start + 16 ∧ s'.2 = e ∧ ∀ fuel m, find_loop fuel m start s'.1 = NoFuel)) as Hw.
  { destruct (wp_ex _ _ _ Hw) as (p & [h' e'] & -> & -> & <- & Hl). by exists h'. }
  unfold kmalloc. change (4294967280 =? 0) with false. cbv iota zeta.
  change (align8 4294967280) with 4294967280. wp_step. unfold in_heap at 1. wp_step.
  unfold find_free_block. wp_steps. cbn [fst heap_start blocks find_loop].
  destruct (Z.eqb_spec start 0) as [|_]; [lia|]. wp_step.
  eapply wp_block_at; [cbn; by rewrite lookup_insert_eq|].
  cbn [is_free Heap.size]. change (4294967280 +w BLOCK_HEADER_SIZE) with 0.
  destruct (Z.leb_spec 0 n) as [_|]; [|lia]. cbn [truth Z.eqb negb andb]. wp_step.
  destruct (Z.eqb_spec start 0) as [|_]; [lia|]. unfold in_heap. wp_step. cbn [fst snd].
  unfold take_block, split_block. change (4294967280 +w BLOCK_HEADER_SIZE) with 0.
  wp_steps. eapply wp_block_at; [cbn; by rewrite lookup_insert_eq|].
  cbn [is_free Heap.size next prev]. change (0 +w MIN_BLOCK_SIZE) with 32.
  wp_step; [|lia]. rewrite Z.add_0_r, Z.sub_0_r, !w32_small by (unfold is_u32; lia).
  wp_step. apply wp_new_header. wp_step. eapply wp_block_at; [blk ltac:(lia); done|].
  cbn [next truth Z.eqb negb when]. wp_step. wp_step.
  do 2 (wp_step; eapply wp_set_field; [blk ltac:(lia); done|]). do 2 wp_step.
  cbn [heap_end set_blocks]. rewrite Z.eqb_refl. cbn [when]. wp_step.
  wp_step. eapply wp_set_field; [blk ltac:(lia); done|].
  wp_step. eapply wp_block_at; [blk ltac:(lia); done|]. wp_steps.
  rewrite w32_small by (unfold is_u32; sizes; lia). split_and!; [done|done|].
  intros fuel m. induction fuel as [|fuel IH]; [done|].
  cbn [find_loop fst]. destruct (Z.eqb_spec start 0) as [|_]; [lia|].
  unfold block_at at 1, bind, gets, expect. blk ltac:(lia). cbn [truth Z.eqb negb andb ret].
  exact IH.
Qed.

End aligned.

(** ** The properties at concrete inputs *)

Lemma heap_demo_inv : heap_inv heap_demo [mkSeg 0x400000 4096 true].
Proof. apply (heap_init_inv 0x400000 4096 (mkHeap ∅ ∅ 0 0 0 0 0)); done. Qed.

Lemma kmalloc_refines_witness :
  wp (kmalloc 100) (heap_demo, vm_demo) (λ p s', vm_inv [0x1000] s'.2 ∧ p = 0x400010 ∧
    heap_inv s'.1 [mkSeg 0x400000 120 false; mkSeg 0x400078 3976 true] ∧ s'.2 = vm_demo).
Proof.
  exact (kmalloc_refines (H0 := vm_page_provider_ok [0x1000]) 100 heap_demo vm_demo _ heap_demo_inv vm_demo_inv
    ltac:(lia) ltac:(cbn; lia)).
Defined.

Lemma kmalloc_memory_witness :
  wp (kmalloc 100) (heap_demo, vm_demo) (λ p s', ∃ bs', heap_inv s'.1 bs' ∧
    (p = 0 ∨ p mod 8 = 0 ∧ heap_start s'.1 ≤ p)).
Proof.
  eapply wp_mono; [exact (kmalloc_memory (H0 := vm_page_provider_ok [0x1000]) 100 heap_demo vm_demo _ heap_demo_inv vm_demo_inv
    ltac:(lia) ltac:(cbn; lia))|].
  intros p s' (bs' & Hi & Hp). exists bs'. split; [done|]. destruct Hp as [|(H1 & H2 & _)]; auto.
Defined.

Lemma kmalloc_kfree_restores_witness :
  wp (p ← kmalloc 100; in_heap (kfree p)) (heap_demo, vm_demo)
    (λ _ s', heap_inv s'.1 [mkSeg 0x400000 4096 true] ∧ s'.2 = vm_demo).
Proof.
  exact (kmalloc_kfree_restores (H0 := vm_page_provider_ok [0x1000]) 100 heap_demo vm_demo _ heap_demo_inv vm_demo_inv
    ltac:(lia) ltac:(cbn; lia) eq_refl ltac:(vm_compute; discriminate)).
Defined.

Lemma kfree_refines_witness :
  kfree 0 heap_demo = Ret tt heap_demo ∧ kfree 0x400010 heap_demo = Ret tt heap_demo.
Proof.
  destruct (kfree_refines heap_demo [] (mkSeg 0x400000 4096 true) [] heap_demo_inv) as [H1 H2].
  split; [apply H1; [unfold is_u32; lia|by left]|]. reflexivity.
Defined.

Lemma heap_runs_tiled_witness :
  ∃ bs, tiles 0x400000 bs 0x401000 ∧ heap_get_used heap_demo1 = Ret (16 + used_size bs) heap_demo1.
Proof.
  assert (kmalloc 100 (heap_demo, vm_demo) = Ret 0x400010 (heap_demo1, vm_demo)) as Hk by reflexivity.
  destruct (heap_runs_tiled (H0 := vm_page_provider_ok [0x1000]) 0x400000 4096 (mkHeap ∅ ∅ 0 0 0 0 0) heap_demo vm_demo vm_demo heap_demo1
    ltac:(lia) eq_refl ltac:(lia) eq_refl ltac:(lia) eq_refl vm_demo_inv
    (rtc_once _ _ (step_kmalloc 100 0x400010 (heap_demo, vm_demo) (heap_demo1, vm_demo) ltac:(lia) ltac:(cbn; lia) Hk)))
    as (bs & _ & _ & Ht & Hu & _).
  exists bs. split; [exact Ht|exact Hu].
Defined.

Lemma kmalloc_aligned_spec_witness :
  wp (kmalloc_aligned 100 (2 ^ 8)) (heap_demo, vm_demo) (λ q s', q = 0 ∨ q mod 256 = 0).
Proof.
  eapply wp_mono; [exact (kmalloc_aligned_spec (H0 := vm_page_provider_ok [0x1000]) 100 8 heap_demo vm_demo _ heap_demo_inv vm_demo_inv
    ltac:(lia) ltac:(lia) ltac:(cbn; lia) ltac:(cbn; lia))|].
  intros q s' (bs' & _ & [|[H1 _]]); auto.
Defined.

Lemma kmalloc_wrap_hangs_witness :
  ∃ h', kmalloc 4294967280 (heap_demo, vm_demo) = Ret 0x400010 (h', vm_demo) ∧
    ∀ fuel m, find_loop fuel m 0x400000 h' = NoFuel.
Proof.
  exact (kmalloc_wrap_hangs 0x400000 4096 (mkHeap ∅ ∅ 0 0 0 0 0) heap_demo vm_demo
    ltac:(lia) ltac:(lia) ltac:(lia) eq_refl).
Defined.
