(* ===== verification/Storage.v ===== *)
(** * Storage: the file system on the real heap, disk and console

    fat32.c calls heap.c, ata.c and the log of kernel.c; Fat32.v states what it relies on as
    the interface [FatEnvOk].  Here the three components implement it on one machine: the heap
    of Heap.v on its page provider, the driver of Ata.v and the console of Console.v on the
    same ports.  The theorems of Fat32.v then hold of the whole stack, down to the sectors of
    the disk. *)

From S2P Require Import Prelude Pic Console Ata Pmm Paging Heap Vfs Fat32.

(** ** The heap as a stack of blocks

    [fat32.c] and its callers hold a few blocks at a time.  Releasing the last one brings the
    segments of the heap back to what they were before it was taken, and two blocks may be
    released in either order. *)

Definition last_free (l : list seg) : bool := match last l with Some c => s_free c | None => false end.

Definition head_free (l : list seg) : bool := match l with c :: _ => s_free c | [] => false end.

(** Some free segment has [r] bytes. *)
Definition roomy (r : Z) (bs : list seg) : Prop := ∃ b, b ∈ bs ∧ s_free b = true ∧ r ≤ s_size b.

(** The blocks [held], the last one first, each with the room there is once it and those before
    it in the list are released. *)
Fixpoint stacked (bs : list seg) (held : list (Z * Z)) (r : Z) : Prop :=
  coalesced bs = true ∧ roomy r bs ∧
  match held with
  | [] => True
  | (p, r0) :: held =>
      ∃ l b rs, bs = l ++ b :: rs ∧ s_free b = false ∧ p = s_addr b + 16 ∧ stacked (free_at l b rs) held r0
  end.

Lemma coalesced_split l r :
  coalesced (l ++ r) = coalesced l && coalesced r && negb (last_free l && head_free r).
Proof.
  induction l as [|x l IH].
  - cbn. by rewrite andb_true_r.
  - destruct l as [|y l].
    + destruct r as [|y r]; cbn; [by rewrite andb_false_r|by rewrite andb_comm].
    + change (coalesced ((x :: y :: l) ++ r)) with (negb (s_free x && s_free y) && coalesced ((y :: l) ++ r)).
      change (coalesced (x :: y :: l)) with (negb (s_free x && s_free y) && coalesced (y :: l)).
      change (last_free (x :: y :: l)) with (last_free (y :: l)). rewrite IH. by rewrite !andb_assoc.
Qed.

Lemma stacked_coalesced bs held r : stacked bs held r → coalesced bs = true ∧ roomy r bs.
Proof. destruct held; cbn; tauto. Qed.

(** Taking a block keeps neighbours apart. *)
Lemma coalesced_carve n l b r :
  coalesced (l ++ b :: r) = true → fits n b = true → coalesced (l ++ carve n b ++ r) = true.
Proof.
  intros Hc [Hf _]%andb_prop. change (b :: r) with ([b] ++ r) in Hc. rewrite !coalesced_split in Hc.
  unfold carve. cbv zeta. destruct (_ <=? s_size b); rewrite !coalesced_split; cbn in *; rewrite Hf in Hc;
    destruct (coalesced l), (coalesced r), (last_free l), (head_free r); done.
Qed.

(** Taking a block of [m] bytes from a heap with room for [m + 48] leaves the rest. *)
Lemma roomy_carve m l b rs r :
  0 ≤ m → fits m b = true → roomy r (l ++ b :: rs) → m + 48 ≤ r → roomy (r - (m + 16)) (l ++ carve m b ++ rs).
Proof.
  intros Hm0 [Hf Hn%Z.leb_le]%andb_prop (c & Hc & Hcf & Hcr) Hm. sizes. apply elem_of_app in Hc as [Hc|[->|Hc]%elem_of_cons].
  - exists c. split; [set_solver|]. split; [done|lia].
  - unfold carve. cbv zeta. sizes. destruct (Z.leb_spec (m + 16 + 32) (s_size b)); [|lia].
    exists (mkSeg (s_addr b + (m + 16)) (s_size b - (m + 16)) true). split; [set_solver|]. cbn. split; [done|lia].
  - exists c. split; [set_solver|]. split; [done|lia].
Qed.

Lemma alloc_roomy m bs r : roomy r bs → m + 16 ≤ r → alloc_list m bs ≠ None.
Proof.
  intros (b & Hb & Hf & Hr) Hm Hn. pose proof (alloc_list_split m bs) as Hs. rewrite Hn in Hs.
  specialize (Hs b Hb). unfold fits in Hs. sizes. rewrite Hf in Hs. cbn in Hs. lia.
Qed.

(** The block after the released one joins it when it is free. *)
Lemma join_next_good b r :
  0 ≤ s_size b → (∀ c, c ∈ r → 0 ≤ s_size c) → coalesced r = true →
  ∃ x r', join_next (mkSeg (s_addr b) (s_size b) true) r = (x, r') ∧ s_free x = true ∧
    coalesced r' = true ∧ head_free r' = false ∧ s_size b ≤ s_size x ∧
    ∀ c, c ∈ r → s_free c = true → c ∈ r' ∨ s_size c ≤ s_size x.
Proof.
  intros Hb Hsz Hc. destruct r as [|c r]; [by eexists _, _; split_and!; [done..| |set_solver]; cbn|]. cbn [join_next].
  destruct (s_free c) eqn:Hcf; eexists _, _; (split; [reflexivity|]); cbn; split_and!; try done.
  - destruct r as [|d r]; [done|]. cbn in Hc. by apply andb_prop in Hc as [_ ?].
  - destruct r as [|d r]; [done|]. cbn in Hc. rewrite Hcf in Hc. cbn in *. by destruct (s_free d).
  - assert (0 ≤ s_size c) by (apply Hsz; set_solver). lia.
  - intros d [->|Hd]%elem_of_cons _; [right; lia|by left].
  - intros d Hd _. by left.
Qed.

(** Releasing any block of a coalesced heap keeps it coalesced, and keeps the room. *)
Lemma free_at_good l b r room :
  (∀ c, c ∈ l ++ b :: r → 0 ≤ s_size c) → coalesced (l ++ b :: r) = true → s_free b = false → roomy room (l ++ b :: r) →
  coalesced (free_at l b r) = true ∧ roomy room (free_at l b r).
Proof.
  intros Hsz Hc Hb Hroom. change (b :: r) with ([b] ++ r) in Hc. rewrite !coalesced_split in Hc. cbn in Hc.
  unfold free_at.
  destruct (join_next_good b r) as (x & r' & -> & Hx & Hr' & Hh' & Hxs & Hrr);
    [apply Hsz; set_solver|intros c Hcr; apply Hsz; set_solver|by apply andb_prop in Hc as [[_ [? _]%andb_prop]%andb_prop _]|].
  assert (Hl : coalesced l = true) by (by apply andb_prop in Hc as [[? _]%andb_prop _]).
  assert (Hin : ∀ c, c ∈ l ++ b :: r → s_free c = true → room ≤ s_size c → c ∈ l ∨ c ∈ r' ∨ room ≤ s_size x).
  { intros c [Hcl|[->|Hcr]%elem_of_cons]%elem_of_app Hcf Hcs; [by left|congruence|].
    destruct (Hrr c Hcr Hcf); [right; by left|right; right; lia]. }
  destruct Hroom as (f & Hf1 & Hf2 & Hf3). destruct l as [|c l _] using rev_ind.
  - cbn. split.
    + destruct r' as [|d r']; [done|]. change (negb (s_free x && s_free d) && coalesced (d :: r') = true).
      change (s_free d = false) in Hh'. by rewrite Hh', Hr', andb_false_r.
    + destruct (Hin f Hf1 Hf2 Hf3) as [?|[?|?]]; [set_solver|exists f; set_solver|exists x; set_solver].
  - rewrite join_prev_snoc. assert (0 ≤ s_size c) by (apply Hsz; set_solver). assert (0 ≤ s_size b) by (apply Hsz; set_solver).
    rewrite coalesced_split in Hl. cbn in Hl. destruct (s_free c) eqn:Hcf.
    + split.
      * rewrite !coalesced_split. rewrite andb_true_r in *. unfold last_free. rewrite last_snoc. cbn.
        rewrite Hr', Hh'. rewrite !andb_true_r in *. exact Hl.
      * destruct (Hin f Hf1 Hf2 Hf3) as [Hfl|[?|?]].
        -- apply elem_of_app in Hfl as [?| ->%list_elem_of_singleton]; [exists f; set_solver|].
           eexists. split; [apply elem_of_app; left; apply elem_of_app; right; by left|]. cbn. split; [done|lia].
        -- exists f. set_solver.
        -- eexists. split; [apply elem_of_app; left; apply elem_of_app; right; by left|]. cbn. split; [done|lia].
    + split.
      * rewrite !coalesced_split. unfold last_free. rewrite !last_snoc. cbn. rewrite Hcf, Hr', Hh'.
        rewrite !andb_true_r, ?andb_false_r in *. cbn. rewrite ?andb_true_r. by destruct (coalesced l).
      * destruct (Hin f Hf1 Hf2 Hf3) as [Hfl|[?|?]]; [exists f; set_solver|exists f; set_solver|exists x; set_solver].
Qed.

(** The segments in use. *)
Definition live (bs : list seg) : list seg := filter (λ b, s_free b = false) bs.

Lemma live_cons b bs : live (b :: bs) = if s_free b then live bs else b :: live bs.
Proof. unfold live. rewrite filter_cons. destruct (s_free b); by case_decide. Qed.

Lemma live_app l r : live (l ++ r) = live l ++ live r.
Proof. apply filter_app. Qed.

(** Releasing a block takes it out of those in use, and the segments still tile the heap. *)
Lemma live_free_at l b r : live (free_at l b r) = live l ++ live r.
Proof.
  unfold free_at.
  assert (∃ x r', join_next (mkSeg (s_addr b) (s_size b) true) r = (x, r') ∧ s_free x = true ∧ live r' = live r)
    as (x & r' & -> & Hx & <-).
  { destruct r as [|c r]; cbn [join_next]; [by eexists _, _|].
    destruct (s_free c) eqn:Hc; eexists _, _; (split; [done|]); split; try done. by rewrite live_cons, Hc. }
  rewrite live_app. f_equal. destruct l as [|c l _] using rev_ind; [cbn [join_prev last]; by rewrite live_cons, Hx|].
  rewrite join_prev_snoc. destruct (s_free c) eqn:Hc; rewrite !live_app, !live_cons, ?Hc, ?Hx; cbn [s_free]; by rewrite ?Hx, ?app_nil_r.
Qed.

Lemma tiles_free_at a l b r e : tiles a (l ++ b :: r) e → tiles a (free_at l b r) e.
Proof.
  rewrite tiles_app. intros [Hl (Hb1 & Hb2 & Hb3 & Hr)]. unfold free_at.
  assert (∃ x r', join_next (mkSeg (s_addr b) (s_size b) true) r = (x, r') ∧ s_addr x = a + seg_total l ∧
    BLOCK_HEADER_SIZE ≤ s_size x ∧ s_size x mod 8 = 0 ∧ tiles (a + seg_total l + s_size x) r' e)
    as (x & r' & -> & X1 & X2 & X3 & X4).
  { destruct r as [|c r]; cbn; [by eexists _, _|]. destruct Hr as (C1 & C2 & C3 & C4). sizes.
    destruct (s_free c); eexists _, _; (split; [done|]); cbn; split_and!; try done; try lia; [mlia|].
    by rewrite Z.add_assoc. }
  destruct l as [|c l _] using rev_ind; [cbn in *; by rewrite Z.add_0_r in *|]. rewrite join_prev_snoc.
  rewrite seg_total_app in *. cbn in *. rewrite !Z.add_0_r in *. apply tiles_app in Hl as [Hl (C1 & C2 & C3 & C4)].
  destruct (s_free c); rewrite <- ?app_assoc; cbn; rewrite ?tiles_app; cbn.
  - sizes. split_and!; [done|done|lia|mlia|]. by rewrite <- !Z.add_assoc in *.
  - split_and!; try done; try lia. by rewrite <- !Z.add_assoc in *.
Qed.

Lemma live_start a l e : tiles a l e → head_free l = false → hd_addr (live l) e = a.
Proof. destruct l as [|b l]; [done|]. intros [<- _] Hf. rewrite live_cons. cbn in Hf. by rewrite Hf. Qed.

(** A coalesced heap is determined by the segments in use. *)
Lemma tiles_canonical a l1 l2 e :
  tiles a l1 e → tiles a l2 e → coalesced l1 = true → coalesced l2 = true → live l1 = live l2 → l1 = l2.
Proof.
  assert (Htail : ∀ x l, coalesced (x :: l) = true → coalesced l = true ∧ (s_free x = true → head_free l = false)).
  { intros x [|y l]; [done|]. intros [H1 H2]%andb_prop. split; [done|]. intros Hx. rewrite Hx in H1. cbn in *. by destruct (s_free y). }
  revert a l2. induction l1 as [|x l1 IH]; intros a [|y l2] T1 T2 C1 C2 L; [done| | |].
  - pose proof (tiles_bounds _ _ _ T2). cbn in T1, T2. sizes. destruct T2 as (_ & ? & _ & T2%tiles_bounds). lia.
  - cbn in T1, T2. sizes. destruct T1 as (_ & ? & _ & T1%tiles_bounds). lia.
  - destruct T1 as (X1 & X2 & _ & T1), T2 as (Y1 & Y2 & _ & T2). sizes.
    destruct (Htail _ _ C1) as [C1' H1], (Htail _ _ C2) as [C2' H2]. rewrite !live_cons in L.
    destruct x as [xa xs xf], y as [ya ys yf]. cbn in *. subst xa ya.
    destruct xf, yf.
    + apply live_start in T1 as S1; [|auto]. apply live_start in T2 as S2; [|auto]. rewrite L in S1.
      replace ys with xs in * by lia. f_equal. by apply (IH (a + xs)).
    + apply live_start in T1 as S1; [|auto]. rewrite L in S1. cbn in S1. lia.
    + apply live_start in T2 as S2; [|auto]. rewrite <- L in S2. cbn in S2. lia.
    + injection L as <- L. f_equal. by apply (IH (a + xs)).
Qed.

Lemma live_NoDup a bs e : tiles a bs e → NoDup (live bs).
Proof. intros T%tiles_NoDup. apply NoDup_filter. by apply NoDup_fmap_1 in T. Qed.

Lemma filter_out {A} `{EqDecision A} (x : A) (l : list A) : x ∉ l → filter (λ y, y ≠ x) l = l.
Proof.
  induction l as [|y l IH]; [done|]. intros Hx. rewrite filter_cons_True; [|set_solver]. f_equal. apply IH. set_solver.
Qed.

Lemma filter_mid {A} `{EqDecision A} (x : A) (l r : list A) : NoDup (l ++ x :: r) → filter (λ y, y ≠ x) (l ++ x :: r) = l ++ r.
Proof.
  intros (_ & Hd & [Hr _]%NoDup_cons)%NoDup_app. rewrite filter_app, filter_cons_False by (intros Hx; by apply Hx).
  rewrite !filter_out; [done|done|]. intros Hx. apply (Hd x Hx). by left.
Qed.

(** Two blocks may be released in either order. *)
Lemma free_at_comm a e l b r l1 c r1 l2 r2 l3 r3 :
  tiles a (l ++ b :: r) e → coalesced (free_at l2 c r2) = true → coalesced (free_at l3 b r3) = true →
  s_free b = false → s_free c = false → l ++ b :: r = l1 ++ c :: r1 → free_at l b r = l2 ++ c :: r2 → free_at l1 c r1 = l3 ++ b :: r3 →
  free_at l2 c r2 = free_at l3 b r3.
Proof.
  intros T C2 C3 Hb Hc E1 E2 E3. pose proof (tiles_free_at _ _ _ _ _ T) as T2.
  pose proof T as T3. rewrite E1 in T3. apply tiles_free_at in T3.
  rewrite E2 in T2. rewrite E3 in T3.
  apply (tiles_canonical a _ _ e); [by apply tiles_free_at..|done|done|].
  pose proof (live_free_at l b r) as L2. pose proof (live_free_at l1 c r1) as L3. rewrite E2 in L2. rewrite E3 in L3.
  pose proof (live_NoDup _ _ _ T) as N1. pose proof N1 as N4. rewrite E1 in N4. apply (f_equal live) in E1.
  pose proof (live_NoDup _ _ _ T2) as N2. pose proof (live_NoDup _ _ _ T3) as N3.
  rewrite !live_app, !live_cons, ?Hb, ?Hc in *. rewrite !live_free_at.
  rewrite <- (filter_mid c _ _ N2), <- (filter_mid b _ _ N3), L2, L3, <- (filter_mid b _ _ N1), <- (filter_mid c _ _ N4), E1.
  rewrite !list_filter_filter. apply list_filter_iff. naive_solver.
Qed.

Lemma elem_of_live b bs : b ∈ live bs ↔ s_free b = false ∧ b ∈ bs.
Proof. unfold live. by rewrite list_elem_of_filter. Qed.

(** The block below the last one may be released first. *)
Lemma stacked_swap a e bs q rq p rp held r :
  tiles a bs e → stacked bs ((q, rq) :: (p, rp) :: held) r →
  ∃ l b rs, bs = l ++ b :: rs ∧ s_free b = false ∧ p = s_addr b + 16 ∧ stacked (free_at l b rs) ((q, rp) :: held) r.
Proof.
  intros T (Hco & Hrm & l & b & rs & -> & Hb & -> & Hco2 & _ & l2 & c & r2 & E2 & Hc & -> & Hst).
  assert (Hsz : ∀ d, d ∈ l ++ b :: rs → 0 ≤ s_size d) by (intros d Hd; destruct (tiles_bounds _ _ _ T) as [_ G]; specialize (G d Hd); lia).
  pose proof (live_NoDup _ _ _ T) as N. pose proof (live_free_at l b rs) as L. rewrite E2, live_app, live_cons, Hc in L.
  assert (Hin : c ∈ live l ++ live rs) by (rewrite <- L; set_solver).
  rewrite live_app, live_cons, Hb in N. apply NoDup_app in N as (_ & N1 & [N2 _]%NoDup_cons).
  assert (Hbc : b ≠ c) by (intros ->; apply elem_of_app in Hin as [Hin|Hin]; [apply (N1 _ Hin); by left|done]).
  assert (Hcb : c ∈ l ++ b :: rs) by (apply elem_of_app in Hin as [[_ ?]%elem_of_live|[_ ?]%elem_of_live]; set_solver).
  apply list_elem_of_split in Hcb as (l1 & r1 & E1).
  assert (Hb1 : b ∈ l1 ∨ b ∈ r1).
  { assert (Hbl : b ∈ l1 ++ c :: r1) by (rewrite <- E1; set_solver).
    apply elem_of_app in Hbl as [?|[?|?]%elem_of_cons]; [by left|done|by right]. }
  destruct (free_at_good l1 c r1 r) as [G1 G2]; [by rewrite <- E1|by rewrite <- E1|done|by rewrite <- E1|].
  exists l1, c, r1. split_and!; [done|done|done|]. cbn [stacked]. split_and!; [done|done|].
  pose proof (free_at_keeps l1 c r1 b Hb1 Hb) as Hbk. apply list_elem_of_split in Hbk as (l3 & r3 & E3).
  exists l3, b, r3. split_and!; [done|done|done|]. pose proof (tiles_free_at _ _ _ _ _ T) as T2.
  pose proof T as T3. rewrite E1 in T3. apply tiles_free_at in T3.
  rewrite <- (free_at_comm a e l b rs l1 c r1 l2 r2 l3 r3); try done.
  - by apply stacked_coalesced in Hst as [? _].
  - rewrite E3 in *. apply (free_at_good l3 b r3 r); try done.
    intros d Hd. destruct (tiles_bounds _ _ _ T3) as [_ G]. specialize (G d Hd). lia.
Qed.

(** ** One machine *)

(** Static variables of heap.c, ata.c and kernel.c, and the provider of the heap's pages; the
    devices are in the console. *)
Record storage (D P : Type) := mkStorage {
  st_heap : heap;
  st_pages : P;
  st_drives : list ata_drive;
  st_count : Z;
  st_con : console D
}.

Arguments mkStorage {D P}.
Arguments st_heap {D P}.
Arguments st_pages {D P}.
Arguments st_drives {D P}.
Arguments st_count {D P}.
Arguments st_con {D P}.

(** The variables of ata.c with the devices. *)
Definition st_ata {D P} (e : storage D P) : ata D := mkAta (st_drives e) (st_count e) (machine (st_con e)).

Definition set_ata {D P} (a : ata D) (e : storage D P) : storage D P :=
  mkStorage (st_heap e) (st_pages e) (drives a) (drive_count a) (set_machine (ports a) (st_con e)).

(** The calls of fat32.c. *)
Definition storage_env {D P} `{WordDevice D} `{PageProvider P} (polls : nat) : FatEnv (storage D P) := {|
  fe_malloc n := zoom (λ e, (st_heap e, st_pages e))
    (λ p e, mkStorage p.1 p.2 (st_drives e) (st_count e) (st_con e)) (kmalloc n);
  fe_free p := zoom st_heap (λ h e, mkStorage h (st_pages e) (st_drives e) (st_count e) (st_con e)) (kfree p);
  fe_read lba count := zoom (λ s, (s.1, st_ata s.2)) (λ p s, (p.1, set_ata p.2 s.2)) (ata_read_sectors polls 0 lba count);
  fe_log msg := zoom st_con (λ c e, mkStorage (st_heap e) (st_pages e) (st_drives e) (st_count e) c) (log_info polls msg)
|}.

(** What a board promises: the serial port and the disk do not disturb each other. *)
Class Board (D : Type) (io : Z) `{WordDevice D, !UartDevice D, !AtaDevice D io} := {
  board_poll k : disk_of (dev_in 0x3FD k).2 = disk_of k;
  board_send v k : disk_of (dev_out 0x3F8 v k) = disk_of k;
  board_out reg v k : 1 ≤ reg ≤ 7 → uart_ready k → uart_ready (dev_out (io + reg) v k);
  board_status k : uart_ready k → uart_ready (dev_in (io + 7) k).2;
  board_data k : uart_ready k → uart_ready (dev_inw io k).2
}.

(** A property of the devices that the serial line and the disk transfers do not touch. *)
Record kept {D} `{WordDevice D} (io : Z) (I : D → Prop) : Prop := mkKept {
  kept_poll k : I k → I (dev_in 0x3FD k).2;
  kept_send v k : I k → I (dev_out 0x3F8 v k);
  kept_out reg v k : 1 ≤ reg ≤ 7 → I k → I (dev_out (io + reg) v k);
  kept_status k : I k → I (dev_in (io + 7) k).2;
  kept_data k : I k → I (dev_inw io k).2
}.

(** The sectors of a disk as a volume of bytes. *)
Definition volume_of (size : Z) (data : gmap Z (list Z)) : volume :=
  mkVolume size (λ i, bytes_of (default (replicate 256 0) (data !! i))).

(** ** Lemmas *)

(** What a read does to the devices: writes of registers, polls of the status and reads of
    words, and nothing else. *)
Section keeps.
Context {D : Type} `{WordDevice D} (io : Z) (I : D → Prop).
Context (Hio : 0 ≤ io < 65528).
Context (Hout : ∀ reg v k, 1 ≤ reg ≤ 7 → I k → I (dev_out (io + reg) v k)).
Context (Hstatus : ∀ k, I k → I (dev_in (io + 7) k).2).
Context (Hdata : ∀ k, I k → I (dev_inw io k).2).

Lemma wlp_outb reg v k : 1 ≤ reg ≤ 7 → I k → wlp (outb (io + reg) v) k (λ _ k', I k').
Proof. intros Hr Hk. unfold outb, wlp, modify. rewrite w16_small by lia. by apply Hout. Qed.

Lemma wlp_status k : I k → wlp (inb (io + ATA_REG_STATUS)) k (λ _ k', I k').
Proof.
  intros Hk. change ATA_REG_STATUS with 7. unfold wlp, inb. rewrite w16_small by lia. specialize (Hstatus k Hk).
  by destruct (dev_in (io + 7) k).
Qed.

Lemma wlp_wait_bsy n k : I k → wlp (ata_wait_bsy n io) k (λ _ k', I k').
Proof.
  revert k. induction n as [|n IH]; intros k Hk; cbn [ata_wait_bsy]; [done|].
  apply wlp_bind. eapply wlp_mono; [by apply wlp_status|]. intros v k' Hk'. destruct (truth _); [by apply IH|done].
Qed.

Lemma wlp_wait_ready n k : I k → wlp (wait_ready_loop n io) k (λ _ k', I k').
Proof.
  revert k. induction n as [|n IH]; intros k Hk; cbn [wait_ready_loop]; [done|].
  apply wlp_bind. eapply wlp_mono; [by apply wlp_status|]. intros v k' Hk'.
  destruct (truth _); [done|]. destruct (truth _); [done|]. destruct (_ && _); [done|by apply IH].
Qed.

Lemma wlp_start_transfer n d lba count cmd k :
  io_base d = io → I k → wlp (start_transfer n d lba count cmd) k (λ _ k', I k').
Proof.
  intros Hd Hk. unfold start_transfer. rewrite Hd. apply wlp_bind. eapply wlp_mono; [by apply wlp_wait_bsy|]. intros ? k0 Hk0.
  do 5 (apply wlp_bind; eapply wlp_mono; [apply wlp_outb; [split; vm_compute; congruence|eassumption]|]; cbv beta; intros ? ? ?).
  apply wlp_outb; [split; vm_compute; congruence|done].
Qed.

Lemma wlp_read_sectors n drive lba count buf (s : ata D) :
  (∀ d, arr_get (drives s) drive = Some d → io_base d = io) → I (ports s) →
  wlp (ata_read_sectors n drive lba count) (buf, s) (λ _ r, I (ports r.2)).
Proof.
  intros Hd Hk. unfold ata_read_sectors. apply wlp_bind. unfold wlp at 1, gets. cbn [snd].
  apply wlp_bind. unfold wlp at 1, usable_drive. destruct (MAX_DRIVES <=? drive); [done|]. unfold bind.
  destruct (arr_get (drives s) drive) as [d|]; [|done]. specialize (Hd d eq_refl). cbn [expect ret].
  destruct (drive_present d); [|done]. apply wlp_bind.
  unfold on_disk at 1. apply wlp_zoom. eapply wlp_mono; [by apply wlp_start_transfer|]. intros ? k1 Hk1. apply wlp_bind.
  eapply wlp_mono; [apply (wlp_for_ret (λ r, I (ports r.2))); [|exact Hk1]|intros ? ? ?; done].
  intros i [b1 a1] Ha. apply wlp_bind. unfold on_disk at 1. apply wlp_zoom. rewrite Hd.
  eapply wlp_mono; [by apply wlp_wait_ready|]. intros ok k2 Hk2. destruct (negb ok); [done|]. apply wlp_bind.
  eapply wlp_mono; [apply (wlp_for (λ r, I (ports r.2))); [|exact Hk2]|intros ? ? ?; done].
  intros j [b2 a2] Ha'. apply wlp_bind. unfold on_disk. apply wlp_zoom. unfold wlp at 1, inw. change ATA_REG_DATA with 0.
  rewrite Z.add_0_r, w16_small by lia. cbn in Ha'. pose proof (Hdata _ Ha') as Hd2. cbn [snd ports].
  destruct (dev_inw io (ports a2)) as [x k3]. unfold on_buffer. apply wlp_zoom. unfold wlp. by destruct (put_word _ _ _).
Qed.

End keeps.

Lemma kept_true {D} `{WordDevice D} io : kept io (λ _ : D, True).
Proof. by split. Qed.

(** The segments of the heap have a size. *)
Lemma heap_sizes h bs c : heap_inv h bs → c ∈ bs → 0 ≤ s_size c.
Proof.
  intros [Hs _] Hc. apply list_elem_of_split in Hc as (l & r & ->).
  destruct (shape_at _ _ _ _ Hs) as (_ & _ & _ & _ & _ & Hsz & _). lia.
Qed.

Section storage.
Context {D P : Type} {io : Z} `{Board D io} `{PageProviderOk P}.
Implicit Types e : storage D P.

(** What is known of the pages; nothing here changes them, as long as the heap has room. *)
Context (J : P → Prop) (HJ : ∀ p, J p → pp_inv p).

(** What is known of the other devices. *)
Context (I : D → Prop) (HI : kept io I).

(** The heap holds the blocks [held]; there is room for [r] bytes in one piece. *)
Definition heap_ready e (held : list (Z * Z)) (r : Z) : Prop :=
  J (st_pages e) ∧ heap_start (st_heap e) + heap_size (st_heap e) ≤ 0xFFFFD000 ∧
  ∃ bs, heap_inv (st_heap e) bs ∧ stacked bs held r.

(** The serial port is up, and the disk at drive 0 is idle and holds the volume; the arrays of
    kernel.c have their sizes. *)
Definition devices_ready e (v : volume) : Prop :=
  I (machine (st_con e)) ∧ length (login_username (st_con e)) = 32%nat ∧ length (login_password (st_con e)) = 32%nat ∧
  length (VGA_MEMORY (st_con e)) = 4000%nat ∧ uart_ready (machine (st_con e)) ∧ drive_at (st_ata e) 0 ∧
  disk_wf (disk_of (machine (st_con e))) ∧ disk_idle disk_delay (disk_of (machine (st_con e))) ∧
  d_size (disk_of (machine (st_con e))) ≤ 268435456 ∧
  v = volume_of (d_size (disk_of (machine (st_con e)))) (d_data (disk_of (machine (st_con e)))).

Definition storage_ready v e held r : Prop := heap_ready e held r ∧ devices_ready e v.

Lemma bytes_of_sectors (k : disk) lba n :
  bytes_of (sector_words k lba n) = concat (v_sector (volume_of (d_size k) (d_data k)) <$> seqZ lba n).
Proof.
  unfold sector_words. induction (seqZ lba n) as [|i l IH]; [done|].
  cbn [fmap list_fmap concat]. by rewrite bytes_of_app, IH.
Qed.

(** A block that is never released may be forgotten. *)
Lemma storage_forget v e held r : storage_ready v e held r → storage_ready v e [] r.
Proof.
  intros [(Hp & Ht & bs & Hi & Hst) Hd]. split; [|done]. split; [done|]. split; [done|]. exists bs. split; [done|].
  destruct (stacked_coalesced _ _ _ Hst) as [G1 G2]. by cbn.
Qed.

Lemma storage_vol_wf v e held r : storage_ready v e held r → vol_wf v.
Proof.
  intros [_ (_ & _ & _ & _ & _ & _ & Hwf & _ & Hsz & ->)]. split; [done|]. intros i. cbn [v_sector volume_of].
  assert (Hs : length (default (replicate 256 0) (d_data (disk_of (machine (st_con e))) !! i)) = 256%nat ∧
    Forall (λ w, 0 ≤ w < 65536) (default (replicate 256 0) (d_data (disk_of (machine (st_con e))) !! i))).
  { destruct (d_data _ !! i) as [ws|] eqn:Hi; [by apply (Hwf i)|]. split; [done|apply Forall_replicate; lia]. }
  destruct Hs as [Hl Hb]. split.
  - by rewrite length_bytes_of, Hl.
  - revert Hb. clear. induction 1 as [|w ws Hw _ IH]; [constructor|].
    change (bytes_of (w :: ws)) with (word_bytes w ++ bytes_of ws). apply Forall_app. split; [|done].
    unfold word_bytes. repeat constructor; mlia.
Qed.

Context (polls : nat).

Lemma storage_malloc v e held r n :
  storage_ready v e held r → 0 < n → n + 64 ≤ r →
  wp (@fe_malloc _ (storage_env polls) n) e (λ p e', p ≠ 0 ∧ storage_ready v e' ((p, r) :: held) (r - (n + 64))).
Proof.
  intros [(Hp & Htop & bs & Hi & Hst) Hd] Hn Hroom. cbn. wp_step. destruct (stacked_coalesced _ _ _ Hst) as [Hco Hrm].
  assert (Hlim : n + 64 ≤ 4294967295).
  { destruct Hrm as (b & Hb & _ & Hr). pose proof Hi as [Hs _]. apply list_elem_of_split in Hb as (l & rr & ->).
    destruct (shape_at _ _ _ _ Hs) as (_ & _ & _ & Hb0 & _ & Hsz & _ & Ht). lia. }
  destruct (align8_spec n ltac:(lia)) as [Ha Hle].
  pose proof (alloc_roomy (align8 n) bs r Hrm ltac:(lia)) as Hsome. pose proof (alloc_list_split (align8 n) bs) as Hsp.
  apply (wp_kmalloc_aligned_size n _ _ bs); [done|by apply HJ|lia|lia|rewrite Ha; mlia|lia|].
  destruct (alloc_list (align8 n) bs) as [[a bs']|] eqn:Hal; [|done].
  destruct (alloc_list_total _ _ _ _ Hal) as [E1 E2]. destruct Hsp as (l & b & rs & -> & Hfit & -> & ->).
  intros h' Hi'. cbn [fst snd]. pose proof Hi as [Hs _].
  destruct (shape_at _ _ _ _ Hs) as (_ & _ & _ & Hb0 & _). sizes. split; [lia|].
  assert (Hroom' : heap_start h' + heap_size h' = heap_start (st_heap e) + heap_size (st_heap e)).
  { rewrite (inv_top h' _ Hi'), (inv_top _ _ Hi). lia. }
  split; [|exact Hd]. split; [done|]. split; [cbn; lia|]. exists (l ++ carve (align8 n) b ++ rs). split; [done|].
  cbn [stacked]. split; [by apply coalesced_carve|]. split.
  - destruct (roomy_carve (align8 n) l b rs r) as (c & Hc1 & Hc2 & Hc3); [lia|done|done|lia|]. exists c. split_and!; [done|done|lia].
  - destruct (free_carve (align8 n) l b rs Hco Hfit) as (c & r' & -> & Ea & Hcf & Efree).
    exists l, c, r'. rewrite Efree, Ea. by split_and!.
Qed.

Lemma storage_free v e p r0 held r :
  storage_ready v e ((p, r0) :: held) r → wp (@fe_free _ (storage_env polls) p) e (λ _ e', storage_ready v e' held r0).
Proof.
  intros [(Hp & Htop & bs & Hi & Hst) Hd]. cbn. wp_step. destruct Hst as (_ & _ & l & b & rs & -> & Hb & -> & Hst).
  apply (wp_kfree_live _ l b rs); [done|done|]. intros h' Hi'. destruct (free_at_total l b rs) as [E1 E2].
  pose proof (inv_top _ _ Hi) as T1. pose proof (inv_top _ _ Hi') as T2.
  split; [|exact Hd]. split; [done|]. split; [cbn; lia|]. by exists (free_at l b rs).
Qed.

Lemma storage_free_under v e q rq p rp held r :
  storage_ready v e ((q, rq) :: (p, rp) :: held) r →
  wp (@fe_free _ (storage_env polls) p) e (λ _ e', storage_ready v e' ((q, rp) :: held) r).
Proof.
  intros [(Hp & Htop & bs & Hi & Hst) Hd]. cbn. wp_step.
  destruct (stacked_swap _ _ _ _ _ _ _ _ _ (hs_tiles _ _ (proj1 Hi)) Hst) as (l & b & rs & -> & Hb & -> & Hst').
  apply (wp_kfree_live _ l b rs); [done|done|]. intros h' Hi'. destruct (free_at_total l b rs) as [E1 E2].
  pose proof (inv_top _ _ Hi) as T1. pose proof (inv_top _ _ Hi') as T2.
  split; [|exact Hd]. split; [done|]. split; [cbn; lia|]. by exists (free_at l b rs).
Qed.

Lemma storage_read v e held r lba count b :
  (disk_delay < polls)%nat → (disk_delay < ready_timeout)%nat →
  storage_ready v e held r → 0 ≤ lba → 1 ≤ count < 256 → lba + count ≤ v_sectors v → 512 * count ≤ Z.of_nat (length b) →
  wp (@fe_read _ (storage_env polls) lba count) (b, e) (λ ok s, ok = true ∧
    s.1 = concat (v_sector v <$> seqZ lba count) ++ drop (512 * Z.to_nat count) b ∧ storage_ready v s.2 held r).
Proof.
  intros Hp1 Hp2 [Hh (HIk & Hnu & Hnp & Hl & Hu & Hdr & Hwf & Hid & Hsz & ->)] Hlba Hc Hfit Hb. cbn in Hfit. cbn. wp_step. cbn [fst snd].
  assert (Hmod : lba mod 268435456 = lba) by (apply Z.mod_small; lia).
  eapply wp_mono; [apply wp_wlp_and|].
  - apply (ata_read_run polls 0 lba count b (st_ata e)); [done|done|done|done|done|unfold is_u32; lia|done|rewrite Hmod; done|done].
  - apply (wlp_read_sectors io (λ k, uart_ready k ∧ I k)); [apply disk_port| | | | |exact (conj Hu HIk)].
    1: { intros reg w k Hr [G1 G2]. split; [by apply board_out|by apply HI]. }
    1: { intros k [G1 G2]. split; [by apply board_status|by apply HI]. }
    1: { intros k [G1 G2]. split; [by apply board_data|by apply HI]. }
    intros d Hd'. destruct Hdr as (_ & d2 & Hd2 & _ & Hio & _). congruence.
  - intros ok [b' a'] [(-> & Hb' & Hdrv & Hdata & Hsize & Hdr' & Hid') [Hu' HIk']]. cbn [fst snd] in *. split; [done|].
    split; [by rewrite Hb', Hmod, bytes_of_sectors|]. split; [exact Hh|].
    unfold devices_ready. cbn. unfold disk_wf in *. rewrite Hdata, Hsize. split_and!; try done; try apply Hid'.
Qed.

Lemma storage_log v e held r msg txt :
  (uart_delay < polls)%nat → storage_ready v e held r → holds msg txt → Forall (λ c, 0 ≤ c < 256) txt →
  wp (@fe_log _ (storage_env polls) msg) e (λ _ e', storage_ready v e' held r).
Proof.
  intros Hp [Hh (HIk & Hnu & Hnp & Hl & Hu & Hdr & Hwf & Hid & Hsz & ->)] Hm Hb. cbn. wp_step.
  apply (wp_log_any (λ k, disk_of k = disk_of (machine (st_con e)) ∧ I k)) with txt; try done.
  - intros k [<- Hk]. split; [apply board_poll|by apply HI].
  - intros v k [<- Hk]. split; [apply board_send|by apply HI].
  - intros c Hwf' Hu' [Hk HIc] _ [Hn1 Hn2]. split; [exact Hh|]. destruct Hwf' as [Hl' _].
    destruct Hdr as [? Hdr]. unfold devices_ready, drive_at, st_ata in *. cbn in *. rewrite Hk, Hn1, Hn2. by split_and!.
Qed.

(** Bounds on the polls a run needs: more than the devices are busy for. *)
Context (Hdisk : (disk_delay < polls)%nat) (Hready : (disk_delay < ready_timeout)%nat) (Huart : (uart_delay < polls)%nat).

(** The heap, the driver and the console keep what fat32.c relies on. *)
#[global] Program Instance storage_ok : @FatEnvOk (storage D P) (storage_env polls) := {| fe_ready := storage_ready |}.
Next Obligation. apply storage_malloc. Qed.
Next Obligation. apply storage_free. Qed.
Next Obligation. apply storage_free_under. Qed.
Next Obligation. apply storage_forget. Qed.
Next Obligation. intros v e held r lba count b. by apply storage_read. Qed.
Next Obligation. intros v e held r msg txt Hr Hm Hb. by apply (storage_log v e held r msg txt). Qed.

End storage.

(** ** Properties *)

(** C29. The whole storage stack on one machine: when the disk at drive 0 holds a FAT32 volume
    with a file of the given name in its root directory, mounting it, looking the name up and
    reading through the switch return, with the bytes of the clusters of the file from the
    offset on in the caller's buffer; every sector comes from the disk through the ports of
    the driver, every block from the heap's list, every log line goes to the serial port, and
    afterwards heap, disk and serial port are ready again.  Only the two nodes, of the root
    directory and of the file, stay allocated. *)
Theorem disk_file_read {D P io} `{Board D io} `{PageProviderOk P} polls v b fuel name txt ds e cs offset size buf
    (s : fs (storage D P)) r :
  (disk_delay < polls)%nat → (disk_delay < ready_timeout)%nat → (uart_delay < polls)%nat →
  storage_ready pp_inv (λ _, True) v (env s) [] r → 1 ≤ v_sectors v → bpb_at (v_sector v 0) = Some b → mounted v (laid_out b s) →
  fat_size_32 b ≠ 0 → num_fats b ≠ 0 →
  chain v (laid_out b s) (bpb_root_cluster b) ds → (length ds < fuel)%nat →
  holds name txt → head (filter (named txt) (listing (dir_entries v (laid_out b s) ds))) = Some e →
  truth (Z.land (e_attr e) ATTR_DIRECTORY) = false →
  chain v (laid_out b s) (first_cluster e) cs → (length cs ≤ fuel)%nat →
  is_u32 offset → is_u32 size → size ≤ Z.of_nat (length buf) → Z.of_nat (length buf) < 4294967296 →
  2 * csize (laid_out b s) + 1200 ≤ r →
  let E := storage_env polls in
  wp (file ← beside (fat32_init;; root ← gets fs_root; vfs_finddir node_at (run_finddir fuel) root name);
      vfs_read node_at (run_read fuel) file offset size) (buf, s) (λ k t,
    let data := take (Z.to_nat size) (drop (Z.to_nat offset) (contents v (laid_out b s) cs)) in
    k = Z.of_nat (length data) ∧ t.1 = data ++ drop (length data) buf ∧
    storage_ready pp_inv (λ _, True) v (env t.2) [] (r - csize (laid_out b s) - 560)).
Proof.
  intros Hp1 Hp2 Hp3 Hr Hsec Hb Hm Hfs Hnf Hdir Hdf Hname Hent Hfile Hch Hcf Ho Hs Hbuf Hbuf2 Hroom E.
  set (EO := storage_ok pp_inv (λ p Hp, Hp) (λ _, True) (kept_true io) polls Hp1 Hp2 Hp3).
  wp_step. unfold beside at 1. wp_step. cbn [snd fst]. wp_step.
  assert (Hcs : 512 ≤ csize (laid_out b s)) by (destruct Hm as (_ & _ & ? & _); unfold csize; lia).
  assert (Hv : vol_wf v) by exact (storage_vol_wf pp_inv (λ _, True) v _ _ _ Hr).
  apply (wp_fat32_init v b s r); [done|done|done|lia|done|].
  assert (Hspc : (bytes_per_sector b =? 0) || (sectors_per_cluster b =? 0) || (fat_size_32 b =? 0) || (num_fats b =? 0) = false).
  { destruct Hm as (_ & G1 & G2 & _). cbn in G1, G2. lia. }
  rewrite Hspc. intros root e1 Hroot He1%(storage_forget pp_inv (λ _, True)). set (s1 := set_env e1 _). wp_step. wp_step.
  assert (L1 : same_layout (laid_out b s) s1) by done.
  unfold vfs_finddir. wp_step. unfold node_at at 1. wp_step. wp_step.
  eapply wp_expect; [apply lookup_insert_eq|]. wp_step. unfold directory_callback. cbn [n_flags root_node]. wp_step.
  eapply wp_expect; [reflexivity|]. cbn [n_finddir]. change (Z.land FS_DIRECTORY 0x7 =? FS_DIRECTORY) with true.
  eapply wp_expect; [reflexivity|]. cbn [run_finddir].
  apply (wp_fat32_finddir v fuel root (root_node b) (bpb_root_cluster b) ds name txt s1 [] (r - 248));
    [done|apply lookup_insert_eq|done|by apply (chain_layout v (laid_out b s))|done|done|exact He1|change (csize s1) with (csize (laid_out b s)); lia|].
  change (dir_entries v s1 ds) with (dir_entries v (laid_out b s) ds). rewrite Hent. intros file e2 Hf He2%(storage_forget pp_inv (λ _, True)).
  set (s2 := set_env e2 _). assert (L2 : same_layout (laid_out b s) s2) by done.
  unfold vfs_read. wp_step. unfold beside. wp_step. cbn [fst snd]. unfold node_at. wp_step. wp_step.
  eapply wp_expect; [apply lookup_insert_eq|]. unfold entry_node. rewrite Hfile. wp_step.
  eapply wp_expect; [reflexivity|]. cbn [run_read].
  eapply wp_mono; [apply (wp_fat32_read v fuel file (entry_node e) (first_cluster e) cs offset size buf s2 [] (r - 248 - csize s1 - 312))|];
    [done|apply lookup_insert_eq|by unfold entry_node; rewrite Hfile|by apply (chain_layout v (laid_out b s))|done..|exact He2|
     change (csize s2) with (csize (laid_out b s)); change (csize s1) with (csize (laid_out b s)); lia|].
  cbv zeta. intros k [buf' t] (Hk & Hd & e3 & -> & He3). rewrite (contents_layout v (laid_out b s) s2 cs L2) in *.
  split_and!; [done|done|]. cbn [snd env set_env].
  by replace (r - csize (laid_out b s) - 560) with (r - 248 - csize s1 - 312) by (change (csize s1) with (csize (laid_out b s)); lia).
Qed.

(** ** A serial port and a disk on one bus *)

#[global] Instance bus_device : Device (uart * disk) := {|
  dev_in port k :=
    if port =? 0x3FD then let '(v, u) := dev_in port k.1 in (v, (u, k.2))
    else let '(v, d) := dev_in port k.2 in (v, (k.1, d));
  dev_out port v k := (dev_out port v k.1, dev_out port v k.2)
|}.

#[global] Instance bus_words : WordDevice (uart * disk) := {|
  dev_inw port k := let '(v, d) := dev_inw port k.2 in (v, (k.1, d));
  dev_outw port v k := (k.1, dev_outw port v k.2)
|}.

#[global] Program Instance bus_uart : UartDevice (uart * disk) := {| uart_of k := k.1; uart_delay := 2%nat |}.
Next Obligation. intros port v k. by exists 2%nat. Qed.
Next Obligation. intros k. cbn. by destruct (u_busy k.1). Qed.

#[global] Program Instance bus_disk : AtaDevice (uart * disk) 0x1F0 := {| disk_of k := k.2; disk_delay := 3%nat |}.
Next Obligation. done. Qed.
Next Obligation. intros reg v [u k] Hr. exact (disk_dev_out (AtaDevice := disk_bare) reg v k Hr). Qed.
Next Obligation. intros port v [u k] Hr. exact (disk_dev_other (AtaDevice := disk_bare) port v k Hr). Qed.
Next Obligation. done. Qed.
Next Obligation. done. Qed.
Next Obligation. intros [u k]. exists 3%nat. unfold dev_inw, bus_words. cbn [fst snd]. by destruct (disk_inw 3 k) eqn:E; cbn; rewrite E. Qed.
Next Obligation. intros v [u k]. by exists 3%nat. Qed.

#[global] Program Instance bus_board : Board (uart * disk) 0x1F0.
Next Obligation. intros [u k]. done. Qed.
Next Obligation. intros v [u k]. done. Qed.
Next Obligation.
  intros reg v [u k] Hr Hu. unfold uart_ready in *. cbn [uart_of bus_uart fst dev_out bus_device uart_device].
  by rewrite uart_elsewhere by lia.
Qed.
Next Obligation. intros [u k] Hu. done. Qed.
Next Obligation. intros [u k] Hu. unfold dev_inw, bus_words. by destruct (disk_inw 3 k) eqn:E; cbn; rewrite E. Qed.

(** ** The property at a concrete input

    The disk of 64 sectors holds the volume of Fat32.v; the heap has one page. *)

Fixpoint words_of (bs : list Z) : list Z :=
  match bs with
  | lo :: hi :: bs => (lo + 256 * hi) :: words_of bs
  | _ => []
  end.

Definition fat_disk : disk :=
  mkDisk {[ 0 := words_of boot_demo; 1 := words_of fat_demo; 2 := words_of root_demo; 3 := replicate 256 0x4141;
            4 := replicate 256 0x4242 ]} 64 (replicate 256 0x2020) false 0 Idle 0 0 0 0 0xA0.

Definition storage_demo : storage (uart * disk) vm :=
  mkStorage heap_demo vm_demo [drive_demo; absent_demo; absent_demo; absent_demo] 1 (console_demo (uart_demo, fat_disk)).

Definition no_bpb : fat_bpb := mkBpb [] [] 0 0 0 0 0 0 0 0 0 0 0 0 0 0 0 0 0 0 [] 0 0 0 0 [] [].

Definition unmounted_demo : fs (storage (uart * disk) vm) := mkFs no_bpb 0 0 0 0 ∅ ∅ storage_demo.

Definition disk_volume : volume := volume_of 64 (d_data fat_disk).

Definition boot_record : fat_bpb := default no_bpb (bpb_at boot_demo).

Definition file_entry : fat_dir_entry := default (mkEntry [] 0 0 0 0 0 0 0 0 0 0 0) (entry_at root_demo 0).

Lemma fat_disk_wf : disk_wf fat_disk.
Proof.
  unfold disk_wf, fat_disk. cbn [d_data].
  repeat apply map_Forall_insert_2; try apply map_Forall_empty; (split; [reflexivity|]);
    refine (bool_decide_unpack _ _); vm_compute; exact I.
Qed.

Lemma storage_demo_ready : storage_ready (pp_inv (PageProviderOk := vm_page_provider_ok [0x1000])) (λ _, True) disk_volume (env unmounted_demo) [] 4096.
Proof.
  split.
  - split; [exact vm_demo_inv|]. split; [vm_compute; congruence|]. eexists. split; [exact heap_demo_inv|]. cbn [stacked]. split; [done|]. split; [|done].
    exists (mkSeg 0x400000 4096 true). split_and!; [by apply list_elem_of_singleton|done|done].
  - unfold devices_ready. do 4 (split; [done|]). split; [split; [done|cbn; lia]|]. split; [split; [done|by exists drive_demo]|].
    split; [exact fat_disk_wf|]. split; [split_and!; [done|cbn; lia|by right]|]. by split.
Qed.

Lemma disk_mounted : mounted disk_volume (laid_out boot_record unmounted_demo).
Proof.
  split; [exact (storage_vol_wf _ _ _ _ _ _ storage_demo_ready)|].
  split_and!; [done|vm_compute; congruence|done|vm_compute; congruence|vm_compute; congruence].
Qed.

Lemma disk_root_chain : chain disk_volume (laid_out boot_record unmounted_demo) 2 [2].
Proof. apply chain_last; [split_and!; vm_compute; congruence|vm_compute; congruence]. Qed.

Lemma disk_file_chain : chain disk_volume (laid_out boot_record unmounted_demo) 3 [3; 4].
Proof.
  apply chain_next; [split_and!; vm_compute; congruence|vm_compute; reflexivity|].
  replace (fat_entry disk_volume (laid_out boot_record unmounted_demo) 3) with 4 by (vm_compute; reflexivity).
  apply chain_last; [split_and!; vm_compute; congruence|vm_compute; congruence].
Qed.

Lemma disk_file_read_witness :
  let E := storage_env 4 in
  wp (file ← beside (fat32_init;; root ← gets fs_root; vfs_finddir node_at (run_finddir 3) root (lit "A.TXT"));
      vfs_read node_at (run_read 3) file 510 4) (replicate 4 0, unmounted_demo)
    (λ k t, k = 4 ∧ t.1 = [65; 65; 66; 66]).
Proof.
  assert (G1 : holds (lit "A.TXT") (str "A.TXT")) by holds_lit.
  pose proof (disk_file_read (H3 := vm_page_provider_ok [0x1000]) 4 disk_volume boot_record 3 (lit "A.TXT") (str "A.TXT") [2] file_entry [3; 4] 510 4
    (replicate 4 0) unmounted_demo 4096 (le_n 4) timeout_demo (le_S 3 3 (le_n 3)) storage_demo_ready
    ltac:(vm_compute; congruence) ltac:(vm_compute; reflexivity) disk_mounted ltac:(vm_compute; congruence)
    ltac:(vm_compute; congruence) disk_root_chain ltac:(cbn; lia) G1 ltac:(vm_compute; reflexivity) eq_refl disk_file_chain
    ltac:(cbn; lia) ltac:(unfold is_u32; lia) ltac:(unfold is_u32; lia) ltac:(cbn; lia) ltac:(cbn; lia)
    ltac:(vm_compute; congruence)) as Hw.
  cbv zeta in Hw |- *.
  replace (take (Z.to_nat 4) (drop (Z.to_nat 510) (contents disk_volume (laid_out boot_record unmounted_demo) [3; 4])))
    with [65; 65; 66; 66] in Hw by (vm_compute; reflexivity).
  eapply wp_mono; [exact Hw|]. intros k t (Hk & Ht & _). split; [exact Hk|exact Ht].
Defined.
