(* ===== verification/Userland.v ===== *)
(** * Userland: a program in the memory of the real machine

    elf.c loads a program through pmm.c, paging.c, the file system and plain stores; Elf.v
    states what it relies on as the interface [LoaderOk].  Here the page allocator, the page
    tables, the heap, the disk driver and the console implement that interface on one machine,
    the one of Storage.v with the pages of Paging.v.  The program then is where the page walk
    of the processor finds it. *)

From S2P Require Import Prelude Pic Console Ata Pmm Paging Heap Vfs Fat32 Elf Storage.

(** ** Bytes of the word memory *)

(** Address of the word a byte lies in. *)
Definition word_addr (a : Z) : Z := a - a mod 4.

Definition get_byte (m : gmap Z Z) (a : Z) : Z := Z.land (Z.shiftr (ldw m (word_addr a)) (8 * (a mod 4))) 0xFF.

(** The other bytes of the word are kept. *)
Definition put_byte (m : gmap Z Z) (a c : Z) : gmap Z Z :=
  <[word_addr a := ldw m (word_addr a) + Z.shiftl (c - get_byte m a) (8 * (a mod 4))]> m.

Lemma get_byte_div m a : get_byte m a = ldw m (word_addr a) / 2 ^ (8 * (a mod 4)) mod 256.
Proof.
  unfold get_byte. change 0xFF with (Z.ones 8). rewrite Z.land_ones, Z.shiftr_div_pow2 by mlia. done.
Qed.

(** Cases on the place of a byte in its word. *)
Ltac byte_cases a :=
  let H := fresh in
  assert (H : a mod 4 = 0 ∨ a mod 4 = 1 ∨ a mod 4 = 2 ∨ a mod 4 = 3) by mlia;
  destruct H as [H|[H|[H|H]]]; rewrite H in *.

Lemma put_byte_word m a c : is_u32 (ldw m (word_addr a)) → 0 ≤ c < 256 →
  is_u32 (ldw m (word_addr a) + Z.shiftl (c - get_byte m a) (8 * (a mod 4))).
Proof.
  intros Hw Hc. rewrite get_byte_div, Z.shiftl_mul_pow2 by mlia. unfold is_u32 in *.
  generalize dependent (ldw m (word_addr a)). intros x Hx.
  byte_cases a; cbn [Z.mul Z.pow Z.pow_pos Pos.iter Pos.mul]; mlia.
Qed.

Lemma get_put_byte m a c b : is_u32 (ldw m (word_addr a)) → 0 ≤ c < 256 →
  get_byte (put_byte m a c) b = if a =? b then c else get_byte m b.
Proof.
  intros Hw Hc. rewrite (get_byte_div (put_byte m a c) b). unfold put_byte. rewrite ldw_insert.
  case_decide as E.
  - assert (Eb : word_addr b = word_addr a) by done. rewrite !get_byte_div, Eb.
    rewrite Z.shiftl_mul_pow2 by mlia.
    generalize dependent (ldw m (word_addr a)). intros x Hx. unfold word_addr, is_u32 in *.
    assert (Hab : b = a + (b mod 4 - a mod 4)) by lia.
    destruct (Z.eqb_spec a b) as [->|Hne].
    + byte_cases b; cbn [Z.mul Z.pow Z.pow_pos Pos.iter Pos.mul]; mlia.
    + byte_cases a; byte_cases b; cbn [Z.mul Z.pow Z.pow_pos Pos.iter Pos.mul]; try lia; mlia.
  - destruct (Z.eqb_spec a b) as [->|Hne]; [done|]. by rewrite get_byte_div.
Qed.

(** ** The processor's loads and stores *)

(** The byte a virtual address denotes, when its page is mapped. *)
Definition peek (v : vm) (a : Z) : option Z :=
  (λ e, get_byte (vm_mem v) (frame e + a mod 4096)) <$> walk (vm_mem v) (cr3 v) a.

Definition store_byte (a c : Z) : M vm unit := λ v,
  match walk (vm_mem v) (cr3 v) a with
  | Some e => Ret tt (set_mem (put_byte (vm_mem v) (frame e + a mod 4096) c) v)
  | None => Undef
  end.

(** A store of the kernel: when the page is missing the fault handler runs first (the error
    code says a write by the supervisor), and the store is tried again. *)
Definition cpu_store (a c : Z) : M vm unit :=
  mapped ← gets (λ v, bool_decide (is_Some (walk (vm_mem v) (cr3 v) a)));
  (if mapped then skip else page_fault_handler a 2);;
  store_byte a c.

(** What user mode may do with an address: both entries of the walk allow it. *)
Definition user_access (v : vm) (a : Z) (writable : bool) : Prop :=
  Z.testbit (pde v (cr3 v) (pd_index a)) 2 = true ∧
  Z.testbit (pde v (cr3 v) (pd_index a)) 1 = true ∧
  ∃ e, walk (vm_mem v) (cr3 v) a = Some e ∧ Z.testbit e 2 = true ∧ Z.testbit e 1 = writable.

Definition on_pages {D P A} (m : M P A) : M (storage D P) A :=
  zoom st_pages (λ p e, mkStorage (st_heap e) p (st_drives e) (st_count e) (st_con e)) m.

(** The calls and stores of elf.c. *)
#[global] Instance storage_mem {D} : MemEnv (storage D vm) := {|
  me_alloc_page := on_pages (in_pmm pmm_alloc_page);
  me_map_page va f fl := on_pages (paging_map_page va f fl);
  me_poke a c := on_pages (cpu_store a c)
|}.

(** ** The address space of the program in the page tables *)

Definition user_page (p : Z) : Prop := 0x40000 ≤ p < 0xC0000.

(** The entry of a page in the current space. *)
Definition page_entry (v : vm) (p : Z) : option Z := walk (vm_mem v) (current_pd_phys v) (p * 4096).

(** A frame in use that is neither a directory nor a page table. *)
Definition data_frame (pds : list Z) (v : vm) (f : Z) : Prop :=
  aligned f ∧ frame_used v f ∧ (f ∉ pds) ∧
  ∀ D i, D ∈ pds → 0 ≤ i < 1024 → present (pde v D i) = true → frame (pde v D i) ≠ f.

(** The pages of [w] are the user pages of the current space, each in a frame of its own, with
    the flags and the bytes of [w]; the tables of user memory are open to user mode. *)
Record space_ok (pds : list Z) (w : space) (v : vm) : Prop := mkSpaceOk {
  so_inv : vm_inv pds v;
  so_frames : Z.of_nat (sp_frames w) ≤ free_count (vm_pmm v);
  so_dirs i : 256 ≤ i < 768 → present (pde v (current_pd_phys v) i) = true →
    Z.testbit (pde v (current_pd_phys v) i) 1 = true ∧ Z.testbit (pde v (current_pd_phys v) i) 2 = true;
  so_mapped p fl : sp_pages w !! p = Some fl → user_page p ∧ (fl = 5 ∨ fl = 7) ∧
    ∃ f, page_entry v p = Some (pte_value f fl) ∧ data_frame pds v f;
  so_exact p : user_page p → sp_pages w !! p = None → page_entry v p = None;
  so_inj p q x y : user_page p → user_page q → page_entry v p = Some x → page_entry v q = Some y →
    frame x = frame y → p = q;
  so_bytes a c : sp_bytes w !! a = Some c → is_Some (sp_pages w !! (a / 4096)) ∧ peek v a = Some c
}.

(** A frame for a new page: no page has it yet. *)
Definition fresh_frame (pds : list Z) (v : vm) (f : Z) : Prop :=
  f ≠ 0 ∧ data_frame pds v f ∧ ∀ p x, user_page p → page_entry v p = Some x → frame x ≠ f.

(** ** Lemmas *)

Lemma walk_entry pds v a : vm_inv pds v → walk (vm_mem v) (cr3 v) a = page_entry v (a / 4096).
Proof. intros Hi. rewrite (inv_cr3 _ _ Hi). apply walk_page. Qed.

(** The words of a frame. *)
Lemma frame_words f o : aligned f → 0 ≤ o < 4096 → word_addr (f + o) / 4096 = f / 4096.
Proof. intros. unfold word_addr. pg_lia. Qed.

Lemma peek_agree pds v v' a f fl :
  vm_inv pds v → vm_inv pds v' → aligned f → 0 ≤ fl < 4096 →
  page_entry v (a / 4096) = Some (pte_value f fl) → page_entry v' (a / 4096) = page_entry v (a / 4096) →
  (∀ b, b / 4096 = f / 4096 → ldw (vm_mem v') b = ldw (vm_mem v) b) → peek v' a = peek v a.
Proof.
  intros Hi Hi' Hf Hfl He He' Hm. unfold peek. rewrite (walk_entry pds v), (walk_entry pds v'), He', He by done. cbn.
  destruct (pte_value_spec f fl) as (_ & -> & _); [apply Hf|done|]. rewrite (frame_id f) by done.
  f_equal. unfold get_byte. rewrite Hm; [done|]. apply frame_words; [done|mlia].
Qed.

Lemma data_frame_entry pds v f fl : data_frame pds v f → fl = 5 ∨ fl = 7 → frame (pte_value f fl) = f.
Proof.
  intros [Hf _] Hfl. destruct (pte_value_spec f fl) as (_ & -> & _); [apply Hf|lia|]. by apply frame_id.
Qed.

(** Steps that keep the entries of user memory and the words of its frames. *)
Lemma space_ok_upd pds w v v' n :
  space_ok pds w v → vm_inv pds v' → current_pd_phys v' = current_pd_phys v → Z.of_nat n ≤ free_count (vm_pmm v') →
  (∀ i, 256 ≤ i < 768 → present (pde v' (current_pd_phys v') i) = true →
    Z.testbit (pde v' (current_pd_phys v') i) 1 = true ∧ Z.testbit (pde v' (current_pd_phys v') i) 2 = true) →
  (∀ p, user_page p → page_entry v' p = page_entry v p) →
  (∀ f, data_frame pds v f → data_frame pds v' f ∧ ∀ b, b / 4096 = f / 4096 → ldw (vm_mem v') b = ldw (vm_mem v) b) →
  space_ok pds (mkSpace (sp_pages w) (sp_bytes w) n) v'.
Proof.
  intros Hw Hi' Hc Hn Hd He Hf. pose proof (so_inv _ _ _ Hw) as Hi. constructor; cbn; try done.
  - intros p fl Hp. destruct (so_mapped _ _ _ Hw p fl Hp) as (Hu & Hfl & f & Ef & Hdf). split_and!; [done|done|].
    exists f. rewrite He by done. split; [done|]. by apply Hf.
  - intros p Hu Hp. rewrite He by done. by apply (so_exact _ _ _ Hw).
  - intros p q x y Hp Hq. rewrite !He by done. by apply (so_inj _ _ _ Hw).
  - intros a c Ha. destruct (so_bytes _ _ _ Hw a c Ha) as [[fl Hp] Hpk]. split; [by exists fl|]. rewrite <- Hpk.
    destruct (so_mapped _ _ _ Hw _ fl Hp) as (Hu & Hfl & f & Ef & Hdf). destruct (Hf f Hdf) as [_ Hm].
    apply (peek_agree pds v v' a f fl); [done|done|apply Hdf|lia|done|by apply He|done].
Qed.

Lemma free_count_none s : (∀ p, is_page p → page_used s p = true) → free_count s = 0.
Proof. intros Hall. unfold free_count. by rewrite none_free_head. Qed.

Lemma wp_space_alloc pds w v (Q : Z → vm → Prop) :
  space_ok pds w v → (1 ≤ sp_frames w)%nat →
  (∀ f v', fresh_frame pds v' f → space_ok pds (mkSpace (sp_pages w) (sp_bytes w) (pred (sp_frames w))) v' → Q f v') →
  wp (in_pmm pmm_alloc_page) v Q.
Proof.
  intros Hw Hn HQ. pose proof (so_inv _ _ _ Hw) as Hi. pose proof (so_frames _ _ _ Hw) as Hfr.
  apply (wp_vm_alloc pds); [done| |].
  2: { intros Hall%free_count_none. lia. }
  intros p Hp Hp0 Hfree Hi' Hview. set (v' := set_pmm _ v) in *.
  assert (Hkeep : ∀ f, data_frame pds v f → data_frame pds v' f).
  { intros f (Ha & Hu & Hn' & Ht). split; [done|]. split; [|done]. unfold frame_used in *. cbn.
    rewrite Hview by auto with flowos. by destruct (p =? _). }
  apply HQ.
  - split; [lia|]. split.
    + split; [auto with flowos|]. split; [|split; [by apply (free_not_pd pds v)|intros; by apply (free_old_frame pds v)]].
      unfold frame_used. cbn. rewrite Z.div_mul by lia. rewrite Hview by done. by rewrite Z.eqb_refl.
    + intros q x Hq Hx. change (page_entry v' q) with (page_entry v q) in Hx.
      destruct (sp_pages w !! q) as [fl|] eqn:Eq; [|by rewrite (so_exact _ _ _ Hw q Hq Eq) in Hx].
      destruct (so_mapped _ _ _ Hw q fl Eq) as (_ & Hfl & f & Ef & Hdf). rewrite Ef in Hx. injection Hx as <-.
      rewrite (data_frame_entry pds v) by done. destruct Hdf as (_ & Hu & _). intros ->.
      unfold frame_used in Hu. rewrite Z.div_mul in Hu by lia. congruence.
  - apply (space_ok_upd pds w v); [done|done|done| |apply (so_dirs _ _ _ Hw)|done|intros f Hf; by split; [apply Hkeep|]].
    change (vm_pmm v') with (take_page p (vm_pmm v)). rewrite free_count_take by (done || apply Hi). lia.
Qed.

(** Creating a page table for user memory. *)
Section tables.
Context (pds : list Z) (w : space) (v v1 : vm) (va fl p : Z).
Hypothesis Hw : space_ok pds w v.
Hypothesis Hva : is_u32 va.
Hypothesis Hp : is_page p.
Hypothesis Hfree : page_used (vm_pmm v) p = false.
Hypothesis Hfl : fl = 5 ∨ fl = 7.
Hypothesis Hnew : fresh_table pds va fl p v v1.

Lemma new_table_pde D i :
  D ∈ pds → 0 ≤ i < 1024 → (D, i) ≠ (current_pd_phys v, pd_index va) → pde v1 D i = pde v D i.
Proof. apply (fresh_table_pde pds va fl p); [apply Hw|done..]. Qed.

Lemma fresh_table_data f :
  data_frame pds v f → data_frame pds v1 f ∧ ∀ b, b / 4096 = f / 4096 → ldw (vm_mem v1) b = ldw (vm_mem v) b.
Proof.
  intros (Ha & Hu & Hn & Ht). pose proof (so_inv _ _ _ Hw) as Hv.
  pose proof Hnew as (_ & _ & Hpmm & _ & _ & _ & Hent & Hmem). pose proof (used_ne v p f Hfree Hu) as Hfp. split.
  - split; [done|]. split; [|split; [done|]].
    + unfold frame_used in *. rewrite Hpmm. unfold take_page. change (page_used (set_used _ ?x) ?q) with (page_used x q).
      rewrite page_used_mark_used by (auto with flowos || apply Hv). by destruct (p =? _).
    + intros D i HD Hi Hpr. destruct (decide ((D, i) = (current_pd_phys v, pd_index va))) as [E|E].
      * injection E as -> ->. rewrite Hent. destruct (table_entry_spec (p * 4096) fl) as (_ & -> & _); [auto with flowos|].
        intros <-. rewrite Z.div_mul in Hfp by lia. done.
      * rewrite new_table_pde in * by done. by apply Ht.
  - intros b Hb. apply Hmem; [congruence|]. intros ->. destruct (inv_pds _ _ Hv (current_pd_phys v)) as [Hc _]; [apply Hv|].
    pose proof (pd_index_range va Hva). rewrite slot_eq in Hb by done. apply Hn.
    replace f with (current_pd_phys v) by pg_lia. apply Hv.
Qed.

Lemma fresh_table_space : space_ok pds (mkSpace (sp_pages w) (sp_bytes w) (pred (sp_frames w))) v1.
Proof.
  pose proof Hnew as (Hi1 & Hc & Hpmm & _ & Hwalk & _ & Hent & _). pose proof (so_inv _ _ _ Hw) as Hi.
  apply (space_ok_upd pds w v); [done|done|done| | | |apply fresh_table_data].
  - pose proof (free_count_range (take_page p (vm_pmm v))) as Hr. rewrite Hpmm.
    rewrite free_count_take in * by (done || apply Hi). pose proof (so_frames _ _ _ Hw). lia.
  - intros i Hr Hpr. rewrite Hc in *. destruct (decide (i = pd_index va)) as [->|Hne].
    + rewrite Hent. unfold table_entry. rewrite !Z.lor_spec. by destruct Hfl as [-> | ->]; rewrite ?orb_true_r.
    + rewrite new_table_pde in * by (apply Hi || lia || congruence). by apply (so_dirs _ _ _ Hw).
  - intros q Hq. unfold page_entry. rewrite Hc. apply Hwalk; [apply Hi|]. unfold user_page in Hq. unfold is_u32. lia.
Qed.

End tables.

(** Writing the entry of a fresh frame. *)
Section entry.
Context (pds : list Z) (w : space) (v : vm) (va f fl : Z).
Hypothesis Hw : space_ok pds w v.
Hypothesis Hva : va mod 4096 = 0 ∧ 0x40000000 ≤ va < 0xC0000000.
Hypothesis Hfl : fl = 5 ∨ fl = 7.
Hypothesis Hfresh : fresh_frame pds v f.
Hypothesis Hpr : present (pde v (current_pd_phys v) (pd_index va)) = true.

Let v' : vm := put_pte va (pte_value f fl) v.

Lemma entry_va : is_u32 va ∧ user_page (va / 4096) ∧ va / 4096 * 4096 = va.
Proof. unfold is_u32, user_page. split_and!; mlia. Qed.

Lemma entry_value : is_u32 (pte_value f fl) ∧ frame (pte_value f fl) = f ∧ present (pte_value f fl) = true.
Proof.
  destruct Hfresh as (_ & (Ha & _) & _). destruct (pte_value_spec f fl) as (H1 & H2 & H3); [apply Ha|lia|].
  rewrite H2. by rewrite (frame_id f).
Qed.

Lemma entry_inv : vm_inv pds v'.
Proof. apply put_pte_inv; [apply Hw|apply entry_va|apply entry_value|done]. Qed.

Lemma entry_pde D i : D ∈ pds → 0 ≤ i < 1024 → pde v' D i = pde v D i.
Proof. apply put_pte_pde; [apply Hw|apply entry_va|done]. Qed.

Lemma entry_page q : user_page q → page_entry v' q = if q =? va / 4096 then Some (pte_value f fl) else page_entry v q.
Proof.
  intros Hq. unfold page_entry. change (current_pd_phys v') with (current_pd_phys v). unfold v'.
  rewrite (put_pte_walk_current pds);
    [|exact (so_inv _ _ _ Hw)|apply entry_va|unfold user_page, is_u32 in *; lia|done].
  rewrite Z.div_mul by lia. by rewrite (proj2 (proj2 entry_value)).
Qed.

Lemma entry_data g :
  data_frame pds v g → data_frame pds v' g ∧ ∀ b, b / 4096 = g / 4096 → ldw (vm_mem v') b = ldw (vm_mem v) b.
Proof.
  intros (Ha & Hu & Hn & Ht). pose proof (so_inv _ _ _ Hw) as Hi. split.
  - split; [done|]. split; [done|]. split; [done|]. intros D i HD Hr. rewrite entry_pde by done. by apply Ht.
  - intros b Hb. unfold v', put_pte. cbn. rewrite ldw_insert, decide_False; [done|]. intros <-.
    assert (Hal : aligned (frame (pde v (current_pd_phys v) (pd_index va)))) by eauto with flowos.
    pose proof (pt_index_range va) as Hr. rewrite slot_eq in Hb by done.
    apply (Ht (current_pd_phys v) (pd_index va)); [apply Hi|apply pd_index_range, entry_va|done|]. pg_lia.
Qed.

Lemma entry_space : space_ok pds (mkSpace (<[va / 4096 := fl]> (sp_pages w))
  (filter (λ ab, ab.1 / 4096 ≠ va / 4096) (sp_bytes w)) (sp_frames w)) v'.
Proof.
  pose proof (so_inv _ _ _ Hw) as Hi. pose proof entry_va as (Hu32 & Hup & Hva'). pose proof entry_value as (_ & Hff & _).
  destruct Hfresh as (_ & Hdf & Hno). constructor; cbn.
  - apply entry_inv.
  - apply (so_frames _ _ _ Hw).
  - intros i Hr. change (current_pd_phys v') with (current_pd_phys v).
    rewrite entry_pde by (apply Hi || lia). by apply (so_dirs _ _ _ Hw).
  - intros q x Hq. apply lookup_insert_Some in Hq as [[<- <-]|[Hne Hq]].
    + split; [done|]. split; [done|]. exists f. rewrite entry_page, Z.eqb_refl by done. split; [done|]. by apply entry_data.
    + destruct (so_mapped _ _ _ Hw q x Hq) as (Huq & Hx & g & Eg & Hg). split; [done|]. split; [done|]. exists g.
      rewrite entry_page, (proj2 (Z.eqb_neq _ _)) by done. split; [done|]. by apply entry_data.
  - intros q Huq Hq. apply lookup_insert_None in Hq as [Hq Hne].
    rewrite entry_page, (proj2 (Z.eqb_neq _ _)) by done. by apply (so_exact _ _ _ Hw).
  - intros a b x y Hua Hub. rewrite !entry_page by done.
    destruct (Z.eqb_spec a (va / 4096)) as [Ea|Ea], (Z.eqb_spec b (va / 4096)) as [Eb|Eb]; intros Ex Ey Exy.
    + congruence.
    + injection Ex as <-. rewrite Hff in Exy. by destruct (Hno b y Hub Ey).
    + injection Ey as <-. rewrite Hff in Exy. by destruct (Hno a x Hua Ex).
    + by apply (so_inj _ _ _ Hw a b x y).
  - intros a c Ha. apply map_lookup_filter_Some in Ha as [Ha Hne]. cbn in Hne.
    destruct (so_bytes _ _ _ Hw a c Ha) as [[x Hx] Hpk]. split; [rewrite lookup_insert_ne by done; by exists x|].
    rewrite <- Hpk. destruct (so_mapped _ _ _ Hw _ x Hx) as (Hua & Hxf & g & Eg & Hg).
    apply (peek_agree pds v v' a g x); [done|apply entry_inv|apply Hg|lia|done| |by apply entry_data].
    by rewrite entry_page, (proj2 (Z.eqb_neq _ _)) by done.
Qed.

End entry.

(** Mapping a fresh frame at an address of user memory. *)
Lemma wp_space_map pds w v va f fl (Q : unit → vm → Prop) :
  space_ok pds w v → fresh_frame pds v f → (1 ≤ sp_frames w)%nat →
  va mod 4096 = 0 → 0x40000000 ≤ va < 0xC0000000 → fl = 5 ∨ fl = 7 →
  (∀ v', space_ok pds (with_page (va / 4096) fl w) v' → Q tt v') → wp (paging_map_page va f fl) v Q.
Proof.
  intros Hw Hfr Hn Hm Hva Hfl HQ. assert (Hu : is_u32 va) by (unfold is_u32; lia).
  pose proof (so_inv _ _ _ Hw) as Hi. apply (wp_paging_map_page pds); [done|done| |].
  2: { intros _ Hall%free_count_none. pose proof (so_frames _ _ _ Hw). lia. }
  intros v1 [[-> Hpr]|(Habs & p & Hp & Hfree & Hnew)]; apply HQ.
  - pose proof (entry_space pds w v va f fl Hw (conj Hm Hva) Hfl Hfr Hpr) as [G1 G2 G3 G4 G5 G6 G7].
    constructor; try done. cbn in *. lia.
  - pose proof (fresh_table_space pds w v v1 va fl p Hw Hu Hp Hfree Hfl Hnew) as Hw1.
    destruct Hfr as (Hf0 & Hdf & Hno). pose proof Hnew as (_ & Hc & _ & Hpr & Hwalk & _).
    apply (entry_space pds _ v1 va f fl Hw1); [done|done| |by rewrite Hc].
    split; [done|]. split; [exact (proj1 (fresh_table_data pds w v v1 va fl p Hw Hu Hp Hfree Hnew f Hdf))|]. intros q x Hq. unfold page_entry. rewrite Hc, Hwalk;
      [by apply Hno|apply Hi|unfold user_page, is_u32 in *; lia].
Qed.

(** Storing a byte in a page of the program. *)
Section poke.
Context (pds : list Z) (w : space) (v : vm) (a c fl f : Z).
Hypothesis Hw : space_ok pds w v.
Hypothesis Hpage : sp_pages w !! (a / 4096) = Some fl.
Hypothesis Hfl : fl = 5 ∨ fl = 7.
Hypothesis Hentry : page_entry v (a / 4096) = Some (pte_value f fl).
Hypothesis Hdata : data_frame pds v f.
Hypothesis Hc : 0 ≤ c < 256.

Let v' : vm := set_mem (put_byte (vm_mem v) (f + a mod 4096) c) v.

(** Only a word of the frame [f] changes. *)
Lemma poke_elsewhere b : b / 4096 ≠ f / 4096 → ldw (vm_mem v') b = ldw (vm_mem v) b.
Proof.
  intros Hb. unfold v'. cbn. unfold put_byte. rewrite ldw_insert, decide_False; [done|]. intros <-.
  apply Hb, frame_words; [apply Hdata|mlia].
Qed.

Lemma poke_pde D i : D ∈ pds → 0 ≤ i < 1024 → pde v' D i = pde v D i.
Proof.
  intros HD Hi. destruct (inv_pds _ _ (so_inv _ _ _ Hw) D HD) as [Ha _]. destruct Hdata as (Hf & _ & Hn & _).
  apply poke_elsewhere. rewrite slot_eq by done. intros E. apply Hn. by replace f with D by pg_lia.
Qed.

Lemma poke_walk D va : D ∈ pds → is_u32 va → walk (vm_mem v') D va = walk (vm_mem v) D va.
Proof.
  intros HD Hva. pose proof (so_inv _ _ _ Hw) as Hi. destruct Hdata as (Hf & _ & _ & Ht). apply walk_agree.
  - apply poke_pde; auto with flowos.
  - intros Hpr. apply poke_elsewhere.
    assert (Hal : aligned (frame (pde v D (pd_index va)))) by eauto with flowos.
    pose proof (pt_index_range va). change (ldw (vm_mem v) (slot D (pd_index va))) with (pde v D (pd_index va)).
    rewrite slot_eq by done. intros E. apply (Ht D (pd_index va)); [done|auto with flowos|done|]. pg_lia.
Qed.

Lemma poke_inv : vm_inv pds v'.
Proof.
  pose proof (so_inv _ _ _ Hw) as Hi. apply (vm_inv_upd pds v); try done.
  - apply Hi.
  - apply mem_insert_u32; [apply Hi|]. apply put_byte_word; [apply ldw_u32, Hi|done].
  - apply poke_pde.
  - intros n e He. destruct (inv_tlb _ _ Hi n e He) as [Hn Hwk]. split; [done|].
    rewrite poke_walk; [done|apply Hi|]. pmm_lia.
Qed.

Lemma poke_entry q : user_page q → page_entry v' q = page_entry v q.
Proof. intros Hq. apply poke_walk; [apply (so_inv _ _ _ Hw)|unfold user_page, is_u32 in *; lia]. Qed.

Lemma poke_data g : data_frame pds v g → data_frame pds v' g.
Proof.
  intros (Ha & Hu & Hn & Ht). split; [done|]. split; [done|]. split; [done|]. intros D i HD Hi.
  rewrite poke_pde by done. by apply Ht.
Qed.

Lemma poke_peek b : user_page (b / 4096) → is_Some (sp_pages w !! (b / 4096)) →
  peek v' b = if a =? b then Some c else peek v b.
Proof.
  intros Hb [x Hx]. pose proof (so_inv _ _ _ Hw) as Hi. destruct Hdata as (Hf & _).
  destruct (so_mapped _ _ _ Hw _ x Hx) as (_ & Hxf & g & Eg & Hg). unfold peek.
  rewrite (walk_entry pds v), (walk_entry pds v'), poke_entry, Eg by (done || apply poke_inv).
  cbn [fmap option_fmap option_map]. rewrite (data_frame_entry pds v g x) by done.
  change (vm_mem v') with (put_byte (vm_mem v) (f + a mod 4096) c). destruct Hg as (Hga & _).
  rewrite get_put_byte by (done || apply ldw_u32, Hi).
  destruct (Z.eqb_spec a b) as [->|Hne].
  - rewrite Hentry in Eg. injection Eg as Eg. assert (Efg : frame (pte_value f fl) = frame (pte_value g x)) by by rewrite Eg.
    destruct (pte_value_spec f fl) as (_ & Ff & _); [apply Hf|lia|].
    destruct (pte_value_spec g x) as (_ & Fg & _); [apply Hga|lia|]. rewrite Ff, Fg, !frame_id in Efg by done.
    subst g. by rewrite Z.eqb_refl.
  - rewrite (proj2 (Z.eqb_neq _ _)); [done|]. intros E.
    assert (Hfg : f = g) by pg_lia. subst g.
    assert (Hpg : b / 4096 = a / 4096).
    { apply (so_inj _ _ _ Hw _ _ (pte_value f x) (pte_value f fl)); [done|by apply (so_mapped _ _ _ Hw _ fl)|done|done|].
      destruct (pte_value_spec f fl) as (_ & -> & _); [apply Hf|lia|].
      by destruct (pte_value_spec f x) as (_ & -> & _); [apply Hf|lia|]. }
    apply Hne. mlia.
Qed.

Lemma poke_space : space_ok pds (with_byte a c w) v'.
Proof.
  constructor; cbn.
  - apply poke_inv.
  - apply (so_frames _ _ _ Hw).
  - intros i Hr. change (current_pd_phys v') with (current_pd_phys v).
    rewrite poke_pde by (apply (so_inv _ _ _ Hw) || lia). by apply (so_dirs _ _ _ Hw).
  - intros q x Hq. destruct (so_mapped _ _ _ Hw q x Hq) as (Hu & Hx & g & Eg & Hg). split; [done|]. split; [done|].
    exists g. rewrite poke_entry by done. split; [done|by apply poke_data].
  - intros q Hq. rewrite poke_entry by done. by apply (so_exact _ _ _ Hw).
  - intros p q x y Hp Hq. rewrite !poke_entry by done. by apply (so_inj _ _ _ Hw).
  - intros b d Hb. apply lookup_insert_Some in Hb as [[<- <-]|[Hne Hb]].
    + split; [by exists fl|]. rewrite poke_peek, Z.eqb_refl; [done|by apply (so_mapped _ _ _ Hw _ fl)|by exists fl].
    + destruct (so_bytes _ _ _ Hw b d Hb) as [[x Hx] Hpk]. split; [by exists x|].
      rewrite poke_peek, (proj2 (Z.eqb_neq _ _)); [done|done|by apply (so_mapped _ _ _ Hw _ x)|by exists x].
Qed.

End poke.

Lemma wp_space_poke pds w v a c fl (Q : unit → vm → Prop) :
  space_ok pds w v → sp_pages w !! (a / 4096) = Some fl → 0 ≤ c < 256 →
  (∀ v', space_ok pds (with_byte a c w) v' → Q tt v') → wp (cpu_store a c) v Q.
Proof.
  intros Hw Hp Hc HQ. destruct (so_mapped _ _ _ Hw _ fl Hp) as (_ & Hfl & f & Ef & Hdf).
  pose proof (walk_entry pds v a (so_inv _ _ _ Hw)) as Hwk. rewrite Ef in Hwk. unfold cpu_store. wp_step. wp_step.
  rewrite bool_decide_true by (rewrite Hwk; by eexists). wp_step. wp_step. unfold wp, store_byte. rewrite Hwk.
  rewrite (data_frame_entry pds v f fl) by done. apply HQ. by apply (poke_space pds w v a c fl f).
Qed.

(** ** The contract of the loader on the machine *)

Section machine.
Context {D : Type} {io : Z} `{Board D io} (pds : list Z) (polls : nat).
Context (Hdisk : (disk_delay < polls)%nat) (Hready : (disk_delay < ready_timeout)%nat) (Huart : (uart_delay < polls)%nat).
Context (I : D → Prop) (HI : kept io I).

Lemma space_ok_pages w p : space_ok pds w p → pp_inv (PageProviderOk := vm_page_provider_ok pds) p.
Proof. apply so_inv. Qed.

#[global] Program Instance machine_loader : @LoaderOk (storage D vm) (storage_env polls) storage_mem := {|
  lo_fat w := storage_ok (H3 := vm_page_provider_ok pds) (space_ok pds w) (space_ok_pages w) I HI polls Hdisk Hready Huart;
  lo_fresh e f := fresh_frame pds (st_pages e) f
|}.
Next Obligation.
  intros w v e held r [[Hs Hh] Hd] Hn. cbn. unfold on_pages. wp_step. apply (wp_space_alloc pds w); [done|done|]. intros f v' Hf Hs'.
  split; [apply Hf|]. split; [exact Hf|]. by split; [split|].
Qed.
Next Obligation.
  intros w v e held r va f fl [[Hs Hh] Hd] Hf Hn Hm Hva Hfl. cbn. unfold on_pages. wp_step.
  apply (wp_space_map pds w); [done..|]. intros v' Hs'. by split; [split|].
Qed.
Next Obligation.
  intros w v e held r a c fl [[Hs Hh] Hd] Hp Hc. cbn. unfold on_pages. wp_step.
  apply (wp_space_poke pds w _ a c fl); [done..|]. intros v' Hs'. by split; [split|].
Qed.

End machine.

(** ** Properties *)

Lemma pte_value_bits f fl : aligned f → fl = 5 ∨ fl = 7 →
  Z.testbit (pte_value f fl) 2 = true ∧ Z.testbit (pte_value f fl) 1 = Z.testbit fl 1.
Proof.
  intros Hf Hfl. unfold pte_value, frame. rewrite !Z.lor_spec, !Z.land_spec.
  change (Z.testbit 0xFFFFF000 1) with false. change (Z.testbit 0xFFFFF000 2) with false. rewrite !andb_false_r.
  by destruct Hfl as [-> | ->].
Qed.

Lemma segment_flags_write fl : Z.testbit (segment_flags fl) 1 = truth (Z.land fl PF_W).
Proof. unfold segment_flags. by destruct (truth _). Qed.

(** A page of the program is open to user mode. *)
Lemma space_access pds w v a fl :
  space_ok pds w v → sp_pages w !! (a / 4096) = Some fl → user_access v a (Z.testbit fl 1).
Proof.
  intros Hw Hp. pose proof (so_inv _ _ _ Hw) as Hi. destruct (so_mapped _ _ _ Hw _ fl Hp) as (Hu & Hfl & f & Ef & Hf).
  pose proof (walk_entry pds v a Hi) as Hwk. rewrite Ef in Hwk. pose proof (inv_cr3 _ _ Hi) as Hc.
  assert (Hpr : present (pde v (cr3 v) (pd_index a)) = true) by (unfold walk in Hwk; unfold pde; by destruct (present _)).
  assert (Hr : 256 ≤ pd_index a < 768) by (rewrite pd_index_div; unfold user_page in Hu; mlia).
  rewrite Hc in Hpr. destruct (so_dirs _ _ _ Hw _ Hr Hpr) as [B1 B2]. unfold user_access. rewrite Hwk, Hc.
  split; [done|]. split; [done|]. eexists. split; [done|]. apply pte_value_bits; [apply Hf|done].
Qed.

Lemma segment_byte_some img ph k : segment_ok img ph → 0 ≤ k → is_Some (segment_byte img ph k).
Proof.
  intros (_ & _ & _ & Ho & Hl) Hk. unfold segment_byte. destruct (Z.ltb_spec k (ph_filesz ph)); [|done].
  destruct (arr_get_lt img (ph_offset ph + k)) as [x ->]; [lia|done].
Qed.

(** A program at its first instruction, in the page tables the processor runs on: user mode at
    the entry point with the flags [fl], every byte of every loadable segment at its virtual
    address, its pages for user mode and writable exactly when the segment is, the two pages
    below 3 GB for the stack; where nothing was mapped before, nothing else is; and the page
    tables and the translation cache are in order. *)
Definition program_runs {D} (pds : list Z) (w : space) (img : list Z) (h : elf_header) (segs : list elf_program_header)
    (fl : Z) (s : loader (storage D vm)) : Prop :=
  let m := st_pages (env (ld_fs s)) in
  user_cpu s = Some (mkUser 0x23 0x23 0xC0000000 (Z.lor (Z.clearbit fl 9) 0x200) 0x1B (eh_entry h)) ∧
  (∀ ph k, ph ∈ segs → 0 ≤ k < ph_memsz ph →
     peek m (ph_vaddr ph + k) = segment_byte img ph k ∧
     user_access m (ph_vaddr ph + k) (truth (Z.land (ph_flags ph) PF_W))) ∧
  (∀ a, 0xBFFFE000 ≤ a < 0xC0000000 → user_access m a true) ∧
  (∀ a, 0x40000000 ≤ a < 0xBFFFE000 → (∀ ph, ph ∈ segs → ¬ in_segment ph (a / 4096)) →
     sp_pages w !! (a / 4096) = None → peek m a = None) ∧
  vm_inv pds m.

(** [elf_exec] on the machine, with a property [I] of the devices that it keeps. *)
Lemma whalt_program {D io} `{Board D io} (I : D → Prop) (HI : kept io I) pds polls fuel w v cs path txt img h segs
    (s : loader (storage D vm)) r :
  (disk_delay < polls)%nat → (disk_delay < ready_timeout)%nat → (uart_delay < polls)%nat →
  storage_ready (space_ok pds w) I v (env (ld_fs s)) [] r →
  let E := storage_env polls in
  root_directory fuel v (ld_fs s) cs → holds path txt → file_at fuel v (ld_fs s) cs txt img → executable img h segs →
  2 * total_pages segs + 4 ≤ Z.of_nat (sp_frames w) → 2 * csize (ld_fs s) + 32 * eh_phnum h + 1016 ≤ r →
  whalt (elf_exec fuel path) s (λ s',
    program_runs pds w img h segs (eflags s) s' ∧ I (machine (st_con (env (ld_fs s'))))).
Proof.
  intros Hp1 Hp2 Hp3 Hr E Hroot Hpath Hfile Hexe Hfr Hroom.
  set (LO := machine_loader pds polls Hp1 Hp2 Hp3 I HI).
  pose proof (elf_exec_spec fuel w v cs path txt img h segs s r Hroot Hpath Hfile Hexe Hfr Hr Hroom) as Hrun.
  assert (Hok : Forall (segment_ok img) segs) by apply Hexe.
  eapply whalt_mono; [exact Hrun|]. cbv beta. clear Hrun.
  intros s' (w' & Hcpu & Hseg & Hs1 & Hs2 & Hother & [[Hw' _] [Hi _]]). split; [|exact Hi]. unfold program_runs. cbv zeta.
  set (m := st_pages (env (ld_fs s'))) in *. rewrite Forall_forall in Hseg, Hok. split; [exact Hcpu|]. split_and!.
  - intros ph k Hph Hk. destruct (Hseg ph Hph k Hk) as [Hb Hpg].
    destruct (segment_byte_some img ph k) as [c Hc]; [by apply Hok|lia|]. rewrite Hc in *. split.
    + by apply (so_bytes _ _ _ Hw').
    + rewrite <- segment_flags_write. by apply (space_access pds w').
  - intros a Ha. apply (space_access pds w' m a 7); [done|].
    assert (Hcase : a / 4096 = 0xBFFFE ∨ a / 4096 = 0xBFFFF) by mlia. by destruct Hcase as [-> | ->].
  - intros a Ha Hout Hno. unfold peek. rewrite (walk_entry pds m a) by apply Hw'.
    rewrite (so_exact _ _ _ Hw'); [done|unfold user_page; mlia|]. rewrite Hother; [done|done|mlia|mlia].
  - apply Hw'.
Qed.

(** [elf_exec] on the machine when the file is missing or not a program. *)
Lemma wp_program_refused {D io} `{Board D io} (I : D → Prop) (HI : kept io I) pds polls fuel w v cs path txt m
    (s : loader (storage D vm)) r :
  (disk_delay < polls)%nat → (disk_delay < ready_timeout)%nat → (uart_delay < polls)%nat →
  storage_ready (space_ok pds w) I v (env (ld_fs s)) [] r →
  let E := storage_env polls in
  root_directory fuel v (ld_fs s) cs → holds path txt →
  entry_of v (ld_fs s) cs txt = None ∨ (∃ img, file_at fuel v (ld_fs s) cs txt img ∧ rejected m img) →
  0 ≤ m → 2 * csize (ld_fs s) + m + 1016 ≤ r →
  wp (elf_exec fuel path) s (λ x s', x = -1 ∧ user_cpu s' = user_cpu s ∧
    ∃ r', storage_ready (space_ok pds w) I v (env (ld_fs s')) [] r').
Proof.
  intros Hp1 Hp2 Hp3 Hr E Hroot Hpath Hbad Hm Hroom. set (LO := machine_loader pds polls Hp1 Hp2 Hp3 I HI).
  eapply wp_mono; [exact (wp_elf_exec_refused fuel w v cs path txt m s r Hroot Hpath Hbad Hr Hm Hroom)|].
  intros x s' (E1 & E2 & r' & _ & Hr'). split; [exact E1|]. split; [exact E2|]. exists r'. exact Hr'.
Qed.

(** C27. A program in the memory of the real machine: when the disk holds a volume with an i386
    executable of the given name in its root directory, and the allocator and the heap have
    room, [elf_exec] enters user mode at the entry point, and in the page tables the processor
    then runs on every byte of every loadable segment is at its virtual address: the bytes of
    the file, read from the disk through the ports, and zeros after them.  User mode may read
    them, and write them exactly when the segment is writable; the two pages below 3 GB are
    its stack; every other page of user memory that was not mapped is still not mapped; and
    the page tables and the translation cache are still in order. *)
Theorem program_in_memory {D io} `{Board D io} pds polls fuel w v cs path txt img h segs (s : loader (storage D vm)) r :
  (disk_delay < polls)%nat → (disk_delay < ready_timeout)%nat → (uart_delay < polls)%nat →
  storage_ready (space_ok pds w) (λ _, True) v (env (ld_fs s)) [] r →
  let E := storage_env polls in
  root_directory fuel v (ld_fs s) cs → holds path txt → file_at fuel v (ld_fs s) cs txt img → executable img h segs →
  2 * total_pages segs + 4 ≤ Z.of_nat (sp_frames w) → 2 * csize (ld_fs s) + 32 * eh_phnum h + 1016 ≤ r →
  whalt (elf_exec fuel path) s (program_runs pds w img h segs (eflags s)).
Proof.
  intros Hp1 Hp2 Hp3 Hr E Hroot Hpath Hfile Hexe Hfr Hroom. eapply whalt_mono.
  - exact (whalt_program _ (kept_true io) pds polls fuel w v cs path txt img h segs s r Hp1 Hp2 Hp3 Hr Hroot Hpath Hfile Hexe Hfr Hroom).
  - by intros s' [Hs' _].
Qed.

(** ** The property at a concrete input

    The disk holds the volume of programs of Elf.v; six pages are free. *)

Definition pmm_demo6 : pmm := foldr give_page pmm_full [256; 257; 258; 259; 260; 261].

Definition vm_demo6 : vm := set_pmm pmm_demo6 vm_demo.

Lemma gave_pages l s : pmm_wf s → NoDup l → Forall (λ p, is_page p ∧ page_used s p = true) l →
  pmm_wf (foldr give_page s l) ∧
  (∀ q, is_page q → page_used (foldr give_page s l) q = page_used s q && bool_decide (q ∉ l)) ∧
  free_count (foldr give_page s l) = free_count s + Z.of_nat (length l).
Proof.
  intros Hwf. induction l as [|p l IH]; intros Hnd Hl; cbn.
  - split_and!; [done|intros q _; by rewrite bool_decide_true, andb_true_r by set_solver|lia].
  - apply NoDup_cons in Hnd as [Hp Hnd]. apply Forall_cons in Hl as [[Hp1 Hp2] Hl]. destruct (IH Hnd Hl) as (G1 & G2 & G3).
    unfold give_page at 1 3 5. split_and!.
    + apply wf_set_used; [|apply w32_range]. by apply wf_mark_free.
    + intros q Hq. change (page_used (set_used _ ?x) q) with (page_used x q). rewrite page_used_mark_free, G2 by done.
      destruct (Z.eqb_spec p q) as [->|Hne]; [rewrite (bool_decide_false (q ∉ _)), andb_false_r; [done|]; intros Hx; apply Hx; by left|].
      f_equal. apply bool_decide_ext. rewrite not_elem_of_cons. split; [by split; [intros ->|]|by intros [_ ?]].
    + rewrite free_count_set_used, free_count_mark_free, G3; [lia|done|done|].
      rewrite G2, Hp2 by done. by rewrite bool_decide_true.
Qed.

Lemma gave_six s :
  pmm_wf s → (∀ q, is_page q → page_used s q = true) → let s' := foldr give_page s [256; 257; 258; 259; 260; 261] in
  pmm_wf s' ∧ (∀ q, 0 ≤ q < 256 → page_used s' q = true) ∧ free_count s' = 6.
Proof.
  intros Hwf Hall. destruct (gave_pages [256; 257; 258; 259; 260; 261] s Hwf) as (G1 & G2 & G3).
  - refine (bool_decide_unpack _ _). vm_compute. exact I.
  - repeat (constructor; [split; [|apply Hall]; pmm_lia|]). constructor.
  - cbv zeta. split; [exact G1|]. split.
    + intros q Hq. rewrite G2, Hall by pmm_lia. cbn [andb]. apply bool_decide_eq_true_2.
      rewrite !not_elem_of_cons. split_and!; try lia. apply not_elem_of_nil.
    + rewrite G3, (free_count_none s Hall). done.
Qed.

Lemma demo6_gave :
  pmm_wf pmm_demo6 ∧ (∀ q, 0 ≤ q < 256 → page_used pmm_demo6 q = true) ∧ free_count pmm_demo6 = 6.
Proof. exact (gave_six pmm_full wf_pmm_full (λ q Hq, all_used_view 0 0 q Hq)). Qed.

Lemma demo_pmm_inv s :
  pmm_wf s → (∀ q, 0 ≤ q < 256 → page_used s q = true) → vm_inv [0x1000] (set_pmm s vm_demo).
Proof.
  intros G1 G2. constructor; try apply vm_demo_inv.
  - exact G1.
  - apply (G2 0). lia.
  - intros D ->%list_elem_of_singleton. split; [pg_lia|]. apply (G2 1). lia.
  - intros D i _ _. change (pde (set_pmm s vm_demo) D i) with (pde vm_demo D i). by rewrite vm_demo_pde.
Qed.

Lemma demo_pmm_space s :
  pmm_wf s → (∀ q, 0 ≤ q < 256 → page_used s q = true) → free_count s = 6 →
  space_ok [0x1000] space_demo (set_pmm s vm_demo).
Proof.
  intros G1 G2 G3. assert (Hwalk : ∀ p, page_entry (set_pmm s vm_demo) p = None).
  { intros p. unfold page_entry, walk. change (ldw (vm_mem (set_pmm s vm_demo)) (slot ?D ?i)) with (pde vm_demo D i).
    by rewrite vm_demo_pde. }
  constructor.
  - by apply demo_pmm_inv.
  - change (6 ≤ free_count s). lia.
  - intros i _. change (pde (set_pmm s vm_demo) ?D i) with (pde vm_demo D i). by rewrite vm_demo_pde.
  - intros p fl Hp. cbn in Hp. by rewrite lookup_empty in Hp.
  - intros p _ _. apply Hwalk.
  - intros p q x y _ _ Hx. by rewrite Hwalk in Hx.
  - intros a c Ha. cbn in Ha. by rewrite lookup_empty in Ha.
Qed.

Lemma demo6_space : space_ok [0x1000] space_demo vm_demo6.
Proof. destruct demo6_gave as (G1 & G2 & G3). exact (demo_pmm_space pmm_demo6 G1 G2 G3). Qed.

Definition program_disk : disk :=
  mkDisk {[ 0 := words_of boot_demo; 1 := words_of fat_demo; 2 := words_of (v_sector programs_demo 2);
            3 := words_of program_demo; 4 := replicate 256 0x4242 ]} 64 (replicate 256 0x2020) false 0 Idle 0 0 0 0 0xA0.

Definition program_volume : volume := volume_of 64 (d_data program_disk).

Definition machine_demo : loader (storage (uart * disk) vm) :=
  mkLoader (mkFs (bpb fs_demo) 1 2 2 5 (nodes fs_demo) ∅
    (mkStorage heap_demo vm_demo6 [drive_demo; absent_demo; absent_demo; absent_demo] 1
      (console_demo (uart_demo, program_disk)))) 0x202 None.

Lemma program_disk_wf : disk_wf program_disk.
Proof.
  unfold disk_wf, program_disk. cbn [d_data].
  repeat apply map_Forall_insert_2; try apply map_Forall_empty; (split; [reflexivity|]);
    refine (bool_decide_unpack _ _); vm_compute; exact I.
Qed.

Lemma machine_demo_ready : storage_ready (space_ok [0x1000] space_demo) (λ _, True) program_volume (env (ld_fs machine_demo)) [] 4096.
Proof.
  split.
  - split; [exact demo6_space|]. split; [vm_compute; congruence|]. eexists. split; [exact heap_demo_inv|].
    cbn [stacked]. split; [done|]. split; [|done].
    exists (mkSeg 0x400000 4096 true). split_and!; [by apply list_elem_of_singleton|done|done].
  - unfold devices_ready. do 4 (split; [done|]). split; [split; [done|cbn; lia]|]. split; [split; [done|by exists drive_demo]|].
    split; [exact program_disk_wf|]. split; [split_and!; [done|cbn; lia|by right]|]. by split.
Qed.

Lemma machine_root : root_directory 3 program_volume (ld_fs machine_demo) [2].
Proof.
  split; [split; [exact (storage_vol_wf _ _ _ _ _ _ machine_demo_ready)|];
    split_and!; [done|vm_compute; congruence|done|vm_compute; congruence|vm_compute; congruence]|].
  split; [cbn; lia|]. eexists _, 2. split; [reflexivity|]. split_and!; [done|done|done|].
  apply chain_last; [split_and!; vm_compute; congruence|vm_compute; congruence].
Qed.

Lemma machine_file : file_at 3 program_volume (ld_fs machine_demo) [2] (str "SHELL") (program_demo ++ replicate 512 66).
Proof.
  eexists (default (mkEntry [] 0 0 0 0 0 0 0 0 0 0 0) (entry_at (v_sector programs_demo 2) 0)), [3; 4].
  split; [vm_compute; reflexivity|]. split; [done|]. split; [|split; [cbn; lia|vm_compute; reflexivity]].
  apply chain_next; [split_and!; vm_compute; congruence|vm_compute; congruence|].
  apply chain_last; [split_and!; vm_compute; congruence|vm_compute; congruence].
Qed.

Lemma program_in_memory_witness :
  let E := storage_env 4 in
  whalt (elf_exec 3 (lit "SHELL")) machine_demo (λ s', let m := st_pages (env (ld_fs s')) in
    (uf_eip <$> user_cpu s') = Some 0x40000000 ∧ peek m 0x40000001 = Some 0xFE ∧ peek m 0x40000007 = Some 0 ∧
    user_access m 0x40000007 false ∧ user_access m 0xBFFFFFFC true ∧ peek m 0x50000000 = None).
Proof.
  assert (Hp : holds (lit "SHELL") (str "SHELL")) by holds_lit.
  assert (Hroom : 2 * csize (ld_fs machine_demo) + 32 * eh_phnum header_demo + 1016 ≤ 4096) by (vm_compute; congruence).
  assert (Hfr : 2 * total_pages [segment_demo] + 4 ≤ Z.of_nat (sp_frames space_demo)) by (vm_compute; congruence).
  intros E. eapply whalt_mono; [exact (program_in_memory [0x1000] 4 3 space_demo program_volume [2] (lit "SHELL") (str "SHELL") _
    header_demo [segment_demo] machine_demo 4096 (le_n 4) timeout_demo (le_S 3 3 (le_n 3)) machine_demo_ready machine_root Hp
    machine_file program_demo_executable Hfr Hroom)|].
  cbv beta zeta. intros s' (Hu & Hs & Hst & Hno & _). rewrite Hu.
  assert (Hin : segment_demo ∈ [segment_demo]) by (by apply list_elem_of_singleton).
  destruct (Hs segment_demo 1 Hin) as [H1 _]; [by vm_compute|].
  destruct (Hs segment_demo 7 Hin) as [H7 A7]; [by vm_compute|].
  split; [reflexivity|]. split; [exact H1|]. split; [exact H7|]. split; [exact A7|].
  split; [apply Hst; lia|]. apply Hno; [lia| |done].
  intros ph ->%list_elem_of_singleton [Ha Hb]. vm_compute in Hb. done.
Defined.
