(* ===== verification/Boot.v ===== *)
(** * The start of the kernel (src/src/kernel.c, [kmain] up to the heap)

    [kmain] brings the parts of the kernel up one after the other.  Each phase here is the
    sequence of calls of the source, the messages on the screen and on the serial line
    included, on one state: the console with the devices, the segments, the interrupt
    tables, memory and the heap.  The theorems say what the later phases find. *)

From S2P Require Import Prelude Pic Idt Console Gdt Pmm Paging Heap.

(** Static variables of kernel.c, gdt.c, idt.c, pmm.c with paging.c, and heap.c; the devices
    are in the console.  The handlers of idt.c are in [bt_intr]. *)
Record boot (D : Type) := mkBoot {
  bt_con : console D;
  bt_seg : seg_state;
  bt_intr : intr unit;
  bt_vm : vm;
  bt_heap : heap
}.

Arguments mkBoot {D}.
Arguments bt_con {D}.
Arguments bt_seg {D}.
Arguments bt_intr {D}.
Arguments bt_vm {D}.
Arguments bt_heap {D}.

Section boot.
Context {D : Type} `{Device D} `{GdtAddresses} `{IsrAddresses}.
Implicit Types s : boot D.

Definition set_con (c : console D) (s : boot D) : boot D := mkBoot c (bt_seg s) (bt_intr s) (bt_vm s) (bt_heap s).

Definition in_con {A} (m : M (console D) A) : M (boot D) A := zoom bt_con set_con m.

Definition in_ports {A} (m : M D A) : M (boot D) A := in_con (zoom machine set_machine m).

Definition in_seg {A} (m : M seg_state A) : M (boot D) A :=
  zoom bt_seg (λ g s, mkBoot (bt_con s) g (bt_intr s) (bt_vm s) (bt_heap s)) m.

(** idt.c works on its tables and on the devices. *)
Definition intr_view (s : boot D) : intr D :=
  let i := bt_intr s in mkIntr (idt i) (idtp i) (interrupt_handlers i) (idtr i) (vga i) (machine (bt_con s)).

Definition in_intr {A} (m : M (intr D) A) : M (boot D) A :=
  zoom intr_view (λ i s, mkBoot (set_machine (dev i) (bt_con s)) (bt_seg s)
    (mkIntr (idt i) (idtp i) (interrupt_handlers i) (idtr i) (vga i) tt) (bt_vm s) (bt_heap s)) m.

(** paging.c registers its handler in the table of idt.c. *)
Definition vm_view (s : boot D) : vm := set_handlers (interrupt_handlers (bt_intr s)) (bt_vm s).

Definition set_vm (v : vm) (s : boot D) : boot D :=
  let i := bt_intr s in
  mkBoot (bt_con s) (bt_seg s) (mkIntr (idt i) (idtp i) (vm_handlers v) (idtr i) (vga i) (dev i)) v (bt_heap s).

Definition in_vm {A} (m : M vm A) : M (boot D) A := zoom vm_view set_vm m.

Definition in_heap {A} (m : M heap A) : M (boot D) A :=
  zoom bt_heap (λ h s, mkBoot (bt_con s) (bt_seg s) (bt_intr s) (bt_vm s) h) m.

(** The bound on the polls of the serial port; the end of the kernel image, the page
    directory, the page tables and the stack for interrupts, where the linker put them; the
    memory map the boot loader left in memory, with a bound on its entries. *)
Context (polls : nat).
Context (_end kernel_pd kernel_page_tables kernel_interrupt_stack : Z).
Context (mmap_at : Z → multiboot_mmap_entry) (entries : nat).

Definition say (msg : string) : M (boot D) unit := in_con (log_info polls (lit msg)).

Definition show (row col : Z) (msg : string) : M (boot D) unit := in_con (vga_write_at row col (lit msg)).

(** [sizeof(kernel_interrupt_stack)]. *)
Definition KERNEL_STACK_BYTES : Z := 8192.

Definition boot_cpu : M (boot D) unit :=
  in_ports serial_init;;
  say "FlowOS: Starting kernel...";;
  in_con vga_clear;;
  in_con (vga_write_centered 8 (lit "FlowOS is initializing..."));;
  in_con (vga_write_centered 10 (lit "Please wait..."));;
  show 24 0 "Initializing GDT...";;
  say "FlowOS: Initializing GDT...";;
  in_seg gdt_init;;
  let kernel_stack_top := kernel_interrupt_stack +w KERNEL_STACK_BYTES in
  in_seg (write_tss 5 0x10 kernel_stack_top);;
  say "FlowOS: TSS configured with kernel interrupt stack";;
  show 24 0 "Initializing IDT...";;
  say "FlowOS: Initializing IDT...";;
  in_intr idt_init;;
  say "FlowOS: Remapping PIC...";;
  in_ports (pic_remap 0x20 0x28).

Definition KERNEL_HEAP_VIRT : Z := 0xC0000000.

Definition HEAP_PAGES : Z := 256.

Definition boot_paging (mboot : multiboot_info) : M (boot D) unit :=
  show 24 0 "Initializing PMM...";;
  say "FlowOS: Initializing PMM...";;
  in_vm (in_pmm (pmm_init mmap_at _end entries mboot));;
  show 24 0 "Initializing Paging...";;
  say "FlowOS: Initializing paging...";;
  in_vm (paging_init kernel_pd kernel_page_tables).

Definition boot_heap : M (boot D) unit :=
  say "FlowOS: Allocating kernel heap...";;
  heap_phys ← in_vm (in_pmm (pmm_alloc_pages HEAP_PAGES));
  when (heap_phys =? 0)
    (in_con (vga_write_centered 12 (lit "CRITICAL ERROR: Heap OOM"));;
     say "Heap OOM";;
     halt);;
  for_ 0 (trips 0 HEAP_PAGES) (λ i,
    in_vm (paging_map_page (KERNEL_HEAP_VIRT +w i *w PAGE_SIZE) (heap_phys +w i *w PAGE_SIZE)
             (Z.lor PAGE_PRESENT PAGE_WRITE)));;
  say "FlowOS: Initializing heap...";;
  in_heap (heap_init KERNEL_HEAP_VIRT (HEAP_PAGES *w PAGE_SIZE)).

Definition boot_memory (mboot : multiboot_info) : M (boot D) unit := boot_paging mboot;; boot_heap.

End boot.

(** ** Lemmas *)

(** Taking a page leaves the others as they are. *)
Lemma used_take f s q :
  pmm_wf s → is_page f → is_page q → page_used s q = true → page_used (take_page f s) q = true.
Proof.
  intros Hs Hf Hq Hu. change (page_used (mark_used f s) q = true). rewrite page_used_mark_used by done.
  by destruct (f =? q).
Qed.

(** A mapping changes neither the handlers nor the paging bit. *)
Lemma wlp_map_page va pa flags v :
  wlp (paging_map_page va pa flags) v (λ _ v', cr0_pg v' = cr0_pg v ∧ vm_handlers v' = vm_handlers v).
Proof.
  set (I v' := cr0_pg v' = cr0_pg v ∧ vm_handlers v' = vm_handlers v).
  assert (Hm : ∀ f s, I s → I (f s) → wlp (modify f) s (λ _ s', I s')) by done.
  unfold paging_map_page. apply wlp_bind. unfold wlp at 1, gets. apply wlp_bind. unfold wlp at 1, load, gets.
  apply wlp_bind. eapply wlp_mono with (λ _ v', I v').
  - destruct (negb _); [|done]. unfold new_page_table. apply wlp_bind. unfold in_pmm. apply wlp_zoom.
    unfold wlp at 1. destruct (pmm_alloc_page _) as [pt p| | |]; [|done..]. destruct (pt =? 0); [done|].
    apply wlp_bind. eapply wlp_mono; [apply (wlp_for I); [by intros i s' Hs'; apply Hm|done]|].
    intros ? s1 H1. apply wlp_bind. unfold wlp at 1, store, modify. exact H1.
  - intros ok s1 H1. destruct (negb ok); [done|]. apply wlp_bind. unfold wlp at 1, load, gets.
    apply wlp_bind. unfold wlp at 1, store, modify. exact H1.
Qed.

(** Mapping a range of pages, one after the other, with a frame for the table at hand. *)
Section range.
Context (KP base a n : Z).
Hypothesis Hbase : base mod 4194304 = 0.
Hypothesis Hb : 0 ≤ base ∧ base + 4194304 ≤ 4294967296.
Hypothesis Ha : 0 ≤ a ∧ a + n ≤ NPAGES ∧ n ≤ 1024.

(** The first [k] pages from [base] are mapped to the frames from [a]; every other
    translation is that of [v0]. *)
Record mapped (v0 : vm) (k : Z) (v : vm) : Prop := mkMapped {
  mp_inv : vm_inv [KP] v;
  mp_current : current_pd_phys v = KP;
  mp_same : cr0_pg v = cr0_pg v0 ∧ vm_handlers v = vm_handlers v0;
  mp_used q : is_page q → page_used (vm_pmm v0) q = true → page_used (vm_pmm v) q = true;
  mp_table : k = 0 → v = v0;
  mp_present : 0 < k → present (pde v KP (pd_index base)) = true;
  mp_dirs i : 0 ≤ i < 1024 → i ≠ pd_index base → pde v KP i = pde v0 KP i;
  mp_free : free_count (vm_pmm v0) - 1 ≤ free_count (vm_pmm v);
  mp_walk va : is_u32 va → walk (vm_mem v) KP va =
    if (base <=? va) && (va <? base + k * 4096)
    then Some (pte_value ((a + (va - base) / 4096) * 4096) 3) else walk (vm_mem v0) KP va
}.

Lemma in_table k : 0 ≤ k < 1024 → is_u32 (base + k * 4096) ∧ pd_index (base + k * 4096) = pd_index base.
Proof. intros Hk. rewrite !pd_index_div. split; mlia. Qed.

Lemma map_next v0 k v :
  0 ≤ k < n → vm_inv [KP] v0 → (∃ p, is_page p ∧ page_used (vm_pmm v0) p = false) → mapped v0 k v →
  wp (paging_map_page (base + k * 4096) ((a + k) * 4096) 3) v (λ _ v', mapped v0 (k + 1) v').
Proof.
  intros Hk Hinv0 (p & Hp & Hfree) [Hinv Hc Hsame Hused H0 Hpr Hdirs Hcount Hw]. destruct (in_table k ltac:(lia)) as [Hva Hpd].
  assert (Hpa : is_u32 ((a + k) * 4096)) by pg_lia.
  destruct (pte_value_spec ((a + k) * 4096) 3 Hpa ltac:(lia)) as (Hu & Hfr & Hpres).
  eapply wp_mono; [apply wp_wlp_and; [|apply wlp_map_page]|].
  - apply (wp_paging_map_page [KP] v _ _ _ (λ _ v', vm_inv [KP] v' ∧ current_pd_phys v' = KP ∧
      (∀ q, is_page q → page_used (vm_pmm v) q = true → page_used (vm_pmm v') q = true) ∧
      present (pde v' KP (pd_index base)) = true ∧
      (∀ i, 0 ≤ i < 1024 → i ≠ pd_index base → pde v' KP i = pde v KP i) ∧
      free_count (vm_pmm v0) - 1 ≤ free_count (vm_pmm v') ∧
      ∀ va, is_u32 va → walk (vm_mem v') KP va =
        if va / 4096 =? (base + k * 4096) / 4096 then Some (pte_value ((a + k) * 4096) 3) else walk (vm_mem v) KP va));
      [done|done| |].
    + intros v1 Hr. destruct (table_ready_facts _ _ _ _ _ Hinv Hr) as (Hinv1 & Hc1 & Hp1 & Hw1). rewrite Hc in *.
      split_and!; [by apply put_pte_inv|done| | | | |].
      * intros q Hq Hqu. change (vm_pmm (put_pte _ _ v1)) with (vm_pmm v1).
        destruct Hr as [[-> _]|(_ & f & Hf & _ & _ & _ & -> & _)]; [done|]. apply used_take; [apply Hinv|done..].
      * rewrite (put_pte_pde [KP]), <- Hpd; [by rewrite Hc1 in Hp1|done|done|done|by left|rewrite <- Hpd; by apply pd_index_range].
      * intros i Hi Hne. rewrite (put_pte_pde [KP]) by (done || by left).
        destruct Hr as [[-> _]|(_ & f & Hf & Hff & Hnew)]; [done|].
        apply (fresh_table_pde [KP] (base + k * 4096) 3 f); [done..|by left|done|]. rewrite Hc, Hpd. congruence.
      * change (vm_pmm (put_pte _ _ v1)) with (vm_pmm v1).
        destruct Hr as [[-> _]|(Habs & f & Hf & Hff & _ & _ & -> & _)]; [done|]. rewrite free_count_take by (done || apply Hinv).
        destruct (Z.eq_dec k 0) as [->|]; [by rewrite H0|]. rewrite Hc, Hpd, Hpr in Habs by lia. done.
      * intros va Hva'. rewrite <- Hc1 at 1. rewrite (put_pte_walk_current [KP]), Hpres by done.
        destruct (va / 4096 =? _); [done|]. rewrite Hc1. apply Hw1; [by left|done].
    + intros Habs Hall. exfalso. rewrite Hc, Hpd in Habs. destruct (Z.eq_dec k 0) as [->|].
      * rewrite H0 in Hall by done. rewrite Hall in Hfree by done. done.
      * rewrite Hpr in Habs by lia. done.
  - intros [] v' [(G1 & G2 & G3 & G4 & Gd & Gf & G5) [G6 G7]]. destruct Hsame as [E1 E2].
    split; [done|done|split; congruence|by auto|lia|done|intros i Hi Hne; by rewrite Gd, Hdirs|done|].
    intros va Hva'. rewrite G5, Hw by done.
    destruct (Z.eqb_spec (va / 4096) ((base + k * 4096) / 4096)) as [E|E].
    + destruct (Z.leb_spec base va), (Z.ltb_spec va (base + (k + 1) * 4096)); try mlia. cbn.
      by replace ((va - base) / 4096) with k by mlia.
    + destruct (Z.leb_spec base va), (Z.ltb_spec va (base + (k + 1) * 4096)), (Z.ltb_spec va (base + k * 4096)); try mlia; done.
Qed.

End range.

(** The translation the processor gives, from its page walk. *)
Lemma heap_translation f va (v : vm) :
  0 ≤ f → f + 256 ≤ NPAGES → is_u32 va →
  Ret (match (if (0xC0000000 <=? va) && (va <? 0xC0000000 + 256 * 4096)
              then Some (pte_value ((f + (va - 0xC0000000) / 4096) * 4096) 3)
              else if va <? 0x40000000 then Some (rw_entry (va / 4096 * 4096)) else None) with
       | Some e => frame e +w Z.land va 0xFFF
       | None => 0
       end) v =
  Ret (if va <? 0x40000000 then va
       else if (0xC0000000 <=? va) && (va <? 0xC0100000) then f * 4096 + (va - 0xC0000000) else 0) v.
Proof.
  intros Hf0 Hf1 Hva. f_equal. change (0xC0000000 + 256 * 4096) with 0xC0100000.
  change 0xFFF with (Z.ones 12). rewrite Z.land_ones by lia. change (2 ^ 12) with 4096.
  destruct (Z.ltb_spec va 0x40000000).
  - destruct (Z.leb_spec 0xC0000000 va); [lia|]. cbn [andb].
    destruct (rw_entry_spec (va / 4096 * 4096)) as (_ & -> & _); [pg_lia|]. rewrite w32_small by mlia. mlia.
  - destruct (Z.leb_spec 0xC0000000 va), (Z.ltb_spec va 0xC0100000); cbn [andb]; try done.
    destruct (pte_value_spec ((f + (va - 0xC0000000) / 4096) * 4096) 3) as (_ & -> & _); [pg_lia|lia|].
    rewrite frame_div by pg_lia. rewrite w32_small by pg_lia. pg_lia.
Qed.

(** The console in order: the whole screen, and the serial port up. *)
Definition con_ok {D} `{UartDevice D} (c : console D) : Prop :=
  length (VGA_MEMORY c) = 4000%nat ∧ uart_ready (machine c).

Definition log_line (msg : string) : list Z := str "[INFO] " ++ str msg ++ [10].

Definition sent {D} `{UartDevice D} (c : console D) : list Z := u_sent (uart_of (machine c)).

(** The serial port does not take part when a mask of the interrupt controllers is read. *)
Class Chipset (D : Type) `{Device D} {UD : UartDevice D} {PD : PicDevice D} := {
  chipset_in port k : port = PIC1_DATA ∨ port = PIC2_DATA → uart_of (dev_in port k).2 = uart_of k
}.

(** A property of the devices that neither the serial port nor the interrupt controllers
    can change. *)
Record undisturbed {D} `{Device D} (I : D → Prop) : Prop := mkUndisturbed {
  ud_poll k : I k → I (dev_in 0x3FD k).2;
  ud_mask port k : port = PIC1_DATA ∨ port = PIC2_DATA → I k → I (dev_in port k).2;
  ud_out port v k : port ∈ [0x20; 0x21; 0x80; 0xA0; 0xA1] ∨ 0x3F8 ≤ port ≤ 0x3FC → I k → I (dev_out port v k)
}.

Lemma undisturbed_true {D} `{Device D} : undisturbed (λ _ : D, True).
Proof. done. Qed.

Section phases.
Context {D : Type} `{Device D} {UD : UartDevice D} {PD : PicDevice D} {CD : Chipset D}.
Implicit Types s : boot D.

(** What the devices keep meanwhile, and the text of the login. *)
Context (I : D → Prop) (HI : undisturbed I) (names : list Z * list Z).

Definition con_in (c : console D) : Prop :=
  con_ok c ∧ (login_username c, login_password c) = names ∧ I (machine c).

Lemma wp_draw (op : M (console D) unit) s (Q : unit → boot D → Prop) :
  draws op → con_in (bt_con s) →
  (∀ c, con_in c → machine c = machine (bt_con s) → Q tt (set_con c s)) → wp (in_con op) s Q.
Proof.
  intros Hd [[Hl Hr] Hn] HQ. unfold in_con. apply wp_zoom. apply wp_draws; [done|done|].
  intros c (m & row & col & Hm & ->). by apply HQ.
Qed.

Lemma wp_show row col msg s (Q : unit → boot D → Prop) :
  0 ∉ str msg → con_in (bt_con s) →
  (∀ c, con_in c → machine c = machine (bt_con s) → Q tt (set_con c s)) → wp (show row col msg) s Q.
Proof. intros Hm Hc HQ. apply wp_draw; [|done|done]. eapply draws_write_at. by apply lit_holds. Qed.

Lemma vm_view_set v s : vm_view (set_vm v s) = v.
Proof. by destruct v. Qed.

(** A write to the serial port, seen through its state and that of the interrupt controllers. *)
Lemma wp_uart_out port v (k : D) (Q : unit → D → Prop) :
  0x3F8 ≤ port ≤ 0x3FC → I k →
  (∀ k' busy, uart_of k' = uart_out busy port (w8 v) (uart_of k) → chips k' = chips k → I k' → Q tt k') → wp (outb port v) k Q.
Proof.
  intros Hp Hk HQ. unfold outb. replace (w16 port) with port by (unfold w16; mlia).
  destruct (uart_dev_out port (w8 v) k) as (busy & _ & E). apply wp_modify, (HQ _ busy); [done| |apply (ud_out _ HI); auto].
  rewrite chips_dev_out. unfold chips_out, PIC1_COMMAND, PIC1_DATA, PIC2_COMMAND, PIC2_DATA.
  destruct (chips k). by repeat (case_match; [lia|]).
Qed.

(** The serial port after [serial_init]: 115200 baud and eight data bits; its interrupts are
    off unless the port was just being given its divisor. *)
Lemma wp_serial_init (k : D) (Q : unit → D → Prop) :
  I k →
  (∀ k', uart_of k' = mkUart (if Z.testbit (u_lcr (uart_of k)) 7 then u_ier (uart_of k) else 0) 0xC7 0x03 0x0B 1 0
                        (u_busy (uart_of k)) (u_sent (uart_of k)) →
     chips k' = chips k → I k' → Q tt k') →
  wp serial_init k Q.
Proof.
  intros Hk HQ. unfold serial_init.
  do 6 (wp_step; apply wp_uart_out; [lia|assumption|]; let E := fresh "E" in let C := fresh "C" in intros ? ? E C ?).
  apply wp_uart_out; [lia|assumption|]. intros k7 b7 E7 C7 I7. apply HQ; [|congruence|done].
  rewrite E7. repeat match goal with E : uart_of ?x = uart_out _ _ _ _ |- context [uart_of ?x] => rewrite E end.
  destruct (uart_of k) as [ier fcr lcr mcr lo hi bz out].
  assert (Hfirst : ∀ b, uart_out b (0x3F8 + 1) (w8 0) (mkUart ier fcr lcr mcr lo hi bz out) =
    if Z.testbit lcr 7 then mkUart ier fcr lcr mcr lo 0 bz out else mkUart 0 fcr lcr mcr lo hi bz out) by done.
  rewrite Hfirst. cbn [u_lcr u_ier u_busy u_sent]. by destruct (Z.testbit lcr 7).
Qed.

(** The serial port as it was, and what the devices keep. *)
Definition aside (u : uart) (k : D) : Prop := uart_of k = u ∧ I k.

Lemma wlp_other_out u port v (k : D) :
  port ∈ [0x20; 0x21; 0x80; 0xA0; 0xA1] → aside u k → wlp (outb port v) k (λ _ k', aside u k').
Proof.
  intros Hp [<- Hk]. unfold wlp, outb, modify.
  assert (Hr : 0 ≤ port < 256) by (repeat (apply elem_of_cons in Hp as [-> | Hp]; [lia|]); by apply elem_of_nil in Hp).
  replace (w16 port) with port by (unfold w16; mlia). split; [|apply (ud_out _ HI); auto].
  destruct (uart_dev_out port (w8 v) k) as (busy & _ & ->). apply uart_elsewhere. lia.
Qed.

Lemma wlp_mask_in u port (k : D) :
  port = PIC1_DATA ∨ port = PIC2_DATA → aside u k → wlp (inb port) k (λ _ k', aside u k').
Proof.
  intros Hp [<- Hk]. unfold wlp, inb. replace (w16 port) with port by (destruct Hp as [->| ->]; done).
  pose proof (chipset_in port k Hp) as E. pose proof (ud_mask _ HI port k Hp Hk) as Hk'. by destruct (dev_in port k).
Qed.

(** Remapping does not touch the serial port. *)
Lemma wlp_remap_uart o1 o2 u (k : D) : aside u k → wlp (pic_remap o1 o2) k (λ _ k', aside u k').
Proof.
  intros Hk. unfold pic_remap, io_wait.
  do 2 (apply wlp_bind; eapply wlp_mono; [apply wlp_mask_in; [auto|eassumption]|]; cbv beta; intros ? ? ?).
  do 17 (apply wlp_bind; eapply wlp_mono; [apply wlp_other_out; [refine (bool_decide_unpack _ _); by vm_compute|eassumption]|];
         cbv beta; intros ? ? ?).
  apply wlp_other_out; [refine (bool_decide_unpack _ _); by vm_compute|done].
Qed.

Lemma wp_remap (k : D) (Q : unit → D → Prop) :
  operational (chips k).1 → operational (chips k).2 → I k →
  (∀ k', aside (uart_of k) k' →
     chips k' = (mkChip (c_imr (chips k).1) (c_isr (chips k).1) 0x20 4 1 0,
                 mkChip (c_imr (chips k).2) (c_isr (chips k).2) 0x28 2 1 0) → Q tt k') →
  wp (pic_remap 0x20 0x28) k Q.
Proof.
  intros H1 H2 Hk HQ. eapply wp_mono; [apply wp_wlp_and; [by apply pic_remap_spec|by apply (wlp_remap_uart _ _ (uart_of k))]|].
  intros [] k' [G1 G2]. by apply HQ.
Qed.

Lemma remapped (k k' : D) :
  pic_remap 0x20 0x28 k = Ret tt k' → operational (chips k).1 → operational (chips k).2 → I k →
  aside (uart_of k) k' ∧
  chips k' = (mkChip (c_imr (chips k).1) (c_isr (chips k).1) 0x20 4 1 0,
              mkChip (c_imr (chips k).2) (c_isr (chips k).2) 0x28 2 1 0).
Proof.
  intros E H1 H2 Hk. assert (Hw : wp (pic_remap 0x20 0x28) k (λ _ k', aside (uart_of k) k' ∧ chips k' =
    (mkChip (c_imr (chips k).1) (c_isr (chips k).1) 0x20 4 1 0, mkChip (c_imr (chips k).2) (c_isr (chips k).2) 0x28 2 1 0)))
    by (by apply wp_remap).
  unfold wp in Hw. by rewrite E in Hw.
Qed.

(** Where the linker and the boot loader put things: the directory and the tables lie in the
    kernel image, the memory map is well formed. *)
Record image_ok (_end KP KT : Z) : Prop := mkImageOk {
  io_pd : aligned KP;
  io_pt : aligned KT;
  io_pd_end : KP + 4096 ≤ kernel_end_of _end;
  io_pt_end : KT + 256 * 4096 ≤ kernel_end_of _end;
  io_apart : KP + 4096 ≤ KT ∨ KT + 256 * 4096 ≤ KP
}.

Record mmap_ok (mmap_at : Z → multiboot_mmap_entry) (entries : nat) (mboot : multiboot_info) (K : Z) : Prop := mkMmapOk {
  mo_entry a : entry_ok (mmap_at a) ∧ me_size (mmap_at a) ≤ K;
  mo_flag : Z.testbit (mb_flags mboot) 6 = true;
  mo_addr : 0 ≤ mb_mmap_addr mboot;
  mo_len : 0 ≤ mb_mmap_length mboot;
  mo_end : mb_mmap_addr mboot + mb_mmap_length mboot + K + 4 ≤ 4294967296;
  mo_fuel : mb_mmap_length mboot + 4 ≤ 4 * Z.of_nat entries
}.

(** The pages of the memory map that may be used. *)
Definition available (mmap_at : Z → multiboot_mmap_entry) (entries : nat) (mboot : multiboot_info) (_end : Z) : list Z :=
  match mmap_walk mmap_at entries (mb_mmap_addr mboot) (mb_mmap_addr mboot + mb_mmap_length mboot) with
  | Some es => es ≫= entry_pages (kernel_end_of _end)
  | None => []
  end.

Lemma kernel_end_range _end : 0 ≤ kernel_end_of _end < 4294967296.
Proof. apply land_u32, w32_range. Qed.

(** The page tables of the kernel after [paging_init], whatever pages were taken since. *)
Lemma paged_inv _end KP KT m h l p :
  image_ok _end KP KT → tables_filled KP KT 256 m → pmm_wf p → page_used p 0 = true →
  (∀ q, is_page q → q * 4096 < kernel_end_of _end → page_used p q = true) →
  vm_inv [KP] (mkVm p h m KP KP KP true ∅ l).
Proof.
  intros [G1 G2 G3 G4 G5] Hm Hp H0 Hu. pose proof (kernel_end_range _end).
  apply (tables_filled_inv KP KT) with m; try done; [lia| |].
  - unfold frame_used. cbn. apply Hu; pg_lia.
  - intros i Hi. unfold frame_used. cbn. apply Hu; pg_lia.
Qed.

(** The loop that maps the heap. *)
Lemma wp_map_heap KP a v0 s (Q : unit → boot D → Prop) :
  0 ≤ a → a + 256 ≤ NPAGES → vm_inv [KP] v0 → current_pd_phys v0 = KP →
  (∃ p, is_page p ∧ page_used (vm_pmm v0) p = false) →
  (∀ v, mapped KP KERNEL_HEAP_VIRT a v0 256 v → Q tt (set_vm v s)) →
  wp (for_ 0 (trips 0 HEAP_PAGES) (λ i,
    in_vm (paging_map_page (KERNEL_HEAP_VIRT +w i *w PAGE_SIZE) (a * 4096 +w i *w PAGE_SIZE)
             (Z.lor PAGE_PRESENT PAGE_WRITE)))) (set_vm v0 s) Q.
Proof.
  intros Ha1 Ha2 Hinv Hc Hp HQ.
  apply wp_for with (λ k s', ∃ v, s' = set_vm v s ∧ mapped KP KERNEL_HEAP_VIRT a v0 k v).
  - exists v0. split; [done|]. split; try done; [lia|]. intros va Hva.
    destruct (Z.leb_spec KERNEL_HEAP_VIRT va), (Z.ltb_spec va (KERNEL_HEAP_VIRT + 0 * 4096)); (lia || done).
  - intros k ? Hk (v & -> & Hm). change (Z.of_nat (trips 0 HEAP_PAGES)) with 256 in Hk. unfold in_vm. apply wp_zoom.
    rewrite vm_view_set. unfold KERNEL_HEAP_VIRT at 1. change PAGE_SIZE with 4096. change (Z.lor PAGE_PRESENT PAGE_WRITE) with 3.
    rewrite (w32_small (k * 4096)), (w32_small (0xC0000000 + k * 4096)), (w32_small (a * 4096 + k * 4096)) by pg_lia.
    replace (a * 4096 + k * 4096) with ((a + k) * 4096) by lia.
    eapply wp_mono; [apply (map_next KP KERNEL_HEAP_VIRT a 256); [done|unfold KERNEL_HEAP_VIRT; lia|lia|lia|exact Hinv|exact Hp|exact Hm]|].
    intros [] v' Hm'. by exists v'.
  - change (0 + Z.of_nat (trips 0 HEAP_PAGES)) with 256. intros ? (v & -> & Hm). by apply HQ.
Qed.

(** The bound on the polls of the serial port. *)
Context (polls : nat) (Hpolls : (uart_delay < polls)%nat).

(** A message on the serial line and in the last row. *)
Lemma wp_say msg s (Q : unit → boot D → Prop) :
  0 ∉ str msg → con_in (bt_con s) →
  (∀ c, con_in c → sent c = sent (bt_con s) ++ log_line msg → chips (machine c) = chips (machine (bt_con s)) →
     Q tt (set_con c s)) →
  wp (say polls msg) s Q.
Proof.
  intros Hm ([Hl Hr] & Hn & Hi) HQ. unfold say, in_con. apply wp_zoom.
  apply (wp_log_any (λ k, chips k = chips (machine (bt_con s)) ∧ I k)) with (str msg); [| |done..|by apply lit_holds|apply str_bytes|].
  - intros k [<- Hk]. split; [apply chips_dev_in|by apply (ud_poll _ HI)].
  - intros v k [<- Hk]. split; [|apply (ud_out _ HI); [right; lia|done]]. rewrite chips_dev_out. unfold chips_out. cbn. by destruct (chips k).
  - intros c [Hl' _] Hr' [Hk Hk'] Hs [N1 N2]. apply HQ; [|done|done]. split; [done|]. split; [by rewrite N1, N2|done].
Qed.

(** Physical memory and paging. *)
Lemma wp_boot_paging _end KP KT mmap_at entries mboot K s (Q : unit → boot D → Prop) :
  con_in (bt_con s) → image_ok _end KP KT → mmap_ok mmap_at entries mboot K →
  total_pages (vm_pmm (bt_vm s)) = 0 → used_pages (vm_pmm (bt_vm s)) = 0 →
  map_Forall (λ _ x, is_u32 x) (vm_mem (bt_vm s)) → length (interrupt_handlers (bt_intr s)) = 256%nat →
  (∀ p m c, pmm_wf p ∧ (∀ q, is_page q → page_used p q = false ↔ q ∈ available mmap_at entries mboot _end) ∧
       (∀ q, is_page q → page_used p q = false → 0x100000 ≤ q * 4096 ∧ kernel_end_of _end ≤ q * 4096) →
     tables_filled KP KT 256 m → con_in c → chips (machine c) = chips (machine (bt_con s)) →
     sent c = sent (bt_con s) ++ log_line "FlowOS: Initializing PMM..." ++ log_line "FlowOS: Initializing paging..." →
     Q tt (set_vm (mkVm p (arr_set (interrupt_handlers (bt_intr s)) 14 (Some page_fault_handler_fn)) m KP KP KP true ∅
                     (vm_log (bt_vm s))) (set_con c s))) →
  wp (boot_paging polls _end KP KT mmap_at entries mboot) s Q.
Proof.
  intros Hcon Himg [Hat Hflag Haddr Hlen Hmend Hfuel] Ht0 Hu0 Hmem Hh HQ.
  destruct (pmm_init_mmap_run mmap_at _end entries mboot K (vm_pmm (bt_vm s)) Ht0 Hu0 Hat Hflag Haddr Hlen Hmend Hfuel)
    as (es & Hwalk & Hinit).
  unfold available in HQ. rewrite Hwalk in HQ. cbv zeta in Hinit.
  unfold boot_paging. wp_step. apply wp_show; [no_nul|exact Hcon|]. intros c1 Hc1 M1.
  wp_step. apply wp_say; [no_nul|exact Hc1|]. intros c2 Hc2 S2 K2. cbn [bt_con set_con] in *.
  wp_step. unfold in_vm at 1. apply wp_zoom. unfold in_pmm at 1. apply wp_zoom.
  eapply wp_mono; [exact Hinit|]. intros [] p1 (Hp1 & Hpu & Hfree & Hlow & _).
  set (s1 := set_vm _ _). assert (Hcon1 : bt_con s1 = c2) by reflexivity. rewrite <- Hcon1 in Hc2.
  wp_step. apply wp_show; [no_nul|exact Hc2|]. intros c3 Hc3 M3.
  wp_step. apply wp_say; [no_nul|exact Hc3|]. intros c4 Hc4 S4 K4. cbn [bt_con set_con] in *.
  unfold in_vm at 1. apply wp_zoom.
  apply (wp_paging_init KP KT); [apply Himg|apply Himg|pose proof (kernel_end_range _end); destruct Himg; lia|apply Himg|exact Hmem|cbn; lia|].
  intros m Hm. apply (HQ p1 m c4); [done|exact Hm|exact Hc4|congruence|].
  unfold sent in *. rewrite S4, M3. change (bt_con s1) with c2. rewrite S2, M1. by rewrite <- !app_assoc.
Qed.

(** The heap: 256 frames in a row, a table for them, and the list of one block. *)
Lemma wp_boot_heap _end KP KT p h m l a s (Q : unit → boot D → Prop) :
  con_in (bt_con s) → image_ok _end KP KT → tables_filled KP KT 256 m → pmm_wf p →
  (∀ q, is_page q → page_used p q = false → 0x100000 ≤ q * 4096 ∧ kernel_end_of _end ≤ q * 4096) →
  0 ≤ a → a + 257 ≤ NPAGES → (∀ q, a ≤ q < a + 257 → page_used p q = false) →
  let v0 := mkVm p h m KP KP KP true ∅ l in
  (∀ f p2 v hp c, run_free p f 256 → run_update true f 256 256 p p2 → free_count p2 = free_count p - 256 →
     mapped KP KERNEL_HEAP_VIRT f (set_pmm p2 v0) 256 v →
     heap_inv hp [mkSeg 0xC0000000 0x100000 true] → con_in c → chips (machine c) = chips (machine (bt_con s)) →
     sent c = sent (bt_con s) ++ log_line "FlowOS: Allocating kernel heap..." ++ log_line "FlowOS: Initializing heap..." →
     Q tt (mkBoot c (bt_seg s) (bt_intr (set_vm v s)) v hp)) →
  wp (boot_heap polls) (set_vm v0 s) Q.
Proof.
  intros Hcon Himg Hm Hp Hlow Ha0 Ha1 Hav v0 HQ. unfold boot_heap.
  wp_step. apply wp_say; [no_nul|exact Hcon|]. intros c1 Hc1 S1 K1. cbn [bt_con set_con set_vm] in *.
  assert (H0 : page_used p 0 = true) by (destruct (page_used p 0) eqn:E; [done|]; destruct (Hlow 0 ltac:(pg_lia) E); lia).
  wp_step. unfold in_vm at 1. apply wp_zoom. unfold in_pmm at 1. apply wp_zoom.
  apply (wp_pmm_alloc_pages p HEAP_PAGES); [exact Hp|unfold HEAP_PAGES, NPAGES; lia| |]; change HEAP_PAGES with 256 in *.
  2: { intros Hnone. exfalso. apply (Hnone a). split_and!; [lia|lia|]. intros q Hq. apply Hav. lia. }
  intros f p2 Hrun Hmin Hup Hcount. pose proof Hrun as (Hf0 & Hf1 & Hff). pose proof Hup as (Hp2 & _ & _ & Hview).
  assert (Hf : 0 < f).
  { destruct (Z.eq_dec f 0) as [->|]; [|lia]. rewrite Hff in H0 by lia. done. }
  assert (Hfa : f ≤ a).
  { destruct (Z.lt_ge_cases a f) as [Hlt|]; [|lia]. exfalso. apply (Hmin a); [lia|]. split_and!; [lia|lia|].
    intros q Hq. apply Hav. lia. }
  assert (Hused : ∀ q, is_page q → page_used p q = true → page_used p2 q = true).
  { intros q Hq Hu. rewrite Hview, Hu by done. by destruct (_ && _). }
  assert (Hinv : vm_inv [KP] (set_pmm p2 v0)).
  { apply (paged_inv _end KP KT); [done|done|done|apply Hused; [pg_lia|done]|]. intros q Hq Hlt. apply Hused; [done|].
    destruct (page_used p q) eqn:E; [done|]. destruct (Hlow q Hq E). lia. }
  wp_step. change PAGE_SIZE with 4096 at 1. destruct (Z.eqb_spec (f * 4096) 0) as [E|_]; [lia|]. cbn [when]. wp_step.
  wp_step. change (a * 4096) with (a * PAGE_SIZE).
  apply (wp_map_heap KP f (set_pmm p2 v0) (set_con c1 s)); [lia|lia|exact Hinv|done| |].
  { exists (a + 256). split; [pg_lia|]. change (page_used p2 (a + 256) = false). rewrite Hview by pg_lia.
    destruct (Z.ltb_spec (a + 256) (f + 256)); [lia|]. rewrite andb_false_r. apply Hav. lia. }
  intros v Hmap. wp_step. apply wp_say; [no_nul|exact Hc1|]. intros c2 Hc2 S2 K2. cbn [bt_con set_con set_vm] in *.
  unfold in_heap. apply wp_zoom. eapply wp_mono; [apply heap_init_inv; vm_compute; congruence|].
  intros [] hp (Hhp & _). apply (HQ f p2 v hp c2); [done|done|done|done|exact Hhp|done|congruence|].
  rewrite S2. rewrite S1. by rewrite <- !app_assoc.
Qed.

(** The processor comes up. *)
Lemma wp_boot_cpu `{GdtAddresses} `{IsrAddresses} stack (s : boot D) :
  let k := machine (bt_con s) in
  (login_username (bt_con s), login_password (bt_con s)) = names → I k → length (VGA_MEMORY (bt_con s)) = 4000%nat → (u_busy (uart_of k) ≤ uart_delay)%nat →
  operational (chips k).1 → operational (chips k).2 → length (gdt (bt_seg s)) = 6%nat → is_u32 tss_address →
  length (idt (bt_intr s)) = 256%nat → length (interrupt_handlers (bt_intr s)) = 256%nat →
  (∀ i, 0 ≤ i < 32 → is_u32 (isr_stub i)) → (∀ i, 0 ≤ i < 16 → is_u32 (irq_stub i)) →
  wp (boot_cpu polls stack) s (λ _ s',
    segments (stack +w 8192) (bt_seg s') ∧
    (∀ i, 0 ≤ i < 256 → arr_get (idt (bt_intr s')) i = Some (gate_of i) ∧
                        arr_get (interrupt_handlers (bt_intr s')) i = Some None) ∧
    (∀ i, 0 ≤ i < 32 → gate_base (gate_of i) = isr_stub i) ∧
    (∀ i, 0 ≤ i < 16 → gate_base (gate_of (32 + i)) = irq_stub i) ∧
    idtr (bt_intr s') = Some (mkIdtPtr 2047 idt_address) ∧ length (interrupt_handlers (bt_intr s')) = 256%nat ∧
    chips (machine (bt_con s')) = (mkChip (c_imr (chips k).1) (c_isr (chips k).1) 0x20 4 1 0,
                                   mkChip (c_imr (chips k).2) (c_isr (chips k).2) 0x28 2 1 0) ∧
    con_in (bt_con s') ∧ bt_vm s' = bt_vm s ∧ bt_heap s' = bt_heap s ∧
    sent (bt_con s') = sent (bt_con s) ++ log_line "FlowOS: Starting kernel..." ++
      log_line "FlowOS: Initializing GDT..." ++ log_line "FlowOS: TSS configured with kernel interrupt stack" ++
      log_line "FlowOS: Initializing IDT..." ++ log_line "FlowOS: Remapping PIC...").
Proof.
  intros k Hn Hk Hvga Hbusy Hop1 Hop2 Hgdt Htss Hidt Hhan Hisr Hirq.
  unfold boot_cpu. wp_step. unfold in_ports at 1, in_con at 1. do 2 apply wp_zoom.
  apply wp_serial_init; [done|]. intros k1 U1 C1 I1. set (s1 := set_con _ _).
  assert (Hc1 : con_in (bt_con s1)).
  { split; [|done]. split; [done|]. unfold uart_ready. cbn. by rewrite U1. }
  wp_step. apply wp_say; [no_nul|exact Hc1|]. intros c2 Hc2 S2 K2.
  wp_step. apply wp_draw; [apply draws_clear|exact Hc2|]. intros c3 Hc3 M3.
  wp_step. apply wp_draw; [eapply draws_centered, lit_holds; no_nul|exact Hc3|]. intros c4 Hc4 M4.
  wp_step. apply wp_draw; [eapply draws_centered, lit_holds; no_nul|exact Hc4|]. intros c5 Hc5 M5.
  wp_step. apply wp_show; [no_nul|exact Hc5|]. intros c6 Hc6 M6.
  wp_step. apply wp_say; [no_nul|exact Hc6|]. intros c7 Hc7 S7 K7.
  wp_step. unfold in_seg at 1. apply wp_zoom. eapply wp_mono; [apply wp_gdt_init; [exact Hgdt|exact Htss]|]. intros [] g1 Hg1.
  wp_step. unfold in_seg at 1. apply wp_zoom. eapply wp_mono; [apply (wp_write_tss 0); [exact Htss|exact Hg1]|]. intros [] g2 Hg2.
  wp_step. apply wp_say; [no_nul|exact Hc7|]. intros c8 Hc8 S8 K8.
  wp_step. apply wp_show; [no_nul|exact Hc8|]. intros c9 Hc9 M9.
  wp_step. apply wp_say; [no_nul|exact Hc9|]. intros c10 Hc10 S10 K10.
  cbn [bt_con set_con bt_seg] in *. unfold sent in *.
  assert (C10 : chips (machine c10) = chips k) by (rewrite K10, M9, K8, K7, M6, M5, M4, M3, K2; exact C1).
  assert (S11 : u_sent (uart_of (machine c10)) = u_sent (uart_of k) ++ log_line "FlowOS: Starting kernel..." ++
    log_line "FlowOS: Initializing GDT..." ++ log_line "FlowOS: TSS configured with kernel interrupt stack" ++
    log_line "FlowOS: Initializing IDT...").
  { rewrite S10, M9, S8, S7, M6, M5, M4, M3, S2. unfold s1. cbn [bt_con set_con machine set_machine]. rewrite U1. cbn [u_sent].
    by rewrite <- !app_assoc. }
  wp_step. unfold in_intr at 1. apply wp_zoom. eapply wp_mono; [apply idt_init_run; [exact Hidt|exact Hhan|exact Hisr|exact Hirq]|].
  intros [] i (Hg & Hs1 & Hs2 & Hr & Hd & Hl). change (dev (intr_view _)) with (machine c10) in Hd.
  destruct (remapped _ _ Hd) as [[U11 I11] C11]; [by rewrite C10..|apply Hc10|]. rewrite C10 in C11.
  assert (Hc11 : con_in (set_machine (dev i) c10)).
  { destruct Hc10 as ([G1 G2] & G3 & _). split; [|done]. split; [done|]. unfold uart_ready in *. cbn. by rewrite U11. }
  wp_step. apply wp_say; [no_nul|exact Hc11|]. intros c12 ([Hv12 Hu12] & Hn12 & Hi12) S12 K12. cbn [bt_con set_con machine set_machine] in *.
  unfold in_ports, in_con. do 2 apply wp_zoom. cbn [bt_con set_con].
  apply wp_remap; [rewrite K12, C11; split; [done|apply Hop1]|rewrite K12, C11; split; [done|apply Hop2]|exact Hi12|].
  intros k' [U13 I13] C13. cbn. rewrite K12, C11 in C13. unfold sent in *. split_and!; try done.
  - split; [|done]. split; [done|]. unfold uart_ready in *. cbn. by rewrite U13.
  - cbn. rewrite U13, S12. unfold sent. cbn [machine set_machine bt_con]. rewrite U11, S11. by rewrite <- !app_assoc.
Qed.

(** What the later phases find of memory: [f] is the first of the frames of the heap. *)
Record memory_up _end KP mmap_at entries mboot (f : Z) s s' : Prop := mkMemoryUp {
  mu_inv : vm_inv [KP] (bt_vm s');
  mu_view : vm_view s' = bt_vm s' ∧ current_pd_phys (bt_vm s') = KP ∧ cr0_pg (bt_vm s') = true;
  mu_handlers : bt_intr s' = mkIntr (idt (bt_intr s)) (idtp (bt_intr s))
    (arr_set (interrupt_handlers (bt_intr s)) 14 (Some page_fault_handler_fn)) (idtr (bt_intr s)) (vga (bt_intr s)) (dev (bt_intr s));
  mu_heap_frames q : f ≤ q < f + 256 → q ∈ available mmap_at entries mboot _end ∧ page_used (vm_pmm (bt_vm s')) q = true;
  mu_frames : 0 ≤ f ∧ f + 256 ≤ NPAGES;
  mu_walk va : is_u32 va → walk (vm_mem (bt_vm s')) KP va =
    if (0xC0000000 <=? va) && (va <? 0xC0000000 + 256 * 4096)
    then Some (pte_value ((f + (va - 0xC0000000) / 4096) * 4096) 3)
    else if va <? 0x40000000 then Some (rw_entry (va / 4096 * 4096)) else None;
  mu_tables i : 256 ≤ i < 1024 → i ≠ 768 → pde (bt_vm s') KP i = 0;
  mu_free l : NoDup l → (∀ q, q ∈ l → is_page q ∧ q ∈ available mmap_at entries mboot _end) →
    Z.of_nat (length l) - 257 ≤ free_count (vm_pmm (bt_vm s'));
  mu_heap : heap_inv (bt_heap s') [mkSeg 0xC0000000 0x100000 true];
  mu_con : con_in (bt_con s');
  mu_chips : chips (machine (bt_con s')) = chips (machine (bt_con s));
  mu_seg : bt_seg s' = bt_seg s;
  mu_sent : sent (bt_con s') = sent (bt_con s) ++ log_line "FlowOS: Initializing PMM..." ++
      log_line "FlowOS: Initializing paging..." ++ log_line "FlowOS: Allocating kernel heap..." ++
      log_line "FlowOS: Initializing heap..."
}.

Lemma free_count_at_least (p : pmm) l :
  NoDup l → (∀ q, q ∈ l → is_page q ∧ page_used p q = false) → Z.of_nat (length l) ≤ free_count p.
Proof.
  intros Hd Hl. unfold free_count, free_list. apply inj_le, submseteq_length, NoDup_submseteq; [done|].
  intros q Hq. apply list_elem_of_filter. destruct (Hl q Hq) as [G1 G2]. split; [done|]. apply elem_of_seqZ. unfold is_page in G1. lia.
Qed.

Lemma wp_boot_memory _end KP KT mmap_at entries mboot K a s (Q : unit → boot D → Prop) :
  con_in (bt_con s) → image_ok _end KP KT → mmap_ok mmap_at entries mboot K →
  total_pages (vm_pmm (bt_vm s)) = 0 → used_pages (vm_pmm (bt_vm s)) = 0 →
  map_Forall (λ _ x, is_u32 x) (vm_mem (bt_vm s)) → length (interrupt_handlers (bt_intr s)) = 256%nat →
  0 ≤ a → a + 257 ≤ NPAGES → (∀ q, a ≤ q < a + 257 → q ∈ available mmap_at entries mboot _end) →
  (∀ f s', memory_up _end KP mmap_at entries mboot f s s' → Q tt s') →
  wp (boot_memory polls _end KP KT mmap_at entries mboot) s Q.
Proof.
  intros Hcon Himg Hmap Ht0 Hu0 Hmem Hh Ha0 Ha1 Hav HQ. unfold boot_memory. wp_step.
  apply (wp_boot_paging _end KP KT mmap_at entries mboot K); [done..|].
  intros p m c (Hp & Hfree & Hlow) Hm Hc Hk Hs.
  apply (wp_boot_heap _end KP KT p _ m _ a (set_con c s)); [exact Hc|done|done|done|done|done|done| |].
  { intros q Hq. apply Hfree; [pg_lia|]. by apply Hav. }
  intros f p2 v hp c2 (Hf0 & Hf1 & Hff) (Hp2 & _ & _ & Hview) Hcount [M1 M2 [M3 M4] M5 _ _ Md Mf M7] Hhp Hc2 Hk2 Hs2.
  apply (HQ f). set (s' := mkBoot _ _ _ _ _). pose proof (kernel_end_range _end). pose proof Himg as [? ? ? ? ?].
  split; [exact M1|split_and!; [by destruct v|done|done]|unfold s'; cbn; rewrite M4; done| |lia| | | |exact Hhp|exact Hc2|exact (eq_trans Hk2 Hk)|done|].
  - intros q Hq. split; [apply Hfree; [pg_lia|by apply Hff]|]. apply M5; [pg_lia|].
    change (page_used p2 q = true). rewrite Hview by pg_lia. destruct (Z.leb_spec f q), (Z.ltb_spec q (f + 256)); (lia || done).
  - intros va Hva. change (bt_vm s') with v. rewrite M7 by done. change (vm_mem (set_pmm _ _)) with m.
    by rewrite (tables_filled_walk KP KT) by (done || lia).
  - intros i Hi Hne. change (bt_vm s') with v. rewrite Md by (lia || done). unfold pde. change (vm_mem (set_pmm _ _)) with m.
    destruct Hm as [Hm _]. rewrite Hm by lia. by destruct (Z.ltb_spec i 256); [lia|].
  - intros l Hl1 Hl2. change (vm_pmm (set_pmm p2 _)) with p2 in Mf. change (bt_vm s') with v. rewrite Hcount in Mf.
    assert (Z.of_nat (length l) ≤ free_count p); [|lia]. apply free_count_at_least; [done|].
    intros q [G1 G2]%Hl2. split; [done|]. by apply Hfree.
  - unfold s'. cbn [bt_con set_con] in *. rewrite Hs2, Hs. by rewrite <- !app_assoc.
Qed.

End phases.

(** ** Properties *)

(** The processor comes up: [kmain] gets from the state the boot loader leaves to a kernel
    with its own tables.  The serial line is configured; the processor uses the six
    descriptors, with the top of the interrupt stack in the task state; the vectors 0 to 47
    lead to their stubs and no handler is registered; the interrupt controllers deliver
    their lines at 0x20 and 0x28 with the masks they had; memory and the heap are untouched,
    and the five messages went out in this order. *)
Theorem boot_cpu_spec {D} `{Device D} {UD : UartDevice D} {PD : PicDevice D} {CD : Chipset D} `{GdtAddresses} `{IsrAddresses}
    polls stack (s : boot D) :
  let k := machine (bt_con s) in
  (uart_delay < polls)%nat → length (VGA_MEMORY (bt_con s)) = 4000%nat → (u_busy (uart_of k) ≤ uart_delay)%nat →
  operational (chips k).1 → operational (chips k).2 → length (gdt (bt_seg s)) = 6%nat → is_u32 tss_address →
  length (idt (bt_intr s)) = 256%nat → length (interrupt_handlers (bt_intr s)) = 256%nat →
  (∀ i, 0 ≤ i < 32 → is_u32 (isr_stub i)) → (∀ i, 0 ≤ i < 16 → is_u32 (irq_stub i)) →
  wp (boot_cpu polls stack) s (λ _ s',
    segments (stack +w 8192) (bt_seg s') ∧
    (∀ i, 0 ≤ i < 256 → arr_get (idt (bt_intr s')) i = Some (gate_of i) ∧
                        arr_get (interrupt_handlers (bt_intr s')) i = Some None) ∧
    (∀ i, 0 ≤ i < 32 → gate_base (gate_of i) = isr_stub i) ∧
    (∀ i, 0 ≤ i < 16 → gate_base (gate_of (32 + i)) = irq_stub i) ∧
    idtr (bt_intr s') = Some (mkIdtPtr 2047 idt_address) ∧ length (interrupt_handlers (bt_intr s')) = 256%nat ∧
    chips (machine (bt_con s')) = (mkChip (c_imr (chips k).1) (c_isr (chips k).1) 0x20 4 1 0,
                                   mkChip (c_imr (chips k).2) (c_isr (chips k).2) 0x28 2 1 0) ∧
    con_ok (bt_con s') ∧ bt_vm s' = bt_vm s ∧ bt_heap s' = bt_heap s ∧
    sent (bt_con s') = sent (bt_con s) ++ log_line "FlowOS: Starting kernel..." ++
      log_line "FlowOS: Initializing GDT..." ++ log_line "FlowOS: TSS configured with kernel interrupt stack" ++
      log_line "FlowOS: Initializing IDT..." ++ log_line "FlowOS: Remapping PIC...").
Proof.
  intros k Hpolls Hvga Hbusy Hop1 Hop2 Hgdt Htss Hidt Hhan Hisr Hirq.
  eapply wp_mono; [by apply (wp_boot_cpu (λ _, True) undisturbed_true (login_username (bt_con s), login_password (bt_con s)) polls Hpolls)|].
  intros [] s' (G1 & G2 & G3 & G4 & G5 & G6 & G7 & [G8 _] & G9). by split_and!; try apply G9.
Qed.

(** C30. Memory comes up: on a machine whose memory map has 257 pages in a row above the kernel,
    [kmain] gets from the static initial state to a running heap.  Paging is on with the
    kernel's directory and its fault handler; the first gigabyte is mapped to itself, the
    megabyte at 0xC0000000 to 256 pages in a row that the memory map offered and that are now
    taken, and nothing else is mapped; the heap is one free block of that megabyte.  The four
    messages went out over the serial line, and the interrupt controllers were left alone. *)
Theorem boot_memory_spec {D} `{Device D} {UD : UartDevice D} {PD : PicDevice D} {CD : Chipset D} polls _end KP KT mmap_at entries mboot K a
    (s : boot D) :
  (uart_delay < polls)%nat → con_ok (bt_con s) → image_ok _end KP KT → mmap_ok mmap_at entries mboot K →
  total_pages (vm_pmm (bt_vm s)) = 0 → used_pages (vm_pmm (bt_vm s)) = 0 →
  map_Forall (λ _ x, is_u32 x) (vm_mem (bt_vm s)) → length (interrupt_handlers (bt_intr s)) = 256%nat →
  0 ≤ a → a + 257 ≤ NPAGES → (∀ q, a ≤ q < a + 257 → q ∈ available mmap_at entries mboot _end) →
  wp (boot_memory polls _end KP KT mmap_at entries mboot) s (λ _ s', ∃ f,
    vm_inv [KP] (vm_view s') ∧ cr0_pg (bt_vm s') = true ∧
    interrupt_handlers (bt_intr s') = arr_set (interrupt_handlers (bt_intr s)) 14 (Some page_fault_handler_fn) ∧
    (∀ q, f ≤ q < f + 256 → q ∈ available mmap_at entries mboot _end ∧ page_used (vm_pmm (bt_vm s')) q = true) ∧
    (∀ va, is_u32 va → paging_get_physical va (vm_view s') = Ret (
       if va <? 0x40000000 then va
       else if (0xC0000000 <=? va) && (va <? 0xC0100000) then f * 4096 + (va - 0xC0000000) else 0) (vm_view s')) ∧
    heap_inv (bt_heap s') [mkSeg 0xC0000000 0x100000 true] ∧
    con_ok (bt_con s') ∧ chips (machine (bt_con s')) = chips (machine (bt_con s)) ∧
    sent (bt_con s') = sent (bt_con s) ++ log_line "FlowOS: Initializing PMM..." ++
      log_line "FlowOS: Initializing paging..." ++ log_line "FlowOS: Allocating kernel heap..." ++
      log_line "FlowOS: Initializing heap...").
Proof.
  intros Hpolls Hcon Himg Hmap Ht0 Hu0 Hmem Hh Ha0 Ha1 Hav.
  apply (wp_boot_memory (λ _, True) undisturbed_true (login_username (bt_con s), login_password (bt_con s)) polls Hpolls
    _end KP KT mmap_at entries mboot K a s); [done..|].
  intros f s' [M1 (V1 & V2 & V3) Mh Mf [F1 F2] Mw _ _ Mheap [Mc _] Mch _ Ms]. exists f. rewrite V1.
  split_and!; [done|done|by rewrite Mh|done| |done|done|done|done].
  intros va Hva. rewrite paging_get_physical_run, V2, Mw by done. by apply heap_translation.
Qed.

(** Too little memory: when the memory map has no 256 pages in a row, the kernel says so on the
    serial line and stops; the heap is never initialised. *)
Theorem boot_memory_oom {D} `{Device D} {UD : UartDevice D} {PD : PicDevice D} {CD : Chipset D} polls _end KP KT mmap_at entries
    mboot K (s : boot D) :
  (uart_delay < polls)%nat → con_ok (bt_con s) → image_ok _end KP KT → mmap_ok mmap_at entries mboot K →
  total_pages (vm_pmm (bt_vm s)) = 0 → used_pages (vm_pmm (bt_vm s)) = 0 →
  map_Forall (λ _ x, is_u32 x) (vm_mem (bt_vm s)) → length (interrupt_handlers (bt_intr s)) = 256%nat →
  (∀ b, 0 ≤ b → b + 256 ≤ NPAGES → ∃ q, b ≤ q < b + 256 ∧ q ∉ available mmap_at entries mboot _end) →
  whalt (boot_memory polls _end KP KT mmap_at entries mboot) s (λ s',
    bt_heap s' = bt_heap s ∧ sent (bt_con s') = sent (bt_con s) ++ log_line "FlowOS: Initializing PMM..." ++
      log_line "FlowOS: Initializing paging..." ++ log_line "FlowOS: Allocating kernel heap..." ++ log_line "Heap OOM").
Proof.
  intros Hpolls Hcon Himg Hmap Ht0 Hu0 Hmem Hh Hno. unfold boot_memory. apply whalt_bind.
  set (nm := (login_username (bt_con s), login_password (bt_con s))).
  assert (Hin : con_in (λ _, True) nm (bt_con s)) by done. pose proof (undisturbed_true (D := D)) as HI.
  apply (wp_boot_paging (λ _, True) HI nm polls Hpolls _end KP KT mmap_at entries mboot K); [done..|].
  intros p m c (Hp & Hfree & _) _ Hc _ Hs. set (s1 := set_vm _ _). unfold boot_heap. apply whalt_bind.
  apply (wp_say (λ _, True) HI nm polls Hpolls); [no_nul|exact Hc|]. intros c2 Hc2 S2 _. cbn [bt_con set_con] in *.
  apply whalt_bind. unfold in_vm at 1. apply wp_zoom. unfold in_pmm at 1. apply wp_zoom.
  apply (wp_pmm_alloc_pages p HEAP_PAGES); [exact Hp|unfold HEAP_PAGES, NPAGES; lia| |].
  - intros f p2 (Hf0 & Hf1 & Hff) _ _ _. change HEAP_PAGES with 256 in *. exfalso.
    destruct (Hno f Hf0 Hf1) as (q & Hq & Hn). apply Hn, Hfree; [pg_lia|by apply Hff].
  - intros _. change (0 =? 0) with true. cbn [when]. apply whalt_halted, whalt_bind.
    apply (wp_draw (λ _, True) nm); [eapply draws_centered, lit_holds; no_nul|exact Hc2|]. intros c3 Hc3 M3. apply whalt_bind.
    apply (wp_say (λ _, True) HI nm polls Hpolls); [no_nul|exact Hc3|]. intros c4 _ S4 _. cbn [bt_con set_con set_vm] in *.
    split; [reflexivity|]. unfold sent in *. cbn [bt_con set_con]. rewrite S4, M3, S2. change (bt_con s1) with c.
    rewrite Hs. by rewrite <- !app_assoc.
Qed.

(** ** Interrupt controllers and a serial port *)

#[global] Instance chipset_device : Device ((chip * chip) * uart) := {|
  dev_in port k :=
    if port =? 0x3FD then let '(v, u) := dev_in port k.2 in (v, (k.1, u))
    else let '(v, c) := dev_in port k.1 in (v, (c, k.2));
  dev_out port v k := (dev_out port v k.1, dev_out port v k.2)
|}.

#[global] Program Instance chipset_uart : UartDevice ((chip * chip) * uart) := {| uart_of k := k.2; uart_delay := 2%nat |}.
Next Obligation. intros port v k. by exists 2%nat. Qed.
Next Obligation. intros k. cbn. by destruct (u_busy k.2). Qed.

#[global] Program Instance chipset_pic : PicDevice ((chip * chip) * uart) := {| chips k := k.1 |}.
Next Obligation. done. Qed.
Next Obligation. intros port [c u]. cbn. by destruct (port =? 0x3FD). Qed.
Next Obligation. done. Qed.
Next Obligation. done. Qed.

#[global] Program Instance chipset_ok : Chipset ((chip * chip) * uart).
Next Obligation. intros port [c u] [->| ->]; done. Qed.

(** ** The properties at concrete inputs

    A machine with 128 MB and a kernel image that ends at 0x211000. *)

Definition boot_mmap (a : Z) : multiboot_mmap_entry :=
  if a =? 0x9000 then mkEntry 20 0x100000 0x7F00000 1 else mkEntry 20 0 0 2.

Definition boot_demo : boot ((chip * chip) * uart) :=
  mkBoot (console_demo ((chip_demo, chip_demo), uart_demo)) seg_demo
    (mkIntr (replicate 256 (gate 0 0 0)) (mkIdtPtr 0 0) (replicate 256 None) None ∅ tt)
    (mkVm pmm_static (replicate 256 None) ∅ 0 0 0 false ∅ []) (mkHeap ∅ ∅ 0 0 0 0 0).

Lemma boot_available q : 0x211 ≤ q < 0x8000 → q ∈ available boot_mmap 20 (demo_mboot 64) 0x211000.
Proof.
  intros Hq. unfold available.
  replace (mmap_walk _ _ _ _) with (Some [mkEntry 20 0x100000 0x7F00000 1]) by reflexivity.
  cbn [mbind list_bind]. rewrite app_nil_r. unfold entry_pages.
  replace ((_ =? 1) && _) with true by reflexivity. change (kernel_end_of 0x211000) with 0x211000.
  apply list_elem_of_filter. change PAGE_SIZE with 4096. split; [lia|]. apply elem_of_seqZ.
  change (entry_start (mkEntry 20 0x100000 0x7F00000 1)) with 0x100. change (entry_end (mkEntry 20 0x100000 0x7F00000 1)) with 0x8000. lia.
Qed.

Lemma boot_cpu_spec_witness :
  wp (@boot_cpu _ _ addresses_demo stubs_demo 3 0x104000) boot_demo (λ _ s',
    idtr (bt_intr s') = Some (mkIdtPtr 2047 0x102000) ∧ tss_entry (bt_seg s') = fresh_tss 0x10 0x106000).
Proof.
  assert (Hop : operational chip_demo) by (split; cbn; lia).
  pose proof (@boot_cpu_spec _ _ _ _ _ addresses_demo stubs_demo 3 0x104000 boot_demo (le_n 3) eq_refl ltac:(cbn; lia)
    Hop Hop eq_refl ltac:(unfold is_u32; cbn; lia) eq_refl eq_refl
    ltac:(intros; unfold is_u32; cbn; lia) ltac:(intros; unfold is_u32; cbn; lia)) as Hw.
  eapply wp_mono; [exact Hw|].
  intros u s' ((_ & _ & _ & Ht & _) & _ & _ & _ & Hr & _). split; [exact Hr|exact Ht].
Defined.

Lemma boot_image : image_ok 0x211000 0x110000 0x111000.
Proof. split; [split; [unfold is_u32; lia|done]|split; [unfold is_u32; lia|done]|vm_compute; congruence|vm_compute; congruence|left; lia]. Qed.

Lemma boot_map : mmap_ok boot_mmap 20 (demo_mboot 64) 20.
Proof.
  split; [|done|vm_compute; congruence..]. intros a. unfold boot_mmap, entry_ok, is_u32. destruct (a =? 0x9000); cbn; lia.
Qed.

Lemma boot_memory_spec_witness :
  wp (boot_memory 3 0x211000 0x110000 0x111000 boot_mmap 20 (demo_mboot 64)) boot_demo (λ _ s',
    heap_inv (bt_heap s') [mkSeg 0xC0000000 0x100000 true] ∧
    paging_get_physical 0x12345 (vm_view s') = Ret 0x12345 (vm_view s')).
Proof.
  pose proof (boot_memory_spec 3 0x211000 0x110000 0x111000 boot_mmap 20 (demo_mboot 64) 20 0x211 boot_demo (le_n 3)
    ltac:(split; [reflexivity|split; [reflexivity|cbn; lia]]) boot_image boot_map eq_refl eq_refl (map_Forall_empty _) eq_refl
    ltac:(lia) ltac:(unfold NPAGES; lia) ltac:(intros; apply boot_available; lia)) as Hw.
  eapply wp_mono; [exact Hw|]. intros u s' (f & _ & _ & _ & _ & Ht & Hh & _).
  split; [exact Hh|]. exact (Ht 0x12345 ltac:(unfold is_u32; lia)).
Defined.
