(* ===== verification/Process.v ===== *)
(** * Processes and the scheduler (src/src/process.c, src/src/process.h, and
    [context_switch] of src/src/switch.asm)

    The process table, the ready queue threaded through it, and the context
    switch with the registers and stack words it moves.  The services of the
    rest of the kernel come through the interface [KernelServices]. *)

From S2P Require Import Prelude Pmm Paging Heap.

(** ** What processes ask of the rest of the kernel *)

Class KernelServices (E : Type) := {
  ks_kmalloc : Z → M E Z;
  ks_kfree : Z → M E unit;
  ks_clone_pd : M E Z;
  ks_switch : Z → M E unit;
  ks_kernel_pd : M E Z;
  ks_ticks : M E Z
}.

(** The promises.  [ks_owns e p] says that [p] is the pointer of a live
    allocation, [ks_room e] that the heap may still grow.  Every call keeps the
    live allocations, except the one a release is given. *)
Class KernelServicesOk (E : Type) `{KernelServices E} := {
  ks_inv : E → Prop;
  ks_room : E → Prop;
  ks_owns : E → Z → Prop;
  ks_ok_space : E → Z → Prop;
  ks_owns_u32 e p : ks_inv e → ks_owns e p → 0 < p < 4294967296;
  ks_kmalloc_ok e n : ks_inv e → ks_room e → 0 < n ≤ 4294967272 →
    wp (ks_kmalloc n) e (λ p e', ks_inv e' ∧ (p = 0 ∨ ks_owns e' p ∧ p + n < 4294967296) ∧
      (∀ q, ks_owns e q → ks_owns e' q ∧ q ≠ p) ∧ ∀ D, ks_ok_space e D → ks_ok_space e' D);
  ks_kfree_ok e p : ks_inv e → ks_owns e p →
    wp (ks_kfree p) e (λ _ e', ks_inv e' ∧ (∀ q, q ≠ p → ks_owns e q → ks_owns e' q) ∧
      ∀ D, ks_ok_space e D → ks_ok_space e' D);
  ks_kfree_high e : ks_inv e → ks_kfree 4294963200 e = Ret tt e;
  ks_clone_ok e : ks_inv e →
    wp ks_clone_pd e (λ D e', ks_inv e' ∧ (D = 0 ∨ ks_ok_space e' D) ∧
      (∀ q, ks_owns e q → ks_owns e' q) ∧ (ks_room e → ks_room e') ∧
      ∀ D', ks_ok_space e D' → ks_ok_space e' D');
  ks_switch_ok e D : ks_inv e → ks_ok_space e D →
    wp (ks_switch D) e (λ _ e', ks_inv e' ∧ (∀ q, ks_owns e q → ks_owns e' q) ∧
      ∀ D', ks_ok_space e D' → ks_ok_space e' D');
  ks_kernel_pd_ok e : ks_inv e → ∃ D, ks_kernel_pd e = Ret D e ∧ ks_ok_space e D;
  ks_ticks_ok e : ks_inv e → ∃ t, ks_ticks e = Ret t e ∧ is_u32 t
}.

(** Addresses fixed by the linker: of C functions, of the instruction after the call of
    [context_switch], and of the field [esp] of a slot of the table. *)
Class CodeAddresses := {
  idle_process : Z;
  process_wrapper : Z;
  after_context_switch : Z;
  esp_field : Z → Z
}.

(** ** Data *)

Definition MAX_PROCESSES : Z := 256.

Definition KERNEL_STACK_SIZE : Z := 4096.

Inductive process_state_t :=
| PROCESS_STATE_UNUSED
| PROCESS_STATE_CREATED
| PROCESS_STATE_READY
| PROCESS_STATE_RUNNING
| PROCESS_STATE_BLOCKED
| PROCESS_STATE_SLEEPING
| PROCESS_STATE_TERMINATED.

#[global] Instance process_state_eq_dec : EqDecision process_state_t.
Proof. solve_decision. Defined.

Record cpu_context := mkContext { cx_edi : Z; cx_esi : Z; cx_ebx : Z; cx_ebp : Z; cx_eip : Z }.

(** Process Control Block; a [process_t*] is NULL or the address of a slot of
    the table, given by its index. *)
Record process := mkProcess {
  pid : Z;
  state : process_state_t;
  context : cpu_context;
  esp : Z;
  kernel_stack : Z;
  page_directory : Z;
  sleep_until : Z;
  exit_code : Z;
  parent : option Z;
  next : option Z;
  name : list Z
}.

(** The registers [context_switch] saves, the stack pointer and the next
    instruction. *)
Record cpu := mkCpu { r_esp : Z; r_ebx : Z; r_esi : Z; r_edi : Z; r_ebp : Z; r_eip : Z }.

(** Static variables of process.c, the words of the kernel stacks, the processor,
    and the rest of the kernel. *)
Record sched (E : Type) := mkSched {
  process_table : list process;
  current_process : option Z;
  ready_queue_head : option Z;
  ready_queue_tail : option Z;
  next_pid : Z;
  stack_mem : gmap Z Z;
  the_cpu : cpu;
  env : E
}.

Arguments mkSched {E}.
Arguments process_table {E}.
Arguments current_process {E}.
Arguments ready_queue_head {E}.
Arguments ready_queue_tail {E}.
Arguments next_pid {E}.
Arguments stack_mem {E}.
Arguments the_cpu {E}.
Arguments env {E}.

Definition with_pid (n : Z) (p : process) : process :=
  mkProcess n (state p) (context p) (esp p) (kernel_stack p) (page_directory p)
    (sleep_until p) (exit_code p) (parent p) (next p) (name p).

Definition with_state (s : process_state_t) (p : process) : process :=
  mkProcess (pid p) s (context p) (esp p) (kernel_stack p) (page_directory p)
    (sleep_until p) (exit_code p) (parent p) (next p) (name p).

Definition with_esp (a : Z) (p : process) : process :=
  mkProcess (pid p) (state p) (context p) a (kernel_stack p) (page_directory p)
    (sleep_until p) (exit_code p) (parent p) (next p) (name p).

Definition with_kernel_stack (a : Z) (p : process) : process :=
  mkProcess (pid p) (state p) (context p) (esp p) a (page_directory p)
    (sleep_until p) (exit_code p) (parent p) (next p) (name p).

Definition with_page_directory (a : Z) (p : process) : process :=
  mkProcess (pid p) (state p) (context p) (esp p) (kernel_stack p) a
    (sleep_until p) (exit_code p) (parent p) (next p) (name p).

Definition with_sleep_until (t : Z) (p : process) : process :=
  mkProcess (pid p) (state p) (context p) (esp p) (kernel_stack p) (page_directory p)
    t (exit_code p) (parent p) (next p) (name p).

Definition with_exit_code (c : Z) (p : process) : process :=
  mkProcess (pid p) (state p) (context p) (esp p) (kernel_stack p) (page_directory p)
    (sleep_until p) c (parent p) (next p) (name p).

Definition with_parent (q : option Z) (p : process) : process :=
  mkProcess (pid p) (state p) (context p) (esp p) (kernel_stack p) (page_directory p)
    (sleep_until p) (exit_code p) q (next p) (name p).

Definition with_next_proc (q : option Z) (p : process) : process :=
  mkProcess (pid p) (state p) (context p) (esp p) (kernel_stack p) (page_directory p)
    (sleep_until p) (exit_code p) (parent p) q (name p).

Definition with_name (s : list Z) (p : process) : process :=
  mkProcess (pid p) (state p) (context p) (esp p) (kernel_stack p) (page_directory p)
    (sleep_until p) (exit_code p) (parent p) (next p) s.

(** ** Operations *)

Section process.
Context {E : Type} `{KernelServices E}.

Definition set_table (t : list process) (s : sched E) : sched E :=
  mkSched t (current_process s) (ready_queue_head s) (ready_queue_tail s) (next_pid s)
    (stack_mem s) (the_cpu s) (env s).

Definition set_current (c : option Z) (s : sched E) : sched E :=
  mkSched (process_table s) c (ready_queue_head s) (ready_queue_tail s) (next_pid s)
    (stack_mem s) (the_cpu s) (env s).

Definition set_queue (hd tl : option Z) (s : sched E) : sched E :=
  mkSched (process_table s) (current_process s) hd tl (next_pid s)
    (stack_mem s) (the_cpu s) (env s).

Definition set_next_pid (n : Z) (s : sched E) : sched E :=
  mkSched (process_table s) (current_process s) (ready_queue_head s) (ready_queue_tail s) n
    (stack_mem s) (the_cpu s) (env s).

Definition set_stack (m : gmap Z Z) (s : sched E) : sched E :=
  mkSched (process_table s) (current_process s) (ready_queue_head s) (ready_queue_tail s)
    (next_pid s) m (the_cpu s) (env s).

Definition set_cpu (c : cpu) (s : sched E) : sched E :=
  mkSched (process_table s) (current_process s) (ready_queue_head s) (ready_queue_tail s)
    (next_pid s) (stack_mem s) c (env s).

Definition set_env (e : E) (s : sched E) : sched E :=
  mkSched (process_table s) (current_process s) (ready_queue_head s) (ready_queue_tail s)
    (next_pid s) (stack_mem s) (the_cpu s) e.

Definition service {A} (m : M E A) : M (sched E) A := zoom env set_env m.

(** [*p] and a write of fields through [p]. *)
Definition proc_at (p : Z) : M (sched E) process :=
  t ← gets process_table; expect (arr_get t p).

Definition upd (p : Z) (f : process → process) : M (sched E) unit :=
  x ← proc_at p; modify (λ s, set_table (arr_set (process_table s) p (f x)) s).

(** [stack[-k] = x] for [stack] at [top]. *)
Definition push_word (top k x : Z) : M (sched E) unit :=
  modify (λ s, set_stack (<[top -w 4 * k := x]> (stack_mem s)) s).

Context `{CodeAddresses}.

(** [name[i] = s[i]] for the first 31 characters, the name ended after each. *)
Fixpoint copy_name (fuel : nat) (i : Z) (s : list Z) (buf : list Z) : list Z :=
  match fuel, s with
  | S fuel, c :: s => copy_name fuel (i + 1) s (arr_set buf i c)
  | _, _ => arr_set buf i 0
  end.

Definition scheduler_init : M (sched E) unit := modify (set_queue None None).

Definition scheduler_add (proc : option Z) : M (sched E) unit :=
  match proc with
  | None => skip
  | Some p =>
      upd p (with_next_proc None);;
      tl ← gets ready_queue_tail;
      match tl with
      | None => modify (set_queue (Some p) (Some p))
      | Some t =>
          upd t (with_next_proc (Some p));;
          modify (λ s, set_queue (ready_queue_head s) (Some p) s)
      end
  end.

(** The walk of [scheduler_remove]: [prev] when the loop ends. *)
Fixpoint remove_walk (fuel : nat) (proc prev : Z) : M (sched E) Z :=
  match fuel with
  | O => no_fuel
  | S fuel =>
      x ← proc_at prev;
      match next x with
      | Some n => if n =? proc then ret prev else remove_walk fuel proc n
      | None => ret prev
      end
  end.

(** The fuel is the number of slots. *)
Definition scheduler_remove (proc : option Z) : M (sched E) unit :=
  hd ← gets ready_queue_head;
  match proc, hd with
  | Some p, Some h =>
      if h =? p then
        x ← proc_at p;
        modify (λ s, set_queue (next x)
          (match next x with None => None | Some _ => ready_queue_tail s end) s);;
        upd p (with_next_proc None)
      else
        prev ← remove_walk (Z.to_nat MAX_PROCESSES) p h;
        x ← proc_at prev;
        when (bool_decide (next x = Some p))
          (y ← proc_at p;
           upd prev (with_next_proc (next y));;
           tl ← gets ready_queue_tail;
           when (bool_decide (tl = Some p))
             (modify (λ s, set_queue (ready_queue_head s) (Some prev) s));;
           upd p (with_next_proc None))
  | _, _ => skip
  end.

(** One slot of the loop of [wake_sleeping_processes]. *)
Definition wake_slot (current_tick i : Z) : M (sched E) unit :=
  x ← proc_at i;
  when (bool_decide (state x = PROCESS_STATE_SLEEPING) && (sleep_until x <=? current_tick))
    (upd i (with_state PROCESS_STATE_READY);;
     scheduler_add (Some i)).

Definition wake_sleeping_processes : M (sched E) unit :=
  current_tick ← service ks_ticks;
  for_ 0 (trips 0 MAX_PROCESSES) (wake_slot current_tick).

(** Instructions on the stack of the processor. *)
Definition with_sp (sp : Z) (c : cpu) : cpu := mkCpu sp (r_ebx c) (r_esi c) (r_edi c) (r_ebp c) (r_eip c).

Definition cpu_push (x : Z) : M (sched E) unit :=
  c ← gets the_cpu;
  let sp := r_esp c -w 4 in
  modify (λ s, set_cpu (with_sp sp c) (set_stack (<[sp := x]> (stack_mem s)) s)).

Definition cpu_push_reg (r : cpu → Z) : M (sched E) unit := c ← gets the_cpu; cpu_push (r c).

(** [pop] into a register. *)
Definition cpu_pop (put : Z → cpu → cpu) : M (sched E) unit :=
  c ← gets the_cpu;
  m ← gets stack_mem;
  modify (set_cpu (put (ldw m (r_esp c)) (with_sp (r_esp c +w 4) c))).

Definition put_ebx (x : Z) (c : cpu) : cpu := mkCpu (r_esp c) x (r_esi c) (r_edi c) (r_ebp c) (r_eip c).

Definition put_esi (x : Z) (c : cpu) : cpu := mkCpu (r_esp c) (r_ebx c) x (r_edi c) (r_ebp c) (r_eip c).

Definition put_edi (x : Z) (c : cpu) : cpu := mkCpu (r_esp c) (r_ebx c) (r_esi c) x (r_ebp c) (r_eip c).

Definition put_ebp (x : Z) (c : cpu) : cpu := mkCpu (r_esp c) (r_ebx c) (r_esi c) (r_edi c) x (r_eip c).

Definition put_eip (x : Z) (c : cpu) : cpu := mkCpu (r_esp c) (r_ebx c) (r_esi c) (r_edi c) (r_ebp c) x.

(** [context_switch(&prev->esp, new_esp)], instruction by instruction: the call pushes the
    arguments and the return address; the body of switch.asm saves four registers, stores the
    stack pointer through the first argument (which points to the field of the slot [prev]),
    loads the second, restores four registers, and returns. *)
Definition context_switch (prev new_esp : Z) : M (sched E) unit :=
  cpu_push new_esp;;
  cpu_push (esp_field prev);;
  cpu_push after_context_switch;;
  cpu_push_reg r_ebx;;
  cpu_push_reg r_esi;;
  cpu_push_reg r_edi;;
  cpu_push_reg r_ebp;;
  c ← gets the_cpu;
  upd prev (with_esp (r_esp c));;
  m ← gets stack_mem;
  modify (set_cpu (with_sp (ldw m (r_esp c +w 24)) c));;
  cpu_pop put_ebp;;
  cpu_pop put_edi;;
  cpu_pop put_esi;;
  cpu_pop put_ebx;;
  cpu_pop put_eip.

(** The head of the queue is taken off, or the idle process is chosen. *)
Definition pick_next : M (sched E) Z :=
  hd ← gets ready_queue_head;
  match hd with
  | Some n =>
      x ← proc_at n;
      modify (λ s, set_queue (next x)
        (match next x with None => None | Some _ => ready_queue_tail s end) s);;
      upd n (with_next_proc None);;
      ret n
  | None => ret 0
  end.

Definition schedule : M (sched E) unit :=
  cur ← gets current_process;
  match cur with
  | None => skip
  | Some prev =>
      wake_sleeping_processes;;
      n ← pick_next;
      if n =? prev then upd prev (with_state PROCESS_STATE_RUNNING) else
      modify (set_current (Some n));;
      upd n (with_state PROCESS_STATE_RUNNING);;
      p ← proc_at prev;
      x ← proc_at n;
      when (negb (page_directory p =? page_directory x)) (service (ks_switch (page_directory x)));;
      context_switch prev (esp x)
  end.

(** One slot cleared by [process_init]. *)
Definition clear_slot (i : Z) : M (sched E) unit :=
  upd i (with_state PROCESS_STATE_UNUSED);; upd i (with_pid 0).

Definition process_init : M (sched E) unit :=
  for_ 0 (trips 0 MAX_PROCESSES) clear_slot;;
  upd 0 (with_pid 0);;
  upd 0 (with_state PROCESS_STATE_READY);;
  stk ← service (ks_kmalloc KERNEL_STACK_SIZE);
  let top := stk +w KERNEL_STACK_SIZE in
  upd 0 (with_kernel_stack top);;
  D ← service ks_kernel_pd;
  upd 0 (with_page_directory D);;
  upd 0 (with_parent None);;
  upd 0 (with_next_proc None);;
  push_word top 1 idle_process;;
  push_word top 2 0;;
  push_word top 3 0;;
  push_word top 4 0;;
  push_word top 5 0;;
  upd 0 (with_esp (top -w 20));;
  upd 0 (λ p, with_name (copy_name 31 0 (str "idle") (name p)) p);;
  modify (set_current (Some 0)).

Definition find_free_slot : M (sched E) (option Z) :=
  for_ret 1 (trips 1 MAX_PROCESSES) (λ i,
    x ← proc_at i;
    ret (if bool_decide (state x = PROCESS_STATE_UNUSED) then Some i else None)).

(** The stack frame of a new process. *)
Definition build_stack (top entry : Z) : M (sched E) unit :=
  push_word top 1 entry;;
  push_word top 2 0;;
  push_word top 3 process_wrapper;;
  push_word top 4 0;;
  push_word top 5 0;;
  push_word top 6 0;;
  push_word top 7 0.

Definition process_create (nm : list Z) (entry : Z) : M (sched E) (option Z) :=
  slot ← find_free_slot;
  match slot with
  | None => ret None
  | Some p =>
      n ← gets next_pid;
      upd p (with_pid n);;
      modify (set_next_pid (n +w 1));;
      upd p (with_state PROCESS_STATE_CREATED);;
      cur ← gets current_process;
      upd p (with_parent cur);;
      upd p (with_next_proc None);;
      upd p (with_exit_code 0);;
      upd p (with_sleep_until 0);;
      D ← service ks_clone_pd;
      upd p (with_page_directory D);;
      if D =? 0 then
        x ← proc_at p;
        service (ks_kfree (kernel_stack x -w KERNEL_STACK_SIZE));;
        upd p (with_state PROCESS_STATE_UNUSED);;
        ret None
      else
      stk ← service (ks_kmalloc KERNEL_STACK_SIZE);
      upd p (with_kernel_stack stk);;
      if stk =? 0 then
        upd p (with_state PROCESS_STATE_UNUSED);;
        ret None
      else
      let top := stk +w KERNEL_STACK_SIZE in
      upd p (with_kernel_stack top);;
      build_stack top entry;;
      upd p (with_esp (top -w 28));;
      upd p (λ x, with_name (copy_name 31 0 nm (name x)) x);;
      upd p (with_state PROCESS_STATE_READY);;
      scheduler_add (Some p);;
      ret (Some p)
  end.

Definition process_exit (code : Z) : M (sched E) unit :=
  cur ← gets current_process;
  match cur with
  | None => skip
  | Some c =>
      x ← proc_at c;
      if pid x =? 0 then skip else
      upd c (with_exit_code code);;
      upd c (with_state PROCESS_STATE_TERMINATED);;
      service (ks_kfree (kernel_stack x -w KERNEL_STACK_SIZE));;
      schedule
  end.

Definition process_yield : M (sched E) unit :=
  cur ← gets current_process;
  match cur with
  | None => skip
  | Some c =>
      x ← proc_at c;
      when (bool_decide (state x = PROCESS_STATE_RUNNING))
        (upd c (with_state PROCESS_STATE_READY);;
         scheduler_add (Some c))
  end;;
  schedule.

(** [(ms * 100) / 1000], at least 1. *)
Definition sleep_ticks (ms : Z) : Z :=
  let t := ms *w 100 / 1000 in if t =? 0 then 1 else t.

Definition process_sleep (ms : Z) : M (sched E) unit :=
  cur ← gets current_process;
  match cur with
  | None => skip
  | Some c =>
      now ← service ks_ticks;
      upd c (with_sleep_until (now +w sleep_ticks ms));;
      upd c (with_state PROCESS_STATE_SLEEPING);;
      schedule
  end.

Definition process_get_current : M (sched E) (option Z) := gets current_process.

Definition process_get_pid : M (sched E) Z :=
  cur ← gets current_process;
  match cur with
  | None => ret 0
  | Some c => x ← proc_at c; ret (pid x)
  end.

End process.

(** ** The ready queue as a list *)

(** A slot without its queue link, and the link alone. *)
Definition look (t : list process) (i : Z) : option process :=
  with_next_proc None <$> arr_get t i.

Definition link (t : list process) (i : Z) : option (option Z) := next <$> arr_get t i.

Fixpoint chain (t : list process) (q : list Z) : Prop :=
  match q with
  | [] => True
  | i :: q => link t i = Some (head q) ∧ chain t q
  end.

Record queue_ok {E} (s : sched E) (q : list Z) : Prop := mkQueueOk {
  qo_len : Z.of_nat (length (process_table s)) = MAX_PROCESSES;
  qo_head : ready_queue_head s = head q;
  qo_tail : ready_queue_tail s = last q;
  qo_chain : chain (process_table s) q;
  qo_nodup : NoDup q
}.

Definition is_slot (i : Z) : Prop := 0 ≤ i < MAX_PROCESSES.

(** What waking does to one slot at tick [now], and the slots woken. *)
Definition due (now : Z) (x : process) : bool :=
  bool_decide (state x = PROCESS_STATE_SLEEPING) && (sleep_until x <=? now).

Definition wake (now : Z) (x : process) : process :=
  if due now x then with_state PROCESS_STATE_READY x else x.

Definition is_due (t : list process) (now i : Z) : bool :=
  match look t i with Some x => due now x | None => false end.

Definition woken (t : list process) (now : Z) : list Z :=
  filter (λ i, is_due t now i = true) (seqZ 0 MAX_PROCESSES).

(** The state of a running loop over the slots: queue [q], slots [t'], the rest as in [s]. *)
Definition with_queue {E} (s : sched E) (q : list Z) (t' : list process) : sched E :=
  set_queue (head q) (last q) (set_table t' s).

Definition sleeping (t : list process) (i : Z) : Prop :=
  ∃ x, look t i = Some x ∧ state x = PROCESS_STATE_SLEEPING.

(** What [context_switch] leaves on the stack of the old process and loads from
    the stack of the new one. *)
Definition switch_stack `{CodeAddresses} (prev sp : Z) (c : cpu) (m : gmap Z Z) : gmap Z Z :=
  let r := r_esp c in
  <[r -w 28 := r_ebp c]> (<[r -w 24 := r_edi c]> (<[r -w 20 := r_esi c]> (<[r -w 16 := r_ebx c]>
    (<[r -w 12 := after_context_switch]> (<[r -w 8 := esp_field prev]> (<[r -w 4 := sp]> m)))))).

Definition resume_cpu (m : gmap Z Z) (sp : Z) : cpu :=
  mkCpu (sp +w 20) (ldw m (sp +w 12)) (ldw m (sp +w 8)) (ldw m (sp +w 4)) (ldw m sp)
    (ldw m (sp +w 16)).

(** The slots after a scheduling decision for [n] taken in [c] at tick [now]; [a] is the
    stack pointer saved when [n] is not [c]. *)
Definition decided (now c n a : Z) (j : Z) (x : process) : process :=
  if j =? n then with_state PROCESS_STATE_RUNNING (wake now x)
  else if j =? c then with_esp a (wake now x) else wake now x.

(** The outcome of [schedule]: the first of [q1] (the queue and the sleepers woken) runs,
    or the idle process when there is none. *)
Record scheduled {E} `{KernelServices E} `{CodeAddresses}
    (s : sched E) (c now : Z) (q1 : list Z) (s' : sched E) : Prop := mkScheduled {
  sc_nodup : NoDup q1;
  sc_queue : queue_ok s' (tail q1);
  sc_current : current_process s' = Some (hd 0 q1);
  sc_look j : look (process_table s') j =
    decided now c (hd 0 q1) (r_esp (the_cpu s) -w 28) j <$> look (process_table s) j;
  sc_pid : next_pid s' = next_pid s;
  sc_same : hd 0 q1 = c →
    env s' = env s ∧ stack_mem s' = stack_mem s ∧ the_cpu s' = the_cpu s;
  sc_switch x y : hd 0 q1 ≠ c →
    look (process_table s) c = Some x → look (process_table s) (hd 0 q1) = Some y →
    stack_mem s' = switch_stack c (esp y) (the_cpu s) (stack_mem s) ∧
    the_cpu s' = resume_cpu (stack_mem s') (esp y) ∧
    (if page_directory x =? page_directory y then env s' = env s
     else ks_switch (page_directory y) (env s) = Ret tt (env s'))
}.

(** ** The invariant of the process table *)

(** A slot whose process has a stack of its own. *)
Definition live (x : process) : Prop :=
  state x ≠ PROCESS_STATE_UNUSED ∧ state x ≠ PROCESS_STATE_TERMINATED.

(** What holds between any two operations, also in the middle of a scheduling decision:
    the queue holds the ready processes (the idle process, slot 0, may wait outside it),
    every process in use has an address space, and each live one but the idle process
    a kernel stack of its own on the heap. *)
Record sched_core {E} `{KernelServicesOk E} (s : sched E) (q : list Z) : Prop := mkCore {
  si_queue : queue_ok s q;
  si_ready i x : i ∈ q → look (process_table s) i = Some x → state x = PROCESS_STATE_READY;
  si_complete i x : look (process_table s) i = Some x → state x = PROCESS_STATE_READY →
    i ∈ q ∨ i = 0;
  si_env : ks_inv (env s);
  si_space i x : look (process_table s) i = Some x → state x ≠ PROCESS_STATE_UNUSED →
    ks_ok_space (env s) (page_directory x);
  si_stack i x : look (process_table s) i = Some x → i ≠ 0 → live x →
    ks_owns (env s) (kernel_stack x - KERNEL_STACK_SIZE);
  si_stacks i j x y : look (process_table s) i = Some x → look (process_table s) j = Some y →
    i ≠ 0 → j ≠ 0 → i ≠ j → live x → live y → kernel_stack x ≠ kernel_stack y;
  si_unused i x : look (process_table s) i = Some x → i ≠ 0 →
    state x = PROCESS_STATE_UNUSED → kernel_stack x = 0;
  si_idle x : look (process_table s) 0 = Some x → pid x = 0 ∧ live x
}.

(** In the middle of a decision nobody runs. *)
Definition sched_mid {E} `{KernelServicesOk E} (s : sched E) (q : list Z) (c : Z) : Prop :=
  sched_core s q ∧ current_process s = Some c ∧ is_slot c ∧
  ∀ i x, look (process_table s) i = Some x → state x ≠ PROCESS_STATE_RUNNING.

(** Between operations [c] runs, and nobody else; after [process_init] it is the idle
    process, which is still marked ready. *)
Definition sched_inv {E} `{KernelServicesOk E} (s : sched E) (q : list Z) (c : Z) : Prop :=
  sched_core s q ∧ current_process s = Some c ∧ is_slot c ∧ (c ∉ q) ∧
  (∀ x, look (process_table s) c = Some x →
     state x = PROCESS_STATE_RUNNING ∨ c = 0 ∧ state x = PROCESS_STATE_READY) ∧
  ∀ i x, look (process_table s) i = Some x → state x = PROCESS_STATE_RUNNING → i = c.

(** The queue in which a yielding process leaves the decision. *)
Definition yield_queue (q : list Z) (c : Z) (x : process) : list Z :=
  if bool_decide (state x = PROCESS_STATE_RUNNING) then q ++ [c] else q.

Definition unused (t : list process) (i : Z) : Prop :=
  ∃ x, look t i = Some x ∧ state x = PROCESS_STATE_UNUSED.

(** The slot of a process under creation, and the words of its first stack frame. *)
Definition created (n : Z) (cur : option Z) (x : process) : process :=
  with_sleep_until 0 (with_exit_code 0 (with_next_proc None (with_parent cur
    (with_state PROCESS_STATE_CREATED (with_pid n x))))).

Definition first_frame `{CodeAddresses} (top entry : Z) (m : gmap Z Z) : gmap Z Z :=
  <[top -w 4 * 7 := 0]> (<[top -w 4 * 6 := 0]> (<[top -w 4 * 5 := 0]> (<[top -w 4 * 4 := 0]>
    (<[top -w 4 * 3 := process_wrapper]> (<[top -w 4 * 2 := 0]> (<[top -w 4 * 1 := entry]> m)))))).

Definition completed (nm : list Z) (top D n : Z) (cur : option Z) (x : process) : process :=
  with_state PROCESS_STATE_READY (with_name (copy_name 31 0 nm (name x))
    (with_esp (top -w 28) (with_kernel_stack top (with_page_directory D (created n cur x))))).

(** Why [process_create] may answer NULL. *)
Definition create_fails {E} `{KernelServices E} (s : sched E) : Prop :=
  (∀ j, 1 ≤ j < MAX_PROCESSES → ~ unused (process_table s) j) ∨
  (∃ e1, ks_clone_pd (env s) = Ret 0 e1) ∨
  (∃ D e1 e2, ks_clone_pd (env s) = Ret D e1 ∧ D ≠ 0 ∧
     ks_kmalloc KERNEL_STACK_SIZE e1 = Ret 0 e2).

(** Runs of the process subsystem: the operations processes call, and steps of the rest of
    the kernel.  The flag marks the scheduling decisions. *)
Inductive sched_step {E} `{KernelServicesOk E} `{CodeAddresses} : bool → sched E → sched E → Prop :=
| st_yield s s' : process_yield s = Ret tt s' → sched_step true s s'
| st_sleep ms s s' : process_sleep ms s = Ret tt s' → sched_step true s s'
| st_exit code c x s s' :
    current_process s = Some c → look (process_table s) c = Some x → pid x ≠ 0 →
    process_exit code s = Ret tt s' → sched_step true s s'
| st_create nm entry r s s' :
    ks_room (env s) → process_create nm entry s = Ret r s' → sched_step false s s'
| st_env s e' :
    ks_inv e' → (∀ p, ks_owns (env s) p → ks_owns e' p) →
    (∀ D, ks_ok_space (env s) D → ks_ok_space e' D) → sched_step false s (set_env e' s).

(** A run with a number of decisions in it. *)
Inductive sched_runs {E} `{KernelServicesOk E} `{CodeAddresses} : nat → sched E → sched E → Prop :=
| runs_refl s : sched_runs 0 s s
| runs_step b n s s1 s2 :
    sched_step b s s1 → sched_runs n s1 s2 → sched_runs (if b then S n else n) s s2.

Definition terminated (t : list process) (i : Z) : Prop :=
  ∃ x, look t i = Some x ∧ state x = PROCESS_STATE_TERMINATED.

(** What a step does to the queue [q] and the running process [c]. *)
Definition advances (b : bool) (q : list Z) (c : Z) (q' : list Z) (c' : Z) : Prop :=
  ∃ a, if b then q' = tail (q ++ a) ∧ c' = hd 0 (q ++ a) else q' = q ++ a ∧ c' = c.

(** The static table before [process_init]: zeroed memory. *)
Definition zeroed_table (t : list process) : Prop :=
  Z.of_nat (length t) = MAX_PROCESSES ∧ ∀ i x, look t i = Some x → kernel_stack x = 0.

(** ** Lemmas on slots and links *)

Lemma arr_get_look t i : is_Some (arr_get t i) ↔ is_Some (look t i).
Proof. unfold look. by rewrite fmap_is_Some. Qed.

Lemma look_set t i x j :
  0 ≤ i < Z.of_nat (length t) →
  look (arr_set t i x) j = if i =? j then Some (with_next_proc None x) else look t j.
Proof.
  intros Hi. unfold look. destruct (Z.eqb_spec i j) as [->|Hne].
  - by rewrite arr_get_set_eq.
  - by rewrite arr_get_set_ne.
Qed.

Lemma link_set t i x j :
  0 ≤ i < Z.of_nat (length t) →
  link (arr_set t i x) j = if i =? j then Some (next x) else link t j.
Proof.
  intros Hi. unfold link. destruct (Z.eqb_spec i j) as [->|Hne].
  - by rewrite arr_get_set_eq.
  - by rewrite arr_get_set_ne.
Qed.

Lemma look_get t i x : arr_get t i = Some x → look t i = Some (with_next_proc None x).
Proof. unfold look. by intros ->. Qed.

Lemma link_get t i x : arr_get t i = Some x → link t i = Some (next x).
Proof. unfold link. by intros ->. Qed.

Lemma chain_agree t t' q :
  (∀ i, i ∈ q → link t' i = link t i) → chain t q → chain t' q.
Proof.
  induction q as [|i q IH]; intros Ha; cbn; [done|]. intros [Hi Hq].
  split; [by rewrite Ha by (by left)|]. apply IH; [|done]. intros j Hj. apply Ha. by right.
Qed.

Lemma chain_app t q r :
  chain t (q ++ r) ↔
  (∀ q1 i q2, q = q1 ++ i :: q2 → link t i = Some (head (q2 ++ r))) ∧ chain t r.
Proof.
  induction q as [|i q IH]; cbn.
  - split; [|tauto]. intros Hr. split; [|done]. intros [|] ? ?; done.
  - rewrite IH. split.
    + intros (Hi & Hq & Hr). split; [|done]. intros [|j q1] k q2 [= -> ->]; [done|by eapply Hq].
    + intros [Hq Hr]. split; [by apply (Hq [])|]. split; [|done].
      intros q1 j q2 ->. by apply (Hq (i :: q1)).
Qed.

Lemma chain_slot t q i : chain t q → i ∈ q → ∃ x, arr_get t i = Some x.
Proof.
  induction q as [|j q IH]; cbn; [set_solver|].
  intros [Hj Hq] [->|Hi]%elem_of_cons; [|by apply IH].
  unfold link in Hj. apply fmap_Some in Hj as (x & Hx & _). by exists x.
Qed.

(** ** Lemmas on the operations *)

Section lemmas.
Context {E : Type} `{KernelServices E} `{CodeAddresses}.
Implicit Types s : sched E.

Lemma wp_proc_at p x s (Q : process → sched E → Prop) :
  arr_get (process_table s) p = Some x → Q x s → wp (proc_at p) s Q.
Proof. intros Hx HQ. unfold proc_at. wp_steps. by eapply wp_expect. Qed.

Lemma wp_upd p f x s (Q : unit → sched E → Prop) :
  arr_get (process_table s) p = Some x →
  Q tt (set_table (arr_set (process_table s) p (f x)) s) → wp (upd p f) s Q.
Proof. intros Hx HQ. unfold upd. wp_steps. eapply wp_proc_at; [done|]. done. Qed.

Lemma wp_service {A} (m : M E A) s (Q : A → sched E → Prop) :
  wp m (env s) (λ a e, Q a (set_env e s)) → wp (service m) s Q.
Proof. apply wp_zoom. Qed.

Lemma queue_slot s q i : queue_ok s q → i ∈ q → is_slot i.
Proof.
  intros [Hlen _ _ Hc _] Hi. destruct (chain_slot _ _ _ Hc Hi) as [x Hx].
  apply arr_get_Some_range in Hx. unfold is_slot, MAX_PROCESSES in *. lia.
Qed.

Lemma slot_get s q i : queue_ok s q → is_slot i → ∃ x, arr_get (process_table s) i = Some x.
Proof. intros [Hlen _ _ _ _] Hi. apply arr_get_lt. unfold is_slot in *. lia. Qed.

(** [scheduler_add] puts a process at the end of the queue. *)
Lemma wp_scheduler_add s q p (Q : unit → sched E → Prop) :
  queue_ok s q → is_slot p → p ∉ q →
  (∀ t', let s' := set_queue (head (q ++ [p])) (Some p) (set_table t' s) in
     queue_ok s' (q ++ [p]) → (∀ i, look t' i = look (process_table s) i) → Q tt s') →
  wp (scheduler_add (Some p)) s Q.
Proof.
  intros Hq Hp Hpq HQ. destruct (slot_get _ _ _ Hq Hp) as [x Hx].
  pose proof (qo_len _ _ Hq) as Hlen. unfold is_slot in Hp.
  unfold scheduler_add. wp_step. eapply wp_upd; [exact Hx|]. wp_step. wp_step.
  cbn [ready_queue_tail set_table]. rewrite (qo_tail _ _ Hq).
  destruct q as [|t q _] using rev_ind; cbn [last].
  - wp_step. apply (HQ (arr_set (process_table s) p (with_next_proc None x))).
    + split; cbn; rewrite ?length_arr_set; try done; [|by apply NoDup_singleton].
      split; [|done]. by rewrite link_set, Z.eqb_refl by lia.
    + intros i. rewrite look_set by lia. destruct (Z.eqb_spec p i) as [->|]; [|done].
      by rewrite (look_get _ _ _ Hx).
  - rewrite last_snoc. assert (Ht : is_slot t) by (eapply queue_slot; [done|set_solver]).
    destruct (slot_get _ _ _ Hq Ht) as [y Hy]. unfold is_slot in Ht.
    assert (p ≠ t) by set_solver.
    wp_step. eapply wp_upd; [cbn; rewrite arr_get_set_ne by done; exact Hy|]. wp_step.
    cbn [set_table process_table].
    replace (ready_queue_head (set_table _ _)) with (head ((q ++ [t]) ++ [p])).
    2:{ cbn. rewrite (qo_head _ _ Hq). by destruct q. }
    apply (HQ (arr_set (arr_set (process_table s) p (with_next_proc None x)) t (with_next_proc (Some p) y))).
    + pose proof (qo_chain _ _ Hq) as Hc. pose proof (qo_nodup _ _ Hq) as Hnd.
      split; cbn; rewrite ?length_arr_set; try done; [by rewrite last_snoc| |].
      * rewrite chain_app in Hc. destruct Hc as [Hc _].
        rewrite <- app_assoc. apply chain_app. split.
        -- intros q1 i q2 ->. rewrite NoDup_app in Hnd. destruct Hnd as (_ & Hnd & _).
           rewrite !link_set by (rewrite ?length_arr_set; lia).
           destruct (Z.eqb_spec t i) as [->|]; [exfalso; apply (Hnd i); set_solver|].
           destruct (Z.eqb_spec p i) as [->|]; [exfalso; set_solver|].
           rewrite (Hc q1 i q2) by done. by destruct q2.
        -- cbn. rewrite !link_set by (rewrite ?length_arr_set; lia). rewrite !Z.eqb_refl.
           destruct (Z.eqb_spec t p) as [->|]; done.
      * apply NoDup_app. split; [done|]. split; [set_solver|apply NoDup_singleton].
    + intros i. rewrite !look_set by (rewrite ?length_arr_set; lia).
      destruct (Z.eqb_spec t i) as [->|]; [by rewrite (look_get _ _ _ Hy)|].
      destruct (Z.eqb_spec p i) as [->|]; [by rewrite (look_get _ _ _ Hx)|done].
Qed.

Lemma set_env_id s : set_env (env s) s = s.
Proof. by destruct s. Qed.

Lemma set_queue_id s q :
  queue_ok s q → set_queue (head q) (last q) (set_table (process_table s) s) = s.
Proof. intros [_ Hh Ht _ _]. rewrite <- Hh, <- Ht. by destruct s. Qed.

Lemma queue_upd s q t' p x y :
  queue_ok (with_queue s q t') q → arr_get t' p = Some x → next y = next x →
  queue_ok (with_queue s q (arr_set t' p y)) q.
Proof.
  intros [Hlen _ _ Hc Hnd] Hx Hy. pose proof (arr_get_Some_range _ _ _ Hx).
  split; cbn in *; rewrite ?length_arr_set; try done.
  eapply chain_agree; [|exact Hc]. intros i _. rewrite link_set by lia.
  destruct (Z.eqb_spec p i) as [->|]; [|done]. by rewrite (link_get _ _ _ Hx), Hy.
Qed.

Lemma wp_wake_slot s q t' now i (Q : unit → sched E → Prop) :
  queue_ok (with_queue s q t') q → is_slot i →
  (is_due t' now i = true → i ∉ q) →
  (∀ t'', let q' := q ++ (if is_due t' now i then [i] else []) in
     queue_ok (with_queue s q' t'') q' →
     (∀ j, look t'' j = if i =? j then wake now <$> look t' j else look t' j) →
     Q tt (with_queue s q' t'')) →
  wp (wake_slot now i) (with_queue s q t') Q.
Proof.
  intros Hq Hi Hnin HQ. destruct (slot_get _ _ _ Hq Hi) as [x Hx]. cbn in Hx.
  pose proof (qo_len _ _ Hq) as Hlen. cbn in Hlen. unfold is_slot in Hi.
  unfold wake_slot. wp_step. eapply wp_proc_at; [exact Hx|].
  assert (Hd : is_due t' now i = due now x).
  { unfold is_due. by rewrite (look_get _ _ _ Hx). }
  change (bool_decide _ && _) with (due now x). rewrite Hd in *.
  destruct (due now x) eqn:Ed; cbn [when].
  - wp_step. eapply wp_upd; [exact Hx|].
    change (set_table _ _) with
      (with_queue s q (arr_set t' i (with_state PROCESS_STATE_READY x))).
    apply wp_scheduler_add with q; [by eapply queue_upd| |by apply Hnin|].
    { unfold is_slot. lia. }
    intros t'' s'' Hq' Hl. subst s''. cbn in Hl.
    replace (set_queue _ _ _) with (with_queue s (q ++ [i]) t'')
      by (unfold with_queue; rewrite last_snoc; done).
    apply HQ; [by unfold with_queue; rewrite last_snoc|].
    intros j. rewrite Hl, look_set by lia. destruct (Z.eqb_spec i j) as [->|]; [|done].
    rewrite (look_get _ _ _ Hx). cbn. unfold wake. by change (due now (with_next_proc None x)) with (due now x); rewrite Ed.
  - wp_step. rewrite app_nil_r in HQ. apply HQ; [done|]. intros j.
    destruct (Z.eqb_spec i j) as [->|]; [|done]. rewrite (look_get _ _ _ Hx). cbn. unfold wake.
    by change (due now (with_next_proc None x)) with (due now x); rewrite Ed.
Qed.

Lemma is_due_sleeping t now i : is_due t now i = true → sleeping t i.
Proof.
  unfold is_due, sleeping, due. destruct (look t i) as [x|]; [|done].
  intros [Hs _]%andb_true_iff. apply bool_decide_eq_true in Hs. by exists x.
Qed.

(** [wake_sleeping_processes] appends the sleepers that are due, in slot order. *)
Lemma wp_wake_sleeping s q now (Q : unit → sched E → Prop) :
  queue_ok s q → (∀ i, i ∈ q → ~ sleeping (process_table s) i) →
  ks_ticks (env s) = Ret now (env s) →
  (∀ t', let q' := q ++ woken (process_table s) now in
     queue_ok (with_queue s q' t') q' →
     (∀ j, look t' j = wake now <$> look (process_table s) j) →
     Q tt (with_queue s q' t')) →
  wp wake_sleeping_processes s Q.
Proof.
  intros Hq Hns Htick HQ. unfold wake_sleeping_processes. wp_step. apply wp_service.
  unfold wp at 1. rewrite Htick, set_env_id. set (t := process_table s) in *.
  apply wp_for with (λ i s', ∃ t', let qi := q ++ filter (λ j, is_due t now j = true) (seqZ 0 i) in
    s' = with_queue s qi t' ∧ queue_ok s' qi ∧
    ∀ j, look t' j = if j <? i then wake now <$> look t j else look t j).
  - exists t. cbn. rewrite app_nil_r. split_and!; [symmetry; by apply set_queue_id|done|].
    intros j. destruct (Z.ltb_spec j 0); [|done]. unfold look, arr_get.
    by destruct (Z.leb_spec 0 j); [lia|].
  - intros i s' Hi (t' & -> & Hqi & Hl).
    assert (Ei : is_due t' now i = is_due t now i).
    { unfold is_due. rewrite Hl. by destruct (Z.ltb_spec i i); [lia|]. }
    eapply wp_wake_slot; [done|unfold is_slot; change (trips 0 MAX_PROCESSES) with 256%nat in Hi; unfold MAX_PROCESSES; lia| |].
    + rewrite Ei. intros Hd [Hin|Hin]%elem_of_app.
      * by apply (Hns i Hin), (is_due_sleeping t now).
      * apply list_elem_of_filter in Hin as [_ Hin]. apply elem_of_seqZ in Hin. lia.
    + intros t'' q'' Hq'' Hl''. subst q''. exists t''. rewrite Ei, <- app_assoc in *.
      assert (Ef : filter (λ j, is_due t now j = true) (seqZ 0 i) ++ (if is_due t now i then [i] else []) =
        filter (λ j, is_due t now j = true) (seqZ 0 (i + 1))).
      { rewrite seqZ_snoc, filter_app by lia. f_equal. change (0 + i) with i. rewrite filter_cons.
        destruct (is_due t now i); [by rewrite decide_True|by rewrite decide_False]. }
      cbv zeta. rewrite Ef in *. split_and!; [done|done|]. intros j. rewrite Hl'', Hl.
      destruct (Z.eqb_spec i j), (Z.ltb_spec j i), (Z.ltb_spec j (i + 1)); (lia || done).
  - intros s' (t' & -> & Hq' & Hl). apply HQ; [done|]. intros j. rewrite Hl.
    destruct (Z.ltb_spec j (0 + Z.of_nat (trips 0 MAX_PROCESSES))) as [|Hj]; [done|].
    change (trips 0 MAX_PROCESSES) with 256%nat in Hj. destruct (look t j) as [x|] eqn:Ex; [|done]. exfalso.
    unfold look in Ex. apply fmap_Some in Ex as (y & Hy & _). apply arr_get_Some_range in Hy.
    pose proof (qo_len _ _ Hq). unfold MAX_PROCESSES in *. subst t. lia.
Qed.

Lemma queue_tail s q t' i :
  queue_ok s (i :: q) →
  Z.of_nat (length t') = MAX_PROCESSES → (∀ j, j ≠ i → link t' j = link (process_table s) j) →
  queue_ok (with_queue s q t') q.
Proof.
  intros [Hlen _ _ Hc Hnd] Hlen' Hl. apply NoDup_cons in Hnd as [Hi Hnd]. split; try done.
  eapply chain_agree; [|exact (proj2 Hc)]. intros j Hj. apply Hl. by intros ->.
Qed.

(** Taking the head off. *)
Lemma wp_unlink_head s q p y (Q : unit → sched E → Prop) :
  queue_ok s (p :: q) → arr_get (process_table s) p = Some y →
  (∀ t', queue_ok (with_queue s q t') q → (∀ j, look t' j = look (process_table s) j) →
     Q tt (with_queue s q t')) →
  wp (modify (λ s, set_queue (next y)
        (match next y with None => None | Some _ => ready_queue_tail s end) s);;
      upd p (with_next_proc None)) s Q.
Proof.
  intros Hq Hy HQ. pose proof (qo_len _ _ Hq) as Hlen. pose proof (arr_get_Some_range _ _ _ Hy) as Hrp.
  pose proof (qo_chain _ _ Hq) as [Hnx _]. rewrite (link_get _ _ _ Hy) in Hnx. injection Hnx as Hnx.
  do 2 wp_step. eapply wp_upd; [exact Hy|].
  set (t' := arr_set (process_table s) p (with_next_proc None y)).
  replace (set_table _ _) with (with_queue s q t').
  2:{ unfold with_queue, set_queue, set_table. cbn. rewrite Hnx. f_equal.
      rewrite (qo_tail _ _ Hq). by destruct q as [|m q]. }
  apply HQ.
  - apply (queue_tail s q t' p Hq); [unfold t'; by rewrite length_arr_set|].
    intros j Hj. unfold t'. rewrite link_set by lia. by destruct (Z.eqb_spec p j); [subst|].
  - intros j. unfold t'. rewrite look_set by lia. destruct (Z.eqb_spec p j) as [->|]; [|done].
    by rewrite (look_get _ _ _ Hy).
Qed.

Lemma wp_pick_next s q (Q : Z → sched E → Prop) :
  queue_ok s q →
  (∀ t', queue_ok (with_queue s (tail q) t') (tail q) →
     (∀ j, look t' j = look (process_table s) j) → Q (hd 0 q) (with_queue s (tail q) t')) →
  wp pick_next s Q.
Proof.
  intros Hq HQ. unfold pick_next. wp_step. wp_step. rewrite (qo_head _ _ Hq).
  destruct q as [|n q]; cbn [head hd tail] in *.
  - wp_step. rewrite <- (set_queue_id s [] Hq) at 1. apply HQ; [|done].
    by rewrite <- (set_queue_id s [] Hq) in Hq.
  - pose proof (queue_slot _ _ n Hq ltac:(by left)) as Hn.
    destruct (slot_get _ _ _ Hq Hn) as [x Hx].
    wp_step. eapply wp_proc_at; [exact Hx|].
    assert (Hh : wp (modify (λ s, set_queue (next x)
        (match next x with None => None | Some _ => ready_queue_tail s end) s);;
      upd n (with_next_proc None)) s (λ _ s', Q n s')) by (by apply (wp_unlink_head s q n x)).
    apply wp_bind_inv in Hh. wp_step. eapply wp_mono; [exact Hh|]. intros [] s' Hs'. wp_step.
    eapply wp_mono; [exact Hs'|]. intros [] s'' Hs''. by wp_step.
Qed.

Lemma wp_cpu_push x s (Q : unit → sched E → Prop) :
  (let sp := r_esp (the_cpu s) -w 4 in Q tt (set_cpu (with_sp sp (the_cpu s)) (set_stack (<[sp := x]> (stack_mem s)) s))) →
  wp (cpu_push x) s Q.
Proof. done. Qed.

Lemma wp_cpu_pop put s (Q : unit → sched E → Prop) :
  Q tt (set_cpu (put (ldw (stack_mem s) (r_esp (the_cpu s))) (with_sp (r_esp (the_cpu s) +w 4) (the_cpu s))) s) →
  wp (cpu_pop put) s Q.
Proof. done. Qed.

Lemma w32_sub_sub r i j : r -w i -w j = r -w (i + j).
Proof. rewrite w32_sub_l. f_equal. lia. Qed.

Lemma w32_add_add r i j : r +w i +w j = r +w (i + j).
Proof. rewrite w32_add_l. f_equal. lia. Qed.

Lemma w32_sub_ne r i j : 0 ≤ i < 4294967296 → 0 ≤ j < 4294967296 → i ≠ j → r -w i ≠ r -w j.
Proof. intros Hi Hj Hne. unfold w32. mlia. Qed.

Lemma ldw_insert_ne' (m : gmap Z Z) a b x : a ≠ b → ldw (<[a := x]> m) b = ldw m b.
Proof. intros Hne. unfold ldw. by rewrite lookup_insert_ne. Qed.

Lemma ldw_insert_eq' (m : gmap Z Z) a x : ldw (<[a := x]> m) a = x.
Proof. unfold ldw. by rewrite lookup_insert_eq. Qed.

(** The pops. *)
Lemma wp_switch_in s (Q : unit → sched E → Prop) :
  Q tt (set_cpu (resume_cpu (stack_mem s) (r_esp (the_cpu s))) s) →
  wp (cpu_pop put_ebp;; cpu_pop put_edi;; cpu_pop put_esi;; cpu_pop put_ebx;; cpu_pop put_eip) s Q.
Proof.
  intros HQ. do 4 apply wp_bind, wp_cpu_pop. apply wp_cpu_pop. destruct s as [t cur hd tl pid m [sp b si di bp ip] e].
  cbn [set_cpu stack_mem the_cpu with_sp put_ebp put_edi put_esi put_ebx put_eip r_esp r_ebx r_esi r_edi r_ebp r_eip] in *.
  rewrite !w32_add_add. exact HQ.
Qed.

Lemma wp_context_switch prev sp x s (Q : unit → sched E → Prop) :
  arr_get (process_table s) prev = Some x →
  (let m := switch_stack prev sp (the_cpu s) (stack_mem s) in
   Q tt (set_cpu (resume_cpu m sp) (set_stack m
     (set_table (arr_set (process_table s) prev (with_esp (r_esp (the_cpu s) -w 28) x)) s)))) →
  wp (context_switch prev sp) s Q.
Proof.
  intros Hx HQ. destruct s as [t cur hd tl pid m [r b si di bp ip] e].
  unfold context_switch, cpu_push_reg.
  do 3 (apply wp_bind, wp_cpu_push; cbv zeta). do 4 (apply wp_bind, wp_bind, wp_gets, wp_cpu_push; cbv zeta).
  cbn [the_cpu set_cpu set_stack stack_mem r_esp with_sp r_ebx r_esi r_edi r_ebp r_eip]. rewrite !w32_sub_sub. cbn [Z.add Pos.add Pos.succ].
  apply wp_bind, wp_gets, wp_bind. eapply wp_upd; [exact Hx|]. apply wp_bind, wp_gets, wp_bind, wp_modify, wp_switch_in.
  unfold switch_stack in HQ.
  cbn [the_cpu set_cpu set_stack set_table process_table stack_mem r_esp with_sp r_ebx r_esi r_edi r_ebp r_eip] in *.
  change (4 + 4) with 8. change (4 + 8) with 12. change (4 + 12) with 16. change (4 + 16) with 20. change (4 + 20) with 24. change (4 + 24) with 28.
  assert (Hr : r -w 28 +w 24 = r -w 4) by (rewrite w32_add_l; f_equal; lia). rewrite Hr.
  do 6 (rewrite (ldw_insert_ne' _ _ (r -w 4)) by (apply w32_sub_ne; lia)). rewrite ldw_insert_eq'. exact HQ.
Qed.

Lemma look_some t i x : look t i = Some x → ∃ y, arr_get t i = Some y ∧ x = with_next_proc None y.
Proof. unfold look. intros (y & Hy & ->)%fmap_Some. by exists y. Qed.

Lemma queue_set s q p x y t' :
  queue_ok s q → arr_get (process_table s) p = Some x → next y = next x →
  t' = arr_set (process_table s) p y →
  ∀ s', process_table s' = t' → ready_queue_head s' = ready_queue_head s →
    ready_queue_tail s' = ready_queue_tail s → queue_ok s' q.
Proof.
  intros [Hlen Hh Ht Hc Hnd] Hx Hy -> s' Es' Eh Et. pose proof (arr_get_Some_range _ _ _ Hx).
  split; rewrite ?Es', ?Eh, ?Et, ?length_arr_set; try done.
  eapply chain_agree; [|exact Hc]. intros i _. rewrite link_set by lia.
  destruct (Z.eqb_spec p i) as [->|]; [|done]. by rewrite (link_get _ _ _ Hx), Hy.
Qed.

Lemma wake_keeps now x :
  page_directory (wake now x) = page_directory x ∧ esp (wake now x) = esp x ∧
  kernel_stack (wake now x) = kernel_stack x ∧ pid (wake now x) = pid x.
Proof. unfold wake. by destruct (due now x). Qed.

Lemma wp_schedule s q c now (Q : unit → sched E → Prop) :
  queue_ok s q → current_process s = Some c → is_slot c →
  (∀ i, i ∈ q → ~ sleeping (process_table s) i) →
  ks_ticks (env s) = Ret now (env s) →
  (let q1 := q ++ woken (process_table s) now in
   (∀ x, look (process_table s) (hd 0 q1) = Some x →
      wp (ks_switch (page_directory x)) (env s) (λ _ _, True)) ∧
   ∀ s', scheduled s c now q1 s' → Q tt s') →
  wp schedule s Q.
Proof.
  intros Hq Hc Hcs Hns Htick HQ. cbv zeta in HQ. destruct HQ as [Hsw HQ].
  unfold schedule. wp_step. wp_step. rewrite Hc. wp_step.
  apply (wp_wake_sleeping s q now); [done..|]. set (q1 := q ++ woken (process_table s) now) in *.
  intros t1 q1' Hq1 Hl1. subst q1'. fold q1 in Hq1 |- *. wp_step.
  apply (wp_pick_next _ _ _ Hq1). intros t2 Hq2 Hl2. cbn in Hl2.
  change (with_queue (with_queue s q1 t1) (tail q1) t2) with (with_queue s (tail q1) t2) in *.
  set (n := hd 0 q1) in *. pose proof (qo_len _ _ Hq2) as Hlen2. cbn in Hlen2.
  assert (Hn : is_slot n).
  { subst n. destruct q1 as [|n q1']; cbn; [done|]. apply (queue_slot _ _ _ Hq1). by left. }
  unfold is_slot in Hn, Hcs.
  assert (Hl : ∀ j, look t2 j = wake now <$> look (process_table s) j) by (intros; by rewrite Hl2).
  destruct (arr_get_lt t2 n) as [y Hy]; [lia|]. destruct (arr_get_lt t2 c) as [x Hx]; [lia|].
  destruct (Z.eqb_spec n c) as [Enc|Hnc].
  - eapply wp_upd; [exact Hx|]. apply HQ. split; try done; [apply Hq1|..].
    + by apply (queue_set _ _ c x (with_state PROCESS_STATE_RUNNING x) _ Hq2 Hx eq_refl eq_refl).
    + cbn. by rewrite Hc, <- Enc.
    + intros j. cbn. rewrite look_set by lia. unfold decided. fold n. rewrite Enc, Z.eqb_sym.
      destruct (Z.eqb_spec j c) as [->|].
      * specialize (Hl c). rewrite (look_get _ _ _ Hx) in Hl.
        destruct (look (process_table s) c); [|done]. cbn in *. injection Hl as <-. done.
      * apply Hl.
  - do 2 wp_step. wp_step. eapply wp_upd; [exact Hy|]. cbn [process_table set_table set_current with_queue set_queue].
    wp_step. eapply wp_proc_at; [cbn; by rewrite arr_get_set_ne|].
    wp_step. eapply wp_proc_at; [cbn; by rewrite arr_get_set_eq by lia|]. cbn [page_directory with_state esp].
    pose proof (Hl n) as Hyn. rewrite (look_get _ _ _ Hy) in Hyn.
    pose proof (Hl c) as Hxc. rewrite (look_get _ _ _ Hx) in Hxc.
    destruct (look (process_table s) n) as [y0|] eqn:Ey; [|done].
    destruct (look (process_table s) c) as [x0|] eqn:Ex; [|done]. cbn in Hyn, Hxc.
    injection Hyn as Hyn. injection Hxc as Hxc.
    assert (Epd : page_directory y = page_directory y0 ∧ esp y = esp y0 ∧ page_directory x = page_directory x0).
    { change (page_directory (with_next_proc None y) = page_directory y0 ∧
        esp (with_next_proc None y) = esp y0 ∧
        page_directory (with_next_proc None x) = page_directory x0).
      rewrite Hyn, Hxc. split_and!; apply wake_keeps. }
    destruct Epd as (Epy & Eey & Epx). rewrite Epy, Epx, Eey.
    set (t3 := arr_set t2 n (with_state PROCESS_STATE_RUNNING y)).
    assert (Hx3 : arr_get t3 c = Some x) by (unfold t3; by rewrite arr_get_set_ne).
    assert (Hswitch : ∀ e', (if page_directory x0 =? page_directory y0 then e' = env s
        else ks_switch (page_directory y0) (env s) = Ret tt e') →
      wp (context_switch c (esp y0)) (set_env e' (set_table t3 (set_current (Some n) (with_queue s (tail q1) t2)))) Q).
    { intros e' He'. eapply wp_context_switch; [exact Hx3|]. apply HQ.
      pose proof (queue_set _ _ n y (with_state PROCESS_STATE_RUNNING y) t3 Hq2 Hy eq_refl eq_refl
        (set_table t3 (with_queue s (tail q1) t2)) eq_refl eq_refl eq_refl) as Hq3.
      split; fold n; try done; [apply Hq1|..].
      - by apply (queue_set _ _ c x (with_esp (r_esp (the_cpu s) -w 28) x) _ Hq3 Hx3 eq_refl eq_refl).
      - intros j. cbn. rewrite look_set by (unfold t3; rewrite length_arr_set; lia).
        unfold t3. rewrite look_set by lia. unfold decided. rewrite (Z.eqb_sym j n), (Z.eqb_sym j c).
        destruct (Z.eqb_spec n j) as [<-|].
        + destruct (Z.eqb_spec c n); [congruence|]. rewrite Ey. cbn. by rewrite <- Hyn.
        + destruct (Z.eqb_spec c j) as [<-|]; [|apply Hl]. rewrite Ex. cbn. by rewrite <- Hxc.
      - intros x1 y1 _ E1 E2. rewrite E1 in Ex. rewrite E2 in Ey. injection Ex as <-. injection Ey as <-.
        done. }
    wp_step. destruct (page_directory x0 =? page_directory y0) eqn:Epd; cbn [negb when].
    + wp_step. exact (Hswitch (env s) eq_refl).
    + apply wp_service. destruct (wp_ex _ _ _ (Hsw y0 eq_refl)) as ([] & e' & Ee' & _).
      unfold wp at 1. cbn [env set_table set_current with_queue set_queue]. rewrite Ee'.
      exact (Hswitch e' Ee').
Qed.

End lemmas.

(** One field written in the slot that was written last. *)
Ltac upd_again Hr :=
  try wp_step; eapply wp_upd;
    [cbn [process_table set_table set_next_pid set_env set_stack set_queue set_current];
     first [apply arr_get_set_eq; exact Hr|eassumption]|];
  cbn [process_table set_table set_next_pid set_env set_stack stack_mem env]; rewrite ?arr_set_set.

(** ** The invariant is kept *)

Section invariant.
Context {E : Type} `{KernelServicesOk E} `{CodeAddresses}.
Implicit Types s : sched E.

Lemma decided_keeps now c n a j x :
  page_directory (decided now c n a j x) = page_directory x ∧
  kernel_stack (decided now c n a j x) = kernel_stack x ∧
  pid (decided now c n a j x) = pid x ∧
  state (decided now c n a j x) =
    if j =? n then PROCESS_STATE_RUNNING
    else if due now x then PROCESS_STATE_READY else state x.
Proof.
  unfold decided, wake. destruct (due now x), (j =? n), (j =? c); done.
Qed.

Lemma due_state now x : due now x = true → state x = PROCESS_STATE_SLEEPING.
Proof. unfold due. intros [Hs _]%andb_true_iff. by apply bool_decide_eq_true in Hs. Qed.

Lemma decided_live now c n a j x :
  live (decided now c n a j x) → live x ∨ j = n.
Proof.
  unfold live. destruct (decided_keeps now c n a j x) as (_ & _ & _ & ->).
  destruct (Z.eqb_spec j n); [tauto|]. intros Hl. left.
  destruct (due now x) eqn:Hd; [|done]. apply due_state in Hd. rewrite Hd. done.
Qed.

Lemma ready_not_sleeping s q : sched_core s q → ∀ i, i ∈ q → ~ sleeping (process_table s) i.
Proof. intros Hc i Hi (x & Hx & Hs). pose proof (si_ready _ _ Hc i x Hi Hx). congruence. Qed.

(** The process a decision picks is ready, due, or idle; it is live. *)
Lemma picked s q now x :
  sched_core s q → look (process_table s) (hd 0 (q ++ woken (process_table s) now)) = Some x →
  live x.
Proof.
  intros Hc. set (n := hd 0 _). intros Hx.
  assert (n ∈ q ++ woken (process_table s) now ∨ n = 0) as [Hin|Hn].
  { subst n. destruct (q ++ _); cbn; [by right|]. left. by left. }
  - apply elem_of_app in Hin as [Hin|Hin].
    + pose proof (si_ready _ _ Hc n x Hin Hx) as Hr. unfold live. by rewrite Hr.
    + apply list_elem_of_filter in Hin as [Hd _]. apply is_due_sleeping in Hd as (y & Hy & Hs).
      rewrite Hx in Hy. injection Hy as <-. unfold live. by rewrite Hs.
  - rewrite Hn in Hx. apply (si_idle _ _ Hc x Hx).
Qed.

(** A step that keeps the identity of every slot keeps the invariant, when the new
    queue is the list of the ready ones. *)
Lemma core_step s q s' q' :
  sched_core s q → queue_ok s' q' → ks_inv (env s') →
  (∀ i x, look (process_table s') i = Some x → i ≠ 0 → live x →
     ks_owns (env s) (kernel_stack x - KERNEL_STACK_SIZE) →
     ks_owns (env s') (kernel_stack x - KERNEL_STACK_SIZE)) →
  (∀ D, ks_ok_space (env s) D → ks_ok_space (env s') D) →
  (∀ i x', look (process_table s') i = Some x' → ∃ x, look (process_table s) i = Some x ∧
     page_directory x' = page_directory x ∧ kernel_stack x' = kernel_stack x ∧ pid x' = pid x ∧
     (live x' → live x) ∧ (i = 0 → live x') ∧
     (state x' = PROCESS_STATE_UNUSED ↔ state x = PROCESS_STATE_UNUSED)) →
  (∀ i x, i ∈ q' → look (process_table s') i = Some x → state x = PROCESS_STATE_READY) →
  (∀ i x, look (process_table s') i = Some x → state x = PROCESS_STATE_READY → i ∈ q' ∨ i = 0) →
  sched_core s' q'.
Proof.
  intros Hc Hq He Hown Hsp Hb Hr Hco. split; try done.
  - intros i x' Hx' Hu. destruct (Hb i x' Hx') as (x & Hx & -> & _ & _ & _ & _ & Huu).
    apply Hsp, (si_space _ _ Hc i x Hx). tauto.
  - intros i x' Hx' Hi Hl. apply (Hown i x' Hx' Hi Hl).
    destruct (Hb i x' Hx') as (x & Hx & _ & -> & _ & Hll & _). apply (si_stack _ _ Hc i x Hx Hi). tauto.
  - intros i j x' y' Hx' Hy' Hi Hj Hij Hlx Hly.
    destruct (Hb i x' Hx') as (x & Hx & _ & -> & _ & Hxl & _).
    destruct (Hb j y' Hy') as (y & Hy & _ & -> & _ & Hyl & _).
    apply (si_stacks _ _ Hc i j x y); tauto.
  - intros i x' Hx' Hi Hu. destruct (Hb i x' Hx') as (x & Hx & _ & -> & _ & _ & _ & Huu).
    apply (si_unused _ _ Hc i x); tauto.
  - intros x' Hx'. destruct (Hb 0 x' Hx') as (x & Hx & _ & _ & -> & _ & Hl & _).
    split; [apply (si_idle _ _ Hc x Hx)|by apply Hl].
Qed.

(** The process a decision picks is a slot, and is not in the rest of the queue. *)
Lemma picked_slot s q now :
  queue_ok s q → is_slot (hd 0 (q ++ woken (process_table s) now)).
Proof.
  intros Hq. destruct (q ++ woken (process_table s) now) as [|m q1'] eqn:Eq1; cbn; [done|].
  assert (m ∈ q ++ woken (process_table s) now) as [Hm|Hm]%elem_of_app by (rewrite Eq1; by left).
  - by apply (queue_slot _ _ _ Hq).
  - apply list_elem_of_filter in Hm as [_ Hm]. apply elem_of_seqZ in Hm. unfold is_slot. lia.
Qed.

Lemma hd_notin_tail (q : list Z) : NoDup q → hd 0 q ∉ tail q.
Proof. destruct q; cbn; [set_solver|]. by intros [? _]%NoDup_cons. Qed.

Lemma elem_tail (q : list Z) i : i ∈ q → i ≠ hd 0 q → i ∈ tail q.
Proof. destruct q; cbn; [done|]. by intros [->|]%elem_of_cons. Qed.

Lemma tail_elem (q : list Z) i : i ∈ tail q → i ∈ q.
Proof. destruct q; cbn; [done|]. by right. Qed.

Lemma decided_ready s q c now n a i x :
  sched_core s q → look (process_table s) i = Some x → i ≠ n →
  state (decided now c n a i x) = PROCESS_STATE_READY →
  i ∈ q ++ woken (process_table s) now ∨ i = 0.
Proof.
  intros Hc Hx Hi. destruct (decided_keeps now c n a i x) as (_ & _ & _ & ->).
  destruct (Z.eqb_spec i n) as [|_]; [done|]. destruct (due now x) eqn:Hd; intros Hr.
  - left. apply elem_of_app. right. apply list_elem_of_filter. unfold is_due. rewrite Hx.
    split; [done|]. apply elem_of_seqZ. apply look_some in Hx as (z & Hz & _).
    apply arr_get_Some_range in Hz. pose proof (qo_len _ _ (si_queue _ _ Hc)). lia.
  - destruct (si_complete _ _ Hc i x Hx Hr) as [|]; [left; apply elem_of_app; by left|by right].
Qed.

Lemma ready_decided s q c now n a i x :
  sched_core s q → look (process_table s) i = Some x → i ≠ n →
  i ∈ q ++ woken (process_table s) now → state (decided now c n a i x) = PROCESS_STATE_READY.
Proof.
  intros Hc Hx Hi Hin. destruct (decided_keeps now c n a i x) as (_ & _ & _ & ->).
  destruct (Z.eqb_spec i n) as [|_]; [done|]. apply elem_of_app in Hin as [Hq|Hq].
  - pose proof (si_ready _ _ Hc i x Hq Hx) as Hr. by destruct (due now x).
  - apply list_elem_of_filter in Hq as [Hd _]. unfold is_due in Hd. rewrite Hx in Hd. by rewrite Hd.
Qed.

Lemma scheduled_inv s q c now s' :
  sched_mid s q c → ks_inv (env s') →
  (∀ p, ks_owns (env s) p → ks_owns (env s') p) →
  (∀ D, ks_ok_space (env s) D → ks_ok_space (env s') D) →
  scheduled s c now (q ++ woken (process_table s) now) s' →
  sched_inv s' (tail (q ++ woken (process_table s) now)) (hd 0 (q ++ woken (process_table s) now)).
Proof.
  intros (Hc & _ & _ & Hnr) He Hown Hsp Hsch.
  pose proof (picked_slot s q now (si_queue _ _ Hc)) as Hns.
  set (q1 := q ++ woken (process_table s) now) in *. set (n := hd 0 q1) in *.
  pose proof (sc_look _ _ _ _ _ Hsch) as Hl. fold n in Hl.
  assert (Hback : ∀ i x, look (process_table s') i = Some x →
    ∃ y, look (process_table s) i = Some y ∧ x = decided now c n (r_esp (the_cpu s) -w 28) i y).
  { intros i x Hx. rewrite Hl in Hx. apply fmap_Some in Hx as (y & Hy & ->). eauto. }
  pose proof (hd_notin_tail q1 (sc_nodup _ _ _ _ _ Hsch)) as Hn. fold n in Hn.
  split_and!; [|apply Hsch|done|done|..].
  - apply (core_step s q); [done|apply Hsch|done|auto|done|..].
    + intros i x' (x & Hx & ->)%Hback. exists x.
      destruct (decided_keeps now c n (r_esp (the_cpu s) -w 28) i x) as (-> & -> & -> & Est).
      assert (Hpick : i = n → live x) by (intros ->; by apply (picked s q now)).
      split_and!; try done.
      * intros [|]%decided_live; auto.
      * intros ->. pose proof (proj2 (si_idle _ _ Hc x Hx)) as [Hl1 Hl2]. unfold live. rewrite Est.
        destruct (0 =? n), (due now x); done.
      * rewrite Est. destruct (Z.eqb_spec i n) as [Ei|]; [pose proof (Hpick Ei) as []; naive_solver|].
        destruct (due now x) eqn:Hd; [apply due_state in Hd; rewrite Hd; done|done].
    + intros i x' Hi (x & Hx & ->)%Hback. apply (ready_decided s q); [done|done| |by apply tail_elem].
      by intros ->.
    + intros i x' (x & Hx & ->)%Hback Hr. destruct (Z.eq_dec i n) as [->|Hin].
      { destruct (decided_keeps now c n (r_esp (the_cpu s) -w 28) n x) as (_ & _ & _ & Est).
        rewrite Z.eqb_refl in Est. congruence. }
      destruct (decided_ready _ _ _ _ _ _ _ _ Hc Hx Hin Hr); [left; by apply elem_tail|by right].
  - intros x' (x & Hx & ->)%Hback. left.
    destruct (decided_keeps now c n (r_esp (the_cpu s) -w 28) n x) as (_ & _ & _ & ->).
    by rewrite Z.eqb_refl.
  - intros i x' (x & Hx & ->)%Hback.
    destruct (decided_keeps now c n (r_esp (the_cpu s) -w 28) i x) as (_ & _ & _ & ->).
    destruct (Z.eqb_spec i n) as [|_]; [done|]. destruct (due now x); [done|].
    intros Hr. by destruct (Hnr i x Hx).
Qed.

(** A decision changes the rest of the kernel at most by a switch of address space. *)
Lemma scheduled_env s c now q1 s' :
  scheduled s c now q1 s' → is_Some (look (process_table s) c) →
  is_Some (look (process_table s) (hd 0 q1)) → ks_inv (env s) →
  (∀ x, look (process_table s) (hd 0 q1) = Some x → ks_ok_space (env s) (page_directory x)) →
  ks_inv (env s') ∧ (∀ p, ks_owns (env s) p → ks_owns (env s') p) ∧
  ∀ D, ks_ok_space (env s) D → ks_ok_space (env s') D.
Proof.
  intros Hsch [x Hx] [y Hy] He Hsp. destruct (Z.eq_dec (hd 0 q1) c) as [Ec|Hne].
  { destruct (sc_same _ _ _ _ _ Hsch Ec) as (-> & _). auto. }
  destruct (sc_switch _ _ _ _ _ Hsch x y Hne Hx Hy) as (_ & _ & Hsw).
  destruct (page_directory x =? page_directory y); [rewrite Hsw; auto|].
  pose proof (ks_switch_ok (env s) (page_directory y) He (Hsp y Hy)) as Hok.
  unfold wp in Hok. by rewrite Hsw in Hok.
Qed.

Lemma slot_look s q i : queue_ok s q → is_slot i → is_Some (look (process_table s) i).
Proof. intros Hq Hi. destruct (slot_get s q i Hq Hi) as [x Hx]. by rewrite (look_get _ _ _ Hx). Qed.

(** One decision, from the middle of any operation. *)
Lemma wp_schedule_inv s q c (Q : unit → sched E → Prop) :
  sched_mid s q c →
  (∀ now s', ks_ticks (env s) = Ret now (env s) → is_u32 now →
     let q1 := q ++ woken (process_table s) now in
     scheduled s c now q1 s' → sched_inv s' (tail q1) (hd 0 q1) → Q tt s') →
  wp schedule s Q.
Proof.
  intros Hm HQ. destruct Hm as (Hc & Hcur & Hcs & Hnr).
  destruct (ks_ticks_ok (env s) (si_env _ _ Hc)) as (now & Htick & Hnow).
  apply (wp_schedule s q c now); [apply Hc|done|done|by apply ready_not_sleeping|done|].
  assert (Hpick : ∀ x, look (process_table s) (hd 0 (q ++ woken (process_table s) now)) = Some x →
    ks_ok_space (env s) (page_directory x)).
  { intros x Hx. eapply si_space; [done|exact Hx|]. by apply (picked s q now) in Hx as []. }
  split.
  { intros x Hx. eapply wp_mono; [by apply ks_switch_ok; [apply Hc|apply Hpick]|done]. }
  intros s' Hsch. apply (HQ now s' Htick Hnow Hsch).
  pose proof (si_queue _ _ Hc) as Hq.
  destruct (scheduled_env s c now _ s' Hsch) as (He & Hown & Hsp);
    [by apply (slot_look s q)|by apply (slot_look s q), picked_slot|apply Hc|done|].
  by apply scheduled_inv with (c := c).
Qed.

(** The running process gives up the processor: its slot [x] becomes [y], which is ready
    and at the end of the queue, or is in no queue. *)
Lemma mid_of_inv s q c x y s1 q1 :
  sched_inv s q c → look (process_table s) c = Some x →
  queue_ok s1 q1 → current_process s1 = Some c → ks_inv (env s1) →
  (∀ j z, j ≠ c ∨ live y → look (process_table s1) j = Some z → j ≠ 0 → live z →
     ks_owns (env s) (kernel_stack z - KERNEL_STACK_SIZE) →
     ks_owns (env s1) (kernel_stack z - KERNEL_STACK_SIZE)) →
  (∀ D, ks_ok_space (env s) D → ks_ok_space (env s1) D) →
  (∀ j, look (process_table s1) j = if c =? j then Some y else look (process_table s) j) →
  page_directory y = page_directory x → kernel_stack y = kernel_stack x → pid y = pid x →
  state y ≠ PROCESS_STATE_UNUSED → state y ≠ PROCESS_STATE_RUNNING → (c = 0 → live y) →
  (state y = PROCESS_STATE_READY ∧ (q1 = q ++ [c] ∨ q1 = q ∧ c = 0) ∨
   state y ≠ PROCESS_STATE_READY ∧ q1 = q) →
  sched_mid s1 q1 c.
Proof.
  intros (Hc & _ & Hcs & Hcq & Hcur & Hrun) Hx Hq1 Hcur1 He Hown Hsp Hl Epd Eks Epid Hu Hr Hl0 Hq.
  assert (Hxl : live x) by (destruct (Hcur x Hx) as [E0|[_ E0]]; unfold live; by rewrite E0).
  split_and!; [|done|done|].
  - apply (core_step s q); [done|done|done| |done|..].
    + intros i z Hz Hi Hlz. apply (Hown i); [|done..]. rewrite Hl in Hz.
      destruct (Z.eqb_spec c i) as [->|]; [right; by injection Hz as <-|left; congruence].
    + intros i z Hz. rewrite Hl in Hz. destruct (Z.eqb_spec c i) as [->|].
      * injection Hz as <-. exists x. destruct Hxl. split_and!; try done.
      * exists z. split_and!; try done. intros ->. apply (si_idle _ _ Hc z Hz).
    + intros i z Hi Hz. rewrite Hl in Hz. destruct (Z.eqb_spec c i) as [<-|].
      * injection Hz as <-. destruct Hq as [[? _]|[_ ->]]; done.
      * eapply (si_ready _ _ Hc); [|exact Hz].
        destruct Hq as [ [_ [ -> | [-> _] ] ] | [_ ->] ]; [|done|done].
        by apply elem_of_app in Hi as [? | ->%list_elem_of_singleton]; [done|].
    + intros i z Hz Hrd. rewrite Hl in Hz. destruct (Z.eqb_spec c i) as [<-|].
      * injection Hz as <-. destruct Hq as [ [_ [ -> | [_ ->] ] ] | [] ]; [left; set_solver|by right|done].
      * destruct (si_complete _ _ Hc i z Hz Hrd) as [|]; [left|by right].
        destruct Hq as [ [_ [ -> | [-> _] ] ] | [_ ->] ]; [apply elem_of_app; by left|done|done].
  - intros i z Hz. rewrite Hl in Hz. destruct (Z.eqb_spec c i) as [<-|]; [by injection Hz as <-|].
    intros E0. by destruct (Hrun i z Hz E0).
Qed.

Lemma look_upd_with s p x y :
  arr_get (process_table s) p = Some x →
  ∀ j, look (arr_set (process_table s) p y) j =
    if p =? j then Some (with_next_proc None y) else look (process_table s) j.
Proof. intros Hx j. apply look_set. by apply arr_get_Some_range in Hx. Qed.

Lemma wp_process_yield s q c x (Q : unit → sched E → Prop) :
  sched_inv s q c → look (process_table s) c = Some x →
  (∀ now s1 s', ks_ticks (env s) = Ret now (env s) → is_u32 now →
     sched_mid s1 (yield_queue q c x) c →
     (∀ j, look (process_table s1) j =
        if c =? j then Some (with_state PROCESS_STATE_READY x) else look (process_table s) j) →
     env s1 = env s → the_cpu s1 = the_cpu s → stack_mem s1 = stack_mem s →
     let q1 := yield_queue q c x ++ woken (process_table s1) now in
     scheduled s1 c now q1 s' → sched_inv s' (tail q1) (hd 0 q1) → Q tt s') →
  wp process_yield s Q.
Proof.
  intros Hi Hx HQ. pose proof Hi as (Hc & Hcur & Hcs & Hcq & Hst & _).
  apply look_some in Hx as (x0 & Hx0 & Ex).
  assert (Hx : look (process_table s) c = Some x) by (rewrite Ex; by apply look_get).
  pose proof (look_upd_with s c x0) as Hlk.
  assert (Est : state x0 = state x) by by rewrite Ex.
  unfold process_yield. wp_step. wp_step. wp_step. rewrite Hcur. wp_step.
  eapply wp_proc_at; [exact Hx0|]. rewrite Est. unfold yield_queue in HQ. case_bool_decide as Hrun.
  - cbn [when]. wp_step. eapply wp_upd; [exact Hx0|].
    pose proof (queue_set s q c x0 (with_state PROCESS_STATE_READY x0) _ (si_queue _ _ Hc) Hx0 eq_refl eq_refl
      (set_table (arr_set (process_table s) c (with_state PROCESS_STATE_READY x0)) s) eq_refl eq_refl eq_refl) as Hq1.
    apply wp_scheduler_add with q; [done|done|done|].
    intros t' s1 Hq2 Hl2. cbn [process_table set_table] in Hl2.
    assert (Hl : ∀ j, look (process_table s1) j =
      if c =? j then Some (with_state PROCESS_STATE_READY x) else look (process_table s) j).
    { intros j. cbn. rewrite Hl2, (Hlk _ Hx0), Ex. by destruct (c =? j). }
    assert (Hm : sched_mid s1 (q ++ [c]) c).
    { apply (mid_of_inv s q c x (with_state PROCESS_STATE_READY x)); try done; [apply Hc|auto]. }
    apply (wp_schedule_inv s1 (q ++ [c]) c); [done|]. intros now s' Ht Hn q1' Hs Hi'.
    by apply (HQ now s1 s' Ht Hn Hm Hl).
  - destruct (Hst x Hx) as [|[-> Hready]]; [done|].
    assert (Hl : ∀ j, look (process_table s) j =
      if 0 =? j then Some (with_state PROCESS_STATE_READY x) else look (process_table s) j).
    { intros j. destruct (Z.eqb_spec 0 j) as [<-|]; [|done]. rewrite Hx. f_equal.
      destruct x; cbn in *. by rewrite Hready. }
    assert (Hm : sched_mid s q 0).
    { apply (mid_of_inv s q 0 x (with_state PROCESS_STATE_READY x)); try done; [apply Hc|apply Hc|].
      left. auto. }
    cbn [when]. wp_step. apply (wp_schedule_inv s q 0); [done|]. intros now s' Ht Hn q1' Hs Hi'.
    by apply (HQ now s s' Ht Hn Hm Hl).
Qed.

Lemma wp_process_sleep s q c x ms (Q : unit → sched E → Prop) :
  sched_inv s q c → look (process_table s) c = Some x →
  (∀ now s1 s', ks_ticks (env s) = Ret now (env s) → is_u32 now → sched_mid s1 q c →
     (∀ j, look (process_table s1) j =
        if c =? j then Some (with_state PROCESS_STATE_SLEEPING
          (with_sleep_until (now +w sleep_ticks ms) x)) else look (process_table s) j) →
     env s1 = env s →
     let q1 := q ++ woken (process_table s1) now in
     scheduled s1 c now q1 s' → sched_inv s' (tail q1) (hd 0 q1) → Q tt s') →
  wp (process_sleep ms) s Q.
Proof.
  intros Hi Hx HQ. pose proof Hi as (Hc & Hcur & Hcs & Hcq & Hst & _).
  apply look_some in Hx as (x0 & Hx0 & Ex).
  assert (Hx : look (process_table s) c = Some x) by (rewrite Ex; by apply look_get).
  destruct (ks_ticks_ok (env s) (si_env _ _ Hc)) as (now & Htick & Hnow).
  unfold process_sleep. wp_step. wp_step. rewrite Hcur. wp_step. apply wp_service.
  unfold wp at 1. rewrite Htick, set_env_id. wp_step. eapply wp_upd; [exact Hx0|].
  wp_step. pose proof (arr_get_Some_range _ _ _ Hx0) as Hr.
  eapply wp_upd; [cbn; by apply arr_get_set_eq|].
  cbn [process_table set_table]. rewrite arr_set_set.
  set (y := with_state PROCESS_STATE_SLEEPING (with_sleep_until (now +w sleep_ticks ms) x0)).
  set (s1 := set_table (arr_set (process_table s) c y) s).
  change (wp schedule s1 Q).
  assert (Hl : ∀ j, look (process_table s1) j =
    if c =? j then Some (with_state PROCESS_STATE_SLEEPING
      (with_sleep_until (now +w sleep_ticks ms) x)) else look (process_table s) j).
  { intros j. cbn. rewrite (look_upd_with s c x0) by done. by rewrite Ex. }
  assert (Hm : sched_mid s1 q c).
  { apply (mid_of_inv s q c x (with_state PROCESS_STATE_SLEEPING
      (with_sleep_until (now +w sleep_ticks ms) x))); try done; [|apply Hc|by right].
    by apply (queue_set s q c x0 y _ (si_queue _ _ Hc) Hx0 eq_refl eq_refl). }
  apply (wp_schedule_inv s1 q c); [done|]. intros now' s' Ht Hn q1' Hs Hi'.
  change (env s1) with (env s) in Ht. rewrite Htick in Ht. injection Ht as <-.
  by apply (HQ now s1 s' Htick Hn Hm Hl).
Qed.

Lemma wp_process_exit s q c x code (Q : unit → sched E → Prop) :
  sched_inv s q c → look (process_table s) c = Some x → pid x ≠ 0 →
  (∀ now s1 s', is_u32 now → sched_mid s1 q c →
     (∀ j, look (process_table s1) j =
        if c =? j then Some (with_state PROCESS_STATE_TERMINATED (with_exit_code code x))
        else look (process_table s) j) →
     ks_kfree (kernel_stack x - KERNEL_STACK_SIZE) (env s) = Ret tt (env s1) →
     let q1 := q ++ woken (process_table s1) now in
     scheduled s1 c now q1 s' → sched_inv s' (tail q1) (hd 0 q1) → Q tt s') →
  wp (process_exit code) s Q.
Proof.
  intros Hi Hx Hpid HQ. pose proof Hi as (Hc & Hcur & Hcs & Hcq & Hst & _).
  apply look_some in Hx as (x0 & Hx0 & Ex).
  assert (Hx : look (process_table s) c = Some x) by (rewrite Ex; by apply look_get).
  assert (Hc0 : c ≠ 0) by (intros ->; by destruct (si_idle _ _ Hc x Hx)).
  assert (Hlx : live x) by (destruct (Hst x Hx) as [E0|[_ E0]]; unfold live; by rewrite E0).
  pose proof (si_stack _ _ Hc c x Hx Hc0 Hlx) as Hown.
  pose proof (ks_owns_u32 _ _ (si_env _ _ Hc) Hown) as Hu32.
  destruct (wp_ex _ _ _ (ks_kfree_ok _ _ (si_env _ _ Hc) Hown)) as ([] & e1 & Efree & He1 & Hkeep & Hsp).
  unfold process_exit. wp_step. wp_step. rewrite Hcur. wp_step. eapply wp_proc_at; [exact Hx0|].
  replace (pid x0) with (pid x) by (by rewrite Ex). replace (kernel_stack x0) with (kernel_stack x) by (by rewrite Ex).
  rewrite (w32_small (kernel_stack x - KERNEL_STACK_SIZE)) by (unfold is_u32; lia).
  destruct (Z.eqb_spec (pid x) 0) as [|_]; [done|]. pose proof (arr_get_Some_range _ _ _ Hx0) as Hr.
  wp_step. eapply wp_upd; [exact Hx0|]. wp_step. eapply wp_upd; [cbn; by apply arr_get_set_eq|].
  cbn [process_table set_table]. rewrite arr_set_set. wp_step. apply wp_service.
  unfold wp at 1. cbn [env set_table]. rewrite Efree.
  set (y := with_state PROCESS_STATE_TERMINATED (with_exit_code code x0)).
  set (s1 := set_env e1 (set_table (arr_set (process_table s) c y) s)).
  change (wp schedule s1 Q).
  assert (Hl : ∀ j, look (process_table s1) j =
    if c =? j then Some (with_state PROCESS_STATE_TERMINATED (with_exit_code code x))
    else look (process_table s) j).
  { intros j. cbn. rewrite (look_upd_with s c x0) by done. by rewrite Ex. }
  assert (Hm : sched_mid s1 q c).
  { apply (mid_of_inv s q c x (with_state PROCESS_STATE_TERMINATED (with_exit_code code x))); try done; [..|by right].
    - by apply (queue_set s q c x0 y _ (si_queue _ _ Hc) Hx0 eq_refl eq_refl).
    - intros j z [Hj|[_ ?]] Hz Hj0 Hlz Ho; [|done]. apply Hkeep; [|done].
      rewrite Hl in Hz. destruct (Z.eqb_spec c j) as [|_]; [congruence|].
      intros E0. apply (si_stacks _ _ Hc j c z x); try done. lia. }
  apply (wp_schedule_inv s1 q c); [done|]. intros now s' Ht Hn q1' Hs Hi'.
  by apply (HQ now s1 s' Hn Hm Hl Efree).
Qed.

(** A free slot is filled, or stays free. *)
Lemma inv_of_slot s q c p x y s' q' :
  sched_inv s q c → p ≠ 0 → look (process_table s) p = Some x → state x = PROCESS_STATE_UNUSED →
  queue_ok s' q' → current_process s' = Some c → ks_inv (env s') →
  (∀ a, ks_owns (env s) a → ks_owns (env s') a) →
  (∀ D, ks_ok_space (env s) D → ks_ok_space (env s') D) →
  (∀ j, look (process_table s') j = if p =? j then Some y else look (process_table s) j) →
  (state y = PROCESS_STATE_UNUSED ∧ kernel_stack y = 0 ∧ q' = q ∨
   state y = PROCESS_STATE_READY ∧ q' = q ++ [p] ∧ ks_ok_space (env s') (page_directory y) ∧
   ks_owns (env s') (kernel_stack y - KERNEL_STACK_SIZE) ∧
   ∀ j z, look (process_table s) j = Some z → j ≠ 0 → live z → kernel_stack z ≠ kernel_stack y) →
  sched_inv s' q' c.
Proof.
  intros (Hc & _ & Hcs & Hcq & Hcur & Hrun) Hp Hx Hux Hq' Hcur' He Hown Hsp Hl Hy.
  assert (Hpc : p ≠ c).
  { intros ->. destruct (Hcur x Hx) as [E0|[_ E0]]; congruence. }
  assert (Hpq : p ∉ q) by (intros Hin; pose proof (si_ready _ _ Hc p x Hin Hx); congruence).
  assert (Hyl : live y → state y = PROCESS_STATE_READY) by (unfold live; naive_solver).
  split_and!; [|done|done| | |].
  - split; try done.
    + intros i z Hi Hz. rewrite Hl in Hz. destruct (Z.eqb_spec p i) as [<-|].
      * injection Hz as <-. destruct Hy as [(_ & _ & ->)|(? & _)]; done.
      * eapply (si_ready _ _ Hc); [|exact Hz]. destruct Hy as [(_ & _ & ->)|(_ & -> & _)]; [done|].
        by apply elem_of_app in Hi as [? | ->%list_elem_of_singleton].
    + intros i z Hz Hr. rewrite Hl in Hz. destruct (Z.eqb_spec p i) as [<-|].
      * injection Hz as <-. destruct Hy as [(E0 & _)|(_ & -> & _)]; [congruence|left; set_solver].
      * destruct (si_complete _ _ Hc i z Hz Hr) as [|]; [left|by right].
        destruct Hy as [(_ & _ & ->)|(_ & -> & _)]; [done|apply elem_of_app; by left].
    + intros i z Hz Hu. rewrite Hl in Hz. destruct (Z.eqb_spec p i) as [<-|].
      * injection Hz as <-. destruct Hy as [(? & _)|(_ & _ & ? & _)]; done.
      * by apply Hsp, (si_space _ _ Hc i).
    + intros i z Hz Hi Hlz. rewrite Hl in Hz. destruct (Z.eqb_spec p i) as [<-|].
      * injection Hz as <-. destruct Hy as [(E0 & _)|(_ & _ & _ & ? & _)]; [by destruct Hlz|done].
      * by apply Hown, (si_stack _ _ Hc i).
    + assert (Hdiff : ∀ j z, look (process_table s) j = Some z → j ≠ 0 → live z → live y →
        kernel_stack z ≠ kernel_stack y).
      { intros j z Hz Hj Hlz Hly. destruct Hy as [(E0 & _)|(_ & _ & _ & _ & Hd)]; [by destruct Hly|eauto]. }
      intros i j z w Hz Hw Hi Hj Hij Hlz Hlw. rewrite Hl in Hz, Hw.
      destruct (Z.eqb_spec p i) as [<-|], (Z.eqb_spec p j) as [<-|]; simplify_eq.
      * intros E0. by apply (Hdiff j w).
      * by apply (Hdiff i z).
      * by apply (si_stacks _ _ Hc i j).
    + intros i z Hz Hi Hu. rewrite Hl in Hz. destruct (Z.eqb_spec p i) as [<-|].
      * injection Hz as <-. destruct Hy as [(_ & ? & _)|(E0 & _)]; [done|congruence].
      * by apply (si_unused _ _ Hc i).
    + intros z Hz. rewrite Hl in Hz. destruct (Z.eqb_spec p 0); [done|]. by apply (si_idle _ _ Hc).
  - destruct Hy as [(_ & _ & ->)|(_ & -> & _)]; set_solver.
  - intros z Hz. rewrite Hl in Hz. destruct (Z.eqb_spec p c); [done|]. by apply Hcur.
  - intros i z Hz Hr. rewrite Hl in Hz. destruct (Z.eqb_spec p i) as [<-|]; [|by apply (Hrun i z)].
    injection Hz as <-. destruct Hy as [(E0 & _)|(E0 & _)]; congruence.
Qed.

Lemma wp_find_free_slot s q (Q : option Z → sched E → Prop) :
  queue_ok s q →
  (∀ p x, 1 ≤ p < MAX_PROCESSES → arr_get (process_table s) p = Some x →
     state x = PROCESS_STATE_UNUSED →
     (∀ j, 1 ≤ j < p → ~ unused (process_table s) j) → Q (Some p) s) →
  ((∀ j, 1 ≤ j < MAX_PROCESSES → ~ unused (process_table s) j) → Q None s) →
  wp find_free_slot s Q.
Proof.
  intros Hq Hsome Hnone. pose proof (qo_len _ _ Hq) as Hlen. unfold find_free_slot.
  change (trips 1 MAX_PROCESSES) with 255%nat.
  apply wp_for_ret with (λ i s', s' = s ∧ ∀ j, 1 ≤ j < i → ~ unused (process_table s) j).
  - split; [done|]. intros j Hj. lia.
  - intros i s' Hi [-> Hno]. destruct (arr_get_lt (process_table s) i) as [x Hx].
    { unfold MAX_PROCESSES in Hlen. lia. }
    wp_step. eapply wp_proc_at; [exact Hx|]. wp_step. case_bool_decide as Hu.
    + apply (Hsome i x); [unfold MAX_PROCESSES; lia|done..].
    + split; [done|]. intros j Hj (y & Hy & Huy). destruct (Z.eq_dec j i) as [->|].
      * rewrite (look_get _ _ _ Hx) in Hy. by injection Hy as <-.
      * apply (Hno j); [lia|]. by exists y.
  - intros s' [-> Hno]. apply Hnone. intros j Hj. apply Hno. unfold MAX_PROCESSES in Hj. lia.
Qed.

Lemma queue_outside s q p x y s' :
  queue_ok s q → arr_get (process_table s) p = Some x → p ∉ q →
  process_table s' = arr_set (process_table s) p y →
  ready_queue_head s' = ready_queue_head s → ready_queue_tail s' = ready_queue_tail s →
  queue_ok s' q.
Proof.
  intros [Hlen Hh Ht Hc Hnd] Hx Hp Es' Eh Et. pose proof (arr_get_Some_range _ _ _ Hx).
  split; rewrite ?Es', ?Eh, ?Et, ?length_arr_set; try done.
  eapply chain_agree; [|exact Hc]. intros i Hi. rewrite link_set by lia.
  by destruct (Z.eqb_spec p i) as [->|].
Qed.

(** The first part of [process_create]: the slot is taken and the address space asked for. *)
Lemma wp_create_slot s p x (Q : option Z → sched E → Prop) (k : Z → M (sched E) (option Z)) :
  arr_get (process_table s) p = Some x →
  wp ks_clone_pd (env s) (λ D e, wp (k D) (mkSched
      (arr_set (process_table s) p (with_page_directory D (created (next_pid s) (current_process s) x)))
      (current_process s) (ready_queue_head s) (ready_queue_tail s) (next_pid s +w 1)
      (stack_mem s) (the_cpu s) e) Q) →
  wp (n ← gets next_pid;
      upd p (with_pid n);;
      modify (set_next_pid (n +w 1));;
      upd p (with_state PROCESS_STATE_CREATED);;
      cur ← gets current_process;
      upd p (with_parent cur);;
      upd p (with_next_proc None);;
      upd p (with_exit_code 0);;
      upd p (with_sleep_until 0);;
      D ← service ks_clone_pd;
      upd p (with_page_directory D);;
      k D) s Q.
Proof.
  intros Hx Hk. pose proof (arr_get_Some_range _ _ _ Hx) as Hr. do 2 wp_step.
  upd_again Hr. do 2 wp_step. upd_again Hr. do 2 wp_step. do 4 upd_again Hr.
  wp_step. apply wp_service. cbn [env set_table set_next_pid]. eapply wp_mono; [exact Hk|].
  intros D e Hq. cbv beta in Hq |- *. upd_again Hr. exact Hq.
Qed.

(** The second part, once there is an address space. *)
Lemma wp_create_finish s q p y nm entry (Q : option Z → sched E → Prop) :
  queue_ok s q → is_slot p → p ∉ q → arr_get (process_table s) p = Some y →
  (∀ stk e', ks_kmalloc KERNEL_STACK_SIZE (env s) = Ret stk e' →
     (stk = 0 → Q None (set_env e' (set_table (arr_set (process_table s) p
        (with_state PROCESS_STATE_UNUSED (with_kernel_stack 0 y))) s))) ∧
     (stk ≠ 0 → ∀ t', let top := stk +w KERNEL_STACK_SIZE in
        let s' := set_queue (head (q ++ [p])) (Some p) (set_stack (first_frame top entry (stack_mem s))
                    (set_env e' (set_table t' s))) in
        queue_ok s' (q ++ [p]) →
        (∀ j, look t' j = if p =? j then Some (with_next_proc None (with_state PROCESS_STATE_READY
            (with_name (copy_name 31 0 nm (name y)) (with_esp (top -w 28) (with_kernel_stack top y)))))
          else look (process_table s) j) →
        Q (Some p) s')) →
  wp (ks_kmalloc KERNEL_STACK_SIZE) (env s) (λ _ _, True) →
  wp (stk ← service (ks_kmalloc KERNEL_STACK_SIZE);
      upd p (with_kernel_stack stk);;
      if stk =? 0 then
        upd p (with_state PROCESS_STATE_UNUSED);;
        ret None
      else
      let top := stk +w KERNEL_STACK_SIZE in
      upd p (with_kernel_stack top);;
      build_stack top entry;;
      upd p (with_esp (top -w 28));;
      upd p (λ x, with_name (copy_name 31 0 nm (name x)) x);;
      upd p (with_state PROCESS_STATE_READY);;
      scheduler_add (Some p);;
      ret (Some p)) s Q.
Proof.
  intros Hq Hp Hpq Hy HQ Hok. pose proof (arr_get_Some_range _ _ _ Hy) as Hr.
  destruct (wp_ex _ _ _ Hok) as (stk & e' & Ek & _). destruct (HQ stk e' Ek) as [HQ0 HQ1].
  wp_step. apply wp_service. unfold wp at 1. rewrite Ek. upd_again Hr.
  destruct (Z.eqb_spec stk 0) as [->|Hstk].
  { upd_again Hr. by apply HQ0. }
  cbv zeta. upd_again Hr. wp_step. unfold build_stack, push_word. wp_steps.
  cbn [stack_mem set_stack set_table set_env]. do 3 upd_again Hr. wp_step.
  apply wp_scheduler_add with q; [|done|done|].
  { eapply (queue_outside s q p); [done|exact Hy|done|done|done|done]. }
  intros t' s' Hq' Hl'. wp_step. apply (HQ1 Hstk t'); [done|].
  intros j. rewrite Hl'. cbn [process_table set_table set_stack set_env]. by rewrite look_set by lia.
Qed.

Lemma wp_process_create s q c nm entry (Q : option Z → sched E → Prop) :
  sched_inv s q c → ks_room (env s) →
  (∀ s', create_fails s → sched_inv s' q c →
     (∀ j, ~ unused (process_table s) j → look (process_table s') j = look (process_table s) j) →
     Q None s') →
  (∀ p x D stk s', is_slot p → p ≠ 0 → look (process_table s) p = Some x →
     state x = PROCESS_STATE_UNUSED → (∀ j, 1 ≤ j < p → ~ unused (process_table s) j) →
     0 < stk → stk + KERNEL_STACK_SIZE < 4294967296 →
     stack_mem s' = first_frame (stk + KERNEL_STACK_SIZE) entry (stack_mem s) →
     next_pid s' = next_pid s +w 1 →
     (∀ j, look (process_table s') j = if p =? j then
        Some (completed nm (stk + KERNEL_STACK_SIZE) D (next_pid s) (Some c) x)
        else look (process_table s) j) →
     sched_inv s' (q ++ [p]) c → Q (Some p) s') →
  wp (process_create nm entry) s Q.
Proof.
  intros Hi Hroom Hfail Hok. pose proof Hi as (Hc & Hcur & _). pose proof (si_queue _ _ Hc) as Hq.
  unfold process_create. wp_step. apply (wp_find_free_slot s q); [done| |].
  2:{ intros Hno. wp_step. apply Hfail; [by left|done|done]. }
  intros p x0 Hp Hx0 Hu Hfirst. pose proof (look_get _ _ _ Hx0) as Hx.
  set (x := with_next_proc None x0) in *. pose proof (arr_get_Some_range _ _ _ Hx0) as Hr.
  assert (Hpq : p ∉ q) by (intros Hin; pose proof (si_ready _ _ Hc p x Hin Hx); cbn in *; congruence).
  assert (Hks : kernel_stack x0 = 0) by (apply (si_unused _ _ Hc p x Hx); [lia|done]).
  apply (wp_create_slot s p x0 Q); [done|].
  destruct (wp_ex _ _ _ (ks_clone_ok (env s) (si_env _ _ Hc))) as (D & e1 & Ecl & He1 & HD & Hown1 & Hroom1 & Hsp1).
  unfold wp at 1. rewrite Ecl.
  set (y := with_page_directory D (created (next_pid s) (current_process s) x0)).
  set (s1 := mkSched _ _ _ _ _ _ _ e1).
  assert (Hq1 : queue_ok s1 q) by by eapply (queue_outside s q p x0 y).
  assert (Hgone : ∀ s' z, state z = PROCESS_STATE_UNUSED → kernel_stack z = 0 → queue_ok s' q →
    current_process s' = Some c → ks_inv (env s') →
    (∀ a, ks_owns (env s) a → ks_owns (env s') a) → (∀ D, ks_ok_space (env s) D → ks_ok_space (env s') D) →
    (∀ j, look (process_table s') j = if p =? j then Some z else look (process_table s) j) →
    create_fails s → Q None s').
  { intros s' z Hz1 Hz2 Hq' Hcur' He' Ho' Hs' Hl' Hcf. apply Hfail; [done| |].
    - apply (inv_of_slot s q c p x z s' q Hi); try done; [lia|]. by left.
    - intros j Hj. rewrite Hl'. destruct (Z.eqb_spec p j) as [->|]; [|done]. destruct Hj. by exists x. }
  destruct (Z.eqb_spec D 0) as [->|HD0].
  - wp_step. eapply wp_proc_at; [cbn; by apply arr_get_set_eq|].
    change (kernel_stack y) with (kernel_stack x0). rewrite Hks. change (0 -w KERNEL_STACK_SIZE) with 4294963200. wp_step. apply wp_service. unfold wp at 1.
    change (env s1) with e1. rewrite (ks_kfree_high e1 He1). upd_again Hr. wp_step.
    apply (Hgone _ (with_next_proc None (with_state PROCESS_STATE_UNUSED y))); try done.
    + eapply (queue_outside s1 q p y); [done|by apply arr_get_set_eq|done|done|done|done].
    + intros j. cbn. rewrite arr_set_set. by rewrite look_set.
    + right. left. by exists e1.
  - destruct HD as [|HD]; [done|].
    pose proof (ks_kmalloc_ok e1 KERNEL_STACK_SIZE He1 (Hroom1 Hroom) ltac:(done)) as Hk.
    apply (wp_create_finish s1 q p y); [done|unfold is_slot; lia|done|by apply arr_get_set_eq| |by eapply wp_mono].
    intros stk e2 Ek. change (env s1) with e1 in Ek. unfold wp in Hk. rewrite Ek in Hk. destruct Hk as (He2 & Hstk & Hown2 & Hsp2). split.
    + intros ->. apply (Hgone _ (with_next_proc None (with_state PROCESS_STATE_UNUSED (with_kernel_stack 0 y)))); try done.
      * eapply (queue_outside s1 q p y); [done|by apply arr_get_set_eq|done|done|done|done].
      * intros a Ha. by apply Hown2, Hown1.
      * auto.
      * intros j. cbn. rewrite arr_set_set. by rewrite look_set.
      * right. right. by exists D, e1, e2.
    + intros Hstk0 t' top s' Hq' Hl'. destruct Hstk as [|[Hs1 Hs2]]; [done|].
      pose proof (ks_owns_u32 e2 stk He2 Hs1) as Hs3.
      assert (Etop : top = stk + KERNEL_STACK_SIZE) by (apply w32_small; unfold is_u32, KERNEL_STACK_SIZE in *; lia).
      assert (Hl : ∀ j, look (process_table s') j = if p =? j then
        Some (completed nm (stk + KERNEL_STACK_SIZE) D (next_pid s) (Some c) x) else look (process_table s) j).
      { intros j. cbn. rewrite Hl', Etop. cbn. rewrite look_set by done. destruct (p =? j); [|done].
        unfold completed, created. by rewrite <- Hcur. }
      apply (Hok p x D stk s'); try done; [unfold is_slot; lia|lia|lia|by rewrite <- Etop|].
      apply (inv_of_slot s q c p x (completed nm (stk + KERNEL_STACK_SIZE) D (next_pid s) (Some c) x)
        s' (q ++ [p]) Hi ltac:(lia) Hx Hu Hq' Hcur He2); [| |exact Hl|].
      * intros a Ha. by apply Hown2, Hown1.
      * auto.
      * right. split_and!; [done|done|by apply Hsp2|cbn; by replace (stk + _ - _) with stk by lia|].
        intros j z Hz Hj Hlz E0. cbn in E0. apply (si_stack _ _ Hc j z Hz Hj), Hown1, Hown2 in Hlz as [_ Hne].
        apply Hne. lia.
Qed.

End invariant.

(** ** Removal from the queue *)

Section remove.
Context {E : Type} `{KernelServices E} `{CodeAddresses}.
Implicit Types s : sched E.

Lemma wp_remove_walk fuel s p prev r (Q : Z → sched E → Prop) :
  chain (process_table s) (prev :: r) → (length r < fuel)%nat → prev ≠ p →
  (∀ l m r2, prev :: r = l ++ m :: p :: r2 → Q m s) →
  (p ∉ r → ∀ m, last (prev :: r) = Some m → Q m s) →
  wp (remove_walk fuel p prev) s Q.
Proof.
  revert fuel prev. induction r as [|n r IH]; intros [|fuel] prev Hc Hf Hne Hyes Hno;
    cbn in Hf; try lia; cbn [remove_walk]; destruct Hc as [Hl Hc]; cbn in Hl;
    unfold link in Hl; apply fmap_Some in Hl as (x & Hx & Enx); wp_step;
    (eapply wp_proc_at; [exact Hx|]); rewrite <- Enx.
  - wp_step. apply Hno; [set_solver|done].
  - destruct (Z.eqb_spec n p) as [->|Hnp]; [wp_step; by apply (Hyes [] prev r)|].
    apply IH; [done|lia|done| |].
    + intros l m r2 E0. apply (Hyes (prev :: l) m r2). cbn. by rewrite E0.
    + intros Hp m Hm. apply Hno; [set_solver|]. by rewrite <- Hm.
Qed.

Lemma chain_remove t l m p r2 x y :
  chain t (l ++ m :: p :: r2) → NoDup (l ++ m :: p :: r2) →
  arr_get t m = Some x → arr_get t p = Some y →
  chain (arr_set (arr_set t m (with_next_proc (next y) x)) p (with_next_proc None y)) (l ++ m :: r2).
Proof.
  intros Hc Hnd Hx Hy. pose proof (arr_get_Some_range _ _ _ Hx). pose proof (arr_get_Some_range _ _ _ Hy).
  apply chain_app in Hc as (Hl & Hm & Hp & Hr). rewrite (link_get _ _ _ Hy) in Hp. injection Hp as Hp.
  apply NoDup_app in Hnd as (Hndl & Hndm & Hnd).
  apply NoDup_cons in Hnd as [Hm1 Hnd]. apply NoDup_cons in Hnd as [Hp1 Hnd].
  assert (Hlk : ∀ i, i ≠ m → i ≠ p →
    link (arr_set (arr_set t m (with_next_proc (next y) x)) p (with_next_proc None y)) i = link t i).
  { intros i Him Hip. rewrite !link_set by (rewrite ?length_arr_set; lia).
    destruct (Z.eqb_spec p i), (Z.eqb_spec m i); congruence. }
  apply chain_app. split.
  - intros q1 i q2 El. rewrite Hlk; [|set_solver..]. rewrite (Hl q1 i q2 El). by destruct q2.
  - cbn. split.
    + rewrite !link_set by (rewrite ?length_arr_set; lia). rewrite Z.eqb_refl.
      destruct (Z.eqb_spec p m) as [->|]; [set_solver|]. cbn. by rewrite Hp.
    + eapply chain_agree; [|exact Hr]. intros i Hi. apply Hlk; set_solver.
Qed.

Lemma filter_ne_id (q : list Z) p : p ∉ q → filter (λ i, i ≠ p) q = q.
Proof.
  intros Hp. induction q as [|i q IH]; [done|]. apply not_elem_of_cons in Hp as [Hi Hp].
  rewrite filter_cons, decide_True by congruence. by rewrite IH.
Qed.

Lemma filter_ne_mid (l r : list Z) p :
  NoDup (l ++ p :: r) → filter (λ i, i ≠ p) (l ++ p :: r) = l ++ r.
Proof.
  intros (Hl & Hlp & Hr)%NoDup_app. apply NoDup_cons in Hr as [Hp Hr].
  rewrite filter_app, filter_cons, decide_False by naive_solver.
  rewrite !filter_ne_id; [done|done|]. intros Hin. apply (Hlp p Hin). by left.
Qed.

(** Unlinking [p] from behind [m]. *)
Lemma wp_unlink s l m p r2 y x (Q : unit → sched E → Prop) :
  queue_ok s (l ++ m :: p :: r2) →
  arr_get (process_table s) m = Some x → arr_get (process_table s) p = Some y →
  (∀ t', queue_ok (with_queue s (l ++ m :: r2) t') (l ++ m :: r2) →
     (∀ j, look t' j = look (process_table s) j) → Q tt (with_queue s (l ++ m :: r2) t')) →
  wp (y ← proc_at p;
      upd m (with_next_proc (next y));;
      tl ← gets ready_queue_tail;
      when (bool_decide (tl = Some p))
        (modify (λ s, set_queue (ready_queue_head s) (Some m) s));;
      upd p (with_next_proc None)) s Q.
Proof.
  intros Hq Hx Hy HQ. pose proof (qo_len _ _ Hq) as Hlen. pose proof (qo_chain _ _ Hq) as Hc.
  pose proof (qo_nodup _ _ Hq) as Hnd. pose proof (arr_get_Some_range _ _ _ Hx) as Hrm.
  pose proof (arr_get_Some_range _ _ _ Hy) as Hrp.
  assert (m ≠ p ∧ p ∉ r2) as [Hmp Hpr].
  { apply NoDup_app in Hnd as (_ & _ & Hnd). apply NoDup_cons in Hnd as [Hm Hnd].
    apply NoDup_cons in Hnd as [? _]. split; [|done]. intros ->. apply Hm. by left. }
  assert (Hnd' : NoDup (l ++ m :: r2)).
  { pose proof (filter_ne_mid (l ++ [m]) r2 p) as Ef. rewrite <- !app_assoc in Ef. cbn [app] in Ef.
    rewrite <- (Ef Hnd). by apply NoDup_filter. }
  wp_step. eapply wp_proc_at; [exact Hy|]. wp_step. eapply wp_upd; [exact Hx|].
  do 3 wp_step. cbn [ready_queue_tail set_table]. rewrite (qo_tail _ _ Hq).
  set (t1 := arr_set (process_table s) m (with_next_proc (next y) x)).
  assert (Hfin : wp (upd p (with_next_proc None)) (with_queue s (l ++ m :: r2) t1) Q).
  { eapply wp_upd; [cbn; unfold t1; by rewrite arr_get_set_ne|].
    apply (HQ (arr_set t1 p (with_next_proc None y))).
    - split; try done; cbn [process_table with_queue set_table set_queue]; unfold t1;
        rewrite ?length_arr_set; [done|by apply chain_remove].
    - intros j. unfold t1. rewrite !look_set by (rewrite ?length_arr_set; lia).
      destruct (Z.eqb_spec p j) as [->|]; [by rewrite (look_get _ _ _ Hy)|].
      destruct (Z.eqb_spec m j) as [->|]; [by rewrite (look_get _ _ _ Hx)|done]. }
  assert (Eh : head (l ++ m :: r2) = head (l ++ m :: p :: r2)) by by destruct l.
  pose proof (qo_head _ _ Hq) as Hh. pose proof (qo_tail _ _ Hq) as Ht.
  destruct r2 as [|k r2].
  - rewrite bool_decide_true by (rewrite last_app; done). cbn [when]. wp_step.
    replace (set_queue _ _ _) with (with_queue s (l ++ [m]) t1); [done|].
    unfold with_queue, set_queue. cbn. by rewrite Eh, Hh, last_snoc.
  - rewrite bool_decide_false.
    2:{ rewrite last_app_cons. change (last (k :: r2) ≠ Some p). by intros E0%last_Some_elem_of. }
    cbn [when]. wp_step. replace (set_table _ _) with (with_queue s (l ++ m :: k :: r2) t1); [done|].
    unfold with_queue, set_queue, set_table. cbn. rewrite Eh, Hh, Ht. f_equal. by rewrite !last_app_cons.
Qed.

Lemma queue_length s q : queue_ok s q → (length q ≤ 256)%nat.
Proof.
  intros Hq. change 256%nat with (Z.to_nat 256). rewrite <- (length_seqZ 0 256). apply submseteq_length, NoDup_submseteq; [apply Hq|].
  intros i Hi. apply elem_of_seqZ. pose proof (queue_slot _ _ _ Hq Hi).
  unfold is_slot, MAX_PROCESSES in *. lia.
Qed.

(** [scheduler_remove] takes [p] out of the queue, wherever it is. *)
Lemma wp_scheduler_remove s q p (Q : unit → sched E → Prop) :
  queue_ok s q → is_slot p →
  (∀ t', queue_ok (with_queue s (filter (λ i, i ≠ p) q) t') (filter (λ i, i ≠ p) q) →
     (∀ j, look t' j = look (process_table s) j) →
     Q tt (with_queue s (filter (λ i, i ≠ p) q) t')) →
  wp (scheduler_remove (Some p)) s Q.
Proof.
  intros Hq Hp HQ. pose proof (qo_chain _ _ Hq) as Hc. pose proof (qo_nodup _ _ Hq) as Hnd.
  unfold scheduler_remove. wp_step. wp_step. rewrite (qo_head _ _ Hq).
  assert (Hsame : p ∉ q → Q tt s).
  { intros Hin. rewrite <- (set_queue_id s q Hq). rewrite filter_ne_id in HQ by done. apply HQ; [|done].
    by rewrite <- (set_queue_id s q Hq) in Hq. }
  destruct q as [|h q]; cbn [head]; [wp_step; apply Hsame; set_solver|].
  destruct (slot_get _ _ _ Hq Hp) as [y Hy].
  destruct (Z.eqb_spec h p) as [->|Hhp].
  - pose proof (filter_ne_mid [] q p Hnd) as Ef. cbn [app] in Ef. rewrite Ef in HQ.
    wp_step. eapply wp_proc_at; [exact Hy|]. by apply (wp_unlink_head s q p y).
  - wp_step. apply (wp_remove_walk _ s p h q); [done| |done| |].
    { pose proof (queue_length _ _ Hq). change (Z.to_nat MAX_PROCESSES) with 256%nat. cbn in *. lia. }
    + intros l m r2 Eq. rewrite Eq in *.
      destruct (chain_slot _ _ m Hc) as [x Hx]; [set_solver|].
      assert (Hnx : next x = Some p).
      { apply chain_app in Hc as (_ & Hl & _). rewrite (link_get _ _ _ Hx) in Hl. by injection Hl. }
      pose proof (filter_ne_mid (l ++ [m]) r2 p) as Ef. rewrite <- !app_assoc in Ef. cbn [app] in Ef.
      rewrite (Ef Hnd) in HQ.
      wp_step. eapply wp_proc_at; [exact Hx|]. rewrite bool_decide_true by done.
      by apply (wp_unlink s l m p r2 y x).
    + intros Hpq m Hm. assert (Hmq : m ∈ h :: q) by by apply last_Some_elem_of.
      destruct (chain_slot _ _ _ Hc Hmq) as [x Hx].
      assert (Hnx : next x = None).
      { apply last_Some in Hm as [l El]. rewrite El in Hc. apply chain_app in Hc as (_ & Hl & _).
        rewrite (link_get _ _ _ Hx) in Hl. by injection Hl. }
      wp_step. eapply wp_proc_at; [exact Hx|]. rewrite Hnx. wp_step; [done|]. apply Hsame. set_solver.
Qed.

End remove.

(** ** Runs *)

Section runs.
Context {E : Type} `{KernelServicesOk E} `{CodeAddresses}.
Implicit Types s : sched E.

Lemma terminated_decided s1 c now q1 s' i x :
  scheduled s1 c now q1 s' → i ≠ hd 0 q1 → look (process_table s1) i = Some x →
  state x = PROCESS_STATE_TERMINATED → terminated (process_table s') i.
Proof.
  intros Hs Hi Hx Ht. pose proof (sc_look _ _ _ _ _ Hs i) as Hl. rewrite Hx in Hl. cbn in Hl.
  eexists. split; [exact Hl|].
  destruct (decided_keeps now c (hd 0 q1) (r_esp (the_cpu s1) -w 28) i x) as (_ & _ & _ & ->).
  destruct (Z.eqb_spec i (hd 0 q1)); [done|]. unfold due. by rewrite Ht.
Qed.

(** A decision taken after the running process [c] got the slot [y]. *)
Lemma terminated_kept s q c x y s1 q1 now s' i :
  sched_inv s q c → look (process_table s) c = Some x →
  sched_mid s1 q1 c →
  (∀ j, look (process_table s1) j = if c =? j then Some y else look (process_table s) j) →
  scheduled s1 c now (q1 ++ woken (process_table s1) now) s' →
  terminated (process_table s) i → terminated (process_table s') i.
Proof.
  intros (_ & _ & _ & _ & Hcur & _) Hx (Hc1 & _) Hl Hs (z & Hz & Ht).
  assert (Hic : c ≠ i).
  { intros <-. rewrite Hx in Hz. injection Hz as <-. destruct (Hcur x Hx) as [E0|[_ E0]]; congruence. }
  assert (Hz1 : look (process_table s1) i = Some z) by (rewrite Hl; by destruct (Z.eqb_spec c i)).
  eapply (terminated_decided _ _ _ _ _ _ z Hs); [|done|done].
  intros E0. rewrite E0 in Hz1. by destruct (picked s1 q1 now z Hc1 Hz1).
Qed.

(** The rest of the kernel moves on. *)
Lemma inv_set_env s q c e' :
  sched_inv s q c → ks_inv e' → (∀ p, ks_owns (env s) p → ks_owns e' p) →
  (∀ D, ks_ok_space (env s) D → ks_ok_space e' D) → sched_inv (set_env e' s) q c.
Proof.
  intros (Hc & Hrest) He Ho Hsp. split; [|exact Hrest].
  apply (core_step s q); try done; [|auto| |apply Hc..].
  - by destruct (si_queue _ _ Hc).
  - intros i z Hz. exists z. split_and!; try done. intros ->. apply (si_idle _ _ Hc z Hz).
Qed.

Lemma sched_step_spec b s s' q c :
  sched_inv s q c → sched_step b s s' →
  ∃ q' c', sched_inv s' q' c' ∧ advances b q c q' c' ∧
    ∀ i, terminated (process_table s) i → terminated (process_table s') i.
Proof.
  intros Hi Hst. pose proof Hi as (Hc & Hcur & Hcs & _).
  destruct (slot_look s q c (si_queue _ _ Hc) Hcs) as [x Hx].
  assert (Hgoal : ∀ A (m : M (sched E) A) a, m s = Ret a s' →
    wp m s (λ _ s', ∃ q' c', sched_inv s' q' c' ∧ advances b q c q' c' ∧
      ∀ i, terminated (process_table s) i → terminated (process_table s') i) →
    ∃ q' c', sched_inv s' q' c' ∧ advances b q c q' c' ∧
      ∀ i, terminated (process_table s) i → terminated (process_table s') i).
  { intros A m a E0 Hw. unfold wp in Hw. by rewrite E0 in Hw. }
  destruct Hst as [s s' E0|ms s s' E0|code c0 x0 s s' Hc0 Hx0 Hp E0|nm entry r s s' Hroom E0|s e' He Ho Hsp].
  - apply (Hgoal _ _ _ E0), (wp_process_yield s q c x); [done|done|].
    intros now s1 s2 _ _ Hm Hl _ _ _ q1 Hs Hi2. eexists _, _. split; [exact Hi2|]. split.
    + unfold q1, yield_queue. case_bool_decide; [|by eexists].
      exists ([c] ++ woken (process_table s1) now). by rewrite !app_assoc.
    + intros i. by apply (terminated_kept s q c x _ s1 _ now s2 i Hi Hx Hm Hl).
  - apply (Hgoal _ _ _ E0), (wp_process_sleep s q c x); [done|done|].
    intros now s1 s2 _ _ Hm Hl _ q1 Hs Hi2. eexists _, _. split; [exact Hi2|]. split; [by eexists|].
    intros i. by apply (terminated_kept s q c x _ s1 _ now s2 i Hi Hx Hm Hl).
  - rewrite Hcur in Hc0. injection Hc0 as <-. rewrite Hx in Hx0. injection Hx0 as <-.
    apply (Hgoal _ _ _ E0), (wp_process_exit s q c x); [done|done|done|].
    intros now s1 s2 _ Hm Hl _ q1 Hs Hi2. eexists _, _. split; [exact Hi2|]. split; [by eexists|].
    intros i. by apply (terminated_kept s q c x _ s1 _ now s2 i Hi Hx Hm Hl).
  - apply (Hgoal _ _ _ E0), (wp_process_create s q c); [done|done|..].
    + intros s2 _ Hi2 Hl. exists q, c. split; [done|]. split; [exists []; by rewrite app_nil_r|].
      intros i (z & Hz & Ht). exists z. split; [|done]. rewrite Hl; [done|].
      intros (w & Hw & Hu). rewrite Hz in Hw. injection Hw as <-. congruence.
    + intros p y D stk s2 _ _ Hy Hu _ _ _ _ _ Hl Hi2. exists (q ++ [p]), c.
      split; [done|]. split; [by exists [p]|]. intros i (z & Hz & Ht). exists z. split; [|done].
      rewrite Hl. destruct (Z.eqb_spec p i) as [->|]; [|done]. rewrite Hy in Hz. injection Hz as <-. congruence.
  - exists q, c. split; [by apply inv_set_env|split; [exists []; by rewrite app_nil_r|done]].
Qed.

Lemma sched_runs_spec n s s' q c :
  sched_runs n s s' → sched_inv s q c →
  ∃ q' c', sched_inv s' q' c' ∧
    (∀ k p, (n ≤ k)%nat → (c :: q) !! k = Some p → (c' :: q') !! (k - n)%nat = Some p) ∧
    ∀ i, terminated (process_table s) i → terminated (process_table s') i.
Proof.
  intros Hr. revert q c. induction Hr as [s|b n s s1 s2 Hst _ IH]; intros q c Hi.
  - exists q, c. split; [done|]. split; [|done]. intros k p _. by rewrite Nat.sub_0_r.
  - destruct (sched_step_spec b s s1 q c Hi Hst) as (q1 & c1 & Hi1 & [a Ha] & Ht1).
    destruct (IH q1 c1 Hi1) as (q2 & c2 & Hi2 & Hk & Ht2).
    exists q2, c2. split; [done|]. split; [|by auto]. intros k p Hle Hp. destruct b.
    + destruct Ha as [-> ->]. destruct k as [|k]; [lia|]. cbn in Hp |- *. apply Hk; [lia|].
      destruct q as [|j q]; [done|]. cbn. by apply (lookup_app_l_Some (j :: q) a).
    + destruct Ha as [-> ->]. apply Hk; [lia|]. by apply (lookup_app_l_Some (c :: q) a).
Qed.

Lemma wp_clear_slots s (Q : unit → sched E → Prop) :
  Z.of_nat (length (process_table s)) = MAX_PROCESSES →
  (∀ t', Z.of_nat (length t') = MAX_PROCESSES →
     (∀ j, look t' j = with_pid 0 ∘ with_state PROCESS_STATE_UNUSED <$> look (process_table s) j) →
     Q tt (set_table t' s)) →
  wp (for_ 0 (trips 0 MAX_PROCESSES) clear_slot) s Q.
Proof.
  intros Hlen HQ. change (trips 0 MAX_PROCESSES) with 256%nat. unfold MAX_PROCESSES in *.
  apply wp_for with (λ i s', ∃ t', s' = set_table t' s ∧ Z.of_nat (length t') = 256 ∧
    ∀ j, look t' j = if j <? i then with_pid 0 ∘ with_state PROCESS_STATE_UNUSED <$> look (process_table s) j
                     else look (process_table s) j).
  - exists (process_table s). split_and!; [by destruct s|done|]. intros j.
    destruct (Z.ltb_spec j 0); [|done]. unfold look, arr_get. by destruct (Z.leb_spec 0 j); [lia|].
  - intros i s' Hi (t' & -> & Hlen' & Hl). destruct (arr_get_lt t' i) as [x Hx]; [lia|].
    pose proof (arr_get_Some_range _ _ _ Hx) as Hr. unfold clear_slot.
    wp_step. eapply wp_upd; [exact Hx|]. eapply wp_upd; [cbn; by apply arr_get_set_eq|].
    cbn [process_table set_table]. rewrite arr_set_set.
    eexists. split; [done|]. split; [by rewrite length_arr_set|]. intros j. rewrite look_set by done.
    pose proof (look_get _ _ _ Hx) as Hlx. rewrite Hl in Hlx.
    destruct (Z.ltb_spec i i); [lia|]. destruct (Z.eqb_spec i j) as [<-|].
    + destruct (Z.ltb_spec i (i + 1)); [|lia]. by rewrite Hlx.
    + rewrite Hl. destruct (Z.ltb_spec j i), (Z.ltb_spec j (i + 1)); (lia || done).
  - intros s' (t' & -> & Hlen' & Hl). apply HQ; [done|]. intros j. rewrite Hl.
    destruct (Z.ltb_spec j (0 + Z.of_nat 256)); [done|].
    destruct (look (process_table s) j) as [x|] eqn:Ex; [|done].
    apply look_some in Ex as (y & Hy & _). apply arr_get_Some_range in Hy. lia.
Qed.

Lemma wp_process_init s (Q : unit → sched E → Prop) :
  zeroed_table (process_table s) → ks_inv (env s) → ks_room (env s) →
  (∀ s', sched_inv s' [] 0 → Q tt s') → wp (process_init;; scheduler_init) s Q.
Proof.
  intros [Hlen Hz] He Hroom HQ. wp_step. unfold process_init. wp_step.
  apply wp_clear_slots; [done|]. intros t' Hlen' Hl'.
  destruct (arr_get_lt t' 0) as [x Hx]; [unfold MAX_PROCESSES in *; lia|].
  pose proof (arr_get_Some_range _ _ _ Hx) as Hr. do 2 upd_again Hr.
  pose proof (ks_kmalloc_ok (env s) KERNEL_STACK_SIZE He Hroom ltac:(done)) as Hk.
  destruct (wp_ex _ _ _ Hk) as (stk & e1 & Ek & He1 & _ & _ & _).
  destruct (ks_kernel_pd_ok e1 He1) as (D & ED & HD).
  wp_step. apply wp_service. unfold wp at 1. cbn [env set_table]. rewrite Ek. cbv zeta. upd_again Hr.
  wp_step. apply wp_service. unfold wp at 1. cbn [env set_table set_env]. rewrite ED.
  do 3 upd_again Hr. unfold push_word. wp_steps. do 2 upd_again Hr. unfold scheduler_init. wp_steps.
  set (y := with_name _ _). set (s' := set_queue _ _ _).
  assert (Hl : ∀ j, look (process_table s') j = if 0 =? j then Some (with_next_proc None y)
    else with_pid 0 ∘ with_state PROCESS_STATE_UNUSED <$> look (process_table s) j).
  { intros j. cbn [process_table s' set_queue set_current set_table]. rewrite look_set by done.
    by rewrite Hl'. }
  assert (Hold : ∀ i z, look (process_table s') i = Some z → i ≠ 0 →
    state z = PROCESS_STATE_UNUSED ∧ kernel_stack z = 0).
  { intros i z Hzi Hi. rewrite Hl in Hzi. destruct (Z.eqb_spec 0 i); [congruence|].
    apply fmap_Some in Hzi as (w & Hw & ->). split; [done|exact (Hz i w Hw)]. }
  assert (Hidle : ∀ z, look (process_table s') 0 = Some z → z = with_next_proc None y).
  { intros z Hz0. rewrite Hl, Z.eqb_refl in Hz0. by injection Hz0 as <-. }
  assert (Hcases : ∀ i z, look (process_table s') i = Some z →
    i = 0 ∧ z = with_next_proc None y ∨ i ≠ 0 ∧ state z = PROCESS_STATE_UNUSED ∧ kernel_stack z = 0).
  { intros i z Hzi. destruct (Z.eq_dec i 0) as [->|]; [left; auto|right; eauto]. }
  apply HQ. split_and!; [|done|done|set_solver|..].
  - split; [|set_solver|..].
    + split; try done; cbn [process_table s' set_queue set_current set_table];
        [by rewrite length_arr_set|constructor].
    + intros i z [[-> ->]|(_ & Hu & _)]%Hcases Hr'; [by right|congruence].
    + done.
    + intros i z [[-> ->]|(_ & Hu & _)]%Hcases Hr'; [done|congruence].
    + intros i z [[-> ->]|(_ & Hu & _)]%Hcases Hi [Hr' _]; [done|congruence].
    + intros i j z w [[-> ->]|(_ & Hu & _)]%Hcases _ Hi _ _ [Hr' _]; [done|congruence].
    + intros i z [[-> ->]|(_ & _ & Hks)]%Hcases Hi Hr'; done.
    + intros z [[_ ->]|(? & _)]%Hcases; done.
  - intros z [[_ ->]|(? & _)]%Hcases; [by right|done].
  - intros i z [[-> ->]|(_ & Hu & _)]%Hcases Hr'; [done|congruence].
Qed.

End runs.

(** ** Stack frames *)

(** Reading a stack of words written below [top]. *)
Ltac stack_read :=
  repeat first [rewrite ldw_insert_eq' | rewrite ldw_insert_ne' by lia].

Lemma first_frame_resume `{CodeAddresses} top entry m :
  28 ≤ top < 4294967296 →
  resume_cpu (first_frame top entry m) (top -w 28) = mkCpu (top - 8) 0 0 0 0 process_wrapper ∧
  ldw (first_frame top entry m) (top - 8) = 0 ∧ ldw (first_frame top entry m) (top - 4) = entry.
Proof.
  intros Ht. unfold resume_cpu, first_frame.
  rewrite !(w32_small (top - _)) by (unfold is_u32; lia).
  rewrite !(w32_small (top - 28 + _)) by (unfold is_u32; lia).
  replace (top - 4 * 1) with (top - 4) by lia. replace (top - 4 * 2) with (top - 8) by lia.
  replace (top - 4 * 3) with (top - 12) by lia. replace (top - 4 * 4) with (top - 16) by lia.
  replace (top - 4 * 5) with (top - 20) by lia. replace (top - 4 * 6) with (top - 24) by lia.
  replace (top - 4 * 7) with (top - 28) by lia.
  replace (top - 28 + 20) with (top - 8) by lia. replace (top - 28 + 12) with (top - 16) by lia.
  replace (top - 28 + 8) with (top - 20) by lia. replace (top - 28 + 4) with (top - 24) by lia.
  replace (top - 28 + 16) with (top - 12) by lia.
  split_and!; [|by stack_read..]. f_equal; by stack_read.
Qed.

Lemma sleep_ticks_spec ms : is_u32 ms → sleep_ticks ms = Z.max 1 ((100 * ms) mod 4294967296 / 1000).
Proof.
  intros Hms. unfold sleep_ticks. rewrite Z.mul_comm. unfold w32, is_u32 in *.
  destruct (Z.eqb_spec ((100 * ms) mod 4294967296 / 1000) 0); mlia.
Qed.

(** ** Properties *)

Section properties.
Context {E : Type} `{KernelServicesOk E} `{CodeAddresses}.
Implicit Types s : sched E.

Lemma woken_ext t t' now :
  (∀ j, is_due t' now j = is_due t now j) → woken t' now = woken t now.
Proof. intros Hd. unfold woken. apply filter_agree. intros i _. by rewrite Hd. Qed.

(** C13. [process_yield] is round robin: the running process goes to the end of the queue,
    behind it the sleepers that are due, in slot order; the first of the queue runs next
    and the rest keep their order. Only a process that is the only one goes on itself; the
    idle process that was never scheduled does not enter the queue, and is the one to run
    when the queue is empty. *)
Theorem process_yield_round_robin s q c x :
  sched_inv s q c → look (process_table s) c = Some x →
  wp process_yield s (λ _ s', ∃ now, ks_ticks (env s) = Ret now (env s) ∧
    let q1 := yield_queue q c x ++ woken (process_table s) now in
    sched_inv s' (tail q1) (hd 0 q1) ∧ current_process s' = Some (hd 0 q1)).
Proof.
  intros Hi Hx. apply (wp_process_yield s q c x); [done|done|].
  intros now s1 s' Ht Hn Hm Hl He _ _ q1 Hs Hi'. exists now. split; [done|].
  assert (woken (process_table s1) now = woken (process_table s) now) as <-; [|split; [done|apply Hi']].
  apply woken_ext. intros j. unfold is_due. rewrite Hl. destruct (Z.eqb_spec c j) as [<-|]; [|done].
  rewrite Hx. unfold due. cbn. destruct Hi as (_ & _ & _ & _ & Hcur & _).
  destruct (Hcur x Hx) as [E0|[_ E0]]; by rewrite E0.
Qed.

(** C7. Bounded waiting: the process with [k] others before it in the ready queue is running
    after exactly [k + 1] scheduling decisions, whatever the running processes do: yield,
    sleep, exit, or create others. *)
Theorem ready_process_runs s q c k p s' :
  sched_inv s q c → q !! k = Some p → sched_runs (S k) s s' → current_process s' = Some p.
Proof.
  intros Hi Hp Hr. destruct (sched_runs_spec (S k) s s' q c Hr Hi) as (q' & c' & Hi' & Hk & _).
  specialize (Hk (S k) p ltac:(lia) Hp). rewrite Nat.sub_diag in Hk. injection Hk as ->. apply Hi'.
Qed.

(** C1. From [process_init] and [scheduler_init] on, in every reachable state the queue
    holds exactly the ready processes (the idle process may wait outside it), without
    duplicates, one process is current, nobody else is marked running, and no two live
    processes share a kernel stack. *)
Theorem scheduler_invariant s0 s n s' :
  zeroed_table (process_table s0) → ks_inv (env s0) → ks_room (env s0) →
  (process_init;; scheduler_init) s0 = Ret tt s → sched_runs n s s' →
  ∃ q c, queue_ok s' q ∧ current_process s' = Some c ∧ (c ∉ q) ∧
    (∀ i x, look (process_table s') i = Some x → i ≠ 0 →
       (state x = PROCESS_STATE_READY ↔ i ∈ q)) ∧
    (∀ i x, look (process_table s') i = Some x → state x = PROCESS_STATE_RUNNING → i = c) ∧
    (∀ i j x y, look (process_table s') i = Some x → look (process_table s') j = Some y →
       i ≠ 0 → j ≠ 0 → i ≠ j → live x → live y → kernel_stack x ≠ kernel_stack y).
Proof.
  intros Hz He Hroom Hinit Hr.
  assert (wp (process_init;; scheduler_init) s0 (λ _ s, sched_inv s [] 0)) as Hw
    by (apply wp_process_init; auto).
  unfold wp in Hw. rewrite Hinit in Hw.
  destruct (sched_runs_spec n s s' [] 0 Hr Hw) as (q & c & (Hc & Hcur & _ & Hcq & _ & Hrun) & _).
  exists q, c. split_and!; [apply Hc|done|done| |done|apply Hc].
  intros i x Hx Hi. split.
  - intros Hrd. by destruct (si_complete _ _ Hc i x Hx Hrd).
  - intros Hin. by apply (si_ready _ _ Hc i x Hin Hx).
Qed.

(** C14. [process_create] answers NULL only when no slot is free, when there is no frame for
    a page directory, or no memory for a stack, and then no process has changed. Otherwise
    the first free slot holds a ready process at the end of the queue, with the next process
    number and the running process as parent, whose saved context starts [process_wrapper]
    with the given entry point as its argument; nothing else has changed. *)
Theorem process_create_spec s q c nm entry :
  sched_inv s q c → ks_room (env s) →
  wp (process_create nm entry) s (λ r s',
    match r with
    | None => create_fails s ∧ sched_inv s' q c ∧
        ∀ j, ~ unused (process_table s) j → look (process_table s') j = look (process_table s) j
    | Some p => 1 ≤ p < MAX_PROCESSES ∧ unused (process_table s) p ∧
        (∀ j, 1 ≤ j < p → ~ unused (process_table s) j) ∧ sched_inv s' (q ++ [p]) c ∧
        (∀ j, j ≠ p → look (process_table s') j = look (process_table s) j) ∧
        ∃ x, look (process_table s') p = Some x ∧ state x = PROCESS_STATE_READY ∧
          pid x = next_pid s ∧ parent x = Some c ∧
          let frame := resume_cpu (stack_mem s') (esp x) in
          r_eip frame = process_wrapper ∧ ldw (stack_mem s') (r_esp frame) = 0 ∧
          ldw (stack_mem s') (r_esp frame + 4) = entry
    end).
Proof.
  intros Hi Hroom. apply (wp_process_create s q c); [done|done|by auto|].
  intros p x D stk s' Hp Hp0 Hx Hu Hfirst Hstk Htop Hmem Hpid Hl Hi'.
  destruct (first_frame_resume (stk + KERNEL_STACK_SIZE) entry (stack_mem s)) as (Hres & Hret & Harg).
  { unfold KERNEL_STACK_SIZE in *. lia. }
  split_and!; [unfold is_slot in Hp; lia|unfold is_slot in Hp; lia|by exists x|done|done| |].
  - intros j Hj. rewrite Hl. by destruct (Z.eqb_spec p j) as [->|].
  - eexists. rewrite Hl, Z.eqb_refl. split; [done|]. cbn [esp state pid parent completed with_state with_name
      with_esp with_kernel_stack with_page_directory created with_sleep_until with_exit_code
      with_next_proc with_parent with_pid]. rewrite Hmem, Hres. cbn [r_eip r_esp].
    split_and!; try done. by replace (stk + KERNEL_STACK_SIZE - 8 + 4) with (stk + KERNEL_STACK_SIZE - 4) by lia.
Qed.

(** Slots are never given back: a process that exited keeps its slot for good, so that
    after 255 processes have been created and have exited no further one can be. *)
Theorem terminated_for_good s q c n s' :
  sched_inv s q c → sched_runs n s s' →
  (∀ i, terminated (process_table s) i → terminated (process_table s') i) ∧
  ((∀ i, 1 ≤ i < MAX_PROCESSES → terminated (process_table s) i) →
   ∀ nm entry, process_create nm entry s' = Ret None s').
Proof.
  intros Hi Hr. destruct (sched_runs_spec n s s' q c Hr Hi) as (q' & c' & Hi' & _ & Ht).
  split; [done|]. intros Hall nm entry.
  assert (wp (process_create nm entry) s' (λ r s2, r = None ∧ s2 = s')) as Hw.
  { unfold process_create. wp_step. apply (wp_find_free_slot s' q'); [apply Hi'| |].
    - intros p x Hp Hx Hu _. exfalso. destruct (Ht p (Hall p Hp)) as (y & Hy & Hty).
      rewrite (look_get _ _ _ Hx) in Hy. injection Hy as <-. cbn in Hty. congruence.
    - intros _. by wp_step. }
  by destruct (wp_ex _ _ _ Hw) as (r & s2 & -> & -> & ->).
Qed.

(** The stack that a switch leaves, word by word. *)
Lemma switch_stack_words `{CodeAddresses} prev sp c m :
  28 ≤ r_esp c < 4294967296 → let m' := switch_stack prev sp c m in let r := r_esp c in
  (ldw m' (r - 28) = r_ebp c ∧ ldw m' (r - 24) = r_edi c ∧ ldw m' (r - 20) = r_esi c ∧ ldw m' (r - 16) = r_ebx c ∧
   ldw m' (r - 12) = after_context_switch) ∧
  ∀ i, ~ r - 28 ≤ i < r → ldw m' i = ldw m i.
Proof.
  intros Hr m' r. unfold m', switch_stack. fold r. rewrite !(w32_small (r - _)) by (unfold is_u32; lia).
  split; [split_and!; by stack_read|]. intros i Hi. by stack_read.
Qed.

Lemma resume_cpu_words m sp :
  0 ≤ sp < 4294967276 → resume_cpu m sp =
    mkCpu (sp + 20) (ldw m (sp + 12)) (ldw m (sp + 8)) (ldw m (sp + 4)) (ldw m sp) (ldw m (sp + 16)).
Proof. intros Hsp. unfold resume_cpu. by rewrite !(w32_small (sp + _)) by (unfold is_u32; lia). Qed.

(** C22. [context_switch] there and back.  Switching from the process of slot [a] to the stack
    pointer [sp] loads the registers of the next process from the five words at [sp] and
    writes nothing but seven words of the old stack.  Whenever somebody later switches to the
    stack pointer that was saved in [a], from any process [b] whose own stack is elsewhere,
    and the five words above it are still there, that second [context_switch] continues after
    the call of the first, with the stack pointer at its arguments and ebx, esi, edi and ebp
    as they were. *)
Theorem context_switch_resumes s a x sp :
  let c := the_cpu s in
  arr_get (process_table s) a = Some x → 28 ≤ r_esp c < 4294967296 → 0 ≤ sp < 4294967276 →
  wp (context_switch a sp) s (λ _ s1,
    let m1 := stack_mem s1 in
    the_cpu s1 = mkCpu (sp + 20) (ldw m1 (sp + 12)) (ldw m1 (sp + 8)) (ldw m1 (sp + 4)) (ldw m1 sp) (ldw m1 (sp + 16)) ∧
    (∀ i, ~ r_esp c - 28 ≤ i < r_esp c → ldw m1 i = ldw (stack_mem s) i) ∧
    ∃ y, arr_get (process_table s1) a = Some y ∧ esp y = r_esp c - 28 ∧
    ∀ s2 b z, arr_get (process_table s2) b = Some z →
      (∀ i, esp y ≤ i < esp y + 20 → ldw (stack_mem s2) i = ldw m1 i) →
      28 ≤ r_esp (the_cpu s2) < 4294967296 → r_esp (the_cpu s2) ≤ esp y ∨ esp y + 20 ≤ r_esp (the_cpu s2) - 28 →
      wp (context_switch b (esp y)) s2 (λ _ s3,
        the_cpu s3 = mkCpu (r_esp c - 8) (r_ebx c) (r_esi c) (r_edi c) (r_ebp c) after_context_switch)).
Proof.
  intros c Hx Hr Hsp. eapply wp_context_switch; [exact Hx|]. pose proof (arr_get_Some_range _ _ _ Hx).
  fold c. set (m1 := switch_stack a sp c (stack_mem s)). cbv zeta. cbn [the_cpu stack_mem process_table set_cpu set_stack set_table].
  destruct (switch_stack_words a sp c (stack_mem s) Hr) as [(W0 & W1 & W2 & W3 & W4) Hout]. fold m1 in W0, W1, W2, W3, W4, Hout.
  split_and!; [by apply resume_cpu_words|exact Hout|]. eexists. split; [by apply arr_get_set_eq|].
  cbn [esp with_esp]. rewrite (w32_small (r_esp c - 28)) by (unfold is_u32; lia). split; [done|]. intros s2 b z Hz Hkept Hr2 Hapart.
  eapply wp_context_switch; [exact Hz|]. cbv zeta. cbn [the_cpu set_cpu]. rewrite resume_cpu_words by lia.
  destruct (switch_stack_words b (r_esp c - 28) (the_cpu s2) (stack_mem s2) Hr2) as [_ Hout2].
  rewrite !Hout2 by lia. rewrite !Hkept by lia.
  replace (r_esp c - 28 + 12) with (r_esp c - 16) by lia. replace (r_esp c - 28 + 8) with (r_esp c - 20) by lia.
  replace (r_esp c - 28 + 4) with (r_esp c - 24) by lia. replace (r_esp c - 28 + 16) with (r_esp c - 12) by lia.
  rewrite W0, W1, W2, W3, W4. f_equal. lia.
Qed.

(** C25. [process_sleep ms] takes the processor from the caller for [n] ticks: it is marked
    sleeping and is not chosen, and from then on, in whatever state it is found asleep,
    [wake_sleeping_processes] leaves it asleep and out of the queue before the tick [now + n],
    and makes it ready and queues it from that tick on, while the tick counter does not wrap.
    The number [n] is [ms / 10] and at least 1 for requests up to 42949672 ms; beyond, the
    product with 100 wraps first, so that a sleep of 42949673 ms lasts one tick. *)
Theorem process_sleep_deadline s q c x ms now :
  sched_inv s q c → look (process_table s) c = Some x → c ≠ 0 →
  ks_ticks (env s) = Ret now (env s) → is_u32 ms →
  let n := Z.max 1 ((100 * ms) mod 4294967296 / 1000) in
  now + n < 4294967296 →
  (ms ≤ 42949672 → n = Z.max 1 (ms / 10)) ∧
  wp (process_sleep ms) s (λ _ s', current_process s' ≠ Some c ∧ (∃ q' c', sched_inv s' q' c') ∧
    (∃ y, look (process_table s') c = Some y ∧ state y = PROCESS_STATE_SLEEPING) ∧
    ∀ s2 q2 t, sched_core s2 q2 → look (process_table s2) c = look (process_table s') c →
      ks_ticks (env s2) = Ret t (env s2) →
      wp wake_sleeping_processes s2 (λ _ s3, ∃ q3 y, queue_ok s3 q3 ∧ look (process_table s3) c = Some y ∧
        if now + n <=? t then (c ∈ q3) ∧ state y = PROCESS_STATE_READY
        else (c ∉ q3) ∧ state y = PROCESS_STATE_SLEEPING)).
Proof.
  intros Hi Hx Hc0 Htick Hms n Hw. split; [intros Hle; subst n; unfold is_u32 in *; rewrite Z.mod_small by lia; f_equal; mlia|].
  apply (wp_process_sleep s q c x); [done|done|]. intros now' s1 s' Ht Hn Hm Hl He q1 Hs Hi'.
  rewrite Htick in Ht. injection Ht as <-.
  rewrite sleep_ticks_spec in Hl by done. fold n in Hl. rewrite w32_small in Hl by (unfold is_u32 in *; lia).
  pose proof (Hl c) as Hlc. rewrite Z.eqb_refl in Hlc.
  set (y := with_state PROCESS_STATE_SLEEPING (with_sleep_until (now + n) x)) in *.
  assert (Hnd : due now y = false) by (unfold due; cbn; lia).
  assert (Hnq : c ∉ q1).
  { intros [Hin|Hin]%elem_of_app; [by apply Hi in Hin|].
    apply list_elem_of_filter in Hin as [Hd _]. unfold is_due in Hd. rewrite Hlc in Hd. by rewrite Hnd in Hd. }
  assert (Hne : c ≠ hd 0 q1) by (destruct q1; cbn; [done|set_solver]).
  pose proof (sc_look _ _ _ _ _ Hs c) as Hlc'. rewrite Hlc in Hlc'. cbn in Hlc'.
  unfold decided in Hlc'. destruct (Z.eqb_spec c (hd 0 q1)) as [|_]; [done|]. rewrite Z.eqb_refl in Hlc'.
  unfold wake in Hlc'. rewrite Hnd in Hlc'. split_and!.
  - rewrite (sc_current _ _ _ _ _ Hs). congruence.
  - by eexists _, _.
  - by eexists.
  - intros s2 q2 t Hc2 Hl2 Ht2. rewrite Hlc' in Hl2.
    apply (wp_wake_sleeping s2 q2 t); [apply Hc2|by apply ready_not_sleeping|done|]. intros t' q3 Hq3 Hl3.
    exists q3. eexists. split; [exact Hq3|]. split; [cbn [process_table with_queue set_queue set_table]; by rewrite Hl3, Hl2|].
    assert (Hsl : c ∉ q2).
    { intros Hin. apply (ready_not_sleeping _ _ Hc2 c Hin). by eexists. }
    assert (Hdue : due t (with_esp (r_esp (the_cpu s1) -w 28) y) = (now + n <=? t)) by done.
    assert (Hd2 : is_due (process_table s2) t c = (now + n <=? t)) by (unfold is_due; by rewrite Hl2).
    unfold wake. rewrite Hdue. subst q3. destruct (now + n <=? t).
    + split; [|done]. apply elem_of_app. right. apply list_elem_of_filter. split; [done|]. apply elem_of_seqZ.
      destruct Hi as (_ & _ & Hslot & _). unfold is_slot, MAX_PROCESSES in *. lia.
    + split; [|done]. intros [Hin|Hin]%elem_of_app; [done|]. apply list_elem_of_filter in Hin as [Hin _]. congruence.
Qed.

(** [scheduler_remove] takes the given process out of the queue, wherever it stands, and
    keeps the order of the others and everything else. *)
Theorem scheduler_remove_spec s q p :
  queue_ok s q → is_slot p →
  wp (scheduler_remove (Some p)) s (λ _ s', queue_ok s' (filter (λ i, i ≠ p) q) ∧
    (∀ j, look (process_table s') j = look (process_table s) j) ∧
    current_process s' = current_process s ∧ env s' = env s).
Proof.
  intros Hq Hp. apply (wp_scheduler_remove s q p); [done|done|]. intros t' Hq' Hl. done.
Qed.

End properties.
