(* ===== verification/Kernel.v ===== *)
(** * The kernel put together: memory, timer and processes (src/src/timer.c
    [timer_callback], and the calls process.c makes)

    The heap, paging and the timer implement the interface that processes are
    proved against; the timer interrupt preempts the running process. *)

From S2P Require Import Prelude Pic Idt Timer Pmm Paging Heap Process.

(** ** The services of the kernel *)

(** The state below the scheduler.  [k_spaces] is the list of the page directories
    created so far; it is used by the specification only. *)
Record kernel := mkKernel {
  k_timer : timer;
  k_heap : heap;
  k_vm : vm;
  k_spaces : list Z
}.

Definition on_mem {A} (m : M (heap * vm) A) : M kernel A :=
  zoom (λ k, (k_heap k, k_vm k)) (λ s k, mkKernel (k_timer k) s.1 s.2 (k_spaces k)) m.

Definition on_heap {A} (m : M heap A) : M kernel A :=
  zoom k_heap (λ h k, mkKernel (k_timer k) h (k_vm k) (k_spaces k)) m.

Definition on_vm {A} (m : M vm A) : M kernel A :=
  zoom k_vm (λ v k, mkKernel (k_timer k) (k_heap k) v (k_spaces k)) m.

Definition on_timer {A} (m : M timer A) : M kernel A :=
  zoom k_timer (λ t k, mkKernel t (k_heap k) (k_vm k) (k_spaces k)) m.

(** [paging_clone_pd], with the new directory noted. *)
Definition clone_space : M kernel Z :=
  D ← on_vm paging_clone_pd;
  when (negb (D =? 0))
    (modify (λ k, mkKernel (k_timer k) (k_heap k) (k_vm k) (D :: k_spaces k)));;
  ret D.

#[global] Instance kernel_services : KernelServices kernel := {|
  ks_kmalloc n := on_mem (kmalloc n);
  ks_kfree p := on_heap (kfree p);
  ks_clone_pd := clone_space;
  ks_switch D := on_vm (paging_switch D);
  ks_kernel_pd := on_vm paging_kernel_pd_phys;
  ks_ticks := on_timer timer_get_ticks
|}.

(** Top of the addresses the heap may use. *)
Definition HEAP_LIMIT : Z := 0xFFFFE000.

Definition kernel_inv (k : kernel) : Prop :=
  (∃ bs, heap_inv (k_heap k) bs) ∧ heap_start (k_heap k) + heap_size (k_heap k) ≤ HEAP_LIMIT ∧
  vm_inv (k_spaces k) (k_vm k) ∧ is_u32 (ticks (k_timer k)).

Definition kernel_room (k : kernel) : Prop :=
  heap_start (k_heap k) + heap_size (k_heap k) + 4096 ≤ HEAP_LIMIT.

Definition kernel_owns (k : kernel) (p : Z) : Prop :=
  ∃ bs b, heap_inv (k_heap k) bs ∧ b ∈ bs ∧ s_free b = false ∧ p = s_addr b + 16.

Definition with_timer (f : timer → timer) (s : sched kernel) : sched kernel :=
  set_env (mkKernel (f (k_timer (env s))) (k_heap (env s)) (k_vm (env s)) (k_spaces (env s))) s.

(** ** [timer_callback] *)

Section callback.
Context `{CodeAddresses}.

Definition in_timer {A} (m : M timer A) : M (sched kernel) A := service (on_timer m).

Definition timer_callback : M (sched kernel) unit :=
  yield ← in_timer timer_tick;
  when yield
    (cur ← process_get_current;
     match cur with
     | None => skip
     | Some c =>
         x ← proc_at c;
         when (bool_decide (state x = PROCESS_STATE_RUNNING)) process_yield
     end).

(** [n] timer interrupts in a row. *)
Fixpoint tick_n (n : nat) : M (sched kernel) unit :=
  match n with
  | O => skip
  | S n => timer_callback;; tick_n n
  end.

End callback.

(** ** A small system: the idle process and one more, [cur] of the two is running *)

Definition codes_demo : CodeAddresses :=
  {| idle_process := 0x100100; process_wrapper := 0x100200; after_context_switch := 0x100300;
     esp_field i := 0x130000 + 96 * i |}.

Definition zero_process : process :=
  mkProcess 0 PROCESS_STATE_UNUSED (mkContext 0 0 0 0 0) 0 0 0 0 0 None None (replicate 32 0).

(** One megabyte of heap with one stack on it. *)
Definition heap_two : heap :=
  mkHeap {[ 0xC0000000 := mkBlock 4112 0 0xC0001010 0;
            0xC0001010 := mkBlock 1044464 1 0 0xC0000000 ]} ∅
    0xC0000000 0xC0001010 1048576 4128 0xC0000000.

Definition kernel_demo (tm : timer) : kernel := mkKernel tm heap_two vm_demo [0x1000].

Definition idle_demo (cur : Z) : process :=
  mkProcess 0 (if cur =? 0 then PROCESS_STATE_RUNNING else PROCESS_STATE_READY)
    (mkContext 0 0 0 0 0) 0 0 0x1000 0 0 None None (replicate 32 0).

Definition proc_demo (cur : Z) : process :=
  mkProcess 1 (if cur =? 0 then PROCESS_STATE_READY else PROCESS_STATE_RUNNING)
    (mkContext 0 0 0 0 0) 0 0xC0001010 0x1000 0 0 (Some 0) None (replicate 32 0).

Definition demo (cur : Z) (tm : timer) : sched kernel :=
  mkSched (idle_demo cur :: proc_demo cur :: replicate 254 zero_process) (Some cur)
    (if cur =? 0 then Some 1 else None) (if cur =? 0 then Some 1 else None) 2 ∅
    (mkCpu 0x90000 0 0 0 0 0) (kernel_demo tm).

(** ** The interface is implemented *)

Lemma owns_block k bs p :
  heap_inv (k_heap k) bs → kernel_owns k p → ∃ b, b ∈ bs ∧ s_free b = false ∧ p = s_addr b + 16.
Proof.
  intros Hi (bs' & b & Hi' & Hb & Hf & ->). rewrite (heap_inv_unique _ _ _ Hi Hi'). eauto.
Qed.

Lemma block_range h bs b :
  heap_inv h bs → b ∈ bs → 32 ≤ s_addr b ∧ 16 ≤ s_size b ∧ s_addr b + s_size b ≤ heap_start h + heap_size h.
Proof.
  intros [Hs _] (l & r & ->)%list_elem_of_split.
  destruct (shape_at _ _ _ _ Hs) as (_ & _ & _ & ? & _ & ? & _ & ?). lia.
Qed.

Lemma kernel_kmalloc k n :
  kernel_inv k → kernel_room k → 0 < n ≤ 4294967272 →
  wp (on_mem (kmalloc n)) k (λ p k', kernel_inv k' ∧ (p = 0 ∨ kernel_owns k' p ∧ p + n < 4294967296) ∧
    (∀ q, kernel_owns k q → kernel_owns k' q ∧ q ≠ p) ∧ ∀ D, D ∈ k_spaces k → D ∈ k_spaces k').
Proof.
  intros ([bs Hi] & Htop & Hv & Ht) Hroom Hn. unfold kernel_room, HEAP_LIMIT in *.
  apply wp_zoom. apply (wp_kmalloc_payload (H0 := vm_page_provider_ok (k_spaces k)) n _ _ bs);
    [done|done|done|lia|].
  intros p h' v' bs' Hi' Hv' Htop' Hkeep Hp. cbn [fst snd].
  assert (Hp0 : p = 0 ∨ kernel_owns (mkKernel (k_timer k) h' v' (k_spaces k)) p ∧ p + n < 4294967296).
  { destruct Hp as [|(b & Hb & -> & Hf & Hsz & _)]; [by left|right]. split; [by exists bs', b|].
    pose proof (block_range _ _ _ Hi' Hb). lia. }
  split_and!; [split_and!; [by exists bs'|cbn; unfold HEAP_LIMIT; lia|done|done..]|done| |done].
  intros q Hq. destruct (owns_block k bs q Hi Hq) as (c & Hc & Hcf & ->). split; [exists bs', c; auto|].
  pose proof (block_range _ _ _ Hi Hc). destruct Hp as [->|(b & Hb & -> & Hf & Hsz & Hd)]; [lia|].
  specialize (Hd c Hc Hcf). lia.
Qed.

Lemma kernel_kfree k p :
  kernel_inv k → kernel_owns k p →
  wp (on_heap (kfree p)) k (λ _ k', kernel_inv k' ∧
    (∀ q, q ≠ p → kernel_owns k q → kernel_owns k' q) ∧ ∀ D, D ∈ k_spaces k → D ∈ k_spaces k').
Proof.
  intros ([bs Hi] & Htop & Hv & Ht) Ho. destruct (owns_block k bs p Hi Ho) as (b & Hb & Hf & ->).
  apply list_elem_of_split in Hb as (l & r & ->). apply wp_zoom.
  apply (wp_kfree_live _ l b r); [done|done|]. intros h' Hi'. split_and!; [|..|done].
  - split_and!; [by eexists| |done|done..]. cbn [k_heap]. rewrite (inv_top _ _ Hi').
    destruct (free_at_total l b r) as [-> ->]. by rewrite <- (inv_top _ _ Hi).
  - intros q Hq Hoq. destruct (owns_block k _ q Hi Hoq) as (c & Hc & Hcf & ->).
    eexists _, c. split_and!; [exact Hi'| |done|done]. apply free_at_keeps; [|done].
    apply elem_of_app in Hc as [|[->|]%elem_of_cons]; [by left|done|by right].
Qed.

#[global] Program Instance kernel_services_ok : KernelServicesOk kernel := {|
  ks_inv := kernel_inv;
  ks_room := kernel_room;
  ks_owns := kernel_owns;
  ks_ok_space k D := D ∈ k_spaces k
|}.
Next Obligation.
  intros k p ([bs Hi] & Htop & _) Ho. destruct (owns_block k bs p Hi Ho) as (b & Hb & _ & ->).
  pose proof (block_range _ _ _ Hi Hb). unfold HEAP_LIMIT in Htop. lia.
Qed.
Next Obligation. intros k n Hk Hr Hn. by apply kernel_kmalloc. Qed.
Next Obligation. intros k p Hk Ho. by apply kernel_kfree. Qed.
Next Obligation.
  intros k ([bs Hi] & Htop & _). change (on_heap (kfree 4294963200) k = Ret tt k). unfold on_heap, zoom. rewrite (kfree_ignored _ bs); [by destruct k|done|..].
  - unfold is_u32. lia.
  - change (4294963200 -w 16) with 4294963184. unfold HEAP_LIMIT in Htop. lia.
Qed.
Next Obligation.
  intros k (Hh & Htop & Hv & Ht). cbn. unfold clone_space. wp_step. apply wp_zoom.
  apply (wp_paging_clone_pd (k_spaces k)); [done| |].
  - intros p v' Hp Hp0 _ Hcl. wp_step. wp_step.
    + wp_step. wp_step. cbn. split_and!; try done; [|right; by left|by intros D HD; right].
      split_and!; [done|done|apply Hcl|done..].
    + exfalso. lia.
  - intros _. wp_step. wp_step; [done|]. wp_step. cbn. split_and!; try done; by left.
Qed.
Next Obligation.
  intros k D (Hh & Htop & Hv & Ht) HD. apply wp_zoom.
  eapply wp_mono; [by apply (paging_switch_inv (k_spaces k))|]. intros [] v' (Hv' & _).
  split_and!; [split_and!; done|done|done].
Qed.
Next Obligation.
  intros k (Hh & Htop & Hv & Ht). exists (kernel_pd_phys (k_vm k)). split; [by destruct k|apply Hv].
Qed.
Next Obligation. intros k (_ & _ & _ & Ht). exists (ticks (k_timer k)). split; [by destruct k|done]. Qed.

(** ** Preemption *)

Section preemption.
Context `{CodeAddresses}.
Implicit Types s : sched kernel.

Lemma wp_in_timer {A} (m : M timer A) s (Q : A → sched kernel → Prop) :
  wp m (k_timer (env s)) (λ a t, Q a (with_timer (λ _, t) s)) → wp (in_timer m) s Q.
Proof. intros Hw. apply wp_service. apply wp_zoom. exact Hw. Qed.

Lemma with_timer_inv f s q c :
  sched_inv s q c → is_u32 (ticks (f (k_timer (env s)))) → sched_inv (with_timer f s) q c.
Proof.
  intros Hi Hf. pose proof (si_env _ _ (proj1 Hi)) as (Hh & Htop & Hv & _).
  by apply inv_set_env; [| | |].
Qed.

Lemma wp_timer_callback_counts s (Q : unit → sched kernel → Prop) :
  let t := k_timer (env s) in
  preemption_enabled t = true → 1 < slice_remaining t < 4294967296 →
  Q tt (with_timer (λ t, mkTimer (ticks t +w 1) true (time_slice t) (slice_remaining t - 1)) s) →
  wp timer_callback s Q.
Proof.
  intros t Hp Hr HQ. unfold timer_callback. wp_step. apply wp_in_timer. fold t.
  assert (E : timer_tick t = Ret false (mkTimer (ticks t +w 1) true (time_slice t) (slice_remaining t - 1))).
  { unfold timer_tick, bind, modify, gets, set_ticks, set_slice. cbn. rewrite Hp.
    destruct (Z.ltb_spec 0 (slice_remaining t)) as [_|]; [|lia]. cbn. rewrite w32_small by (unfold is_u32; lia).
    by destruct (Z.eqb_spec (slice_remaining t - 1) 0) as [|_]; [lia|]. }
  apply wp_run. eexists _, _. by split; [exact E|].
Qed.

Lemma wp_timer_callback_yields s c x (Q : unit → sched kernel → Prop) :
  let t := k_timer (env s) in
  preemption_enabled t = true → slice_remaining t = 1 →
  current_process s = Some c → look (process_table s) c = Some x →
  state x = PROCESS_STATE_RUNNING →
  wp process_yield (with_timer (λ t, mkTimer (ticks t +w 1) true (time_slice t) (time_slice t)) s) Q →
  wp timer_callback s Q.
Proof.
  intros t Hp Hr Hc Hx Hrun HQ. unfold timer_callback. wp_step. apply wp_in_timer. fold t.
  assert (E : timer_tick t = Ret true (mkTimer (ticks t +w 1) true (time_slice t) (time_slice t))).
  { unfold timer_tick, bind, modify, gets, set_ticks, set_slice. cbn. by rewrite Hp, Hr. }
  apply wp_run. eexists _, _. split; [exact E|]. cbn [when].
  wp_step. unfold process_get_current. wp_step. cbn [current_process set_env with_timer]. rewrite Hc.
  apply look_some in Hx as (y & Hy & Ex). wp_step. eapply wp_proc_at; [exact Hy|].
  rewrite bool_decide_true by (by rewrite Ex in Hrun). cbn [when].
  exact HQ.
Qed.

(** Scheduling leaves the timer alone. *)
Lemma scheduled_timer s c now q1 s' :
  scheduled s c now q1 s' → is_Some (look (process_table s) c) →
  is_Some (look (process_table s) (hd 0 q1)) → k_timer (env s') = k_timer (env s).
Proof.
  intros Hs [x Hx] [y Hy]. destruct (Z.eq_dec (hd 0 q1) c) as [Ec|Hne].
  { by destruct (sc_same _ _ _ _ _ Hs Ec) as (-> & _). }
  destruct (sc_switch _ _ _ _ _ Hs x y Hne Hx Hy) as (_ & _ & Hsw).
  destruct (_ =? _); [by rewrite Hsw|]. by injection Hsw as <-.
Qed.

(** C8. Preemption: with preemption enabled and [r] ticks left of the slice, the first
    [r - 1] timer interrupts only count, and the [r]th takes the processor away from the
    running process: it goes to the end of the ready queue, followed by the sleepers that
    are due by then, the first of the queue runs, and a full slice begins. *)
Theorem timer_preempts s q c x r :
  let t := k_timer (env s) in
  sched_inv s q c → look (process_table s) c = Some x → state x = PROCESS_STATE_RUNNING →
  preemption_enabled t = true → slice_remaining t = r → 1 ≤ r < 4294967296 →
  ticks t + r < 4294967296 →
  wp (tick_n (Z.to_nat r)) s (λ _ s',
    let q1 := (q ++ [c]) ++ woken (process_table s) (ticks t + r) in
    sched_inv s' (tail q1) (hd 0 q1) ∧
    k_timer (env s') = mkTimer (ticks t + r) true (time_slice t) (time_slice t)).
Proof.
  remember (Z.to_nat r) as n eqn:En. revert s r En. induction n as [|n IH]; intros s r En t Hi Hx Hrun Hp Hr Hrr Htick.
  { lia. }
  assert (Ht : is_u32 (ticks t)) by apply (si_env _ _ (proj1 Hi)).
  assert (Hinv : ∀ tm, is_u32 (ticks tm) → sched_inv (with_timer (λ _, tm) s) q c)
    by (intros tm Htm; by apply with_timer_inv).
  cbn [tick_n]. wp_step. destruct n as [|n].
  - assert (r = 1) as -> by lia. apply (wp_timer_callback_yields s c x); try done; [apply Hi|].
    set (tm := mkTimer (ticks t +w 1) true (time_slice t) (time_slice t)).
    change (wp process_yield (with_timer (λ _, tm) s) (λ _ s', wp (tick_n 0) s' (λ _ s',
      let q1 := (q ++ [c]) ++ woken (process_table s) (ticks t + 1) in
      sched_inv s' (tail q1) (hd 0 q1) ∧
      k_timer (env s') = mkTimer (ticks t + 1) true (time_slice t) (time_slice t)))).
    assert (Etm : ticks tm = ticks t + 1) by (apply w32_small; unfold is_u32 in *; lia).
    apply (wp_process_yield _ q c x); [apply Hinv; rewrite Etm; unfold is_u32 in *; lia|done|].
    intros now s1 s' Hnow _ Hm Hl He _ _ q1 Hs Hi'. injection Hnow as Hnow.
    assert (now = ticks t + 1) as -> by (rewrite <- Hnow; exact Etm).
    cbn [tick_n]. wp_step.
    assert (Ew : woken (process_table s1) (ticks t + 1) = woken (process_table s) (ticks t + 1)).
    { apply woken_ext. intros j. unfold is_due. rewrite Hl. destruct (Z.eqb_spec c j) as [<-|]; [|done].
      cbn. rewrite Hx. unfold due. cbn. by rewrite Hrun. }
    subst q1. unfold yield_queue in *. rewrite bool_decide_true in * by done. rewrite Ew in *.
    split; [exact Hi'|].
    rewrite (scheduled_timer _ _ _ _ _ Hs).
    + rewrite He. change (tm = mkTimer (ticks t + 1) true (time_slice t) (time_slice t)). by rewrite <- Etm.
    + rewrite Hl, Z.eqb_refl. done.
    + rewrite <- Ew. apply (slot_look s1 (q ++ [c])), picked_slot; apply Hm.
  - apply wp_timer_callback_counts; [done|fold t; lia|].
    set (tm := mkTimer (ticks t +w 1) true (time_slice t) (slice_remaining t - 1)).
    assert (Etm : ticks tm = ticks t + 1) by (apply w32_small; unfold is_u32 in *; lia).
    eapply wp_mono; [apply (IH (with_timer (λ _, tm) s) (r - 1)); [lia|..]|].
    + apply Hinv. rewrite Etm. unfold is_u32 in *. lia.
    + exact Hx.
    + done.
    + done.
    + cbn. lia.
    + lia.
    + cbn [with_timer set_env env k_timer]. lia.
    + intros [] s'. cbn [with_timer set_env env k_timer process_table]. rewrite Etm.
      replace (ticks t + 1 + (r - 1)) with (ticks t + r) by lia. done.
Qed.

End preemption.

(** ** The properties of processes at concrete inputs *)

Lemma heap_two_inv : heap_inv heap_two [mkSeg 0xC0000000 4112 false; mkSeg 0xC0001010 1044464 true].
Proof.
  split; [|done]. split; try done.
Qed.

Lemma kernel_demo_inv tm : is_u32 (ticks tm) → kernel_inv (kernel_demo tm).
Proof.
  intros Ht. split_and!; [eexists; exact heap_two_inv|done|exact vm_demo_inv|apply Ht..].
Qed.

Lemma demo_cases cur tm i x :
  look (process_table (demo cur tm)) i = Some x →
  i = 0 ∧ x = idle_demo cur ∨ i = 1 ∧ x = proc_demo cur ∨
  i ≠ 0 ∧ i ≠ 1 ∧ x = zero_process.
Proof.
  intros (y & Hy & ->)%look_some. unfold arr_get in Hy. cbn [demo process_table] in Hy.
  destruct (Z.leb_spec 0 i); [|done]. destruct (Z.to_nat i) as [|[|n]] eqn:En.
  - left. split; [lia|]. cbn in Hy. by injection Hy as <-.
  - right. left. split; [lia|]. cbn in Hy. by injection Hy as <-.
  - right. right. split_and!; [lia|lia|]. change (replicate 254 zero_process !! n = Some y) in Hy.
    by apply lookup_replicate in Hy as [-> _].
Qed.

Lemma demo_inv cur tm :
  cur = 0 ∨ cur = 1 → is_u32 (ticks tm) →
  sched_inv (demo cur tm) (if cur =? 0 then [1] else []) cur.
Proof.
  intros Hcur Ht. pose proof (kernel_demo_inv tm Ht) as Hk.
  assert (Hown : kernel_owns (kernel_demo tm) 0xC0000010).
  { eexists _, _. split_and!; [exact heap_two_inv|by left|done|done]. }
  split_and!; [split|..].
  - split; [done|by destruct Hcur as [->| ->]..|by destruct Hcur as [->| ->]|].
    destruct Hcur as [->| ->]; [apply NoDup_singleton|constructor].
  - intros i x Hi Hx. destruct Hcur as [->| ->]; cbn in Hi; [|by apply elem_of_nil in Hi].
    apply list_elem_of_singleton in Hi as ->. by destruct (demo_cases _ _ _ _ Hx) as [[? _]|[[_ ->]|(_ & ? & _)]].
  - intros i x [[-> ->]|[[-> ->]|(_ & _ & ->)]]%demo_cases Hr; [by right| |done].
    destruct Hcur as [->| ->]; [left; by left|done].
  - exact Hk.
  - intros i x [[-> ->]|[[-> ->]|(_ & _ & ->)]]%demo_cases Hr; [by left|by left|done].
  - intros i x [[-> ->]|[[-> ->]|(_ & _ & ->)]]%demo_cases Hi [Hr _]; [done|exact Hown|done].
  - intros i j x y [[-> ->]|[[-> ->]|(_ & _ & ->)]]%demo_cases
      [[-> ->]|[[-> ->]|(_ & _ & ->)]]%demo_cases Hi Hj Hij [Hx _] [Hy _]; done.
  - intros i x [[-> ->]|[[-> ->]|(_ & _ & ->)]]%demo_cases Hi Hr; [done| |done].
    by destruct Hcur as [->| ->].
  - intros x [[_ ->]|[[? _]|(? & _)]]%demo_cases; [|done..].
    split; [done|]. destruct Hcur as [->| ->]; done.
  - done.
  - destruct Hcur as [->| ->]; done.
  - destruct Hcur as [->| ->]; set_solver.
  - intros x Hx. destruct Hcur as [->| ->]; left; cbn in Hx; by injection Hx as <-.
  - intros i x [[-> ->]|[[-> ->]|(_ & _ & ->)]]%demo_cases Hr; destruct Hcur as [->| ->]; done.
Qed.

Section witnesses.
#[local] Existing Instance codes_demo.

Lemma process_yield_round_robin_witness :
  wp process_yield (demo 0 timer_start) (λ _ s', current_process s' = Some 1).
Proof.
  eapply wp_mono; [exact (process_yield_round_robin (demo 0 timer_start) [1] 0 (idle_demo 0)
    (demo_inv 0 timer_start ltac:(by left) ltac:(unfold is_u32; cbn; lia)) eq_refl)|].
  intros [] s' (now & _ & _ & Hc). exact Hc.
Defined.

Lemma scheduler_invariant_witness :
  ∃ s q c, (process_init;; scheduler_init)
      (mkSched (replicate 256 zero_process) None None None 1 ∅ (mkCpu 0 0 0 0 0 0)
        (kernel_demo timer_start)) = Ret tt s ∧ queue_ok s q ∧ current_process s = Some c ∧ (c ∉ q).
Proof.
  set (s0 := mkSched _ _ _ _ _ _ _ _).
  assert (Hz : zeroed_table (process_table s0)).
  { split; [reflexivity|]. intros i x (y & Hy & ->)%look_some.
    change (process_table s0) with (replicate 256 zero_process) in Hy. unfold arr_get in Hy.
    destruct (0 <=? i); [|done]. by apply lookup_replicate in Hy as [-> _]. }
  pose proof (kernel_demo_inv timer_start ltac:(unfold is_u32; cbn; lia)) as Hk.
  assert (Hroom : kernel_room (kernel_demo timer_start)) by (unfold kernel_room, HEAP_LIMIT; cbn; lia).
  assert (wp (process_init;; scheduler_init) s0 (λ _ _, True)) as Hw
    by (apply wp_process_init; [exact Hz|exact Hk|exact Hroom|done]).
  destruct (wp_ex _ _ _ Hw) as ([] & s & Erun & _).
  destruct (scheduler_invariant (H0 := kernel_services_ok) s0 s 0 s Hz Hk Hroom Erun (runs_refl s)) as (q & c & Hq & Hc & Hn & _).
  exists s, q, c. split_and!; [exact Erun|exact Hq|exact Hc|exact Hn].
Defined.

Lemma process_create_spec_witness :
  wp (process_create (str "init") 0x200000) (demo 0 timer_start) (λ r s',
    match r with None => create_fails (demo 0 timer_start) | Some p => sched_inv s' [1; p] 0 end).
Proof.
  eapply wp_mono; [exact (process_create_spec (demo 0 timer_start) [1] 0 (str "init") 0x200000
    (demo_inv 0 timer_start ltac:(by left) ltac:(unfold is_u32; cbn; lia))
    ltac:(cbn; unfold kernel_room, HEAP_LIMIT; cbn; lia))|].
  intros [p|] s'; [intros (_ & _ & _ & Hi & _); exact Hi|intros (Hf & _); exact Hf].
Defined.

Lemma demo_yield_run : ∃ s', sched_runs 1 (demo 0 timer_start) s'.
Proof.
  pose proof (demo_inv 0 timer_start ltac:(by left) ltac:(unfold is_u32; cbn; lia)) as Hi.
  assert (wp process_yield (demo 0 timer_start) (λ _ _, True)) as Hw
    by (apply (wp_process_yield _ [1] 0 (idle_demo 0)); [exact Hi|reflexivity|done]).
  destruct (wp_ex _ _ _ Hw) as ([] & s' & Erun & _). exists s'.
  exact (runs_step true 0 _ s' s' (st_yield _ _ Erun) (runs_refl _)).
Qed.

Lemma ready_process_runs_witness :
  ∃ s', sched_runs 1 (demo 0 timer_start) s' ∧ current_process s' = Some 1.
Proof.
  destruct demo_yield_run as [s' Hr]. exists s'. split; [exact Hr|].
  exact (ready_process_runs (demo 0 timer_start) [1] 0 0 1 s'
    (demo_inv 0 timer_start ltac:(by left) ltac:(unfold is_u32; cbn; lia)) eq_refl Hr).
Defined.

Lemma terminated_for_good_witness :
  ∃ s', sched_runs 1 (demo 0 timer_start) s' ∧
    ∀ i, terminated (process_table (demo 0 timer_start)) i → terminated (process_table s') i.
Proof.
  destruct demo_yield_run as [s' Hr]. exists s'. split; [exact Hr|].
  exact (proj1 (terminated_for_good (demo 0 timer_start) [1] 0 1 s'
    (demo_inv 0 timer_start ltac:(by left) ltac:(unfold is_u32; cbn; lia)) Hr)).
Defined.

(** From the idle process to a process whose five words are at 0xC0001000, and back. *)
Lemma context_switch_resumes_witness :
  wp (context_switch 0 0xC0001000) (set_cpu (mkCpu 0x90000 1 2 3 4 5) (set_stack {[ 0xC0001010 := 0x100200 ]} (demo 0 timer_start))) (λ _ s1,
    r_eip (the_cpu s1) = 0x100200 ∧
    wp (context_switch 1 0x8FFE4) s1 (λ _ s3, the_cpu s3 = mkCpu 0x8FFF8 1 2 3 4 0x100300)).
Proof.
  set (s := set_cpu _ _).
  pose proof (context_switch_resumes s 0 (idle_demo 0) 0xC0001000 eq_refl ltac:(cbn; lia) ltac:(lia)) as Hw.
  cbv zeta in Hw. destruct (wp_ex _ _ _ Hw) as ([] & s1 & Hrun & Hcpu & _ & y & _ & Ey & Hback). unfold wp at 1. rewrite Hrun.
  change (r_esp (the_cpu s) - 28) with 0x8FFE4 in Ey. rewrite Ey in Hback.
  set (t1 := match context_switch 0 0xC0001000 s with Ret _ s' => s' | _ => s end).
  assert (E1 : s1 = t1) by (unfold t1; by rewrite Hrun). clear Hrun. split; [rewrite E1; vm_compute; reflexivity|].
  assert (Hz : arr_get (process_table t1) 1 = Some (proc_demo 0)) by (vm_compute; reflexivity). rewrite <- E1 in Hz.
  assert (Hr : r_esp (the_cpu t1) = 0xC0001014) by (vm_compute; reflexivity). rewrite <- E1 in Hr. clearbody t1. clear E1.
  apply (Hback s1 1 (proc_demo 0) Hz); [done|rewrite Hr; lia|rewrite Hr; right; lia].
Defined.

Lemma process_sleep_deadline_witness :
  wp (process_sleep 50) (demo 1 timer_start) (λ _ s',
    wp wake_sleeping_processes (with_timer (set_ticks 4) s') (λ _ s3, ∃ q3, queue_ok s3 q3 ∧ 1 ∉ q3) ∧
    wp wake_sleeping_processes (with_timer (set_ticks 5) s') (λ _ s3, ∃ q3, queue_ok s3 q3 ∧ 1 ∈ q3)).
Proof.
  eapply wp_mono; [exact (proj2 (process_sleep_deadline (demo 1 timer_start) [] 1 (proc_demo 1) 50 0
    (demo_inv 1 timer_start ltac:(by right) ltac:(unfold is_u32; cbn; lia)) eq_refl ltac:(lia) eq_refl
    ltac:(unfold is_u32; lia) ltac:(vm_compute; reflexivity)))|].
  intros [] s' (_ & (q' & c' & Hi) & _ & Hwake). split.
  - eapply wp_mono; [apply (Hwake (with_timer (set_ticks 4) s') q' 4);
      [apply (with_timer_inv (set_ticks 4) s' q' c' Hi); unfold is_u32; cbn; lia|reflexivity|reflexivity]|].
    intros [] s3 (q3 & y & Hq & _ & Hn & _). by exists q3.
  - eapply wp_mono; [apply (Hwake (with_timer (set_ticks 5) s') q' 5);
      [apply (with_timer_inv (set_ticks 5) s' q' c' Hi); unfold is_u32; cbn; lia|reflexivity|reflexivity]|].
    intros [] s3 (q3 & y & Hq & _ & Hn & _). by exists q3.
Defined.

Lemma scheduler_remove_spec_witness :
  wp (scheduler_remove (Some 1)) (demo 0 timer_start) (λ _ s', queue_ok s' []).
Proof.
  pose proof (demo_inv 0 timer_start ltac:(by left) ltac:(unfold is_u32; cbn; lia)) as Hi.
  eapply wp_mono; [exact (scheduler_remove_spec (demo 0 timer_start) [1] 1
    (si_queue _ _ (proj1 Hi)) ltac:(done))|].
  intros [] s' (Hq & _). exact Hq.
Defined.

Lemma timer_preempts_witness :
  wp (tick_n 2) (demo 0 (mkTimer 5 true 10 2)) (λ _ s',
    current_process s' = Some 1 ∧ k_timer (env s') = mkTimer 7 true 10 10).
Proof.
  eapply wp_mono; [exact (timer_preempts (demo 0 (mkTimer 5 true 10 2)) [1] 0 (idle_demo 0) 2
    (demo_inv 0 (mkTimer 5 true 10 2) ltac:(by left) ltac:(unfold is_u32; cbn; lia)) eq_refl eq_refl eq_refl eq_refl
    ltac:(lia) ltac:(cbn; lia))|].
  intros [] s' [Hi Ht]. split; [exact (proj1 (proj2 Hi))|exact Ht].
Defined.

End witnesses.
