(* ===== verification/Startup.v ===== *)
(** * The rest of the start of the kernel (src/src/kernel.c, [kmain] from the disk to the shell)

    After Boot.v has brought processor and memory up, [kmain] finds the disk, mounts the file
    system and lists it, starts timer, keyboard, processes and system calls, shows the boot
    screen and the login dialogue, and runs the program SHELL.  Each phase here is the
    sequence of calls of the source on one state: the machine of Storage.v and Elf.v, the
    interrupt tables, the timer and the processes.  The lemmas say what each phase establishes
    for the next, down to the first instruction of the program; Kmain.v puts them together. *)

From S2P Require Import Prelude Pic Idt Timer Keyboard Console Login Ata Pmm Paging Heap Process Kernel.
From S2P Require Import Syscalls Vfs Fat32 Elf Storage Userland.

(** Static variables of kernel.c, ata.c, heap.c, fat32.c and vfs.c with paging.c and pmm.c (in
    [sy_load], with the processor), idt.c, timer.c and process.c. *)
Record system (D : Type) := mkSystem {
  sy_load : loader (storage D vm);
  sy_intr : intr unit;
  sy_timer : timer;
  sy_procs : sched unit
}.

Arguments mkSystem {D}.
Arguments sy_load {D}.
Arguments sy_intr {D}.
Arguments sy_timer {D}.
Arguments sy_procs {D}.

Definition sy_env {D} (s : system D) : storage D vm := env (ld_fs (sy_load s)).

Definition set_load {D} (l : loader (storage D vm)) (s : system D) : system D :=
  mkSystem l (sy_intr s) (sy_timer s) (sy_procs s).

Definition set_sy_env {D} (e : storage D vm) (s : system D) : system D :=
  set_load (set_fs (set_env e (ld_fs (sy_load s))) (sy_load s)) s.

Definition set_st_con {D P} (c : console D) (e : storage D P) : storage D P :=
  mkStorage (st_heap e) (st_pages e) (st_drives e) (st_count e) c.

(** idt.c works on its tables and on the devices. *)
Definition intr_of {D} (s : system D) : intr D :=
  let i := sy_intr s in
  mkIntr (idt i) (idtp i) (interrupt_handlers i) (idtr i) (vga i) (machine (st_con (sy_env s))).

Definition tables_of {D} (i : intr D) : intr unit := mkIntr (idt i) (idtp i) (interrupt_handlers i) (idtr i) (vga i) tt.

Definition set_tables {D} (i : intr unit) (s : system D) : system D := mkSystem (sy_load s) i (sy_timer s) (sy_procs s).

Definition put_intr {D} (i : intr D) (s : system D) : system D :=
  let e := sy_env s in set_tables (tables_of i) (set_sy_env (set_st_con (set_machine (dev i) (st_con e)) e) s).

(** process.c works on its variables, and on heap, paging and timer through Kernel.v; so far
    the kernel has one page directory. *)
Definition sched_of {D} (s : system D) : sched kernel :=
  let p := sy_procs s in let e := sy_env s in
  mkSched (process_table p) (current_process p) (ready_queue_head p) (ready_queue_tail p) (next_pid p)
    (stack_mem p) (the_cpu p) (mkKernel (sy_timer s) (st_heap e) (st_pages e) [kernel_pd_phys (st_pages e)]).

Definition put_sched {D} (p : sched kernel) (s : system D) : system D :=
  let e := sy_env s in let k := Process.env p in
  let s' := set_sy_env (mkStorage (k_heap k) (k_vm k) (st_drives e) (st_count e) (st_con e)) s in
  mkSystem (sy_load s') (sy_intr s) (k_timer k)
    (mkSched (process_table p) (current_process p) (ready_queue_head p) (ready_queue_tail p) (next_pid p)
      (stack_mem p) (the_cpu p) tt).

(** ** The phases *)

Section startup.
Context {D : Type} `{WordDevice D} `{!Input D} `{CodeAddresses}.
Implicit Types s : system D.

(** Bounds on the polls of devices, on the clusters of a directory or file, and on the keys of
    one field and the rounds of the dialogue; where the linker put the system call stub. *)
Context (polls fuel keys rounds : nat) (isr128 : Z).

Let E : FatEnv (storage D vm) := storage_env polls.
#[local] Existing Instance E.

Definition in_load {A} (m : M (loader (storage D vm)) A) : M (system D) A := zoom sy_load set_load m.

Definition say (msg : string) : M (system D) unit := in_load (elog (lit msg)).

Definition on_con {A} (m : M (console D) A) : M (system D) A :=
  in_load (in_fs (in_env (zoom st_con set_st_con m))).

Definition on_ata {A} (m : M (ata D) A) : M (system D) A := in_load (in_fs (in_env (zoom st_ata set_ata m))).

Definition on_intr {A} (m : M (intr D) A) : M (system D) A := zoom intr_of put_intr m.

Definition on_sched {A} (m : M (sched kernel) A) : M (system D) A := zoom sched_of put_sched m.

(** The listing of the root directory on the log; [break] at the end of the directory. *)
Definition list_root : M (fs (storage D vm)) unit :=
  for_ret 0 (trips 0 20) (λ i,
    root ← gets fs_root;
    entry ← vfs_readdir node_at (run_readdir fuel) root i;
    if entry =? 0 then ret (Some tt) else
    m ← gets dirents;
    d ← expect (m !! entry);
    log (de_name d ++ [0]);;
    kfree_ entry;;
    ret None);;
  skip.

Definition boot_storage : M (system D) unit :=
  say "FlowOS: Initializing ATA...";;
  on_ata (ata_init polls);;
  say "FlowOS: Initializing FAT32...";;
  in_load (in_fs fat32_init);;
  say "FAT32: Files in root directory:";;
  in_load (in_fs list_root).

(** [sti]: the interrupt flag. *)
Definition sti : M (system D) unit :=
  in_load (modify (λ l, mkLoader (ld_fs l) (Z.setbit (eflags l) 9) (user_cpu l))).

(** [syscall_init] logs on the console and writes the interrupt tables. *)
Definition start_syscalls : M (system D) unit :=
  zoom (λ s, (st_con (sy_env s), intr_of s))
    (λ p s, set_tables (tables_of p.2) (set_sy_env (set_st_con p.1 (sy_env s)) s)) (syscall_init polls isr128).

Definition boot_services : M (system D) unit :=
  on_con (vga_write_at 24 0 (lit "Initializing Timer..."));;
  say "FlowOS: Initializing timer...";;
  on_intr (timer_init 100);;
  say "FlowOS: Initializing keyboard...";;
  on_intr keyboard_init;;
  on_con (vga_write_at 24 0 (lit "Initializing Process Manager..."));;
  say "FlowOS: Initializing process management...";;
  on_sched (process_init;; scheduler_init);;
  start_syscalls;;
  say "FlowOS: Enabling interrupts...";;
  sti;;
  say "FlowOS: Kernel initialized successfully!".

(** [for (percent = 0; percent <= 100; percent += 10)]. *)
Definition boot_screen : M (system D) unit :=
  on_con vga_clear;;
  on_con (vga_write_centered 8 (lit "FlowOS is initializing..."));;
  on_con (vga_write_centered 11 (lit "Loading core modules..."));;
  for_ 0 11 (λ i,
    let percent := 10 * i in
    on_con (draw_loading_bar percent);;
    on_con (on_input (in_wait 15)));;
  on_con (show_login_screen rounds keys);;
  on_con show_booted_message.

(** The last call is not expected to return; without a shell the processor is halted. *)
Definition boot_shell : M (system D) unit :=
  say "FlowOS: Boot complete! Loading shell...";;
  r ← in_load (elf_exec fuel (lit "SHELL"));
  when (r <? 0) (say "ELF: Failed to load shell");;
  say "FlowOS: System ready.";;
  halt.

(** [kmain] after the heap. *)
Definition kmain_rest : M (system D) unit := boot_storage;; boot_services;; boot_screen;; boot_shell.

End startup.

(** ** The machine *)

Definition PIC_PORTS : list Z := [0x20; 0x21; 0xA0; 0xA1].

(** What a PC promises besides its single devices: reading one device does not disturb
    another, no port the kernel uses outside the keyboard interrupt reaches the keys still to
    come, and while the kernel waits for a key or for the clock only those two work. *)
Class Pc (D : Type) `{Board D 0x1F0} `{!EmptyChannel D 0x1F0 0x170} `{!PicDevice D} `{InputOk D} := {
  pc_in_uart port k : ~ 0x3F8 ≤ port ≤ 0x3FD → uart_of (dev_in port k).2 = uart_of k;
  pc_in_disk port k : ~ 0x1F0 ≤ port ≤ 0x1F7 → disk_of (dev_in port k).2 = disk_of k;
  pc_word port k : uart_of (dev_inw port k).2 = uart_of k ∧ chips (dev_inw port k).2 = chips k;
  pc_out_keys port v k : in_inv k → in_inv (dev_out port v k) ∧ typed_ahead (dev_out port v k) = typed_ahead k;
  pc_in_keys port k : port ≠ 0x60 → in_inv k → in_inv (dev_in port k).2 ∧ typed_ahead (dev_in port k).2 = typed_ahead k;
  pc_word_keys port k : in_inv k → in_inv (dev_inw port k).2 ∧ typed_ahead (dev_inw port k).2 = typed_ahead k;
  pc_get_char k : wlp in_get_char k (λ _ k', uart_of k' = uart_of k ∧ disk_of k' = disk_of k ∧ chips k' = chips k);
  pc_wait n k : wlp (in_wait n) k (λ _ k', uart_of k' = uart_of k ∧ disk_of k' = disk_of k ∧ chips k' = chips k)
}.

(** ** Lemmas *)

(** A property of the devices that only the interrupt controllers' and the serial port's own
    ports can change. *)
Record quiet {D} `{WordDevice D} (X : D → Prop) : Prop := mkQuiet {
  quiet_out port v k : (port ∉ PIC_PORTS) → ~ 0x3F8 ≤ port ≤ 0x3FC → X k → X (dev_out port v k);
  quiet_in port k : port ≠ 0x60 → ~ 0x3F8 ≤ port ≤ 0x3FD → X k → X (dev_in port k).2;
  quiet_word port k : X k → X (dev_inw port k).2
}.

(** Finding the drives keeps such a property. *)
Section probing.
Context {D : Type} `{WordDevice D} (X : D → Prop) (HX : quiet X).

Definition channel (io : Z) : Prop := io = 0x1F0 ∨ io = 0x170.

Lemma channel_port io reg : channel io → 0 ≤ reg ≤ 7 →
  (io + reg ∉ PIC_PORTS) ∧ ~ 0x3F8 ≤ io + reg ≤ 0x3FD ∧ io + reg ≠ 0x60 ∧ w16 (io + reg) = io + reg.
Proof.
  intros Hio Hr. unfold PIC_PORTS. rewrite !not_elem_of_cons. unfold channel in Hio. rewrite w16_small by lia.
  split_and!; try lia. apply not_elem_of_nil.
Qed.

Lemma wlp_out io reg v k : channel io → 0 ≤ reg ≤ 7 → X k → wlp (outb (io + reg) v) k (λ _ k', X k').
Proof.
  intros Hio Hr Hk. destruct (channel_port io reg Hio Hr) as (H1 & H2 & _ & H4). unfold wlp, outb, modify. rewrite H4.
  apply (quiet_out _ HX); [done|lia|done].
Qed.

Lemma wlp_pause k : X k → wlp io_wait k (λ _ k', X k').
Proof.
  intros Hk. unfold wlp, io_wait, outb, modify. change (w16 0x80) with 0x80. apply (quiet_out _ HX); [|lia|done].
  unfold PIC_PORTS. rewrite !not_elem_of_cons. split_and!; try lia. apply not_elem_of_nil.
Qed.

Lemma wlp_in io reg k : channel io → 0 ≤ reg ≤ 7 → X k → wlp (inb (io + reg)) k (λ _ k', X k').
Proof.
  intros Hio Hr Hk. destruct (channel_port io reg Hio Hr) as (_ & H2 & H3 & H4). unfold wlp, inb. rewrite H4.
  pose proof (quiet_in _ HX (io + reg) k H3 H2 Hk) as Hx. by destruct (dev_in (io + reg) k).
Qed.

Lemma wlp_read_words n io k : X k → wlp (read_words n io) k (λ _ k', X k').
Proof.
  revert k. induction n as [|n IH]; intros k Hk; cbn [read_words]; [done|]. apply wlp_bind.
  unfold wlp at 1, inw. pose proof (quiet_word _ HX (w16 (io + ATA_REG_DATA)) k Hk) as Hx.
  destruct (dev_inw _ k) as [x k']. apply wlp_bind. eapply wlp_mono; [by apply IH|]. intros ws k2 Hk2. exact Hk2.
Qed.

Lemma wlp_identify_wait n io k : channel io → X k → wlp (identify_wait n io) k (λ _ k', X k').
Proof.
  intros Hio. revert k. induction n as [|n IH]; intros k Hk; cbn [identify_wait]; [done|].
  apply wlp_bind. eapply wlp_mono; [apply (wlp_in io 7); [done|lia|done]|]. intros x k' Hk'.
  destruct (truth _); [done|]. destruct (truth _); [done|by apply IH].
Qed.

Lemma wlp_bsy n io k : channel io → X k → wlp (ata_wait_bsy n io) k (λ _ k', X k').
Proof.
  intros Hio. revert k. induction n as [|n IH]; intros k Hk; cbn [ata_wait_bsy]; [done|].
  apply wlp_bind. eapply wlp_mono; [apply (wlp_in io 7); [done|lia|done]|]. intros x k' Hk'.
  destruct (truth _); [by apply IH|done].
Qed.

Lemma wlp_identify n io ctrl sel dr k :
  channel io → X k → wlp (ata_identify n io ctrl sel) (dr, k) (λ _ r, X r.2).
Proof.
  intros Hio Hk. unfold ata_identify. cbv zeta. apply wlp_bind. apply wlp_zoom. cbn [snd fst].
  eapply wlp_mono with (λ _ k', X k').
  { repeat (apply wlp_bind; eapply wlp_mono; [first [apply (wlp_out io); [done|split; vm_compute; congruence|eassumption] | by apply wlp_pause]|];
      cbv beta; intros ? ? ?). by apply wlp_pause. }
  cbn [snd fst]. intros _ k1 Hk1. apply wlp_bind. apply wlp_zoom. cbn [snd fst].
  eapply wlp_mono; [apply (wlp_in io 7); [done|lia|done]|]. cbn [snd fst]. intros st k2 Hk2.
  destruct (st =? 0); [exact Hk2|]. apply wlp_bind. apply wlp_zoom. cbn [snd fst].
  eapply wlp_mono; [by apply wlp_bsy|]. cbn [snd fst]. intros _ k3 Hk3. apply wlp_bind. apply wlp_zoom. cbn [snd fst].
  eapply wlp_mono; [apply (wlp_in io 4); [done|lia|done]|]. cbn [snd fst]. intros m k4 Hk4. apply wlp_bind. apply wlp_zoom. cbn [snd fst].
  eapply wlp_mono; [apply (wlp_in io 5); [done|lia|done]|]. cbn [snd fst]. intros h k5 Hk5.
  destruct (negb _ || negb _); [exact Hk5|]. apply wlp_bind. apply wlp_zoom. cbn [snd fst].
  eapply wlp_mono; [by apply wlp_identify_wait|]. cbn [snd fst]. intros ok k6 Hk6.
  destruct (negb ok); [exact Hk6|]. apply wlp_bind. apply wlp_zoom. cbn [snd fst].
  eapply wlp_mono; [by apply wlp_read_words|]. cbn [snd fst]. intros ws k7 Hk7. exact Hk7.
Qed.

Lemma wlp_probe n i io ctrl sel (a : ata D) :
  channel io → X (ports a) → wlp (probe n i io ctrl sel) a (λ _ a', X (ports a')).
Proof.
  intros Hio Hk. unfold probe. apply wlp_bind. unfold wlp at 1, gets. destruct (arr_get (drives a) i) as [d|]; [|done].
  apply wlp_bind. unfold wlp at 1. cbn [expect ret]. apply wlp_bind. apply wlp_zoom.
  eapply wlp_mono; [by apply wlp_identify|]. intros found r Hr. by destruct found.
Qed.

Lemma wlp_ata_init n (a : ata D) : X (ports a) → wlp (ata_init n) a (λ _ a', X (ports a')).
Proof.
  intros Hk. unfold ata_init. apply wlp_bind. unfold wlp at 1, modify. apply wlp_bind.
  eapply wlp_mono; [apply (wlp_for (λ a', X (ports a'))); [|exact Hk]|].
  { intros i a1 Ha1. apply wlp_bind. unfold wlp at 1, gets. destruct (arr_get (drives a1) i) as [d|]; [|done]. exact Ha1. }
  intros [] a1 Ha1. do 3 (apply wlp_bind; eapply wlp_mono; [apply wlp_probe; [first [by left|by right]|eassumption]|]; intros [] ? ?).
  apply wlp_probe; [by right|done].
Qed.

End probing.

Lemma cstring_bytes l : Forall (λ x, 0 ≤ x < 256) l → Forall (λ x, 0 ≤ x < 256) (cstring l).
Proof. induction 1 as [|x l Hx _ IH]; cbn; [done|]. destruct (x =? 0); by constructor. Qed.

Lemma entry_name_bytes b i e : entry_at b i = Some e → Forall (λ x, 0 ≤ x < 256) b → Forall (λ x, 0 ≤ x < 256) (e_name e).
Proof.
  unfold entry_at. cbv zeta. intros He Hb. destruct (_ && _); [|done]. injection He as <-. cbn. unfold slice.
  by apply Forall_take, Forall_drop.
Qed.

Lemma until_end_elem e es : e ∈ until_end es → e ∈ es.
Proof.
  induction es as [|x es IH]; cbn; [done|]. destruct (entry_first x =? 0); [by intros Hx%elem_of_nil|].
  rewrite !elem_of_cons. intros [->|Hx]; [by left|right; by apply IH].
Qed.

Lemma filtered_bytes (P : Z → Prop) `{∀ x, Decision (P x)} l :
  Forall (λ x, 0 ≤ x < 256) l → Forall (λ x, 0 ≤ x < 256) (filter P l).
Proof. rewrite !Forall_forall. intros Hl x [_ Hx]%list_elem_of_filter. by apply Hl. Qed.

Lemma short_name_bytes n : Forall (λ x, 0 ≤ x < 256) n → Forall (λ x, 0 ≤ x < 256) (short_name n).
Proof.
  intros Hn. unfold short_name. apply Forall_app. split; [by apply filtered_bytes, Forall_take|].
  case_bool_decide; [done|]. constructor; [lia|]. by apply filtered_bytes, Forall_take, Forall_drop.
Qed.

Lemma listing_name_bytes {E} v (s : fs E) cs i e :
  mounted v s → listing (dir_entries v s cs) !! i = Some e → Forall (λ x, 0 ≤ x < 256) (short_name (e_name e)).
Proof.
  intros Hm Hi. apply short_name_bytes. apply list_elem_of_lookup_2 in Hi. unfold listing in Hi.
  apply list_elem_of_filter in Hi as [_ Hi%until_end_elem]. unfold dir_entries in Hi.
  apply list_elem_of_In, in_concat in Hi as (l & Hc%list_elem_of_In & Hl%list_elem_of_In).
  apply list_elem_of_fmap in Hc as (cl & -> & _). unfold entries_of in Hl. apply list_elem_of_omap in Hl as (j & _ & Hj). eapply entry_name_bytes; [exact Hj|].
  pose proof (contents_bytes v s [cl] Hm) as Hb. unfold contents in Hb. cbn in Hb. by rewrite app_nil_r in Hb.
Qed.

Lemma login_printable n ks u p rest : login n ks = Some (u, p, rest) → Forall printable u.
Proof.
  revert ks. induction n as [|n IH]; intros ks; cbn [login]; [done|].
  destruct (edit 20 [] ks) as [[u1 k1]|] eqn:E1; [|done]. destruct (edit 20 [] k1) as [[p1 k2]|]; [|done].
  destruct (_ || _); [apply IH|]. intros [= <- _ _]. by destruct (edit_bounds _ _ _ _ _ E1) as [Hp _].
Qed.

Section system.
Context {D : Type} `{Pc D} `{CodeAddresses}.
Context (polls fuel : nat) (KP : Z).
Context (Hdisk : (disk_delay < polls)%nat) (Hready : (disk_delay < ready_timeout)%nat) (Huart : (uart_delay < polls)%nat).
Implicit Types (s : system D) (w : space) (v : volume) (ks : list Z) (c : chip * chip).

(** The keys still to come, and the state of the interrupt controllers. *)
Definition calm ks c (k : D) : Prop := in_inv k ∧ typed_ahead k = ks ∧ chips k = c.

Lemma chips_elsewhere port val (k : D) : port ∉ PIC_PORTS → chips (dev_out port val k) = chips k.
Proof.
  intros Hp. unfold PIC_PORTS in Hp. rewrite !not_elem_of_cons in Hp. destruct Hp as (P1 & P2 & P3 & P4 & _).
  rewrite chips_dev_out. unfold chips_out, PIC1_COMMAND, PIC1_DATA, PIC2_COMMAND, PIC2_DATA.
  rewrite !(proj2 (Z.eqb_neq _ _)) by done. by destruct (chips k).
Qed.

Lemma calm_quiet ks c : quiet (calm ks c).
Proof.
  split.
  - intros port val k Hp _ (G1 & G2 & G3). destruct (pc_out_keys port val k G1) as [K1 K2].
    split_and!; [done|congruence|]. by rewrite chips_elsewhere.
  - intros port k Hp _ (G1 & G2 & G3). destruct (pc_in_keys port k Hp G1) as [K1 K2].
    split_and!; [done|congruence|]. by rewrite chips_dev_in.
  - intros port k (G1 & G2 & G3). destruct (pc_word_keys port k G1) as [K1 K2]. destruct (pc_word port k) as [_ K3].
    split_and!; [done|congruence|congruence].
Qed.

Lemma uart_quiet : quiet (uart_ready (K := D)).
Proof.
  unfold uart_ready. split.
  - intros port val k _ Hp [G1 G2]. destruct (uart_dev_out port val k) as (b & _ & ->). by rewrite uart_elsewhere.
  - intros port k _ Hp [G1 G2]. by rewrite pc_in_uart.
  - intros port k [G1 G2]. by rewrite (proj1 (pc_word port k)).
Qed.

Lemma calm_kept ks c : kept 0x1F0 (calm ks c).
Proof.
  assert (Hch : ∀ reg, 0 ≤ reg ≤ 7 → (0x1F0 + reg ∉ PIC_PORTS) ∧ ~ 0x3F8 ≤ 0x1F0 + reg ≤ 0x3FD ∧ 0x1F0 + reg ≠ 0x60).
  { intros reg Hr. destruct (channel_port 0x1F0 reg) as (? & ? & ? & _); [by left|done|]. done. }
  split.
  - intros k (G1 & G2 & G3). destruct (pc_in_keys 0x3FD k) as [K1 K2]; [done|done|].
    split_and!; [done|congruence|]. by rewrite chips_dev_in.
  - intros val k (G1 & G2 & G3). destruct (pc_out_keys 0x3F8 val k G1) as [K1 K2].
    split_and!; [done|congruence|]. rewrite chips_elsewhere; [done|]. refine (bool_decide_unpack _ _). by vm_compute.
  - intros reg val k Hr. destruct (Hch reg) as (? & ? & ?); [lia|]. apply (quiet_out _ (calm_quiet ks c)); [done|lia].
  - intros k. destruct (Hch 7) as (? & ? & ?); [lia|]. by apply (quiet_in _ (calm_quiet ks c)).
  - intros k. apply (quiet_word _ (calm_quiet ks c)).
Qed.

(** The machine in order: memory with the space [w], devices with the keys [ks] and the
    controllers [c], the volume [v], the blocks [held] and room for [r] bytes. *)
Definition up w ks c v s (held : list (Z * Z)) (r : Z) : Prop :=
  storage_ready (space_ok [KP] w) (calm ks c) v (sy_env s) held r.

Let E : FatEnv (storage D vm) := storage_env polls.
#[local] Existing Instance E.

Let EO w ks c : FatEnvOk (storage D vm) :=
  storage_ok (H3 := vm_page_provider_ok [KP]) (space_ok [KP] w) (space_ok_pages [KP] w) (calm ks c) (calm_kept ks c)
    polls Hdisk Hready Huart.

(** What has been sent over the serial line, and a line of the log. *)
Definition sent s : list Z := u_sent (uart_of (machine (st_con (sy_env s)))).

Definition logged (msg : string) : list Z := str "[INFO] " ++ str msg ++ [10].

Lemma wp_say_sent w ks c v msg s held r (Q : unit → system D → Prop) :
  up w ks c v s held r → 0 ∉ str msg →
  (∀ c' : console D, let s' := set_sy_env (set_st_con c' (sy_env s)) s in
     up w ks c v s' held r → sent s' = sent s ++ logged msg → Q tt s') → wp (say polls msg) s Q.
Proof.
  intros Hs Hm HQ. unfold say, elog, in_load, in_fs, log, in_env. do 3 wp_step.
  pose proof (@fe_log_ok _ _ (EO w ks c) v _ held r _ (str msg) Hs (lit_holds _ Hm) (str_bytes _)) as Hw.
  pose proof Hs as [_ (_ & _ & _ & Hl & Hu & _)].
  assert (Hx : wp (log_info polls (lit msg)) (st_con (sy_env s)) (λ _ (c' : console D),
    u_sent (uart_of (machine c')) = sent s ++ logged msg))
    by (apply (wp_log_any (λ _, True)) with (str msg); auto using lit_holds, str_bytes).
  unfold fe_log, E, storage_env, zoom, wp in *. change (env (ld_fs (sy_load s))) with (sy_env s).
  destruct (log_info polls (lit msg) (st_con (sy_env s))) as [[] c'| | |]; [|done..]. exact (HQ c' Hw Hx).
Qed.

Lemma wp_say_up w ks c v msg s held r (Q : unit → system D → Prop) :
  up w ks c v s held r → 0 ∉ str msg →
  (∀ c' : console D, up w ks c v (set_sy_env (set_st_con c' (sy_env s)) s) held r →
     Q tt (set_sy_env (set_st_con c' (sy_env s)) s)) → wp (say polls msg) s Q.
Proof. intros Hs Hm HQ. apply (wp_say_sent w ks c v msg s held r); [done|done|]. intros c' s' Hs' _. by apply HQ. Qed.

(** Drawing on the screen. *)
Lemma storage_draw w ks c v e held r (op : M (console D) unit) (Q : unit → storage D vm → Prop) :
  storage_ready (space_ok [KP] w) (calm ks c) v e held r → draws op →
  (∀ c' : console D, storage_ready (space_ok [KP] w) (calm ks c) v (set_st_con c' e) held r → drawn (st_con e) c' → Q tt (set_st_con c' e)) →
  wp (zoom st_con set_st_con op) e Q.
Proof.
  intros [Hh (G1 & G2 & G3 & G4 & G5)] Hd HQ. wp_step. apply wp_draws; [done|done|]. intros c' Hc'. apply HQ; [|done].
  destruct Hc' as (m & row & col & Hm & ->). split; [exact Hh|]. exact (conj G1 (conj G2 (conj G3 (conj Hm G5)))).
Qed.

Lemma wp_on_draw w ks c v (op : M (console D) unit) s held r (Q : unit → system D → Prop) :
  up w ks c v s held r → draws op →
  (∀ e, up w ks c v (set_sy_env e s) held r → Q tt (set_sy_env e s)) → wp (on_con op) s Q.
Proof.
  intros Hs Hd HQ. unfold on_con, in_load, in_fs, in_env. do 3 wp_step. apply (storage_draw w ks c v _ held r); [done|done|].
  intros c' Hc' _. by apply HQ.
Qed.

(** The file system after a listing: nodes and layout are the same. *)
Definition listed (ds : gmap Z dirent) e (f : fs (storage D vm)) : fs (storage D vm) :=
  mkFs (bpb f) (fat_start_sector f) (data_start_sector f) (root_cluster f) (fs_root f) (nodes f) ds e.

(** One round of the listing. *)
Lemma wp_list_root w ks c v b cs (f : fs (storage D vm)) held r (Q : unit → fs (storage D vm) → Prop) :
  mounted v f → nodes f !! fs_root f = Some (root_node b) → chain v f (bpb_root_cluster b) cs → (length cs < fuel)%nat →
  @fe_ready _ _ (EO w ks c) v (env f) held r → csize f + 640 ≤ r →
  (∀ ds e, @fe_ready _ _ (EO w ks c) v e held r → Q tt (listed ds e f)) → wp (list_root polls fuel) f Q.
Proof.
  intros Hm Hn Hch Hf Hr Hroom HQ. unfold list_root. wp_step.
  apply wp_for_ret with (λ _ f', ∃ ds e, f' = listed ds e f ∧ @fe_ready _ _ (EO w ks c) v e held r).
  - exists (dirents f), (env f). split; [by destruct f|done].
  - intros i f' Hi (ds & e & -> & He). change (Z.of_nat (trips 0 20)) with 20 in Hi.
    assert (L : same_layout f (listed ds e f)) by done. wp_step. wp_step. unfold vfs_readdir. wp_step. wp_step.
    unfold node_at at 1. wp_step. wp_step. eapply wp_expect; [exact Hn|]. wp_step. unfold directory_callback.
    cbn [n_flags root_node]. wp_step. eapply wp_expect; [reflexivity|]. change (Z.land FS_DIRECTORY 0x7 =? FS_DIRECTORY) with true.
    cbn [n_readdir]. eapply wp_expect; [reflexivity|]. cbn [run_readdir].
    apply (wp_fat32_readdir (H0 := EO w ks c) v fuel _ (root_node b) (bpb_root_cluster b) cs i _ held r);
      [done|exact Hn|done|by apply (chain_layout v f)|done|lia|exact He|exact Hroom|].
    change (dir_entries v (listed ds e f) cs) with (dir_entries v f cs).
    destruct (listing (dir_entries v f cs) !! Z.to_nat i) as [x|] eqn:Ex.
    + intros q e1 Hq He1. destruct (Z.eqb_spec q 0); [done|]. wp_step. wp_step. wp_step. eapply wp_expect; [apply lookup_insert_eq|].
      cbn [de_name]. wp_step.
      eapply (@wp_log _ _ (EO w ks c)); [exact He1|apply (holds_cstring _ [])| |].
      { by eapply cstring_bytes, listing_name_bytes. }
      intros e2 He2. wp_step. eapply (@wp_free _ _ (EO w ks c)); [exact He2|]. intros e3 He3. wp_step.
      eexists _, e3. split; [reflexivity|done].
    + intros e1 He1. change (0 =? 0) with true. cbv iota. wp_step. wp_step. by apply (HQ ds e1).
  - intros f' (ds & e & -> & He). wp_step. by apply HQ.
Qed.

(** The machine before its disk is known: the heap is one piece, the disk of the primary
    channel is at rest as master. *)
Record powered w ks c v s (r : Z) : Prop := mkPowered {
  po_heap : heap_ready (space_ok [KP] w) (sy_env s) [] r;
  po_con : length (VGA_MEMORY (st_con (sy_env s))) = 4000%nat ∧ length (login_username (st_con (sy_env s))) = 32%nat ∧
    length (login_password (st_con (sy_env s))) = 32%nat;
  po_dev : uart_ready (machine (st_con (sy_env s))) ∧ calm ks c (machine (st_con (sy_env s)));
  po_table : length (st_drives (sy_env s)) = 4%nat;
  po_disk : let k := disk_of (machine (st_con (sy_env s))) in
    disk_wf k ∧ d_phase k = Idle ∧ d_busy k = 0%nat ∧ d_slave k = false ∧ length (d_id k) = 256%nat ∧
    Forall (λ x, 0 ≤ x < 65536) (d_id k) ∧ d_size k ≤ 268435456 ∧ v = volume_of (d_size k) (d_data k)
}.

(** A message before the disk is known. *)
Lemma wp_say_early w ks c v msg s r (Q : unit → system D → Prop) :
  powered w ks c v s r → 0 ∉ str msg →
  (∀ e, powered w ks c v (set_sy_env e s) r → Q tt (set_sy_env e s)) → wp (say polls msg) s Q.
Proof.
  intros [G1 (V1 & V2 & V3) [U1 U2] G4 G5] Hm HQ. unfold say, elog, in_load, in_fs, log, in_env. do 3 wp_step.
  unfold fe_log, E, storage_env. wp_step.
  set (k0 := disk_of (machine (st_con (sy_env s)))) in *.
  apply (wp_log_any (λ k, disk_of k = k0 ∧ calm ks c k)) with (str msg); [| |by split|done|done|done|by apply lit_holds|apply str_bytes|].
  - intros k [<- Hk]. split; [apply board_poll|by apply (kept_poll _ _ (calm_kept ks c))].
  - intros x k [<- Hk]. split; [apply board_send|by apply (kept_send _ _ (calm_kept ks c))].
  - intros c' [Hv' _] Hu' [Hk1 Hk2] _ [Hn1 Hn2]. eapply (HQ (set_st_con c' (sy_env s))).
    split; cbn; [exact G1|by rewrite Hn1, Hn2|done|done|]. by rewrite Hk1.
Qed.

(** Finding the disk. *)
Lemma wp_find_disk w ks c v s r (Q : unit → system D → Prop) :
  powered w ks c v s r → (∀ e, up w ks c v (set_sy_env e s) [] r → Q tt (set_sy_env e s)) → wp (on_ata (ata_init polls)) s Q.
Proof.
  intros [G1 (V1 & V2 & V3) [U1 U2] G4 (K1 & K2 & K3 & K4 & K5 & K6 & K7 & ->)] HQ.
  unfold on_ata, in_load, in_fs, in_env. do 4 wp_step. fold (sy_env s). set (e := sy_env s) in *.
  eapply wp_mono; [apply wp_wlp_and|].
  - apply (ata_init_spec polls (st_ata e)); done.
  - apply (wlp_ata_init (λ k, uart_ready k ∧ calm ks c k)); [|by split].
    split.
    + intros port x k P1 P2 [A B]. split; [by apply (quiet_out _ uart_quiet)|by apply (quiet_out _ (calm_quiet ks c))].
    + intros port k P1 P2 [A B]. split; [by apply (quiet_in _ uart_quiet)|by apply (quiet_in _ (calm_quiet ks c))].
    + intros port k [A B]. split; [by apply (quiet_word _ uart_quiet)|by apply (quiet_word _ (calm_quiet ks c))].
  - intros [] a [(A1 & A2 & (R1 & R2 & R3 & R4 & R5 & R6) & A4) [B1 B2]]. eapply (HQ (set_ata a e)). split; [exact G1|].
    cbn [ports st_ata] in R3, R4, A4. unfold drive_index in A4. rewrite K4 in A4. unfold devices_ready. cbn. rewrite R3, R4. unfold disk_wf. rewrite R3.
    split_and!; try done. unfold disk_idle. rewrite R1, R2. split_and!; [done|lia|by right].
Qed.

(** A mounted volume: the layout of the boot record [b], and the root directory in [cs]. *)
Definition fat32_volume v (b : fat_bpb) (cs : list Z) (f : fs (storage D vm)) : Prop :=
  1 ≤ v_sectors v ∧ bpb_at (v_sector v 0) = Some b ∧ mounted v (laid_out b f) ∧ fat_size_32 b ≠ 0 ∧ num_fats b ≠ 0 ∧
  chain v (laid_out b f) (bpb_root_cluster b) cs ∧ (length cs < fuel)%nat.

(** The file system once it is mounted, with the nodes and entries [nd] and [ds]. *)
Definition at_root (b : fat_bpb) (root : Z) ds e (f : fs (storage D vm)) : fs (storage D vm) :=
  listed ds e (set_node root (root_node b) (set_root root (laid_out b f))).

Definition set_sy_fs (f : fs (storage D vm)) s : system D := set_load (set_fs f (sy_load s)) s.

Lemma wp_boot_storage w ks c v b cs s r (Q : unit → system D → Prop) :
  powered w ks c v s r → fat32_volume v b cs (ld_fs (sy_load s)) → csize (laid_out b (ld_fs (sy_load s))) + 888 ≤ r →
  (∀ root ds e, storage_ready (space_ok [KP] w) (calm ks c) v e [] (r - 248) →
     Q tt (set_sy_fs (at_root b root ds e (ld_fs (sy_load s))) s)) →
  wp (boot_storage polls fuel) s Q.
Proof.
  intros Hp (F1 & F2 & F3 & F4 & F5 & F6 & F7) Hroom HQ. unfold boot_storage.
  wp_step. apply (wp_say_early w ks c v _ _ r _ Hp); [no_nul|]. intros e1 Hp1.
  wp_step. apply (wp_find_disk w ks c v _ r _ Hp1). intros e2 Hu2.
  wp_step. apply (wp_say_up w ks c v _ _ [] r _ Hu2); [no_nul|]. intros e3 Hu3.
  wp_step. unfold in_load at 1, in_fs at 1. do 2 wp_step. set (f := ld_fs (sy_load s)) in *.
  assert (Hwf : vol_wf v) by exact (storage_vol_wf _ _ v _ _ _ Hu3).
  assert (Hcs : 512 ≤ csize (laid_out b f)) by (destruct F3 as (_ & _ & ? & _); unfold csize; lia).
  apply (wp_fat32_init (H0 := EO w ks c) v b _ r); [done|done|exact Hu3|lia|done|].
  assert (Hspc : (bytes_per_sector b =? 0) || (sectors_per_cluster b =? 0) || (fat_size_32 b =? 0) || (num_fats b =? 0) = false).
  { destruct F3 as (_ & G1 & G2 & _). cbn in G1, G2. lia. }
  rewrite Hspc. intros root e4 Hroot He4. apply (@fe_forget _ _ (EO w ks c)) in He4. set (s4 := set_load _ _).
  wp_step. apply (wp_say_up w ks c v _ s4 [] (r - 248) _ He4); [no_nul|]. intros e5 Hu5.
  unfold in_load, in_fs. do 2 wp_step.
  apply (wp_list_root w ks c v b cs _ [] (r - 248)); [done|apply lookup_insert_eq| |done|exact Hu5|..].
  - by apply (chain_layout v (laid_out b f)).
  - change (csize _) with (csize (laid_out b f)). lia.
  - intros ds e6 He6. exact (HQ root ds e6 He6).
Qed.

(** A line of the interrupt controllers is opened; the others are as they were. *)
Definition unmasked (irq : Z) c c' : Prop :=
  (∀ j, 0 ≤ j < 16 → line_masked c' j = if irq =? j then false else line_masked c j) ∧
  operational c'.1 ∧ operational c'.2.

Lemma wp_unmask ks c irq (k : D) (Q : unit → D → Prop) :
  0 ≤ irq < 8 → operational c.1 → operational c.2 → uart_ready k → calm ks c k →
  (∀ k' c', uart_ready k' → disk_of k' = disk_of k → calm ks c' k' → unmasked irq c c' → Q tt k') →
  wp (pic_clear_mask irq) k Q.
Proof.
  intros Hirq O1 O2 Hu (C1 & C2 & C3) HQ. subst c.
  eapply wp_mono; [apply wp_wlp_and; [apply (pic_mask_line k false irq); [done|done|lia]|]|].
  - instantiate (1 := λ _ k', uart_of k' = uart_of k ∧ disk_of k' = disk_of k ∧ in_inv k' ∧ typed_ahead k' = ks).
    cbv iota. unfold pic_clear_mask, mask_port. destruct (Z.ltb_spec irq 8); [|lia]. apply wlp_bind. unfold wlp at 1, inb.
    change (w16 PIC1_DATA) with 0x21. pose proof (pc_in_uart 0x21 k ltac:(lia)) as U1.
    pose proof (pc_in_disk 0x21 k ltac:(lia)) as D1. destruct (pc_in_keys 0x21 k ltac:(lia) C1) as [K1 K2].
    destruct (dev_in 0x21 k) as [x k1]. cbn [snd] in *. unfold wlp, outb, modify. change (w16 PIC1_DATA) with 0x21.
    destruct (uart_dev_out 0x21 (w8 (w8 (Z.land (w8 x) (Z.lnot (Z.shiftl 1 irq))))) k1) as (bz & _ & U2).
    rewrite uart_elsewhere in U2 by lia. destruct (pc_out_keys 0x21 (w8 (w8 (Z.land (w8 x) (Z.lnot (Z.shiftl 1 irq))))) k1 K1) as [K3 K4].
    split_and!; [congruence| |done|congruence]. rewrite disk_dev_other by lia. done.
  - intros [] k' [(M1 & M2 & M3 & _) (U1 & D1 & K1 & K2)]. apply (HQ k' (chips k')); [|done|done|done].
    unfold uart_ready in *. by rewrite U1.
Qed.

(** The interval timer takes part in nothing else. *)
Lemma wp_pit ks c port x (k : D) (Q : unit → D → Prop) :
  port = 0x40 ∨ port = 0x43 → uart_ready k → calm ks c k →
  (∀ k', uart_ready k' → disk_of k' = disk_of k → calm ks c k' → Q tt k') → wp (outb port x) k Q.
Proof.
  intros Hp Hu Hc HQ. unfold outb. wp_step. rewrite w16_small by lia.
  assert (Hn : port ∉ PIC_PORTS) by (unfold PIC_PORTS; rewrite !not_elem_of_cons; split_and!; try lia; apply not_elem_of_nil).
  apply HQ; [apply (quiet_out _ uart_quiet); [done|lia|done]|apply disk_dev_other; lia|].
  apply (quiet_out _ (calm_quiet ks c)); [done|lia|done].
Qed.

(** A change of the devices that leaves disk and serial port alone. *)
Lemma up_machine w ks c c' v s held r (k : D) (i : intr unit) :
  up w ks c v s held r → uart_ready k → disk_of k = disk_of (machine (st_con (sy_env s))) → calm ks c' k →
  up w ks c' v (set_tables i (set_sy_env (set_st_con (set_machine k (st_con (sy_env s))) (sy_env s)) s)) held r.
Proof.
  intros [Hh (G1 & G2 & G3 & G4 & G5 & G6 & G7 & G8 & G9 & G10)] Hu Hd Hc. split; [exact Hh|].
  destruct G6 as [? G6]. unfold devices_ready, drive_at, st_ata in *. cbn in *. rewrite Hd. by split_and!.
Qed.

Definition with_handler (n : Z) (h : handler) (i : intr unit) : intr unit :=
  mkIntr (idt i) (idtp i) (arr_set (interrupt_handlers i) n (Some h)) (idtr i) (vga i) tt.

Lemma length_with_handler n h i : length (interrupt_handlers (with_handler n h i)) = length (interrupt_handlers i).
Proof. apply length_arr_set. Qed.

Lemma wp_timer_on w ks c v s held r (Q : unit → system D → Prop) :
  up w ks c v s held r → operational c.1 → operational c.2 → length (interrupt_handlers (sy_intr s)) = 256%nat →
  (∀ e c', up w ks c' v (set_sy_env e s) held r → unmasked 0 c c' →
     Q tt (set_tables (with_handler 32 timer_callback_fn (sy_intr s)) (set_sy_env e s))) →
  wp (on_intr (timer_init 100)) s Q.
Proof.
  intros Hs O1 O2 Hl HQ. pose proof Hs as [_ (Hc & _ & _ & _ & Hu & _)].
  unfold on_intr, timer_init, in_handlers, register_interrupt_handler, on_dev. do 5 wp_step.
  rewrite (proj2 (in_range_true _ 32)) by (unfold id; cbn; lia). wp_step. change (100 =? 0) with false. cbv iota zeta.
  wp_step. cbn [dev intr_of set_interrupt_handlers].
  wp_step. eapply (wp_pit ks c); [by right|exact Hu|exact Hc|]. intros k1 U1 D1 C1.
  wp_step. eapply (wp_pit ks c); [by left|exact U1|exact C1|]. intros k2 U2 D2 C2.
  wp_step. eapply (wp_pit ks c); [by left|exact U2|exact C2|]. intros k3 U3 D3 C3.
  eapply (wp_unmask ks c); [lia|done|done|exact U3|exact C3|]. intros k4 c4 U4 D4 C4 Hm.
  refine (HQ _ c4 (up_machine w ks c c4 v s held r k4 (sy_intr s) Hs U4 _ C4) Hm). congruence.
Qed.

Lemma wp_keyboard_on w ks c v s held r (Q : unit → system D → Prop) :
  up w ks c v s held r → operational c.1 → operational c.2 → length (interrupt_handlers (sy_intr s)) = 256%nat →
  (∀ e c', up w ks c' v (set_sy_env e s) held r → unmasked 1 c c' →
     Q tt (set_tables (with_handler 33 keyboard_callback_fn (sy_intr s)) (set_sy_env e s))) →
  wp (on_intr keyboard_init) s Q.
Proof.
  intros Hs O1 O2 Hl HQ. pose proof Hs as [_ (Hc & _ & _ & _ & Hu & _)].
  unfold on_intr, keyboard_init, in_handlers, register_interrupt_handler, on_dev. do 5 wp_step.
  rewrite (proj2 (in_range_true _ 33)) by (unfold id; cbn; lia). wp_step. wp_step. cbn [dev intr_of set_interrupt_handlers].
  eapply (wp_unmask ks c); [lia|done|done|exact Hu|exact Hc|]. intros k4 c4 U4 D4 C4 Hm.
  exact (HQ _ c4 (up_machine w ks c c4 v s held r k4 (sy_intr s) Hs U4 D4 C4) Hm).
Qed.

(** [syscall_init]: a log line, the handler, and a gate that user mode may enter. *)
Definition with_syscalls (isr128 : Z) (i : intr unit) : intr unit :=
  let i' := with_handler 0x80 syscall_handler_fn i in
  mkIntr (arr_set (idt i) 0x80 (gate isr128 0x08 0xEE)) (idtp i') (interrupt_handlers i') (idtr i') (vga i') tt.

Lemma wp_syscalls_on w ks c v isr128 s held r (Q : unit → system D → Prop) :
  up w ks c v s held r → length (interrupt_handlers (sy_intr s)) = 256%nat → 256 ≤ Z.of_nat (length (idt (sy_intr s))) →
  (∀ c' : console D, up w ks c v (set_sy_env (set_st_con c' (sy_env s)) s) held r →
     Q tt (set_tables (with_syscalls isr128 (sy_intr s)) (set_sy_env (set_st_con c' (sy_env s)) s))) →
  wp (start_syscalls polls isr128) s Q.
Proof.
  intros Hs Hl1 Hl2 HQ. unfold start_syscalls, syscall_init, in_handlers, register_interrupt_handler, idt_set_gate.
  do 3 wp_step. cbn [fst snd].
  pose proof (@fe_log_ok _ _ (EO w ks c) v _ held r (lit "Syscalls: Initializing...") (str "Syscalls: Initializing...") Hs
    ltac:(apply lit_holds; no_nul) (str_bytes _)) as Hw.
  unfold fe_log, E, storage_env, zoom, wp in Hw. unfold wp at 1.
  destruct (log_info polls (lit "Syscalls: Initializing...") (st_con (sy_env s))) as [[] c'| | |]; [|done..].
  do 5 wp_step. cbn [fst snd]. rewrite (proj2 (in_range_true _ 0x80)) by (unfold id; cbn; lia). do 3 wp_step.
  cbn [idt set_interrupt_handlers intr_of]. rewrite (proj2 (in_range_true _ 0x80)) by lia. wp_step. exact (HQ _ Hw).
Qed.

(** What process.c does to the services of the kernel: it takes a stack. *)
Lemma wlp_process_init (R : kernel → Prop) (p : sched kernel) :
  wlp (ks_kmalloc KERNEL_STACK_SIZE) (Process.env p) (λ _ k, R k) → (∀ k, R k → wlp ks_kernel_pd k (λ _ k', R k')) →
  wlp (process_init;; scheduler_init) p (λ _ p', R (Process.env p')).
Proof.
  intros Hk Hd.
  assert (Hupd : ∀ (I : kernel → Prop) i g (q : sched kernel), I (Process.env q) → wlp (upd i g) q (λ _ q', I (Process.env q'))).
  { intros I i g q Hq. unfold upd, proc_at. do 2 apply wlp_bind. unfold wlp at 1, gets.
    unfold wlp at 1. by destruct (arr_get (process_table q) i). }
  assert (Hserve : ∀ A (I I' : kernel → Prop) (m : M kernel A) (q : sched kernel), I (Process.env q) →
    (∀ k, I k → wlp m k (λ _ k', I' k')) → wlp (service m) q (λ _ q', I' (Process.env q'))).
  { intros A I I' m q Hq Hm. unfold service. apply wlp_zoom. by apply Hm. }
  apply wlp_bind. eapply wlp_mono with (λ _ p', R (Process.env p')); [|intros [] q Hq; exact Hq].
  unfold process_init. apply wlp_bind.
  eapply wlp_mono; [apply (wlp_for (λ q, Process.env q = Process.env p)); [|done]|].
  { intros i q Hq. unfold clear_slot. apply wlp_bind. eapply wlp_mono; [by apply (Hupd (λ k, k = Process.env p))|].
    intros [] q1 Hq1. by apply (Hupd (λ k, k = Process.env p)). }
  intros [] q0 Hq0. cbv beta in Hq0.
  do 2 (apply wlp_bind; eapply wlp_mono; [apply (Hupd (λ k, k = Process.env p)); eassumption|]; cbv beta; intros [] ? ?).
  apply wlp_bind. eapply wlp_mono; [apply (Hserve _ (λ k, k = Process.env p) R); [eassumption|by intros k ->]|].
  cbv beta zeta. intros stk q1 Hq1. apply wlp_bind. eapply wlp_mono; [by apply (Hupd R)|]. cbv beta. intros [] q2 Hq2.
  apply wlp_bind. eapply wlp_mono; [by apply (Hserve _ R R)|]. cbv beta. intros pd q3 Hq3.
  do 3 (apply wlp_bind; eapply wlp_mono; [apply (Hupd R); eassumption|]; cbv beta; intros [] ? ?).
  do 5 (apply wlp_bind; eapply (wlp_mono _ _ (λ _ q', R (Process.env q'))); [eassumption|]; cbv beta; intros [] ? ?).
  do 2 (apply wlp_bind; eapply wlp_mono; [apply (Hupd R); eassumption|]; cbv beta; intros [] ? ?). done.
Qed.

(** Starting the processes: a stack is taken from the heap, and the idle process is current. *)
Lemma wp_processes_on w ks c v s r (Q : unit → system D → Prop) :
  up w ks c v s [] r → zeroed_table (process_table (sy_procs s)) → is_u32 (ticks (sy_timer s)) → 4160 ≤ r →
  (∀ s', up w ks c v s' [] (r - 4160) → (∃ e, sy_load s' = sy_load (set_sy_env e s)) → sy_intr s' = sy_intr s →
     sched_inv (sched_of s') [] 0 → Q tt s') →
  wp (on_sched (process_init;; scheduler_init)) s Q.
Proof.
  intros Hs Hz Ht Hr HQ. pose proof Hs as [(Hj & Htop & bs & Hi & Hst) Hd]. pose proof (so_inv _ _ _ Hj) as Hv.
  assert (Hkp : ∀ x, vm_inv [KP] x → kernel_pd_phys x = KP).
  { intros x Hx. pose proof (inv_kernel _ _ Hx) as Hk. by apply list_elem_of_singleton in Hk. }
  set (e := sy_env s) in *.
  set (R := λ k : kernel, k_timer k = sy_timer s ∧ k_spaces k = [KP] ∧ ∃ held, storage_ready (space_ok [KP] w) (calm ks c) v
    (mkStorage (k_heap k) (k_vm k) (st_drives e) (st_count e) (st_con e)) held (r - 4160)).
  unfold on_sched. apply wp_zoom. eapply wp_mono; [apply wp_wlp_and; [|apply (wlp_process_init R)]|].
  - apply (wp_process_init (sched_of s) (λ _ p, sched_inv p [] 0)); [done| |change (heap_start (st_heap e) + heap_size (st_heap e) + 4096 ≤ 0xFFFFE000); lia|done].
    split; [by exists bs|]. split; [change (heap_start (st_heap e) + heap_size (st_heap e) ≤ 0xFFFFE000); lia|].
    split; [|exact Ht]. change (vm_inv [kernel_pd_phys (st_pages e)] (st_pages e)). by rewrite Hkp.
  - pose proof (storage_malloc (H3 := vm_page_provider_ok [KP]) (space_ok [KP] w) (space_ok_pages [KP] w) (calm ks c)
      polls v e [] r KERNEL_STACK_SIZE Hs ltac:(done) Hr) as Hw.
    unfold wp, fe_malloc, storage_env, zoom in Hw. unfold wlp, ks_kmalloc, kernel_services, on_mem, zoom.
    change (k_heap (Process.env (sched_of s)), k_vm (Process.env (sched_of s))) with (st_heap e, st_pages e).
    destruct (kmalloc KERNEL_STACK_SIZE (st_heap e, st_pages e)) as [a [h' p']| | |]; [|done..]. destruct Hw as [_ Hw].
    split; [done|]. split; [|by eexists].
    change ([kernel_pd_phys (st_pages e)] = [KP]). by rewrite Hkp.
  - intros k Hk. unfold wlp. cbn. unfold on_vm, zoom, paging_kernel_pd_phys, gets. by destruct k.
  - intros [] p [Hinv (R1 & R2 & held & R3)]. apply storage_forget in R3.
    apply (HQ (put_sched p s)); [exact R3|by eexists|done|].
    replace (sched_of (put_sched p s)) with p; [done|]. unfold sched_of, put_sched. destruct p as [a1 a2 a3 a4 a5 a6 a7 [b1 b2 b3 b4]].
    cbn in *. subst b4. f_equal. f_equal. rewrite Hkp; [done|]. destruct R3 as [(G & _) _]. exact (so_inv _ _ _ G).
Qed.

(** The tables of idt.c when the services run. *)
Definition served (isr128 : Z) (i : intr unit) : intr unit :=
  with_syscalls isr128 (with_handler 33 keyboard_callback_fn (with_handler 32 timer_callback_fn i)).

(** The machine when the services run: the interrupts of timer and keyboard are let through,
    the interrupt flag is set, the idle process is the current one. *)
Record serving w ks c v (isr128 r : Z) s s' : Prop := mkServing {
  sv_up : ∃ c', up w ks c' v s' [] r ∧ line_masked c' 0 = false ∧ line_masked c' 1 = false ∧
    ∀ i, 2 ≤ i < 16 → line_masked c' i = line_masked c i;
  sv_fs : ∃ e, ld_fs (sy_load s') = set_env e (ld_fs (sy_load s));
  sv_flags : eflags (sy_load s') = Z.setbit (eflags (sy_load s)) 9;
  sv_user : user_cpu (sy_load s') = user_cpu (sy_load s);
  sv_tables : sy_intr s' = served isr128 (sy_intr s);
  sv_procs : sched_inv (sched_of s') [] 0
}.

Lemma up_load w ks c v s s' held r : up w ks c v s held r → sy_env s' = sy_env s → up w ks c v s' held r.
Proof. unfold up. by intros ? ->. Qed.

(** The processes do not see the console. *)
Lemma sched_inv_con s s' :
  sy_procs s' = sy_procs s → sy_timer s' = sy_timer s → st_heap (sy_env s') = st_heap (sy_env s) →
  st_pages (sy_env s') = st_pages (sy_env s) → sched_inv (sched_of s) [] 0 → sched_inv (sched_of s') [] 0.
Proof. unfold sched_of. by intros -> -> -> ->. Qed.

Lemma wp_boot_services w ks c v isr128 s r (Q : unit → system D → Prop) :
  up w ks c v s [] r → operational c.1 → operational c.2 → length (interrupt_handlers (sy_intr s)) = 256%nat →
  256 ≤ Z.of_nat (length (idt (sy_intr s))) → zeroed_table (process_table (sy_procs s)) → is_u32 (ticks (sy_timer s)) → 4160 ≤ r →
  (∀ s', serving w ks c v isr128 (r - 4160) s s' → Q tt s') → wp (boot_services polls isr128) s Q.
Proof.
  intros Hs O1 O2 Hl1 Hl2 Hz Ht Hr HQ. unfold boot_services.
  wp_step. eapply (wp_on_draw w ks c v _ _ []); [exact Hs|eapply draws_write_at, lit_holds; no_nul|]. intros e1 Hs1.
  wp_step. eapply (wp_say_up w ks c v _ _ []); [exact Hs1|no_nul|]. intros c2 Hs2.
  wp_step. eapply (wp_timer_on w ks c v _ []); [exact Hs2|done|done|done|]. intros e3 c3 Hs3 (M3 & O3 & O3').
  wp_step. eapply (wp_say_up w ks c3 v _ _ []); [exact Hs3|no_nul|]. intros c4 Hs4.
  wp_step. eapply (wp_keyboard_on w ks c3 v _ []); [exact Hs4|done|done|by etrans; [apply length_with_handler|]|].
  intros e5 c5 Hs5 (M5 & O5 & O5').
  wp_step. eapply (wp_on_draw w ks c5 v _ _ []); [exact Hs5|eapply draws_write_at, lit_holds; no_nul|]. intros e6 Hs6.
  wp_step. eapply (wp_say_up w ks c5 v _ _ []); [exact Hs6|no_nul|]. intros c7 Hs7.
  wp_step. apply (wp_processes_on w ks c5 v _ r); [exact Hs7|done|done|done|]. intros s8 Hs8 [e8 E8] T8 P8.
  wp_step. eapply (wp_syscalls_on w ks c5 v isr128 s8 []);
    [exact Hs8|rewrite T8; by do 2 (etrans; [apply length_with_handler|])|by rewrite T8|]. intros c9 Hs9.
  wp_step. eapply (wp_say_up w ks c5 v _ _ []); [exact Hs9|no_nul|]. intros c10 Hs10.
  wp_step. unfold sti, in_load at 1. do 2 wp_step. set (s11 := set_load _ _).
  apply (wp_say_up w ks c5 v _ s11 [] (r - 4160)); [exact Hs10|no_nul|]. intros c12 Hs12. apply HQ. split.
  - exists c5. split; [exact Hs12|]. split_and!.
    + rewrite M5, M3 by lia. done.
    + rewrite M5 by lia. done.
    + intros i Hi. rewrite M5, M3 by lia. by rewrite !(proj2 (Z.eqb_neq _ _)) by lia.
  - cbn. rewrite E8. cbn. by eexists.
  - cbn. by rewrite E8.
  - cbn. by rewrite E8.
  - cbn. rewrite T8. done.
  - by apply (sched_inv_con s8).
Qed.

(** Waiting for keys and for the clock, with the other devices as they were at [k0]. *)
Program Definition framed (k0 : D) : InputOk D := {|
  in_inv k := in_inv k ∧ uart_of k = uart_of k0 ∧ disk_of k = disk_of k0 ∧ chips k = chips k0;
  typed_ahead k := typed_ahead k
|}.
Next Obligation.
  intros k0 k ch chs (Hi & U & K & C) Ht. eapply wp_mono; [apply wp_wlp_and; [by apply (in_get_char_ok k ch chs)|apply pc_get_char]|].
  intros x k' [(-> & Hi' & Ht') (U' & K' & C')]. split; [done|]. split; [|done]. split_and!; [done|congruence..].
Qed.
Next Obligation.
  intros k0 n k (Hi & U & K & C) Hn Ht. eapply wp_mono; [apply wp_wlp_and; [by apply (in_wait_ok n k)|apply pc_wait]|].
  intros [] k' [(Hi' & Ht') (U' & K' & C')]. split; [|done]. split_and!; [done|congruence..].
Qed.

Definition with_con (c' : console D) s : system D := set_sy_env (set_st_con c' (sy_env s)) s.

(** The console between two steps of the boot screen. *)
Definition screen_ready (k0 : D) (c' : console D) : Prop := @dialogue_ready D _ (framed k0) c'.

Lemma up_screen w ks c v s held r :
  up w ks c v s held r → Z.of_nat (length ks) ≤ 255 → screen_ready (machine (st_con (sy_env s))) (st_con (sy_env s)).
Proof.
  intros [_ ((C1 & C2 & C3) & G2 & G3 & G4 & _)] Hk. unfold screen_ready, dialogue_ready. cbn. by rewrite C2.
Qed.

Lemma screen_up w ks ks' c v s held r (c' : console D) :
  up w ks c v s held r → screen_ready (machine (st_con (sy_env s))) c' → typed_ahead (machine c') = ks' →
  up w ks' c v (with_con c' s) held r.
Proof.
  intros [Hh ((C1 & C2 & C3) & G2 & G3 & G4 & G5 & G6 & G7 & G8 & G9 & G10)] (S1 & S2 & S3 & (I1 & I2 & I3 & I4) & S5) Ht.
  assert (Hu : uart_ready (machine c')) by (unfold uart_ready in *; by rewrite I2).
  destruct G6 as [? G6]. split; [exact Hh|]. unfold devices_ready, calm, drive_at, st_ata in *. cbn in *. rewrite I3, I4. by split_and!.
Qed.

Lemma wp_on_con {A} (m : M (console D) A) s (Q : A → system D → Prop) :
  wp m (st_con (sy_env s)) (λ a (c' : console D), Q a (with_con c' s)) → wp (on_con m) s Q.
Proof. intros Hm. unfold on_con, in_load, in_fs, in_env. do 4 wp_step. exact Hm. Qed.

Lemma wp_screen_draw k0 (op : M (console D) unit) s (Q : unit → system D → Prop) :
  draws op → screen_ready k0 (st_con (sy_env s)) →
  (∀ c' : console D, screen_ready k0 c' → machine c' = machine (st_con (sy_env s)) → Q tt (with_con c' s)) → wp (on_con op) s Q.
Proof.
  intros Hd Hs HQ. apply wp_on_con. apply wp_draws; [done|apply Hs|]. intros c' Hc'.
  destruct (@dialogue_drawn D _ (framed k0) _ _ Hs Hc') as (Hr & _ & _ & Hm). by apply HQ.
Qed.

(** The loading bar, the dialogue and the greeting. *)
Lemma wp_boot_screen w ks c v keys rounds u p rest s r (Q : unit → system D → Prop) :
  up w ks c v s [] r → Z.of_nat (length ks) ≤ 255 → (255 ≤ keys)%nat → login rounds ks = Some (u, p, rest) →
  (∀ c' : console D, up w rest c v (with_con c' s) [] r → holds (login_username c') u → Q tt (with_con c' s)) →
  wp (boot_screen keys rounds) s Q.
Proof.
  intros Hs Hlen Hk Hlog HQ. pose proof Hs as [_ ((_ & Hks & _) & _)]. unfold boot_screen.
  set (k0 := machine (st_con (sy_env s))). pose proof (up_screen _ _ _ _ _ _ _ Hs Hlen : screen_ready k0 _) as Hr0.
  wp_step. eapply (wp_screen_draw k0); [apply draws_clear|exact Hr0|]. intros c1 Hr1 M1.
  wp_step. eapply (wp_screen_draw k0); [eapply draws_centered, lit_holds; no_nul|exact Hr1|]. intros c2 Hr2 M2.
  wp_step. eapply (wp_screen_draw k0); [eapply draws_centered, lit_holds; no_nul|exact Hr2|]. intros c3 Hr3 M3.
  wp_step. apply wp_for with (λ _ s', ∃ c' : console D, s' = with_con c' s ∧ screen_ready k0 c' ∧ typed_ahead (machine c') = ks).
  { exists c3. split; [done|]. split; [done|]. rewrite <- Hks. f_equal. exact (eq_trans M3 (eq_trans M2 M1)). }
  { intros i ? Hi (c' & -> & Hr' & Ht'). cbv zeta. wp_step. apply wp_on_con.
    eapply wp_mono; [apply (draw_loading_bar_spec (10 * i) c'); [apply Hr'|change (Z.of_nat 11) with 11 in Hi; lia]|].
    intros [] c4 [Hd _]. destruct (@dialogue_drawn D _ (framed k0) _ _ Hr' Hd) as (Hr4 & _ & _ & M4).
    apply wp_on_con. apply (@wp_wait_ready D _ (framed k0) 15 c4); [unfold is_u32; lia|done|]. intros c5 Hr5 _ _ T5.
    exists c5. split; [done|]. split; [done|]. cbn in T5. congruence. }
  intros ? (c4 & -> & Hr4 & T4). wp_step. apply wp_on_con.
  apply (@wp_show_login_screen D _ (framed k0) rounds keys c4 u p rest); [exact Hr4|done|by rewrite <- T4 in Hlog|].
  intros c5 Hr5 Hu _ _ _ T5. apply wp_on_con.
  eapply wp_mono; [apply (show_booted_message_spec c5 u); [apply Hr5|done|by eapply login_printable]|].
  intros [] c6 [Hd _]. destruct (@dialogue_drawn D _ (framed k0) _ _ Hr5 Hd) as (Hr6 & Hn6 & _ & M6).
  apply (HQ c6); [|by rewrite Hn6]. apply (screen_up w ks); [done|exact Hr6|]. cbn in T5. by rewrite M6.
Qed.

(** The shell: the program SHELL of the volume runs, with the controllers and the keys as
    they are. *)
Lemma whalt_boot_shell w ks c v cs img h segs s r (Q : system D → Prop) :
  up w ks c v s [] r → root_directory fuel v (ld_fs (sy_load s)) cs →
  file_at fuel v (ld_fs (sy_load s)) cs (str "SHELL") img → executable img h segs →
  2 * total_pages segs + 4 ≤ Z.of_nat (sp_frames w) → 2 * csize (ld_fs (sy_load s)) + 32 * eh_phnum h + 1016 ≤ r →
  (∀ l, program_runs [KP] w img h segs (eflags (sy_load s)) l → calm ks c (machine (st_con (env (ld_fs l)))) →
     Q (set_load l s)) →
  whalt (boot_shell polls fuel) s Q.
Proof.
  intros Hs Hroot Hfile Hexe Hfr Hroom HQ. unfold boot_shell.
  apply whalt_bind. apply (wp_say_up w ks c v _ s [] r); [done|no_nul|]. intros c1 Hs1.
  apply whalt_halted. unfold in_load. apply whalt_zoom. set (s1 := set_sy_env _ s) in *.
  eapply whalt_mono; [apply (whalt_program (calm ks c) (calm_kept ks c) [KP] polls fuel w v cs (lit "SHELL") (str "SHELL")
    img h segs (sy_load s1) r Hdisk Hready Huart Hs1)|].
  - exact (root_directory_env fuel v _ cs _ Hroot).
  - apply lit_holds. no_nul.
  - destruct Hfile as (x & fcs & F1 & F2 & F3 & F4 & F5). exists x, fcs. split_and!; [done|done| |done|done].
    by apply (chain_layout v (ld_fs (sy_load s))).
  - done.
  - done.
  - exact Hroom.
  - intros l [Hl Hc]. exact (HQ l Hl Hc).
Qed.

(** The file system as [fat32_init] and the listing leave it has the root directory and the
    files of the volume. *)
Lemma mounted_root v b cs root ds e (f : fs (storage D vm)) :
  fat32_volume v b cs f → root_directory fuel v (at_root b root ds e f) cs.
Proof.
  intros (F1 & F2 & F3 & F4 & F5 & F6 & F7). split; [exact F3|]. split; [done|]. exists (root_node b), (bpb_root_cluster b).
  split; [apply lookup_insert_eq|]. split_and!; [done|done|done|]. by apply (chain_layout v (laid_out b f)).
Qed.

Lemma mounted_file v b cs root ds e txt img (f : fs (storage D vm)) :
  file_at fuel v (laid_out b f) cs txt img → file_at fuel v (at_root b root ds e f) cs txt img.
Proof.
  intros (x & fcs & F1 & F2 & F3 & F4 & F5). exists x, fcs. split_and!; [exact F1|exact F2| |exact F4|exact F5].
  by apply (chain_layout v (laid_out b f)).
Qed.

(** The machine before its disk is known, with what the program needs: the tables of idt.c,
    the controllers programmed, and an empty process table. *)
Record bootable w ks c v s (r : Z) : Prop := mkBootable {
  bt_powered : powered w ks c v s r;
  bt_chips : operational c.1 ∧ operational c.2;
  bt_tables : length (interrupt_handlers (sy_intr s)) = 256%nat ∧ 256 ≤ Z.of_nat (length (idt (sy_intr s)));
  bt_procs : zeroed_table (process_table (sy_procs s));
  bt_ticks : is_u32 (ticks (sy_timer s))
}.

(** The shell runs: its program is in memory and user mode at its first instruction, the
    handlers of timer, keyboard and system calls are in their tables, the lines of timer and
    keyboard are open, the idle process is the current one, and the keys [rest] are left. *)
Definition shell_runs w isr128 img h segs rest s s' : Prop :=
  program_runs [KP] w img h segs (Z.setbit (eflags (sy_load s)) 9) (sy_load s') ∧
  sy_intr s' = served isr128 (sy_intr s) ∧
  (∃ c', calm rest c' (machine (st_con (sy_env s'))) ∧ line_masked c' 0 = false ∧ line_masked c' 1 = false) ∧
  current_process (sy_procs s') = Some 0.

(** The machine before its last call: the volume is mounted, and what runs is as above. *)
Record at_shell w ks isr128 v b r s s' : Prop := mkAtShell {
  sh_up : ∃ c', up w ks c' v s' [] r ∧ line_masked c' 0 = false ∧ line_masked c' 1 = false;
  sh_fs : ∃ root ds e, ld_fs (sy_load s') = at_root b root ds e (ld_fs (sy_load s));
  sh_flags : eflags (sy_load s') = Z.setbit (eflags (sy_load s)) 9;
  sh_user : user_cpu (sy_load s') = user_cpu (sy_load s);
  sh_tables : sy_intr s' = served isr128 (sy_intr s);
  sh_current : current_process (sy_procs s') = Some 0
}.

Lemma whalt_to_shell keys rounds isr128 w ks c v b cs u p rest s r (Q : system D → Prop) :
  bootable w ks c v s r → fat32_volume v b cs (ld_fs (sy_load s)) →
  Z.of_nat (length ks) ≤ 255 → (255 ≤ keys)%nat → login rounds ks = Some (u, p, rest) →
  512 * sectors_per_cluster b + 5424 ≤ r →
  (∀ s', at_shell w rest isr128 v b (r - 4408) s s' → whalt (boot_shell polls fuel) s' Q) →
  whalt (kmain_rest polls fuel keys rounds isr128) s Q.
Proof.
  intros [Hp [O1 O2] [L1 L2] Hz Ht] Hvol Hks Hkeys Hlog Hroom HQ. unfold kmain_rest.
  set (f := ld_fs (sy_load s)) in *.
  assert (Hcs : 512 ≤ csize (laid_out b f) ∧ csize (laid_out b f) = 512 * sectors_per_cluster b).
  { destruct Hvol as (_ & _ & (_ & _ & ? & _) & _). unfold csize in *. cbn in *. split; [lia|done]. }
  apply whalt_bind. apply (wp_boot_storage w ks c v b cs s r); [done|done|fold f; lia|]. intros root ds e1 He1.
  fold f. set (s1 := set_sy_fs _ s).
  apply whalt_bind. apply (wp_boot_services w ks c v isr128 s1 (r - 248)); [exact He1|done..|lia|].
  intros s2 [(c2 & U2 & M0 & M1 & _) [e2 F2] G2 J2 T2 P2].
  apply whalt_bind. apply (wp_boot_screen w ks c2 v keys rounds u p rest s2 (r - 248 - 4160)); [done..|].
  intros c3 U3 _. apply HQ. split.
  - exists c2. replace (r - 4408) with (r - 248 - 4160) by lia. by split_and!.
  - exists root, ds, (set_st_con c3 (sy_env s2)). cbn. by rewrite F2.
  - cbn. by rewrite G2.
  - cbn. by rewrite J2.
  - cbn. by rewrite T2.
  - by destruct P2 as (_ & Hcur & _).
Qed.

Lemma whalt_kmain_rest keys rounds isr128 w ks c v b cs u p rest img h segs s r :
  bootable w ks c v s r → fat32_volume v b cs (ld_fs (sy_load s)) →
  Z.of_nat (length ks) ≤ 255 → (255 ≤ keys)%nat → login rounds ks = Some (u, p, rest) →
  file_at fuel v (laid_out b (ld_fs (sy_load s))) cs (str "SHELL") img → executable img h segs →
  2 * total_pages segs + 4 ≤ Z.of_nat (sp_frames w) →
  2 * (512 * sectors_per_cluster b) + 32 * eh_phnum h + 5424 ≤ r →
  whalt (kmain_rest polls fuel keys rounds isr128) s (shell_runs w isr128 img h segs rest s).
Proof.
  intros Hb Hvol Hks Hkeys Hlog Hfile Hexe Hfr Hroom.
  assert (Hspc : 0 ≤ sectors_per_cluster b) by (destruct Hvol as (_ & _ & (_ & _ & ? & _) & _); cbn in *; lia).
  assert (Hph : 1 ≤ eh_phnum h) by (destruct Hexe as (_ & _ & _ & ? & _); lia).
  eapply (whalt_to_shell keys rounds isr128 w ks c v b cs u p rest); [done..|lia|].
  intros s3 [(c2 & U3 & M0 & M1) (root & ds & e & E3) G3 _ T3 P3].
  apply (whalt_boot_shell w rest c2 v cs img h segs _ (r - 4408)); [exact U3|rewrite E3; by apply mounted_root
    |rewrite E3; by apply mounted_file|done|done| |].
  { rewrite E3. change (csize _) with (512 * sectors_per_cluster b). lia. }
  intros l Hl Hc. rewrite G3 in Hl. split_and!; [exact Hl|exact T3|by exists c2|exact P3].
Qed.

(** Without a shell: the two messages, and the processor is halted. *)
Lemma whalt_boot_stuck w ks c v cs m s r :
  up w ks c v s [] r → root_directory fuel v (ld_fs (sy_load s)) cs →
  entry_of v (ld_fs (sy_load s)) cs (str "SHELL") = None ∨
    (∃ img, file_at fuel v (ld_fs (sy_load s)) cs (str "SHELL") img ∧ rejected m img) →
  0 ≤ m → 2 * csize (ld_fs (sy_load s)) + m + 1016 ≤ r →
  whalt (boot_shell polls fuel) s (λ s', (∃ l, s' = set_load l s ∧ user_cpu l = user_cpu (sy_load s)) ∧
    (∃ r', up w ks c v s' [] r') ∧ ∃ before, sent s' = before ++ logged "ELF: Failed to load shell" ++ logged "FlowOS: System ready.").
Proof.
  intros Hs Hroot Hbad Hm Hroom. unfold boot_shell.
  apply whalt_bind. apply (wp_say_up w ks c v _ s [] r); [done|no_nul|]. intros c1 Hs1.
  set (s1 := set_sy_env _ s) in *. apply whalt_bind. unfold in_load. apply wp_zoom.
  eapply wp_mono; [apply (wp_program_refused (calm ks c) (calm_kept ks c) [KP] polls fuel w v cs (lit "SHELL") (str "SHELL")
    m (sy_load s1) r Hdisk Hready Huart Hs1)|].
  - exact (root_directory_env fuel v _ cs _ Hroot).
  - apply lit_holds. no_nul.
  - destruct Hbad as [Hnone|(img & (x & fcs & F1 & F2 & F3 & F4 & F5) & Hrej)]; [left; exact Hnone|right].
    exists img. split; [|done]. exists x, fcs. split_and!; [done|done| |done|done]. by apply (chain_layout v (ld_fs (sy_load s))).
  - done.
  - exact Hroom.
  - intros x l (-> & Hu & r' & Hl). change (-1 <? 0) with true. cbn [when]. set (s2 := set_load l s1).
    apply whalt_bind. apply (wp_say_sent w ks c v _ s2 [] r'); [exact Hl|no_nul|]. intros c3 s3 Hs3 E3.
    apply whalt_bind. apply (wp_say_sent w ks c v _ s3 [] r'); [exact Hs3|no_nul|]. intros c4 s4 Hs4 E4. cbn.
    split_and!; [eexists; split; [reflexivity|exact Hu]|by exists r'|exists (sent s2)]. by rewrite E4, E3, <- app_assoc.
Qed.

(** The kernel is left without a program: user mode has not been entered, and it waits for
    interrupts with everything started. *)
Definition no_shell w isr128 v rest s s' : Prop :=
  user_cpu (sy_load s') = user_cpu (sy_load s) ∧ sy_intr s' = served isr128 (sy_intr s) ∧
  current_process (sy_procs s') = Some 0 ∧
  (∃ c' r', up w rest c' v s' [] r' ∧ line_masked c' 0 = false ∧ line_masked c' 1 = false) ∧
  ∃ before, sent s' = before ++ logged "ELF: Failed to load shell" ++ logged "FlowOS: System ready.".

Lemma whalt_kmain_stuck keys rounds isr128 w ks c v b cs u p rest m s r :
  bootable w ks c v s r → fat32_volume v b cs (ld_fs (sy_load s)) →
  Z.of_nat (length ks) ≤ 255 → (255 ≤ keys)%nat → login rounds ks = Some (u, p, rest) →
  entry_of v (laid_out b (ld_fs (sy_load s))) cs (str "SHELL") = None ∨
    (∃ img, file_at fuel v (laid_out b (ld_fs (sy_load s))) cs (str "SHELL") img ∧ rejected m img) →
  0 ≤ m → 2 * (512 * sectors_per_cluster b) + m + 5424 ≤ r →
  whalt (kmain_rest polls fuel keys rounds isr128) s (no_shell w isr128 v rest s).
Proof.
  intros Hb Hvol Hks Hkeys Hlog Hbad Hm Hroom.
  assert (Hspc : 0 ≤ sectors_per_cluster b) by (destruct Hvol as (_ & _ & (_ & _ & ? & _) & _); cbn in *; lia).
  eapply (whalt_to_shell keys rounds isr128 w ks c v b cs u p rest); [done..|lia|].
  intros s3 [(c2 & U3 & M0 & M1) (root & ds & e & E3) _ G3 T3 P3].
  eapply whalt_mono; [apply (whalt_boot_stuck w rest c2 v cs m _ (r - 4408)); [exact U3|rewrite E3; by apply mounted_root| |done|]|].
  - rewrite E3. destruct Hbad as [Hnone|(img & Hf & Hrej)]; [left; exact Hnone|right]. exists img. split; [by apply mounted_file|done].
  - rewrite E3. change (csize _) with (512 * sectors_per_cluster b). lia.
  - intros s' ((l & -> & Hu) & (r' & Hup) & Hsent). split_and!; [cbn; congruence|exact T3|exact P3|by exists c2, r'|exact Hsent].
Qed.

(** A volume that [fat32_init] refuses. *)
Definition unmountable v : Prop :=
  1 ≤ v_sectors v ∧ ∃ b, bpb_at (v_sector v 0) = Some b ∧
    (bytes_per_sector b = 0 ∨ sectors_per_cluster b = 0 ∨ fat_size_32 b = 0 ∨ num_fats b = 0).

Lemma undef_boot_storage w ks c v s r :
  powered w ks c v s r → unmountable v → fs_root (ld_fs (sy_load s)) = 0 → nodes (ld_fs (sy_load s)) !! 0 = None → 640 ≤ r →
  boot_storage polls fuel s = Undef.
Proof.
  intros Hp (F1 & b & F2 & F3) Hnull Hnone Hroom. unfold boot_storage.
  apply undef_after, (wp_say_early w ks c v _ _ r _ Hp); [no_nul|]. intros e1 Hp1.
  apply undef_after, (wp_find_disk w ks c v _ r _ Hp1). intros e2 Hu2.
  apply undef_after, (wp_say_up w ks c v _ _ [] r _ Hu2); [no_nul|]. intros e3 Hu3.
  apply undef_after. unfold in_load at 1, in_fs at 1. do 2 wp_step. set (f := ld_fs (sy_load s)) in *.
  assert (Hwf : vol_wf v) by exact (storage_vol_wf _ _ v _ _ _ Hu3).
  apply (wp_fat32_init (H0 := EO w ks c) v b _ r); [done|done|exact Hu3|lia|done|].
  replace ((bytes_per_sector b =? 0) || (sectors_per_cluster b =? 0) || (fat_size_32 b =? 0) || (num_fats b =? 0)) with true by lia.
  intros e4 He4. set (s4 := set_load _ _).
  apply undef_after, (wp_say_up w ks c v _ s4 [] r _ He4); [no_nul|]. intros e5 Hu5.
  unfold in_load, in_fs. apply undef_zoom, undef_zoom. unfold list_root. apply undef_bind. change (trips 0 20) with 20%nat.
  cbn [for_ret]. apply undef_bind. unfold bind at 1, gets. apply undef_bind. unfold vfs_readdir. apply undef_bind.
  cbn. fold f. rewrite Hnull. unfold node_at, bind, gets. cbn. fold f. by rewrite Hnone.
Qed.

End system.

(** ** Properties *)

(** The services of the kernel: [timer_init], [keyboard_init], [process_init],
    [scheduler_init], [syscall_init] and [sti] in the order of [kmain] return, and then the
    handlers of the interrupts 32, 33 and 128 and the gate of the system calls are in their
    tables, the lines of timer and keyboard are open and every other line is masked as it was,
    the interrupt flag is set, the scheduler's invariant holds with the idle process as the
    current one and nobody waiting, and the file system has been left alone. *)
Theorem boot_services_spec {D} `{Pc D} `{CodeAddresses} polls KP w ks c v isr128 (s : system D) r :
  (disk_delay < polls)%nat → (disk_delay < ready_timeout)%nat → (uart_delay < polls)%nat →
  up KP w ks c v s [] r → operational c.1 → operational c.2 → length (interrupt_handlers (sy_intr s)) = 256%nat →
  256 ≤ Z.of_nat (length (idt (sy_intr s))) → zeroed_table (process_table (sy_procs s)) → is_u32 (ticks (sy_timer s)) → 4160 ≤ r →
  wp (boot_services polls isr128) s (λ _ s', serving KP w ks c v isr128 (r - 4160) s s').
Proof.
  intros Hp1 Hp2 Hp3 Hs O1 O2 L1 L2 Hz Ht Hr.
  apply (wp_boot_services polls KP Hp1 Hp2 Hp3 w ks c v isr128 s r); auto.
Qed.

(** ** A PC: two interrupt controllers, a serial port, a disk as primary master, and someone
    at the keyboard *)

Record pc := mkPc { pc_chips : chip * chip; pc_uart : uart; pc_disk : disk; pc_inputs : inputs }.

#[global] Instance pc_device : Device pc := {|
  dev_in port k :=
    if port =? 0x3FD then let '(v, u) := dev_in port (pc_uart k) in (v, mkPc (pc_chips k) u (pc_disk k) (pc_inputs k))
    else if (0x1F0 <=? port) && (port <=? 0x1F7)
    then let '(v, d) := dev_in port (pc_disk k) in (v, mkPc (pc_chips k) (pc_uart k) d (pc_inputs k))
    else ((dev_in port (pc_chips k)).1, k);
  dev_out port v k :=
    mkPc (dev_out port v (pc_chips k)) (dev_out port v (pc_uart k)) (dev_out port v (pc_disk k)) (pc_inputs k)
|}.

#[global] Instance pc_words : WordDevice pc := {|
  dev_inw port k := let '(v, d) := dev_inw port (pc_disk k) in (v, mkPc (pc_chips k) (pc_uart k) d (pc_inputs k));
  dev_outw port v k := mkPc (pc_chips k) (pc_uart k) (dev_outw port v (pc_disk k)) (pc_inputs k)
|}.

#[global] Instance pc_input : Input pc := {|
  in_get_char := zoom pc_inputs (λ i k, mkPc (pc_chips k) (pc_uart k) (pc_disk k) i) in_get_char;
  in_wait n := zoom pc_inputs (λ i k, mkPc (pc_chips k) (pc_uart k) (pc_disk k) i) (in_wait n)
|}.

#[global] Program Instance pc_has_uart : UartDevice pc := {| uart_of := pc_uart; uart_delay := 2%nat |}.
Next Obligation. intros port v k. by exists 2%nat. Qed.
Next Obligation. intros k. cbn. by destruct (u_busy (pc_uart k)). Qed.

#[global] Program Instance pc_has_disk : AtaDevice pc 0x1F0 := {| disk_of := pc_disk; disk_delay := 3%nat |}.
Next Obligation. done. Qed.
Next Obligation. intros reg v k Hr. exact (disk_dev_out (AtaDevice := disk_bare) reg v (pc_disk k) Hr). Qed.
Next Obligation. intros port v k Hr. exact (disk_dev_other (AtaDevice := disk_bare) port v (pc_disk k) Hr). Qed.
Next Obligation. done. Qed.
Next Obligation. done. Qed.
Next Obligation. intros k. exists 3%nat. unfold dev_inw, pc_words. by destruct (disk_inw 3 (pc_disk k)) eqn:E; cbn; rewrite E. Qed.
Next Obligation. intros v k. by exists 3%nat. Qed.

#[global] Program Instance pc_board : Board pc 0x1F0.
Next Obligation. done. Qed.
Next Obligation. done. Qed.
Next Obligation. intros reg v k Hr Hu. unfold uart_ready in *. cbn [uart_of pc_has_uart pc_uart dev_out pc_device uart_device]. by rewrite uart_elsewhere by lia. Qed.
Next Obligation. done. Qed.
Next Obligation. intros k Hu. unfold dev_inw, pc_words. by destruct (disk_inw 3 (pc_disk k)) eqn:E; cbn; rewrite E. Qed.

#[global] Program Instance pc_secondary : EmptyChannel pc 0x1F0 0x170.
Next Obligation. lia. Qed.
Next Obligation. lia. Qed.
Next Obligation. done. Qed.

(** Reading a port changes at most the serial port or the disk. *)
Lemma pc_dev_in port k :
  ∃ v u d, dev_in port k = (v, mkPc (pc_chips k) u d (pc_inputs k)) ∧ (port ≠ 0x3FD → u = pc_uart k) ∧
    (~ 0x1F0 ≤ port ≤ 0x1F7 → d = pc_disk k).
Proof.
  unfold dev_in at 1, pc_device. destruct (Z.eqb_spec port 0x3FD).
  { destruct (dev_in port (pc_uart k)) as [v u]. by exists v, u, (pc_disk k). }
  destruct (Z.leb_spec 0x1F0 port), (Z.leb_spec port 0x1F7); cbn [andb].
  { destruct (dev_in port (pc_disk k)) as [v d]. exists v, (pc_uart k), d. split; [done|]. split; [done|lia]. }
  all: exists (dev_in port (pc_chips k)).1, (pc_uart k), (pc_disk k); by destruct k.
Qed.

#[global] Program Instance pc_has_pic : PicDevice pc := {| chips := pc_chips |}.
Next Obligation. done. Qed.
Next Obligation. intros port k. by destruct (pc_dev_in port k) as (v & u & d & -> & _). Qed.
Next Obligation. done. Qed.
Next Obligation. done. Qed.

#[global] Program Instance pc_input_ok : InputOk pc := {|
  in_inv k := inputs_inv (pc_inputs k); typed_ahead k := inputs_typed (pc_inputs k)
|}.
Next Obligation.
  intros k c cs Hi Ht. unfold in_get_char, pc_input. wp_step.
  exact (in_get_char_ok (InputOk := inputs_ok) (pc_inputs k) c cs Hi Ht).
Qed.
Next Obligation.
  intros n k Hi Hn Hl. unfold in_wait, pc_input. wp_step.
  exact (in_wait_ok (InputOk := inputs_ok) n (pc_inputs k) Hi Hn Hl).
Qed.

#[global] Program Instance pc_ok : Pc pc.
Next Obligation. intros port k Hp. destruct (pc_dev_in port k) as (v & u & d & -> & Hu & _). apply Hu. lia. Qed.
Next Obligation. intros port k Hp. destruct (pc_dev_in port k) as (v & u & d & -> & _ & Hd). by apply Hd. Qed.
Next Obligation. intros port k. unfold dev_inw, pc_words. by destruct (dev_inw port (pc_disk k)). Qed.
Next Obligation. done. Qed.
Next Obligation. intros port k Hp Hi. by destruct (pc_dev_in port k) as (v & u & d & -> & _). Qed.
Next Obligation. intros port k Hi. unfold dev_inw, pc_words. by destruct (dev_inw port (pc_disk k)). Qed.
Next Obligation. intros k. unfold in_get_char, pc_input. apply wlp_zoom. unfold wlp. by destruct (in_get_char (pc_inputs k)). Qed.
Next Obligation. intros n k. unfold in_wait, pc_input. apply wlp_zoom. unfold wlp. by destruct (in_wait n (pc_inputs k)). Qed.

(** ** The properties at concrete inputs

    The disk holds the volume of programs of Elf.v; six pages are free and the heap has four;
    someone types a, b, backspace, c, ENTER, d, ENTER. *)

Definition pc_demo : pc := mkPc (chip_demo, chip_demo) uart_demo program_disk typing_demo.

Definition heap_four : heap :=
  mkHeap {[ 0x400000 := mkBlock 16384 1 0 0 ]} ∅ 0x400000 0x400000 16384 16 0x400000.

Definition system_demo (table : list ata_drive) : system pc :=
  mkSystem (mkLoader (mkFs no_bpb 0 0 0 0 ∅ ∅ (mkStorage heap_four vm_demo6 table 1 (console_demo pc_demo))) 2 None)
    (mkIntr (replicate 256 (gate 0 0 0)) (mkIdtPtr 0 0) (replicate 256 None) None ∅ tt) timer_start
    (mkSched (replicate 256 zero_process) None None None 1 ∅ (mkCpu 0 0 0 0 0 0) tt).

Definition no_drives : list ata_drive := replicate 4 absent_demo.

Definition keys_demo : list Z := [97; 98; 8; 99; 10; 100; 10].

Lemma heap_four_inv : heap_inv heap_four [mkSeg 0x400000 16384 true].
Proof. apply (heap_init_inv 0x400000 16384 (mkHeap ∅ ∅ 0 0 0 0 0)); done. Qed.

Lemma system_demo_heap table : heap_ready (space_ok [0x1000] space_demo) (sy_env (system_demo table)) [] 16384.
Proof.
  split; [exact demo6_space|]. split; [vm_compute; congruence|]. eexists. split; [exact heap_four_inv|].
  cbn [stacked]. split; [done|]. split; [|done].
  exists (mkSeg 0x400000 16384 true). split_and!; [by apply list_elem_of_singleton|done|done].
Qed.

Lemma pc_demo_calm : calm keys_demo (chip_demo, chip_demo) pc_demo.
Proof. split; [exact typing_demo_inv|]. by split. Qed.

Lemma zero_table : zeroed_table (replicate 256 zero_process).
Proof.
  split; [reflexivity|]. intros i x (y & Hy & ->)%look_some. unfold arr_get in Hy.
  destruct (0 <=? i); [|done]. by apply lookup_replicate in Hy as [-> _].
Qed.

Lemma system_demo_up :
  up 0x1000 space_demo keys_demo (chip_demo, chip_demo) program_volume
    (system_demo [drive_demo; absent_demo; absent_demo; absent_demo]) [] 16384.
Proof.
  split; [apply system_demo_heap|].
  unfold devices_ready. split; [exact pc_demo_calm|]. do 3 (split; [done|]). split; [split; [done|cbn; lia]|].
  split; [split; [done|by exists drive_demo]|].
  split; [exact program_disk_wf|]. split; [split_and!; [done|cbn; lia|by right]|]. by split.
Qed.

Lemma system_demo_volume : fat32_volume 3 program_volume boot_record [2] (ld_fs (sy_load (system_demo no_drives))).
Proof.
  split; [done|]. split; [vm_compute; reflexivity|]. split.
  { split; [exact (storage_vol_wf _ _ _ _ _ _ system_demo_up)|].
    split_and!; [done|vm_compute; congruence|done|vm_compute; congruence|vm_compute; congruence]. }
  split_and!; [vm_compute; congruence|vm_compute; congruence| |cbn; lia].
  apply chain_last; [split_and!; vm_compute; congruence|vm_compute; congruence].
Qed.

Lemma system_demo_file :
  file_at 3 program_volume (laid_out boot_record (ld_fs (sy_load (system_demo no_drives)))) [2] (str "SHELL")
    (program_demo ++ replicate 512 66).
Proof.
  eexists (default (mkEntry [] 0 0 0 0 0 0 0 0 0 0 0) (entry_at (v_sector programs_demo 2) 0)), [3; 4].
  split; [vm_compute; reflexivity|]. split; [done|]. split; [|split; [cbn; lia|vm_compute; reflexivity]].
  apply chain_next; [split_and!; vm_compute; congruence|vm_compute; congruence|].
  apply chain_last; [split_and!; vm_compute; congruence|vm_compute; congruence].
Qed.

Section witnesses.
#[local] Existing Instance codes_demo.

Lemma boot_services_spec_witness :
  wp (boot_services 4 0x101000) (system_demo [drive_demo; absent_demo; absent_demo; absent_demo]) (λ _ s',
    arr_get (interrupt_handlers (sy_intr s')) 0x80 = Some (Some syscall_handler_fn) ∧
    eflags (sy_load s') = 0x202 ∧ current_process (sy_procs s') = Some 0).
Proof.
  eapply wp_mono; [exact (boot_services_spec 4 0x1000 space_demo keys_demo (chip_demo, chip_demo) program_volume 0x101000
    (system_demo [drive_demo; absent_demo; absent_demo; absent_demo]) 16384
    (le_n 4) timeout_demo (le_S 3 3 (le_n 3)) system_demo_up ltac:(split; cbn; lia) ltac:(split; cbn; lia) eq_refl ltac:(by vm_compute)
    zero_table ltac:(unfold is_u32; cbn; lia) ltac:(lia))|].
  intros [] s' [_ _ Hf _ Ht Hp]. rewrite Ht, Hf. split; [reflexivity|]. split; [reflexivity|].
  by destruct Hp as (_ & Hc & _).
Defined.

End witnesses.
