(* ===== verification/Kmain.v ===== *)
(** * The whole of [kmain] (src/src/kernel.c)

    Boot.v and Startup.v have the two halves of [kmain], each on the variables it needs.  Here
    they run one after the other on the variables of the whole kernel, from the state in which
    the boot loader leaves the machine to the first instruction of the shell in user mode. *)

From S2P Require Import Prelude Pic Idt Timer Keyboard Console Login Ata Gdt Pmm Paging Heap Boot Process Kernel.
From S2P Require Import Syscalls Vfs Fat32 Elf Storage Userland Startup.

(** The static variables of the kernel: those of Startup.v and those of gdt.c. *)
Record machine_state (D : Type) := mkMs { ms_sys : system D; ms_seg : seg_state }.

Arguments mkMs {D}.
Arguments ms_sys {D}.
Arguments ms_seg {D}.

Definition ms_env {D} (s : machine_state D) : storage D vm := sy_env (ms_sys s).

(** The variables the first half works on. *)
Definition boot_of {D} (s : machine_state D) : boot D :=
  let e := ms_env s in mkBoot (st_con e) (ms_seg s) (sy_intr (ms_sys s)) (st_pages e) (st_heap e).

Definition put_boot {D} (b : boot D) (s : machine_state D) : machine_state D :=
  let e := ms_env s in
  mkMs (set_tables (bt_intr b) (set_sy_env (mkStorage (bt_heap b) (bt_vm b) (st_drives e) (st_count e) (bt_con b)) (ms_sys s)))
    (bt_seg b).

Section kmain.
Context {D : Type} `{WordDevice D} `{!Input D} `{CodeAddresses} `{GdtAddresses} `{IsrAddresses}.

(** The parameters of the two halves: bounds on polls, clusters, keys and rounds; what the
    linker placed; the memory map of the boot loader. *)
Context (polls fuel keys rounds : nat) (isr128 _end kernel_pd kernel_page_tables kernel_interrupt_stack : Z).
Context (mmap_at : Z → multiboot_mmap_entry) (entries : nat).

Definition kmain (mboot : multiboot_info) : M (machine_state D) unit :=
  zoom boot_of put_boot (boot_cpu polls kernel_interrupt_stack;;
    boot_memory polls _end kernel_pd kernel_page_tables mmap_at entries mboot);;
  zoom ms_sys (λ y s, mkMs y (ms_seg s)) (kmain_rest polls fuel keys rounds isr128).

End kmain.

(** ** The machine when the boot loader starts the kernel *)

(** Static variables are zero or of their size; the serial port and the disk have nothing
    under way; somebody is going to type [ks]; the primary master holds the volume [v]. *)
Record cold {D} `{Pc D} (ks : list Z) (v : volume) (s : machine_state D) : Prop := mkCold {
  co_screen : length (VGA_MEMORY (st_con (ms_env s))) = 4000%nat;
  co_names : length (login_username (st_con (ms_env s))) = 32%nat ∧ length (login_password (st_con (ms_env s))) = 32%nat;
  co_uart : (u_busy (uart_of (machine (st_con (ms_env s)))) ≤ uart_delay)%nat;
  co_chips : operational (chips (machine (st_con (ms_env s)))).1 ∧ operational (chips (machine (st_con (ms_env s)))).2;
  co_keys : in_inv (machine (st_con (ms_env s))) ∧ typed_ahead (machine (st_con (ms_env s))) = ks;
  co_disk : let k := disk_of (machine (st_con (ms_env s))) in
    disk_wf k ∧ d_phase k = Idle ∧ d_busy k = 0%nat ∧ d_slave k = false ∧ length (d_id k) = 256%nat ∧
    Forall (λ x, 0 ≤ x < 65536) (d_id k) ∧ d_size k ≤ 268435456 ∧ v = volume_of (d_size k) (d_data k);
  co_drives : length (st_drives (ms_env s)) = 4%nat;
  co_gdt : length (gdt (ms_seg s)) = 6%nat;
  co_idt : length (idt (sy_intr (ms_sys s))) = 256%nat ∧ length (interrupt_handlers (sy_intr (ms_sys s))) = 256%nat;
  co_pmm : Pmm.total_pages (vm_pmm (st_pages (ms_env s))) = 0 ∧ used_pages (vm_pmm (st_pages (ms_env s))) = 0;
  co_memory : map_Forall (λ _ x, is_u32 x) (vm_mem (st_pages (ms_env s)));
  co_procs : zeroed_table (process_table (sy_procs (ms_sys s)));
  co_ticks : is_u32 (ticks (sy_timer (ms_sys s)))
}.

(** What the linker and the boot loader decide: addresses fit in 32 bits, the tables lie in the
    image, and above it the memory map offers [257 + n] pages in a row. *)
Record placed `{GdtAddresses} `{IsrAddresses} _end KP KT mmap_at entries mboot (K a : Z) (n : nat) : Prop := mkPlaced {
  pl_tss : is_u32 tss_address;
  pl_isr i : 0 ≤ i < 32 → is_u32 (isr_stub i);
  pl_irq i : 0 ≤ i < 16 → is_u32 (irq_stub i);
  pl_image : image_ok _end KP KT;
  pl_mmap : mmap_ok mmap_at entries mboot K;
  pl_pages : 0 ≤ a ∧ a + 257 + Z.of_nat n ≤ NPAGES;
  pl_free q : a ≤ q < a + 257 + Z.of_nat n → q ∈ available mmap_at entries mboot _end
}.

(** The handlers of the running kernel. *)
Definition kernel_handler (i : Z) : option handler :=
  if i =? 14 then Some page_fault_handler_fn else if i =? 32 then Some timer_callback_fn
  else if i =? 33 then Some keyboard_callback_fn else if i =? 0x80 then Some syscall_handler_fn else None.

Definition kernel_gate `{IsrAddresses} (isr128 i : Z) : idt_entry := if i =? 0x80 then gate isr128 0x08 0xEE else gate_of i.

(** User memory is empty: nothing of it is mapped, and [n] frames are free. *)
Definition empty_space (n : nat) : space := mkSpace ∅ ∅ n.

(** ** Lemmas *)

#[global] Instance pc_chipset {D} `{Pc D} : Chipset D.
Proof. split. intros port k [-> | ->]; apply pc_in_uart; vm_compute; intuition congruence. Qed.

(** What the first half leaves alone: the keys to come, and the disk. *)
Definition waiting {D} `{Pc D} (ks : list Z) (k0 : disk) (k : D) : Prop :=
  in_inv k ∧ typed_ahead k = ks ∧ disk_of k = k0.

Lemma waiting_undisturbed {D} `{Pc D} ks k0 : undisturbed (waiting ks k0).
Proof.
  split.
  - intros k (G1 & G2 & G3). destruct (pc_in_keys 0x3FD k ltac:(lia) G1) as [K1 K2].
    split_and!; [done|congruence|]. by rewrite pc_in_disk by lia.
  - intros port k Hp (G1 & G2 & G3). assert (Hr : port = 0x21 ∨ port = 0xA1) by exact Hp.
    destruct (pc_in_keys port k ltac:(lia) G1) as [K1 K2]. split_and!; [done|congruence|]. by rewrite pc_in_disk by lia.
  - intros port x k Hp (G1 & G2 & G3). destruct (pc_out_keys port x k G1) as [K1 K2]. split_and!; [done|congruence|].
    rewrite disk_dev_other; [done|]. intros Hr. destruct Hp as [Hp|Hp]; [|lia].
    repeat (apply elem_of_cons in Hp as [-> | Hp]; [lia|]). by apply elem_of_nil in Hp.
Qed.

(** Memory as the first half leaves it is an empty user space. *)
Lemma memory_space {D} `{Device D} {UD : UartDevice D} {PD : PicDevice D} (I : D → Prop) names
    _end KP mmap_at entries mboot f a n (s s' : boot D) :
  memory_up I names _end KP mmap_at entries mboot f s s' → 0 ≤ a → a + 257 + Z.of_nat n ≤ NPAGES →
  (∀ q, a ≤ q < a + 257 + Z.of_nat n → q ∈ available mmap_at entries mboot _end) →
  space_ok [KP] (empty_space n) (bt_vm s').
Proof.
  intros [M1 (_ & V2 & _) _ _ _ Mw Mt Mfree _ _ _ _ _] Ha1 Ha2 Hav.
  assert (Hnone : ∀ p, user_page p → page_entry (bt_vm s') p = None).
  { intros p Hp. unfold user_page in Hp. unfold page_entry. rewrite V2, Mw by (unfold is_u32; lia).
    destruct (Z.leb_spec 0xC0000000 (p * 4096)), (Z.ltb_spec (p * 4096) 0x40000000); (lia || done). }
  split; [exact M1| | |by intros p fl Hp|by auto| |by intros b x Hb].
  - pose proof (Mfree (seqZ a (257 + Z.of_nat n)) (NoDup_seqZ _ _)) as Hf. rewrite length_seqZ in Hf. cbn [sp_frames empty_space].
    assert (Hl : Z.of_nat (Z.to_nat (257 + Z.of_nat n)) - 257 ≤ free_count (vm_pmm (bt_vm s'))); [|lia].
    apply Hf. intros q Hq%elem_of_seqZ. split; [unfold is_page; lia|apply Hav; lia].
  - intros i Hi Hpr. rewrite V2, Mt in Hpr by lia. done.
  - intros p q x y Hp Hq Hx. rewrite Hnone in Hx by done. done.
Qed.

(** The heap of one block, with room for all of it. *)
Lemma one_block_ready (h : heap) :
  heap_inv h [mkSeg 0xC0000000 0x100000 true] →
  heap_start h + heap_size h ≤ 0xFFFFD000 ∧ ∃ bs, heap_inv h bs ∧ stacked bs [] 0x100000.
Proof.
  intros Hh. pose proof Hh as [[_ _ _ _ (<- & _ & _ & <-) _ _] _]. split; [cbn; lia|]. eexists. split; [exact Hh|].
  cbn [stacked]. split; [done|]. split; [|done].
  exists (mkSeg 0xC0000000 0x100000 true). split_and!; [by apply list_elem_of_singleton|done|done].
Qed.

(** What the first half leaves to the second. *)
Lemma wp_first_half {D} `{Pc D} `{GdtAddresses} `{IsrAddresses} polls ks v _end KP KT stack mmap_at entries mboot K a n
    (s : machine_state D) (Q : unit → machine_state D → Prop) :
  (uart_delay < polls)%nat → cold ks v s → placed _end KP KT mmap_at entries mboot K a n →
  (∀ s' c, bootable KP (empty_space n) ks c v (ms_sys s') 0x100000 → segments (stack +w 8192) (ms_seg s') →
     (∀ i, 0 ≤ i < 256 → arr_get (idt (sy_intr (ms_sys s'))) i = Some (gate_of i)) →
     (∀ i, 0 ≤ i < 256 → arr_get (interrupt_handlers (sy_intr (ms_sys s'))) i =
        Some (if i =? 14 then Some page_fault_handler_fn else None)) →
     idtr (sy_intr (ms_sys s')) = Some (mkIdtPtr 2047 idt_address) →
     (∃ e, ms_sys s' = set_tables (sy_intr (ms_sys s')) (set_sy_env e (ms_sys s))) → Q tt s') →
  wp (zoom boot_of put_boot (boot_cpu polls stack;; boot_memory polls _end KP KT mmap_at entries mboot)) s Q.
Proof.
  intros Hpolls [S1 [N1 N2] U1 [O1 O2] [K1 K2] Hd Hdr Hg [L1 L2] [P1 P2] Hm Hz Ht] [A1 A2 A3 A4 A5 [A6 A7] A8] HQ.
  set (k := machine (st_con (ms_env s))) in *. set (names := (login_username (st_con (ms_env s)), login_password (st_con (ms_env s)))).
  set (I := waiting ks (disk_of k)). pose proof (waiting_undisturbed ks (disk_of k) : undisturbed I) as HI.
  wp_step. wp_step. eapply wp_mono; [apply (wp_boot_cpu I HI names polls Hpolls stack); done|].
  intros [] b1 (G1 & G2 & _ & _ & G5 & G6 & G7 & G8 & G9 & G10 & _).
  apply (wp_boot_memory I HI names polls Hpolls _end KP KT mmap_at entries mboot K a); [done|done|done| | | |done|done|lia| |].
  { by rewrite G9. }
  { by rewrite G9. }
  { by rewrite G9. }
  { intros q Hq. apply A8. lia. }
  intros f b2 Hup. pose proof Hup as [M1 _ M3 _ _ _ _ _ M9 ((M10 & M11) & M12 & (M13 & M14 & M15)) M16 M17 _].
  set (s' := put_boot b2 s). assert (Ei : sy_intr (ms_sys s') = bt_intr b2) by reflexivity.
  injection M12 as N1' N2'.
  assert (Hidt : 256 ≤ Z.of_nat (length (idt (bt_intr b1)))).
  { destruct (G2 255) as [Hx _]; [lia|]. apply arr_get_Some_range in Hx. lia. }
  apply (HQ s' (chips (machine (bt_con b2)))).
  - split; [split| | | |].
    + split; [exact (memory_space I names _end KP mmap_at entries mboot f a n b1 b2 Hup A6 A7 A8)|].
      exact (one_block_ready _ M9).
    + cbn. rewrite N1', N2'. done.
    + split; [exact M11|]. by split_and!.
    + done.
    + cbn. rewrite M15. exact Hd.
    + rewrite M16, G7. cbn. split; split; cbn; (apply O1 || apply O2 || done).
    + rewrite Ei, M3. cbn [interrupt_handlers idt]. by rewrite length_arr_set.
    + done.
    + done.
  - cbn. by rewrite M17.
  - intros i Hi. rewrite Ei, M3. cbn. by apply G2.
  - intros i Hi. rewrite Ei, M3. cbn [interrupt_handlers]. destruct (Z.eqb_spec i 14) as [->|Hne].
    + rewrite arr_get_set_eq; [done|lia].
    + rewrite arr_get_set_ne by lia. by apply G2.
  - rewrite Ei, M3. exact G5.
  - by eexists.
Qed.

(** The volume and its files do not depend on the machine around the file system. *)
Lemma volume_env {D} fuel v b cs (f : fs (storage D vm)) e : fat32_volume fuel v b cs f → fat32_volume fuel v b cs (set_env e f).
Proof.
  intros (F1 & F2 & F3 & F4 & F5 & F6 & F7). split_and!; [done|done|exact F3|done|done| |done].
  by apply (chain_layout v (laid_out b f)).
Qed.

Lemma file_env {D} fuel v b cs txt img (f : fs (storage D vm)) e :
  file_at fuel v (laid_out b f) cs txt img → file_at fuel v (laid_out b (set_env e f)) cs txt img.
Proof.
  intros (x & fcs & F1 & F2 & F3 & F4 & F5). exists x, fcs. split_and!; [exact F1|exact F2| |exact F4|exact F5].
  by apply (chain_layout v (laid_out b f)).
Qed.

(** The tables of the running kernel, from those after [idt_init] and [paging_init]. *)
Lemma served_tables `{IsrAddresses} isr128 (i : intr unit) j :
  256 ≤ Z.of_nat (length (idt i)) → length (interrupt_handlers i) = 256%nat → 0 ≤ j < 256 →
  arr_get (idt i) j = Some (gate_of j) →
  arr_get (interrupt_handlers i) j = Some (if j =? 14 then Some page_fault_handler_fn else None) →
  arr_get (idt (served isr128 i)) j = Some (kernel_gate isr128 j) ∧
  arr_get (interrupt_handlers (served isr128 i)) j = Some (kernel_handler j).
Proof.
  intros L1 L2 Hj Hg Hh. unfold served, with_syscalls, with_handler, kernel_gate, kernel_handler. cbv zeta.
  cbn [idt interrupt_handlers]. split.
  - destruct (Z.eqb_spec j 0x80) as [->|]; [apply arr_get_set_eq; lia|]. by rewrite arr_get_set_ne by lia.
  - destruct (Z.eqb_spec j 0x80) as [->|]; [rewrite arr_get_set_eq by (rewrite !length_arr_set; lia); done|].
    rewrite arr_get_set_ne by lia.
    destruct (Z.eqb_spec j 33) as [->|]; [rewrite arr_get_set_eq by (rewrite !length_arr_set; lia); done|].
    rewrite arr_get_set_ne by lia.
    destruct (Z.eqb_spec j 32) as [->|]; [rewrite arr_get_set_eq by lia; done|].
    rewrite arr_get_set_ne by lia. rewrite Hh. by destruct (j =? 14).
Qed.

(** The kernel runs its shell: the program is in memory and user mode at its first instruction,
    descriptors, gates and handlers are those of the kernel, the lines of timer and keyboard
    are open, the idle process is the current one, and the keys [rest] are left. *)
Definition running {D} `{Pc D} `{GdtAddresses} `{IsrAddresses} (KP stack isr128 : Z) (n : nat) img h segs rest
    (s s' : machine_state D) : Prop :=
  program_runs [KP] (empty_space n) img h segs (Z.setbit (eflags (sy_load (ms_sys s))) 9) (sy_load (ms_sys s')) ∧
  segments (stack +w 8192) (ms_seg s') ∧
  (∀ i, 0 ≤ i < 256 → arr_get (idt (sy_intr (ms_sys s'))) i = Some (kernel_gate isr128 i) ∧
     arr_get (interrupt_handlers (sy_intr (ms_sys s'))) i = Some (kernel_handler i)) ∧
  idtr (sy_intr (ms_sys s')) = Some (mkIdtPtr 2047 idt_address) ∧
  (∃ c, calm rest c (machine (st_con (ms_env s'))) ∧ line_masked c 0 = false ∧ line_masked c 1 = false) ∧
  current_process (sy_procs (ms_sys s')) = Some 0.

(** ** Properties *)

(** The kernel boots: on a PC with nothing initialised, whose memory map offers enough pages
    in a row above the kernel, whose primary disk holds a FAT32 volume with an i386 executable
    SHELL in its root directory, and where someone types a user name and a password, [kmain]
    does not return: it brings up serial line, segments, interrupts, memory, paging and the
    heap, finds the disk, mounts and lists the volume, starts timer, keyboard, processes and
    system calls, takes the login, and user mode is at the entry point of SHELL.  Every byte of
    the program is then at its virtual address in the page tables in use with the permissions
    of its segment, the descriptors, the 256 gates and the 256 handlers are those of the
    kernel, the lines of timer and keyboard are open, the idle process is the current one, and
    the keys after the login are still to come. *)
Theorem kmain_boots {D} `{Pc D} `{CodeAddresses} `{GdtAddresses} `{IsrAddresses} polls fuel keys rounds isr128
    _end KP KT stack mmap_at entries mboot K a n ks v b cs u p rest img h segs (s : machine_state D) :
  (disk_delay < polls)%nat → (disk_delay < ready_timeout)%nat → (uart_delay < polls)%nat →
  cold ks v s → placed _end KP KT mmap_at entries mboot K a n →
  fat32_volume fuel v b cs (ld_fs (sy_load (ms_sys s))) →
  Z.of_nat (length ks) ≤ 255 → (255 ≤ keys)%nat → login rounds ks = Some (u, p, rest) →
  file_at fuel v (laid_out b (ld_fs (sy_load (ms_sys s)))) cs (str "SHELL") img → executable img h segs →
  2 * total_pages segs + 4 ≤ Z.of_nat n → 1024 * sectors_per_cluster b + 32 * eh_phnum h + 5424 ≤ 0x100000 →
  whalt (kmain polls fuel keys rounds isr128 _end KP KT stack mmap_at entries mboot) s
    (running KP stack isr128 n img h segs rest s).
Proof.
  intros Hp1 Hp2 Hp3 Hcold Hpl Hvol Hk1 Hk2 Hlog Hfile Hexe Hfr Hroom. unfold kmain. apply whalt_bind.
  apply (wp_first_half polls ks v _end KP KT stack mmap_at entries mboot K a n s _ Hp3 Hcold Hpl).
  intros s1 c Hb Hseg Hgates Hhandlers Hidtr [e He].
  assert (Hfs : ld_fs (sy_load (ms_sys s1)) = set_env e (ld_fs (sy_load (ms_sys s)))) by (rewrite He; done).
  assert (Hfl : eflags (sy_load (ms_sys s1)) = eflags (sy_load (ms_sys s))) by (rewrite He; done).
  apply whalt_zoom. eapply whalt_mono; [apply (whalt_kmain_rest polls fuel KP Hp1 Hp2 Hp3 keys rounds isr128
    (empty_space n) ks c v b cs u p rest img h segs (ms_sys s1) 0x100000 Hb)|].
  - rewrite Hfs. by apply volume_env.
  - done.
  - done.
  - exact Hlog.
  - rewrite Hfs. by apply file_env.
  - exact Hexe.
  - exact Hfr.
  - lia.
  - intros y (Y1 & Y2 & Y3 & Y4). rewrite Hfl in Y1. destruct (bt_tables _ _ _ _ _ _ _ Hb) as [L1 L2].
    split_and!; [exact Y1|exact Hseg| | |exact Y3|exact Y4].
    + intros i Hi. cbn [ms_sys]. rewrite Y2. apply served_tables; [exact L2|exact L1|done|by apply Hgates|by apply Hhandlers].
    + cbn [ms_sys]. rewrite Y2. exact Hidtr.
Qed.

(** C17. A disk without a shell: when the root directory of the volume has no SHELL, or the file is
    too short for a header, has the wrong magic number, machine or type or lacks its program
    headers, [kmain] does not enter user mode.  The last two lines on the serial line say so,
    and the kernel waits for interrupts with its memory, devices and volume in order, the 256
    gates and handlers in place, the lines of timer and keyboard open, and the idle process as
    the current one. *)
Theorem kmain_without_shell {D} `{Pc D} `{CodeAddresses} `{GdtAddresses} `{IsrAddresses} polls fuel keys rounds isr128
    _end KP KT stack mmap_at entries mboot K a n ks v b cs u p rest m (s : machine_state D) :
  (disk_delay < polls)%nat → (disk_delay < ready_timeout)%nat → (uart_delay < polls)%nat →
  cold ks v s → placed _end KP KT mmap_at entries mboot K a n →
  let f := ld_fs (sy_load (ms_sys s)) in
  fat32_volume fuel v b cs f →
  Z.of_nat (length ks) ≤ 255 → (255 ≤ keys)%nat → login rounds ks = Some (u, p, rest) →
  entry_of v (laid_out b f) cs (str "SHELL") = None ∨
    (∃ img, file_at fuel v (laid_out b f) cs (str "SHELL") img ∧ rejected m img) →
  0 ≤ m → 1024 * sectors_per_cluster b + m + 5424 ≤ 0x100000 →
  whalt (kmain polls fuel keys rounds isr128 _end KP KT stack mmap_at entries mboot) s (λ s',
    user_cpu (sy_load (ms_sys s')) = user_cpu (sy_load (ms_sys s)) ∧
    (∃ before, sent (ms_sys s') = before ++ logged "ELF: Failed to load shell" ++ logged "FlowOS: System ready.") ∧
    (∃ c r, up KP (empty_space n) rest c v (ms_sys s') [] r ∧ line_masked c 0 = false ∧ line_masked c 1 = false) ∧
    (∀ i, 0 ≤ i < 256 → arr_get (idt (sy_intr (ms_sys s'))) i = Some (kernel_gate isr128 i) ∧
       arr_get (interrupt_handlers (sy_intr (ms_sys s'))) i = Some (kernel_handler i)) ∧
    current_process (sy_procs (ms_sys s')) = Some 0).
Proof.
  intros Hp1 Hp2 Hp3 Hcold Hpl f Hvol Hk1 Hk2 Hlog Hbad Hm Hroom. unfold kmain. apply whalt_bind.
  apply (wp_first_half polls ks v _end KP KT stack mmap_at entries mboot K a n s _ Hp3 Hcold Hpl).
  intros s1 c Hb _ Hgates Hhandlers _ [e He].
  assert (Hfs : ld_fs (sy_load (ms_sys s1)) = set_env e f) by (rewrite He; done).
  apply whalt_zoom. eapply whalt_mono; [apply (whalt_kmain_stuck polls fuel KP Hp1 Hp2 Hp3 keys rounds isr128
    (empty_space n) ks c v b cs u p rest m (ms_sys s1) 0x100000 Hb); rewrite ?Hfs|]; [by apply volume_env|done..| |done|lia|].
  - destruct Hbad as [Hnone|(img & Hf & Hrej)]; [left; exact Hnone|right]. exists img. split; [by apply file_env|done].
  - intros y (Y1 & Y2 & Y3 & Y4 & Y5). destruct (bt_tables _ _ _ _ _ _ _ Hb) as [L1 L2]. cbn [ms_sys].
    split_and!; [by rewrite Y1, He|exact Y5|exact Y4| |exact Y3].
    intros i Hi. rewrite Y2. apply served_tables; [exact L2|exact L1|done|by apply Hgates|by apply Hhandlers].
Qed.

(** C37. A disk whose first sector is not that of a FAT32 volume: when one of the four sizes that
    [fat32_init] divides by or relies on is zero it gives up without a root, and the listing
    in [kmain] reads through the null pointer: the behaviour is undefined. *)
Theorem kmain_unmountable {D} `{Pc D} `{CodeAddresses} `{GdtAddresses} `{IsrAddresses} polls fuel keys rounds isr128
    _end KP KT stack mmap_at entries mboot K a n ks v (s : machine_state D) :
  (disk_delay < polls)%nat → (disk_delay < ready_timeout)%nat → (uart_delay < polls)%nat →
  cold ks v s → placed _end KP KT mmap_at entries mboot K a n →
  fs_root (ld_fs (sy_load (ms_sys s))) = 0 → nodes (ld_fs (sy_load (ms_sys s))) !! 0 = None → unmountable v →
  kmain polls fuel keys rounds isr128 _end KP KT stack mmap_at entries mboot s = Undef.
Proof.
  intros Hp1 Hp2 Hp3 Hcold Hpl Hnull Hnone Hun. unfold kmain. apply undef_after.
  apply (wp_first_half polls ks v _end KP KT stack mmap_at entries mboot K a n s _ Hp3 Hcold Hpl).
  intros s1 c Hb _ _ _ _ [e He]. apply undef_zoom, undef_bind.
  apply (undef_boot_storage polls fuel KP Hp1 Hp2 Hp3 (empty_space n) ks c v (ms_sys s1) 0x100000);
    [apply Hb|exact Hun|by rewrite He|by rewrite He|lia].
Qed.

(** ** The properties at concrete inputs

    The PC of Startup.v with 128 MB and some disk, everything else as after the load of the
    kernel. *)

Definition cold_pc (d : disk) : machine_state pc :=
  mkMs (mkSystem
    (mkLoader (mkFs no_bpb 0 0 0 0 ∅ ∅ (mkStorage (mkHeap ∅ ∅ 0 0 0 0 0)
      (mkVm pmm_static (replicate 256 None) ∅ 0 0 0 false ∅ []) no_drives 0 (console_demo (mkPc (chip_demo, chip_demo) uart_demo d typing_demo)))) 2 None)
    (mkIntr (replicate 256 (gate 0 0 0)) (mkIdtPtr 0 0) (replicate 256 None) None ∅ tt) timer_start
    (mkSched (replicate 256 zero_process) None None None 1 ∅ (mkCpu 0 0 0 0 0 0) tt)) seg_demo.

Definition cold_demo : machine_state pc := cold_pc program_disk.

(** A disk with nothing under way. *)
Definition fresh_disk (data : gmap Z (list Z)) : disk := mkDisk data 64 (replicate 256 0x2020) false 0 Idle 0 0 0 0 0xA0.

Lemma cold_pc_ok data :
  disk_wf (fresh_disk data) → cold keys_demo (volume_of 64 data) (cold_pc (fresh_disk data)).
Proof.
  intros Hd. split; [done|done|cbn; lia|split; split; cbn; lia|split; [exact typing_demo_inv|done]| |done|done|done|done|apply map_Forall_empty
    |exact zero_table|unfold is_u32; cbn; lia].
  cbv zeta. split; [exact Hd|]. split_and!; try done. cbn [d_id]. refine (bool_decide_unpack _ _). by vm_compute.
Qed.

Lemma cold_demo_ok : cold keys_demo program_volume cold_demo.
Proof. exact (cold_pc_ok _ program_disk_wf). Qed.

Lemma placed_demo : @placed addresses_demo stubs_demo 0x211000 0x110000 0x111000 boot_mmap 20 (demo_mboot 64) 20 0x211 6.
Proof.
  split; [unfold is_u32; cbn; lia|intros; unfold is_u32; cbn; lia|intros; unfold is_u32; cbn; lia|exact boot_image|exact boot_map
    |unfold NPAGES; lia|intros q Hq; apply boot_available; lia].
Qed.

Lemma cold_demo_volume : fat32_volume 3 program_volume boot_record [2] (ld_fs (sy_load (ms_sys cold_demo))).
Proof. exact (volume_env _ _ _ _ _ (ms_env cold_demo) system_demo_volume). Qed.

Lemma cold_demo_file :
  file_at 3 program_volume (laid_out boot_record (ld_fs (sy_load (ms_sys cold_demo)))) [2] (str "SHELL")
    (program_demo ++ replicate 512 66).
Proof. exact (file_env _ _ _ _ _ _ _ (ms_env cold_demo) system_demo_file). Qed.

(** The volume of Fat32.v has no SHELL. *)
Lemma cold_fat_ok : cold keys_demo disk_volume (cold_pc fat_disk).
Proof. exact (cold_pc_ok _ fat_disk_wf). Qed.

Lemma cold_fat_volume : fat32_volume 3 disk_volume boot_record [2] (ld_fs (sy_load (ms_sys (cold_pc fat_disk)))).
Proof.
  split; [done|]. split; [vm_compute; reflexivity|]. split.
  { split; [exact (storage_vol_wf _ _ _ _ _ _ storage_demo_ready)|].
    split_and!; [done|vm_compute; congruence|done|vm_compute; congruence|vm_compute; congruence]. }
  split_and!; [vm_compute; congruence|vm_compute; congruence| |cbn; lia].
  apply chain_last; [split_and!; vm_compute; congruence|vm_compute; congruence].
Qed.

Section witnesses.
#[local] Existing Instances codes_demo addresses_demo stubs_demo.

Lemma kmain_without_shell_witness :
  whalt (kmain 4 3 255 1 0x101000 0x211000 0x110000 0x111000 0x104000 boot_mmap 20 (demo_mboot 64)) (cold_pc fat_disk) (λ s',
    user_cpu (sy_load (ms_sys s')) = None ∧
    ∃ before, sent (ms_sys s') = before ++ logged "ELF: Failed to load shell" ++ logged "FlowOS: System ready.").
Proof.
  assert (Hnone : entry_of disk_volume (laid_out boot_record (ld_fs (sy_load (ms_sys (cold_pc fat_disk))))) [2] (str "SHELL") = None)
    by (vm_compute; reflexivity).
  assert (Hroom : 1024 * sectors_per_cluster boot_record + 0 + 5424 ≤ 0x100000) by (vm_compute; congruence).
  eapply whalt_mono; [exact (kmain_without_shell 4 3 255 1 0x101000 0x211000 0x110000 0x111000 0x104000 boot_mmap 20 (demo_mboot 64) 20
    0x211 6 keys_demo disk_volume boot_record [2] [97; 99] [100] [] 0 (cold_pc fat_disk)
    (le_n 4) timeout_demo (le_S 3 3 (le_n 3)) cold_fat_ok placed_demo cold_fat_volume ltac:(cbn; lia) (le_n 255) eq_refl
    (or_introl Hnone) (Z.le_refl 0) Hroom)|].
  intros s' (Hu & Hs & _). split; [exact Hu|exact Hs].
Defined.

(** A blank disk. *)
Lemma kmain_unmountable_witness :
  kmain 4 3 255 1 0x101000 0x211000 0x110000 0x111000 0x104000 boot_mmap 20 (demo_mboot 64) (cold_pc (fresh_disk ∅)) = Undef.
Proof.
  assert (Hun : unmountable (volume_of 64 ∅)).
  { split; [done|]. eexists. split; [vm_compute; reflexivity|]. by left. }
  exact (kmain_unmountable 4 3 255 1 0x101000 0x211000 0x110000 0x111000 0x104000 boot_mmap 20 (demo_mboot 64) 20
    0x211 6 keys_demo (volume_of 64 ∅) (cold_pc (fresh_disk ∅)) (le_n 4) timeout_demo (le_S 3 3 (le_n 3))
    (cold_pc_ok ∅ (map_Forall_empty _)) placed_demo eq_refl eq_refl Hun).
Defined.

Lemma kmain_boots_witness :
  whalt (kmain 4 3 255 1 0x101000 0x211000 0x110000 0x111000 0x104000 boot_mmap 20 (demo_mboot 64)) cold_demo (λ s',
    (uf_eip <$> user_cpu (sy_load (ms_sys s'))) = Some 0x40000000 ∧ peek (st_pages (ms_env s')) 0x40000001 = Some 0xFE ∧
    arr_get (interrupt_handlers (sy_intr (ms_sys s'))) 33 = Some (Some keyboard_callback_fn) ∧
    current_process (sy_procs (ms_sys s')) = Some 0).
Proof.
  assert (Hfr : 2 * total_pages [segment_demo] + 4 ≤ Z.of_nat 6) by (vm_compute; congruence).
  assert (Hroom : 1024 * sectors_per_cluster boot_record + 32 * eh_phnum header_demo + 5424 ≤ 0x100000)
    by (vm_compute; congruence).
  eapply whalt_mono; [exact (kmain_boots 4 3 255 1 0x101000 0x211000 0x110000 0x111000 0x104000 boot_mmap 20 (demo_mboot 64) 20
    0x211 6 keys_demo program_volume boot_record [2] [97; 99] [100] [] _ header_demo [segment_demo] cold_demo
    (le_n 4) timeout_demo (le_S 3 3 (le_n 3)) cold_demo_ok placed_demo cold_demo_volume ltac:(cbn; lia) (le_n 255) eq_refl
    cold_demo_file program_demo_executable Hfr Hroom)|].
  intros s' ((Hu & Hs & _) & _ & Ht & _ & _ & Hc). rewrite Hu. split; [reflexivity|].
  split; [refine (proj1 (Hs segment_demo 1 _ _)); [by apply list_elem_of_singleton|by vm_compute]|].
  split; [|exact Hc]. exact (proj2 (Ht 33 ltac:(lia))).
Defined.

End witnesses.
