(* ===== verification/Interrupts.v ===== *)
(** * Interrupts of the running kernel (isr.asm, idt.c, pic.c, timer.c, keyboard.c, paging.c)

    The processor finds the gate of a vector in the table of Idt.v, enters the stub of Stubs.v,
    the stub calls [isr_handler] or [irq_handler], and that the handler which the kernel has
    registered: the page fault handler, the timer's or the keyboard's.  The state is that of
    the started kernel (Startup.v) with the keyboard's buffer and the processor's registers.
    The theorems say what the interrupted program, the keyboard and the timer see of it. *)

From S2P Require Import Prelude Pic Idt Timer Keyboard Console Login Ata Gdt Pmm Paging Heap Boot Process Kernel.
From S2P Require Import Syscalls Vfs Fat32 Elf Storage Userland Startup Kmain Stubs.

(** The variables of the kernel, the buffer of keyboard.c, and the register with the address
    of a page fault. *)
Record world (D : Type) := mkWorld { w_sys : system D; w_kbd : kbd; w_cr2 : Z }.

Arguments mkWorld {D}.
Arguments w_sys {D}.
Arguments w_kbd {D}.
Arguments w_cr2 {D}.

Definition w_dev {D} (w : world D) : D := machine (st_con (sy_env (w_sys w))).

Definition set_w_sys {D} (s : system D) (w : world D) : world D := mkWorld s (w_kbd w) (w_cr2 w).

Definition set_mach {D} (k : D) (s : system D) : system D :=
  set_sy_env (set_st_con (set_machine k (st_con (sy_env s))) (sy_env s)) s.

Definition set_w_dev {D} (k : D) (w : world D) : world D := set_w_sys (set_mach k (w_sys w)) w.

Definition set_w_kbd {D} (k : kbd) (w : world D) : world D := mkWorld (w_sys w) k (w_cr2 w).

Definition set_pages {D} (v : vm) (s : system D) : system D :=
  let e := sy_env s in set_sy_env (mkStorage (st_heap e) v (st_drives e) (st_count e) (st_con e)) s.

Definition set_timer {D} (t : timer) (s : system D) : system D := mkSystem (sy_load s) (sy_intr s) t (sy_procs s).

(** Ports lead to the devices. *)
#[global] Instance world_device {D} `{Device D} : Device (world D) := {|
  dev_in port w := let '(v, k) := dev_in port (w_dev w) in (v, set_w_dev k w);
  dev_out port v w := set_w_dev (dev_out port v (w_dev w)) w
|}.

(** idt.c works on its tables and on all the rest. *)
Definition tables_view {D} (w : world D) : intr (world D) :=
  let i := sy_intr (w_sys w) in mkIntr (idt i) (idtp i) (interrupt_handlers i) (idtr i) (vga i) w.

Definition put_tables {D} (i : intr (world D)) (_ : world D) : world D := set_w_sys (set_tables (tables_of i) (w_sys (dev i))) (dev i).

Section dispatch.
Context {D : Type} `{Device D} `{CodeAddresses} `{IsrAddresses}.
Implicit Types w : world D.

(** The functions in the table of handlers.  [syscall_handler] belongs to vector 0x80, which is
    not raised here: it writes into the structure (Stubs.v has its theorem). *)
Definition handler_body (f : handler) (regs : registers) : M (world D) unit :=
  match f with
  | page_fault_handler_fn =>
      fault_addr ← gets w_cr2;
      zoom w_sys set_w_sys (zoom (λ s, st_pages (sy_env s)) set_pages (page_fault_handler fault_addr (err_code regs)))
  | timer_callback_fn => zoom w_sys set_w_sys (on_sched timer_callback)
  | keyboard_callback_fn =>
      zoom (λ w, (w_kbd w, w_dev w)) (λ p w, set_w_kbd p.1 (set_w_dev p.2 w)) keyboard_callback
  | syscall_handler_fn => undef
  end.

Definition run_handler (f : handler) (regs : registers) : M (intr (world D)) unit := on_dev (handler_body f regs).

(** [isr_common_stub] calls [isr_handler], [irq_common_stub] calls [irq_handler]. *)
Definition c_handler (n : Z) (regs : registers) : M (world D) registers :=
  zoom tables_view put_tables ((if n <? 32 then isr_handler else irq_handler) run_handler regs);;
  ret regs.

Definition stub_address (n : Z) : Z := if n <? 32 then isr_stub n else irq_stub (n - 32).

(** The stub at an address. *)
Definition stub_at (a : Z) : option Z := head (filter (λ n, stub_address n = a) (seqZ 0 48)).

(** Where the call of the stub returns to, what C leaves in the other registers, and the task
    state. *)
Context (return_address : Z) (scratch : registers → Z * Z * Z * Z) (tss : tss_entry_struct).

(** An interrupt or exception with vector [n]: through the gate to the stub and back. *)
Definition raise (n err : Z) : M (xstate (world D)) unit :=
  t ← gets (λ e, idt (sy_intr (w_sys (e_rest e))));
  g ← expect (arr_get t n);
  if negb (Z.testbit (Idt.gate_flags g) 7) then undef else
  k ← expect (stub_at (gate_base g));
  deliver (tss_ss0 tss) (tss_esp0 tss) (gate_base g) n err;;
  run (c_handler k) return_address scratch (stub_code k).

End dispatch.

(** ** Events from outside *)

(** What a key press and the interrupt controllers do before the processor hears of it: the scan
    code waits at the data port, and the line is in service. *)
Class Keyed (D : Type) `{PicDevice D} := {
  kb_code : D → Z;
  kb_press : Z → D → D;
  line_up : Z → D → D;
  kb_read d : (dev_in 0x60 d).1 = kb_code d;
  kb_eoi v d : kb_code (dev_out 0x20 v d) = kb_code d;
  kb_pressed sc d : kb_code (kb_press sc d) = sc ∧ chips (kb_press sc d) = chips d;
  kb_line l d : kb_code (line_up l d) = kb_code d ∧
    (0 ≤ l < 8 → chips (line_up l d) =
       (mkChip (c_imr (chips d).1) (Z.setbit (c_isr (chips d).1) l) (c_offset (chips d).1) (c_cascade (chips d).1)
          (c_mode (chips d).1) (c_expect (chips d).1), (chips d).2))
}.

Definition event_line (ev : event) : Z := match ev with Tick => 0 | Key _ => 1 end.

Definition signal {D} `{Keyed D} (ev : event) (d : D) : D :=
  line_up (event_line ev) (match ev with Tick => d | Key sc => kb_press sc d end).

Section events.
Context {D : Type} `{Keyed D} `{CodeAddresses} `{IsrAddresses}.
Context (return_address : Z) (scratch : registers → Z * Z * Z * Z) (tss : tss_entry_struct).

(** An event while the processor takes interrupts and the line is open; one that has to wait
    is not part of the model. *)
Definition arrival (ev : event) : M (xstate (world D)) unit :=
  e ← gets id;
  if Z.testbit (x_eflags (e_cpu e)) 9 && negb (line_masked (chips (w_dev (e_rest e))) (event_line ev)) then
    modify (λ e, mkXs (e_cpu e) (e_stack e) (set_w_dev (signal ev (w_dev (e_rest e))) (e_rest e)));;
    raise return_address scratch tss (32 + event_line ev) 0
  else undef.

Fixpoint arrivals (evs : list event) : M (xstate (world D)) unit :=
  match evs with
  | [] => skip
  | ev :: evs => arrival ev;; arrivals evs
  end.

End events.

(** ** Abstract view *)

(** The tables of the started kernel. *)
Definition tables_ok `{IsrAddresses} {D} (s : system D) : Prop :=
  ∀ i, 0 ≤ i < 48 → arr_get (idt (sy_intr s)) i = Some (gate_of i) ∧
                    arr_get (interrupt_handlers (sy_intr s)) i = Some (kernel_handler i).

(** The linker gives every stub an address of its own. *)
Definition stubs_apart `{IsrAddresses} : Prop :=
  (∀ i, 0 ≤ i < 48 → is_u32 (stub_address i)) ∧
  ∀ i j, 0 ≤ i < 48 → 0 ≤ j < 48 → stub_address i = stub_address j → i = j.

(** The processor, its segment registers 16 bits wide, with room on the stack for the frame. *)
Record cpu_ok (esp0 : Z) (c : x86) : Prop := mkCpuOk {
  ck_ds : 0 ≤ x_ds c < 65536;
  ck_cs : 0 ≤ x_cs c < 65536;
  ck_ss : 0 ≤ x_ss c < 65536;
  ck_stack : 128 ≤ frame_end esp0 c ≤ 4294967292;
  ck_esp : in_user c = false → 0 ≤ x_esp c
}.

(** The processor after an interrupt: as before it, but that es, fs and gs equal ds. *)
Definition returned (c : x86) : x86 :=
  let d := if in_user c then outer_data (x_ds c) else x_ds c in set_data d d d d c.

(** The interrupted program goes on with its registers; in kernel mode every word of its stack
    is as it was, and in user mode every word from the top of the kernel's stack on. *)
Definition undisturbed_program (esp0 : Z) (c : x86) (m : gmap Z Z) {S} (st : xstate S) : Prop :=
  e_cpu st = returned c ∧
  let top := if in_user c then esp0 else x_esp c in
  ∀ i, 0 ≤ i → ldw (e_stack st) (top + 4 * i) = ldw m (top + 4 * i).

(** ** Lemmas *)

Section machinery.
Context {D : Type} `{Device D} `{CodeAddresses} `{IsrAddresses}.
Context (return_address : Z) (scratch : registers → Z * Z * Z * Z) (tss : tss_entry_struct).

Lemma stub_found n : stubs_apart → 0 ≤ n < 48 → stub_at (stub_address n) = Some n.
Proof.
  intros [_ Hinj] Hn. unfold stub_at.
  assert (Hl : n ∈ filter (λ k, stub_address k = stub_address n) (seqZ 0 48))
    by (apply list_elem_of_filter; split; [done|]; apply elem_of_seqZ; lia).
  destruct (filter _ _) as [|x l] eqn:E; [by apply elem_of_nil in Hl|]. cbn. f_equal.
  assert (Hx : x ∈ filter (λ k, stub_address k = stub_address n) (seqZ 0 48)) by (rewrite E; by left).
  apply list_elem_of_filter in Hx as [Hx Hr%elem_of_seqZ]. apply Hinj; [lia|lia|done].
Qed.

Lemma gate_stub n : stubs_apart → 0 ≤ n < 48 → gate_base (gate_of n) = stub_address n ∧ Z.testbit (Idt.gate_flags (gate_of n)) 7 = true.
Proof.
  intros [Hu _] Hn. specialize (Hu n Hn). unfold gate_of, stub_address in *.
  destruct (Z.ltb_spec n 32); [split; [by apply gate_base_id|done]|].
  destruct (Z.ltb_spec n 48); [split; [by apply gate_base_id|done]|lia].
Qed.

(** With the tables of the kernel a vector leads to its own stub. *)
Lemma raise_run n err c m (w : world D) :
  tables_ok (w_sys w) → stubs_apart → 0 ≤ n < 48 →
  raise return_address scratch tss n err (mkXs c m w) =
  interrupt (c_handler n) return_address scratch (tss_ss0 tss) (tss_esp0 tss) (stub_address n) n err (mkXs c m w).
Proof.
  intros Ht Hs Hn. destruct (Ht n Hn) as [Hg _]. destruct (gate_stub n Hs Hn) as [Hb Hp].
  unfold raise, bind at 1, gets. cbn [e_rest]. unfold bind at 1. rewrite Hg. cbn [expect ret]. rewrite Hp. cbn [negb].
  unfold bind at 1. rewrite Hb, stub_found by done. reflexivity.
Qed.

Lemma outer_idem d : outer_data (outer_data d) = outer_data d.
Proof. unfold outer_data. repeat case_bool_decide; try done. Qed.

(** The structure as the stub built it restores the program. *)
Lemma resumed_seen esp0 n err c m : cpu_ok esp0 c → resumed c (seen esp0 n err c m) = returned c.
Proof.
  intros [Hd Hc Hs _ _]. unfold resumed, returned, seen, set_data. cbn.
  assert (Ed : (x_eax c - ax c + x_ds c) mod 65536 = x_ds c) by (unfold ax; mlia). rewrite Ed, (Z.mod_small (x_cs c)) by done.
  by destruct (in_user c); rewrite ?(Z.mod_small (x_ss c)) by done.
Qed.

Lemma returned_ok esp0 c : cpu_ok esp0 c → cpu_ok esp0 (returned c) ∧ in_user (returned c) = in_user c ∧ returned (returned c) = returned c.
Proof.
  intros [Hd Hc Hs Hf He]. split; [|split; [done|]].
  - split; try done. cbn. destruct (in_user c); [|done]. unfold outer_data. by case_bool_decide.
  - unfold returned. change (in_user (set_data ?a ?b ?x ?y c)) with (in_user c). cbn. by destruct (in_user c); rewrite ?outer_idem.
Qed.

(** An interrupt whose handler returns. *)
Lemma wp_raise n err c m (w w' : world D) (Q : unit → xstate (world D) → Prop) :
  tables_ok (w_sys w) → stubs_apart → 0 ≤ n < 48 → n ≠ 21 → n ≠ 29 → cpu_ok (tss_esp0 tss) c →
  (∀ regs, int_no regs = n → err_code regs = (if cpu_error n then err else 0) → c_handler n regs w = Ret regs w') →
  (∀ st, e_rest st = w' → undisturbed_program (tss_esp0 tss) c m st → Q tt st) →
  wp (raise return_address scratch tss n err) (mkXs c m w) Q.
Proof.
  intros Ht Hs Hn H21 H29 Hc Hh HQ. unfold wp. rewrite raise_run by done.
  assert (Herr : cpu_error n = bool_decide (n ∈ errcode_vectors)).
  { unfold cpu_error. apply bool_decide_ext. unfold errcode_vectors. rewrite !elem_of_cons. intuition lia. }
  pose proof (wp_interrupt (c_handler n) return_address scratch (tss_ss0 tss) (tss_esp0 tss) (stub_address n) n err c m w w'
    (seen (tss_esp0 tss) n err c m) Herr (ck_stack _ _ Hc) (ck_esp _ _ Hc) (Hh (seen (tss_esp0 tss) n err c m) eq_refl eq_refl) eq_refl) as Hw.
  unfold wp in Hw. destruct (interrupt _ _ _ _ _ _ _ _ _) as [[] st| | |]; [|done..].
  destruct Hw as (Hw & Hcpu & Hm & Hk). apply HQ; [done|]. split; [by rewrite Hcpu, resumed_seen|].
  unfold frame_end in Hm. cbn [seen rg_useresp rg_ss] in Hk. cbv zeta. intros i Hi. destruct (in_user c); [apply Hm; lia|].
  destruct (Hk eq_refl) as [K1 K2]. destruct (Z.eq_dec i 0) as [->|]; [by rewrite Z.add_0_r|].
  destruct (Z.eq_dec i 1) as [->|]; [done|]. apply Hm. lia.
Qed.

(** An exception whose handler stops the machine.  The stubs of the vectors 21 and 29 give the
    handler a structure which is one word off after the error code; its vector is right. *)
Lemma whalt_raise n err c m (w w' : world D) :
  tables_ok (w_sys w) → stubs_apart → 0 ≤ n < 48 → cpu_ok (tss_esp0 tss) c →
  (∀ regs, int_no regs = n → c_handler n regs w = Halt w') →
  whalt (raise return_address scratch tss n err) (mkXs c m w) (λ st, e_rest st = w').
Proof.
  intros Ht Hs Hn Hc Hh. unfold whalt. rewrite raise_run by done.
  destruct (cpu_error n) eqn:Hce; destruct (decide (n ∈ errcode_vectors)) as [Hin|Hin].
  3: { unfold cpu_error in Hce. apply bool_decide_eq_false in Hce. exfalso. apply Hce.
       unfold errcode_vectors in Hin. rewrite !elem_of_cons in *. intuition lia. }
  2: { exact (whalt_misaligned (c_handler n) return_address scratch (tss_ss0 tss) (tss_esp0 tss) (stub_address n) n err c m w w'
         Hce Hin (ck_stack _ _ Hc) (ck_esp _ _ Hc) Hh). }
  all: apply (whalt_interrupt (c_handler n) return_address scratch (tss_ss0 tss) (tss_esp0 tss) (stub_address n) n err c m w w');
    [rewrite Hce; symmetry; by (apply bool_decide_true || apply bool_decide_false)|apply Hc|apply Hc|by apply Hh].
Qed.

End machinery.

(** ** The handlers *)

Section handlers.
Context {D : Type} `{Keyed D} `{CodeAddresses} `{IsrAddresses}.
Implicit Types (w : world D) (s : system D).

(** The end of interrupt for a line of the first controller. *)
Definition acked w : world D := set_w_dev (dev_out 0x20 0x20 (w_dev w)) w.

Lemma put_tables_view w w' : sy_intr (w_sys w') = sy_intr (w_sys w) → put_tables (set_dev w' (tables_view w)) w = w'.
Proof.
  intros E. unfold put_tables, tables_view, set_dev, tables_of. cbn. rewrite <- E. destruct w' as [[l i t p] k a]. cbn. by destruct i as [? ? ? ? ? []].
Qed.

Lemma c_handler_irq n f regs w w' :
  32 ≤ n < 40 → int_no regs = n → arr_get (interrupt_handlers (sy_intr (w_sys w))) n = Some (Some f) →
  handler_body f regs (acked w) = Ret tt w' → sy_intr (w_sys w') = sy_intr (w_sys w) → c_handler n regs w = Ret regs w'.
Proof.
  intros Hn Hr Hh Hb Hi. unfold c_handler, bind at 1, zoom. destruct (Z.ltb_spec n 32); [lia|].
  unfold irq_handler, bind at 1, on_dev at 1, zoom. rewrite Hr. unfold pic_send_eoi. rewrite w8_small by lia.
  destruct (Z.leb_spec 8 (n - 32)); [lia|]. cbn [when]. unfold bind at 1, skip, ret at 1, outb, modify. change (w16 PIC1_COMMAND) with 0x20.
  change (w8 PIC_EOI) with 0x20. change (dev_out 0x20 0x20 (dev (tables_view w))) with (acked w).
  unfold bind at 1, gets. unfold bind at 1. change (interrupt_handlers (set_dev (acked w) (tables_view w))) with (interrupt_handlers (sy_intr (w_sys w))).
  rewrite Hh. cbn [expect ret]. unfold run_handler, on_dev, zoom. change (dev (set_dev (acked w) (tables_view w))) with (acked w).
  rewrite Hb. change (set_dev w' (set_dev (acked w) (tables_view w))) with (set_dev w' (tables_view w)). by rewrite put_tables_view.
Qed.

Lemma c_handler_isr n f regs w w' :
  n < 32 → int_no regs = n → arr_get (interrupt_handlers (sy_intr (w_sys w))) n = Some (Some f) →
  handler_body f regs w = Ret tt w' → sy_intr (w_sys w') = sy_intr (w_sys w) → c_handler n regs w = Ret regs w'.
Proof.
  intros Hn Hr Hh Hb Hi. unfold c_handler, bind at 1, zoom. destruct (Z.ltb_spec n 32); [|lia].
  unfold isr_handler, bind at 1, gets. unfold bind at 1. rewrite Hr. change (interrupt_handlers (tables_view w)) with (interrupt_handlers (sy_intr (w_sys w))).
  rewrite Hh. cbn [expect ret]. unfold run_handler, on_dev, zoom. change (dev (tables_view w)) with w. rewrite Hb. by rewrite put_tables_view.
Qed.

(** The timer's handler while preemption is off. *)
Lemma put_sched_timer t s : put_sched (with_timer (λ _, t) (sched_of s)) s = set_timer t s.
Proof.
  destruct s as [[f fl u] i t0 p]. destruct f as [? ? ? ? ? ? ? e]. destruct e, p as [? ? ? ? ? ? ? []]. done.
Qed.

Lemma timer_body regs w :
  preemption_enabled (sy_timer (w_sys w)) = false →
  handler_body timer_callback_fn regs w =
    Ret tt (set_w_sys (set_timer (set_ticks (ticks (sy_timer (w_sys w)) +w 1) (sy_timer (w_sys w))) (w_sys w)) w).
Proof.
  intros Hp. unfold handler_body, zoom, on_sched, zoom, timer_callback, in_timer, service, on_timer, zoom, bind.
  cbn [k_timer Process.env Process.set_env sched_of id]. rewrite timer_tick_off by done. cbn [when].
  unfold skip, ret. f_equal. f_equal. apply put_sched_timer.
Qed.

(** The keyboard's handler. *)
Lemma keyboard_body sc regs w :
  kb_code (w_dev w) = sc → 0 ≤ sc < 256 → kbd_wf (w_kbd w) →
  ∃ k d, handler_body keyboard_callback_fn regs w = Ret tt (set_w_kbd k (set_w_dev d w)) ∧
    kbd_wf k ∧ pending k = pending (w_kbd w) ++ accept (pending (w_kbd w)) sc ∧ chips d = chips (w_dev w).
Proof.
  intros Hc Hsc Hk. unfold handler_body, zoom at 1, keyboard_callback, bind, zoom, inb. cbn [fst snd].
  change (w16 KEYBOARD_DATA_PORT) with 0x60. pose proof (kb_read (w_dev w)) as Hr. pose proof (chips_dev_in 0x60 (w_dev w)) as Hch.
  destruct (dev_in 0x60 (w_dev w)) as [x d]. cbn [fst snd] in *. rewrite Hr, Hc, w8_small by lia.
  assert (Hw : wp (keyboard_input sc) (w_kbd w) (λ _ k, kbd_wf k ∧ pending k = pending (w_kbd w) ++ accept (pending (w_kbd w)) sc))
    by (apply wp_keyboard_input; [done|done|]; intros k Hk1 _ _ Hk2; by split).
  destruct (wp_ex _ _ _ Hw) as ([] & k & Erun & Hk1 & Hk2). rewrite Erun. exists k, d. by split_and!.
Qed.

End handlers.

(** ** Sequences of events *)

(** What an event adds to the characters waiting for a reader and to the ticks. *)
Definition arrive (q : list Z * Z) (ev : event) : list Z * Z :=
  match ev with
  | Tick => (q.1, q.2 +w 1)
  | Key sc => (q.1 ++ accept q.1 sc, q.2)
  end.

Definition event_ok (ev : event) : Prop := match ev with Tick => True | Key sc => 0 ≤ sc < 256 end.

Section sequences.
Context {D : Type} `{Keyed D} `{CodeAddresses} `{IsrAddresses}.
Context (return_address : Z) (scratch : registers → Z * Z * Z * Z) (tss : tss_entry_struct).
Implicit Types (w : world D) (c : x86).

(** The kernel between two interrupts, as [kmain] leaves it: its tables are in place, the lines
    of timer and keyboard are open with none in service, and preemption is off. *)
Record attentive w : Prop := mkAttentive {
  at_tables : tables_ok (w_sys w);
  at_kbd : kbd_wf (w_kbd w);
  at_timer : preemption_enabled (sy_timer (w_sys w)) = false;
  at_service : c_isr (chips (w_dev w)).1 = 0;
  at_lines : line_masked (chips (w_dev w)) 0 = false ∧ line_masked (chips (w_dev w)) 1 = false
}.

(** What is waiting: characters in the buffer, and the ticks so far. *)
Definition seen_by_kernel w : list Z * Z := (pending (w_kbd w), ticks (sy_timer (w_sys w))).

(** Everything but the buffer, the ticks and the state of the devices is as it was; so are the
    interrupt controllers. *)
Definition same_kernel w w' : Prop :=
  w_cr2 w' = w_cr2 w ∧ ∃ n k, w_sys w' = set_mach k (set_timer (set_ticks n (sy_timer (w_sys w))) (w_sys w)) ∧
    chips k = chips (w_dev w).

Lemma same_kernel_refl w : same_kernel w w.
Proof.
  split; [done|]. exists (ticks (sy_timer (w_sys w))), (w_dev w). split; [|done]. unfold w_dev. destruct w as [s k a]. cbn.
  destruct s as [[f fl u] i t p]. destruct f as [? ? ? ? ? ? ? e], e as [? ? ? ? con], con, t. done.
Qed.

Lemma same_kernel_trans w1 w2 w3 : same_kernel w1 w2 → same_kernel w2 w3 → same_kernel w1 w3.
Proof.
  intros [A1 (n1 & k1 & A2 & A3)] [B1 (n2 & k2 & B2 & B3)]. split; [congruence|]. exists n2, k2. split.
  - rewrite B2, A2. done.
  - rewrite B3. unfold w_dev. rewrite A2. exact A3.
Qed.

(** The controllers after the interrupt of a line: nothing is in service. *)
Lemma serviced ev (d : D) :
  c_isr (chips d).1 = 0 → chips (dev_out 0x20 0x20 (signal ev d)) = chips d.
Proof.
  intros Hs. unfold signal. set (d1 := match ev with Tick => d | Key sc => kb_press sc d end).
  assert (E1 : chips d1 = chips d) by (unfold d1; destruct ev as [|sc]; [done|apply (kb_pressed sc d)]).
  destruct (kb_line (event_line ev) d1) as [_ E2]. rewrite chips_dev_out, E2 by (destruct ev; cbn; lia). rewrite E1.
  destruct (chips d) as [[imr isr off cas mode ex] c2]. cbn in Hs. subst isr. by destruct ev.
Qed.

Lemma signal_code sc (d : D) : kb_code (dev_out 0x20 0x20 (signal (Key sc) d)) = sc.
Proof. rewrite kb_eoi. unfold signal. destruct (kb_line (event_line (Key sc)) (kb_press sc d)) as [-> _]. apply (kb_pressed sc d). Qed.

Lemma attentive_same w w' : attentive w → same_kernel w w' → kbd_wf (w_kbd w') → attentive w'.
Proof.
  intros [A1 A2 A3 A4 A5] [_ (n & k & E & Ek)] Hk. split; unfold w_dev in *; rewrite ?E; try done.
  - cbn. by rewrite Ek.
  - cbn. by rewrite Ek.
Qed.

(** One event. *)
Lemma wp_arrival ev c m w (Q : unit → xstate (world D) → Prop) :
  attentive w → stubs_apart → cpu_ok (tss_esp0 tss) c → Z.testbit (x_eflags c) 9 = true → event_ok ev →
  (∀ st, undisturbed_program (tss_esp0 tss) c m st → same_kernel w (e_rest st) → kbd_wf (w_kbd (e_rest st)) →
     seen_by_kernel (e_rest st) = arrive (seen_by_kernel w) ev → Q tt st) →
  wp (arrival return_address scratch tss ev) (mkXs c m w) Q.
Proof.
  intros [A1 A2 A3 A4 [A5 A6]] Hs Hc Hif Hev HQ. unfold arrival. wp_step. wp_step. cbn [id e_cpu e_rest].
  assert (Hl : line_masked (chips (w_dev w)) (event_line ev) = false) by (by destruct ev). rewrite Hif, Hl. cbn [andb negb].
  wp_step. wp_step. cbn [e_cpu e_stack e_rest]. set (w1 := set_w_dev (signal ev (w_dev w)) w).
  assert (Et : tables_ok (w_sys w1)) by exact A1. pose proof (serviced ev (w_dev w) A4) as Hch.
  assert (Hh : arr_get (interrupt_handlers (sy_intr (w_sys w1))) (32 + event_line ev) =
    Some (Some (match ev with Tick => timer_callback_fn | Key _ => keyboard_callback_fn end))).
  { destruct (Et (32 + event_line ev)) as [_ Eh]; [destruct ev; cbn; lia|]. rewrite Eh. by destruct ev. }
  destruct ev as [|sc].
  - eapply wp_raise; [exact Et|exact Hs|cbn; lia|done|done|exact Hc| |].
    + intros regs Hr _. eapply c_handler_irq; [cbn; lia|exact Hr|exact Hh|by apply timer_body|done].
    + intros st Hst Hp. apply HQ; [done|rewrite Hst|rewrite Hst; exact A2|rewrite Hst; done].
      split; [done|]. eexists _, _. split; [reflexivity|exact Hch].
  - destruct (keyboard_body sc (mkRegs 0 0 0 0 0 0 0 0 0 33 0 0 0 0 0 0) (acked w1)) as (k & d & Hb & K1 & K2 & K3);
      [apply signal_code|exact Hev|exact A2|].
    eapply wp_raise; [exact Et|exact Hs|cbn; lia|done|done|exact Hc| |].
    + intros regs Hr _. eapply c_handler_irq; [cbn; lia|exact Hr|exact Hh|exact Hb|done].
    + intros st Hst Hp. apply HQ; [done|rewrite Hst|rewrite Hst; exact K1|].
      * split; [done|]. exists (ticks (sy_timer (w_sys w))), d. split; [|by rewrite K3].
        cbn. destruct w as [[l i [? ? ? ?] p] kb a]. done.
      * rewrite Hst. unfold seen_by_kernel. cbn [arrive fst snd]. change (w_kbd (set_w_kbd k _)) with k. by rewrite K2.
Qed.

(** A sequence of them. *)
Lemma undisturbed_trans esp0 c m (st st' : xstate (world D)) :
  cpu_ok esp0 c → undisturbed_program esp0 c m st → undisturbed_program esp0 (e_cpu st) (e_stack st) st' →
  undisturbed_program esp0 c m st'.
Proof.
  intros Hc [E1 M1] [E2 M2]. destruct (returned_ok esp0 c Hc) as (_ & Hu & Hr). rewrite E1 in E2, M2. rewrite Hu in M2.
  split; [congruence|]. cbv zeta in *. intros i Hi. change (x_esp (returned c)) with (x_esp c) in M2. by rewrite M2, M1.
Qed.

Lemma wp_arrivals evs c m w :
  attentive w → stubs_apart → cpu_ok (tss_esp0 tss) c → Z.testbit (x_eflags c) 9 = true → Forall event_ok evs →
  wp (arrivals return_address scratch tss evs) (mkXs c m w) (λ _ st,
    match evs with [] => st = mkXs c m w | _ => undisturbed_program (tss_esp0 tss) c m st end ∧
    same_kernel w (e_rest st) ∧ kbd_wf (w_kbd (e_rest st)) ∧
    seen_by_kernel (e_rest st) = foldl arrive (seen_by_kernel w) evs).
Proof.
  intros Ha Hs Hc Hif Hev. revert c m w Ha Hc Hif. induction Hev as [|ev evs He _ IH]; intros c m w Ha Hc Hif; cbn [arrivals].
  { wp_step. split_and!; [done|apply same_kernel_refl|apply Ha|done]. }
  wp_step. apply wp_arrival; [done..|]. intros st Hp Hsame Hk Hq.
  destruct (returned_ok _ _ Hc) as (Hc' & _ & _). pose proof Hp as [Ecpu _].
  destruct st as [c1 m1 w1]. cbn [e_cpu e_rest e_stack] in *. subst c1.
  eapply wp_mono; [apply IH; [by eapply attentive_same|done|exact Hif]|].
  intros [] st' (P1 & P2 & P3 & P4). split_and!; [|by eapply same_kernel_trans|done|by rewrite P4, Hq].
  destruct evs as [|ev' evs]; [by subst st'|by eapply undisturbed_trans].
Qed.

End sequences.

(** The tables when [kmain] has started the shell. *)
Lemma running_tables {D} `{Pc D} `{GdtAddresses} `{IsrAddresses} KP stack isr128 n img h segs rest (s s' : machine_state D) :
  running KP stack isr128 n img h segs rest s s' → tables_ok (ms_sys s').
Proof.
  intros (_ & _ & Ht & _) i Hi. destruct (Ht i ltac:(lia)) as [-> ->]. unfold kernel_gate. by destruct (Z.eqb_spec i 0x80); [lia|].
Qed.

(** ** Properties *)

Section properties.
Context {D : Type} `{Keyed D} `{CodeAddresses} `{IsrAddresses}.
Context (return_address : Z) (scratch : registers → Z * Z * Z * Z) (tss : tss_entry_struct).
Implicit Types (w : world D) (c : x86).

(** C5. Interrupts are transparent: whatever keys are pressed and however often the timer ticks,
    every one is taken and answered in turn, and after the last the program goes on as if none
    had come, in user mode or in the kernel: its registers, flags and stack are as before, but
    that es, fs and gs have the value of ds.  The kernel has counted the ticks and has in its
    buffer, in order, the characters of the keys which it had room for; the interrupt
    controllers are as before, and so is the rest of the kernel. *)
Theorem interrupts_transparent evs c m w :
  attentive w → stubs_apart → cpu_ok (tss_esp0 tss) c → Z.testbit (x_eflags c) 9 = true → Forall event_ok evs → evs ≠ [] →
  wp (arrivals return_address scratch tss evs) (mkXs c m w) (λ _ st,
    undisturbed_program (tss_esp0 tss) c m st ∧ same_kernel w (e_rest st) ∧ attentive (e_rest st) ∧
    seen_by_kernel (e_rest st) = foldl arrive (seen_by_kernel w) evs).
Proof.
  intros Ha Hs Hc Hif Hev Hne. eapply wp_mono; [by apply wp_arrivals|]. intros [] st (P1 & P2 & P3 & P4).
  split_and!; [by destruct evs|done|by eapply attentive_same|done].
Qed.

(** C15. A page fault at an address without a page: the handler takes a free frame and maps it
    there, for the user if the user caused the fault; every other address is translated as
    before, and the program comes back to the instruction that faulted with its registers,
    flags and stack unchanged, but for es, fs and gs as above. *)
Theorem page_fault_retried pds err c m w p q :
  tables_ok (w_sys w) → stubs_apart → cpu_ok (tss_esp0 tss) c →
  let v := st_pages (sy_env (w_sys w)) in
  vm_inv pds v → is_u32 (w_cr2 w) → Z.testbit err 0 = false → Z.testbit err 3 = false →
  is_page p → is_page q → p ≠ q → page_used (vm_pmm v) p = false → page_used (vm_pmm v) q = false →
  wp (raise return_address scratch tss 14 err) (mkXs c m w) (λ _ st,
    undisturbed_program (tss_esp0 tss) c m st ∧ ∃ v', e_rest st = set_w_sys (set_pages v' (w_sys w)) w ∧ vm_inv pds v' ∧
    ∃ f, is_page f ∧ page_used (vm_pmm v) f = false ∧
    ∀ va, is_u32 va → walk (vm_mem v') (current_pd_phys v) va =
      if va / 4096 =? w_cr2 w / 4096 then Some (Z.lor (Z.lor (f * 4096) (if Z.testbit err 2 then 7 else 3)) PAGE_PRESENT)
      else walk (vm_mem v) (current_pd_phys v) va).
Proof.
  intros Ht Hs Hc v Hv Hcr E0 E3 Hp Hq Hpq Hfp Hfq.
  destruct (wp_ex _ _ _ (wp_demand_paging pds v (w_cr2 w) err p q Hv Hcr E0 E3 Hp Hq Hpq Hfp Hfq)) as ([] & v' & Erun & Hv' & Hf).
  eapply (wp_raise _ _ _ _ _ _ _ _ (set_w_sys (set_pages v' (w_sys w)) w)); [done|done|lia|done|done|done| |].
  - intros regs Hr He. eapply c_handler_isr; [lia|done|by apply (Ht 14)| |done].
    unfold handler_body, bind at 1, gets. change (cpu_error 14) with true in He. rewrite He. unfold zoom. fold v. by rewrite Erun.
  - intros st Hst Hu. split; [done|]. exists v'. by split_and!.
Qed.

(** C16. Any other exception of the processor, in the kernel or in a program, stops the machine
    with its number in decimal on the first line of a screen that is blank otherwise; nothing
    else of the kernel's state has changed.  That holds of the vectors 21 and 29 too, whose
    stubs shift the frame of the processor. *)
Theorem exception_stops n err c m w :
  tables_ok (w_sys w) → stubs_apart → cpu_ok (tss_esp0 tss) c → 0 ≤ n < 32 → n ≠ 14 →
  whalt (raise return_address scratch tss n err) (mkXs c m w) (λ st, ∃ text,
    e_rest st = set_w_sys (set_tables (set_vga text (sy_intr (w_sys w))) (w_sys w)) w ∧
    screen_text text 0 (20 + Z.of_nat (length (decimal n))) = str "CRITICAL EXCEPTION: " ++ decimal n ∧
    ∀ k, 20 + Z.of_nat (length (decimal n)) ≤ k < 2000 → text !! (0xB8000 + 2 * k) = Some 32).
Proof.
  intros Ht Hs Hc Hn H14. destruct (crash_screen_run n (tables_view w) Hn) as (text & Erun & Htext & Hblank).
  eapply whalt_mono; [eapply (whalt_raise _ _ _ _ _ _ _ _ (set_w_sys (set_tables (set_vga text (sy_intr (w_sys w))) (w_sys w)) w));
    [done|done|lia|done|]|].
  - intros regs Hr. unfold c_handler, bind at 1, zoom. destruct (Z.ltb_spec n 32); [|lia].
    unfold isr_handler, bind at 1, gets. unfold bind at 1. rewrite Hr. change (interrupt_handlers (tables_view w)) with (interrupt_handlers (sy_intr (w_sys w))).
    destruct (Ht n ltac:(lia)) as [_ ->]. unfold kernel_handler. destruct (Z.eqb_spec n 14), (Z.eqb_spec n 32), (Z.eqb_spec n 33), (Z.eqb_spec n 0x80); try lia.
    cbn [expect ret]. destruct (Z.ltb_spec n 32); [|lia]. cbn [when]. rewrite Erun. f_equal. destruct w as [[l i t pr] k a]. by destruct i as [? ? ? ? ? []].
  - intros st Hst. exists text. by split_and!.
Qed.

End properties.

(** ** The properties at concrete inputs

    Two controllers with the lines of timer and keyboard open, and a keyboard. *)

Record keyboard_pc := mkKpc { kp_chips : chip * chip; kp_code : Z }.

#[global] Instance kpc_device : Device keyboard_pc := {|
  dev_in port d := if port =? 0x60 then (kp_code d, d) else ((dev_in port (kp_chips d)).1, d);
  dev_out port v d := mkKpc (dev_out port v (kp_chips d)) (kp_code d)
|}.

#[global] Program Instance kpc_pic : PicDevice keyboard_pc := {| chips := kp_chips |}.
Next Obligation. done. Qed.
Next Obligation. intros port d. unfold dev_in, kpc_device. by destruct (port =? 0x60). Qed.
Next Obligation. done. Qed.
Next Obligation. done. Qed.

#[global] Program Instance kpc_keyed : Keyed keyboard_pc := {|
  kb_code := kp_code;
  kb_press sc d := mkKpc (kp_chips d) sc;
  line_up l d := let '(a, b) := kp_chips d in
    mkKpc (mkChip (c_imr a) (Z.setbit (c_isr a) l) (c_offset a) (c_cascade a) (c_mode a) (c_expect a), b) (kp_code d)
|}.
Next Obligation. done. Qed.
Next Obligation. done. Qed.
Next Obligation. done. Qed.
Next Obligation. intros l d. destruct d as [[a b] k]. by split. Qed.

Section witnesses.
#[local] Existing Instances codes_demo stubs_demo.

Definition system_keys : system keyboard_pc :=
  mkSystem (mkLoader (mkFs no_bpb 0 0 0 0 ∅ ∅ (mkStorage heap_four vm_demo no_drives 0
      (console_demo (mkKpc (mkChip 0xF8 0 32 4 1 0, mkChip 0xFF 0 40 2 1 0) 0)))) 2 None)
    (mkIntr (gate_of <$> seqZ 0 256) (mkIdtPtr 2047 0x102000) (kernel_handler <$> seqZ 0 256) (Some (mkIdtPtr 2047 0x102000)) ∅ tt) timer_start
    (mkSched (replicate 256 zero_process) None None None 1 ∅ (mkCpu 0 0 0 0 0 0) tt).

Definition world_keys (cr2 : Z) : world keyboard_pc := mkWorld system_keys kbd_empty cr2.

Definition tss_keys : tss_entry_struct :=
  mkTss 0 0x106000 0x10 0 0 0 0 0 0 0 0 0 0 0 0 0 0 0 0 0 0 0 0 0 0 0 0.

Lemma tables_keys : tables_ok system_keys.
Proof.
  intros i Hi. assert (E : ∀ {A} (f : Z → A), arr_get (f <$> seqZ 0 256) i = Some (f i)).
  { intros A f. unfold arr_get. destruct (Z.leb_spec 0 i); [|lia]. rewrite list_lookup_fmap, lookup_seqZ_lt by lia. cbn. f_equal. f_equal. lia. }
  split; apply E.
Qed.

Lemma stubs_keys : stubs_apart.
Proof.
  unfold stubs_apart, stub_address, is_u32. split; intros i; [|intros j]; intros.
  - cbn. destruct (Z.ltb_spec i 32); lia.
  - cbn in *. destruct (Z.ltb_spec i 32), (Z.ltb_spec j 32); lia.
Qed.

Lemma user_keys : cpu_ok (tss_esp0 tss_keys) user_demo.
Proof. split; cbn; try lia; try done. Qed.

Lemma attentive_keys : attentive (world_keys 0).
Proof. split; [exact tables_keys|by split_and!|done|done|by split]. Qed.

(** H is pressed, the timer ticks, H is released, I is pressed. *)
Lemma interrupts_transparent_witness :
  wp (arrivals 0x100200 (λ _, (0, 0, 0, 0)) tss_keys [Key 35; Tick; Key 163; Key 23]) (mkXs user_demo ∅ (world_keys 0)) (λ _ st,
    e_cpu st = user_demo ∧ pending (w_kbd (e_rest st)) = str "hi" ∧ ticks (sy_timer (w_sys (e_rest st))) = 1).
Proof.
  eapply wp_mono; [exact (interrupts_transparent 0x100200 (λ _, (0, 0, 0, 0)) tss_keys [Key 35; Tick; Key 163; Key 23] user_demo ∅ (world_keys 0)
    attentive_keys stubs_keys user_keys eq_refl ltac:(repeat constructor; lia) ltac:(done))|].
  intros [] st ([Hc _] & _ & _ & Hq). split; [exact Hc|]. unfold seen_by_kernel in Hq at 1. vm_compute foldl in Hq. by injection Hq.
Defined.

Lemma page_fault_retried_witness :
  wp (raise 0x100200 (λ _, (0, 0, 0, 0)) tss_keys 14 6) (mkXs user_demo ∅ (world_keys 0x40000123)) (λ _ st,
    e_cpu st = user_demo ∧ walk (vm_mem (st_pages (sy_env (w_sys (e_rest st))))) 0x1000 0x40000000 ≠ None).
Proof.
  eapply wp_mono; [exact (page_fault_retried 0x100200 (λ _, (0, 0, 0, 0)) tss_keys [0x1000] 6 user_demo ∅ (world_keys 0x40000123) 256 257
    tables_keys stubs_keys user_keys vm_demo_inv ltac:(unfold is_u32; cbn; lia) eq_refl eq_refl ltac:(done) ltac:(done) ltac:(done)
    (vm_demo_free 256 ltac:(done) eq_refl) (vm_demo_free 257 ltac:(done) eq_refl))|].
  intros [] st ([Hc _] & v' & Hst & _ & f & _ & _ & Hw). split; [exact Hc|]. rewrite Hst. cbn [st_pages sy_env w_sys set_w_sys].
  change (walk (vm_mem v') 0x1000 0x40000000 ≠ None). change 0x1000 with (current_pd_phys vm_demo). rewrite Hw by done. done.
Defined.

(** A privileged instruction in a program, and a control protection exception, one of the
    two vectors with the wrong stub. *)
Lemma exception_stops_witness :
  whalt (raise 0x100200 (λ _, (0, 0, 0, 0)) tss_keys 13 0) (mkXs user_demo ∅ (world_keys 0)) (λ st,
    screen_text (vga (sy_intr (w_sys (e_rest st)))) 0 22 = str "CRITICAL EXCEPTION: 13") ∧
  whalt (raise 0x100200 (λ _, (0, 0, 0, 0)) tss_keys 21 1) (mkXs user_demo ∅ (world_keys 0)) (λ st,
    screen_text (vga (sy_intr (w_sys (e_rest st)))) 0 22 = str "CRITICAL EXCEPTION: 21") ∧
  whalt (raise 0x100200 (λ _, (0, 0, 0, 0)) tss_keys 8 0) (mkXs user_demo ∅ (world_keys 0)) (λ st,
    screen_text (vga (sy_intr (w_sys (e_rest st)))) 0 21 = str "CRITICAL EXCEPTION: 8").
Proof.
  assert (H : ∀ n err, 0 ≤ n < 32 → n ≠ 14 → _) by exact (λ n err, exception_stops 0x100200 (λ _, (0, 0, 0, 0)) tss_keys n err user_demo ∅
    (world_keys 0) tables_keys stubs_keys user_keys).
  split_and!; (eapply whalt_mono; [apply H; lia|intros st (text & -> & Htext & _); exact Htext]).
Defined.

End witnesses.
