(* ===== verification/Entry.v ===== *)
(** * Entering the kernel and user mode (src/src/boot.asm, src/src/switch.asm)

    The code in assembly around the C functions, one statement per instruction, on the
    processor of Stubs.v: [_start], where the boot loader jumps to, and the two ways into user
    mode.  The theorems are that [_start] ends in the shell, by way of Kmain.v, and that
    [enter_usermode] leaves the processor with the registers which Elf.v says user mode
    starts with. *)

From S2P Require Import Prelude Pic Idt Timer Keyboard Console Login Ata Gdt Pmm Paging Heap Boot Process Kernel.
From S2P Require Import Syscalls Vfs Fat32 Elf Storage Userland Startup Kmain Stubs.

(** ** Instructions *)

Section instructions.
Context {S : Type}.

Definition cli : M (xstate S) unit :=
  on_cpu (λ c, set_flow (x_eip c) (Z.clearbit (x_eflags c) 9) (x_cs c) (x_ss c) c).

(** [mov eax, [esp + n]]. *)
Definition mov_eax_at (n : Z) : M (xstate S) unit :=
  e ← gets id; on_cpu (set_eax (ldw (e_stack e) (x_esp (e_cpu e) +w n))).

(** [push eax], [push ebx], [pushf], [pop eax]. *)
Definition push_reg (r : x86 → Z) : M (xstate S) unit := e ← gets id; push (r (e_cpu e)).

Definition pop_to_eax : M (xstate S) unit := v ← pop; on_cpu (set_eax v).

Definition or_eax (n : Z) : M (xstate S) unit := on_cpu (λ c, set_eax (Z.lor (x_eax c) n) c).

(** The data segments of user mode. *)
Definition user_data : M (xstate S) unit :=
  on_cpu (with_ax 0x23);;
  on_cpu (λ c, set_data (ax c) (x_es c) (x_fs c) (x_gs c) c);;
  on_cpu (λ c, set_data (x_ds c) (ax c) (x_fs c) (x_gs c) c);;
  on_cpu (λ c, set_data (x_ds c) (x_es c) (ax c) (x_gs c) c);;
  on_cpu (λ c, set_data (x_ds c) (x_es c) (x_fs c) (ax c) c).

(** Stack segment, stack pointer (in eax), flags with interrupts on, and code segment. *)
Definition push_user_frame : M (xstate S) unit :=
  push 0x23;;
  push_reg x_eax;;
  push_reg x_eflags;;
  pop_to_eax;;
  or_eax 0x200;;
  push_reg x_eax;;
  push 0x1B.

(** ** switch.asm *)

Definition enter_usermode_code : M (xstate S) unit :=
  cli;;
  user_data;;
  mov_eax_at 8;;
  push_user_frame;;
  mov_eax_at 20;;
  push_reg x_eax;;
  exec_iret.

Definition switch_to_user_mode (user_mode_entry_point : Z) : M (xstate S) unit :=
  cli;;
  user_data;;
  on_cpu (λ c, set_eax (x_esp c) c);;
  push_user_frame;;
  push user_mode_entry_point;;
  exec_iret.

End instructions.

(** ** boot.asm *)

Definition STACK_SIZE : Z := 0x4000.

(** The header the boot loader looks for: magic number, flags and checksum. *)
Definition multiboot_header : list Z := [0x1BADB002; 0x03; w32 (- (0x1BADB002 + 0x03))].

(** The flags of the processor are a field of the state that Elf.v works on. *)
Definition set_flags {D} (f : Z) (s : machine_state D) : machine_state D :=
  let l := sy_load (ms_sys s) in mkMs (set_load (mkLoader (ld_fs l) f (user_cpu l)) (ms_sys s)) (ms_seg s).

Section start.
Context {D : Type} `{WordDevice D} `{!Input D} `{CodeAddresses} `{GdtAddresses} `{IsrAddresses}.
Context (polls fuel keys rounds : nat) (isr128 _end kernel_pd kernel_page_tables kernel_interrupt_stack : Z).
Context (mmap_at : Z → multiboot_mmap_entry) (entries : nat).

(** Where the linker put the stack and the instruction after the call, and what the boot loader
    left at an address. *)
Context (stack_space return_address : Z) (mboot_at : Z → multiboot_info).

(** [kmain] finds its argument above the return address.  Should it return, the processor
    halts with interrupts off. *)
Definition _start : M (xstate (machine_state D)) unit :=
  on_cpu (set_esp (stack_space +w STACK_SIZE));;
  cli;;
  push_reg x_ebx;;
  push return_address;;
  e ← gets id;
  let mboot := mboot_at (ldw (e_stack e) (x_esp (e_cpu e) +w 4)) in
  zoom e_rest (λ s e, mkXs (e_cpu e) (e_stack e) s)
    (modify (set_flags (x_eflags (e_cpu e)));;
     kmain polls fuel keys rounds isr128 _end kernel_pd kernel_page_tables kernel_interrupt_stack mmap_at entries mboot);;
  _ ← pop;
  on_cpu (λ c, set_esp (x_esp c +w 4) c);;
  cli;;
  halt.

End start.

(** ** Abstract view *)

(** The registers of user mode in the processor. *)
Definition user_of (c : x86) : user_frame := mkUser (x_ds c) (x_ss c) (x_esp c) (x_eflags c) (x_cs c) (x_eip c).

(** Execution goes on in user mode with the frame [f]: the other segment registers equal ds, and
    the general registers but eax are those of [c]. *)
Definition enters (f : user_frame) (c c' : x86) : Prop :=
  user_of c' = f ∧ in_user c' = true ∧ x_es c' = x_ds c' ∧ x_fs c' = x_ds c' ∧ x_gs c' = x_ds c' ∧
  x_ecx c' = x_ecx c ∧ x_edx c' = x_edx c ∧ x_ebx c' = x_ebx c ∧ x_ebp c' = x_ebp c ∧ x_esi c' = x_esi c ∧ x_edi c' = x_edi c.

(** ** Lemmas *)

Section lemmas.
Context {S : Type}.
Implicit Types (c : x86) (m : gmap Z Z) (s : S).

Lemma wp_push_at v c m s (Q : unit → xstate S → Prop) :
  4 ≤ x_esp c < 4294967296 → Q tt (mkXs (set_esp (x_esp c - 4) c) (<[x_esp c - 4 := v]> m) s) → wp (push v) (mkXs c m s) Q.
Proof. intros Hsp HQ. unfold push, wp, modify. cbn [e_cpu e_stack e_rest]. by rewrite w32_small by (unfold is_u32; lia). Qed.

Lemma wp_pop_at c m s (Q : Z → xstate S → Prop) :
  0 ≤ x_esp c < 4294967292 → Q (ldw m (x_esp c)) (mkXs (set_esp (x_esp c + 4) c) m s) → wp pop (mkXs c m s) Q.
Proof.
  intros Hsp HQ. unfold pop, wp, bind, gets, on_cpu, modify, ret. cbn [e_cpu e_stack e_rest id]. by rewrite w32_small by (unfold is_u32; lia).
Qed.

Lemma wp_user_data c m s (Q : unit → xstate S → Prop) :
  Q tt (mkXs (set_data 0x23 0x23 0x23 0x23 (with_ax 0x23 c)) m s) → wp user_data (mkXs c m s) Q.
Proof.
  intros HQ. unfold user_data. repeat (first [apply wp_bind|apply wp_on_cpu]).
  assert (E : (x_eax c - x_eax c mod 65536 + 0x23) mod 65536 = 0x23) by mlia.
  revert HQ. unfold with_ax, set_eax, set_data, ax. cbn [e_cpu e_stack e_rest x_eax x_ecx x_edx x_ebx x_esp x_ebp x_esi x_edi x_eip x_eflags x_cs x_ss x_ds x_es x_fs x_gs].
  by rewrite E.
Qed.

(** Four words from [x_esp c] down, and eax has the flags. *)
Lemma wp_push_user_frame c m s (Q : unit → xstate S → Prop) :
  16 ≤ x_esp c < 4294967296 →
  (let f := Z.lor (x_eflags c) 0x200 in let sp := x_esp c in
   ∀ m', (∀ a, sp ≤ a → ldw m' a = ldw m a) → ldw m' (sp - 4) = 0x23 → ldw m' (sp - 8) = x_eax c →
     ldw m' (sp - 12) = f → ldw m' (sp - 16) = 0x1B → Q tt (mkXs (set_esp (sp - 16) (set_eax f c)) m' s)) →
  wp push_user_frame (mkXs c m s) Q.
Proof.
  intros Hsp HQ. cbv zeta in HQ. unfold push_user_frame, push_reg, pop_to_eax, or_eax.
  repeat (first [apply wp_push_at; [cbn; lia|]|apply wp_pop_at; [cbn; lia|]|apply wp_gets; cbn [id]|apply wp_bind|apply wp_on_cpu]).
  cbn [x_esp x_eax x_eflags e_cpu e_stack id set_esp set_eax].
  replace (x_esp c - 4 - 4 - 4 + 4) with (x_esp c - 8) by lia. replace (x_esp c - 4 - 4) with (x_esp c - 8) by lia.
  replace (x_esp c - 8 - 4 - 4) with (x_esp c - 16) by lia. replace (x_esp c - 8 - 4) with (x_esp c - 12) by lia.
  rewrite ldw_put, decide_True by done.
  apply HQ; [intros a Ha|..]; rewrite !ldw_put; by repeat (case_decide; [lia || done|]).
Qed.

(** The return to the frame of user mode. *)
Lemma wp_iret_user eip esp fl c m s (Q : unit → xstate S → Prop) :
  0 ≤ x_esp c < 4294967276 → ldw m (x_esp c) = eip → ldw m (x_esp c + 4) = 0x1B → ldw m (x_esp c + 8) = fl →
  ldw m (x_esp c + 12) = esp → ldw m (x_esp c + 16) = 0x23 → x_ds c = 0x23 → x_es c = 0x23 → x_fs c = 0x23 → x_gs c = 0x23 →
  Q tt (mkXs (set_flow eip fl 0x1B 0x23 (set_esp esp c)) m s) → wp exec_iret (mkXs c m s) Q.
Proof.
  intros Hsp E0 E1 E2 E3 E4 D1 D2 D3 D4 HQ. unfold exec_iret.
  do 3 (apply wp_bind, wp_pop_at; [cbn; lia|]). cbn [x_esp set_esp].
  replace (x_esp c + 4 + 4) with (x_esp c + 8) by lia. rewrite E0, E1, E2. change (0x1B mod 4 =? 3) with true. cbv iota.
  do 2 (apply wp_bind, wp_pop_at; [cbn; lia|]). cbn [x_esp set_esp].
  replace (x_esp c + 8 + 4 + 4) with (x_esp c + 16) by lia. replace (x_esp c + 8 + 4) with (x_esp c + 12) by lia. rewrite E3, E4.
  apply wp_on_cpu. destruct c. cbn in *. subst. exact HQ.
Qed.

(** The last push and the return, on the four words of [push_user_frame] below [sp]. *)
Lemma wp_into_user eip esp fl sp c m m' s (Q : unit → xstate S → Prop) :
  20 ≤ sp < 4294967276 → x_esp c = sp - 16 → x_ds c = 0x23 → x_es c = 0x23 → x_fs c = 0x23 → x_gs c = 0x23 →
  (∀ a, sp ≤ a → ldw m' a = ldw m a) → ldw m' (sp - 4) = 0x23 → ldw m' (sp - 8) = esp → ldw m' (sp - 12) = fl → ldw m' (sp - 16) = 0x1B →
  (∀ m2, (∀ a, sp ≤ a → ldw m2 a = ldw m a) → Q tt (mkXs (set_flow eip fl 0x1B 0x23 (set_esp esp c)) m2 s)) →
  wp (push eip) (mkXs c m' s) (λ _ st, wp exec_iret st Q).
Proof.
  intros Hsp Esp D1 D2 D3 D4 Hm M1 M2 M3 M4 HQ. apply wp_push_at; [lia|]. rewrite Esp.
  replace (sp - 16 - 4) with (sp - 20) by lia.
  assert (Hl : ∀ k a, k ≠ 0 → a = sp - 20 + k → ldw (<[sp - 20 := eip]> m') a = ldw m' a)
    by (intros k a Hk ->; rewrite ldw_put, decide_False; [done|lia]).
  apply (wp_iret_user eip esp fl); cbn [x_esp set_esp]; [lia|by rewrite ldw_put, decide_True| | | | |done..|].
  - rewrite (Hl 4) by lia. rewrite <- M4. f_equal. lia.
  - rewrite (Hl 8) by lia. rewrite <- M3. f_equal. lia.
  - rewrite (Hl 12) by lia. rewrite <- M2. f_equal. lia.
  - rewrite (Hl 16) by lia. rewrite <- M1. f_equal. lia.
  - apply HQ. intros a Ha. rewrite (Hl (a - sp + 20)) by lia. by apply Hm.
Qed.

End lemmas.

Lemma multiboot_checksum : w32 (foldr Z.add 0 multiboot_header) = 0.
Proof. reflexivity. Qed.

(** ** Properties *)

(** C18. [enter_usermode], instruction by instruction: called with an entry point and a stack, it
    returns from an interrupt that never was into user mode, with the frame which the loader
    of Elf.v records, the data segments of user mode, interrupts on, the other registers and
    the stack of the caller as they were, and nothing else of the kernel changed. *)
Theorem enter_usermode_frame {E} (l : loader E) c m :
  eflags l = x_eflags c → 20 ≤ x_esp c < 4294967276 →
  let entry := ldw m (x_esp c + 4) in let stack := ldw m (x_esp c + 8) in
  ∃ f l', enter_usermode entry stack l = Halt l' ∧ user_cpu l' = Some f ∧ Z.testbit (uf_eflags f) 9 = true ∧
  wp enter_usermode_code (mkXs c m l) (λ _ st,
    enters f c (e_cpu st) ∧ e_rest st = l ∧ ∀ a, x_esp c ≤ a → ldw (e_stack st) a = ldw m a).
Proof.
  intros Hfl Hsp entry stack. eexists _, _. split; [reflexivity|]. split; [reflexivity|]. cbn [ld_fs eflags uf_eflags]. split.
  { rewrite Z.lor_spec. by rewrite orb_true_r. }
  unfold enter_usermode_code. apply wp_bind, wp_on_cpu, wp_bind, wp_user_data, wp_bind. unfold mov_eax_at at 1.
  apply wp_bind, wp_gets, wp_on_cpu. cbn [id e_stack e_cpu]. change (x_esp (set_data _ _ _ _ _)) with (x_esp c).
  rewrite w32_small by (unfold is_u32; lia). fold stack. apply wp_bind, wp_push_user_frame; [cbn; lia|]. cbv zeta.
  cbn [x_esp x_eax x_eflags set_eax set_data with_ax set_flow]. intros m' Hm M1 M2 M3 M4.
  apply wp_bind. unfold mov_eax_at. apply wp_bind, wp_gets, wp_on_cpu. cbn [id e_stack e_cpu x_esp set_esp].
  rewrite w32_small by (unfold is_u32; lia). replace (x_esp c - 16 + 20) with (x_esp c + 4) by lia. rewrite Hm by lia. fold entry.
  unfold push_reg. apply wp_bind, wp_bind, wp_gets. cbn [id e_cpu x_eax set_eax].
  apply (wp_into_user entry stack (Z.lor (Z.clearbit (x_eflags c) 9) 0x200) (x_esp c) _ m); [done..|].
  intros m2 Hm2. split; [rewrite Hfl; by split_and!|by split].
Qed.

(** [switch_to_user_mode], which nothing calls: user mode on the stack of the caller. *)
Lemma wp_switch_to_user_mode {S} entry c m (s : S) :
  20 ≤ x_esp c < 4294967276 →
  wp (switch_to_user_mode entry) (mkXs c m s) (λ _ st,
    enters (mkUser 0x23 0x23 (x_esp c) (Z.lor (Z.clearbit (x_eflags c) 9) 0x200) 0x1B entry) c (e_cpu st) ∧ e_rest st = s ∧
    ∀ a, x_esp c ≤ a → ldw (e_stack st) a = ldw m a).
Proof.
  intros Hsp. unfold switch_to_user_mode. apply wp_bind, wp_on_cpu, wp_bind, wp_user_data, wp_bind, wp_on_cpu.
  apply wp_bind, wp_push_user_frame; [cbn; lia|]. cbv zeta.
  cbn [x_esp x_eax x_eflags set_eax set_data with_ax set_flow]. intros m' Hm M1 M2 M3 M4.
  apply wp_bind, (wp_into_user entry (x_esp c) (Z.lor (Z.clearbit (x_eflags c) 9) 0x200) (x_esp c) _ m); [done..|].
  intros m2 Hm2. split; [by split_and!|by split].
Qed.

Lemma cold_flags {D} `{Pc D} ks v f (s : machine_state D) : cold ks v s → cold ks v (set_flags f s).
Proof. intros Hc. by destruct Hc. Qed.

(** C4. The kernel boots from its first instruction: the boot loader jumps to [_start] with the
    address of its information in ebx, on a PC with nothing initialised, whose memory map
    offers enough pages in a row above the kernel, whose primary disk holds a FAT32 volume with
    an i386 executable SHELL in its root directory, and where someone types a user name and a
    password.  Then [kmain] is called on a stack of its own with interrupts off; it brings up
    serial line, segments, interrupts, memory, paging and the heap, finds the disk, mounts and
    lists the volume, starts timer, keyboard, processes and system calls, takes the login, and
    user mode is at the entry point of SHELL.  Every byte of the program is then at its virtual
    address in the page tables in use with the permissions of its segment, the descriptors, the
    256 gates and the 256 handlers are those of the kernel, the lines of timer and keyboard are
    open, the idle process is the current one, and the keys after the login are still to
    come. *)
Theorem start_boots {D} `{Pc D} `{CodeAddresses} `{GdtAddresses} `{IsrAddresses} polls fuel keys rounds isr128
    _end KP KT stack mmap_at entries stack_space return_address mboot_at K a n ks v b cs u p rest img h segs
    cpu m (s : machine_state D) :
  (disk_delay < polls)%nat → (disk_delay < ready_timeout)%nat → (uart_delay < polls)%nat →
  0 ≤ stack_space < 0xFFFFC000 →
  cold ks v s → placed _end KP KT mmap_at entries (mboot_at (x_ebx cpu)) K a n →
  fat32_volume fuel v b cs (ld_fs (sy_load (ms_sys s))) →
  Z.of_nat (length ks) ≤ 255 → (255 ≤ keys)%nat → login rounds ks = Some (u, p, rest) →
  file_at fuel v (laid_out b (ld_fs (sy_load (ms_sys s)))) cs (str "SHELL") img → executable img h segs →
  2 * total_pages segs + 4 ≤ Z.of_nat n → 1024 * sectors_per_cluster b + 32 * eh_phnum h + 5424 ≤ 0x100000 →
  whalt (_start polls fuel keys rounds isr128 _end KP KT stack mmap_at entries stack_space return_address mboot_at) (mkXs cpu m s)
    (λ st, running KP stack isr128 n img h segs rest (set_flags (Z.clearbit (x_eflags cpu) 9) s) (e_rest st)).
Proof.
  intros Hp1 Hp2 Hp3 Hst Hcold Hpl Hvol Hk1 Hk2 Hlog Hfile Hexe Hfr Hroom. unfold _start, STACK_SIZE.
  apply whalt_bind, wp_on_cpu, whalt_bind, wp_on_cpu, whalt_bind. rewrite w32_small by (unfold is_u32; lia).
  unfold push_reg. apply wp_bind, wp_gets, wp_push_at; [cbn; lia|].
  apply whalt_bind, wp_push_at; [cbn; lia|]. apply whalt_bind, wp_gets. cbv zeta. cbn [id e_cpu e_stack x_esp set_esp].
  rewrite w32_small by (unfold is_u32; cbn; lia). cbn [x_esp set_flow set_esp x_ebx x_eflags].
  rewrite ldw_put, decide_False, ldw_put, decide_True by lia.
  apply whalt_halted, whalt_zoom, whalt_bind, wp_modify.
  refine (kmain_boots polls fuel keys rounds isr128 _end KP KT stack mmap_at entries (mboot_at (x_ebx cpu)) K a n ks v b cs u p rest
    img h segs (set_flags (Z.clearbit (x_eflags cpu) 9) s) Hp1 Hp2 Hp3 (cold_flags ks v _ s Hcold) Hpl Hvol Hk1 Hk2 Hlog Hfile Hexe Hfr Hroom).
Qed.

(** ** The properties at concrete inputs *)

Definition boot_processor : x86 := mkX86 0x2BADB002 0 0 0x9500 0 0 0 0 0x100000 0x46 0x08 0x10 0x10 0x10 0x10 0x10.

Lemma enter_usermode_frame_witness :
  wp enter_usermode_code (mkXs (set_esp 0x106000 boot_processor) (<[0x106004 := 0x40000000]> (<[0x106008 := 0xC0000000]> ∅))
      (mkLoader (ld_fs loader_demo) 0x46 None))
    (λ _ st, x_eip (e_cpu st) = 0x40000000 ∧ x_esp (e_cpu st) = 0xC0000000 ∧ in_user (e_cpu st) = true).
Proof.
  destruct (enter_usermode_frame (mkLoader (ld_fs loader_demo) 0x46 None) (set_esp 0x106000 boot_processor)
    (<[0x106004 := 0x40000000]> (<[0x106008 := 0xC0000000]> ∅)) eq_refl ltac:(cbn; lia)) as (f & l' & Hrun & Hf & _ & Hw).
  eapply wp_mono; [exact Hw|]. intros [] st ((Hu & Hi & _) & _). injection Hrun as <-. injection Hf as <-.
  split; [exact (f_equal uf_eip Hu)|]. split; [exact (f_equal uf_esp Hu)|exact Hi].
Defined.

Section witnesses.
#[local] Existing Instances codes_demo addresses_demo stubs_demo.

Lemma start_boots_witness :
  whalt (_start 4 3 255 1 0x101000 0x211000 0x110000 0x111000 0x104000 boot_mmap 20 0x108000 0x100020 (λ _, demo_mboot 64))
    (mkXs boot_processor ∅ cold_demo) (λ st,
    (uf_eip <$> user_cpu (sy_load (ms_sys (e_rest st)))) = Some 0x40000000 ∧ peek (st_pages (ms_env (e_rest st))) 0x40000001 = Some 0xFE ∧
    (uf_eflags <$> user_cpu (sy_load (ms_sys (e_rest st)))) = Some 0x246).
Proof.
  assert (Hfr : 2 * total_pages [segment_demo] + 4 ≤ Z.of_nat 6) by (vm_compute; congruence).
  assert (Hroom : 1024 * sectors_per_cluster boot_record + 32 * eh_phnum header_demo + 5424 ≤ 0x100000)
    by (vm_compute; congruence).
  eapply whalt_mono; [exact (start_boots 4 3 255 1 0x101000 0x211000 0x110000 0x111000 0x104000 boot_mmap 20 0x108000 0x100020
    (λ _, demo_mboot 64) 20 0x211 6 keys_demo program_volume boot_record [2] [97; 99] [100] [] _ header_demo [segment_demo]
    boot_processor ∅ cold_demo (le_n 4) timeout_demo (le_S 3 3 (le_n 3)) ltac:(lia) cold_demo_ok placed_demo cold_demo_volume
    ltac:(cbn; lia) (le_n 255) eq_refl cold_demo_file program_demo_executable Hfr Hroom)|].
  intros st ((Hu & Hs & _) & _). rewrite Hu. split; [reflexivity|].
  split; [refine (proj1 (Hs segment_demo 1 _ _)); [by apply list_elem_of_singleton|by vm_compute]|reflexivity].
Defined.

End witnesses.
